(* ===== verification/_CoqProject ===== *)
-Q . S2P
Prelude.v
Refine.v
Memory.v
Chain.v
CString.v
CPtr.v
Bitmap.v
Phys.v
FrameSpec.v
Paging.v
Kheap.v
MemTypes.v
Vmm.v
Kmalloc.v
KList.v
ListSpec.v
Initrd.v
InitrdGen.v
Vfs.v
Entry.v
File.v
OpenFile.v
Stream.v
Gdt.v
Irq.v
Exceptions.v
Device.v
Vga.v
Stdio.v
Logger.v
PortIO.v
Ata.v
DiskSpec.v
Elf.v
AddrSpace.v
Task.v
Program.v
Keyboard.v
Boot.v
