(* ===== verification/Prelude.v ===== *)
(** * MikeOS: a verification library

    MikeOS is a small 32-bit x86 kernel in C.  This library models the kernel
    ([src/kernel], [src/libc], [src/include]) and the generator of its root
    file system ([src/rootfs/initrd_gen.py]) as executable definitions, one
    for each function of the source, and proves what they do.

    ** How the program is put together

    The boot code enables paging ([early_paging_manager.c]) and calls [kmain]
    ([entry.c]), which initialises the parts in turn: the physical memory
    manager, the segment descriptors, the kernel heap, the text screen, the
    interrupt table and its handlers, the keyboard, the disks, the virtual
    file system with the initial ramdisk as its root, the system calls and
    user mode.  Memory comes in layers: frames of physical memory
    ([physical_mm_manager.c]), pages of the kernel heap ([kheap.c]), blocks
    ([kmalloc.c]); lists, mount points, files, address spaces and tasks are
    structures in such blocks.  A program is loaded by [load_task], which
    allocates a task and an address space, reads an ELF file through the file
    system, maps its segments with [mmap] and enters user mode.

    ** Conventions

    Unsigned integers are [Z] at their width, wrapped by [u8], [u16], [u32];
    signed overflow, a store outside of an object or to an unmapped address is
    [Fault]; [kernel_panic] is [Panic].  Computations are in the monad [M] below
    over the state they use; [zoom] runs one on a part of a larger state.
    Structures live in bytes at the offsets the compiler gives them, over the
    interface [Memory.ByteStore]: aliasing and overlapping stores are in the
    model.  Where the code uses the value of a function that ends without a
    return statement, the function's result is [None] and the value used is a
    parameter ([no_return]).

    A loop that is not bounded by a constant takes fuel, and runs into [Timeout] without it.  The
    theorems ask for the fuel that is enough (the length of a list or string
    and one more; the number of pages; for a device the number of times it
    reports to be busy), and conclude that the function returns.

    ** The files, and the parts of the source

    Foundations:
    - [Prelude]: integers, error codes and page macros ([common.h],
      [error_codes.h]), the monad, tactics.
    - [Memory]: bytes, words, [libc/memory.c] over any byte store.
    - [Chain]: linked structures of two words, shared by the allocator's free
      list and the lists.
    - [CString]: [libc/string.c].  [CPtr]: pointers to memory or to a local array.
    - [PortIO]: [port_io.h], an interface to hardware.

    Memory management:
    - [Bitmap]: [bitmap_manipulation.c].  [Phys]: [physical_mm_manager.c];
      [FrameSpec]: its specification, a set of frames.
    - [Paging]: [paging.h], [early_paging_manager.c], the processor's walk.
    - [Kheap]: [kheap.c].  [Kmalloc]: [kmalloc.c], over an interface to pages
      that [Kheap] implements.  [MemTypes]: a typing invariant of the three.
    - [Vmm]: [virtual_mm_manager.c] on the recursive window.  [AddrSpace]: the
      address space objects of the same file.

    Data structures and files:
    - [Refine]: data refinement, a relation between operations on the state and
      a specification on abstract values, for any client of the operations.
    - [KList]: [data_structures/list.c] over an interface to an allocator.
      [ListSpec]: its specification, sequences.
    - [Initrd]: [initrd.c].  [InitrdGen]: [initrd_gen.py].  [Vfs]: [vfs.c].
      [File]: [file.c].  [OpenFile]: [file_open] with all it calls, down to the
      image.  [Stream]: the specification of open files, streams.  [Entry]: the
      mount of the ramdisk in [entry.c].

    Devices and the processor:
    - [Gdt]: [gdt.c], [userspace_manager.c].  [Irq]: [idt.c], [irq.c], with the
      interrupt controllers.  [Exceptions]: [exceptions.c], with the processor's
      delivery of exceptions.  [Device]: [device.c].
    - [Vga]: [vga.c].  [Stdio]: [stdio.c].  [Logger]: [logger.c], [panic.c].
    - [Ata]: [ata.c], with the disks of a cable.  [DiskSpec]: its specification,
      the bytes of a disk.  [Keyboard]:
      [keyboard_driver.c], [syscall.c], and [kmain]'s part between them.

    Programs:
    - [Elf]: [elf_loader.c].  [Task]: [task.c].  [Program]: what the bytes of an
      executable mean, and both on a program in the ramdisk's image.

    The whole:
    - [Boot]: [kmain] of [entry.c], over the state of all the parts.  Memory is
      the low megabytes, where the boot loader's information and at first the
      screen are, beside the kernel's own data and heap; the machine adds the
      screen's and interrupt controllers' state, the segments and whatever
      hardware is behind the disks' ports.

    ** What is proved

    The boot: from the state the boot code leaves, [kmain] returns with every
    part in its place ([Boot.kmain_spec]), afterwards every key typed is shown
    ([Boot.boot_and_type]), and no exception of the processor is handled
    ([Boot.exceptions_unhandled]).

    Memory: after its start the physical memory manager has exactly the free
    pages of the memory map ([Phys.phy_memory_manager_init_spec]); physical pages are handed out once and only if they were free
    ([Phys.held_pages_distinct]), the manager being a set of frames to every
    client ([FrameSpec.manager_is_frame_set]), never
    those of the kernel ([Phys.boot_pages_never_allocated]); the boot directory
    maps what it means to ([Paging.paging_init_maps]); a heap page is mapped to
    a fresh frame ([Kheap.alloc_kheap_page_spec]), a physical range to a run of
    pages ([Kheap.map_physical_address_to_kheap_spec]); [kmalloc] is first fit
    ([Kmalloc.kmalloc_first_fit]), is refined down to the page tables
    ([Kmalloc.kernel_kmalloc_first]) and undoes [kfree]
    ([Kmalloc.kfree_kmalloc_roundtrip]); [mmap] maps its range and nothing else
    ([Vmm.mmap_spec]); address spaces are built as they should be
    ([AddrSpace.alloc_virtual_address_space_spec]); the managers' data stay
    well-typed ([MemTypes.managers_well_typed]).

    Files: lists are sequences to every client ([ListSpec.list_is_sequence]);
    [initrd_open], [file_read] and [vfs_open] find and read files ([Initrd.initrd_open_spec],
    [File.file_read_initrd], [Vfs.vfs_open_root]); the generator makes images
    ([InitrdGen.create_initrd_total]), and put together each file of an image
    can be opened by its path, read back and closed
    ([OpenFile.file_open_by_path], [OpenFile.created_files_read_back]), and to
    every client it is the stream of its contents ([Stream.file_is_stream],
    [Stream.file_session_spec]); the mode
    of [file_open] is decided by two characters ([OpenFile.file_open_modes]);
    the ramdisk is mounted at boot ([Entry.kmain_mount_spec]).

    Devices: the screen shows what is printed and is not left
    ([Vga.vga_putc_spec]); [printf] implements its language of formats and
    numbers read back ([Stdio.printf_formats], [Stdio.printi_roundtrip]); sectors
    are read and written ([Ata.ata_read_spec], [Ata.ata_write_spec],
    [Ata.ata_transfer_roundtrip]), a disk being its bytes to every client
    ([DiskSpec.disk_is_bytes]), and looking for disks ends whatever the ports
    answer ([Ata.ata_init_ends]); interrupts are routed as the
    table has it ([Irq.irq_routing]).

    Programs: [load_elf] puts the segments where the file has them
    ([Elf.load_elf_spec]) and refuses other files ([Elf.load_elf_refuses]);
    [load_task] enters the program in its own address space
    ([Task.load_task_spec]).  With the program in the image, the loader finds it
    by its path and leaves memory as its bytes ask for
    ([Program.load_elf_from_image]), and user mode begins in it
    ([Program.load_task_from_image]).

    Some theorems state where the code falls short of its purpose, with the
    exact consequence: [KList.kernel_allocator_unlawful],
    [Task.alloc_task_name_overflow], [Ata.ata_count_truncated],
    [Elf.load_elf_ignores_failure], [OpenFile.packed_rb_opens_for_update], and parts of others.  What [kmain_spec] asks
    for shows the same: a module whose number of pages leaves 1 to 4 modulo 8,
    and that the result [initialize_list] does not return reads as true; the
    boot depends on values C leaves open otherwise.

    ** Interfaces

    [ByteStore] (memory), [PageSource] (pages of the heap), [Allocator] with
    [AllocatorLaws] ([kmalloc]), [FsOps] (a file system's functions),
    [Console] ([vga_print]), [PortIO], [HeapPages], [UserMemory] ([mmap])
    and [Cpu].  Clients are proved against the interface.  [Kmalloc.kspace_pages]
    implements [PageSource] with [Kheap]; the text screen implements [Console];
    the ramdisk implements [FsOps].  The kernel's own allocator does not keep
    [AllocatorLaws] in every history: a freed block's header may lie inside its neighbour
    ([KList.kernel_allocator_unlawful]); what is proved from the laws holds
    for the code as long as its allocator behaves.  Where several blocks are
    allocated in turn, [KList.memory_for] says that they can be, whatever the
    program does with its own memory in between.

    ** What is not modelled

    Assembly files: the entry point, the interrupt stubs, the port
    instructions and the jump to user mode are parameters or interfaces.
    [pit.c] and [devices.c] have no code, and
    [fat32.c] is excluded from compilation by [#if 0].  Segment registers, the
    interrupt flag and the translation buffer have no effect on the modelled
    state.  Log messages of the memory managers, the disk driver and the loader are left
    out; those of [kmain] and the keyboard are not.  The instruction that halts
    the processor at the end of [kmain] is where the model ends.  [register_ramdisk] is called and defined nowhere:
    it is a parameter.  Build files contribute the linker's symbols, which are
    parameters too. *)

From stdpp Require Export base tactics numbers list gmap.
From Stdlib Require Export ZArith Lia.

#[global] Open Scope Z_scope.

(** ** Machine integers

    The kernel is compiled with [gcc -m32]: [unsigned long], [uint32_t] and
    pointers have 32 bits, [int] is a signed 32-bit integer, [char] is a
    signed byte.  A value of an unsigned type is kept as its canonical
    representative in [Z]; the wrap-around is written out with [u8], [u16],
    [u32]; a conversion to a signed type is [i8] or [i32]. *)

Definition u8 (z : Z) : Z := z mod 2 ^ 8.
Definition u16 (z : Z) : Z := z mod 2 ^ 16.
Definition u32 (z : Z) : Z := z mod 2 ^ 32.
Definition u64 (z : Z) : Z := z mod 2 ^ 64.
Definition i8 (z : Z) : Z := (z + 2 ^ 7) mod 2 ^ 8 - 2 ^ 7.
Definition i32 (z : Z) : Z := (z + 2 ^ 31) mod 2 ^ 32 - 2 ^ 31.

Definition INT_MAX : Z := 2 ^ 31 - 1.
Definition NULL : Z := 0.

(** [include/error_codes.h] *)
Inductive error_code :=
  | SUCCESS
  | FAILURE
  | NO_SUCH_FILE
  | NO_SUCH_DIRECTORY
  | INVALID_ARGUMENT
  | NOT_ENOUGH_RAM.

#[export] Instance error_code_eq_dec : EqDecision error_code.
Proof. solve_decision. Defined.

(** An enumerator used as an [int], and back (the kernel does both). *)
Definition int_of_error_code (e : error_code) : Z :=
  match e with
  | SUCCESS => 0
  | FAILURE => 1
  | NO_SUCH_FILE => 2
  | NO_SUCH_DIRECTORY => 3
  | INVALID_ARGUMENT => 4
  | NOT_ENOUGH_RAM => 5
  end.

(** The conversion of the result of a comparison ([0] or [1]) to the enum. *)
Definition error_code_of_bool (b : bool) : error_code :=
  if b then FAILURE else SUCCESS.

(** ** Page constants and macros of [include/common.h] *)

Definition PAGE_SIZE : Z := 4096.
Definition KERNEL_VIRTUAL_OFFSET : Z := 0xC0000000.

(** [PAGE_BOUNDARY(val)]: [(unsigned long)val & ~(PAGE_SIZE - 1)] *)
Definition PAGE_BOUNDARY (val : Z) : Z :=
  Z.land (u32 val) (u32 (Z.lnot (PAGE_SIZE - 1))).

(** [NEXT_PAGE_BOUNDARY(val)] *)
Definition NEXT_PAGE_BOUNDARY (val : Z) : Z :=
  u32 (PAGE_BOUNDARY val + PAGE_SIZE).

(** ** The execution monad

    A computation of the kernel runs on a state [S].  It returns, or it
    accesses memory that is not mapped or does something the C standard
    leaves undefined ([Fault]), or it calls [kernel_panic], which never
    returns ([Panic]), or the fuel given to one of its loops is used up
    ([Timeout]). *)

Inductive res (S A : Type) :=
  | Ret (a : A) (s : S)
  | Fault
  | Panic
  | Timeout.
Arguments Ret {S A} a s.
Arguments Fault {S A}.
Arguments Panic {S A}.
Arguments Timeout {S A}.

Definition M (S A : Type) : Type := S → res S A.

#[export] Instance M_ret {S} : MRet (M S) := λ A a s, Ret a s.

#[export] Instance M_bind {S} : MBind (M S) := λ A B f m s,
  match m s with
  | Ret a s' => f a s'
  | Fault => Fault
  | Panic => Panic
  | Timeout => Timeout
  end.

Section primitives.
Context {S : Type}.

Definition mget : M S S := λ s, Ret s s.
Definition mput (s : S) : M S unit := λ _, Ret tt s.
Definition mgets {A} (f : S → A) : M S A := λ s, Ret (f s) s.
Definition mmodify (f : S → S) : M S unit := λ s, Ret tt (f s).
Definition mfault {A} : M S A := λ _, Fault.
Definition mpanic {A} : M S A := λ _, Panic.
Definition mtimeout {A} : M S A := λ _, Timeout.

(** [None] is an access that faults. *)
Definition mlift {A} (o : option A) : M S A := λ s,
  match o with Some a => Ret a s | None => Fault end.

(** [None] is a loop that ran out of fuel. *)
Definition mfuel {A} (o : option A) : M S A := λ s,
  match o with Some a => Ret a s | None => Timeout end.

Definition mtry (f : S → option S) : M S unit := λ s,
  match f s with Some s' => Ret tt s' | None => Fault end.
End primitives.

(** Runs a computation of a part of the state. *)
Definition zoom {S T A : Type} (get : S → T) (set : T → S → S) (m : M T A) : M S A := λ s,
  match m (get s) with
  | Ret a t => Ret a (set t s)
  | Fault => Fault
  | Panic => Panic
  | Timeout => Timeout
  end.

(** [for(int i = lo; i < hi; i++) body(i)], [n] iterations being left.
    Incrementing [INT_MAX] is undefined. *)
Fixpoint for_int {S} (n : nat) (i : Z) (body : Z → M S unit) : M S unit :=
  match n with
  | O => mret tt
  | Datatypes.S n' =>
      body i ;;
      if i =? INT_MAX then mfault else for_int n' (i + 1) body
  end.

Definition for_range {S} (lo hi : Z) (body : Z → M S unit) : M S unit :=
  for_int (Z.to_nat (hi - lo)) lo body.

(** ** Shared lemmas *)

Lemma u8_range z : 0 ≤ u8 z < 256.
Proof. unfold u8. apply Z.mod_pos_bound. lia. Qed.

Lemma u32_range z : 0 ≤ u32 z < 2 ^ 32.
Proof. unfold u32. apply Z.mod_pos_bound. lia. Qed.

Lemma u8_small z : 0 ≤ z < 256 → u8 z = z.
Proof. apply Z.mod_small. Qed.

Lemma u32_small z : 0 ≤ z < 2 ^ 32 → u32 z = z.
Proof. apply Z.mod_small. Qed.

Lemma u32_u32 z : u32 (u32 z) = u32 z.
Proof. apply u32_small, u32_range. Qed.

Lemma u8_testbit z k : 0 ≤ k → Z.testbit (u8 z) k = (k <? 8) && Z.testbit z k.
Proof.
  intros Hk. unfold u8. destruct (Z.ltb_spec k 8).
  - by rewrite Z.mod_pow2_bits_low.
  - by rewrite Z.mod_pow2_bits_high by lia.
Qed.

Lemma i8_congr z : u8 (i8 z) = u8 z.
Proof.
  unfold u8, i8. rewrite Zminus_mod_idemp_l. f_equal. lia.
Qed.

Lemma i8_testbit z k : 0 ≤ k < 8 → Z.testbit (i8 z) k = Z.testbit z k.
Proof.
  intros Hk.
  transitivity (Z.testbit (u8 (i8 z)) k).
  - rewrite u8_testbit by lia. by rewrite (proj2 (Z.ltb_lt k 8)) by lia.
  - rewrite i8_congr, u8_testbit by lia. by rewrite (proj2 (Z.ltb_lt k 8)) by lia.
Qed.

Lemma i32_small z : - 2 ^ 31 ≤ z < 2 ^ 31 → i32 z = z.
Proof. intros. unfold i32. rewrite Z.mod_small; lia. Qed.

Lemma byte_eq_bits x y :
  0 ≤ x < 256 → 0 ≤ y < 256 →
  (∀ k, 0 ≤ k < 8 → Z.testbit x k = Z.testbit y k) → x = y.
Proof.
  intros Hx Hy Hb. apply Z.bits_inj'. intros k Hk.
  destruct (Z.lt_ge_cases k 8); [by apply Hb|].
  rewrite <-(Z.mod_small x (2 ^ 8)), <-(Z.mod_small y (2 ^ 8)) by lia.
  by rewrite !Z.mod_pow2_bits_high by lia.
Qed.

Lemma PAGE_BOUNDARY_eq val : PAGE_BOUNDARY val = u32 val / 4096 * 4096.
Proof.
  unfold PAGE_BOUNDARY, PAGE_SIZE.
  replace (u32 (Z.lnot (4096 - 1))) with (Z.shiftl (Z.ones 20) 12) by reflexivity.
  rewrite <-(Z.shiftr_div_pow2 _ 12), <-(Z.shiftl_mul_pow2 _ 12) by lia.
  apply Z.bits_inj'. intros k Hk.
  rewrite Z.land_spec, !Z.shiftl_spec by lia.
  destruct (Z.lt_ge_cases k 12).
  { by rewrite !(Z.testbit_neg_r _ (k - 12)), andb_false_r by lia. }
  rewrite Z.shiftr_spec by lia. replace (k - 12 + 12) with k by lia.
  destruct (Z.lt_ge_cases k 32).
  { rewrite Z.ones_spec_low by lia. by rewrite andb_true_r. }
  unfold u32. by rewrite Z.mod_pow2_bits_high by lia.
Qed.

(** A 32-bit value is a page boundary exactly when it is a multiple of 4096. *)
Lemma PAGE_BOUNDARY_aligned val :
  0 ≤ val < 2 ^ 32 → PAGE_BOUNDARY val = val ↔ val mod 4096 = 0.
Proof.
  intros. rewrite PAGE_BOUNDARY_eq, u32_small by lia.
  pose proof (Z.div_mod val 4096). lia.
Qed.

(** *** Monad *)

Lemma bind_ret_l {S A B} (a : A) (f : A → M S B) s : (mret a ≫= f) s = f a s.
Proof. reflexivity. Qed.

Lemma bind_Ret {S A B} (m : M S A) (f : A → M S B) s a s' :
  m s = Ret a s' → (m ≫= f) s = f a s'.
Proof. intros H. unfold mbind, M_bind. by rewrite H. Qed.

Lemma bind_Ret_inv {S A B} (m : M S A) (f : A → M S B) s b s'' :
  (m ≫= f) s = Ret b s'' → ∃ a s', m s = Ret a s' ∧ f a s' = Ret b s''.
Proof. unfold mbind, M_bind. destruct (m s) eqn:E; naive_solver. Qed.

Lemma zoom_Ret {S T A} (get : S → T) set (m : M T A) s a t :
  m (get s) = Ret a t → zoom get set m s = Ret a (set t s).
Proof. intros H. unfold zoom. by rewrite H. Qed.

(** The rule for counted loops: an invariant indexed by the counter. *)
Lemma for_int_inv {S} (I : Z → S → Prop) body (n : nat) lo s :
  lo + Z.of_nat n ≤ INT_MAX →
  I lo s →
  (∀ i s, lo ≤ i < lo + Z.of_nat n → I i s → ∃ s', body i s = Ret tt s' ∧ I (i + 1) s') →
  ∃ s', for_int n lo body s = Ret tt s' ∧ I (lo + Z.of_nat n) s'.
Proof.
  revert lo s. induction n as [|n IH]; intros lo s Hmax HI Hbody.
  - exists s. split; [done|]. by replace (lo + Z.of_nat 0) with lo by lia.
  - destruct (Hbody lo s) as (s1 & Hb & HI1); [lia|done|].
    simpl for_int. rewrite (bind_Ret _ _ _ _ _ Hb).
    rewrite (proj2 (Z.eqb_neq lo INT_MAX)) by lia.
    replace (lo + Z.of_nat (Datatypes.S n)) with (lo + 1 + Z.of_nat n) by lia.
    apply IH; [lia|done|]. intros i s' Hi. apply Hbody. lia.
Qed.

Lemma for_range_inv {S} (I : Z → S → Prop) body lo hi s :
  lo ≤ hi ≤ INT_MAX →
  I lo s →
  (∀ i s, lo ≤ i < hi → I i s → ∃ s', body i s = Ret tt s' ∧ I (i + 1) s') →
  ∃ s', for_range lo hi body s = Ret tt s' ∧ I hi s'.
Proof.
  intros Hhi HI Hbody. unfold for_range.
  destruct (for_int_inv I body (Z.to_nat (hi - lo)) lo s) as (s' & Hr & HI').
  - lia.
  - done.
  - intros i s'' Hi. apply Hbody. lia.
  - exists s'. split; [done|]. by replace hi with (lo + Z.of_nat (Z.to_nat (hi - lo))) by lia.
Qed.

(** *** Invariants of computations

    [preserves I m]: whenever [m] returns from a state in [I], it returns in
    one.  The rules follow the structure of the computation; the hint
    database [preserves] has them, and components add their operations. *)

Definition preserves {S A} (I : S → Prop) (m : M S A) : Prop := ∀ s a s', I s → m s = Ret a s' → I s'.

Section preserves.
Context {S : Type} (I : S → Prop).

Lemma preserves_bind {A B} (m : M S A) (f : A → M S B) :
  preserves I m → (∀ a, preserves I (f a)) → preserves I (m ≫= f).
Proof. intros Hm Hf s b s' HI (a & s1 & E1 & E2)%bind_Ret_inv. eapply Hf; [|exact E2]. by eapply Hm. Qed.

Lemma preserves_ret {A} (a : A) : preserves I (mret a).
Proof. by intros s b s' HI [= _ <-]. Qed.

Lemma preserves_fault {A} : preserves I (mfault : M S A).
Proof. done. Qed.

Lemma preserves_panic {A} : preserves I (mpanic : M S A).
Proof. done. Qed.

Lemma preserves_timeout {A} : preserves I (mtimeout : M S A).
Proof. done. Qed.

Lemma preserves_gets {A} (f : S → A) : preserves I (mgets f).
Proof. by intros s a s' HI [= _ <-]. Qed.

Lemma preserves_lift {A} (o : option A) : preserves I (mlift o).
Proof. intros s a s' HI E. unfold mlift in E. destruct o; [|done]. by injection E as _ <-. Qed.

Lemma preserves_fuel {A} (o : option A) : preserves I (mfuel o).
Proof. intros s a s' HI E. unfold mfuel in E. destruct o; [|done]. by injection E as _ <-. Qed.

Lemma preserves_modify (f : S → S) : (∀ s, I s → I (f s)) → preserves I (mmodify f).
Proof. intros Hf s a s' HI [= _ <-]. by apply Hf. Qed.

Lemma preserves_for_int n i body : (∀ i, preserves I (body i)) → preserves I (for_int n i body).
Proof.
  intros Hb. revert i. induction n as [|n IH]; intros i; [apply preserves_ret|]. cbn [for_int].
  apply preserves_bind; [done|]. intros _. destruct (i =? INT_MAX); [apply preserves_fault|apply IH].
Qed.

Lemma preserves_for_range lo hi body : (∀ i, preserves I (body i)) → preserves I (for_range lo hi body).
Proof. apply preserves_for_int. Qed.
End preserves.

(** A part of the state with an invariant of its own. *)
Lemma preserves_zoom {S T A} (I : S → Prop) (J : T → Prop) (get : S → T) set (m : M T A) :
  (∀ s, I s → J (get s)) → (∀ s t, I s → J t → I (set t s)) → preserves J m → preserves I (zoom get set m).
Proof.
  intros Hg Hs Hm s a s' HI E. unfold zoom in E. destruct (m (get s)) as [a' t| | |] eqn:Em; try done.
  injection E as _ <-. apply Hs; [done|]. eapply Hm; [|exact Em]. by apply Hg.
Qed.

Create HintDb preserves.
#[export] Hint Resolve preserves_bind preserves_ret preserves_fault preserves_panic preserves_timeout preserves_gets
  preserves_lift preserves_fuel preserves_for_range : preserves.

(** Goes through a computation: its cases, its steps, the hints. *)
Ltac preserve :=
  repeat first
    [ progress intros
    | solve [eauto 2 with preserves]
    | apply preserves_bind | apply preserves_for_range
    | match goal with |- preserves _ (if ?b then _ else _) => destruct b end
    | match goal with |- preserves _ (match ?x with _ => _ end) => destruct x end ].

(** *** Computations that always return

    [total I m]: from every state in [I], [m] returns, in a state in [I]. *)

Definition total {S A} (I : S → Prop) (m : M S A) : Prop := ∀ s, I s → ∃ a s', m s = Ret a s' ∧ I s'.

Section total.
Context {S : Type} (I : S → Prop).

Lemma total_bind {A B} (m : M S A) (f : A → M S B) : total I m → (∀ a, total I (f a)) → total I (m ≫= f).
Proof. intros Hm Hf s HI. destruct (Hm s HI) as (a & s1 & E & H1). rewrite (bind_Ret _ _ _ _ _ E). by apply Hf. Qed.

Lemma total_ret {A} (a : A) : total I (mret a).
Proof. intros s HI. by exists a, s. Qed.

Lemma total_gets {A} (f : S → A) : total I (mgets f).
Proof. intros s HI. by exists (f s), s. Qed.

Lemma total_modify (f : S → S) : (∀ s, I s → I (f s)) → total I (mmodify f).
Proof. intros Hf s HI. exists tt, (f s). auto. Qed.
End total.

Lemma total_zoom {S T A} (I : S → Prop) (J : T → Prop) (get : S → T) set (m : M T A) :
  (∀ s, I s → J (get s)) → (∀ s t, I s → J t → I (set t s)) → total J m → total I (zoom get set m).
Proof.
  intros Hg Hs Hm s HI. destruct (Hm (get s) (Hg s HI)) as (a & t & E & Ht).
  exists a, (set t s). split; [by apply zoom_Ret|by apply Hs].
Qed.

Create HintDb total.
#[export] Hint Resolve total_bind total_ret total_gets total_modify : total.

Ltac totally :=
  repeat first
    [ progress intros
    | solve [eauto 2 with total]
    | apply total_bind
    | match goal with |- total _ (if ?b then _ else _) => destruct b end
    | match goal with |- total _ (match ?x with _ => _ end) => destruct x end ].

(** *** Running computations

    [exec] rewrites away the primitives at the head of a computation;
    [run E] replaces the head computation by the outcome [E] states. *)

Section exec_lemmas.
Context {S A B : Type}.
Implicit Types (f : A → M S B) (s : S).

Lemma bind_fuel_Some a f s : (mfuel (Some a) ≫= f) s = f a s.
Proof. reflexivity. Qed.

Lemma bind_fuel_None f s : (mfuel None ≫= f) s = Timeout.
Proof. reflexivity. Qed.

Lemma bind_lift_Some a f s : (mlift (Some a) ≫= f) s = f a s.
Proof. reflexivity. Qed.

Lemma bind_lift_None f s : (mlift None ≫= f) s = Fault.
Proof. reflexivity. Qed.

Lemma bind_gets (g : S → A) f s : (mgets g ≫= f) s = f (g s) s.
Proof. reflexivity. Qed.

Lemma bind_fault f s : (mfault ≫= f) s = Fault.
Proof. reflexivity. Qed.

Lemma bind_panic f s : (mpanic ≫= f) s = Panic.
Proof. reflexivity. Qed.

Lemma bind_modify (g : S → S) (f : unit → M S B) s : (mmodify g ≫= f) s = f tt (g s).
Proof. reflexivity. Qed.

Lemma bind_get (f : S → M S B) s : (mget ≫= f) s = f s s.
Proof. reflexivity. Qed.

Lemma bind_put t (f : unit → M S B) s : (mput t ≫= f) s = f tt t.
Proof. reflexivity. Qed.

Lemma bind_assoc {C} (m : M S C) (g : C → M S A) f s :
  ((m ≫= g) ≫= f) s = (m ≫= λ c, g c ≫= f) s.
Proof. unfold mbind, M_bind. by destruct (m s). Qed.
End exec_lemmas.

Create Rewrite HintDb exec.
#[export] Hint Rewrite @bind_ret_l @bind_fuel_Some @bind_fuel_None @bind_lift_Some
  @bind_lift_None @bind_gets @bind_fault @bind_panic @bind_modify @bind_get @bind_put
  @bind_assoc : exec.

Ltac exec := autorewrite with exec; cbv beta iota.
Ltac run E := rewrite (bind_Ret _ _ _ _ _ E); cbv beta iota.

(** [lia] with the quotients and remainders by constants spelt out. *)
Ltac dlia := Z.div_mod_to_equations; lia.
