(* ===== verification/Refine.v ===== *)
(** * Data refinement

    A data type of the kernel is a set of operations on the state; its
    specification is a function on abstract values, undefined where the
    operations promise nothing.  [Refines] relates the two, operation by
    operation; programs that use the type then see the abstract values. *)

From S2P Require Import Prelude.

(** [spec a o] is the output of [o] at the abstract value [a] and the value after it. *)
Class Refines {S A Op Out : Type} (run_op : Op → M S Out) (spec : A → Op → option (Out * A)) (R : A → S → Prop) :=
  refines a s o out a' : R a s → spec a o = Some (out, a') → ∃ s', run_op o s = Ret out s' ∧ R a' s'.

Section programs.
Context {S A Op Out : Type}.
Variable run_op : Op → M S Out.
Variable spec : A → Op → option (Out * A).

(** A client is a strategy: each operation may depend on the outputs so far. *)
Inductive client :=
  | Done
  | Do (o : Op) (next : Out → client).

Fixpoint run_client (c : client) : M S (list Out) :=
  match c with
  | Done => mret []
  | Do o next =>
      out ← run_op o;
      outs ← run_client (next out);
      mret (out :: outs)
  end.

Fixpoint spec_client (c : client) (a : A) : option (list Out * A) :=
  match c with
  | Done => Some ([], a)
  | Do o next =>
      '(out, a1) ← spec a o;
      '(outs, a2) ← spec_client (next out) a1;
      Some (out :: outs, a2)
  end.

(** What the specification says of a client is what the client sees. *)
Lemma client_refines (R : A → S → Prop) `{!Refines run_op spec R} c a s outs a' :
  R a s → spec_client c a = Some (outs, a') → ∃ s', run_client c s = Ret outs s' ∧ R a' s'.
Proof.
  revert a s outs a'. induction c as [|o next IH]; intros a s outs a' HR E; simpl in *; [simplify_eq; by eexists|].
  destruct (spec a o) as [[out a1]|] eqn:Eo; [|done]. simpl in E.
  destruct (spec_client (next out) a1) as [[outs2 a2]|] eqn:Ec; [|done]. simplify_eq/=.
  destruct (refines _ _ _ _ _ HR Eo) as (s1 & E1 & HR1). destruct (IH _ _ _ _ _ HR1 Ec) as (s2 & E2 & HR2).
  exists s2. split; [|done]. run E1. by run E2.
Qed.
End programs.

Arguments client : clear implicits.
Arguments Done {Op Out}.
Arguments Do {Op Out} o next.

(** A fixed sequence of operations. *)
Definition operations {Op Out : Type} : list Op → client Op Out := foldr (λ o c, Do o (λ _, c)) Done.
