(* ===== verification/Memory.v ===== *)
(** * Byte-addressed memory and [libc/memory.c]

    [ByteStore] is the interface every C object offers to the code that works
    on bytes: a load and a store of one byte, both of which fault outside the
    object.  Two implementations are given here: [carray], a static array
    with zero-initialised contents, and [vmem], a virtual address space in
    which only some addresses are mapped.  The routines of [libc/memory.c]
    are written once, against the interface. *)

From S2P Require Import Prelude.

(** ** The interface *)

Class ByteStore (S : Type) := {
  get8 : S → Z → option Z;
  set8 : S → Z → Z → option S
}.

Class ByteStoreLaws (S : Type) `{ByteStore S} := {
  get8_range s a v : get8 s a = Some v → 0 ≤ v < 256;
  set8_total s a v : is_Some (get8 s a) → is_Some (set8 s a v);
  set8_mapped s a v s' : set8 s a v = Some s' → is_Some (get8 s a);
  get8_set8 s a v s' b : set8 s a v = Some s' →
    get8 s' b = if decide (b = a) then Some (u8 v) else get8 s b
}.

(** ** Implementations *)

(** A static array of [asize] bytes; [.bss] starts out zero. *)
Record carray := CArray { asize : Z; adata : gmap Z Z }.

#[export] Instance carray_store : ByteStore carray := {
  get8 s a := if decide (0 ≤ a < asize s) then Some (default 0 (u8 <$> adata s !! a)) else None;
  set8 s a v := if decide (0 ≤ a < asize s) then Some (CArray (asize s) (<[a := u8 v]> (adata s))) else None
}.

#[export] Instance carray_laws : ByteStoreLaws carray.
Proof.
  split; unfold get8, set8; simpl.
  - intros s a v. case_decide; [|done]. intros [= <-].
    destruct (adata s !! a); simpl; [apply u8_range|lia].
  - intros s a v. by case_decide.
  - intros s a v s'. by case_decide.
  - intros s a v s' b. case_decide; [|done]. intros [= <-]. simpl.
    destruct (decide (b = a)) as [->|Hne].
    + rewrite decide_True by done. rewrite lookup_insert_eq. simpl.
      by rewrite (u8_small (u8 v)) by apply u8_range.
    + by rewrite lookup_insert_ne.
Qed.

(** A virtual address space: the mapped addresses and their contents. *)
Record vmem := VMem { vbytes : gmap Z Z }.

#[export] Instance vmem_store : ByteStore vmem := {
  get8 s a := u8 <$> vbytes s !! a;
  set8 s a v := vbytes s !! a ≫= λ _, Some (VMem (<[a := u8 v]> (vbytes s)))
}.

#[export] Instance vmem_laws : ByteStoreLaws vmem.
Proof.
  split; unfold get8, set8; simpl.
  - intros s a v. destruct (vbytes s !! a); simpl; [|done]. intros [= <-]. apply u8_range.
  - intros s a v. destruct (vbytes s !! a); simpl; [eauto|by intros [? ?]].
  - intros s a v s'. destruct (vbytes s !! a); simpl; [eauto|done].
  - intros s a v s' b. destruct (vbytes s !! a); simpl; [|done]. intros [= <-]. simpl.
    destruct (decide (b = a)) as [->|Hne].
    + rewrite lookup_insert_eq. simpl. by rewrite (u8_small (u8 v)) by apply u8_range.
    + by rewrite lookup_insert_ne.
Qed.

(** ** Accesses as computations *)

Section access.
Context {S : Type} `{ByteStore S}.

Definition rd8 (a : Z) : M S Z := λ s,
  match get8 s a with Some v => Ret v s | None => Fault end.

Definition wr8 (a v : Z) : M S unit := mtry (λ s, set8 s a v).

(** A little-endian 32-bit word. *)
Definition word_of_bytes (b0 b1 b2 b3 : Z) : Z :=
  Z.lor b0 (Z.lor (Z.shiftl b1 8) (Z.lor (Z.shiftl b2 16) (Z.shiftl b3 24))).

Definition get32 (s : S) (a : Z) : option Z :=
  b0 ← get8 s a; b1 ← get8 s (a + 1); b2 ← get8 s (a + 2); b3 ← get8 s (a + 3);
  Some (word_of_bytes b0 b1 b2 b3).

Definition set32 (s : S) (a v : Z) : option S :=
  s0 ← set8 s a v;
  s1 ← set8 s0 (a + 1) (Z.shiftr v 8);
  s2 ← set8 s1 (a + 2) (Z.shiftr v 16);
  set8 s2 (a + 3) (Z.shiftr v 24).

Definition rd32 (a : Z) : M S Z := λ s,
  match get32 s a with Some v => Ret v s | None => Fault end.

Definition wr32 (a v : Z) : M S unit := mtry (λ s, set32 s a v).

(** A little-endian 16-bit word. *)
Definition rd16 (a : Z) : M S Z := lo ← rd8 a; hi ← rd8 (u32 (a + 1)); mret (lo + 256 * hi).
Definition wr16 (a v : Z) : M S unit := wr8 a v ;; wr8 (u32 (a + 1)) (Z.shiftr v 8).
End access.

(** ** [libc/memory.c] *)

Section memory_c.
Context {S : Type} `{ByteStore S}.

Definition memcpy (dst src num : Z) : M S unit :=
  for_range 0 num (λ i,
    v ← rd8 (src + i);
    wr8 (dst + i) v).

(** [char value]: the byte is stored whatever its sign. *)
Definition memset (value addr length : Z) : M S unit :=
  for_range 0 length (λ i, wr8 (addr + i) (i8 value)).

Definition turn_bit_on (value_ptr bit_index : Z) : M S unit :=
  v ← rd8 value_ptr;
  wr8 value_ptr (Z.lor (i8 v) (Z.shiftr 0x80 bit_index)).

Definition turn_bit_off (value_ptr bit_index : Z) : M S unit :=
  v ← rd8 value_ptr;
  wr8 value_ptr (Z.land (i8 v) (Z.lnot (Z.shiftr 0x80 bit_index))).

(** [byte_index] and [num_bytes] of the source are computed and not used. *)
Definition turn_bits_off (buffer bit_index num_bits : Z) : M S unit :=
  for_range bit_index (bit_index + num_bits) (λ i,
    turn_bit_off (buffer + Z.quot i 8) (Z.rem i 8)).

Definition turn_bits_on (buffer bit_index num_bits : Z) : M S unit :=
  for_range bit_index (bit_index + num_bits) (λ i,
    turn_bit_on (buffer + Z.quot i 8) (Z.rem i 8)).
End memory_c.

(** [char extract_bit(char value, int bit_index)]: bit 0 is the MSB. *)
Definition extract_bit (value bit_index : Z) : Z :=
  Z.land (Z.shiftr (i8 value) (8 - bit_index - 1)) 0x1.

(** The loop [while(value) { index++; value >>= 1; }]. *)
Fixpoint get_msb_index_loop (fuel : nat) (value index : Z) : option Z :=
  match fuel with
  | O => None
  | Datatypes.S fuel' =>
      if value =? 0 then Some index
      else get_msb_index_loop fuel' (Z.shiftr value 1) (index + 1)
  end.

(** A byte has eight bits, so the ninth test of the loop sees zero. *)
Definition get_msb_index (value : Z) : option Z :=
  index ← get_msb_index_loop 9 (u8 value) 0;
  Some (u32 (8 - index)).

(** ** Facts about single accesses *)

Section access_facts.
Context {S : Type} `{ByteStoreLaws S}.
Implicit Types s : S.

Lemma rd8_Ret s a v : get8 s a = Some v → rd8 a s = Ret v s.
Proof. intros E. unfold rd8. by rewrite E. Qed.

Lemma set8_Some s a v w : get8 s a = Some w →
  ∃ s', set8 s a v = Some s' ∧
    ∀ b, get8 s' b = if decide (b = a) then Some (u8 v) else get8 s b.
Proof.
  intros E. destruct (set8_total s a v) as [s' Hs']; [by rewrite E|].
  exists s'. split; [done|]. intros b. by apply get8_set8.
Qed.

Lemma wr8_Ret s a v w : get8 s a = Some w →
  ∃ s', wr8 a v s = Ret tt s' ∧
    ∀ b, get8 s' b = if decide (b = a) then Some (u8 v) else get8 s b.
Proof.
  intros E. destruct (set8_Some s a v w E) as (s' & Hs & Hb).
  exists s'. split; [|done]. unfold wr8, mtry. by rewrite Hs.
Qed.

(** Being mapped is not affected by a store. *)
Lemma set8_is_Some s a v s' b :
  set8 s a v = Some s' → is_Some (get8 s' b) ↔ is_Some (get8 s b).
Proof.
  intros E. rewrite (get8_set8 _ _ _ _ b E). case_decide as Hb; [|done].
  subst. split; [|eauto]. intros _. eapply set8_mapped; eauto.
Qed.
End access_facts.

(** ** Words *)

Section words.
Context {S : Type} `{ByteStoreLaws S}.
Implicit Types s : S.

(** The [n] bytes from [a] on are mapped. *)
Definition mapped s (a n : Z) : Prop := ∀ b, a ≤ b < a + n → is_Some (get8 s b).

(** [s'] is [s] after a store of the 32-bit word [v] at [a]. *)
Definition stored32 (a v : Z) s s' : Prop :=
  ∀ b, get8 s' b = if decide (a ≤ b < a + 4) then Some (u8 (Z.shiftr v (8 * (b - a)))) else get8 s b.

(** The bytes of [s'] outside of the [n] from [a] on are those of [s]. *)
Definition same_but (a n : Z) s s' : Prop :=
  ∀ b, ¬ (a ≤ b < a + n) → get8 s' b = get8 s b.

Lemma word_of_bytes_shifts v :
  word_of_bytes (u8 v) (u8 (Z.shiftr v 8)) (u8 (Z.shiftr v 16)) (u8 (Z.shiftr v 24)) = u32 v.
Proof.
  unfold word_of_bytes. apply Z.bits_inj'. intros k Hk. unfold u32.
  destruct (Z.lt_ge_cases k 32) as [Hlt|Hge].
  - rewrite Z.mod_pow2_bits_low by lia.
    rewrite !Z.lor_spec, !Z.shiftl_spec by lia.
    destruct (Z.lt_ge_cases k 8); [|destruct (Z.lt_ge_cases k 16); [|destruct (Z.lt_ge_cases k 24)]].
    + rewrite !(Z.testbit_neg_r _ (k - _)) by lia. rewrite u8_testbit by lia.
      rewrite (proj2 (Z.ltb_lt k 8)) by lia. by rewrite !orb_false_r.
    + rewrite !(Z.testbit_neg_r _ (k - 16)), !(Z.testbit_neg_r _ (k - 24)) by lia.
      rewrite !u8_testbit, (proj2 (Z.ltb_ge k 8)), (proj2 (Z.ltb_lt (k - 8) 8)), Z.shiftr_spec by lia.
      rewrite !orb_false_r. simpl. f_equal. lia.
    + rewrite !(Z.testbit_neg_r _ (k - 24)) by lia.
      rewrite !u8_testbit, (proj2 (Z.ltb_ge k 8)), (proj2 (Z.ltb_ge (k - 8) 8)),
        (proj2 (Z.ltb_lt (k - 16) 8)), !Z.shiftr_spec by lia.
      rewrite !orb_false_r. simpl. f_equal. lia.
    + rewrite !u8_testbit, (proj2 (Z.ltb_ge k 8)), (proj2 (Z.ltb_ge (k - 8) 8)),
        (proj2 (Z.ltb_ge (k - 16) 8)), (proj2 (Z.ltb_lt (k - 24) 8)), !Z.shiftr_spec by lia.
      simpl. f_equal. lia.
  - rewrite Z.mod_pow2_bits_high by lia.
    rewrite !Z.lor_spec, !Z.shiftl_spec, !u8_testbit by lia.
    rewrite (proj2 (Z.ltb_ge k 8)), (proj2 (Z.ltb_ge (k - 8) 8)),
      (proj2 (Z.ltb_ge (k - 16) 8)), (proj2 (Z.ltb_ge (k - 24) 8)) by lia. done.
Qed.

Lemma word_of_bytes_range b0 b1 b2 b3 :
  0 ≤ b0 < 256 → 0 ≤ b1 < 256 → 0 ≤ b2 < 256 → 0 ≤ b3 < 256 →
  0 ≤ word_of_bytes b0 b1 b2 b3 < 2 ^ 32.
Proof.
  intros. assert (u32 (word_of_bytes b0 b1 b2 b3) = word_of_bytes b0 b1 b2 b3) as <-; [|apply u32_range].
  unfold word_of_bytes, u32.
  assert (∀ x n, 0 ≤ x < 256 → 0 ≤ n ≤ 24 → Z.shiftl x n = Z.land (Z.shiftl x n) (Z.ones 32)) as Hm.
  { intros x n ? ?. rewrite Z.land_ones, Z.mod_small; [done| |lia].
    rewrite Z.shiftl_mul_pow2 by lia.
    assert (2 ^ n ≤ 2 ^ 24) by (apply Z.pow_le_mono_r; lia). nia. }
  rewrite <-Z.land_ones, !Z.land_lor_distr_l, <-!Hm by lia.
  do 2 f_equal. pose proof (Hm b0 0). rewrite Z.shiftl_0_r in *. symmetry. auto with lia.
Qed.

Lemma get32_mapped s a v : get32 s a = Some v → mapped s a 4.
Proof.
  unfold get32. intros E b Hb. destruct (get8 s a) eqn:E0; [|done].
  destruct (get8 s (a + 1)) eqn:E1; [|done]. destruct (get8 s (a + 2)) eqn:E2; [|done].
  destruct (get8 s (a + 3)) eqn:E3; [|done].
  assert (b = a ∨ b = a + 1 ∨ b = a + 2 ∨ b = a + 3) as [-> | [-> | [-> | ->]]] by lia; eauto.
Qed.

Lemma get32_range s a v : get32 s a = Some v → 0 ≤ v < 2 ^ 32.
Proof.
  unfold get32. destruct (get8 s a) eqn:E0; [|done].
  destruct (get8 s (a + 1)) eqn:E1; [|done]. destruct (get8 s (a + 2)) eqn:E2; [|done].
  destruct (get8 s (a + 3)) eqn:E3; [|done]. simpl. intros [= <-].
  apply word_of_bytes_range; by eapply get8_range.
Qed.

Lemma mapped_get32 s a : mapped s a 4 → ∃ v, get32 s a = Some v.
Proof.
  intros Hm. unfold get32.
  destruct (Hm a) as [? ->]; [lia|]. destruct (Hm (a + 1)) as [? ->]; [lia|].
  destruct (Hm (a + 2)) as [? ->]; [lia|]. destruct (Hm (a + 3)) as [? ->]; [lia|]. eauto.
Qed.

Lemma mapped_sub s a n b k : mapped s a n → a ≤ b → b + k ≤ a + n → mapped s b k.
Proof. intros Hm ? ? c Hc. apply Hm. lia. Qed.

(** A word depends on its four bytes only. *)
Lemma get32_ext s s' a : (∀ b, a ≤ b < a + 4 → get8 s' b = get8 s b) → get32 s' a = get32 s a.
Proof. intros E. unfold get32. by rewrite !E by lia. Qed.

Lemma rd32_Ret s a v : get32 s a = Some v → rd32 a s = Ret v s.
Proof. intros E. unfold rd32. by rewrite E. Qed.

Lemma wr32_Ret s a v : mapped s a 4 → ∃ s', wr32 a v s = Ret tt s' ∧ stored32 a v s s'.
Proof.
  intros Hm. unfold wr32, mtry, set32.
  destruct (Hm a) as [w0 E0]; [lia|].
  destruct (set8_Some s a v w0 E0) as (s0 & -> & Hw0). simpl.
  destruct (Hm (a + 1)) as [w1 E1]; [lia|].
  destruct (set8_Some s0 (a + 1) (Z.shiftr v 8) w1) as (s1 & -> & Hw1);
    [by rewrite Hw0, decide_False by lia|]. simpl.
  destruct (Hm (a + 2)) as [w2 E2]; [lia|].
  destruct (set8_Some s1 (a + 2) (Z.shiftr v 16) w2) as (s2 & -> & Hw2);
    [by rewrite Hw1, Hw0, !decide_False by lia|]. simpl.
  destruct (Hm (a + 3)) as [w3 E3]; [lia|].
  destruct (set8_Some s2 (a + 3) (Z.shiftr v 24) w3) as (s3 & -> & Hw3);
    [by rewrite Hw2, Hw1, Hw0, !decide_False by lia|].
  exists s3. split; [done|]. intros b. rewrite Hw3, Hw2, Hw1, Hw0.
  destruct (decide (a ≤ b < a + 4)) as [Hb|Hb].
  - assert (b = a ∨ b = a + 1 ∨ b = a + 2 ∨ b = a + 3) as [-> | [-> | [-> | ->]]] by lia;
      repeat (first [rewrite decide_True by lia | rewrite decide_False by lia]);
      do 2 f_equal; first [by rewrite Z.sub_diag | f_equal; lia].
  - by rewrite !decide_False by lia.
Qed.

Lemma stored32_same a v s s' : stored32 a v s s' → get32 s' a = Some (u32 v).
Proof.
  intros Hs. unfold get32. rewrite !Hs, !decide_True by lia. simpl.
  rewrite <-word_of_bytes_shifts. do 2 f_equal; [by rewrite Z.sub_diag|..];
    (repeat f_equal; lia).
Qed.

Lemma stored32_other a v s s' b :
  stored32 a v s s' → b + 4 ≤ a ∨ a + 4 ≤ b → get32 s' b = get32 s b.
Proof. intros Hs Hb. apply get32_ext. intros c Hc. by rewrite Hs, decide_False by lia. Qed.

Lemma stored32_mapped a v s s' b n : stored32 a v s s' → mapped s b n → mapped s' b n.
Proof. intros Hs Hm c Hc. rewrite Hs. case_decide; [eauto|auto]. Qed.

Lemma stored32_same_but a v s s' : stored32 a v s s' → same_but a 4 s s'.
Proof. intros Hs b Hb. by rewrite Hs, decide_False by lia. Qed.

(** [s'] is [s] after the [n] bytes at [src] were copied to [dst]. *)
Definition copied (dst src n : Z) s s' : Prop :=
  ∀ b, get8 s' b = if decide (dst ≤ b < dst + n) then get8 s (src + (b - dst)) else get8 s b.

(** [memcpy] of areas that do not overlap. *)
Lemma memcpy_ok s dst src n :
  0 ≤ n ≤ INT_MAX → mapped s src n → mapped s dst n → dst + n ≤ src ∨ src + n ≤ dst →
  ∃ s', memcpy dst src n s = Ret tt s' ∧ copied dst src n s s'.
Proof.
  intros Hn Hsrc Hdst Hdis. unfold memcpy.
  apply (for_range_inv (λ i s', copied dst src i s s')); [done| |].
  - intros b. by rewrite decide_False by lia.
  - intros i s1 Hi Hc. destruct (Hsrc (src + i)) as [v Ev]; [lia|].
    assert (get8 s1 (src + i) = Some v) as Ev1 by (by rewrite Hc, decide_False by lia).
    run (rd8_Ret _ _ _ Ev1).
    destruct (Hdst (dst + i)) as [w Ew]; [lia|].
    destruct (wr8_Ret s1 (dst + i) v w) as (s2 & E2 & W2); [by rewrite Hc, decide_False by lia|].
    exists s2. split; [done|]. intros b. rewrite W2, Hc.
    destruct (decide (b = dst + i)) as [->|Hb].
    + rewrite decide_True by lia. replace (src + (dst + i - dst)) with (src + i) by lia.
      rewrite Ev. f_equal. apply u8_small. by eapply get8_range.
    + destruct (decide (dst ≤ b < dst + i)); [rewrite decide_True by lia|rewrite decide_False by lia]; done.
Qed.

(** [s'] is [s] after the [n] bytes at [a] were set to [v]. *)
Definition filled (a n v : Z) s s' : Prop :=
  ∀ b, get8 s' b = if decide (a ≤ b < a + n) then Some (u8 v) else get8 s b.

Lemma memset_ok s value a n : 0 ≤ n ≤ INT_MAX → mapped s a n →
  ∃ s', memset value a n s = Ret tt s' ∧ filled a n (i8 value) s s'.
Proof.
  intros Hn Hm. unfold memset. apply (for_range_inv (λ i s', filled a i (i8 value) s s')); [done| |].
  - intros b. by rewrite decide_False by lia.
  - intros i s1 Hi Hs. destruct (Hm (a + i)) as [w Ew]; [lia|].
    destruct (wr8_Ret s1 (a + i) (i8 value) w) as (s2 & E2 & W2); [by rewrite Hs, decide_False by lia|].
    exists s2. split; [done|]. intros b. rewrite W2, Hs.
    destruct (decide (b = a + i)); [by rewrite decide_True by lia|].
    destruct (decide (a ≤ b < a + i)); [by rewrite decide_True by lia|by rewrite decide_False by lia].
Qed.

Lemma filled_mapped a n v s s' b k : filled a n v s s' → mapped s b k → mapped s' b k.
Proof. intros Hf Hm x Hx. rewrite Hf. case_decide; [eauto|by apply Hm]. Qed.

(** The bytes in [P] that are mapped keep their values. *)
Definition keeps (P : Z → Prop) s s' : Prop := ∀ b v, P b → get8 s b = Some v → get8 s' b = Some v.

Lemma keeps_refl P s : keeps P s s.
Proof. by intros b v _. Qed.

Lemma keeps_trans P s1 s2 s3 : keeps P s1 s2 → keeps P s2 s3 → keeps P s1 s3.
Proof. unfold keeps. eauto. Qed.

Lemma keeps_weaken (P Q : Z → Prop) s s' : keeps P s s' → (∀ b, Q b → P b) → keeps Q s s'.
Proof. unfold keeps. eauto. Qed.

Lemma keeps_same_but (P : Z → Prop) a n s s' : same_but a n s s' → (∀ b, P b → ¬ a ≤ b < a + n) → keeps P s s'.
Proof. intros Hs Ha b v Hb E. rewrite Hs; auto. Qed.

Lemma keeps_mapped P s s' a n : keeps P s s' → (∀ b, a ≤ b < a + n → P b) → mapped s a n → mapped s' a n.
Proof. intros Hk HP Hm b Hb. destruct (Hm b Hb) as [v E]. exists v. auto. Qed.

Lemma keeps_get32 P s s' a v : keeps P s s' → (∀ b, a ≤ b < a + 4 → P b) → get32 s a = Some v → get32 s' a = Some v.
Proof.
  intros Hk HP E. rewrite <-E. apply get32_ext. intros b Hb. destruct (get32_mapped _ _ _ E b Hb) as [w Ew].
  rewrite Ew. apply Hk; auto.
Qed.

Lemma copied_mapped dst src n s s' b k :
  copied dst src n s s' → mapped s src n → mapped s b k → mapped s' b k.
Proof.
  intros Hc Hs Hm x Hx. rewrite Hc. case_decide; [apply Hs; lia|by apply Hm].
Qed.

(** *** States that differ by stores *)

Definition stores : S → S → Prop := rtc (λ s s', ∃ a v, set8 s a v = Some s').

Lemma wr8_stores a v s s' : wr8 a v s = Ret tt s' → stores s s'.
Proof. unfold wr8, mtry. destruct (set8 s a v) eqn:E; [|done]. intros [= ->]. apply rtc_once. eauto. Qed.

Lemma wr32_stores a v s s' : wr32 a v s = Ret tt s' → stores s s'.
Proof.
  unfold wr32, mtry, set32. destruct (set8 s a v) as [s0|] eqn:E0; [|done]. simpl.
  destruct (set8 s0 (a + 1) _) as [s1|] eqn:E1; [|done]. simpl.
  destruct (set8 s1 (a + 2) _) as [s2|] eqn:E2; [|done]. simpl.
  destruct (set8 s2 (a + 3) _) as [s3|] eqn:E3; [|done]. intros [= ->].
  unfold stores. repeat (eapply rtc_l; [by do 2 eexists|]). apply rtc_refl.
Qed.

(** A loop does what its rounds do one after the other. *)
Lemma for_range_rel (R : S → S → Prop) lo hi body s s' :
  (∀ s, R s s) → (∀ s1 s2 s3, R s1 s2 → R s2 s3 → R s1 s3) →
  (∀ i s s', lo ≤ i < hi → body i s = Ret tt s' → R s s') → for_range lo hi body s = Ret tt s' → R s s'.
Proof.
  intros Hr Ht Hb. unfold for_range.
  assert (∀ n i s, lo ≤ i → i + Z.of_nat n ≤ hi → for_int n i body s = Ret tt s' → R s s') as Hn.
  { induction n as [|n IH]; intros i t Hi Hh; cbn [for_int]; [by intros [= ->]|].
    intros ([] & s1 & E1 & E2)%bind_Ret_inv. destruct (i =? INT_MAX); [done|].
    apply (Ht t s1); [by apply (Hb i); [lia|]|]. by apply (IH (i + 1)); [lia..|]. }
  destruct (Z.le_gt_cases lo hi); [by apply Hn; lia|].
  rewrite (Z2Nat.nonpos (hi - lo)) by lia. cbn [for_int]. by intros [= ->].
Qed.

Lemma for_range_stores lo hi body s s' :
  (∀ i s s', body i s = Ret tt s' → stores s s') → for_range lo hi body s = Ret tt s' → stores s s'.
Proof.
  intros Hb. apply for_range_rel; [intros; apply rtc_refl|intros ???; unfold stores; apply transitivity|].
  intros i t t' _. apply Hb.
Qed.

Lemma memset_stores v a n s s' : memset v a n s = Ret tt s' → stores s s'.
Proof. apply for_range_stores. intros i s1 s2. apply wr8_stores. Qed.

Lemma memcpy_stores dst src n s s' : memcpy dst src n s = Ret tt s' → stores s s'.
Proof.
  apply for_range_stores. intros i s1 s2 (v & s3 & E1 & E2)%bind_Ret_inv.
  unfold rd8 in E1. destruct (get8 s1 _); [|done]. injection E1 as <- <-. by eapply wr8_stores.
Qed.
End words.

(** What a computation does to memory by stores alone: [preserves (stores s0)]. *)
Section storing.
Context {S : Type} `{ByteStore S} (s0 : S).
Abbreviation storing := (preserves (stores s0)).

Lemma rd8_storing a : storing (rd8 a).
Proof. intros s v s' Hs E. unfold rd8 in E. by destruct (get8 s a); simplify_eq. Qed.

Lemma rd32_storing a : storing (rd32 a).
Proof. intros s v s' Hs E. unfold rd32 in E. by destruct (get32 s a); simplify_eq. Qed.

Lemma wr8_storing a v : storing (wr8 a v).
Proof. intros s [] s' Hs E%wr8_stores. unfold stores in *. by trans s. Qed.

Lemma wr32_storing a v : storing (wr32 a v).
Proof. intros s [] s' Hs E%wr32_stores. unfold stores in *. by trans s. Qed.

Lemma memset_storing v a n : storing (memset v a n).
Proof. intros s [] s' Hs E%memset_stores. unfold stores in *. by trans s. Qed.

Lemma memcpy_storing dst src n : storing (memcpy dst src n).
Proof. intros s [] s' Hs E%memcpy_stores. unfold stores in *. by trans s. Qed.
End storing.

#[export] Hint Resolve rd8_storing rd32_storing wr8_storing wr32_storing memset_storing memcpy_storing : preserves.

(** Stores leave the same addresses mapped. *)
Lemma stores_mapped {S} `{ByteStoreLaws S} (s s' : S) a : stores s s' → is_Some (get8 s a) → is_Some (get8 s' a).
Proof.
  induction 1 as [|s1 s2 s3 (b & v & E) _ IH]; [done|]. intros Ha. apply IH.
  rewrite (get8_set8 _ _ _ _ a E). case_decide; [by eexists|done].
Qed.

(** *** Bytes one after another *)

Section byte_lists.
Context {S : Type} `{ByteStore S}.

(** Looking at [n] bytes. *)
Fixpoint read_back (n : nat) (a : Z) : M S (list Z) :=
  match n with
  | O => mret []
  | Datatypes.S n' => x ← rd8 a; xs ← read_back n' (a + 1); mret (x :: xs)
  end.

Fixpoint store_bytes (a : Z) (xs : list Z) : M S unit :=
  match xs with
  | [] => mret tt
  | x :: xs' => wr8 a x ;; store_bytes (a + 1) xs'
  end.

Lemma read_back_ok s a xs : (∀ k x, xs !! k = Some x → get8 s (a + Z.of_nat k) = Some x) →
  read_back (length xs) a s = Ret xs s.
Proof.
  revert a. induction xs as [|x xs IH]; intros a Hg; [done|]. cbn [length read_back].
  assert (rd8 a s = Ret x s) as E by (apply rd8_Ret; rewrite <-(Hg 0%nat x eq_refl); f_equal; lia).
  run E. run (IH (a + 1) ltac:(intros k y Hk; rewrite <-(Hg (Datatypes.S k) y Hk); f_equal; lia)). done.
Qed.

Lemma store_bytes_ok `{!ByteStoreLaws S} s a xs : mapped s a (Z.of_nat (length xs)) → Forall (λ x, 0 ≤ x < 256) xs →
  ∃ s', store_bytes a xs s = Ret tt s' ∧
    stores s s' ∧
    ∀ b, get8 s' b = if decide (a ≤ b < a + Z.of_nat (length xs)) then xs !! Z.to_nat (b - a) else get8 s b.
Proof.
  intros Hm HF. revert s a Hm. induction HF as [|x xs Hx _ IH]; intros s a Hm; cbn [store_bytes length] in *.
  - exists s. split; [done|]. split; [apply rtc_refl|]. intros b. by rewrite decide_False by lia.
  - destruct (Hm a) as [w Ew]; [lia|]. destruct (wr8_Ret s a x w Ew) as (s1 & E1 & H1).
    destruct (IH s1 (a + 1)) as (s2 & E2 & St & H2).
    { intros b Hb. rewrite H1. case_decide; [by eexists|]. apply Hm. lia. }
    exists s2. split; [by run E1|]. split; [unfold stores in *; etransitivity; [by eapply wr8_stores|done]|]. intros b. rewrite H2, H1, u8_small by done. destruct (decide (b = a)) as [->|Hne].
    + rewrite decide_False, decide_True by lia. by rewrite Z.sub_diag.
    + repeat case_decide; try done; try lia. by replace (Z.to_nat (b - a)) with (Datatypes.S (Z.to_nat (b - (a + 1)))) by lia.
Qed.
End byte_lists.
