(* ===== verification/Chain.v ===== *)
(** * Linked lists of eight-byte nodes

    The allocator's free list and the lists of
    [kernel/data_structures/list.c] have the same shape: a word in memory
    points at a node of two words, one of which points at the next node and
    ends the list when it is [NULL].  They differ in which of the two words
    is the link.  Walking, appending and unlinking are treated here once,
    over the layout. *)

From S2P Require Import Prelude Memory.

(** The word at [c] does not overlap the nodes of [L]. *)
Definition cell_apart (c : Z) (L : list (Z * Z)) : Prop :=
  Forall (λ b : Z * Z, c + 4 ≤ b.1 ∨ b.1 + 8 ≤ c) L.

(** Neither does the node at [a]. *)
Definition node_apart (a : Z) (L : list (Z * Z)) : Prop :=
  Forall (λ b : Z * Z, a + 8 ≤ b.1 ∨ b.1 + 8 ≤ a) L.

(** The nodes of [L] are apart from the [k] bytes at [x]. *)
Definition bytes_apart (x k : Z) (L : list (Z * Z)) : Prop :=
  Forall (λ b : Z * Z, b.1 + 8 ≤ x ∨ x + k ≤ b.1) L.

Lemma node_bytes_apart a L : node_apart a L ↔ bytes_apart a 8 L.
Proof. unfold node_apart, bytes_apart. rewrite !Forall_forall. split; intros Hb b Hin; specialize (Hb b Hin); lia. Qed.

(** Fewer bytes of a node or block are apart as well. *)
Lemma bytes_apart_sub x k y l L : bytes_apart x k L → x ≤ y → y + l ≤ x + k → bytes_apart y l L.
Proof. intros HL ? ?. eapply Forall_impl; [exact HL|]. simpl. lia. Qed.

Section chain.
Context {S : Type} `{ByteStoreLaws S}.
Implicit Types s : S.

(** The addresses of the link and of the data of the node at an address. *)
Variable link data : Z → Z.

(** From the word at [c] on the list has the nodes [L]: pairs of an address
    and the data kept there. *)
Fixpoint chain s (c : Z) (L : list (Z * Z)) : Prop :=
  match L with
  | [] => get32 s c = Some NULL
  | (a, n) :: L' =>
      get32 s c = Some a ∧ 0 < a < 2 ^ 32 - 8 ∧ get32 s (data a) = Some n ∧
      cell_apart c L ∧ node_apart a L' ∧ chain s (link a) L'
  end.

(** The word that ends the list. *)
Fixpoint last_cell (c : Z) (L : list (Z * Z)) : Z :=
  match L with
  | [] => c
  | (a, _) :: L' => last_cell (link a) L'
  end.

(** The word that holds the first pointer to a node or [NULL] is mapped. *)
Lemma chain_cell s c L : chain s c L → ∃ v, get32 s c = Some v ∧ (v = NULL ↔ L = []).
Proof.
  destruct L as [|[a n] L]; simpl; [by exists NULL|]. intros (E & Ha & _).
  exists a. split; [done|]. split; [unfold NULL; lia|done].
Qed.

Lemma chain_last s c L : chain s c L → get32 s (last_cell c L) = Some NULL.
Proof.
  revert c. induction L as [|[a n] L IH]; intros c; simpl; [done|].
  intros (_ & _ & _ & _ & _ & HL). by apply IH.
Qed.

(** A list that goes on from the last cell of another. *)
Lemma chain_app_inv s c L1 L2 : chain s c (L1 ++ L2) → chain s (last_cell c L1) L2.
Proof.
  revert c. induction L1 as [|[a n] L1 IH]; intros c HL; [done|].
  simpl in *. apply IH, HL.
Qed.

Lemma last_cell_app c L1 L2 : last_cell c (L1 ++ L2) = last_cell (last_cell c L1) L2.
Proof. revert c. induction L1 as [|[a n] L1 IH]; intros c; simpl; auto. Qed.

Hypothesis layout : ∀ a, link a = a ∧ data a = a + 4 ∨ link a = a + 4 ∧ data a = a.

(** The last cell is [c] or the link of one of the nodes. *)
Lemma last_cell_in c L : last_cell c L = c ∧ L = [] ∨ ∃ b, b ∈ L ∧ last_cell c L = link b.1.
Proof.
  revert c. induction L as [|[a n] L IH]; intros c; simpl; [by left|]. right.
  destruct (IH (link a)) as [[-> ->]|(b & Hb & ->)]; [exists (a, n)|exists b]; set_solver.
Qed.

Lemma last_cell_apart c L x k :
  x + k ≤ c ∨ c + 4 ≤ x → bytes_apart x k L → x + k ≤ last_cell c L ∨ last_cell c L + 4 ≤ x.
Proof.
  intros Hc HL. destruct (last_cell_in c L) as [[-> _]|(b & Hb & ->)]; [lia|].
  unfold bytes_apart in HL. rewrite Forall_forall in HL. specialize (HL b Hb). simpl in HL.
  pose proof (layout b.1). lia.
Qed.

(** Both words of every node are as before. *)
Definition same_nodes s s' (L : list (Z * Z)) : Prop :=
  Forall (λ b : Z * Z, get32 s' (link b.1) = get32 s (link b.1) ∧
                       get32 s' (data b.1) = get32 s (data b.1)) L.

Lemma same_but_nodes s s' x k L : same_but x k s s' → bytes_apart x k L → same_nodes s s' L.
Proof.
  intros Hs HL. eapply Forall_impl; [exact HL|]. intros b Hb. simpl in Hb.
  pose proof (layout b.1). split; apply get32_ext; intros y Hy; apply Hs; lia.
Qed.

Lemma chain_frame s s' c L :
  chain s c L → get32 s' c = get32 s c → same_nodes s s' L → chain s' c L.
Proof.
  intros HL Hc HF. revert c HL Hc.
  induction HF as [|[a n] L [Hb1 Hb2] HF IH]; intros c HL Hc; simpl in *; [congruence|].
  destruct HL as (E1 & E2 & E3 & E4 & E5 & HL).
  split_and!; [congruence|lia|lia|congruence|done|done|by apply IH].
Qed.

(** A list that begins at another cell. *)
Lemma chain_move s s' c c' L :
  chain s c L → get32 s' c' = get32 s c → cell_apart c' L → same_nodes s s' L → chain s' c' L.
Proof.
  intros HL Hc Hap HF. destruct L as [|[a n] L]; simpl in *; [congruence|].
  destruct HL as (H1 & H2 & H3 & H4 & H5 & H6).
  apply Forall_cons in HF as [[Hn1 Hn2] HF]. simpl in *.
  split_and!; [congruence|lia|lia|congruence|done|done|by apply (chain_frame s s')].
Qed.

Lemma chain_app_apart s c L1 L2 :
  chain s c (L1 ++ L2) → cell_apart c L1 ∧ cell_apart c L2 ∧ cell_apart (last_cell c L1) L2.
Proof.
  revert c. induction L1 as [|[a n] L1 IH]; intros c; simpl.
  - intros HL. assert (cell_apart c L2) by (destruct L2 as [|[]]; [constructor|apply HL]).
    split_and!; [constructor|done|done].
  - intros (_ & _ & _ & H4 & H5 & HL). destruct (IH (link a) HL) as (_ & _ & H3).
    apply Forall_cons in H4 as [? [? ?]%Forall_app].
    split_and!; [by constructor|done|done].
Qed.

(** What is known of a node in the middle of a list. *)
Lemma chain_node s c L1 a n L2 :
  chain s c (L1 ++ (a, n) :: L2) →
  get32 s (last_cell c L1) = Some a ∧ 0 < a < 2 ^ 32 - 8 ∧ get32 s (data a) = Some n ∧
  mapped s a 8 ∧ 0 ≤ n < 2 ^ 32.
Proof.
  intros HL%chain_app_inv. destruct HL as (E1 & [E2 E2'] & E3 & _ & _ & HL).
  split_and!; try done; [|by eapply get32_range..].
  destruct (chain_cell _ _ _ HL) as (v & Ev & _). intros x Hx. pose proof (layout a).
  destruct (decide (data a ≤ x < data a + 4)).
  - apply (get32_mapped _ _ _ E3). lia.
  - apply (get32_mapped _ _ _ Ev). lia.
Qed.

(** The first cell against a node: what every step of an induction needs. *)
Lemma last_cell_step c a n L :
  cell_apart c ((a, n) :: L) → node_apart a L →
  (c + 4 ≤ last_cell (link a) L ∨ last_cell (link a) L + 4 ≤ c) ∧
  (last_cell (link a) L = link a ∨ a + 8 ≤ last_cell (link a) L ∨ last_cell (link a) L + 4 ≤ a).
Proof.
  intros [H1 H2]%Forall_cons H3. simpl in H1. pose proof (layout a).
  destruct (last_cell_in (link a) L) as [[-> _]|(b & Hb & ->)]; [lia|].
  unfold node_apart in H3. rewrite Forall_forall in H2, H3.
  specialize (H2 b Hb). specialize (H3 b Hb). simpl in *. pose proof (layout b.1). lia.
Qed.

(** A node put at the end. *)
Lemma chain_append s s' c L b n :
  chain s c L → cell_apart c [(b, n)] → node_apart b L → 0 < b < 2 ^ 32 - 8 →
  (∀ x, ¬ (last_cell c L ≤ x < last_cell c L + 4) → ¬ (b ≤ x < b + 8) → get8 s' x = get8 s x) →
  get32 s' (last_cell c L) = Some b → get32 s' (link b) = Some NULL → get32 s' (data b) = Some n →
  chain s' c (L ++ [(b, n)]).
Proof.
  intros HL Hcb Hb Hr Hs Hl Hbn Hsz. revert c HL Hcb Hs Hl.
  induction L as [|[a k] L IH]; intros c HL Hcb Hs Hl; simpl in *.
  - split_and!; [done|lia|lia|done|done|constructor|done].
  - destruct HL as (H1 & H2 & H3 & H4 & H5 & H6). pose proof (layout a).
    apply Forall_cons in Hb as [Hb HbL]. simpl in Hb.
    pose proof Hcb as Hcb'. apply Forall_cons in Hcb' as [Hcb' _]. simpl in Hcb'.
    destruct (last_cell_step _ _ _ _ H4 H5) as [Hcl Hal].
    split_and!.
    + rewrite <-H1. apply get32_ext. intros x Hx. apply Hs; lia.
    + lia.
    + lia.
    + rewrite <-H3. apply get32_ext. intros x Hx. apply Hs; lia.
    + apply (Forall_app _ ((a, k) :: L) [(b, n)]). by split.
    + apply Forall_app. split; [done|]. apply Forall_singleton. simpl. lia.
    + apply IH; try done. apply Forall_singleton. simpl. lia.
Qed.

(** The node after [L1] taken out. *)
Lemma chain_unlink s s' c L1 a n L2 :
  chain s c (L1 ++ (a, n) :: L2) →
  same_but (last_cell c L1) 4 s s' →
  get32 s' (last_cell c L1) = get32 s (link a) →
  chain s' c (L1 ++ L2).
Proof.
  intros HL Hs Hc. revert c HL Hs Hc. induction L1 as [|[a0 n0] L1 IH]; intros c HL Hs Hc; simpl in *.
  - destruct HL as (H1 & H2 & H3 & H4 & H5 & H6). apply Forall_cons in H4 as [H4 H4'].
    apply (chain_move s s' (link a)); [done|done|done|].
    apply (same_but_nodes s s' c 4); [done|]. eapply Forall_impl; [exact H4'|]. simpl. lia.
  - destruct HL as (H1 & H2 & H3 & H4 & H5 & H6). pose proof (layout a0).
    apply Forall_cons in H4 as [H4 H4']. simpl in H4. apply Forall_app in H4' as [H41 H42].
    apply Forall_cons in H42 as [_ H42].
    apply Forall_app in H5 as [H51 H52]. apply Forall_cons in H52 as [_ H52].
    destruct (last_cell_step c a0 n0 L1) as [Hcl Hal]; [by apply Forall_cons|done|].
    split_and!.
    + rewrite <-H1. apply get32_ext. intros x Hx. apply Hs. lia.
    + lia.
    + lia.
    + rewrite <-H3. apply get32_ext. intros x Hx. apply Hs. lia.
    + apply Forall_cons. split; [done|]. by apply Forall_app.
    + by apply Forall_app.
    + by apply IH.
Qed.

(** A change of the data of one node, and of bytes the list does not use. *)
Lemma chain_set_data s s' c L1 a n n' L2 x k :
  chain s c (L1 ++ (a, n) :: L2) →
  (∀ y, ¬ (data a ≤ y < data a + 4) → ¬ (x ≤ y < x + k) → get8 s' y = get8 s y) →
  get32 s' (data a) = Some n' →
  c + 4 ≤ x ∨ x + k ≤ c → a + 8 ≤ x ∨ x + k ≤ a → bytes_apart x k (L1 ++ L2) →
  chain s' c (L1 ++ (a, n') :: L2).
Proof.
  intros HL Hs Hn' Hc Ha Hx. pose proof (layout a).
  assert (∀ y, y + 4 ≤ a ∨ a + 8 ≤ y ∨ y = link a → y + 4 ≤ x ∨ x + k ≤ y →
    get32 s' y = get32 s y) as Hw.
  { intros y Hy1 Hy2. apply get32_ext. intros z Hz. apply Hs; lia. }
  revert c HL Hc. induction L1 as [|[a0 n0] L1 IH]; intros c HL Hc; simpl in *.
  - destruct HL as (E1 & E2 & _ & E4 & E5 & HL). pose proof E4 as E4'.
    apply Forall_cons in E4' as [E4' _]. simpl in E4'.
    split_and!; [rewrite Hw; [done|lia|lia]|lia|lia|done|by apply Forall_cons; apply Forall_cons in E4|done|].
    apply (chain_frame s s'); [done|apply Hw; lia|].
    apply Forall_forall. intros b Hb.
    unfold node_apart in E5. unfold bytes_apart in Hx. rewrite Forall_forall in Hx, E5.
    specialize (Hx b Hb). specialize (E5 b Hb). simpl in *. pose proof (layout b.1).
    split; apply Hw; lia.
  - destruct HL as (E1 & E2 & E3 & E4 & E5 & HL). pose proof (layout a0).
    apply Forall_cons in Hx as [Hx0 Hx]. simpl in Hx0.
    apply Forall_cons in E4 as [E40 E4]. apply Forall_app in E4 as [E41 E42].
    apply Forall_cons in E42 as [E43 E42].
    apply Forall_app in E5 as [E51 E52]. apply Forall_cons in E52 as [E53 E52]. simpl in *.
    split_and!; [rewrite Hw; [done|lia|lia]|lia|lia| | | |].
    + rewrite Hw; [done|lia|lia].
    + apply Forall_cons. split; [done|]. apply Forall_app. split; [done|]. by apply Forall_cons.
    + apply Forall_app. split; [done|]. by apply Forall_cons.
    + apply IH; [done|done|lia].
Qed.

(** A node whose words are both overwritten by zero ends the list. *)
Lemma chain_truncate s s' c L1 a n L2 :
  chain s c (L1 ++ (a, n) :: L2) → same_but a 8 s s' →
  get32 s' (link a) = Some NULL → get32 s' (data a) = Some 0 →
  chain s' c (L1 ++ [(a, 0)]).
Proof.
  intros HL Hs H1 H2.
  assert (∀ y, y + 4 ≤ a ∨ a + 8 ≤ y → get32 s' y = get32 s y) as Hw.
  { intros y Hy. apply get32_ext. intros z Hz. apply Hs; lia. }
  revert c HL. induction L1 as [|[a0 n0] L1 IH]; intros c HL; simpl in *.
  - destruct HL as (E1 & E2 & _ & E4 & _ & _). apply Forall_cons in E4 as [E4 _]. simpl in E4.
    split_and!; [rewrite Hw; [done|lia]|lia|lia|done|by apply Forall_singleton|constructor|done].
  - destruct HL as (E1 & E2 & E3 & E4 & E5 & HL). pose proof (layout a0).
    apply Forall_cons in E4 as [E40 E4]. apply Forall_app in E4 as [E41 E42].
    apply Forall_cons in E42 as [E43 E42].
    apply Forall_app in E5 as [E51 E52]. apply Forall_cons in E52 as [E53 E52]. simpl in *.
    split_and!; [rewrite Hw; [done|lia]|lia|lia|rewrite Hw; [done|lia]| | |by apply IH].
    + apply Forall_cons. split; [done|]. apply Forall_app. split; [done|]. by apply Forall_singleton.
    + apply Forall_app. split; [done|]. by apply Forall_singleton.
Qed.
End chain.

(** Closed facts about concrete lists. *)
Ltac chain_by_computation :=
  repeat lazymatch goal with
  | |- chain _ _ _ _ _ => cbn [chain]
  | |- _ ∧ _ => split
  | |- cell_apart _ _ => unfold cell_apart
  | |- node_apart _ _ => unfold node_apart
  | |- bytes_apart _ _ _ => unfold bytes_apart
  | |- Forall _ [] => constructor
  | |- Forall _ (_ :: _) => apply Forall_cons_2; cbv beta
  | |- _ ∨ _ => first [left; vm_compute; discriminate | right; vm_compute; discriminate]
  | |- _ ≤ _ => vm_compute; discriminate
  | |- _ => vm_compute; reflexivity
  end.
