(* ===== verification/CString.v ===== *)
(** * C strings: [libc/string.c]

    The routines run on the bytes of memory.  [char] is signed: a byte is
    compared and subtracted as [i8].  The static variable of [strtok] is
    passed in and out.  Every loop takes fuel; for the loops that end, the
    length of the string is enough ([dfuel] is the fuel of the inner loop,
    over the string of delimiters). *)

From S2P Require Import Prelude Memory.

Section string_c.
Context {S : Type} `{ByteStore S}.

Fixpoint strcpy (fuel : nat) (dest source : Z) : M S Z :=
  match fuel with
  | O => mtimeout
  | Datatypes.S fuel' =>
      c ← rd8 source;
      wr8 dest c ;;
      if negb (c =? 0) then strcpy fuel' (u32 (dest + 1)) (u32 (source + 1))
      else mret (u32 (dest + 1))
  end.

Fixpoint strncpy (fuel : nat) (dest source num : Z) : M S Z :=
  match fuel with
  | O => mtimeout
  | Datatypes.S fuel' =>
      c ← rd8 source;
      wr8 dest c ;;
      if negb (c =? 0) && (num >? 0)
      then strncpy fuel' (u32 (dest + 1)) (u32 (source + 1)) (num - 1)
      else mret (u32 (dest + 1))
  end.

(** [*str1 != 0 && *str2 != 0] *)
Definition both_nonzero (str1 str2 : Z) : M S bool :=
  c1 ← rd8 str1;
  if c1 =? 0 then mret false
  else
    c2 ← rd8 str2;
    mret (negb (c2 =? 0)).

Fixpoint strcmp (fuel : nat) (str1 str2 : Z) : M S Z :=
  match fuel with
  | O => mtimeout
  | Datatypes.S fuel' =>
      go ← both_nonzero str1 str2;
      c1 ← rd8 str1;
      c2 ← rd8 str2;
      if (go : bool) then
        if negb (i8 c1 =? i8 c2) then mret (i8 c1 - i8 c2)
        else strcmp fuel' (u32 (str1 + 1)) (u32 (str2 + 1))
      else if negb (c2 =? 0) then mret (-1)
      else if negb (c1 =? 0) then mret 1
      else mret 0
  end.

Definition strncmp (fuel : nat) (str1 str2 max_length : Z) : M S Z :=
  wr8 (u32 (str1 + u32 (max_length - 1))) 0 ;;
  wr8 (u32 (str2 + u32 (max_length - 1))) 0 ;;
  strcmp fuel str1 str2.

Fixpoint char_in_string (fuel : nat) (character str : Z) : M S bool :=
  match fuel with
  | O => mtimeout
  | Datatypes.S fuel' =>
      c ← rd8 str;
      if c =? 0 then mret false
      else if i8 c =? character then mret true
      else char_in_string fuel' character (u32 (str + 1))
  end.

Fixpoint strpbrk (fuel dfuel : nat) (str1 str2 : Z) : M S Z :=
  match fuel with
  | O => mtimeout
  | Datatypes.S fuel' =>
      c ← rd8 str1;
      if c =? 0 then mret NULL
      else
        found ← char_in_string dfuel (i8 c) str2;
        if (found : bool) then mret str1 else strpbrk fuel' dfuel (u32 (str1 + 1)) str2
  end.

Fixpoint strspn_loop (fuel dfuel : nat) (str1 str2 number_of_chars : Z) : M S Z :=
  match fuel with
  | O => mtimeout
  | Datatypes.S fuel' =>
      c ← rd8 str1;
      if c =? 0 then mret number_of_chars
      else
        found ← char_in_string dfuel (i8 c) str2;
        if negb found then mret number_of_chars
        else strspn_loop fuel' dfuel (u32 (str1 + 1)) str2 (u32 (number_of_chars + 1))
  end.

Definition strspn (fuel dfuel : nat) (str1 str2 : Z) : M S Z := strspn_loop fuel dfuel str1 str2 0.

Fixpoint strchr (fuel : nat) (str character : Z) : M S Z :=
  match fuel with
  | O => mtimeout
  | Datatypes.S fuel' =>
      c ← rd8 str;
      if c =? 0 then mret NULL
      else if i8 c =? character then mret str
      else strchr fuel' (u32 (str + 1)) character
  end.

(** The result is the token and the new value of [old_str]. *)
Definition strtok (fuel dfuel : nat) (str delimiters old_str : Z) : M S (Z * Z) :=
  let str := if str =? NULL then old_str else str in
  n ← strspn fuel dfuel str delimiters;
  let str := u32 (str + n) in
  c ← rd8 str;
  if c =? 0 then mret (NULL, old_str)
  else
    token ← strpbrk fuel dfuel str delimiters;
    if token =? NULL then
      old_str ← strchr fuel str 0;
      mret (str, old_str)
    else
      wr8 token 0 ;;
      mret (str, u32 (token + 1)).

(** The loop never moves [str]. *)
Fixpoint count_chars_loop (fuel : nat) (str character count : Z) : M S Z :=
  match fuel with
  | O => mtimeout
  | Datatypes.S fuel' =>
      c ← rd8 str;
      if c =? 0 then mret count
      else count_chars_loop fuel' str character (if i8 c =? character then u32 (count + 1) else count)
  end.

Definition count_chars (fuel : nat) (str character : Z) : M S Z :=
  count_chars_loop fuel str character 0.

Fixpoint strstr_loop (fuel : nat) (haystack needle needle_iter substr : Z) : M S Z :=
  match fuel with
  | O => mtimeout
  | Datatypes.S fuel' =>
      go ← both_nonzero haystack needle;
      if (go : bool) then
        ni ← rd8 needle_iter;
        h ← rd8 haystack;
        if i8 ni =? i8 h
        then strstr_loop fuel' haystack needle (u32 (needle_iter + 1))
               (if substr =? NULL then haystack else substr)
        else strstr_loop fuel' haystack needle needle NULL
      else mret substr
  end.

Definition strstr (fuel : nat) (haystack needle : Z) : M S Z :=
  if (haystack =? NULL) || (needle =? NULL) then mret NULL
  else strstr_loop fuel haystack needle needle NULL.

Fixpoint strlen_loop (fuel : nat) (str counter : Z) : M S Z :=
  match fuel with
  | O => mtimeout
  | Datatypes.S fuel' =>
      c ← rd8 str;
      if c =? 0 then mret counter else strlen_loop fuel' (u32 (str + 1)) (u32 (counter + 1))
  end.

Definition strlen (fuel : nat) (str : Z) : M S Z := strlen_loop fuel str 0.
End string_c.

(** ** Strings in memory *)

Section strings.
Context {S : Type} `{ByteStoreLaws S}.
Implicit Types s : S.

(** The bytes [xs], none of them zero, and a zero byte, from [p] on. *)
Fixpoint cstr s (p : Z) (xs : list Z) : Prop :=
  0 ≤ p < 2 ^ 32 - 1 ∧
  match xs with
  | [] => get8 s p = Some 0
  | x :: xs' => x ≠ 0 ∧ get8 s p = Some x ∧ cstr s (p + 1) xs'
  end.

Definition first_byte (xs : list Z) : Z := match xs with [] => 0 | x :: _ => x end.

Lemma cstr_first s p xs : cstr s p xs → get8 s p = Some (first_byte xs).
Proof. destruct xs; simpl; tauto. Qed.

Lemma cstr_range s p xs : cstr s p xs → 0 ≤ p ∧ p + Z.of_nat (length xs) < 2 ^ 32 - 1.
Proof.
  revert p. induction xs as [|x xs IH]; intros p; simpl; [lia|]. intros (Hp & _ & _ & Hx).
  apply IH in Hx. lia.
Qed.

Lemma cstr_bytes s p xs : cstr s p xs → Forall (λ x, 0 < x < 256) xs.
Proof.
  revert p. induction xs as [|x xs IH]; intros p; simpl; [constructor|]. intros (_ & Hx & E & Hxs).
  constructor; [|by eapply IH]. apply get8_range in E. lia.
Qed.

Lemma cstr_app s p xs ys :
  cstr s p (xs ++ ys) → cstr s (p + Z.of_nat (length xs)) ys.
Proof.
  revert p. induction xs as [|x xs IH]; intros p Hc; simpl in *; [by rewrite Z.add_0_r|].
  destruct Hc as (_ & _ & _ & Hc). apply IH in Hc.
  by replace (p + Z.of_nat (Datatypes.S (length xs))) with (p + 1 + Z.of_nat (length xs)) by lia.
Qed.

Lemma cstr_ext s s' p xs :
  cstr s p xs → (∀ b, p ≤ b ≤ p + Z.of_nat (length xs) → get8 s' b = get8 s b) → cstr s' p xs.
Proof.
  revert p. induction xs as [|x xs IH]; intros p Hc He; simpl in *.
  - destruct Hc as (Hp & E). rewrite He by lia. done.
  - destruct Hc as (Hp & Hx & E & Hc). rewrite He by lia. do 3 (split; [done|]).
    apply IH; [done|]. intros b Hb. apply He. lia.
Qed.

(** A zero byte cuts a string short. *)
Lemma cstr_cut s s' p xs ys :
  cstr s p (xs ++ ys) → get8 s' (p + Z.of_nat (length xs)) = Some 0 →
  (∀ b, p ≤ b < p + Z.of_nat (length xs) → get8 s' b = get8 s b) → cstr s' p xs.
Proof.
  revert p. induction xs as [|x xs IH]; intros p Hc Hz He; simpl in *.
  - rewrite Z.add_0_r in Hz. split; [|done]. apply cstr_range in Hc. lia.
  - destruct Hc as (Hp & Hx & E & Hc). rewrite He by lia. do 3 (split; [done|]).
    apply IH; [done| |].
    + by replace (p + 1 + Z.of_nat (length xs)) with (p + Z.of_nat (Datatypes.S (length xs))) by lia.
    + intros b Hb. apply He. lia.
Qed.

Lemma i8_inj x y : 0 ≤ x < 256 → 0 ≤ y < 256 → i8 x = i8 y → x = y.
Proof. intros Hx Hy. unfold i8. change (2 ^ 7) with 128. change (2 ^ 8) with 256. intros. dlia. Qed.

Lemma i8_zero x : 0 ≤ x < 256 → i8 x = 0 ↔ x = 0.
Proof. intros Hx. split; [intros E; by apply i8_inj|by intros ->]. Qed.

(** *** Comparison *)

Fixpoint strcmp_ref (xs ys : list Z) : Z :=
  match xs, ys with
  | [], [] => 0
  | [], _ :: _ => -1
  | _ :: _, [] => 1
  | x :: xs', y :: ys' => if decide (x = y) then strcmp_ref xs' ys' else i8 x - i8 y
  end.

Lemma strcmp_ok fuel s p q xs ys :
  cstr s p xs → cstr s q ys → (length xs < fuel)%nat → strcmp fuel p q s = Ret (strcmp_ref xs ys) s.
Proof.
  revert p q xs ys. induction fuel as [|fuel IH]; intros p q xs ys Hx Hy Hf; [lia|].
  cbn [strcmp]. unfold both_nonzero.
  pose proof (rd8_Ret _ _ _ (cstr_first _ _ _ Hx)) as Rx.
  pose proof (rd8_Ret _ _ _ (cstr_first _ _ _ Hy)) as Ry. rewrite bind_assoc. run Rx.
  destruct xs as [|x xs]; cbn [first_byte] in *.
  - rewrite Z.eqb_refl, bind_ret_l. run Rx. run Ry. destruct ys as [|y ys]; [done|].
    destruct Hy as (_ & Hy & _). cbn. by rewrite (proj2 (Z.eqb_neq y 0)).
  - pose proof (cstr_bytes _ _ _ Hx) as [Hxr _]%Forall_cons. destruct Hx as (Hp & Hx0 & _ & Hx).
    rewrite (proj2 (Z.eqb_neq x 0)) by done. rewrite bind_assoc. run Ry. rewrite bind_ret_l.
    run Rx. run Ry. destruct ys as [|y ys]; cbn [first_byte].
    + simpl. by rewrite (proj2 (Z.eqb_neq x 0)).
    + pose proof (cstr_bytes _ _ _ Hy) as [Hyr _]%Forall_cons. destruct Hy as (Hq & Hy0 & _ & Hy).
      rewrite (proj2 (Z.eqb_neq y 0)) by done. cbn [negb strcmp_ref].
      destruct (Z.eqb_spec (i8 x) (i8 y)) as [E|E]; cbn [negb].
      * rewrite decide_True by (apply i8_inj; lia). rewrite !u32_small by lia.
        apply IH; [done|done|simpl in Hf; lia].
      * by rewrite decide_False by congruence.
Qed.

Lemma strcmp_ref_zero xs ys :
  Forall (λ x, 0 < x < 256) xs → Forall (λ x, 0 < x < 256) ys → strcmp_ref xs ys = 0 ↔ xs = ys.
Proof.
  intros Hx. revert ys. induction Hx as [|x xs Hx Hxs IH]; intros ys Hy.
  - by destruct Hy.
  - destruct Hy as [|y ys Hy Hys]; simpl; [done|]. case_decide as E.
    + subst. rewrite IH by done. split; [by intros ->|by intros [= ->]].
    + split; [|congruence]. intros Hd. destruct E. apply i8_inj; lia.
Qed.

(** The relation is antisymmetric up to sign, as an order needs. *)
Lemma strcmp_ref_opp xs ys : Z.sgn (strcmp_ref ys xs) = - Z.sgn (strcmp_ref xs ys).
Proof.
  revert ys. induction xs as [|x xs IH]; intros [|y ys]; simpl; try done.
  destruct (decide (x = y)) as [->|Hne].
  - rewrite decide_True by done. apply IH.
  - rewrite decide_False by congruence. rewrite <-Z.sgn_opp. f_equal. lia.
Qed.

(** *** Bounded copying *)

(** [s'] is [s] with the bytes [xs] stored from [d] on. *)
Definition stored_bytes (d : Z) (xs : list Z) s s' : Prop :=
  (∀ i x, xs !! i = Some x → get8 s' (d + Z.of_nat i) = Some x) ∧
  (∀ b, ¬ (d ≤ b < d + Z.of_nat (length xs)) → get8 s' b = get8 s b).

Lemma stored_bytes_cons d x xs s s1 s2 :
  get8 s1 d = Some x → (∀ b, b ≠ d → get8 s1 b = get8 s b) →
  stored_bytes (d + 1) xs s1 s2 → stored_bytes d (x :: xs) s s2.
Proof.
  intros Hd Hb [H1 H2]. split.
  - intros [|i] y; simpl.
    + intros [= <-]. rewrite H2 by lia. by rewrite Z.add_0_r.
    + intros Hi. apply H1 in Hi. replace (d + Z.of_nat (Datatypes.S i)) with (d + 1 + Z.of_nat i) by lia. done.
  - intros b Hr. simpl in Hr. rewrite H2 by lia. apply Hb. lia.
Qed.

(** The bytes [strncpy] moves. *)
Definition strncpy_bytes (num : Z) (xs : list Z) : list Z := take (Z.to_nat (num + 1)) (xs ++ [0]).

Lemma strncpy_ok fuel s d p xs num :
  cstr s p xs → (length xs < fuel)%nat → 0 ≤ num → 0 ≤ d →
  d + Z.of_nat (length (strncpy_bytes num xs)) < 2 ^ 32 →
  mapped s d (Z.of_nat (length (strncpy_bytes num xs))) →
  d + Z.of_nat (length (strncpy_bytes num xs)) ≤ p ∨ p + Z.of_nat (length xs) < d →
  ∃ s', strncpy fuel d p num s = Ret (d + Z.of_nat (length (strncpy_bytes num xs))) s' ∧
    stored_bytes d (strncpy_bytes num xs) s s'.
Proof.
  revert s d p xs num. induction fuel as [|fuel IH]; intros s d p xs num Hc Hf Hn Hd Hr Hm Hdis; [lia|].
  cbn [strncpy]. pose proof (cstr_first _ _ _ Hc) as E. run (rd8_Ret _ _ _ E).
  assert (0 ≤ first_byte xs < 256) as Hfb by (by eapply get8_range).
  assert (strncpy_bytes num xs = first_byte xs :: if (num =? 0) || (first_byte xs =? 0) then []
            else strncpy_bytes (num - 1) (tail xs)) as Hb.
  { unfold strncpy_bytes. replace (Z.to_nat (num + 1)) with (Datatypes.S (Z.to_nat num)) by lia.
    destruct xs as [|x xs]; simpl; [by rewrite orb_true_r, firstn_nil|]. destruct Hc as (_ & Hx & _).
    rewrite (proj2 (Z.eqb_neq x 0)), orb_false_r by done. f_equal.
    destruct (Z.eqb_spec num 0) as [->|]; [done|]. by replace (Z.to_nat (num - 1 + 1)) with (Z.to_nat num) by lia. }
  rewrite Hb in Hr, Hm, Hdis |- *. clear Hb. cbn [length] in *.
  destruct (Hm d) as [w Ew]; [lia|].
  destruct (wr8_Ret s d (first_byte xs) w Ew) as (s1 & E1 & W1). run E1.
  assert (get8 s1 d = Some (first_byte xs)) as G1 by (by rewrite W1, decide_True, u8_small by done).
  assert (∀ b, b ≠ d → get8 s1 b = get8 s b) as G2 by (intros b Hb; by rewrite W1, decide_False by done).
  destruct (Z.eqb_spec (first_byte xs) 0) as [Hz|Hz]; cbn [negb andb].
  { rewrite orb_true_r in *. exists s1. rewrite u32_small by (simpl in Hr; lia). split; [done|].
    apply (stored_bytes_cons d _ [] s s1 s1); [done|done|]. split; [done|]. intros b _. done. }
  destruct xs as [|x xs]; [done|]. destruct Hc as (Hp & Hx & _ & Hc). cbn [first_byte tail] in *.
  rewrite Z.gtb_ltb. destruct (Z.ltb_spec 0 num) as [Hn0|Hn0].
  - rewrite (proj2 (Z.eqb_neq num 0)) in * by lia. cbn [orb] in *.
    rewrite !u32_small by lia.
    destruct (IH s1 (d + 1) (p + 1) xs (num - 1)) as (s2 & E2 & W2); try lia.
    + apply (cstr_ext s); [done|]. intros b Hb. apply G2. simpl in Hdis. lia.
    + simpl in Hf. lia.
    + intros b Hb. rewrite G2 by lia. apply Hm. lia.
    + simpl in Hdis. lia.
    + exists s2. split; [rewrite E2; f_equal; lia|]. by apply (stored_bytes_cons d x _ s s1 s2).
  - assert (num = 0) as -> by lia. simpl in *. exists s1. rewrite u32_small by lia. split; [done|].
    apply (stored_bytes_cons d x [] s s1 s1); [done|done|]. split; [done|]. intros b _. done.
Qed.

(** *** Searching *)

Lemma char_in_string_ok fuel s q ds x :
  cstr s q ds → (length ds < fuel)%nat → 0 ≤ x < 256 →
  char_in_string fuel (i8 x) q s = Ret (bool_decide (x ∈ ds)) s.
Proof.
  revert q ds. induction fuel as [|fuel IH]; intros q ds Hc Hf Hx; [lia|]. cbn [char_in_string].
  pose proof (cstr_first _ _ _ Hc) as E. run (rd8_Ret _ _ _ E).
  destruct ds as [|d ds]; cbn [first_byte] in *.
  - rewrite Z.eqb_refl. rewrite bool_decide_eq_false_2; [done|]. by intros ?%not_elem_of_nil.
  - pose proof (get8_range _ _ _ E). destruct Hc as (Hq & Hd & _ & Hc).
    rewrite (proj2 (Z.eqb_neq d 0)) by done.
    destruct (Z.eqb_spec (i8 d) (i8 x)) as [Ed|Ed].
    + apply i8_inj in Ed as ->; [|done|done]. by rewrite bool_decide_eq_true_2 by left.
    + simpl in Hf. rewrite u32_small, (IH _ ds) by (done || lia). f_equal.
      apply bool_decide_ext. rewrite elem_of_cons. split; [by right|]. by intros [->|].
Qed.

(** The characters of [xs] before its first in, or not in, a set. *)
Definition starts (P : Z → Prop) (xs : list Z) : Prop := ∃ x xs', xs = x :: xs' ∧ P x.

Lemma strspn_loop_ok fuel dfuel s p q pre rest ds k :
  cstr s p (pre ++ rest) → cstr s q ds → (length pre < fuel)%nat → (length ds < dfuel)%nat →
  Forall (.∈ ds) pre → (rest = [] ∨ starts (.∉ ds) rest) →
  0 ≤ k → k + Z.of_nat (length pre) < 2 ^ 32 →
  strspn_loop fuel dfuel p q k s = Ret (k + Z.of_nat (length pre)) s.
Proof.
  intros Hc Hq Hf Hdf HF Hr. revert p k fuel Hc Hf.
  induction HF as [|x pre Hx HF IH]; intros p k [|fuel] Hc Hf Hk Hlt; simpl in Hf; try lia;
    cbn [strspn_loop]; pose proof (cstr_first _ _ _ Hc) as E; run (rd8_Ret _ _ _ E);
    pose proof (get8_range _ _ _ E) as Hrg.
  - rewrite Z.add_0_r. destruct Hr as [->|(y & ys & -> & Hy)]; cbn [first_byte app] in *; [done|].
    destruct Hc as (_ & Hy0 & _). rewrite (proj2 (Z.eqb_neq y 0)) by done.
    run (char_in_string_ok dfuel s q ds y Hq Hdf Hrg). by rewrite bool_decide_eq_false_2.
  - cbn [first_byte app] in *. destruct Hc as (Hp & Hx0 & _ & Hc). rewrite (proj2 (Z.eqb_neq x 0)) by done.
    run (char_in_string_ok dfuel s q ds x Hq Hdf Hrg). rewrite bool_decide_eq_true_2 by done.
    cbn [negb length] in *. rewrite !u32_small by lia. rewrite IH by (done || lia). f_equal. lia.
Qed.

Lemma strpbrk_ok fuel dfuel s p q tok rest ds :
  cstr s p (tok ++ rest) → cstr s q ds → (length tok < fuel)%nat → (length ds < dfuel)%nat →
  Forall (.∉ ds) tok → (rest = [] ∨ starts (.∈ ds) rest) →
  strpbrk fuel dfuel p q s = Ret (match rest with [] => NULL | _ => p + Z.of_nat (length tok) end) s.
Proof.
  intros Hc Hq Hf Hdf HF Hr. revert p fuel Hc Hf.
  induction HF as [|x tok Hx HF IH]; intros p [|fuel] Hc Hf; simpl in Hf; try lia;
    cbn [strpbrk]; pose proof (cstr_first _ _ _ Hc) as E; run (rd8_Ret _ _ _ E);
    pose proof (get8_range _ _ _ E) as Hrg.
  - destruct Hr as [->|(y & ys & -> & Hy)]; cbn [first_byte app] in *; [done|].
    destruct Hc as (_ & Hy0 & _). rewrite (proj2 (Z.eqb_neq y 0)) by done.
    run (char_in_string_ok dfuel s q ds y Hq Hdf Hrg). rewrite bool_decide_eq_true_2 by done.
    simpl. by rewrite Z.add_0_r.
  - cbn [first_byte app] in *. destruct Hc as (Hp & Hx0 & _ & Hc). rewrite (proj2 (Z.eqb_neq x 0)) by done.
    run (char_in_string_ok dfuel s q ds x Hq Hdf Hrg). rewrite bool_decide_eq_false_2 by done.
    rewrite u32_small, IH by (done || lia). destruct rest; [done|]. f_equal. simpl. lia.
Qed.

Lemma strchr_zero fuel s p xs :
  cstr s p xs → (length xs < fuel)%nat → strchr fuel p 0 s = Ret NULL s.
Proof.
  revert p xs. induction fuel as [|fuel IH]; intros p xs Hc Hf; [lia|]. cbn [strchr].
  pose proof (cstr_first _ _ _ Hc) as E. run (rd8_Ret _ _ _ E). pose proof (get8_range _ _ _ E) as Hr.
  destruct xs as [|x xs]; [done|]. destruct Hc as (Hp & Hx & _ & Hc). cbn [first_byte] in *.
  rewrite (proj2 (Z.eqb_neq x 0)) by done.
  rewrite (proj2 (Z.eqb_neq (i8 x) 0)) by (by rewrite i8_zero).
  rewrite u32_small by lia. apply (IH _ xs); [done|simpl in Hf; lia].
Qed.
End strings.

(** ** Properties *)

Section properties.
Context {S : Type} `{ByteStoreLaws S}.
Implicit Types s : S.

(** C36.  [strcmp] ends, compares the strings character by character, as signed
    characters, a proper prefix being less; the result is 0 exactly for equal
    strings, and its sign changes when the arguments are swapped. *)
Theorem strcmp_spec fuel s p q xs ys :
  cstr s p xs → cstr s q ys → (length xs < fuel)%nat → (length ys < fuel)%nat →
  strcmp fuel p q s = Ret (strcmp_ref xs ys) s ∧
  (strcmp_ref xs ys = 0 ↔ xs = ys) ∧
  ∃ r, strcmp fuel q p s = Ret r s ∧ Z.sgn r = - Z.sgn (strcmp_ref xs ys).
Proof.
  intros Hx Hy Hf1 Hf2. split_and!.
  - by apply strcmp_ok.
  - apply strcmp_ref_zero; by eapply cstr_bytes.
  - exists (strcmp_ref ys xs). split; [by apply strcmp_ok|apply strcmp_ref_opp].
Qed.

(** [strncmp(str1, str2, n)] compares at most [n - 1] characters, and cuts
    both of its arguments off after them. *)
Theorem strncmp_truncates fuel s p q xs ys n :
  cstr s p xs → cstr s q ys →
  1 ≤ n → n - 1 ≤ Z.of_nat (length xs) → n - 1 ≤ Z.of_nat (length ys) →
  p + Z.of_nat (length xs) < q ∨ q + Z.of_nat (length ys) < p →
  (Z.to_nat n ≤ fuel)%nat →
  let xs' := take (Z.to_nat (n - 1)) xs in
  let ys' := take (Z.to_nat (n - 1)) ys in
  ∃ s', strncmp fuel p q n s = Ret (strcmp_ref xs' ys') s' ∧ cstr s' p xs' ∧ cstr s' q ys'.
Proof.
  intros Hx Hy Hn Hnx Hny Hdis Hf xs' ys'.
  pose proof (cstr_range _ _ _ Hx). pose proof (cstr_range _ _ _ Hy).
  assert (Z.of_nat (length xs') = n - 1) as Lx by (unfold xs'; rewrite length_take; lia).
  assert (Z.of_nat (length ys') = n - 1) as Ly by (unfold ys'; rewrite length_take; lia).
  rewrite <-(take_drop (Z.to_nat (n - 1)) xs) in Hx. rewrite <-(take_drop (Z.to_nat (n - 1)) ys) in Hy.
  fold xs' in Hx. fold ys' in Hy.
  pose proof (cstr_app _ _ _ _ Hx) as Dx. rewrite Lx in Dx.
  pose proof (cstr_app _ _ _ _ Hy) as Dy. rewrite Ly in Dy.
  destruct (wr8_Ret s (p + (n - 1)) 0 (first_byte (drop (Z.to_nat (n - 1)) xs))) as (s1 & E1 & W1).
  { by apply cstr_first. }
  destruct (wr8_Ret s1 (q + (n - 1)) 0 (first_byte (drop (Z.to_nat (n - 1)) ys))) as (s2 & E2 & W2).
  { rewrite W1, decide_False by lia. by apply cstr_first. }
  assert (cstr s2 p xs' ∧ cstr s2 q ys') as [Hx' Hy'].
  { split; [apply (cstr_cut s s2 p xs' _ Hx)|apply (cstr_cut s s2 q ys' _ Hy)].
    - by rewrite W2, decide_False, W1, decide_True by lia.
    - intros b Hb. by rewrite W2, decide_False, W1, decide_False by lia.
    - by rewrite W2, decide_True by lia.
    - intros b Hb. by rewrite W2, decide_False, W1, decide_False by lia. }
  exists s2. split; [|done]. unfold strncmp. rewrite (u32_small (n - 1)), !u32_small by lia.
  run E1. run E2. apply strcmp_ok; [done|done|lia].
Qed.

(** [strncpy(dest, source, num)] stores the first [num + 1] bytes of the
    source and its terminator, and nothing else: one byte more than asked
    for, and no terminator unless the string is short enough.  It returns the
    address after the last byte stored. *)
Theorem strncpy_spec fuel s d p xs num :
  cstr s p xs → (length xs < fuel)%nat → 0 ≤ num → 0 ≤ d →
  let bytes := take (Z.to_nat (num + 1)) (xs ++ [0]) in
  let n := Z.of_nat (length bytes) in
  d + n < 2 ^ 32 → mapped s d n → d + n ≤ p ∨ p + Z.of_nat (length xs) < d →
  ∃ s', strncpy fuel d p num s = Ret (d + n) s' ∧ stored_bytes d bytes s s'.
Proof. apply strncpy_ok. Qed.

(** C29.  [strtok] on a string of delimiters [pre], a token and the rest: the
    token is returned.  If something follows, the delimiter after the token is
    overwritten and the scan goes on behind it; but after the last token,
    where the end of the string was meant to be remembered, [NULL] is, and
    the next call [strtok(NULL, ..)] reads through the null pointer. *)
Theorem strtok_spec fuel dfuel s p q pre tok rest ds old_str :
  cstr s p (pre ++ tok ++ rest) → cstr s q ds → 0 < p →
  (length (pre ++ tok ++ rest) < fuel)%nat → (length ds < dfuel)%nat →
  Forall (.∈ ds) pre → tok ≠ [] → Forall (.∉ ds) tok → (rest = [] ∨ starts (.∈ ds) rest) →
  let t := p + Z.of_nat (length pre) in
  let e := t + Z.of_nat (length tok) in
  match rest with
  | [] => strtok fuel dfuel p q old_str s = Ret (t, NULL) s ∧
          (get8 s NULL = None → strtok fuel dfuel NULL q NULL s = Fault)
  | _ :: rest' => ∃ s', strtok fuel dfuel p q old_str s = Ret (t, e + 1) s' ∧
                    cstr s' t tok ∧ cstr s' (e + 1) rest'
  end.
Proof.
  intros Hc Hq Hp Hf Hdf Hpre Htok0 Htok Hrest t e.
  pose proof (cstr_range _ _ _ Hc) as [_ Hr]. rewrite !length_app in Hf, Hr.
  assert (starts (.∉ ds) (tok ++ rest)) as Hst.
  { destruct tok as [|x tok']; [done|]. apply Forall_cons in Htok as [Hx _]. by exists x, (tok' ++ rest). }
  pose proof (cstr_app _ _ _ _ Hc) as Ht. fold t in Ht.
  pose proof (cstr_app _ _ _ _ Ht) as He. fold e in He.
  assert (strtok fuel dfuel p q old_str s =
    (token ← strpbrk fuel dfuel t q;
     if token =? NULL then old_str ← strchr fuel t 0; mret (t, old_str)
     else wr8 token 0 ;; mret (t, u32 (token + 1))) s) as ->.
  { unfold strtok, strspn. rewrite (proj2 (Z.eqb_neq p NULL)) by (unfold NULL; lia).
    rewrite (bind_Ret _ _ _ _ _ (strspn_loop_ok fuel dfuel s p q pre (tok ++ rest) ds 0 Hc Hq
      ltac:(lia) Hdf Hpre (or_intror Hst) ltac:(lia) ltac:(lia))).
    cbv zeta beta. rewrite Z.add_0_l, (u32_small (p + _)) by lia. fold t.
    run (rd8_Ret _ _ _ (cstr_first _ _ _ Ht)).
    destruct tok as [|x tok]; [done|]. destruct Ht as (_ & Hx & _). cbn [first_byte app].
    by rewrite (proj2 (Z.eqb_neq x 0)). }
  run (strpbrk_ok fuel dfuel s t q tok rest ds Ht Hq ltac:(lia) Hdf Htok Hrest).
  destruct rest as [|d rest].
  - rewrite Z.eqb_refl. run (strchr_zero fuel s t _ Ht ltac:(rewrite length_app; lia)). split; [done|].
    intros Hnull. unfold strtok, strspn. rewrite Z.eqb_refl. destruct fuel as [|fuel]; [lia|].
    cbn [strspn_loop]. unfold mbind, M_bind, rd8. by rewrite Hnull.
  - fold e. rewrite (proj2 (Z.eqb_neq e NULL)) by (unfold e, t, NULL; lia).
    destruct (wr8_Ret s e 0 (first_byte (d :: rest))) as (s1 & E1 & W1); [by apply cstr_first|].
    run E1. exists s1. simpl in Hr. rewrite u32_small by (unfold e, t; lia). split_and!; [done| |].
    + apply (cstr_cut s s1 t tok _ Ht); [by rewrite W1, decide_True|].
      intros b Hb. rewrite W1, decide_False; [done|unfold e; lia].
    + apply (cstr_ext s); [apply He|]. intros b Hb. rewrite W1, decide_False; [done|lia].
Qed.

(** [count_chars] and [strstr] do not advance: on a string that is not
    empty the former never ends, and neither does the latter when both of
    its arguments are non-empty strings. *)
Theorem string_loops_diverge s h hs n ns character :
  cstr s h hs → hs ≠ [] → cstr s n ns → ns ≠ [] → h ≠ NULL → n ≠ NULL →
  ∀ fuel, count_chars fuel h character s = Timeout ∧ strstr fuel h n s = Timeout.
Proof.
  intros Hh Hh0 Hn Hn0 Hhp Hnp fuel.
  pose proof (rd8_Ret _ _ _ (cstr_first _ _ _ Hh)) as Rh.
  pose proof (rd8_Ret _ _ _ (cstr_first _ _ _ Hn)) as Rn.
  assert (first_byte hs ≠ 0 ∧ first_byte ns ≠ 0) as [Fh Fn].
  { destruct hs, ns; try done. simpl in Hh, Hn. tauto. }
  split.
  - unfold count_chars. generalize 0. induction fuel as [|fuel IH]; intros k; [done|].
    cbn [count_chars_loop]. run Rh. by rewrite (proj2 (Z.eqb_neq _ 0) Fh).
  - unfold strstr. rewrite (proj2 (Z.eqb_neq h NULL)), (proj2 (Z.eqb_neq n NULL)) by done. cbn [orb].
    cut (∀ it its sub, cstr s it its → strstr_loop fuel h n it sub s = Timeout); [intros Hc; by apply (Hc n ns)|].
    induction fuel as [|fuel IH]; intros it its sub Hit; [done|]. cbn [strstr_loop]. unfold both_nonzero.
    rewrite bind_assoc. run Rh. rewrite (proj2 (Z.eqb_neq _ 0) Fh), bind_assoc. run Rn.
    rewrite (proj2 (Z.eqb_neq _ 0) Fn), bind_ret_l. cbn [negb].
    pose proof (cstr_first _ _ _ Hit) as Ei. run (rd8_Ret _ _ _ Ei). run Rh.
    destruct (Z.eqb_spec (i8 (first_byte its)) (i8 (first_byte hs))) as [E|E]; [|by apply (IH n ns)].
    apply i8_inj in E; [|by eapply get8_range|eapply get8_range, cstr_first, Hh].
    destruct its as [|c its]; [done|]. destruct Hit as (Hr & _ & _ & Hit).
    rewrite u32_small by lia. by apply (IH _ its).
Qed.
End properties.

(** ** Witnesses *)

Fixpoint put_bytes (a : Z) (xs : list Z) (m : gmap Z Z) : gmap Z Z :=
  match xs with
  | [] => m
  | x :: xs' => <[a := x]> (put_bytes (a + 1) xs' m)
  end.

(** Address 0 is mapped in no [vmem] built so. *)
Definition example_strings : vmem :=
  VMem (put_bytes 0x10 [97; 98; 99; 0] (put_bytes 0x20 [97; 98; 100; 0]
    (put_bytes 0x30 [47; 97; 98; 47; 99; 0] (put_bytes 0x40 [47; 0]
    (put_bytes 0x50 [0; 0; 0; 0; 0; 0; 0; 0] (put_bytes 0x60 [99; 0] ∅)))))).

Lemma example_strings_ok :
  cstr example_strings 0x10 [97; 98; 99] ∧ cstr example_strings 0x20 [97; 98; 100] ∧
  cstr example_strings 0x30 [47; 97; 98; 47; 99] ∧ cstr example_strings 0x40 [47] ∧
  cstr example_strings 0x60 [99].
Proof. unfold cstr. repeat split; vm_compute; (reflexivity || discriminate). Qed.

Lemma strcmp_spec_witness :
  strcmp 4 0x10 0x20 example_strings = Ret (-1) example_strings ∧
  (-1 = 0 ↔ [97; 98; 99] = [97; 98; 100]) ∧
  ∃ r, strcmp 4 0x20 0x10 example_strings = Ret r example_strings ∧ Z.sgn r = 1.
Proof.
  apply (strcmp_spec 4 example_strings 0x10 0x20 [97; 98; 99] [97; 98; 100]).
  - apply example_strings_ok.
  - apply example_strings_ok.
  - simpl. lia.
  - simpl. lia.
Defined.

Lemma strncmp_truncates_witness :
  ∃ s', strncmp 4 0x10 0x20 3 example_strings = Ret 0 s' ∧ cstr s' 0x10 [97; 98] ∧ cstr s' 0x20 [97; 98].
Proof.
  apply (strncmp_truncates 4 example_strings 0x10 0x20 [97; 98; 99] [97; 98; 100] 3).
  - apply example_strings_ok.
  - apply example_strings_ok.
  - lia.
  - simpl. lia.
  - simpl. lia.
  - left. simpl. lia.
  - simpl. lia.
Defined.

Lemma strncpy_spec_witness :
  ∃ s', strncpy 4 0x50 0x10 1 example_strings = Ret 0x52 s' ∧ stored_bytes 0x50 [97; 98] example_strings s'.
Proof.
  apply (strncpy_spec 4 example_strings 0x50 0x10 [97; 98; 99] 1).
  - apply example_strings_ok.
  - simpl. lia.
  - lia.
  - lia.
  - reflexivity.
  - intros b Hb. simpl in Hb. assert (b = 0x50 ∨ b = 0x51) as [-> | ->] by lia; vm_compute; eauto.
  - right. simpl. lia.
Defined.

(** The path [/ab/c], first for its first token, then from [c] on. *)
Lemma strtok_spec_witness :
  (∃ s', strtok 7 2 0x30 0x40 NULL example_strings = Ret (0x31, 0x34) s' ∧
     cstr s' 0x31 [97; 98] ∧ cstr s' 0x34 [99]) ∧
  (strtok 7 2 0x60 0x40 NULL example_strings = Ret (0x60, NULL) example_strings ∧
   (get8 example_strings NULL = None → strtok 7 2 NULL 0x40 NULL example_strings = Fault)).
Proof.
  split.
  - apply (strtok_spec 7 2 example_strings 0x30 0x40 [47] [97; 98] [47; 99] [47] NULL).
    + apply example_strings_ok.
    + apply example_strings_ok.
    + lia.
    + simpl. lia.
    + simpl. lia.
    + repeat constructor.
    + discriminate.
    + repeat constructor; intros Hin; inversion Hin; subst; set_solver.
    + right. exists 47, [99]. split; [reflexivity|]. left.
  - apply (strtok_spec 7 2 example_strings 0x60 0x40 [] [99] [] [47] NULL).
    + apply example_strings_ok.
    + apply example_strings_ok.
    + lia.
    + simpl. lia.
    + simpl. lia.
    + constructor.
    + discriminate.
    + repeat constructor; intros Hin; inversion Hin; subst; set_solver.
    + left. reflexivity.
Defined.

Lemma string_loops_diverge_witness :
  count_chars 100 0x30 47 example_strings = Timeout ∧ strstr 100 0x30 0x40 example_strings = Timeout.
Proof.
  apply (string_loops_diverge example_strings 0x30 [47; 97; 98; 47; 99] 0x40 [47] 47).
  - apply example_strings_ok.
  - discriminate.
  - apply example_strings_ok.
  - discriminate.
  - discriminate.
  - discriminate.
Defined.
