(* ===== verification/CPtr.v ===== *)
(** * Pointers to characters

    The printing routines take strings from memory and from arrays of their
    own frames ([char output[2]], [char print_buf[12]]).  [cptr] is a pointer to
    a character of either: a local array is passed with its contents, since
    nothing but the frame that owns it writes to it, and an access outside
    of it faults. *)

From S2P Require Import Prelude Memory CString.

Inductive cptr :=
  | Mem (a : Z)
  | Arr (bytes : list Z) (i : Z).

Definition cnext (p : cptr) : cptr :=
  match p with Mem a => Mem (u32 (a + 1)) | Arr bytes i => Arr bytes (i + 1) end.

Section access.
Context {T : Type} `{ByteStore T}.

Definition rdc (p : cptr) : M T Z :=
  match p with
  | Mem a => rd8 a
  | Arr bytes i => if decide (0 ≤ i) then mlift (bytes !! Z.to_nat i) else mfault
  end.
End access.

Section strings.
Context {T : Type} `{ByteStoreLaws T}.
Implicit Types s : T.

(** The string [xs] at [p]: bytes that are not zero, then a zero. *)
Definition cstring s (p : cptr) (xs : list Z) : Prop :=
  match p with
  | Mem a => cstr s a xs
  | Arr bytes i => ∃ pre post, bytes = pre ++ xs ++ 0 :: post ∧ i = Z.of_nat (length pre) ∧
                     Forall (λ x, 0 < x < 256) xs
  end.

(** What [p] points at is not touched. *)
Definition kept s s' (p : cptr) (xs : list Z) : Prop :=
  match p with
  | Mem a => ∀ b, a ≤ b ≤ a + Z.of_nat (length xs) → get8 s' b = get8 s b
  | Arr _ _ => True
  end.

Lemma cstring_kept s s' p xs : cstring s p xs → kept s s' p xs → cstring s' p xs.
Proof. destruct p; simpl; [|done]. apply cstr_ext. Qed.

Lemma rdc_first s p xs : cstring s p xs → rdc p s = Ret (first_byte xs) s.
Proof.
  destruct p as [a|bytes i]; simpl; [intros Hc; by apply rd8_Ret, cstr_first|].
  intros (pre & post & -> & -> & _). rewrite decide_True by lia. unfold mlift.
  rewrite Nat2Z.id. rewrite lookup_app_r by lia. rewrite Nat.sub_diag. by destruct xs.
Qed.

Lemma cstring_bytes s p xs : cstring s p xs → Forall (λ x, 0 < x < 256) xs.
Proof. destruct p; simpl; [apply cstr_bytes|naive_solver]. Qed.

Lemma cstring_cons s p x xs : cstring s p (x :: xs) → cstring s (cnext p) xs.
Proof.
  destruct p as [a|bytes i]; simpl.
  - intros (Hp & _ & _ & Hx). by rewrite u32_small by lia.
  - intros (pre & post & -> & -> & [_ Hxs]%Forall_cons). exists (pre ++ [x]), post.
    rewrite <-app_assoc. split_and!; [done| |done]. rewrite length_app. simpl. lia.
Qed.

Lemma cstring_app s p xs ys : cstring s p (xs ++ ys) → cstring s (Nat.iter (length xs) cnext p) ys.
Proof.
  revert p. induction xs as [|x xs IH]; intros p Hc; [done|].
  cbn [length]. rewrite Nat.iter_succ_r. by apply IH, (cstring_cons s p x).
Qed.

Lemma kept_cons s s' p x xs : cstring s p (x :: xs) → kept s s' p (x :: xs) → kept s s' (cnext p) xs.
Proof.
  destruct p as [a|bytes i]; simpl; [|done]. intros (Hp & _) Hk b Hb. rewrite u32_small in Hb by lia. apply Hk. lia.
Qed.

Lemma kept_refl s p xs : kept s s p xs.
Proof. by destruct p. Qed.

Lemma kept_trans s1 s2 s3 p xs : kept s1 s2 p xs → kept s2 s3 p xs → kept s1 s3 p xs.
Proof. destruct p; simpl; [|done]. intros H1 H2 b Hb. by rewrite H2, H1. Qed.

(** A string in an array of its own. *)
Lemma cstring_arr s xs : Forall (λ x, 0 < x < 256) xs → cstring s (Arr (xs ++ [0]) 0) xs.
Proof. intros Hx. by exists [], []. Qed.
End strings.
