(* ===== verification/Bitmap.v ===== *)
(** * Page bitmaps: [kernel/mm/bitmap_manipulation.c] and the bit operations

    A bitmap numbers its bits from the most significant bit of its first
    byte.  [bit_at] is that view of a byte store; the theorems of this file
    say what the bit routines of [libc/memory.c] and the helpers of
    [bitmap_manipulation.c] do to it, and the memory managers use nothing
    else. *)

From S2P Require Import Prelude Memory.

(** Bit [j] of the bitmap that starts at [base]; [None] outside the object. *)
Definition bit_at {S} `{ByteStore S} (s : S) (base j : Z) : option bool :=
  (λ v, Z.testbit v (7 - j mod 8)) <$> get8 s (base + j / 8).

(** ** [kernel/mm/bitmap_manipulation.c] and its header *)

Definition NO_AVAILABLE_PAGE : Z := -1.

Definition PAGE_ALIGN (value : Z) : Z :=
  Z.land (u32 value) (u32 (Z.lnot (PAGE_SIZE - 1))).

Definition MANAGED_MEMORY_PAGE_ALIGN (value addr : Z) : Z :=
  u32 (PAGE_ALIGN value + u32 (addr - PAGE_ALIGN addr)).

Definition bit_index_to_byte_index (bit_index : Z) : Z := bit_index / (1 * 8).

Definition address_to_bit_index (addr start_address : Z) : Z :=
  let aligned_addr := MANAGED_MEMORY_PAGE_ALIGN addr start_address in
  u32 (aligned_addr - start_address) / PAGE_SIZE.

(** The loop of [set_next_free_page_index], [n] iterations being left. *)
Fixpoint set_next_free_page_index_loop {S} `{ByteStore S}
    (bitmap : Z) (n : nat) (i : Z) : M S Z :=
  match n with
  | O => mret (u32 NO_AVAILABLE_PAGE)
  | Datatypes.S n' =>
      b ← rd8 (bitmap + i);
      if negb (i8 b =? 0x00) then
        msb ← mfuel (get_msb_index b);
        mret (u32 (i * 8 + msb))
      else set_next_free_page_index_loop bitmap n' (i + 1)
  end.

(** Returns the value stored through [current_free_page_index]. *)
Definition set_next_free_page_index {S} `{ByteStore S}
    (bitmap bitmap_size : Z) : M S Z :=
  set_next_free_page_index_loop bitmap (Z.to_nat bitmap_size) 0.

(** ** Bits of a byte *)

Lemma testbit_0x80 k m : 0 ≤ k < 8 → 0 ≤ m < 8 →
  Z.testbit (Z.shiftr 0x80 k) (7 - m) = bool_decide (m = k).
Proof.
  intros Hk Hm. rewrite Z.shiftr_spec by lia.
  change 0x80 with (2 ^ 7). rewrite Z.pow2_bits_eqb by lia.
  case_bool_decide; [apply Z.eqb_eq|apply Z.eqb_neq]; lia.
Qed.

Lemma byte_on_testbit w k m : 0 ≤ k < 8 → 0 ≤ m < 8 →
  Z.testbit (u8 (Z.lor (i8 w) (Z.shiftr 0x80 k))) (7 - m)
  = bool_decide (m = k) || Z.testbit w (7 - m).
Proof.
  intros Hk Hm. rewrite u8_testbit, (proj2 (Z.ltb_lt (7 - m) 8)) by lia.
  rewrite andb_true_l, Z.lor_spec, i8_testbit, testbit_0x80 by lia.
  apply orb_comm.
Qed.

Lemma byte_off_testbit w k m : 0 ≤ k < 8 → 0 ≤ m < 8 →
  Z.testbit (u8 (Z.land (i8 w) (Z.lnot (Z.shiftr 0x80 k)))) (7 - m)
  = negb (bool_decide (m = k)) && Z.testbit w (7 - m).
Proof.
  intros Hk Hm. rewrite u8_testbit, (proj2 (Z.ltb_lt (7 - m) 8)) by lia.
  rewrite andb_true_l, Z.land_spec, Z.lnot_spec, i8_testbit, testbit_0x80 by lia.
  apply andb_comm.
Qed.

Section bits.
Context {S : Type} `{ByteStoreLaws S}.
Implicit Types s : S.

Lemma bit_at_mapped s base j :
  is_Some (bit_at s base j) ↔ is_Some (get8 s (base + j / 8)).
Proof. unfold bit_at. by rewrite fmap_is_Some. Qed.

(** The bits determine the bytes. *)
Lemma get8_of_bits s s' base q :
  (∀ j, q * 8 ≤ j < q * 8 + 8 → bit_at s' base j = bit_at s base j) →
  get8 s' (base + q) = get8 s (base + q).
Proof.
  intros Hj. unfold bit_at in Hj.
  assert (∀ m, 0 ≤ m < 8 →
    (λ v, Z.testbit v (7 - m)) <$> get8 s' (base + q)
    = (λ v, Z.testbit v (7 - m)) <$> get8 s (base + q)) as Hm.
  { intros m Hm. specialize (Hj (q * 8 + m)).
    rewrite (Z.add_comm (q * 8)), Z.div_add, Z.mod_add, Z.div_small, Z.mod_small in Hj by lia.
    rewrite Z.add_0_l in Hj. apply Hj. lia. }
  destruct (get8 s' (base + q)) as [v'|] eqn:E', (get8 s (base + q)) as [v|] eqn:E; try done.
  - f_equal. apply byte_eq_bits; [by eapply get8_range|by eapply get8_range|].
    intros k Hk. specialize (Hm (7 - k)). simpl in Hm.
    replace (7 - (7 - k)) with k in Hm by lia. assert (0 ≤ 7 - k < 8) as H' by lia.
    specialize (Hm H'). by injection Hm.
  - by specialize (Hm 0 ltac:(lia)).
  - by specialize (Hm 0 ltac:(lia)).
Qed.

(** One bit routine writes the bit it names and no other. *)
Definition writes_bit (b : bool) (op : Z → Z → M S unit) : Prop :=
  ∀ s base j, is_Some (bit_at s base j) → 0 ≤ j →
    ∃ s', op (base + Z.quot j 8) (Z.rem j 8) s = Ret tt s' ∧
      ∀ i, bit_at s' base i = if decide (i = j) then Some b else bit_at s base i.

Lemma writes_bit_intro b op (f : Z → Z → Z) :
  (∀ p k, op p k = (v ← rd8 p; wr8 p (f v k))) →
  (∀ w k m, 0 ≤ k < 8 → 0 ≤ m < 8 →
    Z.testbit (u8 (f w k)) (7 - m) = if decide (m = k) then b else Z.testbit w (7 - m)) →
  writes_bit b op.
Proof.
  intros Hop Hf s base j Hj Hj0.
  apply bit_at_mapped in Hj as [w Hw].
  rewrite Z.quot_div_nonneg, Z.rem_mod_nonneg, Hop by lia.
  rewrite (bind_Ret _ _ _ _ _ (rd8_Ret _ _ _ Hw)).
  destruct (wr8_Ret s _ (f w (j mod 8)) w Hw) as (s' & Hs' & Hb).
  exists s'. split; [done|]. intros i. unfold bit_at. rewrite Hb.
  pose proof (Z.mod_pos_bound i 8). pose proof (Z.mod_pos_bound j 8).
  destruct (decide (base + i / 8 = base + j / 8)) as [Hq|Hq].
  - simpl. rewrite Hf by lia. rewrite Hq, Hw. simpl.
    pose proof (Z.div_mod i 8). pose proof (Z.div_mod j 8).
    repeat case_decide; congruence || lia.
  - rewrite decide_False by congruence. done.
Qed.

Lemma turn_bit_on_writes : writes_bit true turn_bit_on.
Proof.
  apply (writes_bit_intro _ _ (λ v k, Z.lor (i8 v) (Z.shiftr 0x80 k))); [done|].
  intros. rewrite byte_on_testbit by lia. destruct (decide (m = k)) as [Hmk|Hmk]; [rewrite (bool_decide_true _ Hmk)|rewrite (bool_decide_false _ Hmk)]; done.
Qed.

Lemma turn_bit_off_writes : writes_bit false turn_bit_off.
Proof.
  apply (writes_bit_intro _ _ (λ v k, Z.land (i8 v) (Z.lnot (Z.shiftr 0x80 k)))); [done|].
  intros. rewrite byte_off_testbit by lia. destruct (decide (m = k)) as [Hmk|Hmk]; [rewrite (bool_decide_true _ Hmk)|rewrite (bool_decide_false _ Hmk)]; done.
Qed.

(** The bits a run of writes changes. *)
Definition bits_written (b : bool) (base lo hi : Z) (s s' : S) : Prop :=
  ∀ j, bit_at s' base j = if decide (lo ≤ j < hi) then Some b else bit_at s base j.

Lemma write_bits b op s base lo num :
  writes_bit b op →
  0 ≤ lo → 0 ≤ num → lo + num ≤ INT_MAX →
  (∀ j, lo ≤ j < lo + num → is_Some (bit_at s base j)) →
  ∃ s', for_range lo (lo + num) (λ i, op (base + Z.quot i 8) (Z.rem i 8)) s = Ret tt s' ∧
    bits_written b base lo (lo + num) s s'.
Proof.
  intros Hop Hlo Hn Hmax Hmap.
  apply (for_range_inv (λ i s', bits_written b base lo i s s')); [lia|..].
  - intros j. by rewrite decide_False by lia.
  - intros i s1 Hi Hinv. destruct (Hop s1 base i) as (s2 & Hs2 & Hb); [|lia|].
    + rewrite Hinv, decide_False by lia. apply Hmap. lia.
    + exists s2. split; [done|]. intros j. rewrite Hb, Hinv.
      repeat case_decide; done || lia.
Qed.

Lemma turn_bits_off_written s base lo num :
  0 ≤ lo → 0 ≤ num → lo + num ≤ INT_MAX →
  (∀ j, lo ≤ j < lo + num → is_Some (bit_at s base j)) →
  ∃ s', turn_bits_off base lo num s = Ret tt s' ∧ bits_written false base lo (lo + num) s s'.
Proof. apply write_bits, turn_bit_off_writes. Qed.

Lemma turn_bits_on_written s base lo num :
  0 ≤ lo → 0 ≤ num → lo + num ≤ INT_MAX →
  (∀ j, lo ≤ j < lo + num → is_Some (bit_at s base j)) →
  ∃ s', turn_bits_on base lo num s = Ret tt s' ∧ bits_written true base lo (lo + num) s s'.
Proof. apply write_bits, turn_bit_on_writes. Qed.
End bits.

(** ** Searching for a set bit *)

(** What [get_msb_index] computes, checked on every byte. *)
Definition msb_index_ok (v i : Z) : bool :=
  if v =? 0 then i =? 8
  else (0 <=? i) && (i <? 8) && Z.testbit v (7 - i)
       && forallb (λ m, negb (Z.testbit v (7 - m))) (seqZ 0 i).

Lemma get_msb_index_all_bytes :
  forallb (λ v, match get_msb_index v with Some i => msb_index_ok v i | None => false end)
    (seqZ 0 256) = true.
Proof. vm_compute. reflexivity. Qed.

Lemma get_msb_index_ok v : 0 ≤ v < 256 → ∃ i, get_msb_index v = Some i ∧ msb_index_ok v i = true.
Proof.
  intros Hv. pose proof get_msb_index_all_bytes as Hall.
  rewrite forallb_forall in Hall. specialize (Hall v).
  rewrite <-list_elem_of_In, elem_of_seqZ in Hall. specialize (Hall ltac:(lia)).
  destruct (get_msb_index v); [eauto|done].
Qed.

Lemma get_msb_index_first v : 0 < v < 256 →
  ∃ i, get_msb_index v = Some i ∧ 0 ≤ i < 8 ∧ Z.testbit v (7 - i) = true ∧
    ∀ m, 0 ≤ m < i → Z.testbit v (7 - m) = false.
Proof.
  intros Hv. destruct (get_msb_index_ok v) as (i & E & Hok); [lia|].
  exists i. split; [done|]. unfold msb_index_ok in Hok.
  rewrite (proj2 (Z.eqb_neq v 0)) in Hok by lia.
  rewrite !andb_true_iff, forallb_forall, Z.leb_le, Z.ltb_lt in Hok.
  destruct Hok as [[[? ?] ?] Hf]. split_and!; [lia..|done|].
  intros m Hm. specialize (Hf m). rewrite <-list_elem_of_In, elem_of_seqZ in Hf.
  apply negb_true_iff, Hf. lia.
Qed.

Section search.
Context {S : Type} `{ByteStoreLaws S}.
Implicit Types s : S.

(** [r] is the first set bit of the bitmap at or after bit [from]. *)
Definition first_set s (base from r : Z) : Prop :=
  from ≤ r ∧ bit_at s base r = Some true ∧
  ∀ j, from ≤ j < r → bit_at s base j = Some false.

Definition all_clear s (base lo hi : Z) : Prop :=
  ∀ j, lo ≤ j < hi → bit_at s base j = Some false.

Lemma bit_at_byte s base i m v :
  get8 s (base + i) = Some v → 0 ≤ m < 8 →
  bit_at s base (i * 8 + m) = Some (Z.testbit v (7 - m)).
Proof.
  intros E Hm. unfold bit_at.
  rewrite (Z.add_comm (i * 8)), Z.div_add, Z.mod_add, Z.div_small, Z.mod_small by lia.
  by rewrite Z.add_0_l, E.
Qed.

Lemma zero_byte_clear s base i :
  get8 s (base + i) = Some 0 → all_clear s base (i * 8) (i * 8 + 8).
Proof.
  intros E j Hj. replace j with (i * 8 + (j - i * 8)) by lia.
  rewrite (bit_at_byte _ _ _ _ _ E) by lia. by rewrite Z.bits_0.
Qed.

Lemma nonzero_byte_first s base i v :
  get8 s (base + i) = Some v → v ≠ 0 →
  ∃ m, get_msb_index v = Some m ∧ 0 ≤ m < 8 ∧ first_set s base (i * 8) (i * 8 + m).
Proof.
  intros E Hv. pose proof (get8_range _ _ _ E).
  destruct (get_msb_index_first v) as (m & Hm & ? & Hset & Hclr); [lia|].
  exists m. split_and!; [done|lia..|]. split_and!; [lia|..].
  - rewrite (bit_at_byte _ _ _ _ _ E) by lia. by rewrite Hset.
  - intros j Hj. replace j with (i * 8 + (j - i * 8)) by lia.
    rewrite (bit_at_byte _ _ _ _ _ E), Hclr by lia. done.
Qed.

Lemma all_clear_app s base lo mid hi :
  all_clear s base lo mid → all_clear s base mid hi → all_clear s base lo hi.
Proof. intros H1 H2 j Hj. destruct (Z.lt_ge_cases j mid); [apply H1|apply H2]; lia. Qed.

Lemma first_set_after s base from mid r :
  from ≤ mid → all_clear s base from mid → first_set s base mid r → first_set s base from r.
Proof.
  intros Hle Hc (Hr & Hs & Hb). split_and!; [lia|done|].
  intros j Hj. destruct (Z.lt_ge_cases j mid); [apply Hc|apply Hb]; lia.
Qed.

Lemma first_set_unique s base from r r' :
  first_set s base from r → first_set s base from r' → r = r'.
Proof.
  intros (Hr & Hs & Hb) (Hr' & Hs' & Hb'). destruct (Z.lt_trichotomy r r') as [Hlt|[?|Hlt]]; [|done|].
  - rewrite Hb' in Hs by lia. done.
  - rewrite Hb in Hs' by lia. done.
Qed.

Lemma set_next_free_page_index_loop_ok s base n i :
  0 ≤ i → (i + Z.of_nat n) * 8 < 2 ^ 32 →
  (∀ q, i ≤ q < i + Z.of_nat n → is_Some (get8 s (base + q))) →
  (∃ r, set_next_free_page_index_loop base n i s = Ret r s ∧
    first_set s base (i * 8) r ∧ r < (i + Z.of_nat n) * 8) ∨
  (set_next_free_page_index_loop base n i s = Ret (u32 NO_AVAILABLE_PAGE) s ∧
    all_clear s base (i * 8) ((i + Z.of_nat n) * 8)).
Proof.
  revert i. induction n as [|n IH]; intros i Hi Hmax Hmap; simpl.
  { right. split; [done|]. intros j Hj. lia. }
  destruct (Hmap i) as [v Hv]; [lia|].
  rewrite (bind_Ret _ _ _ _ _ (rd8_Ret _ _ _ Hv)).
  assert (i8 v = 0 ↔ v = 0) as Hz.
  { pose proof (get8_range _ _ _ Hv). unfold i8.
    split; [|by intros ->]. pose proof (Z.mod_pos_bound (v + 2 ^ 7) (2 ^ 8)).
    pose proof (Z.div_mod (v + 2 ^ 7) (2 ^ 8)). lia. }
  destruct (Z.eqb_spec (i8 v) 0) as [E|E]; simpl.
  - apply Hz in E. subst v.
    pose proof (zero_byte_clear _ _ _ Hv) as Hc.
    replace (i * 8 + 8) with ((i + 1) * 8) in Hc by lia.
    destruct (IH (i + 1)) as [(r & Hr & Hf & Hlt)|[Hr Hall]]; [lia|lia|intros; apply Hmap; lia|..].
    + left. exists r. split_and!; [done|eapply first_set_after; eauto; lia|lia].
    + right. split; [done|]. eapply all_clear_app; eauto.
      by replace ((i + Z.of_nat (Datatypes.S n)) * 8) with ((i + 1 + Z.of_nat n) * 8) by lia.
  - destruct (nonzero_byte_first s base i v) as (m & Hm & ? & Hf); [done|intros Hv0; by apply E, Hz|].
    left. exists (i * 8 + m). rewrite Hm. exec. rewrite u32_small by lia.
    split_and!; [done|done|lia].
Qed.
End search.

Arguments first_set : simpl never.
Arguments all_clear : simpl never.

(** A static array is all zeroes. *)
Lemma empty_carray_clear size n : n ≤ size → all_clear (CArray size ∅) 0 0 (n * 8).
Proof.
  intros Hn j Hj. unfold bit_at, get8. simpl. rewrite decide_True by dlia.
  rewrite lookup_empty. simpl. by rewrite Z.bits_0.
Qed.

(** ** Properties *)

Section properties.
Context {S : Type} `{ByteStoreLaws S}.
Implicit Types s : S.

Lemma bits_written_mapped b base lo hi s s' j :
  bits_written b base lo hi s s' → is_Some (bit_at s base j) → is_Some (bit_at s' base j).
Proof. intros Hw Hj. rewrite Hw. case_decide; eauto. Qed.

(** [turn_bits_off] marks a run of pages used and [turn_bits_on]
    marks it free again: on a run of set bits the two calls return, leave
    every byte of the object as it was, and in between exactly the bits of
    the run are clear. *)
Theorem turn_bits_off_on_roundtrip s base lo num :
  0 ≤ lo → 0 ≤ num → lo + num ≤ INT_MAX →
  (∀ j, lo ≤ j < lo + num → bit_at s base j = Some true) →
  ∃ s1 s2,
    turn_bits_off base lo num s = Ret tt s1 ∧
    (∀ j, bit_at s1 base j = if decide (lo ≤ j < lo + num) then Some false else bit_at s base j) ∧
    turn_bits_on base lo num s1 = Ret tt s2 ∧
    (∀ a, get8 s2 a = get8 s a).
Proof.
  intros Hlo Hn Hmax Hset.
  destruct (turn_bits_off_written s base lo num) as (s1 & E1 & H1); [done..|by intros j ->%Hset|].
  destruct (turn_bits_on_written s1 base lo num) as (s2 & E2 & H2); [done..| |].
  { intros j Hj. eapply bits_written_mapped; [done|]. by rewrite Hset. }
  exists s1, s2. split_and!; [done..|]. intros a.
  replace a with (base + (a - base)) by lia. apply get8_of_bits.
  intros j _. rewrite H2, H1. case_decide; [|done]. symmetry. auto.
Qed.

(** [set_next_free_page_index] scans a bitmap of [size] bytes without
    faulting and stores either the index of its first set bit or, exactly
    when no bit is set, [NO_AVAILABLE_PAGE]. *)
Theorem set_next_free_page_index_spec s base size :
  0 ≤ size → size * 8 < 2 ^ 32 →
  (∀ q, 0 ≤ q < size → is_Some (get8 s (base + q))) →
  (∃ r, set_next_free_page_index base size s = Ret r s ∧
    first_set s base 0 r ∧ r < size * 8) ∨
  (set_next_free_page_index base size s = Ret (2 ^ 32 - 1) s ∧
    all_clear s base 0 (size * 8)).
Proof.
  intros Hs Hmax Hmap. unfold set_next_free_page_index.
  replace size with (0 + Z.of_nat (Z.to_nat size)) in Hmax, Hmap by lia.
  pose proof (set_next_free_page_index_loop_ok s base _ 0 ltac:(lia) Hmax Hmap) as Hok.
  rewrite Z.add_0_l, Z2Nat.id in Hok by lia. exact Hok.
Qed.
End properties.

(** Four bytes, all pages of the last three of them free. *)
Definition example_bitmap : carray := CArray 4 (<[1 := 255]> (<[2 := 255]> (<[3 := 255]> ∅))).

Lemma example_bitmap_set j : 8 ≤ j < 32 → bit_at example_bitmap 0 j = Some true.
Proof.
  intros Hj.
  assert (forallb (λ j, bool_decide (bit_at example_bitmap 0 j = Some true)) (seqZ 8 24) = true)
    as Hall by (vm_compute; reflexivity).
  rewrite forallb_forall in Hall. specialize (Hall j).
  rewrite <-list_elem_of_In, elem_of_seqZ in Hall. specialize (Hall ltac:(lia)).
  by case_bool_decide.
Qed.

Lemma turn_bits_off_on_roundtrip_witness :
  ∃ s1 s2,
    turn_bits_off 0 10 7 example_bitmap = Ret tt s1 ∧
    (∀ j, bit_at s1 0 j = if decide (10 ≤ j < 10 + 7) then Some false else bit_at example_bitmap 0 j) ∧
    turn_bits_on 0 10 7 s1 = Ret tt s2 ∧
    (∀ a, get8 s2 a = get8 example_bitmap a).
Proof.
  apply (turn_bits_off_on_roundtrip example_bitmap 0 10 7); [lia|lia|unfold INT_MAX; lia|].
  intros j Hj. apply example_bitmap_set. lia.
Defined.

Lemma set_next_free_page_index_spec_witness :
  ∃ r, set_next_free_page_index 0 4 example_bitmap = Ret r example_bitmap ∧ r = 8 ∧
    first_set example_bitmap 0 0 r.
Proof.
  destruct (set_next_free_page_index_spec example_bitmap 0 4) as [(r & E & Hf & _)|(E & _)];
    [lia|lia| |..].
  - intros q Hq. unfold get8. simpl. rewrite decide_True by lia. eauto.
  - exists r. split_and!; [exact E| |exact Hf]. vm_compute in E. congruence.
  - vm_compute in E. discriminate E.
Defined.
