(* ===== verification/Phys.v ===== *)
(** * The physical memory manager: [kernel/mm/physical_mm_manager.c]

    One bit per 4 KB page of the 4 GB address space says whether the page is
    available.  The operations are those of the source file; [avail] is the
    abstract state, a set of free pages, and the lemmas of the second half
    say what every operation does to it.

    Parameters of the model: the linker symbols [kernel_start] and
    [kernel_end] (the addresses [&kernel_start] and [&kernel_end]).  The calls
    to [log_print] write to the console only and are left out. *)

From S2P Require Import Prelude Memory Bitmap.

Definition ADDRESS_SPACE_SIZE : Z := 0x100000000.
Definition BITMAP_SIZE : Z := ADDRESS_SPACE_SIZE / PAGE_SIZE / 8.

(** [page_state_t] of [include/mm/paging.h] *)
Inductive page_state := PAGE_UNAVAILABLE | PAGE_AVAILABLE.

Record physical_mem := PhysicalMem {
  bitmap : carray;
  no_page_available : bool
}.

(** [static physical_mem_t physical_memory = {{0, }, false};] *)
Definition physical_memory : physical_mem := PhysicalMem (CArray BITMAP_SIZE ∅) false.

Definition on_bitmap {A} : M carray A → M physical_mem A :=
  zoom bitmap (λ b s, PhysicalMem b (no_page_available s)).

Definition set_no_page_available (b : bool) : M physical_mem unit :=
  mmodify (λ s, PhysicalMem (bitmap s) b).

Definition change_page_state (page_address : Z) (state : page_state) : M physical_mem error_code :=
  if negb (PAGE_BOUNDARY page_address =? page_address) then mret INVALID_ARGUMENT
  else
    let bit_index := address_to_bit_index page_address 0 in
    let byte_index := bit_index / 8 in
    match state with
    | PAGE_UNAVAILABLE => on_bitmap (turn_bit_off byte_index (bit_index mod 8))
    | PAGE_AVAILABLE => on_bitmap (turn_bit_on byte_index (bit_index mod 8))
    end ;;
    mret SUCCESS.

(** [for(uint32_t address = begin; address < end; address += PAGE_SIZE)] *)
Fixpoint change_pages_state_loop (fuel : nat) (address end_ : Z) (state : page_state)
    : M physical_mem error_code :=
  match fuel with
  | O => mtimeout
  | S fuel' =>
      if address <? end_ then
        e ← change_page_state address state;
        if decide (e = SUCCESS)
        then change_pages_state_loop fuel' (u32 (address + PAGE_SIZE)) end_ state
        else mret FAILURE
      else mret SUCCESS
  end.

Definition change_pages_state (begin end_ : Z) (state : page_state) : M physical_mem error_code :=
  if negb (PAGE_BOUNDARY begin =? begin) || negb (PAGE_BOUNDARY end_ =? end_)
  then mret INVALID_ARGUMENT
  else if end_ <? begin then mret INVALID_ARGUMENT
  else change_pages_state_loop (S (Z.to_nat ((end_ - begin) / PAGE_SIZE))) begin end_ state.

(** ** The memory map of the boot loader *)

Definition MULTIBOOT_MEMORY_AVAILABLE : Z := 1.

(** [multiboot_memory_map_t] is packed: [size], [addr], [len], [type] at the
    offsets 0, 4, 12 and 20; 24 bytes in all. *)
Definition sizeof_multiboot_memory_map : Z := 24.

Record multiboot_memory_map := MultibootMemoryMap {
  mm_size : Z;
  mm_addr : Z;
  mm_len : Z;
  mm_type : Z
}.

Definition read_multiboot_memory_map (mb : vmem) (it : Z) : option multiboot_memory_map :=
  size ← get32 mb it;
  addr_lo ← get32 mb (it + 4);
  addr_hi ← get32 mb (it + 8);
  len_lo ← get32 mb (it + 12);
  len_hi ← get32 mb (it + 16);
  type ← get32 mb (it + 20);
  Some (MultibootMemoryMap size (addr_lo + 2 ^ 32 * addr_hi) (len_lo + 2 ^ 32 * len_hi) type).

(** The body of the loop of [map_memory]: the region of one entry. *)
Definition map_memory_entry (entry : multiboot_memory_map) : M physical_mem unit :=
  if negb (mm_type entry =? MULTIBOOT_MEMORY_AVAILABLE) then mret tt
  else
    let address := u32 (mm_addr entry) in
    let len := u32 (mm_len entry) in
    let aligned := PAGE_BOUNDARY address =? address in
    if negb aligned && (len <=? PAGE_SIZE) then mret tt (* continue *)
    else
      let address' := if aligned then address else NEXT_PAGE_BOUNDARY address in
      let len1 := if aligned then len else u32 (len - u64 (address' - mm_addr entry)) in
      let len2 :=
        if PAGE_BOUNDARY len1 =? len1 then len1
        else if PAGE_BOUNDARY len1 <? len1 then PAGE_BOUNDARY len1
        else u32 (PAGE_BOUNDARY len1 - PAGE_SIZE) in
      e ← change_pages_state address' (u32 (address' + len2)) PAGE_AVAILABLE;
      if decide (e = SUCCESS) then mret tt else mpanic.

(** The loop of [map_memory]; the bound [map_addr + map_length] is pointer
    arithmetic, so it is scaled by the size of an entry. *)
Fixpoint map_memory_loop (fuel : nat) (mb : vmem) (map_iterator map_end : Z) : M physical_mem unit :=
  match fuel with
  | O => mtimeout
  | S fuel' =>
      if map_iterator <? map_end then
        entry ← mlift (read_multiboot_memory_map mb map_iterator);
        map_memory_entry entry ;;
        map_memory_loop fuel' mb (u32 (map_iterator + mm_size entry + 4)) map_end
      else mret tt
  end.

Definition map_memory (fuel : nat) (mb : vmem) (map_addr map_length : Z) : M physical_mem unit :=
  map_memory_loop fuel mb map_addr (u32 (map_addr + sizeof_multiboot_memory_map * map_length)).

Section linker_symbols.
Variables kernel_start kernel_end : Z.

Definition phy_memory_manager_init (fuel : nat) (mb : vmem) (map_addr map_length : Z)
    : M physical_mem unit :=
  map_memory fuel mb map_addr map_length ;;
  change_pages_state 0 0xff000 PAGE_UNAVAILABLE ;;
  change_pages_state kernel_start kernel_end PAGE_UNAVAILABLE ;;
  mret tt.

(** The search of [allocate_physical_page], [n] iterations being left. *)
Fixpoint allocate_physical_page_loop (n : nat) (i : Z) : M physical_mem Z :=
  match n with
  | O =>
      set_no_page_available true ;;
      mret NULL
  | S n' =>
      b ← on_bitmap (rd8 i);
      if negb (b =? 0) then
        msb ← mfuel (get_msb_index b);
        let bit_index_in_bitmap := u32 (i * 8 + msb) in
        let address := u32 (bit_index_in_bitmap * PAGE_SIZE) in
        change_page_state address PAGE_UNAVAILABLE ;;
        mret address
      else allocate_physical_page_loop n' (i + 1)
  end.

Definition first_searched_byte : Z := kernel_end / PAGE_SIZE / (1 * 8).

Definition allocate_physical_page : M physical_mem Z :=
  none ← mgets no_page_available;
  if (none : bool) then mret NULL
  else
    allocate_physical_page_loop
      (Z.to_nat (BITMAP_SIZE - first_searched_byte)) first_searched_byte.
End linker_symbols.

(** The condition [error_code = change_page_state(..) == SUCCESS] assigns the
    result of the comparison. *)
Definition free_physical_page (page_address : Z) : M physical_mem error_code :=
  r ← change_page_state page_address PAGE_AVAILABLE;
  let error_code := error_code_of_bool (bool_decide (r = SUCCESS)) in
  (if negb (int_of_error_code error_code =? 0) then
     none ← mgets no_page_available;
     if (none : bool) then set_no_page_available false else mret tt
   else mret tt) ;;
  mret error_code.

Definition register_physical_pages (start_address end_address : Z) : M physical_mem error_code :=
  change_pages_state start_address end_address PAGE_UNAVAILABLE.

Definition unregister_physical_pages (start_address end_address : Z) : M physical_mem error_code :=
  change_pages_state start_address end_address PAGE_AVAILABLE.

(** ** The abstract state: which pages are available *)

Definition NUM_PAGES : Z := ADDRESS_SPACE_SIZE / PAGE_SIZE.

Definition avail (s : physical_mem) (p : Z) : option bool := bit_at (bitmap s) 0 p.

(** The bitmap covers the address space. *)
Definition phys_wf (s : physical_mem) : Prop :=
  ∀ p, 0 ≤ p < NUM_PAGES → is_Some (avail s p).

Definition bool_of_page_state (state : page_state) : bool :=
  match state with PAGE_UNAVAILABLE => false | PAGE_AVAILABLE => true end.

(** The pages [lo .. hi-1] get state [b], no other page changes, nor does the flag. *)
Definition pages_set (b : bool) (lo hi : Z) (s s' : physical_mem) : Prop :=
  no_page_available s' = no_page_available s ∧
  ∀ p, avail s' p = if decide (lo ≤ p < hi) then Some b else avail s p.

(** ** Page addresses *)

Lemma PAGE_ALIGN_eq val : PAGE_ALIGN val = PAGE_BOUNDARY val.
Proof. reflexivity. Qed.

Lemma address_to_bit_index_0 addr :
  0 ≤ addr < 2 ^ 32 → addr mod 4096 = 0 → address_to_bit_index addr 0 = addr / 4096.
Proof.
  intros Hr Ha. unfold address_to_bit_index, MANAGED_MEMORY_PAGE_ALIGN, PAGE_SIZE.
  rewrite PAGE_ALIGN_eq, (proj2 (PAGE_BOUNDARY_aligned addr Hr) Ha).
  change (u32 (0 - PAGE_ALIGN 0)) with 0.
  by rewrite Z.add_0_r, Z.sub_0_r, !u32_small by (rewrite ?u32_small; lia).
Qed.

Lemma NUM_PAGES_eq : NUM_PAGES = 1048576.
Proof. reflexivity. Qed.

Lemma page_address p : 0 ≤ p < NUM_PAGES →
  0 ≤ p * 4096 < 2 ^ 32 ∧ (p * 4096) mod 4096 = 0 ∧ p * 4096 / 4096 = p.
Proof.
  rewrite NUM_PAGES_eq. intros.
  rewrite Z.mod_mul, Z.div_mul by lia. lia.
Qed.

Lemma aligned_page a : 0 ≤ a < 2 ^ 32 → a mod 4096 = 0 →
  ∃ p, a = p * 4096 ∧ 0 ≤ p < NUM_PAGES.
Proof.
  intros Hr Ha. exists (a / 4096). pose proof (Z.div_mod a 4096).
  rewrite NUM_PAGES_eq. lia.
Qed.

Lemma physical_memory_wf : phys_wf physical_memory.
Proof.
  intros p Hp. apply bit_at_mapped. unfold get8. simpl.
  rewrite decide_True; [eauto|]. rewrite NUM_PAGES_eq in Hp.
  assert (BITMAP_SIZE = 131072) as -> by reflexivity.
  pose proof (Z.div_mod p 8). pose proof (Z.mod_pos_bound p 8). lia.
Qed.

(** ** What the operations do to the set of free pages *)

Lemma pages_set_wf b lo hi s s' : phys_wf s → pages_set b lo hi s s' → phys_wf s'.
Proof. intros Hwf [_ Hs] p Hp. rewrite Hs. case_decide; eauto. Qed.

Lemma pages_set_refl b p s : pages_set b p p s s.
Proof. split; [done|]. intros q. by rewrite decide_False by lia. Qed.

Lemma pages_set_snoc b lo p s s1 s2 :
  lo ≤ p → pages_set b lo p s s1 → pages_set b p (p + 1) s1 s2 → pages_set b lo (p + 1) s s2.
Proof.
  intros Hle [Hf H1] [Hf' H2]. split; [congruence|].
  intros q. rewrite H2, H1. repeat case_decide; done || lia.
Qed.

Lemma pages_set_cons b p hi s s1 s2 :
  p < hi → pages_set b p (p + 1) s s1 → pages_set b (p + 1) hi s1 s2 → pages_set b p hi s s2.
Proof.
  intros Hle [Hf H1] [Hf' H2]. split; [congruence|].
  intros q. rewrite H2, H1. repeat case_decide; done || lia.
Qed.

Lemma change_page_state_ok s p st :
  phys_wf s → 0 ≤ p < NUM_PAGES →
  ∃ s', change_page_state (p * 4096) st s = Ret SUCCESS s' ∧
    pages_set (bool_of_page_state st) p (p + 1) s s'.
Proof.
  intros Hwf Hp. destruct (page_address p Hp) as (Hr & Ha & Hd).
  unfold change_page_state.
  rewrite (proj2 (PAGE_BOUNDARY_aligned _ Hr) Ha), Z.eqb_refl. cbn [negb].
  rewrite address_to_bit_index_0, Hd by done. cbv zeta.
  assert (∃ op, writes_bit (bool_of_page_state st) op ∧
    match st with
    | PAGE_UNAVAILABLE => on_bitmap (turn_bit_off (p / 8) (p mod 8))
    | PAGE_AVAILABLE => on_bitmap (turn_bit_on (p / 8) (p mod 8))
    end = on_bitmap (op (p / 8) (p mod 8))) as (op & Hop & ->).
  { destruct st; eexists; (split; [|reflexivity]);
      [apply turn_bit_off_writes|apply turn_bit_on_writes]. }
  destruct (Hop (bitmap s) 0 p) as (b' & E & Hb); [by apply Hwf|lia|].
  rewrite Z.quot_div_nonneg, Z.rem_mod_nonneg, Z.add_0_l in E by lia.
  unfold on_bitmap. run (zoom_Ret _ (λ b s, PhysicalMem b (no_page_available s)) _ _ _ _ E).
  eexists. split; [reflexivity|]. split; [done|].
  intros q. unfold avail. simpl. rewrite Hb. repeat case_decide; done || lia.
Qed.

Lemma change_page_state_unaligned s a st :
  0 ≤ a < 2 ^ 32 → a mod 4096 ≠ 0 → change_page_state a st s = Ret INVALID_ARGUMENT s.
Proof.
  intros Hr Ha. unfold change_page_state.
  rewrite (proj2 (Z.eqb_neq (PAGE_BOUNDARY a) a)); [done|].
  by rewrite PAGE_BOUNDARY_aligned.
Qed.

Lemma change_pages_state_loop_ok fuel s lo hi st :
  phys_wf s → 0 ≤ lo ≤ hi → hi < NUM_PAGES → (Z.to_nat (hi - lo) < fuel)%nat →
  ∃ s', change_pages_state_loop fuel (lo * 4096) (hi * 4096) st s = Ret SUCCESS s' ∧
    pages_set (bool_of_page_state st) lo hi s s'.
Proof.
  revert lo s. induction fuel as [|fuel IH]; intros lo s Hwf Hlo Hhi Hfuel; [lia|]. simpl.
  destruct (Z.ltb_spec (lo * 4096) (hi * 4096)).
  - destruct (change_page_state_ok s lo st) as (s1 & E1 & H1); [done|lia|].
    run E1. rewrite decide_True by done.
    destruct (IH (lo + 1) s1) as (s2 & E2 & H2); [by eapply pages_set_wf|lia..|].
    exists s2. rewrite u32_small by (rewrite NUM_PAGES_eq in *; unfold PAGE_SIZE; lia).
    unfold PAGE_SIZE in *. replace (lo * 4096 + 4096) with ((lo + 1) * 4096) by lia.
    split; [done|]. eapply pages_set_cons; eauto. lia.
  - assert (lo = hi) as -> by lia. exists s. split; [done|]. apply pages_set_refl.
Qed.

Lemma change_pages_state_ok s lo hi st :
  phys_wf s → 0 ≤ lo ≤ hi → hi < NUM_PAGES →
  ∃ s', change_pages_state (lo * 4096) (hi * 4096) st s = Ret SUCCESS s' ∧
    pages_set (bool_of_page_state st) lo hi s s'.
Proof.
  intros Hwf Hlo Hhi. unfold change_pages_state.
  destruct (page_address lo) as (Hr & Ha & _); [lia|].
  destruct (page_address hi) as (Hr' & Ha' & _); [lia|].
  rewrite (proj2 (PAGE_BOUNDARY_aligned _ Hr) Ha), (proj2 (PAGE_BOUNDARY_aligned _ Hr') Ha').
  rewrite !Z.eqb_refl, (proj2 (Z.ltb_ge (hi * 4096) (lo * 4096))) by lia. cbn [negb orb].
  apply change_pages_state_loop_ok; [done|lia|done|].
  unfold PAGE_SIZE. replace (hi * 4096 - lo * 4096) with ((hi - lo) * 4096) by lia.
  rewrite Z.div_mul by lia. lia.
Qed.

Lemma change_pages_state_invalid s begin end_ st :
  0 ≤ begin < 2 ^ 32 → 0 ≤ end_ < 2 ^ 32 →
  begin mod 4096 ≠ 0 ∨ end_ mod 4096 ≠ 0 ∨ end_ < begin →
  change_pages_state begin end_ st s = Ret INVALID_ARGUMENT s.
Proof.
  intros Hb He Hinv. unfold change_pages_state.
  destruct (Z.eqb_spec (PAGE_BOUNDARY begin) begin) as [Eb|]; [|done].
  destruct (Z.eqb_spec (PAGE_BOUNDARY end_) end_) as [Ee|]; [|done]. simpl.
  apply PAGE_BOUNDARY_aligned in Eb, Ee; [|done..].
  rewrite (proj2 (Z.ltb_lt end_ begin)) by (destruct Hinv as [?|[?|?]]; done). done.
Qed.

(** The three outcomes of [change_pages_state] put together: it always returns. *)
Lemma change_pages_state_total s begin end_ st :
  phys_wf s → 0 ≤ begin < 2 ^ 32 → 0 ≤ end_ < 2 ^ 32 →
  (change_pages_state begin end_ st s = Ret INVALID_ARGUMENT s ∧
    (begin mod 4096 ≠ 0 ∨ end_ mod 4096 ≠ 0 ∨ end_ < begin)) ∨
  (∃ s', change_pages_state begin end_ st s = Ret SUCCESS s' ∧
    begin mod 4096 = 0 ∧ end_ mod 4096 = 0 ∧ begin ≤ end_ ∧
    pages_set (bool_of_page_state st) (begin / 4096) (end_ / 4096) s s').
Proof.
  intros Hwf Hb He.
  destruct (decide (begin mod 4096 ≠ 0 ∨ end_ mod 4096 ≠ 0 ∨ end_ < begin)) as [Hinv|Hval].
  { left. split; [by apply change_pages_state_invalid|done]. }
  right. destruct (aligned_page begin) as (lo & -> & Hlo); [done|lia|].
  destruct (aligned_page end_) as (hi & -> & Hhi); [done|lia|].
  rewrite !Z.div_mul by lia.
  destruct (change_pages_state_ok s lo hi st) as (s' & E & H); [done|lia|lia|].
  exists s'. split_and!; done || lia.
Qed.

Lemma change_pages_state_wf s begin end_ st e s' :
  phys_wf s → 0 ≤ begin < 2 ^ 32 → 0 ≤ end_ < 2 ^ 32 →
  change_pages_state begin end_ st s = Ret e s' → phys_wf s'.
Proof.
  intros Hwf Hb He E.
  destruct (change_pages_state_total s begin end_ st)
    as [[E' _]|(s1 & E' & _ & _ & _ & Hs)]; [done..| |]; rewrite E in E'.
  - by simplify_eq.
  - simplify_eq. by eapply pages_set_wf.
Qed.

(** ** Allocation *)

Lemma on_bitmap_rd8 s i v : get8 (bitmap s) i = Some v → on_bitmap (rd8 i) s = Ret v s.
Proof.
  intros E. unfold on_bitmap, zoom. rewrite (rd8_Ret _ _ _ E). by destruct s.
Qed.

Lemma avail_byte s i : phys_wf s → 0 ≤ i < BITMAP_SIZE → is_Some (get8 (bitmap s) (0 + i)).
Proof.
  intros Hwf Hi. specialize (Hwf (i * 8)). rewrite NUM_PAGES_eq in Hwf.
  assert (BITMAP_SIZE = 131072) as HB by reflexivity.
  apply bit_at_mapped in Hwf; [|lia]. by rewrite Z.div_mul in Hwf.
Qed.

Section allocation.
Variable kernel_end : Z.

Definition first_searched_page : Z := first_searched_byte kernel_end * 8.

Lemma allocate_physical_page_loop_ok s n i :
  phys_wf s → 0 ≤ i → i + Z.of_nat n = BITMAP_SIZE →
  (∃ p s', allocate_physical_page_loop n i s = Ret (p * 4096) s' ∧
    first_set (bitmap s) 0 (i * 8) p ∧ p < NUM_PAGES ∧ pages_set false p (p + 1) s s') ∨
  (allocate_physical_page_loop n i s = Ret NULL (PhysicalMem (bitmap s) true) ∧
    all_clear (bitmap s) 0 (i * 8) NUM_PAGES).
Proof.
  assert (BITMAP_SIZE = 131072) as HB by reflexivity.
  intros Hwf. revert i. induction n as [|n IH]; intros i Hi Hn; simpl.
  { right. split; [done|]. rewrite NUM_PAGES_eq. intros j Hj. lia. }
  destruct (avail_byte s i) as [v Hv]; [done|lia|].
  run (on_bitmap_rd8 _ _ _ Hv). destruct (Z.eqb_spec v 0) as [->|Hv0]; simpl.
  - pose proof (zero_byte_clear _ _ _ Hv) as Hc.
    replace (i * 8 + 8) with ((i + 1) * 8) in Hc by lia.
    destruct (IH (i + 1)) as [(p & s' & E & Hf & ?)|[E Hall]]; [lia|lia|..].
    + left. exists p, s'. split; [done|]. split; [|done].
      eapply first_set_after; eauto. lia.
    + right. split; [done|]. by eapply all_clear_app.
  - destruct (nonzero_byte_first _ _ _ _ Hv Hv0) as (m & Hm & ? & Hf).
    left. exists (i * 8 + m). rewrite Hm. exec.
    rewrite (u32_small (i * 8 + m)) by lia. unfold PAGE_SIZE.
    rewrite u32_small by lia.
    destruct (change_page_state_ok s (i * 8 + m) PAGE_UNAVAILABLE) as (s' & E & Hs);
      [done|rewrite NUM_PAGES_eq; lia|].
    run E. exists s'. rewrite NUM_PAGES_eq. split_and!; done || lia.
Qed.

Lemma allocate_physical_page_ok s :
  phys_wf s → 0 ≤ kernel_end < 2 ^ 32 → no_page_available s = false →
  (∃ p s', allocate_physical_page kernel_end s = Ret (p * 4096) s' ∧
    first_set (bitmap s) 0 first_searched_page p ∧ p < NUM_PAGES ∧
    pages_set false p (p + 1) s s') ∨
  (allocate_physical_page kernel_end s = Ret NULL (PhysicalMem (bitmap s) true) ∧
    all_clear (bitmap s) 0 first_searched_page NUM_PAGES).
Proof.
  intros Hwf Hk Hf. unfold allocate_physical_page. exec. rewrite Hf.
  assert (BITMAP_SIZE = 131072) as HB by reflexivity.
  assert (0 ≤ first_searched_byte kernel_end < BITMAP_SIZE).
  { unfold first_searched_byte, PAGE_SIZE. rewrite Z.div_div, HB by lia.
    pose proof (Z.div_mod kernel_end (4096 * (1 * 8))).
    pose proof (Z.mod_pos_bound kernel_end (4096 * (1 * 8))). lia. }
  apply allocate_physical_page_loop_ok; [done|lia|lia].
Qed.

Lemma allocate_physical_page_flag s :
  no_page_available s = true → allocate_physical_page kernel_end s = Ret NULL s.
Proof. intros Hf. unfold allocate_physical_page. exec. by rewrite Hf. Qed.

Lemma allocate_physical_page_cases s a s' :
  phys_wf s → 0 ≤ kernel_end < 2 ^ 32 → allocate_physical_page kernel_end s = Ret a s' →
  (∃ p, a = p * 4096 ∧ first_set (bitmap s) 0 first_searched_page p ∧
        p < NUM_PAGES ∧ pages_set false p (p + 1) s s') ∨
  (a = NULL ∧ bitmap s' = bitmap s).
Proof.
  intros Hwf Hk E. destruct (no_page_available s) eqn:Hf.
  - rewrite allocate_physical_page_flag in E by done. simplify_eq. auto.
  - destruct (allocate_physical_page_ok s) as [(p & s1 & E' & ? & ? & ?)|[E' _]];
      [done..| |]; rewrite E in E'; simplify_eq; [left; eauto|right; auto].
Qed.

Lemma first_searched_page_bound : 0 ≤ kernel_end → kernel_end - 2 ^ 15 < first_searched_page * 4096.
Proof.
  intros. unfold first_searched_page, first_searched_byte, PAGE_SIZE.
  rewrite Z.div_div by lia.
  pose proof (Z.div_mod kernel_end (4096 * (1 * 8))).
  pose proof (Z.mod_pos_bound kernel_end (4096 * (1 * 8))). lia.
Qed.
End allocation.

(** ** Release *)

Lemma free_physical_page_ok s p :
  phys_wf s → 0 ≤ p < NUM_PAGES →
  ∃ s', free_physical_page (p * 4096) s = Ret FAILURE s' ∧ no_page_available s' = false ∧
    ∀ q, avail s' q = if decide (q = p) then Some true else avail s q.
Proof.
  intros Hwf Hp. unfold free_physical_page.
  destruct (change_page_state_ok s p PAGE_AVAILABLE) as (s1 & E & [Hf Hs]); [done..|].
  run E. rewrite bool_decide_true by done. cbn [error_code_of_bool int_of_error_code negb Z.eqb].
  exec. exists (PhysicalMem (bitmap s1) false).
  assert (∀ q, avail s1 q = if decide (q = p) then Some true else avail s q) as Hs'.
  { intros q. rewrite Hs. repeat case_decide; done || lia. }
  destruct (no_page_available s1) eqn:Hn; exec; [done|].
  destruct s1; simpl in *; subst. done.
Qed.

Lemma free_physical_page_unaligned s a :
  0 ≤ a < 2 ^ 32 → a mod 4096 ≠ 0 → free_physical_page a s = Ret SUCCESS s.
Proof.
  intros Hr Ha. unfold free_physical_page.
  by run (change_page_state_unaligned s a PAGE_AVAILABLE Hr Ha).
Qed.

(** ** The memory map *)

(** The pages that lie wholly inside the bytes [addr .. addr+len-1]. *)
Definition page_inside (addr len p : Z) : Prop :=
  addr ≤ p * 4096 ∧ (p + 1) * 4096 ≤ addr + len.

#[export] Instance page_inside_dec addr len p : Decision (page_inside addr len p).
Proof. unfold page_inside. apply _. Defined.

Lemma PAGE_BOUNDARY_small val : 0 ≤ val < 2 ^ 32 → PAGE_BOUNDARY val = val / 4096 * 4096.
Proof. intros. rewrite PAGE_BOUNDARY_eq. by rewrite u32_small. Qed.

(** The rounding of a length: down to a multiple of the page size. *)
Lemma round_len len : 0 ≤ len < 2 ^ 32 →
  (if PAGE_BOUNDARY len =? len then len
   else if PAGE_BOUNDARY len <? len then PAGE_BOUNDARY len
   else u32 (PAGE_BOUNDARY len - PAGE_SIZE)) = len / 4096 * 4096.
Proof.
  intros Hr. pose proof (Z.div_mod len 4096). pose proof (Z.mod_pos_bound len 4096).
  rewrite PAGE_BOUNDARY_small by done.
  destruct (Z.eqb_spec (len / 4096 * 4096) len); [done|].
  by rewrite (proj2 (Z.ltb_lt (len / 4096 * 4096) len)) by lia.
Qed.

Lemma map_memory_entry_skip s e :
  mm_type e ≠ MULTIBOOT_MEMORY_AVAILABLE → map_memory_entry e s = Ret tt s.
Proof. intros Ht. unfold map_memory_entry. by rewrite (proj2 (Z.eqb_neq _ _) Ht). Qed.

(** The available pages after the run [lo .. hi-1] was freed, when that run is
    what lies inside the region. *)
Lemma pages_set_inside addr len lo hi s s' :
  (∀ p, page_inside addr len p ↔ lo ≤ p < hi) → pages_set true lo hi s s' →
  no_page_available s' = no_page_available s ∧
  ∀ p, avail s' p = if decide (page_inside addr len p) then Some true else avail s p.
Proof.
  intros Hiff [Hf Hs]. split; [done|]. intros p. rewrite Hs.
  apply decide_ext. by rewrite Hiff.
Qed.

Lemma map_memory_entry_ok s e :
  phys_wf s → mm_type e = MULTIBOOT_MEMORY_AVAILABLE →
  0 ≤ mm_addr e → 0 ≤ mm_len e → mm_addr e + mm_len e < 2 ^ 32 →
  ∃ s', map_memory_entry e s = Ret tt s' ∧
    no_page_available s' = no_page_available s ∧
    ∀ p, avail s' p
      = if decide (page_inside (mm_addr e) (mm_len e) p) then Some true else avail s p.
Proof.
  intros Hwf Ht Ha Hl Hal. unfold map_memory_entry. rewrite Ht, Z.eqb_refl. cbn [negb].
  set (a := mm_addr e) in *. set (l := mm_len e) in *.
  rewrite (u32_small a), (u32_small l) by lia.
  pose proof (Z.div_mod a 4096). pose proof (Z.mod_pos_bound a 4096).
  rewrite PAGE_BOUNDARY_small by lia. destruct (Z.eqb_spec (a / 4096 * 4096) a) as [Ea|Ea].
  - cbn [negb andb]. rewrite round_len by lia.
    pose proof (Z.div_mod l 4096). pose proof (Z.mod_pos_bound l 4096).
    rewrite u32_small by lia.
    destruct (change_pages_state_ok s (a / 4096) (a / 4096 + l / 4096) PAGE_AVAILABLE)
      as (s' & E & Hs); [done|lia|rewrite NUM_PAGES_eq; lia|].
    replace ((a / 4096 + l / 4096) * 4096) with (a + l / 4096 * 4096) in E by lia.
    rewrite Ea in E. run E. rewrite decide_True by done. exists s'. split; [done|].
    apply (pages_set_inside _ _ (a / 4096) (a / 4096 + l / 4096)); [|done].
    unfold page_inside. lia.
  - cbn [negb andb]. assert (PAGE_SIZE = 4096) as HPS by reflexivity.
    destruct (Z.leb_spec l PAGE_SIZE) as [Hle|Hgt].
    + exists s. split_and!; [done..|]. intros p. rewrite decide_False; [done|].
      unfold page_inside. lia.
    + unfold NEXT_PAGE_BOUNDARY. rewrite PAGE_BOUNDARY_small by lia.
      set (b := a / 4096 + 1). replace (a / 4096 * 4096 + PAGE_SIZE) with (b * 4096) by lia.
      rewrite (u32_small (b * 4096)) by lia.
      assert (u64 (b * 4096 - a) = b * 4096 - a) as -> by (apply Z.mod_small; lia).
      set (l1 := l - (b * 4096 - a)). rewrite (u32_small l1) by lia.
      rewrite round_len by lia.
      pose proof (Z.div_mod l1 4096). pose proof (Z.mod_pos_bound l1 4096).
      rewrite u32_small by lia.
      destruct (change_pages_state_ok s b (b + l1 / 4096) PAGE_AVAILABLE)
        as (s' & E & Hs); [done|lia|rewrite NUM_PAGES_eq; lia|].
      replace ((b + l1 / 4096) * 4096) with (b * 4096 + l1 / 4096 * 4096) in E by lia.
      run E. rewrite decide_True by done. exists s'. split; [done|].
      apply (pages_set_inside _ _ b (b + l1 / 4096)); [|done].
      unfold page_inside. lia.
Qed.

(** In [len -= (address - map_iterator->addr)] only the low 32 bits of the
    64-bit [addr] matter. *)
Lemma u32_sub_u64 l a x : u32 (l - u64 (a - x)) = u32 (l - (a - u32 x)).
Proof.
  unfold u32, u64.
  pose proof (Z.div_mod (a - x) (2 ^ 64)). pose proof (Z.div_mod x (2 ^ 32)).
  replace (l - (a - x) mod 2 ^ 64)
    with (l - (a - x mod 2 ^ 32) + (2 ^ 32 * ((a - x) / 2 ^ 64) + x / 2 ^ 32) * 2 ^ 32) by lia.
  by rewrite Z.mod_add by lia.
Qed.

Lemma map_memory_entry_wf s e s' :
  phys_wf s → map_memory_entry e s = Ret tt s' → phys_wf s'.
Proof.
  intros Hwf. unfold map_memory_entry. destruct (negb _); [by intros [= <-]|].
  destruct (_ && _); [by intros [= <-]|].
  intros (r & s1 & E & Hr)%bind_Ret_inv.
  eapply change_pages_state_wf in E; [|done| |apply u32_range].
  - destruct (decide (r = SUCCESS)); by inversion Hr; subst.
  - destruct (_ =? _); apply u32_range.
Qed.

Lemma map_memory_loop_wf fuel mb it e s s' :
  phys_wf s → map_memory_loop fuel mb it e s = Ret tt s' → phys_wf s'.
Proof.
  revert it s. induction fuel as [|fuel IH]; intros it s Hwf; simpl; [done|].
  destruct (it <? e); [|by intros [= <-]].
  intros (entry & s1 & E1 & (u & s2 & E2 & E3)%bind_Ret_inv)%bind_Ret_inv.
  assert (s1 = s) as -> by (unfold mlift in E1; by destruct (read_multiboot_memory_map _ _); simplify_eq).
  destruct u. eapply IH; [|done]. by eapply map_memory_entry_wf.
Qed.

(** ** The manager in use

    A client calls the operations in any order; [held] lists the pages it has
    been given and has not returned. *)

Inductive phys_step (kernel_end : Z) : physical_mem * list Z → physical_mem * list Z → Prop :=
  | step_alloc s s' a held :
      allocate_physical_page kernel_end s = Ret a s' → a ≠ NULL →
      phys_step kernel_end (s, held) (s', a :: held)
  | step_alloc_none s s' held :
      allocate_physical_page kernel_end s = Ret NULL s' →
      phys_step kernel_end (s, held) (s', held)
  | step_free s s' e a held1 held2 :
      free_physical_page a s = Ret e s' →
      phys_step kernel_end (s, held1 ++ a :: held2) (s', held1 ++ held2)
  | step_register s s' e lo hi held :
      0 ≤ lo < 2 ^ 32 → 0 ≤ hi < 2 ^ 32 →
      register_physical_pages lo hi s = Ret e s' →
      phys_step kernel_end (s, held) (s', held).

(** What holds of the pages handed out since the state was [s0]. *)
Definition held_ok (kernel_end : Z) (s0 : physical_mem) (c : physical_mem * list Z) : Prop :=
  phys_wf c.1 ∧ NoDup c.2 ∧
  (∀ p, avail c.1 p = Some true → avail s0 p = Some true) ∧
  Forall (λ a, ∃ p, a = p * 4096 ∧ first_searched_page kernel_end ≤ p < NUM_PAGES ∧
                    avail c.1 p = Some false ∧ avail s0 p = Some true) c.2.

Section ledger.
Variables (kernel_end : Z) (s0 : physical_mem).
Hypothesis Hk : 0 ≤ kernel_end < 2 ^ 32.

Lemma held_ok_init : phys_wf s0 → held_ok kernel_end s0 (s0, []).
Proof. intros Hwf. by split_and!; [|apply NoDup_nil_2| |apply Forall_nil_2]. Qed.

(** Marking pages that are not available any more keeps the held pages held. *)
Lemma held_ok_shrink s s' held :
  phys_wf s' →
  (∀ p, avail s' p = avail s p ∨ avail s' p = Some false) →
  held_ok kernel_end s0 (s, held) → held_ok kernel_end s0 (s', held).
Proof.
  intros Hwf' Hs (Hwf & Hnd & Hsub & Hheld). simpl in *. split_and!; simpl; [done..| |].
  - intros p Hp. apply Hsub. destruct (Hs p); congruence.
  - eapply Forall_impl; [done|]. simpl. intros a (p & -> & Hp & Hc & H0).
    exists p. split_and!; [done|lia|lia| |done]. destruct (Hs p); congruence.
Qed.

Lemma held_ok_alloc s s' p held :
  first_set (bitmap s) 0 (first_searched_page kernel_end) p → p < NUM_PAGES →
  pages_set false p (p + 1) s s' →
  held_ok kernel_end s0 (s, held) → held_ok kernel_end s0 (s', p * 4096 :: held).
Proof.
  intros (Hle & Hset & _) Hp Hs (Hwf & Hnd & Hsub & Hheld).
  assert (p * 4096 ∉ held) as Hnew.
  { intros Hin. simpl in Hheld. rewrite Forall_forall in Hheld.
    destruct (Hheld _ Hin) as (q & Heq & _ & Hc & _). assert (p = q) as -> by lia.
    unfold avail in Hc. congruence. }
  destruct (held_ok_shrink s s' held) as (Hwf' & _ & Hsub' & Hheld').
  { by eapply pages_set_wf. }
  { intros q. destruct Hs as [_ Hs]. rewrite Hs. case_decide; auto. }
  { done. }
  split_and!; simpl; [done|by apply NoDup_cons_2|done|].
  constructor; [|done]. exists p. split_and!; [done|lia|lia| |by apply Hsub].
  destruct Hs as [_ Hs]. by rewrite Hs, decide_True by lia.
Qed.

Lemma held_ok_free s s' e a held1 held2 :
  free_physical_page a s = Ret e s' →
  held_ok kernel_end s0 (s, held1 ++ a :: held2) → held_ok kernel_end s0 (s', held1 ++ held2).
Proof.
  intros Hfree (Hwf & Hnd & Hsub & Hheld). simpl in *.
  rewrite Forall_app, Forall_cons in Hheld.
  destruct Hheld as (Hh1 & (p & -> & Hp & Hc & H0) & Hh2).
  rewrite <-Permutation_middle, NoDup_cons in Hnd. destruct Hnd as [Hnew Hnd].
  assert (0 ≤ first_searched_page kernel_end).
  { pose proof (first_searched_page_bound kernel_end). unfold first_searched_page in *. lia. }
  destruct (free_physical_page_ok s p) as (s1 & E & _ & Hs); [done|lia|].
  assert (s1 = s') as -> by congruence.
  assert (∀ b, b ∈ held1 ++ held2 → ∀ q, b = q * 4096 → q ≠ p) as Hne.
  { intros b Hb q -> ->. done. }
  split_and!; simpl; [|done| |].
  - intros q Hq. rewrite Hs. case_decide; eauto.
  - intros q. rewrite Hs. case_decide; [by intros _; subst|apply Hsub].
  - rewrite Forall_forall. intros b Hb.
    assert (Forall (λ a, ∃ p, a = p * 4096 ∧ first_searched_page kernel_end ≤ p < NUM_PAGES ∧
      avail s p = Some false ∧ avail s0 p = Some true) (held1 ++ held2)) as Hh
      by (by apply Forall_app).
    rewrite Forall_forall in Hh. destruct (Hh b Hb) as (q & -> & Hq & Hcq & H0q).
    exists q. split_and!; [done|lia|lia| |done]. rewrite Hs, decide_False; [done|]. eauto.
Qed.

Lemma held_ok_step c c' : phys_step kernel_end c c' → held_ok kernel_end s0 c → held_ok kernel_end s0 c'.
Proof.
  intros Hstep Hok. destruct Hstep as [s s' a held E Hn|s s' held E|s s' e a h1 h2 E|s s' e lo hi held Hlo Hhi E].
  - destruct (allocate_physical_page_cases _ _ _ _ (proj1 Hok) Hk E) as [(p & -> & ? & ? & ?)|[? _]]; [|done].
    by eapply held_ok_alloc.
  - destruct (allocate_physical_page_cases _ _ _ _ (proj1 Hok) Hk E) as [(p & Hp & ? & ? & Hs)|[_ Hb]].
    + eapply held_ok_shrink; [by eapply pages_set_wf; [apply Hok|]| |done].
      intros q. destruct Hs as [_ Hs]. rewrite Hs. case_decide; auto.
    + apply (held_ok_shrink s); [|unfold avail; rewrite Hb; auto|done].
      intros q Hq. unfold avail. rewrite Hb. by apply Hok.
  - by eapply held_ok_free.
  - eapply held_ok_shrink; [by eapply change_pages_state_wf; [apply Hok|apply Hlo|apply Hhi|]| |done].
    destruct (change_pages_state_total s lo hi PAGE_UNAVAILABLE)
      as [[E' _]|(s1 & E' & _ & _ & _ & [_ Hs])]; [apply Hok|done..| |];
      unfold register_physical_pages in E; rewrite E in E'; simplify_eq; [auto|].
    intros q. rewrite Hs. case_decide; auto.
Qed.

Lemma held_ok_reachable c :
  phys_wf s0 → rtc (phys_step kernel_end) (s0, []) c → held_ok kernel_end s0 c.
Proof.
  intros Hwf Hrtc. eapply (rtc_ind_r (held_ok kernel_end s0) (s0, [])); [by apply held_ok_init| |done].
  intros y z _ Hyz. by apply held_ok_step.
Qed.
End ledger.

(** ** Boot *)

(** The pages [phy_memory_manager_init] takes away: the low memory it names
    and the kernel image. *)
Definition boot_reserved (kernel_start kernel_end p : Z) : Prop :=
  0 ≤ p < 255 ∨ kernel_start / 4096 ≤ p < kernel_end / 4096.

Lemma phy_memory_manager_init_reserved ks ke fuel mb map_addr map_length s s' :
  0 ≤ ks ≤ ke → ke < 2 ^ 32 → ks mod 4096 = 0 → ke mod 4096 = 0 → phys_wf s →
  phy_memory_manager_init ks ke fuel mb map_addr map_length s = Ret tt s' →
  phys_wf s' ∧ ∀ p, boot_reserved ks ke p → avail s' p = Some false.
Proof.
  intros Hks Hke Hksa Hkea Hwf. unfold phy_memory_manager_init.
  intros ([] & s1 & E1 & (e2 & s2 & E2 & (e3 & s3 & E3 & [= <-])%bind_Ret_inv)%bind_Ret_inv)%bind_Ret_inv.
  apply map_memory_loop_wf in E1; [|done].
  destruct (change_pages_state_ok s1 0 255 PAGE_UNAVAILABLE) as (s2' & E2' & Hs2); [done|lia|done|].
  change (255 * 4096) with 0xff000 in E2'. rewrite Z.mul_0_l in E2'.
  assert (s2' = s2) as -> by congruence.
  assert (phys_wf s2) as Hwf2 by (by eapply pages_set_wf).
  destruct (change_pages_state_total s2 ks ke PAGE_UNAVAILABLE)
    as [[_ Hbad]|(s3' & E3' & _ & _ & _ & Hs3)]; [done|lia|lia|lia|].
  assert (s3' = s3) as -> by congruence.
  split; [by eapply pages_set_wf|]. intros p Hp.
  destruct Hs2 as [_ Hs2], Hs3 as [_ Hs3]. rewrite Hs3, Hs2. cbn [bool_of_page_state].
  repeat case_decide; try done. destruct Hp; lia.
Qed.

(** The entries that the loop of [map_memory] passes, from [it] to [map_end]. *)
Fixpoint memory_map (mb : vmem) (it map_end : Z) (es : list multiboot_memory_map) : Prop :=
  match es with
  | [] => map_end ≤ it
  | e :: es' => it < map_end ∧ read_multiboot_memory_map mb it = Some e ∧
                memory_map mb (u32 (it + mm_size e + 4)) map_end es'
  end.

(** A region that is no memory, or ends below 4 GB. *)
Definition region_ok (e : multiboot_memory_map) : Prop :=
  mm_type e ≠ MULTIBOOT_MEMORY_AVAILABLE ∨ 0 ≤ mm_addr e ∧ 0 ≤ mm_len e ∧ mm_addr e + mm_len e < 2 ^ 32.

(** A page wholly inside a region of available memory. *)
Definition region_has (p : Z) (e : multiboot_memory_map) : Prop :=
  mm_type e = MULTIBOOT_MEMORY_AVAILABLE ∧ page_inside (mm_addr e) (mm_len e) p.

#[export] Instance region_has_dec p e : Decision (region_has p e).
Proof. unfold region_has. apply _. Defined.

Lemma map_memory_region_ok s e : phys_wf s → region_ok e →
  ∃ s', map_memory_entry e s = Ret tt s' ∧ no_page_available s' = no_page_available s ∧
    ∀ p, avail s' p = if decide (region_has p e) then Some true else avail s p.
Proof.
  intros Hwf Hr. destruct (decide (mm_type e = MULTIBOOT_MEMORY_AVAILABLE)) as [Ht|Ht].
  - destruct Hr as [|(H1 & H2 & H3)]; [done|].
    destruct (map_memory_entry_ok s e Hwf Ht H1 H2 H3) as (s' & E & Hn & Hs).
    exists s'. split_and!; [done..|]. intros p. rewrite Hs. apply decide_ext. unfold region_has. tauto.
  - exists s. split_and!; [by apply map_memory_entry_skip|done|]. intros p.
    rewrite decide_False; [done|]. unfold region_has. tauto.
Qed.

Lemma map_memory_loop_ok mb map_end es : ∀ fuel it s,
  phys_wf s → memory_map mb it map_end es → Forall region_ok es → (length es < fuel)%nat →
  ∃ s', map_memory_loop fuel mb it map_end s = Ret tt s' ∧ no_page_available s' = no_page_available s ∧
    ∀ p, avail s' p = if decide (Exists (region_has p) es) then Some true else avail s p.
Proof.
  induction es as [|e es IH]; intros fuel it s Hwf Hm Hr Hf; (destruct fuel as [|fuel]; [simpl in Hf; lia|]);
    cbn [map_memory_loop memory_map] in *.
  - exists s. rewrite (proj2 (Z.ltb_ge _ _)) by done. split_and!; [done..|]. intros p.
    rewrite decide_False; [done|]. intros Hx. inversion Hx.
  - destruct Hm as (Hlt & Hread & Hm). apply Forall_cons in Hr as [He Hr].
    rewrite (proj2 (Z.ltb_lt _ _)) by done.
    assert (mlift (read_multiboot_memory_map mb it) s = Ret e s) as E0 by (unfold mlift; by rewrite Hread). run E0.
    destruct (map_memory_region_ok s e Hwf He) as (s1 & E1 & Hn1 & H1). run E1.
    destruct (IH fuel (u32 (it + mm_size e + 4)) s1) as (s2 & E2 & Hn2 & H2); [|done|done|simpl in Hf; lia|].
    { intros p Hp. rewrite H1. case_decide; eauto. }
    exists s2. split_and!; [done|congruence|]. intros p. rewrite H2, H1.
    destruct (decide (Exists (region_has p) es)) as [Hx|Hx].
    + by rewrite decide_True by (by apply Exists_cons_tl).
    + apply decide_ext. rewrite Exists_cons. tauto.
Qed.

Lemma phy_memory_manager_init_ok ks ke fuel mb map_addr map_length es s :
  0 ≤ ks ≤ ke → ke < 2 ^ 32 → ks mod 4096 = 0 → ke mod 4096 = 0 → phys_wf s →
  memory_map mb map_addr (u32 (map_addr + 24 * map_length)) es → Forall region_ok es → (length es < fuel)%nat →
  ∃ s', phy_memory_manager_init ks ke fuel mb map_addr map_length s = Ret tt s' ∧
    phys_wf s' ∧ no_page_available s' = no_page_available s ∧
    ∀ p, avail s' p = if decide (0 ≤ p < 255 ∨ ks / 4096 ≤ p < ke / 4096) then Some false
                      else if decide (Exists (region_has p) es) then Some true else avail s p.
Proof.
  intros Hks Hke Hksa Hkea Hwf Hm Hr Hf. unfold phy_memory_manager_init.
  destruct (map_memory_loop_ok mb _ es fuel map_addr s Hwf Hm Hr Hf) as (s1 & E1 & Hn1 & H1).
  assert (phys_wf s1) as Hwf1 by (intros p Hp; rewrite H1; case_decide; eauto).
  run (E1 : map_memory fuel mb map_addr map_length s = Ret tt s1).
  destruct (change_pages_state_ok s1 0 255 PAGE_UNAVAILABLE) as (s2 & E2 & Hn2 & H2); [done|lia|done|].
  change (255 * 4096) with 0xff000 in E2. rewrite Z.mul_0_l in E2. run E2.
  assert (phys_wf s2) as Hwf2 by (intros p Hp; rewrite H2; case_decide; eauto).
  destruct (change_pages_state_total s2 ks ke PAGE_UNAVAILABLE)
    as [[_ Hbad]|(s3 & E3 & _ & _ & _ & Hn3 & H3)]; [done|lia|lia|lia|].
  run E3. exists s3. split_and!; [done| |congruence|].
  - intros p Hp. rewrite H3. case_decide; eauto.
  - intros p. rewrite H3, H2, H1. cbn [bool_of_page_state].
    repeat case_decide; done || lia.
Qed.

(** From the state of the program's start: the first 255 pages and the kernel are reserved. *)
Lemma phy_memory_manager_init_booted ks ke fuel mb map_addr map_length es :
  0 ≤ ks ≤ ke → ke < 2 ^ 32 → ks mod 4096 = 0 → ke mod 4096 = 0 →
  memory_map mb map_addr (u32 (map_addr + 24 * map_length)) es → Forall region_ok es → (length es < fuel)%nat →
  ∃ s', phy_memory_manager_init ks ke fuel mb map_addr map_length physical_memory = Ret tt s' ∧
    phys_wf s' ∧ no_page_available s' = false ∧
    ∀ p, 0 ≤ p < NUM_PAGES → avail s' p = Some true ↔ Exists (region_has p) es ∧ ¬ boot_reserved ks ke p.
Proof.
  intros Hks Hke Hksa Hkea Hm Hr Hf.
  destruct (phy_memory_manager_init_ok ks ke fuel mb map_addr map_length es physical_memory)
    as (s' & E & Hwf & Hn & Hs); [done|done|done|done|apply physical_memory_wf|done|done|done|].
  exists s'. split_and!; [done..|]. intros p Hp. rewrite Hs. unfold boot_reserved.
  assert (avail physical_memory p = Some false) as H0.
  { apply (empty_carray_clear BITMAP_SIZE BITMAP_SIZE); [lia|]. by rewrite NUM_PAGES_eq in Hp. }
  rewrite H0. destruct (decide (0 ≤ p < 255 ∨ _)) as [Hr'|Hr']; [by split; [|intros [_ []]]|].
  destruct (decide (Exists (region_has p) es)) as [Hx|Hx]; [by split|]. split; [done|]. by intros [? _].
Qed.


(** ** Properties *)

(** [change_pages_state] returns for every pair of 32-bit addresses (its
    loop does not wrap around).  Unless both are page boundaries and in order
    it reports [INVALID_ARGUMENT] and changes nothing; otherwise it gives
    exactly the pages from [begin] up to, not including, [end] the new state. *)
Theorem change_pages_state_spec s begin end_ st :
  phys_wf s → 0 ≤ begin < 2 ^ 32 → 0 ≤ end_ < 2 ^ 32 →
  (change_pages_state begin end_ st s = Ret INVALID_ARGUMENT s ∧
    (begin mod 4096 ≠ 0 ∨ end_ mod 4096 ≠ 0 ∨ end_ < begin)) ∨
  (∃ s', change_pages_state begin end_ st s = Ret SUCCESS s' ∧
    begin mod 4096 = 0 ∧ end_ mod 4096 = 0 ∧ begin ≤ end_ ∧
    no_page_available s' = no_page_available s ∧
    ∀ p, avail s' p = if decide (begin / 4096 ≤ p < end_ / 4096)
                      then Some (bool_of_page_state st) else avail s p).
Proof.
  intros Hwf Hb He. by destruct (change_pages_state_total s begin end_ st) as [?|(s' & ?)]; eauto.
Qed.

(** [allocate_physical_page] returns the address of the first available
    page at or after the byte of the bitmap that describes [kernel_end], and
    marks that page, and only it, unavailable; it returns [NULL] exactly when
    there is no such page, and then raises [no_page_available], which makes
    it return [NULL] at once from then on. *)
Theorem allocate_physical_page_spec kernel_end s :
  phys_wf s → 0 ≤ kernel_end < 2 ^ 32 →
  (no_page_available s = true ∧ allocate_physical_page kernel_end s = Ret NULL s) ∨
  (no_page_available s = false ∧
   ((∃ p s', allocate_physical_page kernel_end s = Ret (p * 4096) s' ∧
       first_set (bitmap s) 0 (first_searched_page kernel_end) p ∧ p < NUM_PAGES ∧
       pages_set false p (p + 1) s s') ∨
    (allocate_physical_page kernel_end s = Ret NULL (PhysicalMem (bitmap s) true) ∧
       all_clear (bitmap s) 0 (first_searched_page kernel_end) NUM_PAGES))).
Proof.
  intros Hwf Hk. destruct (no_page_available s) eqn:Hf.
  - left. split; [done|]. by apply allocate_physical_page_flag.
  - right. split; [done|]. by apply allocate_physical_page_ok.
Qed.

(** C3.  The pages a client holds are its own: in every state reachable from
    [s0] by allocations, releases of held pages and registrations, the pages
    handed out and not yet returned are pairwise distinct page addresses
    that are marked unavailable, and each was available in [s0]. *)
Theorem held_pages_distinct kernel_end s0 s held :
  0 ≤ kernel_end < 2 ^ 32 → phys_wf s0 → rtc (phys_step kernel_end) (s0, []) (s, held) →
  NoDup held ∧
  ∀ a, a ∈ held → a mod 4096 = 0 ∧ avail s (a / 4096) = Some false ∧
                  avail s0 (a / 4096) = Some true.
Proof.
  intros Hk Hwf Hr. destruct (held_ok_reachable _ _ Hk _ Hwf Hr) as (_ & Hnd & _ & Hh).
  split; [done|]. intros a Ha. simpl in Hh. rewrite Forall_forall in Hh.
  destruct (Hh a Ha) as (p & -> & _ & ? & ?). rewrite Z.mod_mul, Z.div_mul by lia. done.
Qed.

(** C14. [phy_memory_manager_init] returns for every map of regions that end below
    4 GB, and then exactly those pages are available that lie wholly inside a
    region of available memory and are neither among the first 255 nor part
    of the kernel image.  The entries are those up to the address
    [map_addr + 24 * map_length], with the length in bytes that the boot
    loader passes: what follows the map in memory must look like regions too. *)
Theorem phy_memory_manager_init_spec ks ke fuel mb map_addr map_length es :
  0 ≤ ks ≤ ke → ke < 2 ^ 32 → ks mod 4096 = 0 → ke mod 4096 = 0 →
  memory_map mb map_addr (u32 (map_addr + 24 * map_length)) es → Forall region_ok es → (length es < fuel)%nat →
  ∃ s', phy_memory_manager_init ks ke fuel mb map_addr map_length physical_memory = Ret tt s' ∧
    no_page_available s' = false ∧
    ∀ p, 0 ≤ p < NUM_PAGES → avail s' p = Some true ↔ Exists (region_has p) es ∧ ¬ boot_reserved ks ke p.
Proof.
  intros Hks Hke Hksa Hkea Hm Hr Hf.
  destruct (phy_memory_manager_init_booted ks ke fuel mb map_addr map_length es) as (s' & E & _ & Hs); [done..|]. by exists s'.
Qed.

(** C20.  After [phy_memory_manager_init] returned, whatever memory map the
    boot loader passed, no page of the kernel image and none of the first
    255 pages is ever handed out by [allocate_physical_page]. *)
Theorem boot_pages_never_allocated ks ke fuel mb map_addr map_length s0 s held :
  0 ≤ ks ≤ ke → ke < 2 ^ 32 → ks mod 4096 = 0 → ke mod 4096 = 0 →
  phy_memory_manager_init ks ke fuel mb map_addr map_length physical_memory = Ret tt s0 →
  rtc (phys_step ke) (s0, []) (s, held) →
  ∀ a, a ∈ held → ¬ boot_reserved ks ke (a / 4096).
Proof.
  intros Hks Hke Hksa Hkea Hinit Hr a Ha Hres.
  apply phy_memory_manager_init_reserved in Hinit as [Hwf Havail]; try done.
  - destruct (held_ok_reachable ke s0 (conj (Z.le_trans _ _ _ (proj1 Hks) (proj2 Hks)) Hke) _ Hwf Hr)
      as (_ & _ & _ & Hh).
    simpl in Hh. rewrite Forall_forall in Hh. destruct (Hh a Ha) as (p & -> & _ & _ & H0).
    rewrite Z.div_mul in Hres by lia. rewrite Havail in H0 by done. done.
  - apply physical_memory_wf.
Qed.

(** For a region of the memory map that ends below 4 GB, [map_memory]
    frees exactly the pages that lie wholly inside it. *)
Theorem map_memory_entry_exact s e :
  phys_wf s → mm_type e = MULTIBOOT_MEMORY_AVAILABLE →
  0 ≤ mm_addr e → 0 ≤ mm_len e → mm_addr e + mm_len e < 2 ^ 32 →
  ∃ s', map_memory_entry e s = Ret tt s' ∧
    no_page_available s' = no_page_available s ∧
    ∀ p, avail s' p
      = if decide (mm_addr e ≤ p * 4096 ∧ (p + 1) * 4096 ≤ mm_addr e + mm_len e)
        then Some true else avail s p.
Proof. apply map_memory_entry_ok. Qed.

(** Addresses and lengths are cut to 32 bits: a region above 4 GB is
    treated as the region of low memory with the same low address bits. *)
Theorem map_memory_entry_truncates e s :
  map_memory_entry e s
  = map_memory_entry
      (MultibootMemoryMap (mm_size e) (u32 (mm_addr e)) (u32 (mm_len e)) (mm_type e)) s.
Proof.
  unfold map_memory_entry. simpl. rewrite !u32_u32.
  destruct (negb _); [done|]. destruct (_ && _); [done|].
  by rewrite (u32_sub_u64 _ _ (mm_addr e)), (u32_sub_u64 _ _ (u32 (mm_addr e))), u32_u32.
Qed.

(** [free_physical_page] gives a page back: after it the set of available
    pages is what it was before the page was allocated.  But the code it
    returns is the truth value of its test for success: [FAILURE] here, and
    [SUCCESS] for an address that is no page boundary, where it does nothing. *)
Theorem free_physical_page_inverts kernel_end s a s' :
  phys_wf s → 0 ≤ kernel_end < 2 ^ 32 →
  allocate_physical_page kernel_end s = Ret a s' → a ≠ NULL →
  (∃ s'', free_physical_page a s' = Ret FAILURE s'' ∧ ∀ p, avail s'' p = avail s p) ∧
  (∀ b, 0 ≤ b < 2 ^ 32 → b mod 4096 ≠ 0 → free_physical_page b s' = Ret SUCCESS s').
Proof.
  intros Hwf Hk E Ha. split; [|by intros; apply free_physical_page_unaligned].
  destruct (allocate_physical_page_cases _ _ _ _ Hwf Hk E) as [(p & -> & Hp & Hlt & Hs)|[? _]]; [|done].
  destruct (free_physical_page_ok s' p) as (s'' & E'' & _ & Hs''); [by eapply pages_set_wf| |].
  { pose proof (first_searched_page_bound kernel_end). destruct Hp as [? _].
    unfold first_searched_page in *. lia. }
  exists s''. split; [done|]. intros q. rewrite Hs''. destruct Hs as [_ Hs]. rewrite Hs.
  destruct (decide (q = p)) as [->|]; [symmetry; apply Hp|]. by rewrite decide_False by lia.
Qed.

(** ** Witnesses *)

(** What a computation leaves, for the concrete runs below. *)
Definition state_after {A} (m : M physical_mem A) (s : physical_mem) : physical_mem :=
  match m s with Ret _ s' => s' | _ => s end.

(** The memory map of a machine with 1 MB of memory from 1 MB on: one entry,
    followed by zeros (the loop reads 24 times too far). *)
Definition example_map_entry : gmap Z Z :=
  list_to_map (zip (seqZ 0 24)
    [20;0;0;0; 0;0;16;0; 0;0;0;0; 0;0;16;0; 0;0;0;0; 1;0;0;0]).

Definition example_mb : vmem :=
  VMem (list_to_map ((λ a, (0x9000 + a, default 0 (example_map_entry !! a))) <$> seqZ 0 700)).

Definition example_kernel_start : Z := 0x100000.
Definition example_kernel_end : Z := 0x140000.

Definition example_boot : M physical_mem unit :=
  phy_memory_manager_init example_kernel_start example_kernel_end 200 example_mb 0x9000 24.

Definition example_booted : physical_mem := state_after example_boot physical_memory.

Lemma example_boot_runs : example_boot physical_memory = Ret tt example_booted.
Proof. vm_compute. reflexivity. Qed.

Lemma example_booted_wf : phys_wf example_booted.
Proof.
  eapply (phy_memory_manager_init_reserved example_kernel_start example_kernel_end);
    [done..|apply physical_memory_wf|apply example_boot_runs].
Qed.

Definition example_alloc : M physical_mem Z := allocate_physical_page example_kernel_end.
Definition example_one : physical_mem := state_after example_alloc example_booted.
Definition example_two : physical_mem := state_after example_alloc example_one.

Lemma example_alloc_runs :
  example_alloc example_booted = Ret 0x140000 example_one ∧
  example_alloc example_one = Ret 0x141000 example_two.
Proof. split; vm_compute; reflexivity. Qed.

Lemma example_two_held :
  rtc (phys_step example_kernel_end) (example_booted, []) (example_two, [0x141000; 0x140000]).
Proof.
  apply (rtc_l _ _ (example_one, [0x140000])).
  { exact (step_alloc _ _ _ _ [] (proj1 example_alloc_runs) ltac:(discriminate)). }
  apply (rtc_l _ _ (example_two, [0x141000; 0x140000])).
  { exact (step_alloc _ _ _ _ [0x140000] (proj2 example_alloc_runs) ltac:(discriminate)). }
  apply rtc_refl.
Qed.

Lemma change_pages_state_spec_witness :
  ∃ s', change_pages_state 0x100000 0x200000 PAGE_AVAILABLE physical_memory = Ret SUCCESS s' ∧
    avail s' 256 = Some true.
Proof.
  destruct (change_pages_state_spec physical_memory 0x100000 0x200000 PAGE_AVAILABLE)
    as [[_ Hbad]|(s' & E & _ & _ & _ & _ & Hs)]; [apply physical_memory_wf|lia|lia| |].
  - exfalso. vm_compute in Hbad. intuition discriminate.
  - exists s'. split; [exact E|]. rewrite Hs, decide_True; [reflexivity|]. split; vm_compute; congruence.
Defined.

Lemma allocate_physical_page_spec_witness :
  ∃ p s', allocate_physical_page example_kernel_end example_booted = Ret (p * 4096) s' ∧
    first_set (bitmap example_booted) 0 (first_searched_page example_kernel_end) p.
Proof.
  pose proof example_alloc_runs as [Erun _]. unfold example_alloc in Erun.
  destruct (allocate_physical_page_spec example_kernel_end example_booted)
    as [[_ E]|[_ [(p & s' & E & Hp & _)|[E _]]]]; [apply example_booted_wf|split; [discriminate|reflexivity]| | |].
  - rewrite E in Erun. discriminate Erun.
  - exists p, s'. split; [exact E|exact Hp].
  - rewrite E in Erun. discriminate Erun.
Defined.

Lemma held_pages_distinct_witness :
  NoDup [0x141000; 0x140000] ∧
  ∀ a, a ∈ [0x141000; 0x140000] →
    a mod 4096 = 0 ∧ avail example_two (a / 4096) = Some false ∧
    avail example_booted (a / 4096) = Some true.
Proof.
  apply (held_pages_distinct example_kernel_end).
  - split; [discriminate|reflexivity].
  - apply example_booted_wf.
  - apply example_two_held.
Defined.

Lemma boot_pages_never_allocated_witness :
  ¬ boot_reserved example_kernel_start example_kernel_end (0x141000 / 4096).
Proof.
  apply (boot_pages_never_allocated example_kernel_start example_kernel_end 200 example_mb 0x9000 24
           example_booted example_two [0x141000; 0x140000]).
  - split; discriminate.
  - reflexivity.
  - reflexivity.
  - reflexivity.
  - apply example_boot_runs.
  - apply example_two_held.
  - by left.
Defined.

Lemma map_memory_entry_exact_witness :
  ∃ s', map_memory_entry (MultibootMemoryMap 20 0x100800 0x2000 1) physical_memory = Ret tt s' ∧
    avail s' 256 = Some false ∧ avail s' 257 = Some true ∧ avail s' 258 = Some false.
Proof.
  destruct (map_memory_entry_exact physical_memory (MultibootMemoryMap 20 0x100800 0x2000 1))
    as (s' & E & _ & Hs); [apply physical_memory_wf|reflexivity|discriminate|discriminate|reflexivity|].
  exists s'. split; [exact E|]. rewrite !Hs. split_and!; vm_compute; reflexivity.
Defined.

Lemma free_physical_page_inverts_witness :
  (∃ s'', free_physical_page 0x140000 example_one = Ret FAILURE s'' ∧
          ∀ p, avail s'' p = avail example_booted p) ∧
  (∀ b, 0 ≤ b < 2 ^ 32 → b mod 4096 ≠ 0 → free_physical_page b example_one = Ret SUCCESS example_one).
Proof.
  apply (free_physical_page_inverts example_kernel_end example_booted).
  - apply example_booted_wf.
  - split; [discriminate|reflexivity].
  - exact (proj1 example_alloc_runs).
  - discriminate.
Defined.

(** A map of one entry, 1 MB at 1 MB, is read as 24 of them; behind it there
    are zeroes, regions of no type whose size advances by four bytes. *)
Definition example_regions : list multiboot_memory_map :=
  MultibootMemoryMap 20 0x100000 0x100000 1 :: replicate 138 (MultibootMemoryMap 0 0 0 0).

Lemma phy_memory_manager_init_spec_witness :
  ∃ s', phy_memory_manager_init example_kernel_start example_kernel_end 200 example_mb 0x9000 24 physical_memory
        = Ret tt s' ∧ avail s' 0x150 = Some true ∧ avail s' 0x130 ≠ Some true.
Proof.
  destruct (phy_memory_manager_init_spec example_kernel_start example_kernel_end 200 example_mb 0x9000 24
    example_regions) as (s' & E & _ & Hs).
  - split; discriminate.
  - reflexivity.
  - reflexivity.
  - reflexivity.
  - vm_compute. repeat split; discriminate.
  - constructor; [right; split_and!; [discriminate|discriminate|reflexivity]|].
    apply Forall_replicate. left. discriminate.
  - vm_compute. lia.
  - exists s'. split; [exact E|]. split.
    + apply Hs; [split; [discriminate|reflexivity]|]. split.
      * constructor. split; [reflexivity|split; discriminate].
      * intros [[_ H]|[_ H]]; vm_compute in H; discriminate H.
    + intros [_ H]%Hs; [|split; [discriminate|reflexivity]]. apply H. right. split; [discriminate|reflexivity].
Defined.
