(* ===== verification/FrameSpec.v ===== *)
(** * Physical memory as a set of frames

    What [physical_mm_manager.c] promises its clients: a set of available
    frames of which the first behind the kernel is handed out, and a flag that
    there was none left.  The operations on the bitmap refine this. *)

From S2P Require Import Prelude Refine Memory Bitmap Phys.

(** Which frames are available, and whether the last search found none. *)
Record frames := Frames { available : Z → bool; exhausted : bool }.

Inductive frame_op := Allocate | Free (a : Z) | Register (begin end_ : Z) | Unregister (begin end_ : Z).
Inductive frame_out := Page (a : Z) | Result (e : error_code).

(** The first available frame of [n] from [p] on. *)
Fixpoint first_available (n : nat) (p : Z) (has : Z → bool) : option Z :=
  match n with
  | O => None
  | Datatypes.S n' => if has p then Some p else first_available n' (p + 1) has
  end.

Definition set_frames (b : bool) (lo hi : Z) (has : Z → bool) : Z → bool :=
  λ p, if decide (lo ≤ p < hi) then b else has p.

(** A range of pages enters or leaves the set; the flag is not concerned. *)
Definition range_spec (b : bool) (begin end_ : Z) (a : frames) : option (frame_out * frames) :=
  if decide (0 ≤ begin < 2 ^ 32 ∧ 0 ≤ end_ < 2 ^ 32) then
    if decide (begin mod 4096 = 0 ∧ end_ mod 4096 = 0 ∧ begin ≤ end_) then
      Some (Result SUCCESS, Frames (set_frames b (begin / 4096) (end_ / 4096) (available a)) (exhausted a))
    else Some (Result INVALID_ARGUMENT, a)
  else None.

(** The result of [free_physical_page] is the comparison's: [FAILURE], the
    enumerator of value 1, for a page that was released. *)
Definition frames_spec (kernel_end : Z) (a : frames) (o : frame_op) : option (frame_out * frames) :=
  match o with
  | Allocate =>
      if exhausted a then Some (Page NULL, a)
      else
        let first := first_searched_page kernel_end in
        match first_available (Z.to_nat (NUM_PAGES - first)) first (available a) with
        | Some p => Some (Page (p * 4096), Frames (set_frames false p (p + 1) (available a)) false)
        | None => Some (Page NULL, Frames (available a) true)
        end
  | Free p =>
      if decide (0 ≤ p < 2 ^ 32) then
        if decide (p mod 4096 = 0) then
          Some (Result FAILURE, Frames (set_frames true (p / 4096) (p / 4096 + 1) (available a)) false)
        else Some (Result SUCCESS, a)
      else None
  | Register begin end_ => range_spec false begin end_ a
  | Unregister begin end_ => range_spec true begin end_ a
  end.

Definition run_frames (kernel_end : Z) (o : frame_op) : M physical_mem frame_out :=
  match o with
  | Allocate => p ← allocate_physical_page kernel_end; mret (Page p)
  | Free p => e ← free_physical_page p; mret (Result e)
  | Register begin end_ => e ← register_physical_pages begin end_; mret (Result e)
  | Unregister begin end_ => e ← unregister_physical_pages begin end_; mret (Result e)
  end.

(** The bitmap holds the set. *)
Definition keeps_frames (a : frames) (s : physical_mem) : Prop :=
  no_page_available s = exhausted a ∧ ∀ p, 0 ≤ p < NUM_PAGES → avail s p = Some (available a p).

Lemma first_available_Some n p has q : first_available n p has = Some q →
  p ≤ q < p + Z.of_nat n ∧ has q = true ∧ ∀ j, p ≤ j < q → has j = false.
Proof.
  revert p. induction n as [|n IH]; intros p E; [done|]. cbn [first_available] in E. destruct (has p) eqn:Ep.
  - injection E as <-. split_and!; [lia|lia|done|lia].
  - destruct (IH _ E) as (Hq & Hhas & Hlt). split_and!; [lia|lia|done|]. intros j Hj.
    destruct (decide (j = p)) as [->|]; [done|]. apply Hlt. lia.
Qed.

Lemma first_available_None n p has j : first_available n p has = None → p ≤ j < p + Z.of_nat n → has j = false.
Proof.
  revert p. induction n as [|n IH]; intros p E Hj; [lia|]. cbn [first_available] in E. destruct (has p) eqn:Ep; [done|].
  destruct (decide (j = p)) as [->|]; [done|]. apply (IH _ E). lia.
Qed.

Section frame_refinement.
Variable kernel_end : Z.
Implicit Types s : physical_mem.

Lemma keeps_frames_wf a s : keeps_frames a s → phys_wf s.
Proof. intros [_ Ha] p Hp. rewrite Ha by done. by eexists. Qed.

(** A step of the bitmap is one of the set. *)
Lemma keeps_frames_set a s s' b lo hi f : keeps_frames a s → no_page_available s' = f →
  (∀ p, avail s' p = if decide (lo ≤ p < hi) then Some b else avail s p) →
  keeps_frames (Frames (set_frames b lo hi (available a)) f) s'.
Proof.
  intros [_ Ha] Hf Hs. split; [done|]. intros p Hp. rewrite Hs. unfold set_frames. cbn [available].
  case_decide; [done|by apply Ha].
Qed.

Lemma allocate_refines a s out a' : 0 ≤ kernel_end < 2 ^ 32 → keeps_frames a s →
  frames_spec kernel_end a Allocate = Some (out, a') →
  ∃ s', run_frames kernel_end Allocate s = Ret out s' ∧ keeps_frames a' s'.
Proof.
  intros Hk HR E. pose proof (keeps_frames_wf _ _ HR) as Hwf. pose proof HR as [Hf Ha]. cbn [frames_spec run_frames] in *.
  destruct (exhausted a) eqn:Hx.
  { injection E as <- <-. exists s. split; [|done]. by run (allocate_physical_page_flag kernel_end s Hf). }
  assert (0 ≤ first_searched_page kernel_end ≤ NUM_PAGES) as Hfirst.
  { rewrite NUM_PAGES_eq. unfold first_searched_page, first_searched_byte, PAGE_SIZE. rewrite Z.div_div by lia. dlia. }
  destruct (allocate_physical_page_ok kernel_end s Hwf Hk Hf) as [(p & s' & E1 & (Hp1 & Hp2 & Hp3) & Hlt & [Hf' Hs])|[E1 Hc]].
  - fold (avail s) in Hp2, Hp3. assert (available a p = true) as Hap.
    { unfold avail in Ha. rewrite Ha in Hp2 by lia. congruence. }
    destruct (first_available _ _ _) as [q|] eqn:Eq.
    + apply first_available_Some in Eq as (Hq & Hhas & Hno). assert (p = q) as <-.
      { destruct (Z.lt_trichotomy p q) as [Hpq|[|Hpq]]; [|done|].
        - rewrite Hno in Hap; [done|lia].
        - specialize (Hp3 q ltac:(lia)). unfold avail in Ha. rewrite Ha in Hp3 by lia. congruence. }
      injection E as <- <-. exists s'. split; [by run E1|]. eapply keeps_frames_set; [done|congruence|exact Hs].
    + rewrite (first_available_None _ _ _ _ Eq) in Hap; [done|lia].
  - destruct (first_available _ _ _) as [q|] eqn:Eq.
    + apply first_available_Some in Eq as (Hq & Hhas & _). specialize (Hc q ltac:(lia)). unfold avail in Ha.
      rewrite Ha in Hc by lia. congruence.
    + injection E as <- <-. eexists. split; [by run E1|]. split; [done|]. exact Ha.
Qed.

Lemma range_refines a s b begin end_ out a' : keeps_frames a s →
  range_spec (bool_of_page_state b) begin end_ a = Some (out, a') →
  ∃ s', (e ← change_pages_state begin end_ b; mret (Result e)) s = Ret out s' ∧ keeps_frames a' s'.
Proof.
  intros HR E. unfold range_spec in E. case_decide as Hr; [|done]. destruct Hr as [Hb He].
  pose proof (keeps_frames_wf _ _ HR) as Hwf. pose proof HR as [Hf Ha].
  destruct (change_pages_state_total s begin end_ b Hwf Hb He) as [[E1 Hbad]|(s' & E1 & H1 & H2 & H3 & Hf' & Hs)].
  - rewrite decide_False in E by lia. injection E as <- <-. exists s. split; [by run E1|done].
  - rewrite decide_True in E by done. injection E as <- <-. exists s'. split; [by run E1|].
    eapply keeps_frames_set; [done|congruence|exact Hs].
Qed.

#[export] Instance frames_refine : 0 ≤ kernel_end < 2 ^ 32 → Refines (run_frames kernel_end) (frames_spec kernel_end) keeps_frames.
Proof.
  intros Hk a s [|p|begin end_|begin end_] out a' HR E; [by apply (allocate_refines a)| |by eapply range_refines..].
  cbn [frames_spec run_frames] in *. case_decide as Hr; [|done]. pose proof (keeps_frames_wf _ _ HR) as Hwf.
  case_decide as Hp; injection E as <- <-.
  - destruct (aligned_page p Hr Hp) as (q & -> & Hq). rewrite Z.div_mul by done.
    destruct (free_physical_page_ok s q Hwf Hq) as (s' & E1 & Hf' & Hs). exists s'. split; [by run E1|].
    eapply keeps_frames_set; [done|done|]. intros x. rewrite Hs. repeat case_decide; done || lia.
  - exists s. split; [|done]. by run (free_physical_page_unaligned s p Hr Hp).
Qed.
End frame_refinement.

(** ** Properties *)

(** C11. The physical memory manager is a set of frames.  Whatever a client does
    with it - allocating, releasing, taking ranges out and putting them back,
    each depending on what it was given so far - it gets what the set says: the
    first available frame from the one on that the bitmap's byte for the
    kernel's end begins with, a null page when there is none, and from then
    on until a page is released - even when a range was put back. *)
Theorem manager_is_frame_set kernel_end a s c outs a' :
  0 ≤ kernel_end < 2 ^ 32 → keeps_frames a s → spec_client (frames_spec kernel_end) c a = Some (outs, a') →
  ∃ s', run_client (run_frames kernel_end) c s = Ret outs s' ∧ keeps_frames a' s'.
Proof. intros Hk HR E. eapply client_refines; [|exact HR|exact E]. by apply frames_refine. Qed.

(** ** Witnesses *)

(** The set of a bitmap. *)
Definition frames_of (s : physical_mem) : frames := Frames (λ p, default false (avail s p)) (no_page_available s).

Lemma frames_of_ok s : phys_wf s → keeps_frames (frames_of s) s.
Proof. intros Hwf. split; [done|]. intros p Hp. destruct (Hwf p Hp) as [b E]. unfold frames_of. cbn [available]. by rewrite E. Qed.

(** A page is allocated and another, the first given back and allocated again. *)
Definition example_owner : client frame_op frame_out :=
  Do Allocate (λ out, match out with
    | Page a => operations [Allocate; Register 0x142000 0x143000; Allocate; Free a; Allocate; Free 0x1234; Unregister 0x2000 0x1000]
    | Result _ => Done
    end).

Lemma manager_is_frame_set_witness :
  ∃ s', run_client (run_frames example_kernel_end) example_owner example_booted
    = Ret [Page 0x140000; Page 0x141000; Result SUCCESS; Page 0x143000; Result FAILURE; Page 0x140000; Result SUCCESS;
           Result INVALID_ARGUMENT] s'.
Proof.
  assert (fst <$> spec_client (frames_spec example_kernel_end) example_owner (frames_of example_booted)
    = Some [Page 0x140000; Page 0x141000; Result SUCCESS; Page 0x143000; Result FAILURE; Page 0x140000; Result SUCCESS;
            Result INVALID_ARGUMENT]) as Hs by (vm_compute; reflexivity).
  apply fmap_Some in Hs as ([outs a] & E & Eo). cbn [fst] in Eo. subst outs.
  edestruct (manager_is_frame_set example_kernel_end (frames_of example_booted) example_booted example_owner) as (s' & E' & _).
  - split; [discriminate|reflexivity].
  - apply frames_of_ok, example_booted_wf.
  - exact E.
  - exists s'. exact E'.
Defined.
