(* ===== verification/Paging.v ===== *)
(** * Paging: [include/mm/paging.h] and [kernel/mm/early_paging_manager.c]

    The macros on page directory and page table entries, the boot code that
    builds the first page directory, and the recursive window through which
    the rest of the kernel edits page tables.

    Physical memory is kept as 32-bit words ([pmem]).  [translate] is the
    two-level walk an x86 processor makes for 4 KB pages; it is the
    documented behaviour of the processor, not code of the repository.  The
    addresses the linker gives to [init_page_directory] and
    [kernel_page_tables] are parameters. *)

From S2P Require Import Prelude.

(** ** [include/mm/paging.h] *)

Definition PRESENT : Z := 1.
Definition READ_WRITE : Z := 2.
Definition USER : Z := 4.

Definition PAGE_TABLE_SIZE : Z := 1024.
Definition PAGE_DIRECTORY_SIZE : Z := 1024.
Definition RECURSIVE_PGD_ADDRESS : Z := 0xFFC00000.
Definition RECURSIVE_PGT_ADDRESS : Z := 0xFFFFF000.
Definition NUM_KERNEL_PAGE_TABLES : Z := 2.
Definition KERNEL_PGD_ENTRY_INDEX : Z := 768.

Definition ADDRESS_TO_DIRECTORY_ENTRY (address : Z) : Z := Z.shiftr (u32 address) 22.

Definition ADDRESS_TO_PAGE_TABLE_ENTRY (address : Z) : Z :=
  Z.land (Z.shiftr (u32 address) 12) 0x03ff.

(** ** Physical memory and the processor *)

Abbreviation pmem := (gmap Z Z).

Definition pread (m : pmem) (a : Z) : Z := default 0 (m !! a).
Definition pwrite (m : pmem) (a v : Z) : pmem := <[a := u32 v]> m.

(** The frame an entry points to, and its attribute bits. *)
Definition entry_frame (e : Z) : Z := Z.land e 0xFFFFF000.
Definition entry_present (e : Z) : bool := Z.testbit e 0.

Definition translate (m : pmem) (cr3 va : Z) : option Z :=
  let pde := pread m (entry_frame cr3 + 4 * Z.shiftr va 22) in
  if entry_present pde then
    let pte := pread m (entry_frame pde + 4 * Z.land (Z.shiftr va 12) 0x3ff) in
    if entry_present pte then Some (entry_frame pte + Z.land va 0xfff) else None
  else None.

(** The processor state the boot code changes. *)
Record boot_state := BootState {
  memory : pmem;
  cr3 : Z;
  cr0 : Z
}.

Definition on_memory (f : pmem → pmem) : M boot_state unit :=
  mmodify (λ s, BootState (f (memory s)) (cr3 s) (cr0 s)).

(** ** [kernel/mm/early_paging_manager.c] *)

Section early_paging.
Variables init_page_directory kernel_page_tables : Z.

(** [GET_PAGE_TABLE(kernel_page_tables, i)] *)
Definition kernel_page_table (i : Z) : Z := kernel_page_tables + i * (4 * PAGE_TABLE_SIZE).

Definition early_edit_entry_attributes (entry attributes : Z) (m : pmem) : pmem :=
  if entry =? NULL then m else pwrite m entry (Z.lor (pread m entry) attributes).

(** The inner loop of [create_kernel_page_tables], [n] iterations being left. *)
Fixpoint create_kernel_page_table_loop (n : nat) (current_pgt j current_page : Z) (m : pmem)
    : pmem * Z :=
  match n with
  | O => (m, current_page)
  | S n' =>
      let m1 := pwrite m (current_pgt + 4 * j) current_page in
      let m2 := pwrite m1 (current_pgt + 4 * j) (Z.lor (pread m1 (current_pgt + 4 * j)) 0x3) in
      create_kernel_page_table_loop n' current_pgt (j + 1) (u32 (current_page + PAGE_SIZE)) m2
  end.

Fixpoint create_kernel_page_tables_loop (n : nat) (i current_page : Z) (m : pmem) : pmem :=
  match n with
  | O => m
  | S n' =>
      let r := create_kernel_page_table_loop (Z.to_nat PAGE_TABLE_SIZE) (kernel_page_table i) 0
                 current_page m in
      create_kernel_page_tables_loop n' (i + 1) r.2 r.1
  end.

Definition create_kernel_page_tables : pmem → pmem :=
  create_kernel_page_tables_loop (Z.to_nat NUM_KERNEL_PAGE_TABLES) 0 0.

(** Entry [i] of the page directory is set to page table [t]. *)
Definition map_page_table (i t : Z) (m : pmem) : pmem :=
  early_edit_entry_attributes (init_page_directory + 4 * i) (Z.lor READ_WRITE PRESENT)
    (pwrite m (init_page_directory + 4 * i) (kernel_page_table t)).

Fixpoint map_lower_mem_loop (n : nat) (i : Z) (m : pmem) : pmem :=
  match n with
  | O => m
  | S n' => map_lower_mem_loop n' (i + 1) (map_page_table i i m)
  end.

Definition map_lower_mem : pmem → pmem :=
  map_lower_mem_loop (Z.to_nat NUM_KERNEL_PAGE_TABLES) 0.

Fixpoint map_kernel_memory_loop (n : nat) (i : Z) (m : pmem) : pmem :=
  match n with
  | O => m
  | S n' => map_kernel_memory_loop n' (i + 1) (map_page_table i (i - KERNEL_PGD_ENTRY_INDEX) m)
  end.

Definition map_kernel_memory : pmem → pmem :=
  map_kernel_memory_loop (Z.to_nat NUM_KERNEL_PAGE_TABLES) KERNEL_PGD_ENTRY_INDEX.

Definition init_recursive_page_directory (m : pmem) : pmem :=
  early_edit_entry_attributes (init_page_directory + 4 * (PAGE_DIRECTORY_SIZE - 1))
    (Z.lor READ_WRITE PRESENT)
    (pwrite m (init_page_directory + 4 * (PAGE_DIRECTORY_SIZE - 1)) init_page_directory).

(** [mov cr3, init_page_directory]; bit 31 of [cr0] turns paging on. *)
Definition enable_paging : M boot_state unit :=
  mmodify (λ s, BootState (memory s) init_page_directory (Z.lor (cr0 s) 0x80000000)).

Definition paging_init : M boot_state unit :=
  on_memory create_kernel_page_tables ;;
  on_memory map_lower_mem ;;
  on_memory map_kernel_memory ;;
  on_memory init_recursive_page_directory ;;
  enable_paging.
End early_paging.

(** ** Arithmetic of entries *)

Lemma lor_low_bits a k v : 0 ≤ k → 0 ≤ v < 2 ^ k → Z.lor (a * 2 ^ k) v = a * 2 ^ k + v.
Proof.
  intros Hk Hv. symmetry. rewrite <-Z.lxor_lor; [apply Z.add_nocarry_lxor|];
    apply Z.bits_inj'; intros n Hn; rewrite Z.land_spec, Z.bits_0;
    (destruct (Z.lt_ge_cases n k);
      [by rewrite Z.mul_pow2_bits_low by lia
      |by rewrite <-(Z.mod_small v (2 ^ k)), Z.mod_pow2_bits_high, andb_false_r by lia]).
Qed.

Lemma land_high_bits e : 0 ≤ e < 2 ^ 32 → Z.land e 0xFFFFF000 = e / 4096 * 4096.
Proof.
  intros He. pose proof (PAGE_BOUNDARY_eq e) as H. unfold PAGE_BOUNDARY in H.
  by rewrite (u32_small e) in H by done.
Qed.

Lemma entry_frame_eq f v : 0 ≤ f < 2 ^ 20 → 0 ≤ v < 4096 → entry_frame (f * 4096 + v) = f * 4096.
Proof.
  intros. unfold entry_frame. rewrite land_high_bits by lia.
  rewrite Z.add_comm, Z.div_add, Z.div_small by lia. lia.
Qed.

Lemma entry_frame_cr3 f : 0 ≤ f < 2 ^ 20 → entry_frame (f * 4096) = f * 4096.
Proof. intros. rewrite <-(Z.add_0_r (f * 4096)) at 1. by apply entry_frame_eq. Qed.

Lemma entry_present_odd f v : entry_present (f * 4096 + v) = Z.odd v.
Proof.
  unfold entry_present. rewrite Z.bit0_odd, Z.odd_add, Z.odd_mul. simpl Z.odd.
  by rewrite andb_false_r.
Qed.

Lemma land_0xfff va : Z.land va 0xfff = va mod 4096.
Proof. change 0xfff with (Z.ones 12). by rewrite Z.land_ones by lia. Qed.

Lemma land_0x3ff x : Z.land x 0x3ff = x mod 1024.
Proof. change 0x3ff with (Z.ones 10). by rewrite Z.land_ones by lia. Qed.

Lemma shiftr_22 va : Z.shiftr va 22 = va / 4194304.
Proof. by rewrite Z.shiftr_div_pow2 by lia. Qed.

Lemma shiftr_12 va : Z.shiftr va 12 = va / 4096.
Proof. by rewrite Z.shiftr_div_pow2 by lia. Qed.

(** The walk in arithmetic form. *)
Lemma translate_eq m cr3 va :
  translate m cr3 va =
    let pde := pread m (entry_frame cr3 + 4 * (va / 4194304)) in
    if entry_present pde then
      let pte := pread m (entry_frame pde + 4 * (va / 4096 mod 1024)) in
      if entry_present pte then Some (entry_frame pte + va mod 4096) else None
    else None.
Proof. unfold translate. by rewrite shiftr_22, shiftr_12, land_0xfff, land_0x3ff. Qed.

Lemma pread_pwrite m a v b : pread (pwrite m a v) b = if decide (b = a) then u32 v else pread m b.
Proof.
  unfold pread, pwrite. case_decide; subst; [by rewrite lookup_insert_eq|by rewrite lookup_insert_ne].
Qed.

(** An entry made of the frame [f] and the attributes [READ_WRITE | PRESENT]. *)
Definition entry_rw (f : Z) : Z := f * 4096 + 3.

Lemma entry_rw_frame f : 0 ≤ f < 2 ^ 20 → entry_frame (entry_rw f) = f * 4096.
Proof. intros. by apply entry_frame_eq. Qed.

Lemma entry_rw_present f : entry_present (entry_rw f) = true.
Proof. unfold entry_rw. by rewrite entry_present_odd. Qed.

Lemma lor_3 f : Z.lor (f * 4096) 3 = entry_rw f.
Proof. by apply (lor_low_bits f 12 3). Qed.

(** ** The recursive window *)

Section window.
Variables (m : pmem) (pd : Z).
Hypothesis Hpd : 0 ≤ pd < 2 ^ 20.
(** The last entry of the page directory in frame [pd] points to itself. *)
Hypothesis Hrec : pread m (pd * 4096 + 4 * 1023) = entry_rw pd.

Let cr3 := pd * 4096.

Lemma window_translate k off :
  0 ≤ k < 1024 → 0 ≤ off < 4096 →
  translate m cr3 (RECURSIVE_PGD_ADDRESS + k * 4096 + off)
  = if entry_present (pread m (pd * 4096 + 4 * k))
    then Some (entry_frame (pread m (pd * 4096 + 4 * k)) + off) else None.
Proof.
  intros Hk Ho. unfold cr3. rewrite translate_eq, entry_frame_cr3 by done. unfold RECURSIVE_PGD_ADDRESS.
  replace ((0xFFC00000 + k * 4096 + off) / 4194304) with 1023 by dlia.
  replace ((0xFFC00000 + k * 4096 + off) / 4096 mod 1024) with k by dlia.
  replace ((0xFFC00000 + k * 4096 + off) mod 4096) with off by dlia.
  rewrite Hrec. cbv zeta. by rewrite entry_rw_present, entry_rw_frame.
Qed.
End window.

(** ** What the boot code builds *)

Lemma create_kernel_page_table_loop_ok n pgt j cp m :
  0 ≤ cp → (cp + Z.of_nat n) * 4096 < 2 ^ 32 →
  let r := create_kernel_page_table_loop n pgt j (cp * 4096) m in
  r.2 = (cp + Z.of_nat n) * 4096 ∧
  ∀ a, pread r.1 a =
    if decide (pgt + 4 * j ≤ a < pgt + 4 * (j + Z.of_nat n) ∧ (a - pgt) mod 4 = 0)
    then entry_rw (cp + ((a - pgt) / 4 - j)) else pread m a.
Proof.
  revert j cp m. induction n as [|n IH]; intros j cp m Hcp Hmax.
  - simpl. split; [lia|]. intros a. by rewrite decide_False by lia.
  - cbn [create_kernel_page_table_loop]. cbv zeta.
    rewrite (u32_small (cp * 4096 + PAGE_SIZE)) by (unfold PAGE_SIZE; lia).
    replace (cp * 4096 + PAGE_SIZE) with ((cp + 1) * 4096) by (unfold PAGE_SIZE; lia).
    rewrite pread_pwrite, decide_True, (u32_small (cp * 4096)), lor_3 by (done || lia).
    destruct (IH (j + 1) (cp + 1)
      (pwrite (pwrite m (pgt + 4 * j) (cp * 4096)) (pgt + 4 * j) (entry_rw cp))) as [-> Hr];
      [lia|lia|]. clear IH.
    split; [lia|]. intros a. rewrite Hr, !pread_pwrite, (u32_small (entry_rw cp)) by (unfold entry_rw; lia).
    destruct (decide (a = pgt + 4 * j)) as [->|Hne].
    + rewrite decide_False by lia. rewrite decide_True by (split; [lia|dlia]).
      f_equal. dlia.
    + destruct (decide (pgt + 4 * (j + 1) ≤ a < _ ∧ _)) as [Hin|Hout].
      * rewrite decide_True by lia. f_equal. lia.
      * rewrite decide_False; [done|]. intros [Hr1 Hr2]. apply Hout. split; [|done]. dlia.
Qed.

Section boot.
(** Frame numbers of [init_page_directory] and [kernel_page_tables]. *)
Variables pd kpt : Z.
Hypothesis Hpd : 0 < pd < 2 ^ 20.
Hypothesis Hkpt : 0 < kpt < 2 ^ 20 - 1.
Hypothesis Hdisj : pd < kpt ∨ kpt + 1 < pd.

Let pda := pd * 4096.
Let kpta := kpt * 4096.

Lemma create_kernel_page_tables_ok m a :
  a mod 4 = 0 →
  pread (create_kernel_page_tables kpta m) a =
    if decide (kpta ≤ a < kpta + 8192) then entry_rw ((a - kpta) / 4) else pread m a.
Proof.
  intros Ha. unfold create_kernel_page_tables. change (Z.to_nat NUM_KERNEL_PAGE_TABLES) with 2%nat.
  cbn [create_kernel_page_tables_loop]. unfold kernel_page_table, PAGE_TABLE_SIZE.
  destruct (create_kernel_page_table_loop_ok 1024 (kpta + 0 * (4 * 1024)) 0 0 m) as [H2 Hr];
    [lia|lia|]. change (0 * 4096) with 0 in H2, Hr.
  change (Z.to_nat 1024) with 1024%nat. rewrite H2.
  set (m1 := (create_kernel_page_table_loop 1024 _ 0 0 m).1) in *. clearbody m1. clear H2.
  destruct (create_kernel_page_table_loop_ok 1024 (kpta + (0 + 1) * (4 * 1024)) 0 1024 m1) as [_ Hr2];
    [lia|lia|].
  change ((0 + Z.of_nat 1024) * 4096) with (1024 * 4096).
  rewrite Hr2, Hr. clear Hr Hr2. unfold kpta.
  destruct (decide (kpt * 4096 ≤ a < kpt * 4096 + 8192)) as [Hin|Hout].
  - destruct (Z.lt_ge_cases a (kpt * 4096 + 4096)).
    + rewrite decide_False by lia. rewrite decide_True by (split; [lia|dlia]). f_equal. dlia.
    + rewrite decide_True by (split; [lia|dlia]). f_equal. dlia.
  - by rewrite !decide_False by lia.
Qed.

Lemma map_page_table_ok i t m a :
  0 ≤ i < 1024 → 0 ≤ t < 2 →
  pread (map_page_table pda kpta i t m) a
  = if decide (a = pda + 4 * i) then entry_rw (kpt + t) else pread m a.
Proof.
  intros Hi Ht. unfold map_page_table, early_edit_entry_attributes, NULL.
  rewrite (proj2 (Z.eqb_neq _ 0)) by (unfold pda; lia).
  rewrite !pread_pwrite. case_decide; [|done]. rewrite decide_True by done.
  unfold kernel_page_table, PAGE_TABLE_SIZE, kpta.
  change (Z.lor READ_WRITE PRESENT) with 3.
  replace (kpt * 4096 + t * (4 * 1024)) with ((kpt + t) * 4096) by lia.
  rewrite (u32_small ((kpt + t) * 4096)), lor_3 by lia.
  apply u32_small. unfold entry_rw. lia.
Qed.

Lemma init_recursive_page_directory_ok m a :
  pread (init_recursive_page_directory pda m) a
  = if decide (a = pda + 4 * 1023) then entry_rw pd else pread m a.
Proof.
  unfold init_recursive_page_directory, early_edit_entry_attributes, NULL, PAGE_DIRECTORY_SIZE.
  change (1024 - 1) with 1023.
  rewrite (proj2 (Z.eqb_neq _ 0)) by (unfold pda; lia).
  rewrite !pread_pwrite. case_decide; [|done]. rewrite decide_True by done.
  change (Z.lor READ_WRITE PRESENT) with 3. unfold pda.
  rewrite (u32_small (pd * 4096)), lor_3 by lia. apply u32_small. unfold entry_rw. lia.
Qed.

(** The memory [paging_init] leaves. *)
Definition booted (m : pmem) : pmem :=
  init_recursive_page_directory pda
    (map_kernel_memory pda kpta (map_lower_mem pda kpta (create_kernel_page_tables kpta m))).

Lemma booted_directory m i :
  (∀ k, 0 ≤ k < 1024 → pread m (pda + 4 * k) = 0) → 0 ≤ i < 1024 →
  pread (booted m) (pda + 4 * i) =
    if decide (i < 2) then entry_rw (kpt + i)
    else if decide (768 ≤ i < 770) then entry_rw (kpt + (i - 768))
    else if decide (i = 1023) then entry_rw pd else 0.
Proof.
  intros Hz Hi. unfold booted, map_kernel_memory, map_lower_mem, KERNEL_PGD_ENTRY_INDEX.
  change (Z.to_nat NUM_KERNEL_PAGE_TABLES) with 2%nat.
  cbn [map_lower_mem_loop map_kernel_memory_loop]. unfold KERNEL_PGD_ENTRY_INDEX.
  rewrite init_recursive_page_directory_ok, !map_page_table_ok by lia.
  rewrite create_kernel_page_tables_ok by (unfold pda; dlia).
  rewrite (decide_False (P := kpta ≤ _ < _)) by (unfold pda, kpta; lia).
  rewrite Hz by done. repeat case_decide; try lia; f_equal; lia.
Qed.

Lemma booted_tables m q :
  0 ≤ q < 2048 → pread (booted m) (kpta + 4 * q) = entry_rw q.
Proof.
  intros Hq. unfold booted, map_kernel_memory, map_lower_mem, KERNEL_PGD_ENTRY_INDEX.
  change (Z.to_nat NUM_KERNEL_PAGE_TABLES) with 2%nat.
  cbn [map_lower_mem_loop map_kernel_memory_loop]. unfold KERNEL_PGD_ENTRY_INDEX.
  rewrite init_recursive_page_directory_ok, !map_page_table_ok by lia.
  rewrite !decide_False by (unfold pda, kpta; lia).
  rewrite create_kernel_page_tables_ok by (unfold kpta; dlia).
  rewrite decide_True by lia. f_equal. dlia.
Qed.

Lemma booted_translate m va :
  (∀ k, 0 ≤ k < 1024 → pread m (pda + 4 * k) = 0) → 0 ≤ va < RECURSIVE_PGD_ADDRESS →
  translate (booted m) pda va =
    if decide (va < 0x800000) then Some va
    else if decide (KERNEL_VIRTUAL_OFFSET ≤ va < KERNEL_VIRTUAL_OFFSET + 0x800000)
    then Some (va - KERNEL_VIRTUAL_OFFSET) else None.
Proof.
  intros Hz. unfold RECURSIVE_PGD_ADDRESS, KERNEL_VIRTUAL_OFFSET. intros Hva.
  rewrite translate_eq. unfold pda at 1. rewrite entry_frame_cr3 by lia.
  change (pd * 4096) with pda. cbv zeta. rewrite booted_directory by (done || dlia).
  assert (∀ t, 0 ≤ t < 2 → va / 4194304 mod 768 = t → va / 4194304 < 770 →
    (if entry_present (entry_rw (kpt + t)) then
       let pte := pread (booted m) (entry_frame (entry_rw (kpt + t)) + 4 * (va / 4096 mod 1024)) in
       if entry_present pte then Some (entry_frame pte + va mod 4096) else None
     else None) = Some (va mod 0xC0000000)) as Htab.
  { intros t Ht Htva Hlt. rewrite entry_rw_present, entry_rw_frame by lia. cbv zeta.
    replace ((kpt + t) * 4096 + 4 * (va / 4096 mod 1024))
      with (kpta + 4 * (t * 1024 + va / 4096 mod 1024)) by (unfold kpta; lia).
    rewrite booted_tables by dlia. rewrite entry_rw_present, entry_rw_frame by dlia.
    f_equal. dlia. }
  cbv zeta in Htab. destruct (decide (va / 4194304 < 2)).
  - rewrite Htab by dlia. rewrite decide_True by dlia. f_equal. dlia.
  - rewrite (decide_False (P := va < 0x800000)) by dlia.
    destruct (decide (768 ≤ va / 4194304 < 770)).
    + rewrite Htab by dlia. rewrite decide_True by dlia. f_equal. dlia.
    + rewrite !decide_False by dlia. done.
Qed.
End boot.

Lemma paging_init_runs pda kpta s :
  paging_init pda kpta s
  = Ret tt (BootState
      (init_recursive_page_directory pda (map_kernel_memory pda kpta
        (map_lower_mem pda kpta (create_kernel_page_tables kpta (memory s)))))
      pda (Z.lor (cr0 s) 0x80000000)).
Proof. reflexivity. Qed.

(** ** Properties *)

(** C21.  [paging_init] turns paging on with a page directory under which,
    below the recursive window, exactly two areas are mapped: the first 8 MB
    to themselves and the 8 MB at [KERNEL_VIRTUAL_OFFSET] to the same
    physical memory. *)
Theorem paging_init_maps pd kpt s :
  0 < pd < 2 ^ 20 → 0 < kpt < 2 ^ 20 - 1 → pd < kpt ∨ kpt + 1 < pd →
  (∀ k, 0 ≤ k < 1024 → pread (memory s) (pd * 4096 + 4 * k) = 0) →
  ∃ s', paging_init (pd * 4096) (kpt * 4096) s = Ret tt s' ∧
    cr3 s' = pd * 4096 ∧ Z.testbit (cr0 s') 31 = true ∧
    ∀ va, 0 ≤ va < RECURSIVE_PGD_ADDRESS →
      translate (memory s') (cr3 s') va =
        if decide (va < 0x800000) then Some va
        else if decide (KERNEL_VIRTUAL_OFFSET ≤ va < KERNEL_VIRTUAL_OFFSET + 0x800000)
        then Some (va - KERNEL_VIRTUAL_OFFSET) else None.
Proof.
  intros Hpd Hkpt Hdisj Hz. rewrite paging_init_runs. eexists. split; [reflexivity|].
  cbn [memory cr3 cr0]. split_and!; [done| |].
  - rewrite Z.lor_spec. change 0x80000000 with (2 ^ 31). by rewrite Z.pow2_bits_true, orb_true_r by lia.
  - intros va Hva. by apply (booted_translate pd kpt Hpd Hkpt Hdisj).
Qed.

(** The recursive window: if the last entry of the page directory points
    to the directory itself, the word at [RECURSIVE_PGD_ADDRESS] plus
    [4 * (k * 1024 + i)] is entry [i] of the page table of directory entry
    [k], and the word at [RECURSIVE_PGT_ADDRESS + 4 * k] is directory entry
    [k]; an access through an entry that is not present faults. *)
Theorem recursive_window m pd k i :
  0 ≤ pd < 2 ^ 20 → 0 ≤ k < 1024 → 0 ≤ i < 1024 →
  pread m (pd * 4096 + 4 * 1023) = entry_rw pd →
  let pde := pread m (pd * 4096 + 4 * k) in
  translate m (pd * 4096) (RECURSIVE_PGD_ADDRESS + 4 * (k * 1024 + i))
    = (if entry_present pde then Some (entry_frame pde + 4 * i) else None) ∧
  translate m (pd * 4096) (RECURSIVE_PGT_ADDRESS + 4 * k) = Some (pd * 4096 + 4 * k).
Proof.
  intros Hpd Hk Hi Hrec pde. split.
  - replace (RECURSIVE_PGD_ADDRESS + 4 * (k * 1024 + i))
      with (RECURSIVE_PGD_ADDRESS + k * 4096 + 4 * i) by lia.
    by apply window_translate; [..|lia|lia].
  - replace (RECURSIVE_PGT_ADDRESS + 4 * k)
      with (RECURSIVE_PGD_ADDRESS + 1023 * 4096 + 4 * k)
      by (unfold RECURSIVE_PGD_ADDRESS, RECURSIVE_PGT_ADDRESS; lia).
    rewrite window_translate by (done || lia).
    by rewrite Hrec, entry_rw_present, entry_rw_frame.
Qed.

(** ** Witnesses *)

Lemma paging_init_maps_witness :
  ∃ s', paging_init (0x102 * 4096) (0x103 * 4096) (BootState ∅ 0 1) = Ret tt s' ∧
    translate (memory s') (cr3 s') 0xC0101234 = Some 0x101234 ∧
    translate (memory s') (cr3 s') 0x00101234 = Some 0x101234 ∧
    translate (memory s') (cr3 s') 0x40000000 = None.
Proof.
  destruct (paging_init_maps 0x102 0x103 (BootState ∅ 0 1)) as (s' & E & _ & _ & Ht);
    [lia|lia|lia|reflexivity|].
  exists s'. split; [exact E|]. unfold RECURSIVE_PGD_ADDRESS in Ht.
  rewrite !Ht by lia. split_and!; reflexivity.
Defined.

Lemma recursive_window_witness :
  translate (<[0x102000 + 4 * 1023 := entry_rw 0x102]> (<[0x102000 + 4 * 770 := entry_rw 0x105]> ∅))
    0x102000 (RECURSIVE_PGD_ADDRESS + 4 * (770 * 1024 + 5)) = Some (0x105000 + 20).
Proof.
  destruct (recursive_window
    (<[0x102000 + 4 * 1023 := entry_rw 0x102]> (<[0x102000 + 4 * 770 := entry_rw 0x105]> ∅))
    0x102 770 5) as [E _]; [lia|lia|lia|reflexivity|].
  etransitivity; [exact E|]. vm_compute. reflexivity.
Defined.
