(* ===== verification/Kheap.v ===== *)
(** * The kernel heap's pages: [kernel/mm/kheap.c]

    The kernel heap is a 4 MB area of virtual addresses from
    [KHEAP_BEGIN_ADDRESS] on, served by one page table.  A bitmap says which
    of its pages are free; a page is given out by choosing a free bit,
    taking a physical page and entering it in the page table.

    The page table is reached through the recursive window at
    [KHEAP_RECURSIVE_ADDRESS] (see [Paging.recursive_window]); entry [i] of
    [base_page_table] is entry [i] of the table while [i] is below 1024, and
    beyond that the access goes to the next, absent, table and faults.

    [find_continuous_blocks_index] has no return statement after its loop.
    The value its caller then sees is a parameter of the model,
    [no_return]. *)

From S2P Require Import Prelude Memory Bitmap Phys Paging.

Definition KHEAP_BITMAP_SIZE : Z := 32768 * 4.
Definition KHEAP_BEGIN_ADDRESS : Z := KERNEL_VIRTUAL_OFFSET + 2 * 1024 * 1024 * 4.
Definition KHEAP_END_ADDRESS : Z := KHEAP_BEGIN_ADDRESS + 1024 * 1024 * 4.
Definition KHEAP_RECURSIVE_ADDRESS : Z :=
  RECURSIVE_PGD_ADDRESS + ADDRESS_TO_DIRECTORY_ENTRY KHEAP_BEGIN_ADDRESS * PAGE_SIZE.

(** A page table, or the page directory: 1024 entries, zero at first. *)
Abbreviation table := (gmap Z Z).

Definition table_entry (t : table) (i : Z) : Z := default 0 (t !! i).

Record kheap := Kheap {
  kheap_st : carray;
  kheap_page_table : table;
  page_directory : table;
  phys : physical_mem
}.

Definition on_kheap_st {A} : M carray A → M kheap A :=
  zoom kheap_st (λ b s, Kheap b (kheap_page_table s) (page_directory s) (phys s)).

Definition on_phys {A} : M physical_mem A → M kheap A :=
  zoom phys (λ p s, Kheap (kheap_st s) (kheap_page_table s) (page_directory s) p).

(** [base_page_table[i]] as a value and as an assignment. *)
Definition read_base_page_table (i : Z) : M kheap Z := λ s,
  if decide (0 ≤ i < PAGE_TABLE_SIZE) then Ret (table_entry (kheap_page_table s) i) s else Fault.

Definition write_base_page_table (i v : Z) : M kheap unit := λ s,
  if decide (0 ≤ i < PAGE_TABLE_SIZE)
  then Ret tt (Kheap (kheap_st s) (<[i := u32 v]> (kheap_page_table s)) (page_directory s) (phys s))
  else Fault.

(** [edit_entry_attributes(&base_page_table[i], attributes)] *)
Definition edit_base_page_table (i attributes : Z) : M kheap unit :=
  e ← read_base_page_table i;
  write_base_page_table i (Z.lor e attributes).

Definition kheap_get_physical_address (virtual_address : Z) : M kheap Z :=
  if negb ((KHEAP_BEGIN_ADDRESS <=? virtual_address) && (virtual_address <? KHEAP_END_ADDRESS))
  then mret 0
  else if negb (PAGE_BOUNDARY virtual_address =? virtual_address)
  then mret (int_of_error_code INVALID_ARGUMENT)
  else
    address ← read_base_page_table (ADDRESS_TO_PAGE_TABLE_ENTRY virtual_address);
    mret (u32 (Z.shiftl (Z.shiftr address 8) 8)).

(** The loop of [parse_lookup_table], [n] iterations being left. *)
Fixpoint parse_lookup_table_loop (n : nat) (bitmap i : Z) : M carray (list Z) :=
  match n with
  | O => mret []
  | S n' =>
      b ← rd8 (bitmap + Z.quot i 8);
      rest ← parse_lookup_table_loop n' bitmap (i + 1);
      mret (extract_bit b (Z.rem i 8) :: rest)
  end.

Definition parse_lookup_table (bitmap num_bytes : Z) : M carray (list Z) :=
  parse_lookup_table_loop (Z.to_nat (num_bytes * 8)) bitmap 0.

Definition PAGE_AVAILABLE_VALUE : Z := 1.

(** [None]: the loop ended, and control reached the end of the function. *)
Fixpoint find_continuous_blocks_index_loop (buffer : list Z) (i index num_blocks : Z) : option Z :=
  match buffer with
  | [] => None
  | b :: rest =>
      if num_blocks =? 0 then Some index
      else if b =? PAGE_AVAILABLE_VALUE then
        find_continuous_blocks_index_loop rest (i + 1)
          (if index =? -1 then i else index) (num_blocks - 1)
      else find_continuous_blocks_index_loop rest (i + 1) (-1) num_blocks
  end.

Definition find_continuous_blocks_index (buffer : list Z) (num_blocks : Z) : option Z :=
  find_continuous_blocks_index_loop buffer 0 (-1) num_blocks.

Section indeterminate.
(** What the caller of [find_continuous_blocks_index] sees when the function
    ends without a return statement, for given arguments. *)
Variable no_return : list Z → Z → Z.

Definition find_index (buffer : list Z) (num_blocks : Z) : Z :=
  u32 (default (no_return buffer num_blocks) (find_continuous_blocks_index buffer num_blocks)).

(** The loop of [get_free_continuous_blocks_address], [n] iterations left. *)
Fixpoint get_free_continuous_blocks_address_loop (n : nat) (i num_bytes num_pages : Z)
    : M carray Z :=
  match n with
  | O => mret NULL
  | S n' =>
      b ← rd8 i;
      if negb (b =? 0) then
        lookup_table ← parse_lookup_table i num_bytes;
        let index := find_index lookup_table num_pages in
        if negb (index =? u32 (-1)) then
          turn_bits_off i (i32 index) (i32 num_pages) ;;
          mret (u32 (KHEAP_BEGIN_ADDRESS + u32 (u32 (i * 8 + index) * PAGE_SIZE)))
        else get_free_continuous_blocks_address_loop n' (i + 1) num_bytes num_pages
      else get_free_continuous_blocks_address_loop n' (i + 1) num_bytes num_pages
  end.

Definition get_free_continuous_blocks_address (num_pages : Z) : M kheap Z :=
  let num_bytes := num_pages / 8 + (if num_pages mod 8 =? 0 then 0 else 1) in
  on_kheap_st (get_free_continuous_blocks_address_loop
    (Z.to_nat (u32 (KHEAP_BITMAP_SIZE - num_bytes - 1))) 0 num_bytes num_pages).

Variable kernel_end : Z.

Definition alloc_and_map_physical_pages (address num_pages : Z) : M kheap unit :=
  let first := ADDRESS_TO_PAGE_TABLE_ENTRY address in
  for_range first (u32 (first + num_pages)) (λ i,
    page ← on_phys (allocate_physical_page kernel_end);
    write_base_page_table i page ;;
    edit_base_page_table i (Z.lor READ_WRITE PRESENT)).

Definition alloc_kheap_pages (num_pages : Z) : M kheap Z :=
  address ← get_free_continuous_blocks_address num_pages;
  alloc_and_map_physical_pages address num_pages ;;
  mret address.

Definition map_physical_address_to_kheap (physical_address num_pages : Z) : M kheap Z :=
  free_virtual_address ← get_free_continuous_blocks_address num_pages;
  on_phys (register_physical_pages physical_address num_pages) ;;
  let first := ADDRESS_TO_PAGE_TABLE_ENTRY free_virtual_address in
  for_range first (u32 (first + num_pages)) (λ i,
    write_base_page_table i (u32 (physical_address + (i - first) * PAGE_SIZE)) ;;
    edit_base_page_table i (Z.lor READ_WRITE PRESENT)) ;;
  mret free_virtual_address.
End indeterminate.

Definition free_kheap_pages (address num_pages : Z) : M kheap error_code :=
  if negb ((KHEAP_BEGIN_ADDRESS <=? address) && (address <? KHEAP_END_ADDRESS))
  then mret INVALID_ARGUMENT
  else if negb (PAGE_BOUNDARY address =? address) then mret INVALID_ARGUMENT
  else
    let bit_index := address_to_bit_index address KHEAP_BEGIN_ADDRESS in
    on_kheap_st (turn_bits_on 0 (i32 bit_index) (i32 num_pages)) ;;
    let first := ADDRESS_TO_PAGE_TABLE_ENTRY address in
    for_range first (u32 (first + num_pages)) (λ i,
      e ← read_base_page_table i;
      on_phys (free_physical_page e) ;;
      write_base_page_table i 0) ;;
    mret SUCCESS.

Section pgd.
(** The address of the array [kheap_page_tables]. *)
Variable kheap_page_tables : Z.

(** The result is [None] where the source has no return statement. *)
Definition map_kheap_to_pgd (pgd : option table) : option error_code * option table :=
  match pgd with
  | None => (Some INVALID_ARGUMENT, None)
  | Some t =>
      let kheap_pgd_entry := ADDRESS_TO_DIRECTORY_ENTRY KHEAP_BEGIN_ADDRESS in
      let t1 := <[kheap_pgd_entry := u32 kheap_page_tables]> t in
      (None, Some (<[kheap_pgd_entry :=
                      Z.lor (table_entry t1 kheap_pgd_entry) (Z.lor READ_WRITE PRESENT)]> t1))
  end.

(** [sizeof(kheap_page_tables)] is one table of 1024 four-byte entries. *)
Definition kheap_init : M kheap unit :=
  mmodify (λ s, Kheap (kheap_st s) (kheap_page_table s)
                  (default (page_directory s) (map_kheap_to_pgd (Some (page_directory s))).2)
                  (phys s)) ;;
  on_kheap_st (memset 0xFF 0 (1 * PAGE_TABLE_SIZE * 4)).
End pgd.

(** ** The search for a run of free blocks *)

Definition block_free (l : list Z) (j : Z) : Prop :=
  0 ≤ j ∧ l !! Z.to_nat j = Some PAGE_AVAILABLE_VALUE.

(** The number of free blocks of a lookup table. *)
Definition free_blocks_in (l : list Z) : Z :=
  Z.of_nat (length (filter (λ b, b = PAGE_AVAILABLE_VALUE) l)).

(** [idx .. p] are free and the block before [idx] is not. *)
Definition run_from (l : list Z) (idx p : Z) : Prop :=
  0 ≤ idx ≤ p ∧ (∀ j, idx ≤ j ≤ p → block_free l j) ∧ ¬ block_free l (idx - 1).

Lemma free_blocks_in_app l1 l2 : free_blocks_in (l1 ++ l2) = free_blocks_in l1 + free_blocks_in l2.
Proof. unfold free_blocks_in. rewrite filter_app, length_app. lia. Qed.

Lemma free_blocks_in_one b :
  free_blocks_in [b] = if decide (b = PAGE_AVAILABLE_VALUE) then 1 else 0.
Proof. unfold free_blocks_in. rewrite filter_cons. by case_decide. Qed.

Lemma block_free_app l1 l2 j :
  j < Z.of_nat (length l1) → block_free (l1 ++ l2) j ↔ block_free l1 j.
Proof.
  intros Hj. unfold block_free. destruct (decide (0 ≤ j)); [by rewrite lookup_app_l by lia|tauto].
Qed.

Lemma block_free_snoc l b :
  block_free (l ++ [b]) (Z.of_nat (length l)) ↔ b = PAGE_AVAILABLE_VALUE.
Proof.
  unfold block_free. rewrite Nat2Z.id, lookup_app_r, Nat.sub_diag by lia. simpl.
  split; [by intros [_ [= ->]]|intros ->; split; [lia|done]].
Qed.

Lemma length_snoc_pred (l : list Z) b : Z.of_nat (length (l ++ [b])) - 1 = Z.of_nat (length l).
Proof. rewrite length_app. simpl. lia. Qed.

Lemma run_from_app l1 l2 idx p :
  p < Z.of_nat (length l1) → run_from (l1 ++ l2) idx p ↔ run_from l1 idx p.
Proof.
  intros Hp. unfold run_from. split; intros (Hi & Hr & Hb); (split_and!; [lia|lia| |]).
  - intros j Hj. apply (block_free_app l1 l2); [lia|auto].
  - by rewrite block_free_app in Hb by lia.
  - intros j Hj. apply (block_free_app l1 l2); [lia|auto].
  - by rewrite block_free_app by lia.
Qed.

(** What the loop knows when it has passed the blocks [l]: how many free
    blocks are still wanted and where the current run began. *)
Definition scan_state (l : list Z) (n index num : Z) : Prop :=
  num = n - free_blocks_in l ∧ 0 ≤ num ∧
  let last := Z.of_nat (length l) - 1 in
  (index = -1 ∧ ¬ block_free l last ∧ 0 < num ∨ run_from l index last).

Lemma scan_state_step l n index num b :
  num ≠ 0 → scan_state l n index num →
  if b =? PAGE_AVAILABLE_VALUE
  then scan_state (l ++ [b]) n (if index =? -1 then Z.of_nat (length l) else index) (num - 1)
  else scan_state (l ++ [b]) n (-1) num.
Proof.
  intros Hnum (Hn & Hpos & Hidx). cbv zeta in Hidx.
  destruct (Z.eqb_spec b PAGE_AVAILABLE_VALUE) as [->|Hb].
  - split_and!; [rewrite free_blocks_in_app, free_blocks_in_one, decide_True by done; lia|lia|].
    cbv zeta. right. rewrite length_snoc_pred.
    destruct Hidx as [(-> & Hl & _)|Hrun].
    + simpl. split_and!; [lia|lia| |].
      * intros j Hj. replace j with (Z.of_nat (length l)) by lia. by apply block_free_snoc.
      * by rewrite block_free_app by lia.
    + destruct Hrun as (Hi & Hr & Hb). rewrite (proj2 (Z.eqb_neq index (-1))) by lia.
      split_and!; [lia|lia| |by rewrite block_free_app by lia].
      intros j Hj. destruct (decide (j = Z.of_nat (length l))) as [->|].
      * by apply block_free_snoc.
      * rewrite block_free_app by lia. apply Hr. lia.
  - split_and!; [rewrite free_blocks_in_app, free_blocks_in_one, decide_False by done; lia|lia|].
    cbv zeta. left. rewrite length_snoc_pred.
    rewrite block_free_snoc. split_and!; [done|done|lia].
Qed.

Lemma find_continuous_blocks_index_loop_ok rest l n index num :
  scan_state l n index num → 0 < n →
  match find_continuous_blocks_index_loop rest (Z.of_nat (length l)) index num with
  | Some idx => ∃ l1 b l2, l ++ rest = l1 ++ b :: l2 ∧ free_blocks_in l1 = n ∧
                  run_from l1 idx (Z.of_nat (length l1) - 1)
  | None => ∀ l1 b, l ++ rest = l1 ++ [b] → free_blocks_in l1 < n
  end.
Proof.
  intros Hs Hn. revert l index num Hs. induction rest as [|b rest IH]; intros l index num Hs; simpl.
  - intros l1 b Heq. rewrite app_nil_r in Heq. destruct Hs as (Hc & Hpos & Hidx). subst l.
    rewrite free_blocks_in_app, free_blocks_in_one in Hc.
    destruct (decide (b = PAGE_AVAILABLE_VALUE)) as [|Hb]; [lia|].
    destruct Hidx as [(_ & _ & ?)|(Hi & Hr & _)]; [lia|].
    exfalso. apply Hb, (block_free_snoc l1). rewrite length_app in Hi, Hr. simpl in Hi, Hr.
    apply Hr. lia.
  - destruct (Z.eqb_spec num 0) as [->|Hnum].
    + exists l, b, rest. destruct Hs as (Hc & _ & Hidx). split_and!; [done|lia|].
      destruct Hidx as [(_ & _ & ?)|]; [lia|done].
    + pose proof (scan_state_step l n index num b Hnum Hs) as Hstep.
      assert (Z.of_nat (length l) + 1 = Z.of_nat (length (l ++ [b]))) as ->
        by (rewrite length_app; simpl; lia).
      replace (l ++ b :: rest) with ((l ++ [b]) ++ rest) by (by rewrite <-app_assoc).
      destruct (b =? PAGE_AVAILABLE_VALUE); by apply IH.
Qed.

Lemma scan_state_nil n : 0 < n → scan_state [] n (-1) n.
Proof.
  intros Hn. split_and!; [by unfold free_blocks_in; simpl; lia|lia|].
  left. split_and!; [done| |lia]. by intros [? _].
Qed.

(** ** Taking one page *)

Lemma extract_bit_testbit b k : 0 ≤ k < 8 → extract_bit b k = Z.b2z (Z.testbit b (7 - k)).
Proof.
  intros Hk. unfold extract_bit. rewrite (Z.land_ones _ 1) by lia.
  change (2 ^ 1) with 2. rewrite <-Z.bit0_mod, Z.shiftr_spec by lia.
  f_equal. rewrite i8_testbit by lia. f_equal. lia.
Qed.

Section bits_of_kheap.
Implicit Types s : carray.

(** Bit [j] as the number the lookup table holds. *)
Definition lookup_bit s (base j : Z) : Z := Z.b2z (default false (bit_at s base j)).

Lemma parse_lookup_table_loop_ok n base i s :
  0 ≤ i → (∀ j, i ≤ j < i + Z.of_nat n → is_Some (bit_at s base j)) →
  parse_lookup_table_loop n base i s = Ret (lookup_bit s base <$> seqZ i (Z.of_nat n)) s.
Proof.
  revert i. induction n as [|n IH]; intros i Hi Hmap; [done|].
  destruct (Hmap i) as [bit Hbit]; [lia|]. pose proof Hbit as Hget.
  unfold bit_at in Hget. apply fmap_Some in Hget as (b & Hb & ->).
  simpl parse_lookup_table_loop. rewrite Z.quot_div_nonneg by lia.
  run (rd8_Ret _ _ _ Hb). rewrite (bind_Ret _ _ _ _ _ (IH (i + 1) ltac:(lia) ltac:(intros; apply Hmap; lia))).
  rewrite (seqZ_cons i) by lia. rewrite fmap_cons. unfold lookup_bit at 2. rewrite Hbit. simpl default.
  rewrite Z.rem_mod_nonneg, extract_bit_testbit by (try apply Z.mod_pos_bound; lia).
  replace (Z.pred (Z.of_nat (S n))) with (Z.of_nat n) by lia. done.
Qed.

Lemma bit_at_shift s base q j : bit_at s (base + q) j = bit_at s base (q * 8 + j).
Proof.
  unfold bit_at. rewrite (Z.add_comm (q * 8)), Z.div_add, Z.mod_add by lia.
  by replace (base + (j / 8 + q)) with (base + q + j / 8) by lia.
Qed.

Lemma bit_at_byte_offset s q j : bit_at s q j = bit_at s 0 (q * 8 + j).
Proof. apply (bit_at_shift s 0 q j). Qed.
End bits_of_kheap.

(** The scan of a table whose first free blocks, from [m] on, are as many as
    are wanted, with one block to spare behind them. *)
Lemma find_run_rest f n i m k :
  0 ≤ m → 0 ≤ k < Z.of_nat n → (∀ j, i ≤ j < i + k → f j = 1) →
  find_continuous_blocks_index_loop (f <$> seqZ i (Z.of_nat n)) i m k = Some m.
Proof.
  intros Hm. revert i k. induction n as [|n IH]; intros i k Hk H1; [lia|].
  rewrite seqZ_cons, fmap_cons by lia. cbn [find_continuous_blocks_index_loop].
  replace (Z.pred (Z.of_nat (S n))) with (Z.of_nat n) by lia.
  destruct (Z.eqb_spec k 0) as [->|Hk0]; [done|].
  rewrite H1, (proj2 (Z.eqb_neq m (-1))) by lia. cbn [Z.eqb PAGE_AVAILABLE_VALUE Pos.eqb].
  change (Z.succ i) with (i + 1). apply IH; [lia|]. intros j Hj. apply H1. lia.
Qed.

Lemma find_run f n i m k :
  0 ≤ i ≤ m → 0 < k → m + k < i + Z.of_nat n → (∀ j, i ≤ j < m → f j = 0) → (∀ j, m ≤ j < m + k → f j = 1) →
  find_continuous_blocks_index_loop (f <$> seqZ i (Z.of_nat n)) i (-1) k = Some m.
Proof.
  revert i. induction n as [|n IH]; intros i Hi Hk Hm Hz H1; [lia|].
  rewrite seqZ_cons, fmap_cons by lia. cbn [find_continuous_blocks_index_loop].
  replace (Z.pred (Z.of_nat (S n))) with (Z.of_nat n) by lia.
  rewrite (proj2 (Z.eqb_neq k 0)) by lia. change (Z.succ i) with (i + 1).
  destruct (decide (i = m)) as [->|Hne].
  - rewrite H1 by lia. cbn [Z.eqb PAGE_AVAILABLE_VALUE Pos.eqb].
    apply find_run_rest; [lia|lia|]. intros j Hj. apply H1. lia.
  - rewrite Hz by lia. cbn [Z.eqb PAGE_AVAILABLE_VALUE Pos.eqb]. apply IH; try lia.
    + intros j Hj. apply Hz. lia.
    + intros j Hj. apply H1. lia.
Qed.

Section one_page.
Variable no_return : list Z → Z → Z.
Variable kernel_end : Z.

(** The bitmap covers [KHEAP_BITMAP_SIZE] bytes. *)
Definition kheap_wf (s : kheap) : Prop := asize (kheap_st s) = KHEAP_BITMAP_SIZE.

Lemma carray_mapped (s : carray) j : 0 ≤ j < asize s * 8 → is_Some (bit_at s 0 j).
Proof.
  intros Hj. apply bit_at_mapped. unfold get8. simpl.
  rewrite decide_True; [eauto|]. pose proof (Z.div_mod j 8). pose proof (Z.mod_pos_bound j 8). lia.
Qed.

(** The heap's first free page is [p], and so are the [n] pages from it on; the
    lookup table that starts at [p]'s byte has a block behind them. *)
Definition num_bytes_for (n : Z) : Z := n / 8 + (if n mod 8 =? 0 then 0 else 1).

Record free_run (s : carray) (p n : Z) : Prop := {
  fr_first : first_set s 0 0 p;
  fr_count : 0 < n;
  fr_free : ∀ j, p ≤ j < p + n → bit_at s 0 j = Some true;
  fr_spare : p mod 8 + n < num_bytes_for n * 8;
  fr_inside : p / 8 + num_bytes_for n < KHEAP_BITMAP_SIZE - 1
}.

Lemma free_run_one s p : first_set s 0 0 p → p mod 8 ≠ 7 → p / 8 < KHEAP_BITMAP_SIZE - 2 → free_run s p 1.
Proof.
  intros Hp Hm Hlt. split; [done|lia| |change (num_bytes_for 1) with 1; dlia|change (num_bytes_for 1) with 1; lia].
  intros j Hj. assert (j = p) as -> by lia. apply Hp.
Qed.

(** What the search does at the byte of [p]. *)
Lemma get_free_byte_ok (s : carray) i p n :
  asize s = KHEAP_BITMAP_SIZE → free_run s p n → p / 8 = i → 0 ≤ i →
  let table := lookup_bit s i <$> seqZ 0 (num_bytes_for n * 8) in
  parse_lookup_table i (num_bytes_for n) s = Ret table s ∧ find_index no_return table n = p mod 8 ∧
  ∃ s', turn_bits_off i (p mod 8) n s = Ret tt s' ∧ bits_written false 0 p (p + n) s s'.
Proof.
  intros Hsize [(Hp & _ & Hbelow) Hn Hfree Hspare Hin] Hi Hi0. cbv zeta.
  unfold KHEAP_BITMAP_SIZE in *. set (m := p mod 8) in *. set (nb := num_bytes_for n) in *.
  assert (p = i * 8 + m ∧ 0 ≤ m < 8) as [Ep Hm] by (unfold m; dlia).
  split; [|split].
  - unfold parse_lookup_table. rewrite parse_lookup_table_loop_ok; [by rewrite Z2Nat.id by lia|lia|].
    intros j Hj. rewrite bit_at_byte_offset. apply carray_mapped. lia.
  - unfold find_index, find_continuous_blocks_index.
    replace (nb * 8) with (Z.of_nat (Z.to_nat (nb * 8))) by lia.
    rewrite (find_run _ _ 0 m n); [cbn [from_option id]; apply u32_small; lia|lia|lia|lia|..];
      intros j Hj; unfold lookup_bit; rewrite bit_at_byte_offset.
    + by rewrite Hbelow by lia.
    + by rewrite Hfree by lia.
  - destruct (turn_bits_off_written s i m n) as (s' & E & Hw); [lia|lia|unfold INT_MAX; lia| |].
    { intros j Hj. rewrite bit_at_byte_offset. apply carray_mapped. lia. }
    exists s'. split; [done|]. intros j. specialize (Hw (j - i * 8)).
    rewrite (bit_at_byte_offset s'), (bit_at_byte_offset s) in Hw.
    replace (i * 8 + (j - i * 8)) with j in Hw by lia. rewrite Hw. apply decide_ext. lia.
Qed.

Lemma get_free_run_loop_ok (s : carray) fuel i p n :
  asize s = KHEAP_BITMAP_SIZE → 0 ≤ i → free_run s p n → i * 8 ≤ p → p / 8 < i + Z.of_nat fuel →
  ∃ s', get_free_continuous_blocks_address_loop no_return fuel i (num_bytes_for n) n s
        = Ret (u32 (KHEAP_BEGIN_ADDRESS + p * 4096)) s' ∧
    bits_written false 0 p (p + n) s s'.
Proof.
  intros Hsize. revert i. induction fuel as [|fuel IH]; intros i Hi Hr Hp Hlt; [dlia|].
  pose proof Hr as [Hf Hn Hfree Hspare Hin]. assert (∃ b, get8 s (0 + i) = Some b) as [b Hb].
  { destruct (carray_mapped s (i * 8)) as [bit Hbit]; [unfold KHEAP_BITMAP_SIZE in *; dlia|].
    unfold bit_at in Hbit. rewrite Z.div_mul in Hbit by lia.
    apply fmap_Some in Hbit as (b & Hb & _). eauto. }
  cbn [get_free_continuous_blocks_address_loop]. run (rd8_Ret _ _ _ Hb).
  destruct (Z.eqb_spec b 0) as [->|Hb0]; cbn [negb].
  - pose proof (zero_byte_clear _ _ _ Hb) as Hc. destruct Hf as (_ & Hset & _).
    destruct (Z.lt_ge_cases p (i * 8 + 8)); [by rewrite Hc in Hset by lia|].
    apply IH; [lia|done|lia|lia].
  - destruct (nonzero_byte_first s 0 i b Hb Hb0) as (m & _ & Hm8 & Hf').
    assert (p = i * 8 + m) as Ep.
    { apply (first_set_unique s 0 (i * 8)); [|done]. destruct Hf as (? & ? & Hbelow). split_and!; [lia|done|].
      intros j Hj. apply Hbelow. lia. }
    destruct (get_free_byte_ok s i p n Hsize Hr) as (Ht & Hidx & s' & E & Hw); [dlia|lia|].
    exists s'. split; [|done]. run Ht. rewrite Hidx. cbv zeta.
    assert (0 ≤ n < 2 ^ 31 ∧ 0 ≤ p * 4096 < 2 ^ 32) as [Hn2 Hp2].
    { unfold num_bytes_for, KHEAP_BITMAP_SIZE in *. destruct (n mod 8 =? 0); dlia. }
    rewrite (proj2 (Z.eqb_neq (p mod 8) (u32 (-1)))) by (change (u32 (-1)) with (2 ^ 32 - 1); dlia).
    cbn [negb]. rewrite !i32_small by dlia. run E.
    rewrite (u32_small (i * 8 + p mod 8)) by dlia. unfold PAGE_SIZE. rewrite (u32_small (_ * 4096)) by dlia.
    by replace (i * 8 + p mod 8) with p by dlia.
Qed.
End one_page.

(** ** Operations on the whole state *)

Definition with_kheap_st (b : carray) (s : kheap) : kheap :=
  Kheap b (kheap_page_table s) (page_directory s) (phys s).
Definition with_phys (p : physical_mem) (s : kheap) : kheap :=
  Kheap (kheap_st s) (kheap_page_table s) (page_directory s) p.
Definition with_entry (i v : Z) (s : kheap) : kheap :=
  Kheap (kheap_st s) (<[i := v]> (kheap_page_table s)) (page_directory s) (phys s).

Lemma table_entry_insert t i v j :
  table_entry (<[i := v]> t) j = if decide (j = i) then v else table_entry t j.
Proof.
  unfold table_entry. case_decide; subst; [by rewrite lookup_insert_eq|by rewrite lookup_insert_ne].
Qed.

Lemma on_kheap_st_Ret {A} (m : M carray A) s a b :
  m (kheap_st s) = Ret a b → on_kheap_st m s = Ret a (with_kheap_st b s).
Proof. intros E. unfold on_kheap_st. by rewrite (zoom_Ret _ _ _ _ _ _ E). Qed.

Lemma on_phys_Ret {A} (m : M physical_mem A) s a p :
  m (phys s) = Ret a p → on_phys m s = Ret a (with_phys p s).
Proof. intros E. unfold on_phys. by rewrite (zoom_Ret _ _ _ _ _ _ E). Qed.

Lemma read_base_page_table_Ret i s :
  0 ≤ i < 1024 → read_base_page_table i s = Ret (table_entry (kheap_page_table s) i) s.
Proof. intros Hi. unfold read_base_page_table, PAGE_TABLE_SIZE. by rewrite decide_True. Qed.

Lemma write_base_page_table_Ret i v s :
  0 ≤ i < 1024 → write_base_page_table i v s = Ret tt (with_entry i (u32 v) s).
Proof. intros Hi. unfold write_base_page_table, PAGE_TABLE_SIZE. by rewrite decide_True. Qed.

(** A page is entered with the attributes [READ_WRITE | PRESENT]. *)
Lemma enter_page_Ret i f s :
  0 ≤ i < 1024 → 0 ≤ f < 2 ^ 20 →
  (write_base_page_table i (f * 4096) ;; edit_base_page_table i (Z.lor READ_WRITE PRESENT)) s
  = Ret tt (with_entry i (entry_rw f) s).
Proof.
  intros Hi Hf. rewrite (bind_Ret _ _ _ _ _ (write_base_page_table_Ret _ _ _ Hi)).
  unfold edit_base_page_table.
  run (read_base_page_table_Ret i (with_entry i (u32 (f * 4096)) s) Hi).
  rewrite write_base_page_table_Ret by done. unfold with_entry at 2. cbn [kheap_page_table].
  rewrite table_entry_insert, decide_True by done.
  change (Z.lor READ_WRITE PRESENT) with 3. rewrite (u32_small (f * 4096)), lor_3 by lia.
  rewrite (u32_small (entry_rw f)) by (unfold entry_rw; lia).
  unfold with_entry. cbn. by rewrite insert_insert_eq.
Qed.

Lemma for_range_one {S} i (body : Z → M S unit) s s' :
  i < INT_MAX → body i s = Ret tt s' → for_range i (i + 1) body s = Ret tt s'.
Proof.
  intros Hi E. unfold for_range. replace (Z.to_nat (i + 1 - i)) with 1%nat by lia.
  cbn [for_int]. run E. by rewrite (proj2 (Z.eqb_neq i INT_MAX)) by lia.
Qed.

Lemma page_table_index p :
  ADDRESS_TO_PAGE_TABLE_ENTRY (u32 (KHEAP_BEGIN_ADDRESS + p * 4096)) = p mod 1024.
Proof.
  unfold ADDRESS_TO_PAGE_TABLE_ENTRY, KHEAP_BEGIN_ADDRESS, KERNEL_VIRTUAL_OFFSET.
  rewrite u32_u32, land_0x3ff, shiftr_12. unfold u32. dlia.
Qed.

Section allocate_page.
Variable no_return : list Z → Z → Z.
Variable kernel_end : Z.

Lemma get_free_run_ok s p n :
  kheap_wf s → free_run (kheap_st s) p n →
  ∃ b, get_free_continuous_blocks_address no_return n s
       = Ret (u32 (KHEAP_BEGIN_ADDRESS + p * 4096)) (with_kheap_st b s) ∧
    bits_written false 0 p (p + n) (kheap_st s) b.
Proof.
  intros Hwf Hr. unfold get_free_continuous_blocks_address. fold (num_bytes_for n).
  pose proof (fr_inside _ _ _ Hr) as Hin. pose proof (fr_count _ _ _ Hr) as Hn. pose proof (fr_first _ _ _ Hr) as [Hp _].
  assert (0 ≤ num_bytes_for n) by (unfold num_bytes_for; destruct (n mod 8 =? 0); dlia).
  assert (0 ≤ KHEAP_BITMAP_SIZE - num_bytes_for n - 1 < 2 ^ 32) as Hs by (unfold KHEAP_BITMAP_SIZE in *; dlia).
  rewrite u32_small by lia.
  assert (Z.of_nat (Z.to_nat (KHEAP_BITMAP_SIZE - num_bytes_for n - 1)) = KHEAP_BITMAP_SIZE - num_bytes_for n - 1) as Hfuel by lia.
  generalize dependent (Z.to_nat (KHEAP_BITMAP_SIZE - num_bytes_for n - 1)). intros fuel Hfuel.
  destruct (get_free_run_loop_ok no_return (kheap_st s) fuel 0 p n) as (b & E & Hb);
    [exact Hwf|lia|done|lia|lia|].
  exists b. split; [|exact Hb]. by apply on_kheap_st_Ret.
Qed.

Lemma get_free_one_ok s p :
  kheap_wf s → first_set (kheap_st s) 0 0 p → p / 8 < KHEAP_BITMAP_SIZE - 2 → p mod 8 ≠ 7 →
  ∃ b, get_free_continuous_blocks_address no_return 1 s
       = Ret (u32 (KHEAP_BEGIN_ADDRESS + p * 4096)) (with_kheap_st b s) ∧
    bits_written false 0 p (p + 1) (kheap_st s) b.
Proof. intros Hwf Hp Hlt Hm. apply get_free_run_ok; [done|by apply free_run_one]. Qed.

Lemma get_free_none_loop_ok (s : carray) n i nb np :
  0 ≤ i → i + Z.of_nat n ≤ asize s → all_clear s 0 (i * 8) ((i + Z.of_nat n) * 8) →
  get_free_continuous_blocks_address_loop no_return n i nb np s = Ret NULL s.
Proof.
  revert i. induction n as [|n IH]; intros i Hi Hn Hc; [done|].
  assert (get8 s (0 + i) = Some 0) as Hb.
  { destruct (get8 s (0 + i)) as [b|] eqn:Hb.
    - destruct (decide (b = 0)) as [->|Hb0]; [done|].
      destruct (nonzero_byte_first s 0 i b Hb Hb0) as (m & _ & Hm & _ & Hset & _).
      rewrite Hc in Hset by lia. done.
    - unfold get8 in Hb. simpl in Hb. by rewrite decide_True in Hb by lia. }
  cbn [get_free_continuous_blocks_address_loop]. run (rd8_Ret _ _ _ Hb). simpl negb.
  apply IH; [lia|lia|]. intros j Hj. apply Hc. lia.
Qed.

(** Every attempt to get pages from an exhausted bitmap yields [NULL]. *)
Lemma get_free_none_ok s num_pages :
  kheap_wf s → 0 ≤ num_pages ≤ (KHEAP_BITMAP_SIZE - 1) * 8 →
  all_clear (kheap_st s) 0 0 (KHEAP_BITMAP_SIZE * 8) →
  get_free_continuous_blocks_address no_return num_pages s = Ret NULL s.
Proof.
  intros Hwf Hn Hc. unfold get_free_continuous_blocks_address. unfold kheap_wf in Hwf.
  set (nb := num_pages / 8 + (if num_pages mod 8 =? 0 then 0 else 1)).
  assert (0 ≤ KHEAP_BITMAP_SIZE - nb - 1 ≤ KHEAP_BITMAP_SIZE) as Hnb.
  { unfold nb, KHEAP_BITMAP_SIZE in *. destruct (Z.eqb_spec (num_pages mod 8) 0); dlia. }
  rewrite u32_small by (unfold KHEAP_BITMAP_SIZE in *; lia).
  rewrite (on_kheap_st_Ret _ s NULL (kheap_st s)); [by destruct s|].
  apply get_free_none_loop_ok; [lia|lia|]. intros j Hj. apply Hc. lia.
Qed.

(** Mapping one page at address [a]. *)
Lemma alloc_and_map_one_ok s a i f ph :
  ADDRESS_TO_PAGE_TABLE_ENTRY a = i → 0 ≤ i < 1024 → 0 ≤ f < 2 ^ 20 →
  allocate_physical_page kernel_end (phys s) = Ret (f * 4096) ph →
  alloc_and_map_physical_pages kernel_end a 1 s
  = Ret tt (with_entry i (entry_rw f) (with_phys ph s)).
Proof.
  intros Ha Hi Hf E. unfold alloc_and_map_physical_pages. rewrite Ha, u32_small by lia.
  apply for_range_one; [unfold INT_MAX; lia|].
  rewrite (bind_Ret _ _ _ _ _ (on_phys_Ret _ _ _ _ E)). by apply enter_page_Ret.
Qed.
End allocate_page.

(** ** Giving pages back *)

(** The entries from [lo] to [hi-1] carry attribute bits. *)
Definition entries_flagged (s : kheap) (lo hi : Z) : Prop :=
  ∀ i, lo ≤ i < hi → 0 ≤ table_entry (kheap_page_table s) i < 2 ^ 32 ∧
    table_entry (kheap_page_table s) i mod 4096 ≠ 0.

(** The state after the entries [lo .. hi-1] were cleared; nothing else differs. *)
Definition entries_cleared (lo hi : Z) (s s' : kheap) : Prop :=
  kheap_st s' = kheap_st s ∧ page_directory s' = page_directory s ∧ phys s' = phys s ∧
  ∀ i, table_entry (kheap_page_table s') i
       = if decide (lo ≤ i < hi) then 0 else table_entry (kheap_page_table s) i.

Lemma free_loop_ok lo hi s :
  0 ≤ lo ≤ hi → hi ≤ 1024 → entries_flagged s lo hi →
  ∃ s', for_range lo hi (λ i,
      e ← read_base_page_table i;
      on_phys (free_physical_page e) ;;
      write_base_page_table i 0) s = Ret tt s' ∧ entries_cleared lo hi s s'.
Proof.
  intros Hlo Hhi Hfl.
  apply (for_range_inv (λ i s', entries_cleared lo i s s')); [unfold INT_MAX; lia|..].
  - split_and!; [done..|]. intros i. by rewrite decide_False by lia.
  - intros i s1 Hi (Hst & Hpd & Hph & He). destruct (Hfl i) as [Hr Hm]; [lia|].
    rewrite (bind_Ret _ _ _ _ _ (read_base_page_table_Ret i s1 ltac:(lia))), He, decide_False by lia.
    rewrite (bind_Ret _ _ _ _ _ (on_phys_Ret _ _ _ _ (free_physical_page_unaligned (phys s1) _ Hr Hm))).
    rewrite write_base_page_table_Ret by lia. eexists. split; [reflexivity|].
    split_and!; [done..|]. intros j. cbn [with_entry with_phys kheap_page_table].
    rewrite table_entry_insert, He. change (u32 0) with 0.
    repeat case_decide; done || lia.
Qed.

Lemma kheap_bit_index p : 0 ≤ p < 1024 →
  address_to_bit_index (KHEAP_BEGIN_ADDRESS + p * 4096) KHEAP_BEGIN_ADDRESS = p.
Proof.
  intros Hp. unfold address_to_bit_index, MANAGED_MEMORY_PAGE_ALIGN.
  rewrite !PAGE_ALIGN_eq. unfold PAGE_SIZE.
  assert (KHEAP_BEGIN_ADDRESS = 0xC0800000) as HB by reflexivity.
  rewrite !PAGE_BOUNDARY_small by lia.
  replace ((KHEAP_BEGIN_ADDRESS + p * 4096) / 4096 * 4096) with (KHEAP_BEGIN_ADDRESS + p * 4096) by dlia.
  replace (KHEAP_BEGIN_ADDRESS - KHEAP_BEGIN_ADDRESS / 4096 * 4096) with 0 by dlia.
  change (u32 0) with 0. rewrite Z.add_0_r, (u32_small (KHEAP_BEGIN_ADDRESS + _)) by lia.
  replace (KHEAP_BEGIN_ADDRESS + p * 4096 - KHEAP_BEGIN_ADDRESS) with (p * 4096) by lia.
  by rewrite u32_small, Z.div_mul by lia.
Qed.

Lemma kheap_address_small p : 0 ≤ p < 1024 →
  u32 (KHEAP_BEGIN_ADDRESS + p * 4096) = KHEAP_BEGIN_ADDRESS + p * 4096 ∧
  KHEAP_BEGIN_ADDRESS ≤ KHEAP_BEGIN_ADDRESS + p * 4096 < KHEAP_END_ADDRESS ∧
  PAGE_BOUNDARY (KHEAP_BEGIN_ADDRESS + p * 4096) = KHEAP_BEGIN_ADDRESS + p * 4096.
Proof.
  intros Hp. unfold KHEAP_END_ADDRESS, KHEAP_BEGIN_ADDRESS, KERNEL_VIRTUAL_OFFSET.
  split_and!; [apply u32_small|..|apply PAGE_BOUNDARY_aligned; [|dlia]]; lia.
Qed.

Lemma page_table_index_small p : 0 ≤ p < 1024 →
  ADDRESS_TO_PAGE_TABLE_ENTRY (KHEAP_BEGIN_ADDRESS + p * 4096) = p.
Proof.
  intros Hp. pose proof (page_table_index p) as H.
  destruct (kheap_address_small p Hp) as (Hu & _). rewrite Hu in H. rewrite H.
  by apply Z.mod_small.
Qed.

Lemma kheap_get_physical_address_ok s p f :
  0 ≤ p < 1024 → 0 ≤ f < 2 ^ 20 → table_entry (kheap_page_table s) p = entry_rw f →
  kheap_get_physical_address (KHEAP_BEGIN_ADDRESS + p * 4096) s = Ret (f * 4096) s.
Proof.
  intros Hp Hf He. destruct (kheap_address_small p Hp) as (_ & [Hb He'] & Hpb).
  unfold kheap_get_physical_address.
  rewrite (proj2 (Z.leb_le _ _) Hb), (proj2 (Z.ltb_lt _ _) He'), Hpb, Z.eqb_refl. cbn [negb andb].
  rewrite page_table_index_small by done.
  run (read_base_page_table_Ret p s Hp). rewrite He.
  rewrite Z.shiftr_div_pow2, Z.shiftl_mul_pow2 by lia. unfold entry_rw.
  replace ((f * 4096 + 3) / 2 ^ 8 * 2 ^ 8) with (f * 4096) by dlia.
  by rewrite u32_small by lia.
Qed.

(** Outside of the 4 MB area the other operations refuse an address. *)
Lemma outside_kheap_refused s a n :
  0 ≤ a < KHEAP_BEGIN_ADDRESS ∨ KHEAP_END_ADDRESS ≤ a →
  kheap_get_physical_address a s = Ret 0 s ∧ free_kheap_pages a n s = Ret INVALID_ARGUMENT s.
Proof.
  intros Ha. unfold kheap_get_physical_address, free_kheap_pages.
  assert ((KHEAP_BEGIN_ADDRESS <=? a) && (a <? KHEAP_END_ADDRESS) = false) as ->; [|done].
  apply andb_false_iff. rewrite Z.leb_gt, Z.ltb_ge. lia.
Qed.

Lemma free_kheap_pages_ok s p n :
  kheap_wf s → 0 ≤ p < 1024 → 0 ≤ n → p + n ≤ 1024 → entries_flagged s p (p + n) →
  ∃ s', free_kheap_pages (KHEAP_BEGIN_ADDRESS + p * 4096) n s = Ret SUCCESS s' ∧
    phys s' = phys s ∧ page_directory s' = page_directory s ∧
    bits_written true 0 p (p + n) (kheap_st s) (kheap_st s') ∧
    ∀ i, table_entry (kheap_page_table s') i
         = if decide (p ≤ i < p + n) then 0 else table_entry (kheap_page_table s) i.
Proof.
  intros Hwf Hp Hn Hpn Hfl. destruct (kheap_address_small p Hp) as (_ & [Hb He'] & Hpb).
  unfold free_kheap_pages.
  rewrite (proj2 (Z.leb_le _ _) Hb), (proj2 (Z.ltb_lt _ _) He'), Hpb, Z.eqb_refl. cbn [negb andb].
  rewrite kheap_bit_index, page_table_index_small, !i32_small, u32_small by lia. cbv zeta.
  destruct (turn_bits_on_written (kheap_st s) 0 p n) as (b & E & Hw); [lia|lia|unfold INT_MAX; lia| |].
  { intros j Hj. apply carray_mapped. rewrite Hwf. unfold KHEAP_BITMAP_SIZE. lia. }
  rewrite (bind_Ret _ _ _ _ _ (on_kheap_st_Ret _ _ _ _ E)).
  destruct (free_loop_ok p (p + n) (with_kheap_st b s)) as (s' & E' & Hst & Hpd & Hph & He);
    [lia|lia|done|].
  run E'. exists s'. split_and!; try done. by rewrite Hst.
Qed.

(** ** Physical ranges mapped into the heap *)

Lemma get_free_keeps_phys no_return n s a s' :
  get_free_continuous_blocks_address no_return n s = Ret a s' →
  phys s' = phys s ∧ page_directory s' = page_directory s.
Proof.
  unfold get_free_continuous_blocks_address, on_kheap_st, zoom.
  destruct (get_free_continuous_blocks_address_loop _ _ _ _ _ _); [|done..].
  by intros [= _ <-].
Qed.

Lemma map_loop_keeps_phys n i f s s' :
  for_int n i (λ i, write_base_page_table i (f i) ;;
                    edit_base_page_table i (Z.lor READ_WRITE PRESENT)) s = Ret tt s' →
  phys s' = phys s.
Proof.
  revert i s. induction n as [|n IH]; intros i s; simpl; [by intros [= <-]|].
  intros (u & s1 & E1 & E2)%bind_Ret_inv. destruct (i =? INT_MAX); [done|].
  rewrite (IH _ _ E2). clear IH E2.
  apply bind_Ret_inv in E1 as (u1 & s2 & E1 & (e & s3 & E3 & E4)%bind_Ret_inv).
  unfold write_base_page_table in E1, E4. unfold read_base_page_table in E3.
  by repeat (case_decide; simplify_eq/=).
Qed.

(** The frames from [f] on are entered for the pages [lo .. hi-1]; nothing else differs. *)
Definition frames_entered (lo hi f : Z) (s s' : kheap) : Prop :=
  kheap_st s' = kheap_st s ∧ page_directory s' = page_directory s ∧ phys s' = phys s ∧
  ∀ i, table_entry (kheap_page_table s') i
       = if decide (lo ≤ i < hi) then entry_rw (f + (i - lo)) else table_entry (kheap_page_table s) i.

Lemma map_loop_ok p n f s :
  0 ≤ p → 0 ≤ n → p + n ≤ 1024 → 0 ≤ f → f + n ≤ 2 ^ 20 →
  ∃ s', for_range p (p + n) (λ i, write_base_page_table i (u32 (f * 4096 + (i - p) * PAGE_SIZE)) ;;
          edit_base_page_table i (Z.lor READ_WRITE PRESENT)) s = Ret tt s' ∧
    frames_entered p (p + n) f s s'.
Proof.
  intros Hp Hn Hpn Hf Hfn. apply (for_range_inv (λ i s', frames_entered p i f s s')); [unfold INT_MAX; lia| |].
  - split_and!; [done..|]. intros i. by rewrite decide_False by lia.
  - intros i s1 Hi (I1 & I2 & I3 & I4). unfold PAGE_SIZE.
    replace (f * 4096 + (i - p) * 4096) with ((f + (i - p)) * 4096) by lia.
    rewrite u32_small by lia. rewrite enter_page_Ret by lia.
    eexists. split; [reflexivity|]. split_and!; [done..|]. intros j. cbn [kheap_page_table with_entry].
    rewrite table_entry_insert, I4. destruct (decide (j = i)) as [->|]; [by rewrite decide_True by lia|].
    destruct (decide (p ≤ j < i)); [by rewrite decide_True by lia|by rewrite decide_False by lia].
Qed.

Lemma map_physical_ok no_return s p n f :
  kheap_wf s → free_run (kheap_st s) p n → p + n ≤ 1024 → 0 ≤ f → f + n ≤ 2 ^ 20 →
  n mod 4096 ≠ 0 ∨ n < f * 4096 →
  ∃ s', map_physical_address_to_kheap no_return (f * 4096) n s = Ret (KHEAP_BEGIN_ADDRESS + p * 4096) s' ∧
    phys s' = phys s ∧ page_directory s' = page_directory s ∧
    bits_written false 0 p (p + n) (kheap_st s) (kheap_st s') ∧
    ∀ i, table_entry (kheap_page_table s') i
         = if decide (p ≤ i < p + n) then entry_rw (f + (i - p)) else table_entry (kheap_page_table s) i.
Proof.
  intros Hwf Hr Hpn Hf Hfn Hbad. pose proof (fr_first _ _ _ Hr) as [Hp _]. pose proof (fr_count _ _ _ Hr) as Hn.
  destruct (kheap_address_small p) as (Hu & _); [lia|].
  destruct (get_free_run_ok no_return s p n Hwf Hr) as (b & E & Hb). rewrite Hu in E.
  unfold map_physical_address_to_kheap. run E.
  assert (on_phys (register_physical_pages (f * 4096) n) (with_kheap_st b s)
    = Ret INVALID_ARGUMENT (with_phys (phys s) (with_kheap_st b s))) as Ereg.
  { apply on_phys_Ret, change_pages_state_invalid; [lia|lia|tauto]. }
  run Ereg.
  rewrite page_table_index_small, u32_small by lia. cbv zeta.
  destruct (map_loop_ok p n f (with_phys (phys s) (with_kheap_st b s))) as (s' & E' & H1 & H2 & H3 & H4); [lia..|].
  run E'. exists s'. split_and!; [done|by rewrite H3|by rewrite H2|by rewrite H1|done].
Qed.

(** ** Taking a page, on the whole state *)

Lemma alloc_kheap_page_ok no_return kernel_end s p f ph :
  kheap_wf s → first_set (kheap_st s) 0 0 p → p < 1024 → p mod 8 ≠ 7 →
  0 ≤ f < 2 ^ 20 → allocate_physical_page kernel_end (phys s) = Ret (f * 4096) ph →
  ∃ s', alloc_kheap_pages no_return kernel_end 1 s = Ret (KHEAP_BEGIN_ADDRESS + p * 4096) s' ∧
    phys s' = ph ∧ page_directory s' = page_directory s ∧
    bits_written false 0 p (p + 1) (kheap_st s) (kheap_st s') ∧
    (∀ i, table_entry (kheap_page_table s') i
          = if decide (i = p) then entry_rw f else table_entry (kheap_page_table s) i) ∧
    kheap_get_physical_address (KHEAP_BEGIN_ADDRESS + p * 4096) s' = Ret (f * 4096) s'.
Proof.
  intros Hwf Hp Hlt Hm Hf E. assert (0 ≤ p) by apply Hp.
  destruct (kheap_address_small p) as (Hu & _); [lia|].
  destruct (get_free_one_ok no_return s p) as (b & E1 & Hb);
    [done|done|unfold KHEAP_BITMAP_SIZE; dlia|done|]. rewrite Hu in E1.
  unfold alloc_kheap_pages. run E1.
  rewrite (bind_Ret _ _ _ _ _ (alloc_and_map_one_ok _ (with_kheap_st b s) _ p f ph
    (page_table_index_small p ltac:(lia)) ltac:(lia) Hf E)).
  eexists. split; [reflexivity|]. split_and!; [done..| |].
  - intros i. apply table_entry_insert.
  - apply kheap_get_physical_address_ok; [lia|done|]. cbn. by rewrite table_entry_insert, decide_True.
Qed.

(** ** Properties *)

(** [find_continuous_blocks_index], asked for [n] blocks, passes the
    [n]-th free block of the table and returns the beginning of the run of
    free blocks that ends there - whether or not that run has [n] blocks.  It
    ends without a return value exactly when there are fewer than [n] free
    blocks before the last one, in particular when the last one is needed. *)
Theorem find_continuous_blocks_index_spec buffer n :
  0 < n →
  match find_continuous_blocks_index buffer n with
  | Some idx => ∃ l1 b l2, buffer = l1 ++ b :: l2 ∧ free_blocks_in l1 = n ∧
                  run_from l1 idx (Z.of_nat (length l1) - 1)
  | None => ∀ l1 b, buffer = l1 ++ [b] → free_blocks_in l1 < n
  end.
Proof.
  intros Hn. exact (find_continuous_blocks_index_loop_ok buffer [] n (-1) n (scan_state_nil n Hn) Hn).
Qed.

(** C12.  A kernel heap page.  If [p] is the first free page of the heap, it
    lies in the 4 MB the page table covers and is not the last page of its
    byte, [alloc_kheap_pages(1)] returns its address, marks it used, and
    enters the frame taken from the physical manager in the page table;
    [kheap_get_physical_address] then returns that frame.  Nothing else
    changes. *)
Theorem alloc_kheap_page_spec no_return kernel_end s p f ph :
  kheap_wf s → first_set (kheap_st s) 0 0 p → p < 1024 → p mod 8 ≠ 7 →
  0 ≤ f < 2 ^ 20 → allocate_physical_page kernel_end (phys s) = Ret (f * 4096) ph →
  ∃ s', alloc_kheap_pages no_return kernel_end 1 s = Ret (KHEAP_BEGIN_ADDRESS + p * 4096) s' ∧
    phys s' = ph ∧ page_directory s' = page_directory s ∧
    bits_written false 0 p (p + 1) (kheap_st s) (kheap_st s') ∧
    (∀ i, table_entry (kheap_page_table s') i
          = if decide (i = p) then entry_rw f else table_entry (kheap_page_table s) i) ∧
    kheap_get_physical_address (KHEAP_BEGIN_ADDRESS + p * 4096) s' = Ret (f * 4096) s'.
Proof. apply alloc_kheap_page_ok. Qed.

(** [kheap_init] frees 32768 pages, but the page table has 1024 entries:
    when the first free page [p] is beyond it, [alloc_kheap_pages(1)] still
    succeeds.  It overwrites the entry of page [p mod 1024], which is in use,
    and returns an address outside of the heap, which neither
    [kheap_get_physical_address] nor [free_kheap_pages] accepts. *)
Theorem alloc_kheap_page_beyond_table no_return kernel_end s p f ph :
  kheap_wf s → first_set (kheap_st s) 0 0 p → 1024 ≤ p < 32768 → p mod 8 ≠ 7 →
  0 ≤ f < 2 ^ 20 → allocate_physical_page kernel_end (phys s) = Ret (f * 4096) ph →
  ∃ a s', alloc_kheap_pages no_return kernel_end 1 s = Ret a s' ∧
    KHEAP_END_ADDRESS ≤ a ∧ bit_at (kheap_st s) 0 (p mod 1024) = Some false ∧
    table_entry (kheap_page_table s') (p mod 1024) = entry_rw f ∧
    kheap_get_physical_address a s' = Ret 0 s' ∧
    ∀ n, free_kheap_pages a n s' = Ret INVALID_ARGUMENT s'.
Proof.
  intros Hwf Hp Hlt Hm Hf E. pose proof (Z.mod_pos_bound p 1024).
  destruct (get_free_one_ok no_return s p) as (b & E1 & Hb);
    [done|done|unfold KHEAP_BITMAP_SIZE; dlia|done|].
  unfold alloc_kheap_pages. run E1.
  rewrite (bind_Ret _ _ _ _ _ (alloc_and_map_one_ok _ (with_kheap_st b s) _ _ f ph
    (page_table_index p) ltac:(lia) Hf E)).
  assert (u32 (KHEAP_BEGIN_ADDRESS + p * 4096) = KHEAP_BEGIN_ADDRESS + p * 4096) as ->.
  { apply u32_small. unfold KHEAP_BEGIN_ADDRESS, KERNEL_VIRTUAL_OFFSET. lia. }
  eexists _, _. split; [reflexivity|].
  assert (KHEAP_END_ADDRESS ≤ KHEAP_BEGIN_ADDRESS + p * 4096) by (unfold KHEAP_END_ADDRESS; lia).
  split_and!; [done|apply Hp; lia| |by apply (outside_kheap_refused _ _ 0); right
    |by intros n; apply outside_kheap_refused; right].
  cbn. by rewrite table_entry_insert, decide_True.
Qed.

(** When the heap has no free page, [alloc_kheap_pages(1)] returns
    [NULL] as it should, but only after it has taken a physical page and
    entered it at index 0 of the page table, over whatever the first page of
    the heap was mapped to. *)
Theorem alloc_kheap_pages_exhausted no_return kernel_end s f ph :
  kheap_wf s → all_clear (kheap_st s) 0 0 (KHEAP_BITMAP_SIZE * 8) →
  0 ≤ f < 2 ^ 20 → allocate_physical_page kernel_end (phys s) = Ret (f * 4096) ph →
  ∃ s', alloc_kheap_pages no_return kernel_end 1 s = Ret NULL s' ∧
    kheap_st s' = kheap_st s ∧ phys s' = ph ∧
    ∀ i, table_entry (kheap_page_table s') i
         = if decide (i = 0) then entry_rw f else table_entry (kheap_page_table s) i.
Proof.
  intros Hwf Hc Hf E. unfold alloc_kheap_pages.
  rewrite (bind_Ret _ _ _ _ _ (get_free_none_ok no_return s 1 Hwf ltac:(unfold KHEAP_BITMAP_SIZE; lia) Hc)).
  rewrite (bind_Ret _ _ _ _ _ (alloc_and_map_one_ok _ s NULL 0 f ph eq_refl ltac:(lia) Hf E)).
  eexists. split; [reflexivity|]. split_and!; [done..|]. intros i. apply table_entry_insert.
Qed.

(** [free_kheap_pages] marks the pages of the heap free and clears their
    page table entries, but passes the entries to [free_physical_page] with
    their attribute bits; those are no page addresses, so not one physical
    page is given back. *)
Theorem free_kheap_pages_leaks s p n :
  kheap_wf s → 0 ≤ p < 1024 → 0 ≤ n → p + n ≤ 1024 → entries_flagged s p (p + n) →
  ∃ s', free_kheap_pages (KHEAP_BEGIN_ADDRESS + p * 4096) n s = Ret SUCCESS s' ∧
    phys s' = phys s ∧ page_directory s' = page_directory s ∧
    bits_written true 0 p (p + n) (kheap_st s) (kheap_st s') ∧
    ∀ i, table_entry (kheap_page_table s') i
         = if decide (p ≤ i < p + n) then 0 else table_entry (kheap_page_table s) i.
Proof. apply free_kheap_pages_ok. Qed.

(** [map_physical_address_to_kheap] means to register the physical pages
    it maps, but passes their number where the end address is expected.
    Unless that number happens to be a page address at or above
    [physical_address], nothing is registered: the physical manager goes on
    handing out these pages. *)
Theorem map_physical_address_registers_nothing no_return pa n s a s' :
  0 ≤ pa < 2 ^ 32 → 0 ≤ n < 2 ^ 32 → n mod 4096 ≠ 0 ∨ n < pa →
  map_physical_address_to_kheap no_return pa n s = Ret a s' →
  phys s' = phys s.
Proof.
  intros Hpa Hn Hbad. unfold map_physical_address_to_kheap.
  intros (va & s1 & E1 & (e & s2 & E2 & ([] & s3 & E3 & [= _ <-])%bind_Ret_inv)%bind_Ret_inv)%bind_Ret_inv.
  apply map_loop_keeps_phys in E3. rewrite E3.
  apply get_free_keeps_phys in E1 as [Hph _].
  rewrite (on_phys_Ret _ s1 INVALID_ARGUMENT (phys s1)) in E2.
  - injection E2 as _ <-. done.
  - apply change_pages_state_invalid; [done|done|tauto].
Qed.


(** Runs need not be long enough: there is a heap in which a request for
    two pages is answered with a free page and the used page after it. *)
Theorem get_free_overlaps_used_page :
  ∃ (s : carray) s', ∀ no_return,
    bit_at s 0 3 = Some false ∧
    get_free_continuous_blocks_address_loop no_return 2 0 1 2 s
    = Ret (KHEAP_BEGIN_ADDRESS + 2 * 4096) s'.
Proof.
  exists (CArray 4 (<[0 := 0xA0]> ∅)). eexists. intros no_return.
  split; [reflexivity|]. vm_compute. reflexivity.
Qed.

(** ** Witnesses *)

Definition example_no_return : list Z → Z → Z := λ buffer _, Z.of_nat (length buffer).

(** A heap whose bitmap is zero but for byte [q]. *)
Definition example_kheap (q : Z) (t : table) : kheap :=
  Kheap (CArray KHEAP_BITMAP_SIZE (<[q := 255]> ∅)) t ∅ example_booted.

Lemma example_kheap_first q t : 0 ≤ q < KHEAP_BITMAP_SIZE →
  first_set (kheap_st (example_kheap q t)) 0 0 (q * 8).
Proof.
  intros Hq. split_and!; [lia|..].
  - unfold bit_at, get8. simpl. rewrite Z.div_mul, Z.mod_mul, decide_True by lia.
    by rewrite lookup_insert_eq.
  - intros j Hj. unfold bit_at, get8. simpl.
    rewrite decide_True by dlia. rewrite lookup_insert_ne by dlia. rewrite lookup_empty. simpl.
    by rewrite Z.bits_0.
Qed.

Lemma alloc_kheap_page_spec_witness :
  ∃ s', alloc_kheap_pages example_no_return example_kernel_end 1 (example_kheap 3 ∅)
        = Ret (KHEAP_BEGIN_ADDRESS + 24 * 4096) s' ∧
    kheap_get_physical_address (KHEAP_BEGIN_ADDRESS + 24 * 4096) s' = Ret 0x140000 s'.
Proof.
  destruct (alloc_kheap_page_spec example_no_return example_kernel_end (example_kheap 3 ∅)
              24 0x140 example_one) as (s' & E & _ & _ & _ & _ & Hg).
  - reflexivity.
  - apply (example_kheap_first 3). split; [discriminate|reflexivity].
  - reflexivity.
  - discriminate.
  - split; [discriminate|reflexivity].
  - exact (proj1 example_alloc_runs).
  - exists s'. split; [exact E|exact Hg].
Defined.

Lemma alloc_kheap_page_beyond_table_witness :
  ∃ a s', alloc_kheap_pages example_no_return example_kernel_end 1
            (example_kheap 128 (<[0 := entry_rw 0x200]> ∅)) = Ret a s' ∧
    KHEAP_END_ADDRESS ≤ a ∧ table_entry (kheap_page_table s') 0 = entry_rw 0x140.
Proof.
  destruct (alloc_kheap_page_beyond_table example_no_return example_kernel_end
              (example_kheap 128 (<[0 := entry_rw 0x200]> ∅)) 1024 0x140 example_one)
    as (a & s' & E & Ha & _ & He & _).
  - reflexivity.
  - apply (example_kheap_first 128). split; [discriminate|reflexivity].
  - split; [discriminate|reflexivity].
  - discriminate.
  - split; [discriminate|reflexivity].
  - exact (proj1 example_alloc_runs).
  - exists a, s'. split; [exact E|]. split; [exact Ha|exact He].
Defined.

Definition example_full_kheap : kheap :=
  Kheap (CArray KHEAP_BITMAP_SIZE ∅) (<[0 := entry_rw 0x200]> ∅) ∅ example_booted.

Lemma alloc_kheap_pages_exhausted_witness :
  ∃ s', alloc_kheap_pages example_no_return example_kernel_end 1 example_full_kheap = Ret NULL s' ∧
    table_entry (kheap_page_table s') 0 = entry_rw 0x140.
Proof.
  destruct (alloc_kheap_pages_exhausted example_no_return example_kernel_end example_full_kheap
              0x140 example_one) as (s' & E & _ & _ & He).
  - reflexivity.
  - apply (empty_carray_clear KHEAP_BITMAP_SIZE KHEAP_BITMAP_SIZE). lia.
  - split; [discriminate|reflexivity].
  - exact (proj1 example_alloc_runs).
  - exists s'. split; [exact E|]. rewrite He. reflexivity.
Defined.

Definition example_two_pages : kheap :=
  Kheap (CArray KHEAP_BITMAP_SIZE ∅)
    (<[0 := entry_rw 0x140]> (<[1 := entry_rw 0x141]> ∅)) ∅ physical_memory.

Lemma free_kheap_pages_leaks_witness :
  ∃ s', free_kheap_pages KHEAP_BEGIN_ADDRESS 2 example_two_pages = Ret SUCCESS s' ∧
    phys s' = phys example_two_pages ∧ avail (phys s') 0x140 = Some false.
Proof.
  destruct (free_kheap_pages_leaks example_two_pages 0 2) as (s' & E & Hph & _).
  - reflexivity.
  - lia.
  - lia.
  - lia.
  - intros i Hi. assert (i = 0 ∨ i = 1) as [-> | ->] by lia;
      (split; [split; [discriminate|reflexivity]|discriminate]).
  - exists s'. split; [exact E|]. split; [exact Hph|]. rewrite Hph. reflexivity.
Defined.

Definition example_vga_mapped : kheap :=
  match map_physical_address_to_kheap example_no_return 0xb8000 2
          (example_kheap 0 ∅) with
  | Ret _ s' => s'
  | _ => example_two_pages
  end.

Lemma map_physical_address_registers_nothing_witness :
  phys example_vga_mapped = phys (example_kheap 0 ∅).
Proof.
  apply (map_physical_address_registers_nothing example_no_return 0xb8000 2 (example_kheap 0 ∅)
           KHEAP_BEGIN_ADDRESS).
  - split; [discriminate|reflexivity].
  - split; [discriminate|reflexivity].
  - left. discriminate.
  - vm_compute. reflexivity.
Defined.

Lemma find_continuous_blocks_index_spec_witness :
  find_continuous_blocks_index [1; 0; 1; 0] 2 = Some 2 ∧
  ∃ l1 b l2, [1; 0; 1; 0] = l1 ++ b :: l2 ∧ free_blocks_in l1 = 2 ∧
    run_from l1 2 (Z.of_nat (length l1) - 1).
Proof.
  split; [reflexivity|]. exact (find_continuous_blocks_index_spec [1; 0; 1; 0] 2 eq_refl).
Defined.

(** Two pages from [0xb8000] on, the screen's, into a heap whose pages are all
    free but the first three. *)
Definition example_three_used : kheap :=
  Kheap (CArray KHEAP_BITMAP_SIZE {[0 := 0x1F; 1 := 0xFF]}) ∅ ∅ physical_memory.

