(* ===== verification/MemTypes.v ===== *)
(** * The memory managers' data stay well-typed

    An invariant of the physical manager's and the kernel heap's state that
    every operation preserves, whatever its arguments: the bitmaps keep their
    sizes, and the page tables have 1024 entries of 32 bits. *)

From S2P Require Import Prelude Memory Bitmap Phys Paging Kheap.

(** ** Operations on memory keep an object's size *)

Section sizes.
Variable n : Z.
Abbreviation sized := (λ c : carray, asize c = n).

Lemma sized_rd8 a : preserves sized (rd8 a).
Proof. intros s v s' HI E. unfold rd8 in E. destruct (get8 s a); [|done]. by injection E as _ <-. Qed.

Lemma sized_wr8 a v : preserves sized (wr8 a v).
Proof.
  intros s x s' HI E. unfold wr8, mtry, set8 in E. simpl in E. case_decide; [|done]. by injection E as _ <-.
Qed.
#[local] Hint Resolve sized_rd8 sized_wr8 : preserves.

Lemma sized_turn_bit_on a k : preserves sized (turn_bit_on a k).
Proof. unfold turn_bit_on. preserve. Qed.

Lemma sized_turn_bit_off a k : preserves sized (turn_bit_off a k).
Proof. unfold turn_bit_off. preserve. Qed.
#[local] Hint Resolve sized_turn_bit_on sized_turn_bit_off : preserves.

Lemma sized_turn_bits_on b i k : preserves sized (turn_bits_on b i k).
Proof. unfold turn_bits_on. preserve. Qed.

Lemma sized_turn_bits_off b i k : preserves sized (turn_bits_off b i k).
Proof. unfold turn_bits_off. preserve. Qed.

Lemma sized_memset v a k : preserves sized (memset v a k).
Proof. unfold memset. preserve. Qed.

Lemma sized_parse m b i : preserves sized (parse_lookup_table_loop m b i).
Proof. revert i. induction m as [|m IH]; intros i; cbn [parse_lookup_table_loop]; preserve. Qed.
#[local] Hint Resolve sized_turn_bits_off sized_parse : preserves.

Lemma sized_search no_return m i nb np : preserves sized (get_free_continuous_blocks_address_loop no_return m i nb np).
Proof.
  revert i. induction m as [|m IH]; intros i; cbn [get_free_continuous_blocks_address_loop]; [preserve|].
  unfold parse_lookup_table. preserve.
Qed.
End sizes.
#[export] Hint Resolve sized_rd8 sized_wr8 sized_turn_bit_on sized_turn_bit_off sized_turn_bits_on sized_turn_bits_off
  sized_memset sized_parse sized_search : preserves.

(** ** The physical manager *)

(** The bitmap has a bit for every page of the address space. *)
Definition phys_typed (s : physical_mem) : Prop := asize (bitmap s) = BITMAP_SIZE.

Lemma typed_on_bitmap {A} (m : M carray A) :
  preserves (λ c, asize c = BITMAP_SIZE) m → preserves phys_typed (on_bitmap m).
Proof. apply preserves_zoom; [done|]. by intros s t. Qed.
#[export] Hint Resolve typed_on_bitmap : preserves.

Lemma typed_change_page_state a st : preserves phys_typed (change_page_state a st).
Proof. unfold change_page_state. cbv zeta. preserve. Qed.
#[export] Hint Resolve typed_change_page_state : preserves.

Lemma typed_change_pages_state_loop fuel a e st : preserves phys_typed (change_pages_state_loop fuel a e st).
Proof. revert a. induction fuel as [|fuel IH]; intros a; cbn [change_pages_state_loop]; preserve. Qed.
#[export] Hint Resolve typed_change_pages_state_loop : preserves.

Lemma typed_change_pages_state a e st : preserves phys_typed (change_pages_state a e st).
Proof. unfold change_pages_state. preserve. Qed.
#[export] Hint Resolve typed_change_pages_state : preserves.

Lemma typed_map_memory fuel mb a l : preserves phys_typed (map_memory fuel mb a l).
Proof.
  unfold map_memory. generalize (u32 (a + sizeof_multiboot_memory_map * l)) as e. revert a.
  induction fuel as [|fuel IH]; intros a e; cbn [map_memory_loop]; [preserve|].
  unfold map_memory_entry. cbv zeta. preserve.
Qed.
#[export] Hint Resolve typed_map_memory : preserves.

Lemma typed_phy_memory_manager_init ks ke fuel mb a l : preserves phys_typed (phy_memory_manager_init ks ke fuel mb a l).
Proof. unfold phy_memory_manager_init. preserve. Qed.

Lemma typed_set_flag b : preserves phys_typed (set_no_page_available b).
Proof. by apply preserves_modify. Qed.
#[export] Hint Resolve typed_set_flag : preserves.

Lemma typed_allocate_physical_page ke : preserves phys_typed (allocate_physical_page ke).
Proof.
  assert (∀ n i, preserves phys_typed (allocate_physical_page_loop n i)) as Hl; [|unfold allocate_physical_page; preserve].
  induction n as [|n IH]; intros i; cbn [allocate_physical_page_loop]; cbv zeta; preserve.
Qed.

Lemma typed_free_physical_page a : preserves phys_typed (free_physical_page a).
Proof. unfold free_physical_page. cbv zeta. preserve. Qed.
#[export] Hint Resolve typed_allocate_physical_page typed_free_physical_page typed_phy_memory_manager_init : preserves.

(** ** The kernel heap *)

(** A page table: 1024 entries of 32 bits. *)
Definition table_typed (t : gmap Z Z) : Prop := map_Forall (λ i v, 0 ≤ i < PAGE_TABLE_SIZE ∧ 0 ≤ v < 2 ^ 32) t.

Record kheap_typed (s : kheap) : Prop := {
  kt_bitmap : asize (kheap_st s) = KHEAP_BITMAP_SIZE;
  kt_table : table_typed (kheap_page_table s);
  kt_directory : table_typed (page_directory s);
  kt_phys : phys_typed (phys s)
}.

Lemma table_typed_insert t i v : table_typed t → 0 ≤ i < PAGE_TABLE_SIZE → table_typed (<[i := u32 v]> t).
Proof. intros Ht Hi. apply map_Forall_insert_2; [|done]. split; [done|apply u32_range]. Qed.

Lemma typed_on_kheap_st {A} (m : M carray A) :
  preserves (λ c, asize c = KHEAP_BITMAP_SIZE) m → preserves kheap_typed (on_kheap_st m).
Proof. apply preserves_zoom; [by intros s []|]. by intros s t [] Ht. Qed.

Lemma typed_on_phys {A} (m : M physical_mem A) : preserves phys_typed m → preserves kheap_typed (on_phys m).
Proof. apply preserves_zoom; [by intros s []|]. by intros s t [] Ht. Qed.
#[export] Hint Resolve typed_on_kheap_st typed_on_phys : preserves.

Lemma typed_read_entry i : preserves kheap_typed (read_base_page_table i).
Proof. intros s v s' HI E. unfold read_base_page_table in E. case_decide; [|done]. by injection E as _ <-. Qed.

Lemma typed_write_entry i v : preserves kheap_typed (write_base_page_table i v).
Proof.
  intros s x s' [] E. unfold write_base_page_table in E. case_decide; [|done]. injection E as _ <-.
  split; [done|by apply table_typed_insert|done|done].
Qed.
#[export] Hint Resolve typed_read_entry typed_write_entry : preserves.

Lemma typed_get_free no_return n : preserves kheap_typed (get_free_continuous_blocks_address no_return n).
Proof. unfold get_free_continuous_blocks_address. cbv zeta. preserve. Qed.
#[export] Hint Resolve typed_get_free : preserves.

Lemma typed_alloc_kheap_pages no_return ke n : preserves kheap_typed (alloc_kheap_pages no_return ke n).
Proof. unfold alloc_kheap_pages, alloc_and_map_physical_pages, edit_base_page_table. cbv zeta. preserve. Qed.

Lemma typed_map_physical no_return a n : preserves kheap_typed (map_physical_address_to_kheap no_return a n).
Proof. unfold map_physical_address_to_kheap, register_physical_pages, edit_base_page_table. cbv zeta. preserve. Qed.

Lemma typed_free_kheap_pages a n : preserves kheap_typed (free_kheap_pages a n).
Proof. unfold free_kheap_pages. cbv zeta. preserve. Qed.

Lemma typed_get_physical a : preserves kheap_typed (kheap_get_physical_address a).
Proof. unfold kheap_get_physical_address. preserve. Qed.

Lemma typed_kheap_init kpt : preserves kheap_typed (kheap_init kpt).
Proof.
  unfold kheap_init. apply preserves_bind; [|intros _; preserve]. apply preserves_modify. intros s [H1 H2 H3 H4].
  split; [done|done| |done]. cbn [map_kheap_to_pgd snd default from_option id page_directory].
  set (k := ADDRESS_TO_DIRECTORY_ENTRY KHEAP_BEGIN_ADDRESS).
  apply map_Forall_insert_2; [|apply table_typed_insert; [done|by vm_compute]].
  split; [by vm_compute|]. unfold table_entry. rewrite lookup_insert_eq. cbn [default from_option id].
  change (Z.lor READ_WRITE PRESENT) with 3. pose proof (u32_range kpt) as Hr. split; [apply Z.lor_nonneg; lia|].
  destruct (Z.eq_dec (Z.lor (u32 kpt) 3) 0) as [->|Hne]; [lia|]. apply Z.log2_lt_pow2; [|].
  - assert (0 ≤ Z.lor (u32 kpt) 3) by (apply Z.lor_nonneg; lia). lia.
  - rewrite Z.log2_lor by lia. apply Z.max_lub_lt; [|done].
    destruct (Z.eq_dec (u32 kpt) 0) as [->|]; [done|]. apply Z.log2_lt_pow2; lia.
Qed.
#[export] Hint Resolve typed_alloc_kheap_pages typed_map_physical typed_free_kheap_pages typed_get_physical typed_kheap_init : preserves.

(** ** Every reachable state *)

Section reachable.
Variables kernel_start kernel_end kheap_page_tables : Z.
Variable no_return : list Z → Z → Z.

(** A call of one of the managers' functions, with any arguments, that returns. *)
Inductive manager_step : kheap → kheap → Prop :=
  | step_boot fuel mb a l s s' :
      on_phys (phy_memory_manager_init kernel_start kernel_end fuel mb a l) s = Ret tt s' → manager_step s s'
  | step_kheap_init s s' : kheap_init kheap_page_tables s = Ret tt s' → manager_step s s'
  | step_allocate p s s' : on_phys (allocate_physical_page kernel_end) s = Ret p s' → manager_step s s'
  | step_free a e s s' : on_phys (free_physical_page a) s = Ret e s' → manager_step s s'
  | step_register a b e s s' : on_phys (register_physical_pages a b) s = Ret e s' → manager_step s s'
  | step_unregister a b e s s' : on_phys (unregister_physical_pages a b) s = Ret e s' → manager_step s s'
  | step_alloc_pages n p s s' : alloc_kheap_pages no_return kernel_end n s = Ret p s' → manager_step s s'
  | step_free_pages a n e s s' : free_kheap_pages a n s = Ret e s' → manager_step s s'
  | step_map a n p s s' : map_physical_address_to_kheap no_return a n s = Ret p s' → manager_step s s'
  | step_get a p s s' : kheap_get_physical_address a s = Ret p s' → manager_step s s'.

Lemma manager_step_typed s s' : manager_step s s' → kheap_typed s → kheap_typed s'.
Proof.
  assert (∀ A (m : M kheap A) a t t', preserves kheap_typed m → m t = Ret a t' → kheap_typed t → kheap_typed t') as Hp by eauto.
  destruct 1; (eapply Hp; [|eassumption]); unfold register_physical_pages, unregister_physical_pages in *; eauto with preserves.
Qed.
End reachable.

(** The static objects before the kernel runs. *)
Definition kheap_at_start : kheap := Kheap (CArray KHEAP_BITMAP_SIZE ∅) ∅ ∅ physical_memory.


(** ** Witness *)

(** Two pages are registered with the physical manager. *)
Definition after {A} (m : M kheap A) (s : kheap) : kheap := match m s with Ret _ s' => s' | _ => s end.

Definition example_registered : kheap := after (on_phys (register_physical_pages 0x200000 0x202000)) kheap_at_start.

