(* ===== verification/Vmm.v ===== *)
(** * User memory: [kernel/mm/virtual_mm_manager.c]

    The current address space is edited through the recursive window: every
    access to an entry is an access to a virtual address, translated by the
    processor with the page directory in [cr3] (see [Paging.translate]); an
    access that is not mapped faults.  Physical memory is kept in words, so
    [memset] of a page is a loop over its 1024 words. *)

From S2P Require Import Prelude Memory Bitmap Phys Paging.

Record vm := Vm { vm_mem : pmem; vm_cr3 : Z; vm_phys : physical_mem }.

Definition vread (va : Z) : M vm Z := λ s,
  match translate (vm_mem s) (vm_cr3 s) va with
  | Some a => Ret (pread (vm_mem s) a) s
  | None => Fault
  end.

Definition vwrite (va v : Z) : M vm unit := λ s,
  match translate (vm_mem s) (vm_cr3 s) va with
  | Some a => Ret tt (Vm (pwrite (vm_mem s) a v) (vm_cr3 s) (vm_phys s))
  | None => Fault
  end.

Definition on_vm_phys {A} : M physical_mem A → M vm A :=
  zoom vm_phys (λ p s, Vm (vm_mem s) (vm_cr3 s) p).

Definition vm_edit_entry_attributes (entry attributes : Z) : M vm unit :=
  if negb (entry =? NULL) then
    e ← vread entry;
    vwrite entry (Z.lor e attributes)
  else mret tt.

(** [memset(NULL, address, PAGE_SIZE)], word by word. *)
Definition clear_page (address : Z) : M vm unit :=
  for_range 0 1024 (λ j, vwrite (u32 (address + 4 * j)) 0).

(** [page_directory[i]] and [page_directory_ptr[i]], as addresses. *)
Definition page_directory_entry (i : Z) : Z := u32 (RECURSIVE_PGD_ADDRESS + 4 * i).
Definition page_directory_ptr_entry (i : Z) : Z := u32 (RECURSIVE_PGT_ADDRESS + 4 * i).

Definition USER_ATTRIBUTES : Z := Z.lor (Z.lor READ_WRITE PRESENT) USER.

Section vmm_c.
Variable kernel_end : Z.

Definition map_user_virtual_address_to_physical (virtual_address physical_address : Z) : M vm unit :=
  let pgd_index := ADDRESS_TO_DIRECTORY_ENTRY virtual_address in
  let pgt_index := ADDRESS_TO_PAGE_TABLE_ENTRY virtual_address in
  e ← vread (page_directory_ptr_entry pgd_index);
  (if e =? NULL then
     page ← on_vm_phys (allocate_physical_page kernel_end);
     vwrite (page_directory_ptr_entry pgd_index) page ;;
     vm_edit_entry_attributes (page_directory_ptr_entry pgd_index) USER_ATTRIBUTES ;;
     clear_page (page_directory_entry (pgd_index * 1024))
   else mret tt) ;;
  vwrite (page_directory_entry (pgd_index * PAGE_TABLE_SIZE + pgt_index)) physical_address ;;
  vm_edit_entry_attributes (page_directory_entry (pgd_index * PAGE_TABLE_SIZE + pgt_index)) USER_ATTRIBUTES.

Definition page_exists (virtual_address : Z) : M vm bool :=
  let pgd_index := ADDRESS_TO_DIRECTORY_ENTRY virtual_address in
  let pgt_index := ADDRESS_TO_PAGE_TABLE_ENTRY virtual_address in
  e ← vread (page_directory_ptr_entry pgd_index);
  if e =? 0 then mret false
  else
    p ← vread (page_directory_entry (pgd_index * PAGE_TABLE_SIZE + pgt_index));
    mret (negb (p =? 0)).

(** The loop of [mmap]: [i] is an [int], the bound unsigned. *)
Fixpoint mmap_loop (fuel : nat) (i bound : Z) : M vm unit :=
  match fuel with
  | O => mtimeout
  | S fuel' =>
      if u32 i <? bound then
        ok ← page_exists i;
        (if negb ok then
           page ← on_vm_phys (allocate_physical_page kernel_end);
           map_user_virtual_address_to_physical i page
         else mret tt) ;;
        if i + PAGE_SIZE >? INT_MAX then mfault else mmap_loop fuel' (i + PAGE_SIZE) bound
      else mret tt
  end.

Definition mmap (fuel : nat) (virtual_address num_pages : Z) : M vm error_code :=
  if (virtual_address >=? KERNEL_VIRTUAL_OFFSET)
     || (u32 (virtual_address + u32 (num_pages * PAGE_SIZE)) >=? KERNEL_VIRTUAL_OFFSET)
  then mret INVALID_ARGUMENT
  else if negb (PAGE_BOUNDARY virtual_address =? virtual_address) then mret INVALID_ARGUMENT
  else
    mmap_loop fuel (i32 virtual_address) (u32 (virtual_address + u32 (num_pages * PAGE_SIZE))) ;;
    mret SUCCESS.

(** [free_user_virtual_page]; it has no return statement. *)
Definition free_user_virtual_page (virtual_address : Z) : M vm unit :=
  e ← vread (page_directory_ptr_entry (ADDRESS_TO_DIRECTORY_ENTRY virtual_address));
  on_vm_phys (free_physical_page e) ;;
  mret tt.

(** [switch_virtual_address_space], given the two fields of the structure. *)
Definition switch_virtual_address_space (vmm page_directory physical_pgd_address : Z) : M vm error_code :=
  if (vmm =? NULL) || (page_directory =? NULL) then mret INVALID_ARGUMENT
  else
    mmodify (λ s, Vm (vm_mem s) physical_pgd_address (vm_phys s)) ;;
    mret SUCCESS.

(** The loops of [free_virtual_address_space]; [pgd] is the address the kernel
    has the page directory at. *)
Definition USER_SPACE_LIMIT : Z := 767.

Definition free_page_table (i : Z) : M vm unit :=
  for_range 0 PAGE_TABLE_SIZE (λ j,
    p ← vread (page_directory_entry (i * PAGE_TABLE_SIZE + j));
    if negb (p =? NULL) then
      p ← vread (page_directory_entry (i * PAGE_TABLE_SIZE + j));
      on_vm_phys (free_physical_page p) ;;
      mret tt
    else mret tt).

Definition free_user_pages (pgd : Z) : M vm unit :=
  for_range 0 USER_SPACE_LIMIT (λ i,
    e ← vread (u32 (pgd + 4 * i));
    if negb (e =? NULL) then
      free_page_table i ;;
      e ← vread (u32 (pgd + 4 * i));
      on_vm_phys (free_physical_page e) ;;
      mret tt
    else mret tt).
End vmm_c.

(** ** Address spaces *)

(** Entry [k] of the page directory in frame [pd]. *)
Definition pde (m : pmem) (pd k : Z) : Z := pread m (pd * 4096 + 4 * k).

(** A present entry of frame [f] with user attributes. *)
Definition entry_user (f : Z) : Z := f * 4096 + 7.

Lemma lor_7 f : Z.lor (f * 4096) USER_ATTRIBUTES = entry_user f.
Proof. by apply (lor_low_bits f 12 7). Qed.

(** The page directory is in frame [pd] and refers to itself.  Each entry in
    use points to a page table of its own among the user tables; the frames
    of the directory and of the tables are not available; an entry of a user
    table is empty or present. *)
Record as_ok (s : vm) (pd : Z) : Prop := {
  as_wf : phys_wf (vm_phys s);
  as_pd : 0 ≤ pd < 2 ^ 20;
  as_cr3 : vm_cr3 s = pd * 4096;
  as_rec : pde (vm_mem s) pd 1023 = entry_rw pd;
  as_pd_held : avail (vm_phys s) pd = Some false;
  as_tables k : 0 ≤ k < 1023 → pde (vm_mem s) pd k ≠ 0 →
    ∃ f v, pde (vm_mem s) pd k = f * 4096 + v ∧ 0 ≤ f < 2 ^ 20 ∧ 0 ≤ v < 4096 ∧ Z.odd v = true ∧
      avail (vm_phys s) f = Some false ∧ f ≠ pd;
  as_distinct k1 k2 : 0 ≤ k1 < 768 → 0 ≤ k2 < 1023 → k1 ≠ k2 →
    pde (vm_mem s) pd k1 ≠ 0 → pde (vm_mem s) pd k2 ≠ 0 →
    entry_frame (pde (vm_mem s) pd k1) ≠ entry_frame (pde (vm_mem s) pd k2);
  as_entries k j : 0 ≤ k < 768 → 0 ≤ j < 1024 → pde (vm_mem s) pd k ≠ 0 →
    let e := pread (vm_mem s) (entry_frame (pde (vm_mem s) pd k) + 4 * j) in
    e = 0 ∨ entry_present e = true
}.

Section address_space.
Variables (s : vm) (pd : Z).
Hypothesis Hok : as_ok s pd.

Lemma vread_pde k : 0 ≤ k < 1024 →
  vread (page_directory_ptr_entry k) s = Ret (pde (vm_mem s) pd k) s.
Proof.
  intros Hk. destruct Hok as [_ Hpd Hcr3 Hrec _ _ _ _]. unfold vread, page_directory_ptr_entry.
  unfold RECURSIVE_PGT_ADDRESS. rewrite u32_small by lia.
  replace (0xFFFFF000 + 4 * k) with (RECURSIVE_PGD_ADDRESS + 1023 * 4096 + 4 * k)
    by (unfold RECURSIVE_PGD_ADDRESS; lia).
  rewrite Hcr3, (window_translate _ _ Hpd Hrec) by lia.
  unfold pde in Hrec. by rewrite Hrec, entry_rw_present, entry_rw_frame.
Qed.

Lemma vwrite_pde k v : 0 ≤ k < 1024 →
  vwrite (page_directory_ptr_entry k) v s
  = Ret tt (Vm (pwrite (vm_mem s) (pd * 4096 + 4 * k) v) (vm_cr3 s) (vm_phys s)).
Proof.
  intros Hk. destruct Hok as [_ Hpd Hcr3 Hrec _ _ _ _]. unfold vwrite, page_directory_ptr_entry.
  unfold RECURSIVE_PGT_ADDRESS. rewrite u32_small by lia.
  replace (0xFFFFF000 + 4 * k) with (RECURSIVE_PGD_ADDRESS + 1023 * 4096 + 4 * k)
    by (unfold RECURSIVE_PGD_ADDRESS; lia).
  rewrite Hcr3 at 1. rewrite (window_translate _ _ Hpd Hrec) by lia.
  unfold pde in Hrec. by rewrite Hrec, entry_rw_present, entry_rw_frame.
Qed.
End address_space.

(** ** Writing entries *)

Lemma translate_pte m pd k i f v :
  0 ≤ pd < 2 ^ 20 → pde m pd 1023 = entry_rw pd → 0 ≤ k < 1024 → 0 ≤ i < 1024 →
  pde m pd k = f * 4096 + v → 0 ≤ f < 2 ^ 20 → 0 ≤ v < 4096 → Z.odd v = true →
  translate m (pd * 4096) (page_directory_entry (k * 1024 + i)) = Some (f * 4096 + 4 * i).
Proof.
  intros Hpd Hrec Hk Hi He Hf Hv Hodd. unfold page_directory_entry, RECURSIVE_PGD_ADDRESS.
  rewrite u32_small by lia.
  replace (0xFFC00000 + 4 * (k * 1024 + i)) with (RECURSIVE_PGD_ADDRESS + k * 4096 + 4 * i)
    by (unfold RECURSIVE_PGD_ADDRESS; lia).
  rewrite (window_translate _ _ Hpd Hrec) by lia. unfold pde in He.
  by rewrite He, entry_present_odd, Hodd, entry_frame_eq.
Qed.

Lemma translate_pde m pd k :
  0 ≤ pd < 2 ^ 20 → pde m pd 1023 = entry_rw pd → 0 ≤ k < 1024 →
  translate m (pd * 4096) (page_directory_ptr_entry k) = Some (pd * 4096 + 4 * k).
Proof.
  intros Hpd Hrec Hk. unfold page_directory_ptr_entry, RECURSIVE_PGT_ADDRESS.
  rewrite u32_small by lia.
  replace (0xFFFFF000 + 4 * k) with (RECURSIVE_PGD_ADDRESS + 1023 * 4096 + 4 * k)
    by (unfold RECURSIVE_PGD_ADDRESS; lia).
  rewrite (window_translate _ _ Hpd Hrec) by lia.
  unfold pde in Hrec. by rewrite Hrec, entry_rw_present, entry_rw_frame.
Qed.

(** [m'] is [m] but for the word at [a]. *)
Definition word_set (a v : Z) (m m' : pmem) : Prop :=
  ∀ b, pread m' b = if decide (b = a) then v else pread m b.

(** An entry is stored and given its attributes, at a virtual address whose
    translation does not depend on it. *)
Lemma enter_user_ok s va a f :
  va ≠ NULL → 0 ≤ f < 2 ^ 20 →
  (∀ m', (∀ b, b ≠ a → pread m' b = pread (vm_mem s) b) → translate m' (vm_cr3 s) va = Some a) →
  ∃ m', (vwrite va (f * 4096) ;; vm_edit_entry_attributes va USER_ATTRIBUTES) s
        = Ret tt (Vm m' (vm_cr3 s) (vm_phys s)) ∧ word_set a (entry_user f) (vm_mem s) m'.
Proof.
  intros Hva Hf Ht. pose proof (Ht (vm_mem s) (λ _ _, eq_refl)) as T0.
  set (m1 := pwrite (vm_mem s) a (f * 4096)).
  assert (translate m1 (vm_cr3 s) va = Some a) as T1.
  { apply Ht. intros b Hb. unfold m1. by rewrite pread_pwrite, decide_False. }
  exists (pwrite m1 a (entry_user f)). split.
  - assert (vwrite va (f * 4096) s = Ret tt (Vm m1 (vm_cr3 s) (vm_phys s))) as E by (unfold vwrite; by rewrite T0).
    run E. unfold vm_edit_entry_attributes. rewrite (proj2 (Z.eqb_neq va NULL)) by done. cbn [negb].
    assert (vread va (Vm m1 (vm_cr3 s) (vm_phys s)) = Ret (f * 4096) (Vm m1 (vm_cr3 s) (vm_phys s))) as E1.
    { unfold vread. cbn [vm_mem vm_cr3]. rewrite T1. unfold m1.
      by rewrite pread_pwrite, decide_True, u32_small by (done || lia). }
    run E1. rewrite lor_7. unfold vwrite. cbn [vm_mem vm_cr3 vm_phys]. by rewrite T1.
  - intros b. rewrite pread_pwrite. unfold m1. rewrite pread_pwrite.
    rewrite (u32_small (entry_user f)) by (unfold entry_user; lia). by destruct (decide (b = a)).
Qed.

(** The words of frame [f]. *)
Definition in_frame (f b : Z) : Prop := f * 4096 ≤ b < f * 4096 + 4096 ∧ b mod 4 = 0.
#[export] Instance in_frame_dec f b : Decision (in_frame f b).
Proof. unfold in_frame. apply _. Defined.

Lemma clear_page_ok s pd k f :
  vm_cr3 s = pd * 4096 → 0 ≤ pd < 2 ^ 20 → pde (vm_mem s) pd 1023 = entry_rw pd →
  0 ≤ k < 1023 → pde (vm_mem s) pd k = entry_user f → 0 ≤ f < 2 ^ 20 → f ≠ pd →
  ∃ m', clear_page (page_directory_entry (k * 1024)) s = Ret tt (Vm m' (vm_cr3 s) (vm_phys s)) ∧
    ∀ b, pread m' b = if decide (in_frame f b) then 0 else pread (vm_mem s) b.
Proof.
  intros Hcr3 Hpd Hrec Hk He Hf Hne. unfold clear_page.
  destruct (for_range_inv (λ j s', ∃ m', s' = Vm m' (vm_cr3 s) (vm_phys s) ∧
      ∀ b, pread m' b = if decide (in_frame f b ∧ b < f * 4096 + 4 * j) then 0 else pread (vm_mem s) b)
      (λ j, vwrite (u32 (page_directory_entry (k * 1024) + 4 * j)) 0) 0 1024 s)
    as (s' & E & m' & -> & Hm').
  - unfold INT_MAX. lia.
  - exists (vm_mem s). split; [by destruct s|]. intros b. unfold in_frame. by rewrite decide_False by lia.
  - intros j s1 Hj (m1 & -> & Hm1).
    assert (u32 (page_directory_entry (k * 1024) + 4 * j) = page_directory_entry (k * 1024 + j)) as ->.
    { unfold page_directory_entry, RECURSIVE_PGD_ADDRESS. rewrite !u32_small by (rewrite ?u32_small by lia; lia). lia. }
    assert (∀ i, 0 ≤ i < 1024 → pde m1 pd i = pde (vm_mem s) pd i) as Hpde.
    { intros i Hi. unfold pde. rewrite Hm1, decide_False; [done|]. unfold in_frame. lia. }
    exists (Vm (pwrite m1 (f * 4096 + 4 * j) 0) (vm_cr3 s) (vm_phys s)). split.
    + unfold vwrite. cbn [vm_mem vm_cr3 vm_phys]. rewrite Hcr3.
      by rewrite (translate_pte m1 pd k j f 7) by (rewrite ?Hpde by lia; done || lia).
    + eexists. split; [reflexivity|]. intros b. rewrite pread_pwrite, Hm1. change (u32 0) with 0. unfold in_frame.
      destruct (decide (b = f * 4096 + 4 * j)) as [->|Hb].
      { rewrite decide_True; [done|]. split; [split; [lia|dlia]|lia]. }
      destruct (decide ((f * 4096 ≤ b < f * 4096 + 4096 ∧ b mod 4 = 0) ∧ b < f * 4096 + 4 * j)).
      * by rewrite decide_True by lia.
      * rewrite decide_False; [done|]. intros [[H1 H2] H3]. apply n. split_and!; try lia; try done. dlia.
  - exists m'. split; [exact E|]. intros b. rewrite Hm'. unfold in_frame.
    destruct (decide (f * 4096 ≤ b < f * 4096 + 4096 ∧ b mod 4 = 0));
      [rewrite decide_True by lia|rewrite decide_False by lia]; done.
Qed.

(** ** Mapping a page *)

(** Directory entry [k] of [m'] leads to the page table in frame [f], whose
    entry [i] is frame [fp]; of the rest of the address space only what was
    not mapped through directory entry [k] differs from [m]. *)
Record page_entered (pd k i f fp : Z) (m m' : pmem) : Prop := {
  pe_other b : ¬ in_frame f b → b ≠ pd * 4096 + 4 * k → pread m' b = pread m b;
  pe_pde : ∃ v, pde m' pd k = f * 4096 + v ∧ 0 ≤ v < 4096 ∧ Z.odd v = true;
  pe_page : pread m' (f * 4096 + 4 * i) = entry_user fp;
  pe_same : (pde m pd k = pde m' pd k ∧
             ∀ j, 0 ≤ j < 1024 → j ≠ i → pread m' (f * 4096 + 4 * j) = pread m (f * 4096 + 4 * j)) ∨
            (pde m pd k = 0 ∧ ∀ j, 0 ≤ j < 1024 → j ≠ i → pread m' (f * 4096 + 4 * j) = 0)
}.

Lemma in_frame_word f j : 0 ≤ j < 1024 → in_frame f (f * 4096 + 4 * j).
Proof. intros. split; [lia|dlia]. Qed.

Lemma not_in_frame f g j : f ≠ g → 0 ≤ j < 1024 → ¬ in_frame f (g * 4096 + 4 * j).
Proof. unfold in_frame. lia. Qed.

Lemma page_entered_translate s pd k i f fp m' :
  as_ok s pd → 0 ≤ k < 768 → 0 ≤ i < 1024 → 0 ≤ f < 2 ^ 20 → 0 ≤ fp < 2 ^ 20 → f ≠ pd →
  (∀ k', 0 ≤ k' < 1023 → k' ≠ k → pde (vm_mem s) pd k' ≠ 0 → entry_frame (pde (vm_mem s) pd k') ≠ f * 4096) →
  page_entered pd k i f fp (vm_mem s) m' →
  ∀ va, 0 ≤ va < RECURSIVE_PGD_ADDRESS →
    translate m' (vm_cr3 s) va =
      if decide (va / 4096 = k * 1024 + i) then Some (fp * 4096 + va mod 4096)
      else translate (vm_mem s) (vm_cr3 s) va.
Proof.
  intros Hok Hk Hi Hf Hfp Hne Hdist [Hother (v & Hpde & Hv & Hodd) Hpage Hsame] va Hva.
  unfold RECURSIVE_PGD_ADDRESS in Hva.
  pose proof (as_pd _ _ Hok) as Hpd. rewrite (as_cr3 _ _ Hok), !translate_eq, !entry_frame_cr3 by done.
  cbv zeta. set (k' := va / 4194304). set (i' := va / 4096 mod 1024).
  assert (0 ≤ k' < 1023) by (unfold k'; dlia). assert (0 ≤ i' < 1024) by (unfold i'; dlia).
  assert (va / 4096 = k' * 1024 + i') as Hq by (unfold k', i'; dlia). rewrite Hq.
  fold (pde m' pd k'). fold (pde (vm_mem s) pd k').
  destruct (decide (k' = k)) as [->|Hkk].
  - rewrite Hpde, entry_present_odd, Hodd, entry_frame_eq by done.
    destruct (decide (i' = i)) as [->|Hii].
    + rewrite decide_True by lia. rewrite Hpage. unfold entry_user.
      by rewrite entry_present_odd, entry_frame_eq by lia.
    + rewrite decide_False by lia. destruct Hsame as [[He Hs]|[He Hs]].
      * rewrite He, Hpde, entry_present_odd, Hodd, entry_frame_eq by done. by rewrite Hs.
      * rewrite He. rewrite Hs by done. done.
  - rewrite decide_False by lia.
    assert (pde m' pd k' = pde (vm_mem s) pd k') as ->.
    { apply Hother; [apply not_in_frame; [done|lia]|lia]. }
    destruct (decide (pde (vm_mem s) pd k' = 0)) as [->|Hnz]; [done|].
    destruct (as_tables _ _ Hok k') as (g & w & Hg & Hgr & Hw & Hwo & _ & Hgpd); [lia|done|].
    specialize (Hdist k' ltac:(lia) Hkk Hnz). rewrite Hg, entry_present_odd, Hwo, entry_frame_eq in * by done.
    rewrite Hother; [done|apply not_in_frame; lia|lia].
Qed.

(** The address space stays well-formed when the new table was not in use and
    is not available afterwards. *)
Lemma page_entered_ok s pd k i f fp m' ph :
  as_ok s pd → 0 ≤ k < 768 → 0 ≤ i < 1024 → 0 ≤ f < 2 ^ 20 → f ≠ pd →
  (∀ k', 0 ≤ k' < 1023 → k' ≠ k → pde (vm_mem s) pd k' ≠ 0 → entry_frame (pde (vm_mem s) pd k') ≠ f * 4096) →
  page_entered pd k i f fp (vm_mem s) m' →
  phys_wf ph → (∀ p, avail (vm_phys s) p = Some false → avail ph p = Some false) → avail ph f = Some false →
  as_ok (Vm m' (vm_cr3 s) ph) pd.
Proof.
  intros Hok Hk Hi Hf Hne Hdist [Hother (v & Hpde & Hv & Hodd) Hpage Hsame] Hwf Hav Hfav.
  assert (∀ k', 0 ≤ k' < 1024 → k' ≠ k → pde m' pd k' = pde (vm_mem s) pd k') as Hp.
  { intros k' Hk' Hkk. apply Hother; [by apply not_in_frame|lia]. }
  destruct Hok as [H1 H2 H3 H4 H5 H6 H7 H8]. split; cbn [vm_mem vm_cr3 vm_phys].
  - done.
  - done.
  - done.
  - by rewrite Hp by lia.
  - by apply Hav.
  - intros k' Hk' Hnz. destruct (decide (k' = k)) as [->|Hkk].
    + exists f, v. done.
    + rewrite Hp in * by lia. destruct (H6 k' Hk' Hnz) as (g & w & Hg & Hgr & Hw & Hwo & Hga & Hgpd).
      exists g, w. split_and!; try done; try lia. by apply Hav.
  - intros k1 k2 Hk1 Hk2 Hkk Hz1 Hz2.
    destruct (decide (k1 = k)) as [->|]; destruct (decide (k2 = k)) as [->|]; try done.
    + rewrite Hpde, entry_frame_eq by done. rewrite Hp in * by lia. intros Heq. by apply (Hdist k2).
    + rewrite Hpde, entry_frame_eq by done. rewrite Hp in * by lia. intros Heq. by apply (Hdist k1); [lia|..].
    + rewrite !Hp in * by lia. by apply H7.
  - intros k' j Hk' Hj Hnz. destruct (decide (k' = k)) as [->|Hkk].
    + rewrite Hpde, entry_frame_eq by done. destruct (decide (j = i)) as [->|Hji].
      * right. rewrite Hpage. unfold entry_user. by rewrite entry_present_odd.
      * destruct Hsame as [[He Hs]|[He Hs]]; [|left; by apply Hs].
        rewrite Hs by done. specialize (H8 k j Hk' Hj).
        rewrite He, Hpde, entry_frame_eq in H8 by done. apply H8. by rewrite <-Hpde.
    + rewrite Hp in * by lia. destruct (H6 k') as (g & w & Hg & Hgr & Hw & Hwo & Hga & Hgpd); [lia|done|].
      specialize (Hdist k' ltac:(lia) Hkk Hnz). specialize (H8 k' j Hk' Hj Hnz).
      rewrite Hg, entry_frame_eq in * by done.
      rewrite Hother; [done|apply not_in_frame; [intros <-; done|done]|lia].
Qed.

(** The translation of an address is that of its page. *)
Lemma translate_page m cr3 x :
  translate m cr3 x = (λ f, f + x mod 4096) <$> translate m cr3 (x / 4096 * 4096).
Proof.
  rewrite !translate_eq. cbv zeta.
  replace (x / 4096 * 4096 / 4194304) with (x / 4194304) by dlia.
  rewrite Z.div_mul by lia. replace (x / 4096 * 4096 mod 4096) with 0 by dlia.
  destruct (entry_present _); [|done]. destruct (entry_present _); [|done].
  simpl. f_equal. lia.
Qed.

Section mapping.
Variable kernel_end : Z.
Hypothesis Hke : 0 ≤ kernel_end < 2 ^ 32.

(** A page handed out was available, and is not any more. *)
Lemma allocated_frame p a ph :
  phys_wf p → allocate_physical_page kernel_end p = Ret a ph → a ≠ NULL →
  ∃ f, a = f * 4096 ∧ 0 ≤ f < 2 ^ 20 ∧ avail p f = Some true ∧ avail ph f = Some false ∧ phys_wf ph ∧
    ∀ q, avail p q = Some false → avail ph q = Some false.
Proof.
  intros Hwf E Ha. destruct (allocate_physical_page_cases kernel_end p a ph Hwf Hke E)
    as [(f & -> & Hfs & Hf & Hset)|[-> _]]; [|done].
  destruct Hfs as (Hlow & Hset1 & _). pose proof (pages_set_wf _ _ _ _ _ Hwf Hset) as Hwf'.
  assert (0 ≤ first_searched_page kernel_end).
  { unfold first_searched_page, first_searched_byte, PAGE_SIZE. dlia. }
  rewrite NUM_PAGES_eq in Hf. pose proof (proj2 Hset) as Hav.
  exists f. split_and!; [done|lia|lia|done| |done|].
  - rewrite Hav. by rewrite decide_True by lia.
  - intros q Hq. rewrite Hav. by destruct (decide (f ≤ q < f + 1)).
Qed.

Lemma va_indices k i va : 0 ≤ k < 1024 → 0 ≤ i < 1024 → u32 va = (k * 1024 + i) * 4096 →
  ADDRESS_TO_DIRECTORY_ENTRY va = k ∧ ADDRESS_TO_PAGE_TABLE_ENTRY va = i.
Proof.
  intros Hk Hi Hva. unfold ADDRESS_TO_DIRECTORY_ENTRY, ADDRESS_TO_PAGE_TABLE_ENTRY.
  rewrite Hva, shiftr_22, shiftr_12, land_0x3ff. dlia.
Qed.

(** The store of the page itself, once directory entry [k] leads to frame [f]. *)
Lemma enter_page_ok s pd k i f v fp :
  vm_cr3 s = pd * 4096 → 0 ≤ pd < 2 ^ 20 → pde (vm_mem s) pd 1023 = entry_rw pd →
  0 ≤ k < 1023 → 0 ≤ i < 1024 → pde (vm_mem s) pd k = f * 4096 + v → 0 ≤ f < 2 ^ 20 →
  0 ≤ v < 4096 → Z.odd v = true → f ≠ pd → 0 ≤ fp < 2 ^ 20 →
  ∃ m', (vwrite (page_directory_entry (k * PAGE_TABLE_SIZE + i)) (fp * 4096) ;;
         vm_edit_entry_attributes (page_directory_entry (k * PAGE_TABLE_SIZE + i)) USER_ATTRIBUTES) s
        = Ret tt (Vm m' (vm_cr3 s) (vm_phys s)) ∧
    word_set (f * 4096 + 4 * i) (entry_user fp) (vm_mem s) m'.
Proof.
  intros Hcr3 Hpd Hrec Hk Hi Hpde Hf Hv Hodd Hne Hfp. unfold PAGE_TABLE_SIZE.
  apply enter_user_ok; [|done|].
  - unfold page_directory_entry, RECURSIVE_PGD_ADDRESS, NULL. rewrite u32_small by lia. lia.
  - intros m' Hm'. rewrite Hcr3. apply (translate_pte m' pd k i f v); try done; try lia.
    + unfold pde in *. rewrite Hm' by lia. done.
    + unfold pde in *. rewrite Hm' by lia. done.
Qed.

(** A page table for directory entry [k] is taken and cleared. *)
Lemma new_table_ok s pd k f ph :
  as_ok s pd → 0 ≤ k < 768 → 0 ≤ f < 2 ^ 20 → f ≠ pd →
  allocate_physical_page kernel_end (vm_phys s) = Ret (f * 4096) ph →
  ∃ m', (page ← on_vm_phys (allocate_physical_page kernel_end);
         vwrite (page_directory_ptr_entry k) page ;;
         vm_edit_entry_attributes (page_directory_ptr_entry k) USER_ATTRIBUTES ;;
         clear_page (page_directory_entry (k * 1024))) s = Ret tt (Vm m' (vm_cr3 s) ph) ∧
    ∀ b, pread m' b = if decide (in_frame f b) then 0
                      else if decide (b = pd * 4096 + 4 * k) then entry_user f else pread (vm_mem s) b.
Proof.
  intros Hok Hk Hf Hne E. destruct Hok as [_ Hpd Hcr3 Hrec _ _ _ _].
  assert (on_vm_phys (allocate_physical_page kernel_end) s = Ret (f * 4096) (Vm (vm_mem s) (vm_cr3 s) ph)) as E0.
  { unfold on_vm_phys. by rewrite (zoom_Ret _ _ _ _ _ _ E). }
  run E0. set (s0 := Vm (vm_mem s) (vm_cr3 s) ph).
  destruct (enter_user_ok s0 (page_directory_ptr_entry k) (pd * 4096 + 4 * k) f) as (m1 & E1 & W1).
  - unfold page_directory_ptr_entry, RECURSIVE_PGT_ADDRESS, NULL. rewrite u32_small by lia. lia.
  - done.
  - intros m' Hm'. cbn [vm_cr3 s0]. rewrite Hcr3. apply translate_pde; [done| |lia].
    unfold pde in *. rewrite Hm' by lia. done.
  - apply bind_Ret_inv in E1 as ([] & s1 & E1 & E2). run E1. run E2.
    destruct (clear_page_ok (Vm m1 (vm_cr3 s) ph) pd k f) as (m2 & E3 & W2); cbn [vm_mem vm_cr3 vm_phys]; try done.
    + unfold pde in *. rewrite W1, decide_False by lia. done.
    + lia.
    + unfold pde. by rewrite W1, decide_True by lia.
    + exists m2. split; [exact E3|]. intros b. by rewrite W2, W1.
Qed.

(** The next [n] requests for a page are all met. *)
Fixpoint can_allocate (n : nat) (p : physical_mem) : Prop :=
  match n with
  | O => True
  | S n' => ∃ a ph, allocate_physical_page kernel_end p = Ret a ph ∧ a ≠ NULL ∧ can_allocate n' ph
  end.

Lemma can_allocate_le n m p : (m ≤ n)%nat → can_allocate n p → can_allocate m p.
Proof.
  revert n p. induction m as [|m IH]; intros [|n] p Hle; simpl; try done; [lia|].
  intros (a & ph & E & Ha & Hn). exists a, ph. split_and!; [done|done|]. apply (IH n); [lia|done].
Qed.

(** The entry of a page in a table just taken, and in a table that was there. *)
Lemma page_entered_new pd k i f fp m m1 m2 :
  0 ≤ pd → 0 ≤ k < 768 → 0 ≤ i < 1024 → 0 ≤ f → f ≠ pd → pde m pd k = 0 →
  (∀ b, pread m1 b = if decide (in_frame f b) then 0
                     else if decide (b = pd * 4096 + 4 * k) then entry_user f else pread m b) →
  word_set (f * 4096 + 4 * i) (entry_user fp) m1 m2 → page_entered pd k i f fp m m2.
Proof.
  intros Hpd Hk Hi Hf Hne Hz W1 W2. split.
  - intros b Hb1 Hb2. rewrite W2, W1, !decide_False; [done|done|done|].
    intros ->. by apply Hb1, in_frame_word.
  - exists 7. split_and!; try done. unfold pde in *. rewrite W2, decide_False by lia.
    by rewrite W1, decide_False, decide_True by (unfold in_frame; lia).
  - by rewrite W2, decide_True.
  - right. split; [done|]. intros j Hj Hji. rewrite W2, decide_False by lia.
    by rewrite W1, decide_True by (by apply in_frame_word).
Qed.

Lemma page_entered_table pd k i f v fp m m2 :
  0 ≤ pd → 0 ≤ k < 768 → 0 ≤ i < 1024 → 0 ≤ f → f ≠ pd →
  pde m pd k = f * 4096 + v → 0 ≤ v < 4096 → Z.odd v = true →
  word_set (f * 4096 + 4 * i) (entry_user fp) m m2 → page_entered pd k i f fp m m2.
Proof.
  intros Hpd Hk Hi Hf Hne Hpde Hv Hodd W2. split.
  - intros b Hb1 Hb2. rewrite W2, decide_False; [done|]. intros ->. by apply Hb1, in_frame_word.
  - exists v. split_and!; try done; try lia. unfold pde in *. by rewrite W2, decide_False by lia.
  - by rewrite W2, decide_True.
  - left. split; [unfold pde; by rewrite W2, decide_False by lia|].
    intros j Hj Hji. by rewrite W2, decide_False by lia.
Qed.

(** No directory entry refers to a page that is available. *)
Lemma available_unused s pd k f :
  as_ok s pd → 0 ≤ k < 1023 → avail (vm_phys s) f = Some true → pde (vm_mem s) pd k ≠ 0 →
  entry_frame (pde (vm_mem s) pd k) ≠ f * 4096.
Proof.
  intros [_ _ _ _ _ Htab _ _] Hk Hfa Hnz. destruct (Htab k Hk Hnz) as (g & w & -> & Hg & Hw & _ & Hga & _).
  rewrite entry_frame_eq by done. intros Heq. assert (g = f) as -> by lia. congruence.
Qed.

Lemma map_user_ok s pd k i va fp n :
  as_ok s pd → 0 ≤ k < 768 → 0 ≤ i < 1024 → u32 va = (k * 1024 + i) * 4096 → 0 ≤ fp < 2 ^ 20 →
  can_allocate (S n) (vm_phys s) →
  ∃ m' ph, map_user_virtual_address_to_physical kernel_end va (fp * 4096) s
           = Ret tt (Vm m' (vm_cr3 s) ph) ∧
    as_ok (Vm m' (vm_cr3 s) ph) pd ∧ can_allocate n ph ∧
    ∀ x, 0 ≤ x < RECURSIVE_PGD_ADDRESS →
      translate m' (vm_cr3 s) x =
        if decide (x / 4096 = k * 1024 + i) then Some (fp * 4096 + x mod 4096)
        else translate (vm_mem s) (vm_cr3 s) x.
Proof.
  intros Hok Hk Hi Hva Hfp Hcan. pose proof Hok as [Hwf Hpd Hcr3 Hrec Hpda Htab Hdist Hent].
  destruct (va_indices k i va) as [Hk' Hi']; [lia|lia|done|].
  unfold map_user_virtual_address_to_physical. rewrite Hk', Hi'. cbv zeta.
  run (vread_pde s pd Hok k ltac:(lia)).
  destruct (Z.eqb_spec (pde (vm_mem s) pd k) NULL) as [Hz|Hz]; unfold NULL in Hz.
  - destruct Hcan as (a & ph & E & Ha & Hcan).
    destruct (allocated_frame _ _ _ Hwf E Ha) as (f & -> & Hf & Hfa & Hfa' & Hwf' & Hkeep).
    assert (f ≠ pd) as Hne by (intros ->; congruence).
    destruct (new_table_ok s pd k f ph Hok Hk Hf Hne E) as (m1 & E1 & W1). run E1.
    destruct (enter_page_ok (Vm m1 (vm_cr3 s) ph) pd k i f 7 fp) as (m2 & E2 & W2);
      cbn [vm_mem vm_cr3 vm_phys]; try done; try lia.
    + unfold pde in *. rewrite W1, !decide_False by (unfold in_frame; lia). done.
    + unfold pde, entry_user. rewrite W1, decide_False, decide_True by (unfold in_frame; lia). done.
    + assert (page_entered pd k i f fp (vm_mem s) m2) as Hpe by (apply (page_entered_new _ _ _ _ _ _ m1); (done || lia)).
      assert (∀ k', 0 ≤ k' < 1023 → k' ≠ k → pde (vm_mem s) pd k' ≠ 0 →
        entry_frame (pde (vm_mem s) pd k') ≠ f * 4096) as Hd by (intros k' Hk'r _; by apply available_unused).
      exists m2, ph. split; [done|]. split_and!; [|done|].
      * apply (page_entered_ok s pd k i f fp m2 ph); done.
      * apply (page_entered_translate s pd k i f fp m2); done.
  - destruct (Htab k) as (f & v & Hpde & Hf & Hv & Hodd & Hfa & Hne); [lia|done|].
    rewrite bind_ret_l.
    destruct (enter_page_ok s pd k i f v fp) as (m2 & E2 & W2); try done; [lia|].
    assert (page_entered pd k i f fp (vm_mem s) m2) as Hpe
      by (apply (page_entered_table _ _ _ _ v); (done || lia)).
    assert (∀ k', 0 ≤ k' < 1023 → k' ≠ k → pde (vm_mem s) pd k' ≠ 0 →
      entry_frame (pde (vm_mem s) pd k') ≠ f * 4096) as Hd.
    { intros k' Hk'r Hkk Hnz Heq. apply (Hdist k k'); [lia|lia|done|done|done|].
      by rewrite Heq, Hpde, entry_frame_eq. }
    exists m2, (vm_phys s). split; [done|]. split_and!; [|by apply (can_allocate_le (S n)); [lia|]|].
    + apply (page_entered_ok s pd k i f fp m2 (vm_phys s)); done.
    + apply (page_entered_translate s pd k i f fp m2); done.
Qed.

Lemma page_exists_ok s pd k i va :
  as_ok s pd → 0 ≤ k < 768 → 0 ≤ i < 1024 → u32 va = (k * 1024 + i) * 4096 →
  ∃ b, page_exists va s = Ret b s ∧
    (b = true ↔ ∃ f, translate (vm_mem s) (vm_cr3 s) ((k * 1024 + i) * 4096) = Some f).
Proof.
  intros Hok Hk Hi Hva. pose proof Hok as [Hwf Hpd Hcr3 Hrec Hpda Htab Hdist Hent].
  destruct (va_indices k i va) as [Hk' Hi']; [lia|lia|done|].
  unfold page_exists. rewrite Hk', Hi'. cbv zeta. run (vread_pde s pd Hok k ltac:(lia)).
  assert (translate (vm_mem s) (vm_cr3 s) ((k * 1024 + i) * 4096) =
    if entry_present (pde (vm_mem s) pd k) then
      if entry_present (pread (vm_mem s) (entry_frame (pde (vm_mem s) pd k) + 4 * i))
      then Some (entry_frame (pread (vm_mem s) (entry_frame (pde (vm_mem s) pd k) + 4 * i))) else None
    else None) as Ht.
  { rewrite translate_eq, Hcr3, entry_frame_cr3 by done.
    replace ((k * 1024 + i) * 4096 / 4194304) with k by dlia.
    replace ((k * 1024 + i) * 4096 / 4096 mod 1024) with i by dlia.
    replace ((k * 1024 + i) * 4096 mod 4096) with 0 by dlia. cbv zeta. fold (pde (vm_mem s) pd k).
    by rewrite Z.add_0_r. }
  destruct (Z.eqb_spec (pde (vm_mem s) pd k) 0) as [Hz|Hz].
  - exists false. split; [done|]. rewrite Ht, Hz. split; [done|by intros [? ?]].
  - destruct (Htab k) as (f & v & Hpde & Hf & Hv & Hodd & _ & _); [lia|done|].
    unfold vread, PAGE_TABLE_SIZE. unfold mbind, M_bind. rewrite Hcr3.
    rewrite (translate_pte _ pd k i f v) by (done || lia).
    eexists. split; [reflexivity|].
    specialize (Hent k i Hk Hi Hz). cbv zeta in Hent.
    rewrite <-Hcr3, Ht. rewrite Hpde, entry_frame_eq in * by done. rewrite entry_present_odd, Hodd.
    destruct Hent as [->|Hp]; [split; [done|by intros [? ?]]|].
    rewrite Hp. split; [eauto|]. intros _. apply negb_true_iff, Z.eqb_neq. intros Hz'. by rewrite Hz' in Hp.
Qed.

(** One page of the range: it is mapped afterwards, and no other changes. *)
Lemma mmap_page_ok s pd q va n :
  as_ok s pd → 0 ≤ q < 768 * 1024 → u32 va = q * 4096 → can_allocate (S (S n)) (vm_phys s) →
  ∃ s', (ok ← page_exists va;
         if negb ok then
           page ← on_vm_phys (allocate_physical_page kernel_end);
           map_user_virtual_address_to_physical kernel_end va page
         else mret tt) s = Ret tt s' ∧ as_ok s' pd ∧ can_allocate n (vm_phys s') ∧
    (∃ f, translate (vm_mem s') (vm_cr3 s') (q * 4096) = Some f) ∧
    ∀ x, 0 ≤ x < RECURSIVE_PGD_ADDRESS →
      (x / 4096 ≠ q ∨ ∃ f, translate (vm_mem s) (vm_cr3 s) x = Some f) →
      translate (vm_mem s') (vm_cr3 s') x = translate (vm_mem s) (vm_cr3 s) x.
Proof.
  intros Hok Hq Hva Hcan. set (k := q / 1024). set (i := q mod 1024).
  assert (0 ≤ k < 768 ∧ 0 ≤ i < 1024 ∧ q = k * 1024 + i) as (Hk & Hi & Hqe) by (unfold k, i; dlia).
  rewrite Hqe in Hva |- *. destruct (page_exists_ok s pd k i va Hok Hk Hi Hva) as (b & E & Hb). run E.
  destruct b; cbn [negb].
  - exists s. split_and!; try done; [|by apply Hb]. apply (can_allocate_le (S (S n))); [lia|done].
  - destruct Hcan as (a & ph & Ea & Ha & Hcan).
    destruct (allocated_frame _ _ _ (as_wf _ _ Hok) Ea Ha) as (fp & -> & Hfp & Hav & _ & Hwf' & Hkeep).
    set (s1 := Vm (vm_mem s) (vm_cr3 s) ph).
    assert (on_vm_phys (allocate_physical_page kernel_end) s = Ret (fp * 4096) s1) as E1.
    { unfold on_vm_phys. by rewrite (zoom_Ret _ _ _ _ _ _ Ea). }
    assert (as_ok s1 pd) as Hok1.
    { destruct Hok as [H1 H2 H3 H4 H5 H6 H7 H8]. split; try done; [by apply Hkeep|].
      intros k' Hk' Hnz. destruct (H6 k' Hk' Hnz) as (g & w & ? & ? & ? & ? & ? & ?).
      exists g, w. split_and!; try done; try lia. by apply Hkeep. }
    assert (∃ m' ph', map_user_virtual_address_to_physical kernel_end va (fp * 4096) s1
        = Ret tt (Vm m' (vm_cr3 s) ph') ∧ as_ok (Vm m' (vm_cr3 s) ph') pd ∧ can_allocate n ph' ∧
        ∀ x, 0 ≤ x < RECURSIVE_PGD_ADDRESS →
        translate m' (vm_cr3 s) x =
          if decide (x / 4096 = k * 1024 + i) then Some (fp * 4096 + x mod 4096)
          else translate (vm_mem s) (vm_cr3 s) x) as (m' & ph' & E2 & Hok2 & Hcan2 & Ht).
    { by apply (map_user_ok s1). }
    exists (Vm m' (vm_cr3 s) ph'). run E1. split_and!; [done|done|done| |].
    + exists (fp * 4096). cbn [vm_mem vm_cr3]. rewrite Ht by (unfold RECURSIVE_PGD_ADDRESS; lia).
      replace ((k * 1024 + i) * 4096 / 4096) with (k * 1024 + i) by dlia.
      rewrite decide_True by done. f_equal. dlia.
    + intros x Hx Hor. cbn [vm_mem vm_cr3]. rewrite Ht by done. case_decide as Hc; [|done].
      destruct Hor as [Hne|[f Hf]]; [done|]. exfalso.
      assert (false = true) as Hd; [|done]. apply Hb.
      destruct (translate (vm_mem s) (vm_cr3 s) ((k * 1024 + i) * 4096)) eqn:Eq; [eauto|].
      rewrite <-Hc in Eq. rewrite (translate_page _ _ x) in Hf. by rewrite Eq in Hf.
Qed.

Lemma mmap_loop_ok n fuel s pd q va :
  as_ok s pd → 0 ≤ q → q + Z.of_nat n < 768 * 1024 → (n < fuel)%nat →
  u32 va = q * 4096 → (- 2 ^ 31 ≤ va) → va + Z.of_nat n * 4096 ≤ INT_MAX →
  can_allocate (2 * n) (vm_phys s) →
  ∃ s', mmap_loop kernel_end fuel va ((q + Z.of_nat n) * 4096) s = Ret tt s' ∧ as_ok s' pd ∧
    (∀ x, q ≤ x / 4096 < q + Z.of_nat n → ∃ f, translate (vm_mem s') (vm_cr3 s') x = Some f) ∧
    ∀ x, 0 ≤ x < RECURSIVE_PGD_ADDRESS →
      (¬ (q ≤ x / 4096 < q + Z.of_nat n) ∨ ∃ f, translate (vm_mem s) (vm_cr3 s) x = Some f) →
      translate (vm_mem s') (vm_cr3 s') x = translate (vm_mem s) (vm_cr3 s) x.
Proof.
  revert fuel s q va. induction n as [|n IH]; intros [|fuel] s q va Hok Hq Hqn Hf Hva Hva1 Hva2 Hcan;
    try lia; cbn [mmap_loop]; rewrite Hva.
  - rewrite (proj2 (Z.ltb_ge _ _)) by lia. exists s. split_and!; try done. intros x Hx. lia.
  - rewrite (proj2 (Z.ltb_lt _ _)) by lia.
    destruct (mmap_page_ok s pd q va (2 * n) Hok) as (s1 & E1 & Hok1 & Hcan1 & Hm1 & Ht1);
      [lia|done|by replace (S (S (2 * n))) with (2 * S n)%nat by lia|].
    apply bind_Ret_inv in E1 as (ok & s0 & E0 & E1). run E0. run E1.
    rewrite Z.gtb_ltb, (proj2 (Z.ltb_ge INT_MAX _)) by (unfold PAGE_SIZE; lia).
    destruct (IH fuel s1 (q + 1) (va + PAGE_SIZE)) as (s2 & E2 & Hok2 & Hm2 & Ht2);
      [done|lia|lia|lia| |unfold PAGE_SIZE; lia|unfold PAGE_SIZE; lia|done|].
    { unfold PAGE_SIZE, u32 in *. dlia. }
    replace (q + 1 + Z.of_nat n) with (q + Z.of_nat (S n)) in * by lia.
    assert (∀ x, x / 4096 = q → ∃ f, translate (vm_mem s1) (vm_cr3 s1) x = Some f) as Hmq.
    { intros x <-. destruct Hm1 as [f Hf1]. rewrite translate_page, Hf1. eauto. }
    exists s2. split_and!; [done|done| |].
    + intros x Hx. destruct (decide (x / 4096 = q)) as [Hxq|Hxq]; [|apply Hm2; lia].
      rewrite Ht2; [by apply Hmq|unfold RECURSIVE_PGD_ADDRESS; dlia|]. right. by apply Hmq.
    + intros x Hx Hor. destruct (decide (x / 4096 = q)) as [Hxq|Hxq].
      * rewrite Ht2; [|done|by right; apply Hmq]. apply Ht1; [done|]. destruct Hor as [?|?]; [lia|by right].
      * rewrite Ht2; [apply Ht1; [done|by left]|done|].
        destruct Hor as [?|Hs]; [left; lia|right]. by rewrite Ht1 by (done || by left).
Qed.
End mapping.

(** ** Giving pages back *)

Section freeing.
Variables (s : vm) (pd pgd : Z).
Hypothesis Hok : as_ok s pd.
Hypothesis Hwords : ∀ a, 0 ≤ pread (vm_mem s) a < 2 ^ 32.
(** The kernel has the page directory at [pgd]. *)
Hypothesis Hpgd : 0 ≤ pgd ∧ pgd + 4096 ≤ 2 ^ 32 ∧
  ∀ k, 0 ≤ k < 1024 → translate (vm_mem s) (vm_cr3 s) (pgd + 4 * k) = Some (pd * 4096 + 4 * k).

(** An entry with the present bit is no page address. *)
Lemma free_entry_noop e :
  0 ≤ e < 2 ^ 32 → entry_present e = true →
  (on_vm_phys (free_physical_page e) ;; mret tt) s = Ret tt s.
Proof.
  intros He Hp. assert (e mod 4096 ≠ 0) as Hm.
  { intros Hz. replace e with (e / 4096 * 4096 + 0) in Hp by dlia. by rewrite entry_present_odd in Hp. }
  assert (on_vm_phys (free_physical_page e) s = Ret SUCCESS s) as E.
  { unfold on_vm_phys. rewrite (zoom_Ret _ _ _ _ _ _ (free_physical_page_unaligned (vm_phys s) e He Hm)).
    by destruct s. }
  by run E.
Qed.

Lemma free_page_table_noop k :
  0 ≤ k < 768 → pde (vm_mem s) pd k ≠ 0 → free_page_table k s = Ret tt s.
Proof.
  intros Hk Hnz. pose proof Hok as [_ Hpd Hcr3 Hrec _ Htab _ Hent].
  destruct (Htab k) as (f & v & Hpde & Hf & Hv & Hodd & _ & _); [lia|done|].
  destruct (for_range_inv (λ _ s', s' = s) (λ j,
    p ← vread (page_directory_entry (k * PAGE_TABLE_SIZE + j));
    if negb (p =? NULL) then
      p ← vread (page_directory_entry (k * PAGE_TABLE_SIZE + j));
      on_vm_phys (free_physical_page p) ;; mret tt
    else mret tt) 0 1024 s) as (s' & E & ->); [unfold INT_MAX; lia|done| |exact E].
  intros j s' Hj ->. exists s. split; [|done].
  assert (vread (page_directory_entry (k * PAGE_TABLE_SIZE + j)) s
    = Ret (pread (vm_mem s) (f * 4096 + 4 * j)) s) as R.
  { unfold vread, PAGE_TABLE_SIZE. rewrite Hcr3.
    by rewrite (translate_pte _ pd k j f v) by (done || lia). }
  run R. destruct (Z.eqb_spec (pread (vm_mem s) (f * 4096 + 4 * j)) NULL) as [|Hz]; [done|]. cbn [negb].
  run R. apply free_entry_noop; [apply Hwords|].
  specialize (Hent k j Hk Hj Hnz). rewrite Hpde, entry_frame_eq in Hent by done. by destruct Hent.
Qed.

Lemma free_user_pages_noop : free_user_pages pgd s = Ret tt s.
Proof.
  pose proof Hok as [_ Hpd Hcr3 Hrec _ Htab _ Hent]. destruct Hpgd as (Hp1 & Hp2 & Hp3).
  destruct (for_range_inv (λ _ s', s' = s) (λ i,
    e ← vread (u32 (pgd + 4 * i));
    if negb (e =? NULL) then
      free_page_table i ;;
      e ← vread (u32 (pgd + 4 * i));
      on_vm_phys (free_physical_page e) ;; mret tt
    else mret tt) 0 767 s) as (s' & E & ->); [unfold INT_MAX; lia|done| |exact E].
  intros k s' Hk ->. exists s. split; [|done].
  assert (vread (u32 (pgd + 4 * k)) s = Ret (pde (vm_mem s) pd k) s) as R.
  { unfold vread. rewrite u32_small by lia. by rewrite Hp3 by lia. }
  run R. destruct (Z.eqb_spec (pde (vm_mem s) pd k) NULL) as [|Hz]; [done|]. cbn [negb].
  run (free_page_table_noop k ltac:(lia) Hz). run R. apply free_entry_noop; [apply Hwords|].
  destruct (Htab k) as (f & v & -> & _ & _ & Hodd & _); [lia|done|]. by rewrite entry_present_odd.
Qed.
End freeing.

(** ** Properties *)

Lemma i32_cases va : 0 ≤ va < 2 ^ 32 → i32 va = if decide (va < 2 ^ 31) then va else va - 2 ^ 32.
Proof. intros. unfold i32. change (2 ^ 31) with 2147483648. change (2 ^ 32) with 4294967296. case_decide; dlia. Qed.

(** C6.  [mmap] of a page-aligned range below the kernel, with enough physical
    pages: every page of the range is mapped afterwards, pages of it that
    were mapped keep their frames, the translation of every other address
    below the recursive window - the kernel's included - is unchanged, and
    the address space is well-formed again.  (A range across 2^31 is
    excluded: there the signed loop variable overflows.) *)
Theorem mmap_spec kernel_end fuel s pd va n :
  0 ≤ kernel_end < 2 ^ 32 → as_ok s pd → 0 ≤ va → va mod 4096 = 0 →
  va + Z.of_nat n * 4096 < KERNEL_VIRTUAL_OFFSET →
  va + Z.of_nat n * 4096 < 2 ^ 31 ∨ 2 ^ 31 ≤ va →
  (n < fuel)%nat → can_allocate kernel_end (2 * n) (vm_phys s) →
  ∃ s', mmap kernel_end fuel va (Z.of_nat n) s = Ret SUCCESS s' ∧ as_ok s' pd ∧
    (∀ x, va ≤ x < va + Z.of_nat n * 4096 → ∃ f, translate (vm_mem s') (vm_cr3 s') x = Some f) ∧
    (∀ x f, translate (vm_mem s) (vm_cr3 s) x = Some f → 0 ≤ x < RECURSIVE_PGD_ADDRESS →
       translate (vm_mem s') (vm_cr3 s') x = Some f) ∧
    (∀ x, 0 ≤ x < RECURSIVE_PGD_ADDRESS → ¬ (va ≤ x < va + Z.of_nat n * 4096) →
       translate (vm_mem s') (vm_cr3 s') x = translate (vm_mem s) (vm_cr3 s) x).
Proof.
  intros Hke Hok Hva Hal Hend Hsign Hf Hcan. unfold KERNEL_VIRTUAL_OFFSET in Hend.
  destruct (mmap_loop_ok kernel_end Hke n fuel s pd (va / 4096) (i32 va)) as (s' & E & Hok' & Hin & Hout);
    try done; try dlia.
  { unfold i32, u32. dlia. }
  { rewrite i32_cases by lia. case_decide; lia. }
  { rewrite i32_cases by lia. unfold INT_MAX. case_decide; lia. }
  replace ((va / 4096 + Z.of_nat n) * 4096) with (va + Z.of_nat n * 4096) in E by dlia.
  exists s'. split_and!; [|done| | |].
  - unfold mmap, PAGE_SIZE, KERNEL_VIRTUAL_OFFSET.
    rewrite (u32_small (Z.of_nat n * 4096)), (u32_small (va + _)) by lia.
    rewrite !Z.geb_leb, !(proj2 (Z.leb_gt 0xC0000000 _)) by lia. cbn [orb].
    rewrite (proj2 (Z.eqb_eq _ va)) by (apply PAGE_BOUNDARY_aligned; lia). cbn [negb]. by run E.
  - intros x Hx. apply Hin. dlia.
  - intros x f Hx Hr. rewrite Hout; [done|done|right; eauto].
  - intros x Hr Hx. apply Hout; [done|]. left. dlia.
Qed.

(** What [mmap] does not map.  A range that begins or ends, as computed,
    at or above the kernel, or is not aligned, is refused without effect.
    But the end is computed modulo 2^32: when it wraps around to the
    beginning or below it, the call reports success and maps nothing. *)
Theorem mmap_wraps kernel_end fuel s va num_pages :
  0 ≤ va < 2 ^ 32 → 0 ≤ num_pages < 2 ^ 32 →
  (KERNEL_VIRTUAL_OFFSET ≤ va ∨ KERNEL_VIRTUAL_OFFSET ≤ u32 (va + num_pages * 4096) ∨ va mod 4096 ≠ 0 →
   mmap kernel_end fuel va num_pages s = Ret INVALID_ARGUMENT s) ∧
  (va < KERNEL_VIRTUAL_OFFSET → va mod 4096 = 0 → u32 (va + num_pages * 4096) ≤ va →
   mmap kernel_end (S fuel) va num_pages s = Ret SUCCESS s).
Proof.
  intros Hva Hn. assert (u32 (va + u32 (num_pages * 4096)) = u32 (va + num_pages * 4096)) as Hu.
  { unfold u32. apply Zplus_mod_idemp_r. }
  unfold mmap, PAGE_SIZE. rewrite Hu, !Z.geb_leb. split.
  - intros Hor. destruct (Z.leb_spec KERNEL_VIRTUAL_OFFSET va); [done|]. cbn [orb].
    destruct (Z.leb_spec KERNEL_VIRTUAL_OFFSET (u32 (va + num_pages * 4096))); [done|].
    rewrite (proj2 (Z.eqb_neq _ va)); [done|]. rewrite PAGE_BOUNDARY_aligned by lia. lia.
  - intros Hk Hal Hw. rewrite !(proj2 (Z.leb_gt KERNEL_VIRTUAL_OFFSET _)) by lia. cbn [orb].
    rewrite (proj2 (Z.eqb_eq _ va)) by (apply PAGE_BOUNDARY_aligned; lia). cbn [negb mmap_loop].
    assert (u32 (i32 va) = va) as -> by (unfold u32, i32; dlia).
    by rewrite (proj2 (Z.ltb_ge va _)) by lia.
Qed.

(** The pages of an address space are never given back: the loops of
    [free_virtual_address_space] pass page table entries with their attribute
    bits to [free_physical_page], which refuses each of them; nothing at all
    changes. *)
Theorem free_user_pages_leaks s pd pgd :
  as_ok s pd → (∀ a, 0 ≤ pread (vm_mem s) a < 2 ^ 32) → 0 ≤ pgd → pgd + 4096 ≤ 2 ^ 32 →
  (∀ k, 0 ≤ k < 1024 → translate (vm_mem s) (vm_cr3 s) (pgd + 4 * k) = Some (pd * 4096 + 4 * k)) →
  free_user_pages pgd s = Ret tt s.
Proof. intros. by apply (free_user_pages_noop s pd pgd). Qed.

(** ** Witnesses *)

(** An address space with its directory in frame 0x139, one user page table in
    frame 0x138 and one user page, frame 0x137 at 0x400000. *)
Definition example_space_words : pmem :=
  <[0x139 * 4096 + 4 * 1023 := entry_rw 0x139]>
    (<[0x139 * 4096 + 4 := entry_user 0x138]> (<[0x138 * 4096 := entry_user 0x137]> ∅)).

Definition example_space : vm := Vm example_space_words (0x139 * 4096) example_booted.

Lemma example_space_pread a :
  pread example_space_words a =
    if decide (a = 0x139 * 4096 + 4 * 1023) then entry_rw 0x139
    else if decide (a = 0x139 * 4096 + 4) then entry_user 0x138
    else if decide (a = 0x138 * 4096) then entry_user 0x137 else 0.
Proof.
  unfold example_space_words, pread. repeat case_decide; subst; try reflexivity.
  by rewrite !lookup_insert_ne by done.
Qed.

Lemma example_space_pde k : 0 ≤ k < 1023 →
  pde example_space_words 0x139 k = if decide (k = 1) then entry_user 0x138 else 0.
Proof.
  intros Hk. unfold pde. rewrite example_space_pread. repeat case_decide; done || lia.
Qed.

Lemma example_space_ok : as_ok example_space 0x139.
Proof.
  split; cbn [vm_mem vm_cr3 vm_phys example_space].
  - apply example_booted_wf.
  - lia.
  - done.
  - reflexivity.
  - vm_compute. reflexivity.
  - intros k Hk. rewrite example_space_pde by done. case_decide; [|done]. intros _.
    exists 0x138, 7. split_and!; try done; try lia.
  - intros k1 k2 Hk1 Hk2 Hne. rewrite !example_space_pde by lia. repeat case_decide; done || lia.
  - intros k j Hk Hj. rewrite !example_space_pde by lia. case_decide; [|done]. intros _. cbv zeta.
    change (entry_frame (entry_user 0x138)) with (0x138 * 4096).
    rewrite example_space_pread. repeat case_decide; first [by left|by right].
Qed.

Definition example_three : physical_mem := state_after example_alloc example_two.

Lemma example_alloc_more :
  example_alloc example_two = Ret 0x142000 example_three ∧
  example_alloc example_three = Ret 0x143000 (state_after example_alloc example_three).
Proof. split; vm_compute; reflexivity. Qed.

Lemma can_allocate_next kernel_end n p a ph :
  allocate_physical_page kernel_end p = Ret a ph → a ≠ NULL → can_allocate kernel_end n ph →
  can_allocate kernel_end (S n) p.
Proof. intros. by exists a, ph. Qed.

Lemma example_can_allocate : can_allocate example_kernel_end 4 example_booted.
Proof.
  eapply can_allocate_next; [exact (proj1 example_alloc_runs)|discriminate|].
  eapply can_allocate_next; [exact (proj2 example_alloc_runs)|discriminate|].
  eapply can_allocate_next; [exact (proj1 example_alloc_more)|discriminate|].
  eapply can_allocate_next; [exact (proj2 example_alloc_more)|discriminate|exact I].
Qed.

Lemma mmap_spec_witness :
  ∃ s', mmap example_kernel_end 3 0x400000 2 example_space = Ret SUCCESS s' ∧
    translate (vm_mem s') (vm_cr3 s') 0x400123 = Some 0x137123 ∧
    is_Some (translate (vm_mem s') (vm_cr3 s') 0x401FFF).
Proof.
  destruct (mmap_spec example_kernel_end 3 example_space 0x139 0x400000 2) as (s' & E & _ & Hin & Hkeep & _).
  - split; [discriminate|reflexivity].
  - exact example_space_ok.
  - discriminate.
  - reflexivity.
  - reflexivity.
  - left. reflexivity.
  - lia.
  - exact example_can_allocate.
  - exists s'. split; [exact E|]. split.
    + apply Hkeep; [reflexivity|]. split; [discriminate|reflexivity].
    + apply Hin. simpl. lia.
Defined.

Lemma mmap_wraps_witness :
  mmap example_kernel_end 1 0xC0000000 1 example_space = Ret INVALID_ARGUMENT example_space ∧
  mmap example_kernel_end 1 0x400000 0xFFFFF example_space = Ret SUCCESS example_space.
Proof.
  split.
  - apply (mmap_wraps example_kernel_end 1 example_space 0xC0000000 1); [lia|lia|]. left. discriminate.
  - apply (mmap_wraps example_kernel_end 0 example_space 0x400000 0xFFFFF);
      [lia|lia|reflexivity|reflexivity|discriminate].
Defined.

Lemma free_user_pages_leaks_witness :
  free_user_pages RECURSIVE_PGT_ADDRESS example_space = Ret tt example_space.
Proof.
  apply (free_user_pages_leaks example_space 0x139).
  - exact example_space_ok.
  - intros a. cbn [vm_mem example_space]. rewrite example_space_pread. unfold entry_rw, entry_user.
    repeat case_decide; lia.
  - discriminate.
  - discriminate.
  - intros k Hk. rewrite <-(translate_pde example_space_words 0x139 k); [|lia|reflexivity|done].
    unfold page_directory_ptr_entry. rewrite u32_small by (unfold RECURSIVE_PGT_ADDRESS; lia). reflexivity.
Defined.
