(* ===== verification/Kmalloc.v ===== *)
(** * The kernel's allocator: [kernel/mm/kmalloc.c]

    A K&R free list threaded through the free blocks themselves.  A block
    header is two words, [next_free_block] at offset 0 and [block_size], in
    units of [sizeof(block_header_t)] = 8 bytes, at offset 4.  The model works
    on the bytes of memory: [free_blocks] is the address of
    [blocks_info.free_blocks], and a [block_header_t **] is an address of a
    word, as in the source.  Pages come from [PageSource], which [kspace]
    implements with [kernel/mm/kheap.c]. *)

From S2P Require Import Prelude Memory Chain Bitmap Phys Paging Kheap.

(** What the allocator asks of [kernel/mm/kheap.c]. *)
Class PageSource (S : Type) := { alloc_pages : Z → M S Z }.

Definition sizeof_block_header : Z := 8.
Definition next_free_block (block : Z) : Z := block.
Definition block_size (block : Z) : Z := u32 (block + 4).

Section kmalloc_c.
Context {S : Type} `{ByteStore S, PageSource S}.
Variable free_blocks : Z.

(** The loop without body that walks to the word that ends the list. *)
Fixpoint kfree_loop (fuel : nat) (current : Z) : M S Z :=
  match fuel with
  | O => mtimeout
  | Datatypes.S fuel' =>
      c ← rd32 current;
      if c =? NULL then mret current else kfree_loop fuel' (next_free_block c)
  end.

Definition kfree (fuel : nat) (address : Z) : M S unit :=
  let block := u32 (address - sizeof_block_header) in
  current ← kfree_loop fuel free_blocks;
  wr32 current block ;;
  c ← rd32 current;
  wr32 (next_free_block c) NULL.

Definition increase_heap_size (fuel : nat) (units : Z) : M S error_code :=
  let num_pages := u32 (units / PAGE_SIZE + 1) in
  block ← alloc_pages num_pages;
  if block =? NULL then mret FAILURE
  else
    wr32 (block_size block) (u32 (num_pages * PAGE_SIZE)) ;;
    n ← rd32 (block_size block);
    wr32 (block_size block) (u32 (n + sizeof_block_header - 1) / sizeof_block_header) ;;
    n ← rd32 (block_size block);
    wr32 (block_size block) (u32 (n - 1)) ;;
    kfree fuel (u32 (block + sizeof_block_header)) ;;
    mret SUCCESS.

(** The body of the loop's second [if], for a block that is large enough. *)
Definition kmalloc_take (current units : Z) : M S Z :=
  c ← rd32 current;
  n ← rd32 (block_size c);
  if n >? units then
    let free_block := u32 (c + n * sizeof_block_header - units * sizeof_block_header) in
    let free_block := u32 (free_block - sizeof_block_header) in
    wr32 (block_size free_block) units ;;
    wr32 (next_free_block free_block) NULL ;;
    c ← rd32 current;
    n ← rd32 (block_size c);
    wr32 (block_size c) (u32 (n - units)) ;;
    mret (u32 (free_block + sizeof_block_header))
  else
    next ← rd32 (next_free_block c);
    wr32 current next ;;
    mret (u32 (c + sizeof_block_header)).

(** [fuel] bounds the passes of the loop, [kfuel] those of [kfree]'s. *)
Fixpoint kmalloc_loop (fuel kfuel : nat) (current units : Z) : M S Z :=
  match fuel with
  | O => mtimeout
  | Datatypes.S fuel' =>
      c ← rd32 current;
      e ← (if c =? NULL then increase_heap_size kfuel units else mret SUCCESS);
      if bool_decide (e = SUCCESS) then
        c ← rd32 current;
        n ← rd32 (block_size c);
        if n >=? units then kmalloc_take current units
        else kmalloc_loop fuel' kfuel (next_free_block c) units
      else mret NULL
  end.

Definition kmalloc (fuel kfuel : nat) (size : Z) : M S Z :=
  let units := u32 (size + sizeof_block_header - 1) / sizeof_block_header in
  kmalloc_loop fuel kfuel free_blocks units.
End kmalloc_c.

(** Apart from taking pages, the allocator works by stores. *)
Section storing.
Context {S : Type} `{ByteStore S, PageSource S} (free_blocks : Z) (s0 : S).

Lemma kfree_storing fuel address : preserves (stores s0) (kfree free_blocks fuel address).
Proof.
  unfold kfree. apply preserves_bind; [|preserve]. generalize free_blocks. clear free_blocks.
  induction fuel as [|fuel IH]; intros c; cbn [kfree_loop]; preserve.
Qed.

Lemma kmalloc_take_storing current units : preserves (stores s0) (kmalloc_take current units).
Proof. unfold kmalloc_take. preserve. Qed.
End storing.
#[export] Hint Resolve kfree_storing kmalloc_take_storing : preserves.

Lemma increase_heap_size_storing {S} `{ByteStore S, PageSource S} free_blocks fuel units (s s1 s' : S) a e :
  alloc_pages (u32 (units / PAGE_SIZE + 1)) s = Ret a s1 →
  increase_heap_size free_blocks fuel units s = Ret e s' → stores s1 s'.
Proof.
  intros E1. unfold increase_heap_size. cbv zeta. rewrite (bind_Ret _ _ _ _ _ E1).
  match goal with |- ?m s1 = _ → _ => assert (preserves (stores s1) m) as Hk by preserve end.
  apply Hk. apply rtc_refl.
Qed.

(** ** The free list as a data structure

    [free_chain s c L]: from the word at [c] on, the list has the blocks [L],
    pairs of an address and a size in units. *)

Abbreviation free_chain := (chain next_free_block (λ a, a + 4)).
Abbreviation last_free := (last_cell next_free_block).

Lemma header_layout a : next_free_block a = a ∧ a + 4 = a + 4 ∨ next_free_block a = a + 4 ∧ a + 4 = a.
Proof. by left. Qed.

Lemma block_size_eq a : 0 ≤ a < 2 ^ 32 - 8 → block_size a = a + 4.
Proof. intros. unfold block_size. apply u32_small. lia. Qed.

(** ** The operations on a well-formed list *)

Section operations.
Context {S : Type} `{ByteStoreLaws S, !PageSource S}.
Implicit Types s : S.
Variable free_blocks : Z.

Lemma kfree_loop_ok fuel s c L :
  free_chain s c L → (length L < fuel)%nat → kfree_loop fuel c s = Ret (last_free c L) s.
Proof.
  revert c L. induction fuel as [|fuel IH]; intros c L HL Hf; [lia|]. simpl kfree_loop.
  destruct L as [|[a n] L]; simpl in *.
  - run (rd32_Ret _ _ _ HL). done.
  - destruct HL as (H1 & H2 & _ & _ & _ & HL). run (rd32_Ret _ _ _ H1).
    rewrite (proj2 (Z.eqb_neq a NULL)) by (unfold NULL; lia). apply IH; [done|lia].
Qed.

(** [kfree] puts the block at the end of the list; it touches two words. *)
Lemma kfree_ok fuel s L b n :
  free_chain s free_blocks L → (length L < fuel)%nat → 0 < b < 2 ^ 32 - 8 →
  cell_apart free_blocks [(b, n)] → node_apart b L →
  mapped s b 4 → get32 s (b + 4) = Some n →
  ∃ s', kfree free_blocks fuel (b + 8) s = Ret tt s' ∧
    free_chain s' free_blocks (L ++ [(b, n)]) ∧
    (∀ x, ¬ (last_free free_blocks L ≤ x < last_free free_blocks L + 4) →
          ¬ (b ≤ x < b + 4) → get8 s' x = get8 s x) ∧
    (∀ x k, mapped s x k → mapped s' x k).
Proof.
  intros HL Hf Hb Hc Hh Hm Hn. unfold kfree, sizeof_block_header.
  replace (b + 8 - 8) with b by lia. rewrite (u32_small b) by lia. cbv zeta.
  run (kfree_loop_ok fuel s free_blocks L HL Hf).
  set (l := last_free free_blocks L).
  assert (l + 4 ≤ b ∨ b + 8 ≤ l) as Hlb.
  { apply Forall_cons in Hc as [Hc _]. simpl in Hc.
    assert (b + 8 ≤ l ∨ l + 4 ≤ b); [|lia]. apply (last_cell_apart _ _ header_layout); [lia|by apply node_bytes_apart]. }
  pose proof (chain_last _ _ _ _ _ HL) as Hl. fold l in Hl.
  destruct (wr32_Ret s l b) as (s1 & E1 & W1); [by eapply get32_mapped|]. run E1.
  pose proof (stored32_same _ _ _ _ W1) as Hl1. rewrite u32_small in Hl1 by lia.
  run (rd32_Ret _ _ _ Hl1). unfold next_free_block.
  destruct (wr32_Ret s1 b NULL) as (s2 & E2 & W2); [by eapply stored32_mapped|].
  exists s2. split; [exact E2|].
  assert (∀ x, ¬ (l ≤ x < l + 4) → ¬ (b ≤ x < b + 4) → get8 s2 x = get8 s x) as Hs.
  { intros x Hx1 Hx2. rewrite (stored32_same_but _ _ _ _ W2 x Hx2).
    by apply (stored32_same_but _ _ _ _ W1). }
  split_and!; [|exact Hs|intros; do 2 (eapply stored32_mapped; [done|]); done].
  apply (chain_append _ _ header_layout s s2); try done.
  - intros x Hx1 Hx2. apply Hs; [done|lia].
  - fold l. rewrite (stored32_other _ _ _ _ l W2); [done|lia].
  - exact (stored32_same _ _ _ _ W2).
  - rewrite (stored32_other _ _ _ _ _ W2), (stored32_other _ _ _ _ _ W1) by lia. done.
Qed.

(** The walk ends at the first block that is large enough. *)
Lemma kmalloc_loop_walk fuel kfuel s c L1 a n L2 units :
  free_chain s c (L1 ++ (a, n) :: L2) → Forall (λ b, b.2 < units) L1 → units ≤ n →
  (length L1 < fuel)%nat →
  kmalloc_loop free_blocks fuel kfuel c units s = kmalloc_take (last_free c L1) units s.
Proof.
  intros HL HF Hn. revert fuel c HL. induction HF as [|[a0 n0] L1 H0' HF IH];
    intros [|fuel] c HL Hf; simpl in Hf; try lia; simpl in HL; simpl kmalloc_loop.
  - destruct HL as (E1 & E2 & E3 & _). run (rd32_Ret _ _ _ E1).
    rewrite (proj2 (Z.eqb_neq a NULL)) by (unfold NULL; lia). rewrite bind_ret_l.
    rewrite bool_decide_eq_true_2 by done.
    run (rd32_Ret _ _ _ E1). rewrite block_size_eq by lia. run (rd32_Ret _ _ _ E3).
    rewrite Z.geb_leb. by rewrite (proj2 (Z.leb_le units n)) by lia.
  - destruct HL as (E1 & E2 & E3 & _ & _ & HL). simpl in H0'. run (rd32_Ret _ _ _ E1).
    rewrite (proj2 (Z.eqb_neq a0 NULL)) by (unfold NULL; lia). rewrite bind_ret_l.
    rewrite bool_decide_eq_true_2 by done.
    run (rd32_Ret _ _ _ E1). rewrite block_size_eq by lia. run (rd32_Ret _ _ _ E3).
    rewrite Z.geb_leb. rewrite (proj2 (Z.leb_gt units n0)) by lia.
    apply IH; [done|lia].
Qed.

Lemma kmalloc_units size : 0 ≤ size < 2 ^ 32 - 8 →
  u32 (size + sizeof_block_header - 1) / sizeof_block_header = (size + 7) / 8.
Proof. intros. unfold sizeof_block_header. rewrite u32_small by lia. f_equal. lia. Qed.

(** A block that fits exactly is unlinked. *)
Lemma kmalloc_take_exact s c L1 a n L2 :
  free_chain s c (L1 ++ (a, n) :: L2) →
  ∃ s', kmalloc_take (last_free c L1) n s = Ret (a + 8) s' ∧
    free_chain s' c (L1 ++ L2) ∧ same_but (last_free c L1) 4 s s'.
Proof.
  intros HL. assert (∃ v, get32 s (last_free c L1) = Some a ∧ 0 < a < 2 ^ 32 - 8 ∧
    get32 s (a + 4) = Some n ∧ get32 s a = Some v) as (v & Ec & Ha & En & Ev).
  { clear -HL. revert c HL. induction L1 as [|[a0 n0] L1 IH]; intros c HL; simpl in *.
    - destruct HL as (E1 & E2 & E3 & _ & _ & HL).
      destruct L2 as [|[a2 n2] L2]; simpl in HL; [by exists NULL|].
      destruct HL as (E4 & _). by exists a2.
    - destruct HL as (_ & _ & _ & _ & _ & HL). by apply IH. }
  unfold kmalloc_take. run (rd32_Ret _ _ _ Ec). rewrite block_size_eq by lia. run (rd32_Ret _ _ _ En).
  rewrite Z.gtb_ltb, Z.ltb_irrefl. unfold next_free_block. run (rd32_Ret _ _ _ Ev).
  destruct (wr32_Ret s (last_free c L1) v) as (s1 & E1 & W1); [by eapply get32_mapped|]. run E1.
  exists s1. unfold sizeof_block_header. rewrite u32_small by lia. split; [done|].
  pose proof (stored32_same_but _ _ _ _ W1) as Hs. split; [|exact Hs].
  apply (chain_unlink _ _ header_layout s s1 c L1 a n L2); [done|done|].
  rewrite (stored32_same _ _ _ _ W1), u32_small; [done|by eapply get32_range].
Qed.

(** The first three stores of a split: the header of the new block. *)
Lemma write_header_ok s h units :
  0 < h < 2 ^ 32 - 8 → mapped s h 8 → 0 ≤ units < 2 ^ 32 →
  ∃ s', (wr32 (block_size h) units ;; wr32 (next_free_block h) NULL) s = Ret tt s' ∧
    same_but h 8 s s' ∧ get32 s' h = Some NULL ∧ get32 s' (h + 4) = Some units ∧
    (∀ x k, mapped s x k → mapped s' x k).
Proof.
  intros Hh Hm Hu. rewrite block_size_eq by lia. unfold next_free_block.
  destruct (wr32_Ret s (h + 4) units) as (s1 & E1 & W1); [apply (mapped_sub s h 8); [done|lia..]|].
  run E1.
  destruct (wr32_Ret s1 h NULL) as (s2 & E2 & W2).
  { eapply stored32_mapped; [done|]. apply (mapped_sub s h 8); [done|lia..]. }
  exists s2. split; [exact E2|]. split_and!.
  - intros x Hx. rewrite (stored32_same_but _ _ _ _ W2), (stored32_same_but _ _ _ _ W1) by lia. done.
  - exact (stored32_same _ _ _ _ W2).
  - rewrite (stored32_other _ _ _ _ _ W2) by lia. rewrite (stored32_same _ _ _ _ W1).
    by rewrite u32_small.
  - intros x k Hx. by do 2 (eapply stored32_mapped; [done|]).
Qed.

(** [kmalloc_take] of a larger block, up to the store of the remaining size. *)
Lemma kmalloc_take_split_eq s cur a n units h :
  get32 s cur = Some a → get32 s (a + 4) = Some n → 0 < a → a + 8 * n + 8 < 2 ^ 32 →
  0 ≤ units < n → h = a + 8 * (n - units - 1) → mapped s h 8 → 0 < h →
  cur + 4 ≤ h ∨ h + 8 ≤ cur →
  ∃ s1, same_but h 8 s s1 ∧ get32 s1 h = Some NULL ∧ get32 s1 (h + 4) = Some units ∧
    (∀ x k, mapped s x k → mapped s1 x k) ∧
    kmalloc_take cur units s
    = (n' ← rd32 (a + 4); wr32 (a + 4) (u32 (n' - units)) ;; mret (h + 8)) s1.
Proof.
  intros Ec En Ha Hr Hu -> Hm Hh Hap.
  set (h := a + 8 * (n - units - 1)) in *.
  unfold kmalloc_take. run (rd32_Ret _ _ _ Ec). rewrite block_size_eq by lia. run (rd32_Ret _ _ _ En).
  rewrite Z.gtb_ltb, (proj2 (Z.ltb_lt units n)) by lia. unfold sizeof_block_header.
  assert (u32 (a + n * 8 - units * 8) = h + 8) as -> by (unfold h; rewrite u32_small; lia).
  assert (u32 (h + 8 - 8) = h) as -> by (unfold h in *; rewrite u32_small; lia). cbv zeta.
  destruct (write_header_ok s h units) as (s1 & E1 & Hs & Hz & Hsz & Hmp);
    [unfold h in *; lia|done|lia|].
  exists s1. split_and!; [done..|].
  apply bind_Ret_inv in E1 as ([] & s0 & E0 & E1). run E0. run E1.
  assert (get32 s1 cur = Some a) as Ec1.
  { rewrite <-Ec. apply get32_ext. intros x Hx. apply Hs. lia. }
  run (rd32_Ret _ _ _ Ec1). rewrite block_size_eq by lia. rewrite u32_small by (unfold h; lia). done.
Qed.

(** The bytes of block [(a, n)] are apart from the head and the other headers. *)
Definition block_apart (a n : Z) (L : list (Z * Z)) : Prop :=
  (free_blocks + 4 ≤ a ∨ a + 8 * n ≤ free_blocks) ∧
  bytes_apart a (8 * n) L.

(** A larger block, of at least two units more, gives up its tail. *)
Lemma kmalloc_take_split_ok s L1 a n L2 units :
  free_chain s free_blocks (L1 ++ (a, n) :: L2) → 0 ≤ units → units + 2 ≤ n →
  a + 8 * n + 8 < 2 ^ 32 → block_apart a n (L1 ++ L2) → mapped s a (8 * n) →
  ∃ s', kmalloc_take (last_free free_blocks L1) units s = Ret (a + 8 * (n - units)) s' ∧
    free_chain s' free_blocks (L1 ++ (a, n - units) :: L2) ∧
    (∀ x k, mapped s x k → mapped s' x k) ∧
    (∀ x, ¬ (a ≤ x < a + 8 * n) → get8 s' x = get8 s x).
Proof.
  intros HL Hu Hn Hr [Hb1 Hb2] Hm.
  destruct (chain_node _ _ header_layout _ _ _ _ _ _ HL) as (Ec & Ha & En & _ & Hn').
  set (h := a + 8 * (n - units - 1)). assert (a + 8 ≤ h ∧ h + 8 ≤ a + 8 * n) by (unfold h; lia).
  assert (h + 8 ≤ last_free free_blocks L1 ∨ last_free free_blocks L1 + 4 ≤ h) as Hlh.
  { apply (last_cell_apart _ _ header_layout); [lia|]. apply Forall_app in Hb2 as [Hb2 _].
    apply (bytes_apart_sub a (8 * n)); [done|lia..]. }
  destruct (kmalloc_take_split_eq s (last_free free_blocks L1) a n units h)
    as (s1 & W1 & Z1 & U1 & M1 & E1); try done; [lia|lia|apply (mapped_sub s a (8 * n)); [done|lia..]|lia|lia|].
  assert (get32 s1 (a + 4) = Some n) as En1.
  { rewrite <-En. apply get32_ext. intros x Hx. apply W1. lia. }
  rewrite E1. run (rd32_Ret _ _ _ En1). rewrite u32_small by lia.
  destruct (wr32_Ret s1 (a + 4) (n - units)) as (s2 & E2 & W2); [by eapply get32_mapped|].
  run E2. exists s2.
  assert (∀ y, ¬ (a + 4 ≤ y < a + 8) → ¬ (h ≤ y < h + 8) → get8 s2 y = get8 s y) as Hs.
  { intros y Hy1 Hy2. rewrite (stored32_same_but _ _ _ _ W2) by lia. by apply W1. }
  split_and!.
  - f_equal. unfold h. lia.
  - apply (chain_set_data _ _ header_layout s s2 free_blocks L1 a n (n - units) L2 h 8); try done;
      [intros y Hy1 Hy2; apply Hs; lia| |lia|lia|].
    + rewrite (stored32_same _ _ _ _ W2), u32_small; [done|lia].
    + apply (bytes_apart_sub a (8 * n)); [done|lia..].
  - intros x k Hx. eapply stored32_mapped; [done|]. by apply M1.
  - intros x Hx. apply Hs; lia.
Qed.

(** New pages become one block; its size counts the units less the header. *)
Lemma increase_heap_size_ok fuel s units a s1 L np :
  0 ≤ units < 2 ^ 32 → np = units / 4096 + 1 →
  alloc_pages np s = Ret a s1 → 0 < a → a + np * 4096 < 2 ^ 32 → mapped s1 a (np * 4096) →
  free_chain s1 free_blocks L → (length L < fuel)%nat →
  cell_apart free_blocks [(a, np)] → node_apart a L →
  ∃ s', increase_heap_size free_blocks fuel units s = Ret SUCCESS s' ∧
    free_chain s' free_blocks (L ++ [(a, np * 512 - 1)]) ∧
    (∀ x, ¬ (last_free free_blocks L ≤ x < last_free free_blocks L + 4) →
          ¬ (a ≤ x < a + 8) → get8 s' x = get8 s1 x) ∧
    (∀ x k, mapped s1 x k → mapped s' x k).
Proof.
  intros Hu Hnp E Ha Hr Hm HL Hf Hc Hh. assert (0 < np ≤ 1048576) by dlia.
  assert (block_size a = a + 4) as Hbs by (apply block_size_eq; lia).
  assert (∀ s0, mapped s0 (a + 4) 4 → ∀ v, ∃ s', wr32 (block_size a) v s0 = Ret tt s' ∧
    same_but (a + 4) 4 s0 s' ∧ get32 s' (a + 4) = Some (u32 v) ∧ mapped s' (a + 4) 4) as Hstep.
  { intros s0 Hm0 v. rewrite Hbs. destruct (wr32_Ret s0 (a + 4) v Hm0) as (s' & E' & W).
    exists s'. split_and!; [done|by eapply stored32_same_but|by eapply stored32_same|].
    by eapply stored32_mapped. }
  destruct (Hstep s1) with (v := np * 4096) as (s2 & E2 & W2 & G2 & M2);
    [apply (mapped_sub s1 a (np * 4096)); [done|lia..]|].
  rewrite u32_small in G2 by lia.
  destruct (Hstep s2 M2 (np * 512)) as (s3 & E3 & W3 & G3 & M3). rewrite u32_small in G3 by lia.
  destruct (Hstep s3 M3 (np * 512 - 1)) as (s4 & E4 & W4 & G4 & M4). rewrite u32_small in G4 by lia.
  assert (same_but (a + 4) 4 s1 s4) as W.
  { intros x Hx. by rewrite W4, W3, W2. }
  assert (free_chain s4 free_blocks L) as HL4.
  { apply Forall_cons in Hc as [Hc _]. simpl in Hc. apply (chain_frame _ _ s1 s4).
    - done.
    - apply get32_ext. intros x Hx. apply W. lia.
    - apply (same_but_nodes _ _ header_layout s1 s4 (a + 4) 4); [done|].
      apply (bytes_apart_sub a 8); [by apply node_bytes_apart|lia..]. }
  assert (∀ x k, mapped s1 x k → mapped s4 x k) as Hmp.
  { intros x k Hx b Hb. destruct (decide (a + 4 ≤ b < a + 4 + 4)); [by apply M4|].
    rewrite W by done. by apply Hx. }
  destruct (kfree_ok fuel s4 L a (np * 512 - 1)) as (s5 & E5 & HL5 & W5 & M5); try done; [lia| | |].
  { apply Forall_singleton. apply Forall_cons in Hc as [Hc _]. exact Hc. }
  { apply (mapped_sub s4 a (np * 4096)); [by apply Hmp|lia..]. }
  exists s5. split_and!; [|done| |by auto].
  - unfold increase_heap_size, PAGE_SIZE, sizeof_block_header.
    rewrite <-Hnp, (u32_small np) by lia. cbv zeta. run E.
    rewrite (proj2 (Z.eqb_neq a NULL)) by (unfold NULL; lia).
    rewrite (u32_small (np * 4096)) by lia. run E2. rewrite Hbs in *. run (rd32_Ret _ _ _ G2).
    rewrite (u32_small (np * 4096 + 8 - 1)) by lia.
    replace ((np * 4096 + 8 - 1) / 8) with (np * 512) by dlia. run E3. run (rd32_Ret _ _ _ G3).
    rewrite (u32_small (np * 512 - 1)) by lia. run E4. rewrite (u32_small (a + 8)) by lia.
    by run E5.
  - intros x Hx1 Hx2. rewrite W5 by (done || lia). apply W. lia.
Qed.
(** A split, and then the rest of the block. *)
Lemma kmalloc_twice_ok fuel kfuel s a u1 u2 :
  free_chain s free_blocks [(a, u1 + u2)] →
  1 ≤ u1 → 2 ≤ u2 → a + 8 * (u1 + u2) + 8 < 2 ^ 32 → mapped s a (8 * (u1 + u2)) →
  free_blocks + 4 ≤ a ∨ a + 8 * (u1 + u2) ≤ free_blocks → (0 < fuel)%nat →
  ∃ s1 s2,
    kmalloc free_blocks fuel kfuel (8 * u1) s = Ret (a + 8 * u2) s1 ∧
    kmalloc free_blocks fuel kfuel (8 * u2) s1 = Ret (a + 8) s2.
Proof.
  intros HL H1 H2 Hr Hm Hfb Hf.
  assert (0 < a) by (simpl in HL; lia).
  destruct (kmalloc_take_split_ok s [] a (u1 + u2) [] u1) as (s1 & E1 & HL1 & _ & _);
    [done|lia|lia|done|by split; [|constructor]|done|].
  replace (u1 + u2 - u1) with u2 in * by lia. simpl last_cell in E1.
  destruct (kmalloc_take_exact s1 free_blocks [] a u2 [] HL1) as (s2 & E2 & _ & _).
  exists s1, s2. unfold kmalloc. rewrite !kmalloc_units by lia.
  replace ((8 * u1 + 7) / 8) with u1 by dlia. replace ((8 * u2 + 7) / 8) with u2 by dlia.
  split.
  - by rewrite (kmalloc_loop_walk _ _ _ _ [] a (u1 + u2) []) by (done || constructor || lia).
  - by rewrite (kmalloc_loop_walk _ _ _ _ [] a u2 []) by (done || constructor || lia).
Qed.
End operations.

(** ** The kernel's address space, as far as the allocator uses it

    The static data of the kernel and the pages of the kernel heap whose
    entry in the heap's page table is present.  The identity map of the low
    8 MB, which the boot code leaves in place, is not part of it: an access
    there goes through a null or stray pointer.  Different pages of the heap
    have different frames ([Phys.held_pages_distinct]), so contents are kept
    by virtual address. *)

Record kspace := KSpace { ks_heap : kheap; ks_bytes : gmap Z Z }.

Definition ks_mapped (s : kspace) (a : Z) : bool :=
  ((KERNEL_VIRTUAL_OFFSET <=? a) && (a <? KHEAP_BEGIN_ADDRESS))
  || ((KHEAP_BEGIN_ADDRESS <=? a) && (a <? KHEAP_END_ADDRESS)
      && Z.testbit (table_entry (kheap_page_table (ks_heap s)) (ADDRESS_TO_PAGE_TABLE_ENTRY a)) 0).

#[export] Instance kspace_store : ByteStore kspace := {
  get8 s a := if ks_mapped s a then Some (u8 (default 0 (ks_bytes s !! a))) else None;
  set8 s a v := if ks_mapped s a then Some (KSpace (ks_heap s) (<[a := u8 v]> (ks_bytes s))) else None
}.

#[export] Instance kspace_laws : ByteStoreLaws kspace.
Proof.
  split; unfold get8, set8; simpl.
  - intros s a v. destruct (ks_mapped s a); [|done]. intros [= <-]. apply u8_range.
  - intros s a v. destruct (ks_mapped s a); [eauto|by intros [? ?]].
  - intros s a v s'. destruct (ks_mapped s a); [eauto|done].
  - intros s a v s' b. destruct (ks_mapped s a) eqn:E; [|done]. intros [= <-].
    change (ks_mapped (KSpace (ks_heap s) (<[a := u8 v]> (ks_bytes s))) b) with (ks_mapped s b).
    cbn [ks_bytes]. destruct (decide (b = a)) as [->|Hne].
    + rewrite lookup_insert_eq, E. simpl. by rewrite (u8_small (u8 v)) by apply u8_range.
    + by rewrite lookup_insert_ne.
Qed.

Definition on_ks_heap {A} : M kheap A → M kspace A :=
  zoom ks_heap (λ h s, KSpace h (ks_bytes s)).

Lemma on_ks_heap_Ret {A} (m : M kheap A) h b a h' :
  m h = Ret a h' → on_ks_heap m (KSpace h b) = Ret a (KSpace h' b).
Proof. intros E. unfold on_ks_heap. exact (zoom_Ret ks_heap _ m (KSpace h b) a h' E). Qed.

(** The page source of the running kernel. *)
Definition kspace_pages (no_return : list Z → Z → Z) (kernel_end : Z) : PageSource kspace := {|
  alloc_pages n := on_ks_heap (alloc_kheap_pages no_return kernel_end n)
|}.

Lemma ks_get8 s a : ks_mapped s a = true → get8 s a = Some (u8 (default 0 (ks_bytes s !! a))).
Proof. intros E. unfold get8. simpl. by rewrite E. Qed.

(** A word of the kernel's static data does not depend on the heap. *)
Lemma ks_static_word h h' m c : KERNEL_VIRTUAL_OFFSET ≤ c → c + 4 ≤ KHEAP_BEGIN_ADDRESS →
  get32 (KSpace h m) c = get32 (KSpace h' m) c.
Proof.
  intros H1 H2. apply get32_ext. intros b Hb. unfold get8. simpl. unfold ks_mapped.
  rewrite (proj2 (Z.leb_le _ b)), (proj2 (Z.ltb_lt b _)) by lia. done.
Qed.

Lemma ks_heap_page h m p f : 0 ≤ p < 1024 → table_entry (kheap_page_table h) p = entry_rw f →
  mapped (KSpace h m) (KHEAP_BEGIN_ADDRESS + p * 4096) 4096.
Proof.
  intros Hp He b Hb. rewrite ks_get8; [eauto|]. unfold ks_mapped. simpl.
  assert (KHEAP_BEGIN_ADDRESS = 0xC0800000) as HB by reflexivity.
  assert (KHEAP_END_ADDRESS = 0xC0C00000) as HE by reflexivity.
  assert (ADDRESS_TO_PAGE_TABLE_ENTRY b = p) as ->.
  { unfold ADDRESS_TO_PAGE_TABLE_ENTRY. rewrite land_0x3ff, shiftr_12, u32_small by lia.
    rewrite HB in Hb. dlia. }
  rewrite He. unfold entry_rw. rewrite ?Z.bit0_odd.
  replace (f * 4096 + 3) with (1 + 2 * (f * 2048 + 1)) by lia.
  rewrite Z.odd_add_mul_2. simpl.
  rewrite (proj2 (Z.leb_le KHEAP_BEGIN_ADDRESS b)), (proj2 (Z.ltb_lt b KHEAP_END_ADDRESS)) by lia.
  by rewrite orb_true_r.
Qed.

(** ** Properties *)

Section properties.
Context {S : Type} `{ByteStoreLaws S, !PageSource S}.
Variable free_blocks : Z.
Implicit Types s : S.


(** A block with exactly one unit more than asked for.  The header of the
    new block then falls on the header of the old one: the block returned is
    still in the list, with size 0, and all the blocks after it are lost. *)
Theorem kmalloc_drops_list fuel kfuel s L1 a L2 size units :
  free_chain s free_blocks (L1 ++ (a, units + 1) :: L2) →
  0 ≤ size < 2 ^ 32 - 8 → units = (size + 7) / 8 →
  Forall (λ b, b.2 < units) L1 → (length L1 < fuel)%nat → a + 8 * units + 16 < 2 ^ 32 →
  ∃ s', kmalloc free_blocks fuel kfuel size s = Ret (a + 8) s' ∧
    free_chain s' free_blocks (L1 ++ [(a, 0)]).
Proof.
  intros HL Hsz Hun HF Hf Hr.
  unfold kmalloc. rewrite kmalloc_units, <-Hun by done.
  rewrite (kmalloc_loop_walk _ _ _ _ _ L1 a (units + 1) L2) by (done || lia).
  destruct (chain_node _ _ header_layout _ _ _ _ _ _ HL) as (Ec & Ha & En & Hm & Hn).
  pose proof (chain_app_apart _ _ _ _ _ _ HL) as (_ & Hc2 & Hc3).
  apply Forall_cons in Hc2 as [Hc2 _], Hc3 as [Hc3 _]. simpl in Hc2, Hc3.
  destruct (kmalloc_take_split_eq s (last_free free_blocks L1) a (units + 1) units a)
    as (s1 & W1 & Z1 & U1 & M1 & E1); try done; [lia|lia|dlia|lia|lia|].
  rewrite E1. run (rd32_Ret _ _ _ U1). rewrite Z.sub_diag.
  destruct (wr32_Ret s1 (a + 4) (u32 0)) as (s2 & E2 & W2); [by eapply get32_mapped|].
  run E2. exists s2. split; [done|].
  apply (chain_truncate _ _ header_layout s s2 free_blocks L1 a (units + 1) L2); [done|..].
  - intros y Hy. rewrite (stored32_same_but _ _ _ _ W2) by lia. apply W1. lia.
  - unfold next_free_block. rewrite (stored32_other _ _ _ _ a W2) by lia. done.
  - exact (stored32_same _ _ _ _ W2).
Qed.

(** C31. Giving a block back and asking for its size again: [kfree] puts the
    block at the end of the free list and writes two words; when no other
    free block is large enough, [kmalloc] then returns the same block, and the
    free list is what it was before. *)
Theorem kfree_kmalloc_roundtrip fuel kfuel s L b n size :
  free_chain s free_blocks L → (length L < fuel)%nat → 0 < b < 2 ^ 32 - 8 →
  cell_apart free_blocks [(b, n)] → node_apart b L → mapped s b 4 → get32 s (b + 4) = Some n →
  0 ≤ size < 2 ^ 32 - 8 → n = (size + 7) / 8 → Forall (λ c, c.2 < n) L →
  ∃ s1 s2, kfree free_blocks fuel (b + 8) s = Ret tt s1 ∧ free_chain s1 free_blocks (L ++ [(b, n)]) ∧
    kmalloc free_blocks fuel kfuel size s1 = Ret (b + 8) s2 ∧ free_chain s2 free_blocks L ∧
    (∀ x, ¬ (last_free free_blocks L ≤ x < last_free free_blocks L + 4) →
          ¬ (b ≤ x < b + 4) → get8 s2 x = get8 s x).
Proof.
  intros HL Hf Hb Hc Hn Hm Hg Hsz -> HF.
  destruct (kfree_ok free_blocks fuel s L b ((size + 7) / 8)) as (s1 & E1 & HL1 & Hs1 & _); [done..|].
  destruct (kmalloc_take_exact s1 free_blocks L b ((size + 7) / 8) [] HL1) as (s2 & E2 & HL2 & Hs2).
  rewrite app_nil_r in HL2. exists s1, s2. split_and!; [done|done| |done|].
  - unfold kmalloc. rewrite kmalloc_units by done. by rewrite (kmalloc_loop_walk _ _ _ s1 _ L b ((size + 7) / 8) []).
  - intros x Hx1 Hx2. rewrite (Hs2 x Hx1). by apply Hs1.
Qed.

(** Two live allocations that share memory.  When a block is split and
    its remainder is then taken whole, both calls succeed, and the last eight
    bytes of the second allocation are the first eight of the first: the unit
    of the block's own header is not counted when its tail is given away. *)
Theorem kmalloc_overlap fuel kfuel s a u1 u2 :
  free_chain s free_blocks [(a, u1 + u2)] →
  1 ≤ u1 → 2 ≤ u2 → a + 8 * (u1 + u2) + 8 < 2 ^ 32 → mapped s a (8 * (u1 + u2)) →
  free_blocks + 4 ≤ a ∨ a + 8 * (u1 + u2) ≤ free_blocks → (0 < fuel)%nat →
  ∃ p1 s1 p2 s2,
    kmalloc free_blocks fuel kfuel (8 * u1) s = Ret p1 s1 ∧
    kmalloc free_blocks fuel kfuel (8 * u2) s1 = Ret p2 s2 ∧
    p2 < p1 ∧ p2 + 8 * u2 = p1 + 8.
Proof.
  intros HL H1 H2 Hr Hm Hfb Hf.
  destruct (kmalloc_twice_ok free_blocks fuel kfuel s a u1 u2) as (s1 & s2 & E1 & E2); [done..|].
  exists (a + 8 * u2), s1, (a + 8), s2. split_and!; [done|done|lia|lia].
Qed.

(** Growth counts units as if they were bytes: for requests of 512 units
    (4089 bytes) or more, the block [increase_heap_size] adds, though it
    succeeds, is smaller than the request it was made for. *)
Theorem increase_heap_size_too_small fuel s size a s1 L units :
  0 ≤ size < 2 ^ 32 - 8 → units = (size + 7) / 8 → 512 ≤ units →
  let np := units / 4096 + 1 in
  alloc_pages np s = Ret a s1 → 0 < a → a + np * 4096 < 2 ^ 32 → mapped s1 a (np * 4096) →
  free_chain s1 free_blocks L → (length L < fuel)%nat →
  free_blocks + 4 ≤ a ∨ a + 8 ≤ free_blocks → node_apart a L →
  ∃ n s', increase_heap_size free_blocks fuel units s = Ret SUCCESS s' ∧
    free_chain s' free_blocks (L ++ [(a, n)]) ∧ n < units ∧ a + 8 + 8 * n = a + np * 4096.
Proof.
  intros Hsz Hun Hbig np E Ha Hr Hm HL Hf Hc Hh.
  destruct (increase_heap_size_ok free_blocks fuel s units a s1 L np) as (s' & E' & HL' & _);
    try done; [dlia|by apply Forall_singleton|].
  exists (np * 512 - 1), s'. split_and!; [done|done|unfold np; dlia|lia].
Qed.
End properties.

(** ** The allocator on the kernel's heap *)

Section kernel.
Variable no_return : list Z → Z → Z.
Variable kernel_end : Z.
Variable free_blocks : Z.

Definition kernel_kmalloc : nat → nat → Z → M kspace Z :=
  @kmalloc kspace kspace_store (kspace_pages no_return kernel_end) free_blocks.

(** The first allocation, with what it does to the rest of memory and to the heap. *)
Lemma kernel_kmalloc_first_ok fuel kfuel s p f ph size :
  kheap_wf (ks_heap s) → first_set (kheap_st (ks_heap s)) 0 0 p → p < 1024 → p mod 8 ≠ 7 →
  0 ≤ f < 2 ^ 20 → allocate_physical_page kernel_end (phys (ks_heap s)) = Ret (f * 4096) ph →
  KERNEL_VIRTUAL_OFFSET ≤ free_blocks → free_blocks + 4 ≤ KHEAP_BEGIN_ADDRESS →
  get32 s free_blocks = Some NULL → 1 ≤ size ≤ 4072 → (0 < fuel)%nat → (0 < kfuel)%nat →
  let a := KHEAP_BEGIN_ADDRESS + p * 4096 in
  let units := (size + 7) / 8 in
  ∃ h s', kernel_kmalloc fuel kfuel size s = Ret (a + 8 * (511 - units)) s' ∧
    free_chain s' free_blocks [(a, 511 - units)] ∧ mapped s' a 4096 ∧
    alloc_kheap_pages no_return kernel_end 1 (ks_heap s) = Ret a h ∧ stores (KSpace h (ks_bytes s)) s' ∧
    keeps (λ x, ¬ free_blocks ≤ x < free_blocks + 4 ∧ ¬ a ≤ x < a + 4096) (KSpace h (ks_bytes s)) s'.
Proof.
  intros Hwf Hp Hlt Hm7 Hf E Hfb1 Hfb2 Hnull Hsz Hfu Hkfu a units.
  assert (0 ≤ p) by apply Hp. assert (1 ≤ units ≤ 509) by (unfold units; dlia).
  assert (KHEAP_BEGIN_ADDRESS = 0xC0800000) as HB by reflexivity.
  destruct (alloc_kheap_page_ok no_return kernel_end (ks_heap s) p f ph) as (h & Eh & _ & _ & _ & He & _);
    try done. fold a in Eh.
  set (s1 := KSpace h (ks_bytes s)).
  assert (@alloc_pages kspace (kspace_pages no_return kernel_end) 1 s = Ret a s1) as E1.
  { simpl. unfold on_ks_heap. by rewrite (zoom_Ret _ _ _ _ _ _ Eh). }
  assert (mapped s1 a 4096) as Hm1.
  { apply (ks_heap_page h _ p f); [lia|]. by rewrite He, decide_True. }
  assert (free_chain s1 free_blocks []) as HL1.
  { simpl. rewrite <-Hnull. destruct s as [h0 m]. by apply ks_static_word. }
  destruct (@increase_heap_size_ok kspace _ _ (kspace_pages no_return kernel_end) free_blocks
              kfuel s units a s1 [] 1) as (s2 & E2 & HL2 & K2 & M2); try done; try lia.
  { dlia. }
  { apply Forall_singleton. simpl. lia. }
  { constructor. }
  simpl app in HL2. change (1 * 512 - 1) with 511 in HL2. apply M2 in Hm1.
  assert (stores s1 s2) as St1.
  { apply (@increase_heap_size_storing kspace _ (kspace_pages no_return kernel_end) free_blocks kfuel units s s1 s2 a SUCCESS); [|done].
    unfold PAGE_SIZE. rewrite u32_small by dlia. by replace (units / 4096 + 1) with 1 by dlia. }
  destruct (kmalloc_take_split_ok free_blocks s2 [] a 511 [] units) as (s3 & E3 & HL3 & M3 & K3);
    try done; try lia.
  { split; [lia|constructor]. }
  { apply (mapped_sub s2 a 4096); [done|lia..]. }
  exists h, s3. split_and!; [|done|by apply M3|done| |].
  - unfold kernel_kmalloc, kmalloc. rewrite kmalloc_units by lia. fold units.
    destruct fuel as [|fuel]; [lia|]. cbn [kmalloc_loop]. run (rd32_Ret _ _ _ Hnull).
    rewrite Z.eqb_refl. run E2. rewrite bool_decide_eq_true_2 by done.
    destruct HL2 as (G1 & _ & G2 & _). run (rd32_Ret _ _ _ G1).
    rewrite block_size_eq by lia. run (rd32_Ret _ _ _ G2).
    rewrite Z.geb_leb, (proj2 (Z.leb_le units 511)) by lia. exact E3.
  - by eapply (kmalloc_take_storing s1 _ _ s2).
  - intros x v [Hx1 Hx2] <-. cbn [last_cell] in K2. rewrite K3, K2; [done|done|lia|lia].
Qed.

End kernel.

(** ** Witnesses *)

Definition put32 (m : gmap Z Z) (a v : Z) : gmap Z Z :=
  <[a := u8 v]> (<[a + 1 := u8 (Z.shiftr v 8)]>
    (<[a + 2 := u8 (Z.shiftr v 16)]> (<[a + 3 := u8 (Z.shiftr v 24)]> m))).

(** [blocks_info] in the kernel image; one page of heap, at [KHEAP_BEGIN_ADDRESS]. *)
Definition example_free_blocks : Z := 0xC0106000.

Definition example_heap_page : kheap :=
  Kheap (CArray KHEAP_BITMAP_SIZE ∅) (<[0 := entry_rw 0x139]> ∅) ∅ physical_memory.

(** A block of [n] units at the page's beginning, one of 7 after it. *)
Definition example_two_blocks (n : Z) : kspace :=
  KSpace example_heap_page
    (put32 (put32 (put32 (put32 ∅ example_free_blocks 0xC0800000)
       0xC0800000 0xC0800100) 0xC0800004 n) 0xC0800104 7).

Definition example_one_block (n : Z) : kspace :=
  KSpace example_heap_page
    (put32 (put32 ∅ example_free_blocks 0xC0800000) 0xC0800004 n).

(** A free block of 7 units and a block of 10 in use. *)
Definition example_freed : kspace :=
  KSpace example_heap_page
    (put32 (put32 (put32 ∅ example_free_blocks 0xC0800100) 0xC0800104 7) 0xC0800204 10).

Definition example_pages : PageSource kspace :=
  kspace_pages example_no_return example_kernel_end.

Lemma example_page_mapped m a n :
  0xC0800000 ≤ a → a + n ≤ 0xC0801000 → mapped (KSpace example_heap_page m) a n.
Proof.
  intros H1 H2. apply (mapped_sub _ 0xC0800000 4096); [|lia..].
  exact (ks_heap_page example_heap_page m 0 0x139 ltac:(lia) eq_refl).
Qed.

Lemma example_two_blocks_chain :
  free_chain (example_two_blocks 9) example_free_blocks [(0xC0800000, 9); (0xC0800100, 7)] ∧
  free_chain (example_two_blocks 4) example_free_blocks [(0xC0800000, 4); (0xC0800100, 7)].
Proof. chain_by_computation. Qed.


Lemma kmalloc_drops_list_witness :
  ∃ s', @kmalloc kspace _ example_pages example_free_blocks 3 3 24 (example_two_blocks 4)
        = Ret 0xC0800008 s' ∧
    free_chain s' example_free_blocks [(0xC0800000, 0)].
Proof.
  apply (@kmalloc_drops_list kspace _ _ example_pages example_free_blocks 3 3 (example_two_blocks 4)
           [] 0xC0800000 [(0xC0800100, 7)] 24 3).
  - exact (proj2 example_two_blocks_chain).
  - split; [discriminate|reflexivity].
  - reflexivity.
  - constructor.
  - repeat constructor.
  - reflexivity.
Defined.

Lemma example_one_block_chain :
  free_chain (example_one_block 511) example_free_blocks [(0xC0800000, 511)].
Proof. chain_by_computation. Qed.

Lemma kfree_kmalloc_roundtrip_witness :
  ∃ s1 s2, @kfree kspace _ example_free_blocks 2 0xC0800208 example_freed = Ret tt s1 ∧
    @kmalloc kspace _ example_pages example_free_blocks 2 1 80 s1 = Ret 0xC0800208 s2 ∧
    free_chain s2 example_free_blocks [(0xC0800100, 7)].
Proof.
  destruct (@kfree_kmalloc_roundtrip kspace _ _ example_pages example_free_blocks 2 1 example_freed
    [(0xC0800100, 7)] 0xC0800200 10 80) as (s1 & s2 & E1 & _ & E2 & HL & _).
  - chain_by_computation.
  - repeat constructor.
  - split; reflexivity.
  - apply Forall_singleton. left. discriminate.
  - apply Forall_singleton. right. discriminate.
  - apply example_page_mapped; discriminate.
  - reflexivity.
  - split; [discriminate|reflexivity].
  - reflexivity.
  - repeat constructor.
  - exists s1, s2. split; [exact E1|]. split; [exact E2|exact HL].
Defined.

(** A page of 511 units: 211 units, then the other 300. *)
Lemma kmalloc_overlap_witness :
  ∃ p1 s1 p2 s2,
    @kmalloc kspace _ example_pages example_free_blocks 1 1 1688 (example_one_block 511) = Ret p1 s1 ∧
    @kmalloc kspace _ example_pages example_free_blocks 1 1 2400 s1 = Ret p2 s2 ∧
    p2 < p1 ∧ p2 + 2400 = p1 + 8.
Proof.
  apply (@kmalloc_overlap kspace _ _ example_pages example_free_blocks 1 1 (example_one_block 511)
           0xC0800000 211 300).
  - exact example_one_block_chain.
  - discriminate.
  - discriminate.
  - reflexivity.
  - apply example_page_mapped; discriminate.
  - left. discriminate.
  - repeat constructor.
Defined.

(** A heap with no free block, and the first free page of the kernel heap. *)
Definition example_no_blocks : kspace := KSpace (example_kheap 3 ∅) ∅.


Lemma increase_heap_size_too_small_witness :
  ∃ n s', @increase_heap_size kspace _ example_pages example_free_blocks 1 600 example_no_blocks
          = Ret SUCCESS s' ∧
    free_chain s' example_free_blocks [(0xC0818000, n)] ∧ n < 600.
Proof.
  destruct (alloc_kheap_page_ok example_no_return example_kernel_end (example_kheap 3 ∅) 24 0x140
              example_one) as (h & Eh & _ & _ & _ & He & _).
  { reflexivity. }
  { apply (example_kheap_first 3). split; [discriminate|reflexivity]. }
  { reflexivity. }
  { discriminate. }
  { split; [discriminate|reflexivity]. }
  { exact (proj1 example_alloc_runs). }
  destruct (@increase_heap_size_too_small kspace _ _ example_pages example_free_blocks 1
              example_no_blocks 4800 0xC0818000 (KSpace h ∅) [] 600) as (n & s' & E & HL & Hn & _).
  - split; [discriminate|reflexivity].
  - reflexivity.
  - discriminate.
  - exact (on_ks_heap_Ret _ _ ∅ _ _ Eh).
  - reflexivity.
  - reflexivity.
  - apply (ks_heap_page h ∅ 24 0x140); [split; [discriminate|reflexivity]|]. rewrite He. reflexivity.
  - reflexivity.
  - repeat constructor.
  - left. discriminate.
  - constructor.
  - exists n, s'. split; [exact E|]. split; [exact HL|exact Hn].
Defined.
