(* ===== verification/KList.v ===== *)
(** * Linked lists: [kernel/data_structures/list.c]

    A [list_t] is two words, [head] at offset 0 and [iter_node] at offset 4; a
    [node_t] is two words, [element] at offset 0 and [next] at offset 4.  The
    operations work on bytes and on an [Allocator].  Their properties are
    proved against [AllocatorLaws], what a list may expect of [kmalloc] and
    [kfree]; that the kernel's own allocator breaks these laws, and what
    becomes of a list then, is shown at the end. *)

From S2P Require Import Prelude Memory Chain Bitmap Phys Paging Kheap Kmalloc.

(** ** The allocator, as an interface *)

Class Allocator (S : Type) := {
  al_malloc : Z → M S Z;
  al_free : Z → M S unit
}.

(** [al_private s b]: the byte at [b] is the allocator's own. *)
Class AllocatorLaws (S : Type) `{ByteStore S, Allocator S} := {
  al_private : S → Z → Prop;
  al_private_store s a v s' b :
    set8 s a v = Some s' → ¬ al_private s a → al_private s' b ↔ al_private s b;
  al_malloc_fresh n s p s' : al_malloc n s = Ret p s' → p ≠ NULL →
    0 < p ∧ p + n < 2 ^ 32 ∧ mapped s' p n ∧
    (∀ b, p ≤ b < p + n → al_private s b ∧ ¬ al_private s' b);
  al_malloc_keeps n s p s' b : al_malloc n s = Ret p s' → ¬ al_private s b →
    ¬ al_private s' b ∧ get8 s' b = get8 s b;
  al_free_keeps p n s s' b : al_free p s = Ret tt s' →
    (∀ c, p ≤ c < p + n → ¬ al_private s c) → ¬ (p ≤ b < p + n) → ¬ al_private s b →
    ¬ al_private s' b ∧ get8 s' b = get8 s b
}.

(** ** The operations *)

Definition node_element (node : Z) : Z := node.
Definition node_next (node : Z) : Z := u32 (node + 4).
Definition list_head_field (l : Z) : Z := l.
Definition list_iter_node (l : Z) : Z := u32 (l + 4).
Definition sizeof_node : Z := 8.

Section list_c.
Context {S : Type} `{ByteStore S, Allocator S}.

(** [None] where the source has no return statement. *)
Definition initialize_list (l : Z) : M S (option bool) :=
  if l =? NULL then mret (Some false)
  else
    wr32 (list_head_field l) NULL ;;
    h ← rd32 (list_head_field l);
    wr32 (list_iter_node l) h ;;
    mret None.

(** [while] the word is not [NULL], it becomes the node's [next]. *)
Fixpoint add_element_loop (fuel : nat) (node : Z) : M S Z :=
  match fuel with
  | O => mtimeout
  | Datatypes.S fuel' =>
      n ← rd32 node;
      if n =? NULL then mret node else add_element_loop fuel' (node_next n)
  end.

Definition add_element (fuel : nat) (l element : Z) : M S bool :=
  if l =? NULL then mret false
  else
    node ← add_element_loop fuel (list_head_field l);
    p ← al_malloc sizeof_node;
    wr32 node p ;;
    n ← rd32 node;
    wr32 (node_next n) NULL ;;
    n ← rd32 node;
    wr32 (node_element n) element ;;
    (if node =? list_head_field l then
       n ← rd32 node;
       wr32 (list_iter_node l) n
     else mret tt) ;;
    mret true.

Fixpoint pop_element_loop (fuel : nat) (l node_ptr node element_index : Z) : M S Z :=
  match fuel with
  | O => mtimeout
  | Datatypes.S fuel' =>
      if node =? NULL then mret NULL
      else if element_index =? 0 then
        n ← rd32 (node_next node);
        wr32 node_ptr n ;;
        element ← rd32 (node_element node);
        al_free node ;;
        h ← rd32 (list_head_field l);
        wr32 (list_iter_node l) h ;;
        mret element
      else
        n ← rd32 (node_next node);
        pop_element_loop fuel' l (node_next node) n (element_index - 1)
  end.

Definition pop_element (fuel : nat) (l element_index : Z) : M S Z :=
  if (l =? NULL) || (element_index <? 0) then mret NULL
  else
    h ← rd32 (list_head_field l);
    pop_element_loop fuel l (list_head_field l) h element_index.

Fixpoint remove_element_loop (fuel : nat) (node_ptr node element : Z) : M S bool :=
  match fuel with
  | O => mtimeout
  | Datatypes.S fuel' =>
      if node =? NULL then mret false
      else
        e ← rd32 (node_element node);
        if e =? element then
          n ← rd32 (node_next node);
          wr32 node_ptr n ;;
          mret true
        else
          n ← rd32 (node_next node);
          remove_element_loop fuel' (node_next node) n element
  end.

Definition remove_element (fuel : nat) (l element : Z) : M S bool :=
  h ← rd32 (list_head_field l);
  remove_element_loop fuel (list_head_field l) h element.

Fixpoint size_loop (fuel : nat) (node counter : Z) : M S Z :=
  match fuel with
  | O => mtimeout
  | Datatypes.S fuel' =>
      if node =? NULL then mret counter
      else
        n ← rd32 (node_next node);
        size_loop fuel' n (u32 (counter + 1))
  end.

Definition size (fuel : nat) (l : Z) : M S Z :=
  if l =? NULL then mret 0
  else
    h ← rd32 (list_head_field l);
    size_loop fuel h 0.

Definition is_empty (l : Z) : M S bool :=
  if negb (l =? NULL) then
    h ← rd32 (list_head_field l);
    mret (h =? NULL)
  else mret false.

Definition iter_list (l : Z) : M S Z :=
  i ← rd32 (list_iter_node l);
  if i =? NULL then
    h ← rd32 (list_head_field l);
    wr32 (list_iter_node l) h ;;
    mret NULL
  else
    i ← rd32 (list_iter_node l);
    element ← rd32 (node_element i);
    i ← rd32 (list_iter_node l);
    n ← rd32 (node_next i);
    wr32 (list_iter_node l) n ;;
    mret element.

Fixpoint free_list_loop (fuel : nat) (node : Z) : M S unit :=
  match fuel with
  | O => mtimeout
  | Datatypes.S fuel' =>
      if node =? NULL then mret tt
      else
        tmp ← rd32 (node_next node);
        al_free node ;;
        free_list_loop fuel' tmp
  end.

(** Falls off its end: no return value. *)
Definition free_list (fuel : nat) (l : Z) : M S unit :=
  h ← rd32 (list_head_field l);
  free_list_loop fuel h.
End list_c.

(** ** The list in memory *)

Definition node_link (a : Z) : Z := a + 4.

Lemma node_layout a : node_link a = a ∧ node_element a = a + 4 ∨ node_link a = a + 4 ∧ node_element a = a.
Proof. by right. Qed.

Lemma node_next_eq a : 0 < a < 2 ^ 32 - 8 → node_next a = node_link a.
Proof. intros. unfold node_next, node_link. apply u32_small. lia. Qed.

Abbreviation nodes := (chain node_link node_element).
Abbreviation last_node := (last_cell node_link).

Section list_facts.
Context {S : Type} `{ByteStoreLaws S, !Allocator S, !AllocatorLaws S}.
Implicit Types s : S.

(** None of the [k] bytes at [a] is the allocator's. *)
Definition owned s (a k : Z) : Prop := ∀ b, a ≤ b < a + k → ¬ al_private s b.

(** The list at [l] has the nodes [L]; it and they belong to the program. *)
Definition klist s (l : Z) (L : list (Z * Z)) : Prop :=
  0 < l < 2 ^ 32 - 8 ∧ nodes s l L ∧ mapped s (l + 4) 4 ∧ node_apart l L ∧
  owned s l 8 ∧ Forall (λ nd : Z * Z, owned s nd.1 8) L.

Definition head_of (L : list (Z * Z)) : Z := match L with [] => NULL | (a, _) :: _ => a end.

Lemma nodes_head s c L : nodes s c L → get32 s c = Some (head_of L).
Proof. destruct L as [|[]]; simpl; [done|]. tauto. Qed.

Lemma list_iter_node_eq l : 0 < l < 2 ^ 32 - 8 → list_iter_node l = l + 4.
Proof. intros. apply u32_small. lia. Qed.

(** *** Stores to the program's own memory *)

(** [s'] comes from [s] by stores to bytes of [W] that are not the allocator's. *)
Definition wrote (W : Z → Prop) : S → S → Prop :=
  rtc (λ s s', ∃ a v, W a ∧ ¬ al_private s a ∧ set8 s a v = Some s').

Lemma wrote_trans W s1 s2 s3 : wrote W s1 s2 → wrote W s2 s3 → wrote W s1 s3.
Proof. intros. unfold wrote. by etransitivity. Qed.

Lemma wrote_weaken (W W' : Z → Prop) s s' : wrote W s s' → (∀ b, W b → W' b) → wrote W' s s'.
Proof. intros Hw HW. eapply rtc_subrel; [|exact Hw]. intros s1 s2 (a & v & Ha & Hp & E). eauto 6. Qed.

(** What is the allocator's does not change. *)
Lemma wrote_private W s s' b : wrote W s s' → al_private s' b ↔ al_private s b.
Proof.
  induction 1 as [|s1 s2 s3 (a & v & _ & Hp & E) _ IH]; [done|]. by rewrite IH, (al_private_store _ _ _ _ b E Hp).
Qed.

Lemma wrote_owned W s s' a n : wrote W s s' → owned s a n → owned s' a n.
Proof. intros Hw Ho b Hb. rewrite (wrote_private _ _ _ b Hw). by apply Ho. Qed.

Lemma wrote_same (W : Z → Prop) s s' b : wrote W s s' → ¬ W b → get8 s' b = get8 s b.
Proof.
  intros Hw Hb. induction Hw as [|s1 s2 s3 (a & v & Ha & _ & E) _ IH]; [done|].
  rewrite IH, (get8_set8 _ _ _ _ b E), decide_False; [done|]. by intros ->.
Qed.

Lemma wrote_get32 (W : Z → Prop) s s' a : wrote W s s' → (∀ b, a ≤ b < a + 4 → ¬ W b) → get32 s' a = get32 s a.
Proof. intros Hw Ha. apply get32_ext. intros b Hb. eapply wrote_same; [done|]. by apply Ha. Qed.

Lemma wrote_stores W s s' : wrote W s s' → stores s s'.
Proof. apply rtc_subrel. intros s1 s2 (a & v & _ & _ & E). eauto. Qed.

Lemma wrote_mapped W s s' a n : wrote W s s' → mapped s a n → mapped s' a n.
Proof. intros Hw%wrote_stores Hm b Hb. eapply stores_mapped; [done|]. by apply Hm. Qed.

Lemma wr8_wrote (W : Z → Prop) a v s s' : wr8 a v s = Ret tt s' → W a → ¬ al_private s a → wrote W s s'.
Proof. unfold wr8, mtry. destruct (set8 s a v) eqn:E; [|done]. intros [= ->] Ha Hp. apply rtc_once. eauto. Qed.

Lemma wr32_wrote (W : Z → Prop) a v s s' :
  wr32 a v s = Ret tt s' → owned s a 4 → (∀ b, a ≤ b < a + 4 → W b) → wrote W s s'.
Proof.
  unfold wr32, mtry, set32. intros E Ho HW.
  assert (∀ s s' b v, set8 s b v = Some s' → a ≤ b < a + 4 → owned s a 4 → wrote W s s' ∧ owned s' a 4) as Hstep.
  { intros t t' b w Et Hb Hot.
    assert (wrote W t t') as Hw by (apply rtc_once; exists b, w; auto). split; [done|by eapply wrote_owned]. }
  destruct (set8 s a v) as [s0|] eqn:E0; [|done]. simpl in E.
  destruct (set8 s0 (a + 1) _) as [s1|] eqn:E1; [|done]. simpl in E.
  destruct (set8 s1 (a + 2) _) as [s2|] eqn:E2; [|done]. simpl in E.
  destruct (set8 s2 (a + 3) _) as [s3|] eqn:E3; [|done]. injection E as ->.
  destruct (Hstep _ _ _ _ E0) as [W0 O0]; [lia|done|]. destruct (Hstep _ _ _ _ E1) as [W1 O1]; [lia|done|].
  destruct (Hstep _ _ _ _ E2) as [W2 O2]; [lia|done|]. destruct (Hstep _ _ _ _ E3) as [W3 _]; [lia|done|].
  do 3 (eapply wrote_trans; [done|]). done.
Qed.

(** One more store. *)
Lemma wrote_wr32 (W : Z → Prop) a v s s1 s2 :
  wrote W s s1 → wr32 a v s1 = Ret tt s2 → owned s a 4 → (∀ b, a ≤ b < a + 4 → W b) → wrote W s s2.
Proof. intros Hw E Ho HW. eapply wrote_trans; [done|]. eapply wr32_wrote; [done| |done]. by eapply wrote_owned. Qed.

Lemma memcpy_wrote (W : Z → Prop) dst src n s s' :
  memcpy dst src n s = Ret tt s' → owned s dst n → (∀ b, dst ≤ b < dst + n → W b) → wrote W s s'.
Proof.
  intros E Ho HW. revert Ho. eapply (for_range_rel (λ s s', owned s dst n → wrote W s s')); [| | |exact E].
  - intros t _. apply rtc_refl.
  - intros t1 t2 t3 H1 H2 Ht. eapply wrote_trans; [by apply H1|]. apply H2. eapply wrote_owned; [by apply H1|done].
  - intros i t t' Hi (v & t1 & E1 & E2)%bind_Ret_inv Ht. unfold rd8 in E1. destruct (get8 t _); [|done].
    injection E1 as _ <-. eapply wr8_wrote; [done|apply HW; lia|apply Ht; lia].
Qed.

Lemma wr32_private s a v s' b :
  wr32 a v s = Ret tt s' → owned s a 4 → al_private s' b ↔ al_private s b.
Proof. intros E Ho. by eapply wrote_private, (wr32_wrote (λ _, True)). Qed.

(** *** Memory to come *)

(** What a program does with its memory between two allocations: it stores to
    its own bytes and gives blocks back. *)
Definition uses : S → S → Prop :=
  rtc (λ s s', (∃ a v, ¬ al_private s a ∧ set8 s a v = Some s') ∨
               (∃ p n, 0 < n ∧ owned s p n ∧ al_free p s = Ret tt s')).

Lemma uses_trans s1 s2 s3 : uses s1 s2 → uses s2 s3 → uses s1 s3.
Proof. intros. unfold uses. by etransitivity. Qed.

Lemma wrote_uses W s s' : wrote W s s' → uses s s'.
Proof. apply rtc_subrel. intros s1 s2 (a & v & _ & Hp & E). left. eauto. Qed.

Lemma free_uses p n s s' : al_free p s = Ret tt s' → 0 < n → owned s p n → uses s s'.
Proof. intros E Hn Ho. apply rtc_once. right. eauto. Qed.

Lemma wr32_uses a v s s' : wr32 a v s = Ret tt s' → owned s a 4 → uses s s'.
Proof. intros E Ho. by eapply wrote_uses, (wr32_wrote (λ _, True)). Qed.

(** Blocks of the sizes [ns] can be allocated one after the other, whatever
    the program does with its memory in between, and [Q] holds in the end. *)
Fixpoint memory_for (Q : S → Prop) (ns : list Z) s : Prop :=
  match ns with
  | [] => ∀ s1, uses s s1 → Q s1
  | n :: ns' => ∀ s1, uses s s1 → ∃ p s2, al_malloc n s1 = Ret p s2 ∧ p ≠ NULL ∧ memory_for Q ns' s2
  end.

Lemma memory_for_uses Q ns s s' : memory_for Q ns s → uses s s' → memory_for Q ns s'.
Proof. destruct ns as [|n ns]; simpl; intros Hm Hu s1 Hu1; apply Hm; by eapply uses_trans. Qed.

Lemma memory_for_next Q n ns s : memory_for Q (n :: ns) s →
  ∃ p s', al_malloc n s = Ret p s' ∧ p ≠ NULL ∧ memory_for Q ns s'.
Proof. intros Hm. apply Hm. apply rtc_refl. Qed.

Lemma memory_for_end (Q : S → Prop) s : memory_for Q [] s → Q s.
Proof. intros Hm. apply Hm. apply rtc_refl. Qed.

(** A store, with what it leaves alone. *)
Lemma wr32_owned s a v : mapped s a 4 → owned s a 4 → 0 ≤ v < 2 ^ 32 →
  ∃ s', wr32 a v s = Ret tt s' ∧ get32 s' a = Some v ∧ same_but a 4 s s' ∧
    (∀ x k, mapped s x k → mapped s' x k) ∧ (∀ x k, owned s x k → owned s' x k).
Proof.
  intros Hm Ho Hv. destruct (wr32_Ret s a v Hm) as (s' & E & W). exists s'.
  split_and!; [done| |by eapply stored32_same_but|intros; by eapply stored32_mapped|].
  - rewrite (stored32_same _ _ _ _ W). by rewrite u32_small.
  - intros x k Hx b Hb. rewrite (wr32_private s a v s' b E Ho). by apply Hx.
Qed.

(** Memory of which one part is private and the other is not. *)
Lemma private_disjoint s p n x k : 0 < n → 0 < k →
  (∀ b, p ≤ b < p + n → al_private s b) → owned s x k → p + n ≤ x ∨ x + k ≤ p.
Proof.
  intros Hn Hk Hp Hx. destruct (decide (p + n ≤ x)); [by left|].
  destruct (decide (x + k ≤ p)); [by right|]. exfalso.
  apply (Hx (p `max` x)); [lia|]. apply Hp. lia.
Qed.

(** A list survives whatever leaves the program's memory alone. *)
Lemma klist_keep s s' l L :
  klist s l L → (∀ b, ¬ al_private s b → ¬ al_private s' b ∧ get8 s' b = get8 s b) →
  klist s' l L ∧ get32 s' (l + 4) = get32 s (l + 4).
Proof.
  intros (Hl & HL & Hm & Ha & Ho & HF) Hk.
  assert (∀ x k, owned s x k → owned s' x k) as Hown by (intros x k Hx b Hb; by apply Hk, Hx).
  assert (∀ x k y, owned s x k → x ≤ y → y + 4 ≤ x + k → get32 s' y = get32 s y) as Hw.
  { intros x k y Hx ? ?. apply get32_ext. intros b Hb. apply Hk, Hx. lia. }
  split; [|apply (Hw l 8); [done|lia..]]. split_and!; try done.
  - lia.
  - lia.
  - apply (chain_frame _ _ s s'); [done|apply (Hw l 8); [done|lia..]|].
    eapply Forall_impl; [exact HF|]. intros [a n] Hnd. simpl in *. unfold node_link, node_element.
    split; apply (Hw a 8); done || lia.
  - intros b Hb. destruct (Hk b) as [_ ->]; [apply Ho; lia|by apply Hm].
  - by apply Hown.
  - eapply Forall_impl; [exact HF|]. intros nd. apply Hown.
Qed.

Lemma add_element_loop_ok fuel s c L :
  nodes s c L → (length L < fuel)%nat → add_element_loop fuel c s = Ret (last_node c L) s.
Proof.
  revert c L. induction fuel as [|fuel IH]; intros c L HL Hf; [lia|]. simpl add_element_loop.
  destruct L as [|[a n] L]; simpl in *.
  - run (rd32_Ret _ _ _ HL). done.
  - destruct HL as (H1' & H2' & _ & _ & _ & HL). run (rd32_Ret _ _ _ H1').
    rewrite (proj2 (Z.eqb_neq a NULL)) by (unfold NULL; lia).
    rewrite node_next_eq by lia. apply IH; [done|lia].
Qed.

(** The cell that ends the list: its memory is the program's. *)
Lemma klist_last s l L : klist s l L →
  mapped s (last_node l L) 4 ∧ owned s (last_node l L) 4 ∧
  (last_node l L = l ∧ L = [] ∨ last_node l L ≠ l ∧ L ≠ []) ∧
  (l + 8 ≤ last_node l L ∨ last_node l L + 4 ≤ l + 4).
Proof.
  intros (Hl & HL & _ & Ha & Ho & HF). split; [by eapply get32_mapped, chain_last|].
  destruct (last_cell_in node_link node_element node_layout l L) as [[-> ->]|([a n] & Hb & ->)].
  - split_and!; [intros b Hb; apply Ho; lia|by left|lia].
  - unfold node_apart in Ha. rewrite Forall_forall in HF, Ha. specialize (HF _ Hb).
    specialize (Ha _ Hb). simpl in *. unfold node_link in *.
    split_and!; [intros b Hb'; apply HF; lia|right; split; [lia|by intros ->; inversion Hb]|lia].
Qed.

(** The new node is filled in and linked behind the last one. *)
Lemma append_node_ok s l L p e :
  klist s l L → 0 < p < 2 ^ 32 - 8 → mapped s p 8 → owned s p 8 → l + 8 ≤ p ∨ p + 8 ≤ l →
  node_apart p L → 0 ≤ e < 2 ^ 32 →
  ∃ s', (wr32 (last_node l L) p ;;
         n ← rd32 (last_node l L); wr32 (node_next n) NULL ;;
         n ← rd32 (last_node l L); wr32 (node_element n) e) s = Ret tt s' ∧
    klist s' l (L ++ [(p, e)]) ∧ get32 s' (l + 4) = get32 s (l + 4) ∧
    get32 s' (last_node l L) = Some p ∧ uses s s'.
Proof.
  intros HK Hp Hm Ho Hlp Hap He. pose proof (klist_last s l L HK) as (Hcm & Hco & _ & Hcl).
  destruct HK as (Hl & HL & Him & Ha & Hlo & HF).
  set (c := last_node l L) in *.
  assert (p + 8 ≤ c ∨ c + 4 ≤ p) as Hcp.
  { apply (last_cell_apart _ _ node_layout); [lia|by apply node_bytes_apart]. }
  destruct (wr32_owned s c p) as (s1 & E1 & G1 & W1 & M1 & O1); [done|done|lia|].
  assert (owned s1 (p + 4) 4) as Ho1 by (apply O1; intros b Hb; apply Ho; lia).
  destruct (wr32_owned s1 (p + 4) NULL) as (s2 & E2 & G2 & W2 & M2 & O2);
    [apply M1; apply (mapped_sub s p 8); [done|lia..]|done|unfold NULL; lia|].
  assert (get32 s2 c = Some p) as G1'.
  { rewrite <-G1. apply get32_ext. intros x Hx. apply W2. lia. }
  assert (owned s2 p 4) as Ho2 by (apply O2, O1; intros b Hb; apply Ho; lia).
  destruct (wr32_owned s2 p e) as (s3 & E3 & G3 & W3 & M3 & O3);
    [apply M2, M1; apply (mapped_sub s p 8); [done|lia..]|done|lia|].
  exists s3. unfold node_element. split.
  { run E1. run (rd32_Ret _ _ _ G1). rewrite node_next_eq by lia. unfold node_link. run E2.
    run (rd32_Ret _ _ _ G1'). exact E3. }
  assert (∀ x, ¬ (c ≤ x < c + 4) → ¬ (p ≤ x < p + 8) → get8 s3 x = get8 s x) as Hs.
  { intros x Hx1 Hx2. by rewrite W3, W2, W1 by lia. }
  split_and!.
  - split_and!; try done; [lia|lia|..].
    + apply (chain_append _ _ node_layout s s3); try done.
      * apply Forall_singleton. simpl. lia.
      * rewrite <-G1'. apply get32_ext. intros x Hx. apply W3. lia.
      * unfold node_link. rewrite <-G2. apply get32_ext. intros x Hx. apply W3. lia.
    + by apply M3, M2, M1.
    + apply Forall_app. split; [done|]. apply Forall_singleton. simpl. lia.
    + by apply O3, O2, O1.
    + apply Forall_app. split; [|apply Forall_singleton; by apply O3, O2, O1].
      eapply Forall_impl; [exact HF|]. intros nd Hnd. by apply O3, O2, O1.
  - apply get32_ext. intros x Hx. apply Hs; lia.
  - rewrite <-G1'. apply get32_ext. intros x Hx. apply W3. lia.
  - eapply uses_trans; [by eapply wr32_uses|]. eapply uses_trans; by eapply wr32_uses.
Qed.

(** [list_head->iter_node] is set; the list is not concerned. *)
Lemma set_iter_ok s l L v :
  klist s l L → 0 ≤ v < 2 ^ 32 →
  ∃ s', wr32 (list_iter_node l) v s = Ret tt s' ∧ klist s' l L ∧ get32 s' (l + 4) = Some v ∧ uses s s'.
Proof.
  intros (Hl & HL & Him & Ha & Hlo & HF) Hv. rewrite list_iter_node_eq by done.
  destruct (wr32_owned s (l + 4) v) as (s1 & E1 & G1 & W1 & M1 & O1);
    [done|intros b Hb; apply Hlo; lia|done|].
  exists s1. split_and!; try done; [|eapply wr32_uses; [done|intros b Hb; apply Hlo; lia]].
  split_and!; try done; [lia|lia| |by apply M1|by apply O1|].
  - apply (chain_frame _ _ s s1); [done|apply get32_ext; intros x Hx; apply W1; lia|].
    apply (same_but_nodes _ _ node_layout s s1 (l + 4) 4); [done|].
    apply (bytes_apart_sub l 8); [by apply node_bytes_apart|lia..].
  - eapply Forall_impl; [exact HF|]. intros nd. apply O1.
Qed.

Lemma add_element_ok fuel s l L e p s0 :
  klist s l L → (length L < fuel)%nat → 0 ≤ e < 2 ^ 32 →
  al_malloc sizeof_node s = Ret p s0 → p ≠ NULL →
  ∃ s', add_element fuel l e s = Ret true s' ∧ klist s' l (L ++ [(p, e)]) ∧
    get32 s' (l + 4) = match L with [] => Some p | _ => get32 s (l + 4) end ∧ uses s0 s'.
Proof.
  intros HK Hf He Em Hp0.
  destruct (al_malloc_fresh _ _ _ _ Em Hp0) as (Hp & Hpr & Hpm & Hpp).
  destruct (klist_keep s s0 l L HK) as [HK0 Hi0]; [intros b; by eapply al_malloc_keeps|].
  assert (∀ x, owned s x 8 → p + 8 ≤ x ∨ x + 8 ≤ p) as Hd.
  { intros x Hx. apply (private_disjoint s p 8 x 8); [lia|lia| |done]. intros b Hb. by apply Hpp. }
  pose proof HK as (Hl & HL & _ & _ & Hlo & HF).
  destruct (append_node_ok s0 l L p e HK0) as (s1 & E1 & HK1 & Hi1 & Hc1 & U1); try done.
  { unfold sizeof_node in *. lia. }
  { intros b Hb. by apply Hpp. }
  { specialize (Hd l Hlo). lia. }
  { eapply Forall_impl; [exact HF|]. intros nd Hnd. apply Hd in Hnd. simpl. lia. }
  unfold add_element. rewrite (proj2 (Z.eqb_neq l NULL)) by (unfold NULL; lia).
  unfold list_head_field. run (add_element_loop_ok fuel s l L HL Hf). run Em.
  apply bind_Ret_inv in E1 as ([] & t1 & T1 & E1). run T1.
  apply bind_Ret_inv in E1 as (n1 & t2 & T2 & E1). run T2.
  apply bind_Ret_inv in E1 as ([] & t3 & T3 & E1). run T3.
  apply bind_Ret_inv in E1 as (n2 & t4 & T4 & E1). run T4. run E1.
  pose proof (klist_last s l L HK) as (_ & _ & [[Hc ->]|[Hc Hne]] & _).
  - simpl in *. rewrite Z.eqb_refl. rewrite bind_assoc. run (rd32_Ret _ _ _ Hc1).
    destruct (set_iter_ok s1 l [(p, e)] p HK1) as (s2 & E2 & HK2 & Hi2 & U2); [unfold sizeof_node in Hpr; lia|].
    run E2. exists s2. split_and!; [done..|by eapply uses_trans].
  - rewrite (proj2 (Z.eqb_neq _ l) Hc), bind_ret_l. exists s1. split_and!; [done|done| |done].
    destruct L; [done|congruence].
Qed.

(** The walk of [pop_element] to the node at its index. *)
Lemma pop_walk fuel s l c L1 L2 :
  nodes s c (L1 ++ L2) → (length L1 ≤ fuel)%nat →
  pop_element_loop fuel l c (head_of (L1 ++ L2)) (Z.of_nat (length L1)) s
  = pop_element_loop (fuel - length L1) l (last_node c L1) (head_of L2) 0 s.
Proof.
  revert c fuel. induction L1 as [|[a n] L1 IH]; intros c fuel HL Hf; simpl app in *.
  { by rewrite Nat.sub_0_r. }
  destruct HL as (E1 & E2 & E3 & _ & _ & HL).
  destruct fuel as [|fuel]; simpl in Hf; [lia|]. cbn [pop_element_loop head_of].
  rewrite (proj2 (Z.eqb_neq a NULL)) by (unfold NULL; lia).
  rewrite (proj2 (Z.eqb_neq _ 0)) by (simpl; lia).
  rewrite node_next_eq by lia. run (rd32_Ret _ _ _ (nodes_head _ _ _ HL)).
  replace (Z.of_nat (length ((a, n) :: L1)) - 1) with (Z.of_nat (length L1)) by (simpl; lia).
  apply IH; [done|lia].
Qed.

(** Taking a node out of the list and giving it back. *)
Lemma pop_node_ok s l L1 a e L2 v :
  klist s l (L1 ++ (a, e) :: L2) → v = head_of L2 →
  ∃ s1, wr32 (last_node l L1) v s = Ret tt s1 ∧ klist s1 l (L1 ++ L2) ∧
    get32 s1 a = Some e ∧ owned s1 a 8 ∧ node_apart a (L1 ++ L2) ∧ (l + 8 ≤ a ∨ a + 8 ≤ l) ∧
    uses s s1 ∧ get32 s1 (l + 4) = get32 s (l + 4).
Proof.
  intros (Hl & HL & Him & Ha & Hlo & HF) ->.
  destruct (chain_node _ _ node_layout _ _ _ _ _ _ HL) as (Ec & Har & Ee & Hm & Hnr).
  pose proof (chain_app_inv _ _ _ _ _ _ HL) as (_ & _ & _ & Hca & Ha2 & HL2).
  apply Forall_cons in Hca as [Hca _]. simpl in Hca.
  pose proof (nodes_head _ _ _ HL2) as Eh.
  apply Forall_app in Ha as [Ha1 Ha'], HF as [HF1 HF'].
  apply Forall_cons in Ha' as [Hla Hl2], HF' as [Hao HF2]. simpl in Hla, Hao.
  assert (owned s (last_node l L1) 4 ∧ (l + 8 ≤ last_node l L1 ∨ last_node l L1 + 4 ≤ l + 4)) as [Hco Hcl].
  { destruct (last_cell_in _ _ node_layout l L1) as [[-> _]|([b n] & Hb & ->)].
    - split; [intros b Hb; apply Hlo; lia|lia].
    - unfold node_apart in Ha1. rewrite Forall_forall in HF1, Ha1. specialize (HF1 _ Hb).
      specialize (Ha1 _ Hb). simpl in *. unfold node_link in *.
      split; [intros b' Hb'; apply HF1; lia|lia]. }
  destruct (wr32_owned s (last_node l L1) (head_of L2)) as (s1 & E1 & G1 & W1 & M1 & O1);
    [by eapply get32_mapped|done|by eapply get32_range|].
  exists s1. split_and!; [done| | |by apply O1| |lia|by eapply wr32_uses|apply get32_ext; intros x Hx; apply W1; lia].
  - split_and!; [lia|lia| |by apply M1|by apply Forall_app|by apply O1|].
    + apply (chain_unlink _ _ node_layout s s1 l L1 a e L2); [done..|]. by rewrite G1.
    + apply Forall_app. split; [eapply Forall_impl; [exact HF1|]|eapply Forall_impl; [exact HF2|]];
        intros nd; apply O1.
  - unfold node_element in Ee. rewrite <-Ee. apply get32_ext. intros x Hx. apply W1. lia.
  - apply Forall_app. split; [|done].
    clear -HL. revert HL. generalize l. induction L1 as [|[b n] L1 IH]; intros c HL; [constructor|].
    simpl in HL. destruct HL as (_ & _ & _ & _ & Hap & HL). apply Forall_app in Hap as [_ Hap].
    apply Forall_cons in Hap as [Hap _]. simpl in Hap. constructor; [simpl; lia|by eapply IH].
Qed.

Lemma pop_element_ok fuel s l L1 a e L2 :
  klist s l (L1 ++ (a, e) :: L2) → (length L1 < fuel)%nat →
  (∀ s1, ∃ s2, al_free a s1 = Ret tt s2) →
  ∃ s', pop_element fuel l (Z.of_nat (length L1)) s = Ret e s' ∧ klist s' l (L1 ++ L2) ∧
    get32 s' (l + 4) = Some (head_of (L1 ++ L2)) ∧ uses s s'.
Proof.
  intros HK Hf Hfree. pose proof HK as ([Hl Hl'] & HL & _).
  destruct (pop_node_ok s l L1 a e L2 _ HK eq_refl) as (s1 & E1 & HK1 & Ee & Hao & Hap & Hla & U1 & _).
  destruct (Hfree s1) as [s2 E2].
  assert (∀ b, ¬ (a ≤ b < a + 8) → ¬ al_private s1 b → ¬ al_private s2 b ∧ get8 s2 b = get8 s1 b) as Hk.
  { intros b Hb. by apply (al_free_keeps a 8 s1 s2 b E2). }
  assert (∀ x, owned s1 x 8 → a + 8 ≤ x ∨ x + 8 ≤ a → ∀ y, x ≤ y → y + 4 ≤ x + 8 →
    get32 s2 y = get32 s1 y) as Hw.
  { intros x Hx Hd y ? ?. apply get32_ext. intros b Hb. apply Hk; [lia|]. apply Hx. lia. }
  assert (klist s2 l (L1 ++ L2)) as HK2.
  { destruct HK1 as (_ & HL1 & Him1 & Ha1 & Hlo1 & HF1). split_and!; [done|done| | |done| |].
    - apply (chain_frame _ _ s1 s2); [done|apply (Hw l); (done || lia)|].
      apply Forall_forall. intros [x n] Hin. unfold node_apart in Hap. rewrite Forall_forall in HF1, Hap.
      specialize (HF1 _ Hin). specialize (Hap _ Hin). simpl in *. unfold node_link, node_element.
      split; apply (Hw x); done || lia.
    - intros b Hb. destruct (Hk b) as [_ ->]; [lia|apply Hlo1; lia|by apply Him1].
    - intros b Hb. apply Hk; [lia|by apply Hlo1].
    - apply Forall_forall. intros [x n] Hin b Hb. unfold node_apart in Hap. rewrite Forall_forall in HF1, Hap.
      specialize (HF1 _ Hin). specialize (Hap _ Hin). simpl in *. apply Hk; [lia|by apply HF1]. }
  pose proof HK2 as (_ & HL2 & _).
  pose proof (nodes_head _ _ _ HL2) as Hh.
  destruct (set_iter_ok s2 l (L1 ++ L2) (head_of (L1 ++ L2)) HK2) as (s3 & E3 & HK3 & Hi3 & U3);
    [by eapply get32_range|].
  exists s3. split; [|split_and!; [done..|]; eapply uses_trans; [exact U1|]; eapply uses_trans; [by eapply (free_uses a 8)|done]]. unfold pop_element.
  rewrite (proj2 (Z.eqb_neq l NULL)), (proj2 (Z.ltb_ge _ 0)) by (unfold NULL; lia). cbn [orb].
  unfold list_head_field. run (rd32_Ret _ _ _ (nodes_head _ _ _ HL)).
  rewrite pop_walk by (done || lia).
  destruct (fuel - length L1)%nat as [|fuel'] eqn:Efu; [lia|]. cbn [pop_element_loop head_of].
  pose proof (chain_app_inv _ _ _ _ _ _ HL) as (_ & Ha & _ & _ & _ & HLt).
  rewrite (proj2 (Z.eqb_neq a NULL)) by (unfold NULL; lia). rewrite Z.eqb_refl.
  rewrite (node_next_eq a) by lia. run (rd32_Ret _ _ _ (nodes_head _ _ _ HLt)). run E1.
  unfold node_element. run (rd32_Ret _ _ _ Ee). run E2. run (rd32_Ret _ _ _ Hh). by run E3.
Qed.

(** [iter_list] at the node after [L1], or at the end. *)
Lemma iter_list_ok s l L1 L2 :
  klist s l (L1 ++ L2) → get32 s (l + 4) = Some (head_of L2) →
  ∃ s', iter_list l s = Ret (match L2 with [] => NULL | (_, e) :: _ => e end) s' ∧
    klist s' l (L1 ++ L2) ∧
    get32 s' (l + 4) = Some (match L2 with [] => head_of L1 | _ :: L3 => head_of L3 end) ∧ uses s s'.
Proof.
  intros HK Hi. pose proof HK as (Hl & HL & _). unfold iter_list.
  rewrite list_iter_node_eq by done. run (rd32_Ret _ _ _ Hi).
  destruct L2 as [|[a e] L3]; cbn [head_of].
  - rewrite Z.eqb_refl. rewrite app_nil_r in *. unfold list_head_field.
    run (rd32_Ret _ _ _ (nodes_head _ _ _ HL)).
    destruct (set_iter_ok s l L1 (head_of L1) HK) as (s1 & E1 & HK1 & Hi1 & U1).
    { eapply get32_range, nodes_head, HL. }
    rewrite list_iter_node_eq in E1 by done. run E1. by exists s1.
  - destruct (chain_node _ _ node_layout _ _ _ _ _ _ HL) as (_ & Ha & Ee & _ & _).
    pose proof (chain_app_inv _ _ _ _ _ _ HL) as (_ & _ & _ & _ & _ & HLt).
    rewrite (proj2 (Z.eqb_neq a NULL)) by (unfold NULL; lia).
    run (rd32_Ret _ _ _ Hi). run (rd32_Ret _ _ _ Ee). run (rd32_Ret _ _ _ Hi).
    cbn [head_of]. rewrite (node_next_eq a) by lia. run (rd32_Ret _ _ _ (nodes_head _ _ _ HLt)).
    destruct (set_iter_ok s l _ (head_of L3) HK) as (s1 & E1 & HK1 & Hi1 & U1).
    { eapply get32_range, nodes_head, HLt. }
    rewrite list_iter_node_eq in E1 by done. run E1. by exists s1.
Qed.

Lemma size_loop_ok fuel s c L k :
  nodes s c L → (length L < fuel)%nat → 0 ≤ k → k + Z.of_nat (length L) < 2 ^ 32 →
  size_loop fuel (head_of L) k s = Ret (k + Z.of_nat (length L)) s.
Proof.
  revert c L k. induction fuel as [|fuel IH]; intros c L k HL Hf Hk Hr; [lia|].
  destruct L as [|[a e] L]; cbn [size_loop head_of].
  - rewrite Z.eqb_refl. by rewrite Z.add_0_r.
  - destruct HL as (_ & Ha & _ & _ & _ & HL). rewrite (proj2 (Z.eqb_neq a NULL)) by (unfold NULL; lia).
    rewrite (node_next_eq a) by lia. run (rd32_Ret _ _ _ (nodes_head _ _ _ HL)).
    simpl in Hf, Hr. rewrite u32_small by lia. rewrite (IH _ _ _ HL) by lia.
    f_equal. simpl. lia.
Qed.
(** The walk of [remove_element] to the first node with the element. *)
Lemma remove_walk fuel s c L1 L2 e :
  nodes s c (L1 ++ L2) → (length L1 ≤ fuel)%nat → e ∉ L1.*2 →
  remove_element_loop fuel c (head_of (L1 ++ L2)) e s
  = remove_element_loop (fuel - length L1) (last_node c L1) (head_of L2) e s.
Proof.
  revert c fuel. induction L1 as [|[a n] L1 IH]; intros c fuel HL Hf He; simpl app in *.
  { by rewrite Nat.sub_0_r. }
  destruct HL as (E1 & E2 & E3 & _ & _ & HL). cbn in He. apply not_elem_of_cons in He as [Hne He].
  destruct fuel as [|fuel]; simpl in Hf; [lia|]. cbn [remove_element_loop head_of].
  rewrite (proj2 (Z.eqb_neq a NULL)) by (unfold NULL; lia). run (rd32_Ret _ _ _ E3).
  rewrite (proj2 (Z.eqb_neq n e)) by done.
  rewrite node_next_eq by lia. run (rd32_Ret _ _ _ (nodes_head _ _ _ HL)). apply IH; [done|lia|done].
Qed.

(** The first node with the element leaves the list, but is not given back,
    and the iterator stays where it is. *)
Lemma remove_element_ok fuel s l L1 a e L2 :
  klist s l (L1 ++ (a, e) :: L2) → (length L1 < fuel)%nat → e ∉ L1.*2 →
  ∃ s', remove_element fuel l e s = Ret true s' ∧ klist s' l (L1 ++ L2) ∧
    get32 s' (l + 4) = get32 s (l + 4) ∧ uses s s'.
Proof.
  intros HK Hf He. pose proof HK as (_ & HL & _).
  destruct (pop_node_ok s l L1 a e L2 _ HK eq_refl) as (s1 & E1 & HK1 & _ & _ & _ & _ & U & Hi).
  destruct (chain_node _ _ node_layout _ _ _ _ _ _ HL) as (_ & Ha & Ee & _ & _).
  pose proof (chain_app_inv _ _ _ _ _ _ HL) as (_ & _ & _ & _ & _ & HLt).
  exists s1. split_and!; [|done..]. unfold remove_element, list_head_field.
  run (rd32_Ret _ _ _ (nodes_head _ _ _ HL)). rewrite remove_walk by (done || lia).
  destruct (fuel - length L1)%nat as [|fuel'] eqn:Efu; [lia|]. cbn [remove_element_loop head_of].
  rewrite (proj2 (Z.eqb_neq a NULL)) by (unfold NULL; lia). run (rd32_Ret _ _ _ Ee). rewrite Z.eqb_refl.
  rewrite (node_next_eq a) by lia. run (rd32_Ret _ _ _ (nodes_head _ _ _ HLt)). by run E1.
Qed.

Lemma remove_element_absent fuel s l L e :
  klist s l L → (length L < fuel)%nat → e ∉ L.*2 → remove_element fuel l e s = Ret false s.
Proof.
  intros (_ & HL & _) Hf He. unfold remove_element, list_head_field. run (rd32_Ret _ _ _ (nodes_head _ _ _ HL)).
  rewrite <-(app_nil_r L) in HL |- * at 1. rewrite remove_walk by (done || lia).
  by destruct (fuel - length L)%nat eqn:E; [lia|].
Qed.

(** A walk past the end of the list. *)
Lemma pop_beyond fuel s l c L i :
  nodes s c L → (length L < fuel)%nat → Z.of_nat (length L) ≤ i →
  pop_element_loop fuel l c (head_of L) i s = Ret NULL s.
Proof.
  revert c L i. induction fuel as [|fuel IH]; intros c L i HL Hf Hi; [lia|].
  destruct L as [|[a e] L]; cbn [pop_element_loop head_of]; [by rewrite Z.eqb_refl|].
  destruct HL as (_ & Ha & _ & _ & _ & HL). simpl in Hf, Hi.
  rewrite (proj2 (Z.eqb_neq a NULL)), (proj2 (Z.eqb_neq i 0)) by (unfold NULL; lia).
  rewrite node_next_eq by lia. run (rd32_Ret _ _ _ (nodes_head _ _ _ HL)).
  apply IH; [done|lia|lia].
Qed.
End list_facts.

(** ** Properties *)

Section properties.
Context {S : Type} `{ByteStoreLaws S, !Allocator S, !AllocatorLaws S}.
Implicit Types s : S.

(** [add_element] puts the element at the end of the list in a node of its
    own, and points the iterator at it exactly when the list was empty;
    [size] then counts one more. *)
Theorem add_element_appends fuel s l L e p s0 :
  klist s l L → (length L < fuel)%nat → 0 ≤ e < 2 ^ 32 → Z.of_nat (length L) < 2 ^ 32 - 1 →
  al_malloc sizeof_node s = Ret p s0 → p ≠ NULL →
  ∃ s', add_element fuel l e s = Ret true s' ∧ klist s' l (L ++ [(p, e)]) ∧
    get32 s' (l + 4) = match L with [] => Some p | _ => get32 s (l + 4) end ∧
    size (1 + fuel) l s' = Ret (Z.of_nat (length L) + 1) s'.
Proof.
  intros HK Hf He Hlen Em Hp.
  destruct (add_element_ok fuel s l L e p s0 HK Hf He Em Hp) as (s' & E & HK' & Hi & _).
  exists s'. split_and!; [done..|]. destruct HK' as (Hl & HL & _).
  unfold size. rewrite (proj2 (Z.eqb_neq l NULL)) by (unfold NULL; lia).
  unfold list_head_field. run (rd32_Ret _ _ _ (nodes_head _ _ _ HL)).
  rewrite (size_loop_ok _ _ _ _ _ HL); rewrite ?length_app; simpl; f_equal; lia.
Qed.

(** [pop_element] with an index in range returns that element, takes its
    node out of the list and resets the iterator to the head; with any other
    index it returns [NULL] and changes nothing. *)
Theorem pop_element_spec fuel s l L i :
  klist s l L → (length L < fuel)%nat →
  (∀ a e s1, (a, e) ∈ L → ∃ s2, al_free a s1 = Ret tt s2) →
  if decide (0 ≤ i < Z.of_nat (length L))
  then ∃ L1 a e L2 s', L = L1 ++ (a, e) :: L2 ∧ Z.of_nat (length L1) = i ∧
         pop_element fuel l i s = Ret e s' ∧ klist s' l (L1 ++ L2) ∧
         get32 s' (l + 4) = Some (head_of (L1 ++ L2))
  else pop_element fuel l i s = Ret NULL s.
Proof.
  intros HK Hf Hfree. case_decide as Hi.
  - destruct (lookup_lt_is_Some_2 L (Z.to_nat i)) as [[a e] Hae]; [lia|].
    apply list_elem_of_split_length in Hae as (L1 & L2 & -> & Hlen).
    destruct (pop_element_ok fuel s l L1 a e L2 HK) as (s' & E & HK' & Hi' & _).
    { rewrite length_app in Hf. simpl in Hf. lia. }
    { intros s1. apply (Hfree a e). apply elem_of_app. right. by left. }
    exists L1, a, e, L2, s'. replace i with (Z.of_nat (length L1)) by lia. done.
  - destruct HK as ([Hl Hl'] & HL & _). unfold pop_element.
    rewrite (proj2 (Z.eqb_neq l NULL)) by (unfold NULL; lia). cbn [orb].
    destruct (Z.ltb_spec i 0) as [|Hi0]; [done|].
    unfold list_head_field. run (rd32_Ret _ _ _ (nodes_head _ _ _ HL)).
    by rewrite (pop_beyond fuel s l l L i HL) by (done || lia).
Qed.

(** [n] calls of [iter_list]. *)
Fixpoint iter_times (n : nat) (l : Z) : M S (list Z) :=
  match n with
  | O => mret []
  | Datatypes.S n' =>
      e ← iter_list l;
      rest ← iter_times n' l;
      mret (e :: rest)
  end.

(** Iteration: from the head on, [iter_list] returns the elements one
    after another, then [NULL], and is back at the head; the list is as
    before. *)
Theorem iter_list_visits s l L :
  klist s l L → get32 s (l + 4) = Some (head_of L) →
  ∃ s', iter_times (1 + length L) l s = Ret (map snd L ++ [NULL]) s' ∧
    klist s' l L ∧ get32 s' (l + 4) = Some (head_of L).
Proof.
  cut (∀ L2 L1 s, klist s l (L1 ++ L2) → get32 s (l + 4) = Some (head_of L2) →
    ∃ s', iter_times (1 + length L2) l s = Ret (map snd L2 ++ [NULL]) s' ∧
      klist s' l (L1 ++ L2) ∧ get32 s' (l + 4) = Some (head_of (L1 ++ L2))).
  { intros Hc. exact (Hc L [] s). }
  clear s L. induction L2 as [|[a e] L2 IH]; intros L1 s HK Hi;
    destruct (iter_list_ok s l L1 _ HK Hi) as (s1 & E1 & HK1 & Hi1 & _); cbn [iter_times plus length] in *.
  - run E1. exists s1. rewrite app_nil_r in *. done.
  - change ((a, e) :: L2) with ([(a, e)] ++ L2) in HK1. rewrite app_assoc in HK1.
    destruct (IH _ _ HK1 Hi1) as (s2 & E2 & HK2 & Hi2).
    rewrite <-app_assoc in HK2, Hi2. run E1. run E2. by exists s2.
Qed.
End properties.

(** ** An allocator that keeps the laws *)

(** Memory is handed out from the bottom up and never reused. *)
Record arena := Arena { ar_mem : carray; ar_next : Z }.

#[export] Instance arena_store : ByteStore arena := {
  get8 s a := get8 (ar_mem s) a;
  set8 s a v := (λ m, Arena m (ar_next s)) <$> set8 (ar_mem s) a v
}.

#[export] Instance arena_laws : ByteStoreLaws arena.
Proof.
  split; unfold get8, set8, arena_store.
  - intros s a v. apply get8_range.
  - intros s a v Hm. destruct (set8_total (ar_mem s) a v Hm) as [m E]. rewrite E. by eexists.
  - intros s a v s'. destruct (set8 (ar_mem s) a v) as [m|] eqn:E; [|done]. intros _.
    by eapply set8_mapped.
  - intros s a v s' b. destruct (set8 (ar_mem s) a v) as [m|] eqn:E; [|done]. intros [= <-].
    by apply get8_set8.
Qed.

#[export] Instance arena_allocator : Allocator arena := {
  al_malloc n s :=
    let p := ar_next s in
    if bool_decide (0 < p ∧ 0 ≤ n ∧ p + n ≤ asize (ar_mem s) ∧ p + n < 2 ^ 32)
    then Ret p (Arena (ar_mem s) (p + n)) else Ret NULL s;
  al_free _ s := Ret tt s
}.

#[export] Instance arena_allocator_laws : AllocatorLaws arena.
Proof.
  refine {| al_private s b := ar_next s ≤ b |}.
  - intros s a v s' b. unfold set8, arena_store.
    destruct (set8 (ar_mem s) a v); [|done]. by intros [= <-].
  - intros n s p s'. simpl. case_bool_decide as Hc; [|congruence]. intros [= <- <-] _. simpl.
    split_and!; [lia|lia| |intros b Hb; lia].
    intros b Hb. unfold get8, arena_store, carray_store. cbn. rewrite decide_True by lia. eauto.
  - intros n s p s' b. simpl. case_bool_decide; intros [= <- <-]; simpl; intros Hb.
    + split; [lia|done].
    + done.
  - intros p n s s' b. simpl. by intros [= <-].
Defined.

(** Stores change neither where the arena's free memory begins nor its size. *)
Lemma arena_stores (s s' : arena) : stores s s' → ar_next s' = ar_next s ∧ asize (ar_mem s') = asize (ar_mem s).
Proof.
  induction 1 as [|s1 s2 s3 (a & v & E) _ IH]; [done|]. destruct IH as [-> ->].
  unfold set8, arena_store, carray_store in E. destruct (set8 (ar_mem s1) a v) as [m|] eqn:Em; [|by simplify_option_eq].
  unfold set8 in Em. simpl in *. case_decide; simplify_eq; done.
Qed.

(** Neither does giving memory back: the arena has memory for any blocks that
    fit behind each other. *)
Lemma arena_uses (s s' : arena) : uses s s' → ar_next s' = ar_next s ∧ asize (ar_mem s') = asize (ar_mem s).
Proof.
  induction 1 as [|s1 s2 s3 [(a & v & _ & E)|(p & n & _ & _ & E)] _ IH]; [done| |].
  - destruct IH as [-> ->]. apply arena_stores. apply rtc_once. eauto.
  - by injection E as <-.
Qed.

Lemma arena_memory_for (Q : arena → Prop) ns (s : arena) : (∀ t, Q t) → Forall (λ n, 0 ≤ n) ns → 0 < ar_next s →
  ar_next s + foldr Z.add 0 ns ≤ asize (ar_mem s) → asize (ar_mem s) < 2 ^ 32 → memory_for Q ns s.
Proof.
  intros HQ Hns. revert s. induction Hns as [|n ns Hn Hns IH]; intros s Hp Hs Hb; simpl in *; [done|].
  intros s1 [En Es]%arena_uses.
  assert (∀ l, Forall (λ n, 0 ≤ n) l → 0 ≤ foldr Z.add 0 l) as Hpos.
  { induction 1; simpl; lia. }
  specialize (Hpos ns Hns). rewrite En, Es. rewrite bool_decide_eq_true_2 by lia.
  do 2 eexists. split; [done|]. split; [unfold NULL; lia|]. apply IH; simpl; rewrite ?Es; lia.
Qed.

(** ** The kernel's allocator does not *)

Definition kernel_allocator (no_return : list Z → Z → Z) (kernel_end free_blocks : Z)
    (fuel kfuel : nat) : Allocator kspace := {|
  al_malloc := kernel_kmalloc no_return kernel_end free_blocks fuel kfuel;
  al_free := kfree free_blocks kfuel
|}.

(** [kmalloc] and [kfree] do not keep what the lists rely on: whatever
    part of memory is taken to be the allocator's own, there is a law they
    break.  (They hand out the same bytes twice.) *)
Theorem kernel_allocator_unlawful no_return kernel_end fuel kfuel :
  ¬ inhabited (@AllocatorLaws kspace kspace_store
      (kernel_allocator no_return kernel_end example_free_blocks (1 + fuel) kfuel)).
Proof.
  intros [laws].
  set (al := kernel_allocator no_return kernel_end example_free_blocks (1 + fuel) kfuel) in *.
  destruct (@kmalloc_twice_ok kspace _ _ (kspace_pages no_return kernel_end) example_free_blocks
              (1 + fuel) kfuel (example_one_block 511) 0xC0800000 211 300) as (s1 & s2 & E1 & E2).
  - exact example_one_block_chain.
  - lia.
  - lia.
  - reflexivity.
  - by apply example_page_mapped.
  - by left.
  - lia.
  - destruct (@al_malloc_fresh kspace _ al laws (8 * 211) _ _ _ E1) as (_ & _ & _ & Hp1); [done|].
    destruct (@al_malloc_fresh kspace _ al laws (8 * 300) _ _ _ E2) as (_ & _ & _ & Hp2); [done|].
    destruct (Hp1 (0xC0800000 + 8 * 300)) as [_ Hn]; [lia|].
    apply Hn. apply (Hp2 (0xC0800000 + 8 * 300)). lia.
Qed.

(** [blocks_info] and a [list_t], both in the kernel image. *)
Definition example_list : Z := 0xC0107000.

Definition example_kernel_allocator : Allocator kspace :=
  kernel_allocator example_no_return example_kernel_end example_free_blocks 2 3.

(** Two elements are put into an empty list and taken out again. *)
Definition add_add_pop_pop (x y : Z) : M kspace (Z * Z) :=
  @add_element kspace _ example_kernel_allocator 3 example_list x ;;
  @add_element kspace _ example_kernel_allocator 3 example_list y ;;
  e1 ← @pop_element kspace _ example_kernel_allocator 3 example_list 0;
  e2 ← @pop_element kspace _ example_kernel_allocator 3 example_list 0;
  mret (e1, e2).

(** With the kernel's allocator a list loses elements: of two elements
    added to an empty list, the second comes out as [NULL].  Freeing the
    first node writes the free list's end into the second node, which
    [kmalloc] placed on the first one's header. *)
Theorem list_loses_element :
  ∃ s', add_add_pop_pop 0x1111 0x2222 (example_one_block 511) = Ret (0x1111, NULL) s'.
Proof. eexists. vm_compute. reflexivity. Qed.

(** ** Witnesses *)

Definition example_arena : arena := Arena (CArray 0x1000 ∅) 0x100.

Lemma example_arena_list : klist example_arena 0x10 [].
Proof.
  split_and!; [lia|lia|reflexivity| |constructor| |constructor].
  - intros b Hb. unfold get8, arena_store, carray_store. cbn. rewrite decide_True by lia. eauto.
  - intros b Hb. cbn. lia.
Qed.

(** The list with one element. *)
Definition example_arena_one : arena :=
  match add_element 1 0x10 77 example_arena with Ret _ s => s | _ => example_arena end.

Lemma example_arena_one_list :
  klist example_arena_one 0x10 [(0x100, 77)] ∧ get32 example_arena_one 0x14 = Some 0x100.
Proof.
  destruct (add_element_ok 1 example_arena 0x10 [] 77 0x100 (Arena (CArray 0x1000 ∅) 0x108)
              example_arena_list) as (s' & E & HK & Hi & _); [simpl; lia|lia|reflexivity|done|].
  unfold example_arena_one. rewrite E. split; [exact HK|exact Hi].
Qed.

Lemma add_element_appends_witness :
  ∃ s', add_element 2 0x10 88 example_arena_one = Ret true s' ∧
    klist s' 0x10 [(0x100, 77); (0x108, 88)] ∧ size 3 0x10 s' = Ret 2 s'.
Proof.
  destruct (add_element_appends 2 example_arena_one 0x10 [(0x100, 77)] 88 0x108
              (Arena (ar_mem example_arena_one) 0x110)) as (s' & E & HK & _ & Hsz).
  - exact (proj1 example_arena_one_list).
  - simpl. lia.
  - lia.
  - reflexivity.
  - vm_compute. reflexivity.
  - discriminate.
  - exists s'. split; [exact E|]. split; [exact HK|exact Hsz].
Defined.

Lemma pop_element_spec_witness :
  ∃ L1 a e L2 s', [(0x100, 77)] = L1 ++ (a, e) :: L2 ∧ Z.of_nat (length L1) = 0 ∧
    pop_element 2 0x10 0 example_arena_one = Ret e s' ∧ klist s' 0x10 (L1 ++ L2) ∧
    get32 s' 0x14 = Some (head_of (L1 ++ L2)).
Proof.
  apply (pop_element_spec 2 example_arena_one 0x10 [(0x100, 77)] 0).
  - exact (proj1 example_arena_one_list).
  - simpl. lia.
  - intros a e s1 _. by exists s1.
Defined.

Lemma iter_list_visits_witness :
  ∃ s', iter_times 2 0x10 example_arena_one = Ret [77; NULL] s' ∧
    klist s' 0x10 [(0x100, 77)] ∧ get32 s' 0x14 = Some 0x100.
Proof.
  apply (iter_list_visits example_arena_one 0x10 [(0x100, 77)]).
  - exact (proj1 example_arena_one_list).
  - exact (proj2 example_arena_one_list).
Defined.
