(* ===== verification/ListSpec.v ===== *)
(** * Lists as sequences

    What [list.c] promises: a list is a sequence of words with a place in it,
    where [iter_list] is.  The operations refine this specification, over any
    allocator that keeps the laws and has room. *)

From S2P Require Import Prelude Refine Memory Chain Kmalloc KList.

(** The elements, how many of them the iterator has passed, and for how many
    more there is memory. *)
Record sequence := Sequence { items : list Z; cursor : nat; room : nat }.

#[export] Instance sequence_eq_dec : EqDecision sequence.
Proof. solve_decision. Defined.

Inductive list_op := Add (e : Z) | Pop (i : Z) | Remove (e : Z) | Size | Empty | Next.
Inductive list_out := Element (e : Z) | Flag (b : bool) | Count (n : Z).

(** Which element a removal takes. *)
Definition first_index (e : Z) (xs : list Z) : option nat := fst <$> list_find (e =.) xs.

(** Adding does not move the iterator; at the end of a list that is not empty
    it stays at the end.  [pop_element] sends it back to the head.  When the
    element at the iterator is removed, the iterator is left on the node that
    was taken out, and nothing is promised. *)
Definition sequence_spec (a : sequence) (o : list_op) : option (list_out * sequence) :=
  let '(Sequence xs c r) := a in
  match o with
  | Add e =>
      match r with
      | O => None
      | Datatypes.S r' =>
          if decide (0 ≤ e < 2 ^ 32) then
            let at_end := bool_decide (c = length xs ∧ xs ≠ []) in
            Some (Flag true, Sequence (xs ++ [e]) (if at_end then Datatypes.S c else c) r')
          else None
      end
  | Pop i =>
      if decide (0 ≤ i) then
        match xs !! Z.to_nat i with
        | Some e => Some (Element e, Sequence (delete (Z.to_nat i) xs) 0 r)
        | None => Some (Element NULL, a)
        end
      else Some (Element NULL, a)
  | Remove e =>
      match first_index e xs with
      | Some i =>
          if decide (i = c) then None
          else Some (Flag true, Sequence (delete i xs) (if decide (i < c)%nat then pred c else c) r)
      | None => Some (Flag false, a)
      end
  | Size => Some (Count (Z.of_nat (length xs)), a)
  | Empty => Some (Flag (bool_decide (xs = [])), a)
  | Next =>
      match xs !! c with
      | Some e => Some (Element e, Sequence xs (Datatypes.S c) r)
      | None => Some (Element NULL, Sequence xs 0 r)
      end
  end.

Section list_refinement.
Context {S : Type} `{ByteStoreLaws S, !Allocator S, !AllocatorLaws S}.
Implicit Types s : S.
Variable fuel : nat.
Variable l : Z.
(** Giving memory back returns. *)
Hypothesis free_returns : ∀ a s, ∃ s', al_free a s = Ret tt s'.

Definition run_list (o : list_op) : M S list_out :=
  match o with
  | Add e => b ← add_element fuel l e; mret (Flag b)
  | Pop i => e ← pop_element fuel l i; mret (Element e)
  | Remove e => b ← remove_element fuel l e; mret (Flag b)
  | Size => n ← size fuel l; mret (Count n)
  | Empty => b ← is_empty l; mret (Flag b)
  | Next => e ← iter_list l; mret (Element e)
  end.

(** The list at [l] holds the sequence. *)
Definition holds (a : sequence) s : Prop := ∃ L,
  klist s l L ∧ items a = L.*2 ∧ (cursor a ≤ length L)%nat ∧
  get32 s (l + 4) = Some (head_of (drop (cursor a) L)) ∧
  memory_for (λ _, True) (replicate (room a) sizeof_node) s ∧
  (length L + room a < fuel)%nat ∧ Z.of_nat fuel ≤ 2 ^ 32.

Lemma nodes_split (L : list (Z * Z)) i e : L.*2 !! i = Some e → ∃ L1 a L2, L = L1 ++ (a, e) :: L2 ∧ length L1 = i.
Proof.
  rewrite list_lookup_fmap. intros ([a n] & E & [= ->])%fmap_Some.
  apply list_elem_of_split_length in E as (L1 & L2 & -> & Hl). by exists L1, a, L2.
Qed.

Lemma delete_node (L1 L2 : list (Z * Z)) a e : delete (length L1) ((L1 ++ (a, e) :: L2).*2) = (L1 ++ L2).*2.
Proof. rewrite <-list_fmap_delete. f_equal. by rewrite delete_middle. Qed.

Lemma add_refines xs c r e s : holds (Sequence xs c (Datatypes.S r)) s → 0 ≤ e < 2 ^ 32 →
  ∃ s', add_element fuel l e s = Ret true s' ∧
    holds (Sequence (xs ++ [e]) (if bool_decide (c = length xs ∧ xs ≠ []) then Datatypes.S c else c) r) s'.
Proof.
  intros (L & HK & Hxs & Hc & Hi & Hm & Hf & Hf') He. simpl in *. subst xs.
  destruct (memory_for_next _ _ _ _ Hm) as (p & s0 & Em & Hp & Hm0).
  destruct (add_element_ok fuel s l L e p s0 HK) as (s1 & E & HK1 & Hi1 & U); [lia|done..|].
  exists s1. split; [done|]. exists (L ++ [(p, e)]). simpl. rewrite length_fmap, length_app. simpl.
  split_and!; [done|by rewrite fmap_app|case_bool_decide; lia| |by eapply memory_for_uses|lia|done].
  rewrite Hi1. destruct L as [|nd L]; [by destruct c; [|simpl in Hc; lia]|]. rewrite Hi. f_equal.
  case_bool_decide as Hd.
  - destruct Hd as [-> _]. rewrite !drop_ge; rewrite ?length_app; simpl; lia || done.
  - assert (c < length (nd :: L))%nat as Hc' by (destruct (decide (c = length (nd :: L))) as [->|]; [by destruct Hd|simpl in *; lia]).
    rewrite drop_app_le by lia. by destruct (drop c (nd :: L)) eqn:Ed; [apply (f_equal length) in Ed; rewrite length_drop in Ed; simpl in *; lia|].
Qed.

Lemma pop_refines xs c r i s e : holds (Sequence xs c r) s → 0 ≤ i → xs !! Z.to_nat i = Some e →
  ∃ s', pop_element fuel l i s = Ret e s' ∧ holds (Sequence (delete (Z.to_nat i) xs) 0 r) s'.
Proof.
  intros (L & HK & Hxs & Hc & Hi & Hm & Hf & Hf') Hi0 Hx. simpl in *. subst xs.
  destruct (nodes_split _ _ _ Hx) as (L1 & a & L2 & -> & Hl). rewrite length_app in Hf. simpl in Hf.
  destruct (pop_element_ok fuel s l L1 a e L2 HK) as (s' & E & HK' & Hi' & U); [lia|apply free_returns|].
  rewrite Hl, Z2Nat.id in E by lia. exists s'. split; [done|]. exists (L1 ++ L2). simpl. rewrite <-Hl, delete_node, length_app.
  split_and!; [done|done|lia|done|by eapply memory_for_uses|lia|done].
Qed.

Lemma remove_refines xs c r i s e : holds (Sequence xs c r) s → first_index e xs = Some i → i ≠ c →
  ∃ s', remove_element fuel l e s = Ret true s' ∧
    holds (Sequence (delete i xs) (if decide (i < c)%nat then pred c else c) r) s'.
Proof.
  intros (L & HK & Hxs & Hc & Hi & Hm & Hf & Hf') Hx Hne. simpl in *. subst xs. unfold first_index in Hx.
  apply fmap_Some in Hx as ([j y] & (Hx & <- & Hbefore)%list_find_Some & ->). simpl in *.
  destruct (nodes_split _ _ _ Hx) as (L1 & a & L2 & -> & <-). rewrite !length_app in Hf, Hc. simpl in Hf, Hc.
  destruct (remove_element_ok fuel s l L1 a e L2 HK) as (s' & E & HK' & Hi' & U); [lia| |].
  { intros (k & Hk)%list_elem_of_lookup. pose proof (lookup_lt_Some _ _ _ Hk) as Hlt. rewrite length_fmap in Hlt.
    apply (Hbefore k e); [|lia|done]. rewrite fmap_app, lookup_app_l; [done|by rewrite length_fmap]. }
  exists s'. split; [done|]. exists (L1 ++ L2). simpl. rewrite delete_node, length_app.
  split_and!; [done|done|case_decide; lia| |by eapply memory_for_uses|lia|done].
  rewrite Hi', Hi. f_equal. case_decide.
  - rewrite !drop_app_ge by lia. replace (c - length L1)%nat with (Datatypes.S (pred c - length L1)) by lia. done.
  - rewrite !drop_app_le by lia. destruct (drop c L1) eqn:Ed; [|done].
    apply (f_equal length) in Ed. rewrite length_drop in Ed. simpl in Ed. lia.
Qed.

Lemma next_refines xs c r s : holds (Sequence xs c r) s →
  ∃ s', iter_list l s = Ret (default NULL (xs !! c)) s' ∧
    holds (Sequence xs (match xs !! c with Some _ => Datatypes.S c | None => O end) r) s'.
Proof.
  intros (L & HK & Hxs & Hc & Hi & Hm & Hf & Hf'). simpl in *. subst xs.
  pose proof HK as HK0. rewrite <-(take_drop c L) in HK.
  destruct (iter_list_ok s l (take c L) (drop c L) HK Hi) as (s' & E & HK' & Hi' & U). rewrite take_drop in HK'.
  rewrite list_lookup_fmap. destruct (L !! c) as [[a e]|] eqn:Ec.
  - rewrite (drop_S _ _ _ Ec) in E, Hi'. exists s'. split; [exact E|]. exists L. simpl.
    split_and!; [done|done|by eapply lookup_lt_Some|done|by eapply memory_for_uses|done|done].
  - apply lookup_ge_None in Ec. rewrite drop_ge in E, Hi' by done. exists s'. split; [exact E|]. exists L. simpl.
    split_and!; [done|done|lia| |by eapply memory_for_uses|done|done].
    rewrite take_ge in Hi' by done. by rewrite drop_0.
Qed.

(** The operations that change nothing. *)
Lemma observe_refines xs c r s : holds (Sequence xs c r) s →
  size fuel l s = Ret (Z.of_nat (length xs)) s ∧ is_empty l s = Ret (bool_decide (xs = [])) s ∧
  (∀ i, ¬ (0 ≤ i ∧ is_Some (xs !! Z.to_nat i)) → pop_element fuel l i s = Ret NULL s) ∧
  (∀ e, first_index e xs = None → remove_element fuel l e s = Ret false s).
Proof.
  intros (L & HK & Hxs & Hc & Hi & Hm & Hf & Hf'). simpl in *. subst xs.
  pose proof HK as ([Hl Hl'] & HL & _). assert ((l =? NULL) = false) as Hn by (apply Z.eqb_neq; unfold NULL; lia).
  pose proof (rd32_Ret _ _ _ (nodes_head _ _ _ HL)) as Rh. unfold size, is_empty, pop_element, list_head_field. rewrite Hn. split_and!.
  - run Rh. rewrite (size_loop_ok _ _ _ _ _ HL) by lia. by rewrite length_fmap.
  - cbn [negb]. run Rh. destruct L as [|[a e] L]; cbn [head_of]; [done|].
    destruct HL as (_ & Ha & _). by rewrite (proj2 (Z.eqb_neq a NULL)) by (unfold NULL; lia).
  - intros i Hx. cbn [orb]. destruct (Z.ltb_spec i 0); [done|]. run Rh. rewrite (pop_beyond _ _ _ _ L); [done|done|lia|].
    destruct (Z.le_gt_cases (Z.of_nat (length L)) i); [done|]. destruct Hx. split; [lia|].
    apply lookup_lt_is_Some_2. rewrite length_fmap. lia.
  - intros e He. apply (remove_element_absent fuel s l L); [done|lia|]. unfold first_index in He.
    apply fmap_None, list_find_None in He. rewrite Forall_forall in He. intros Hin. by apply (He _ Hin).
Qed.

(** A new list is the empty sequence. *)
Lemma initialize_holds s n : 0 < l < 2 ^ 32 - 8 → mapped s l 8 → owned s l 8 →
  memory_for (λ _, True) (replicate n sizeof_node) s → (n < fuel)%nat → Z.of_nat fuel ≤ 2 ^ 32 →
  ∃ s', initialize_list l s = Ret None s' ∧ holds (Sequence [] 0 n) s'.
Proof.
  intros Hl Hm Ho Hmem Hn Hf.
  assert (owned s l 4 ∧ owned s (l + 4) 4) as [Ho1 Ho2] by (split; intros b Hb; apply Ho; lia).
  destruct (wr32_owned s l NULL) as (s1 & E1 & G1 & W1 & M1 & O1); [apply (mapped_sub s l 8); [done|lia..]|done|unfold NULL; lia|].
  destruct (wr32_owned s1 (l + 4) NULL) as (s2 & E2 & G2 & W2 & M2 & O2);
    [apply M1, (mapped_sub s l 8); [done|lia..]|by apply O1|unfold NULL; lia|].
  exists s2. split.
  - unfold initialize_list, list_head_field. rewrite (proj2 (Z.eqb_neq l NULL)) by (unfold NULL; lia).
    rewrite list_iter_node_eq by done. run E1. run (rd32_Ret _ _ _ G1). by run E2.
  - exists []. simpl. split_and!; try done.
    + split_and!; [lia|lia| |apply M2, M1, (mapped_sub s l 8); [done|lia..]|constructor|by apply O2, O1|constructor].
      simpl. rewrite <-G1. apply get32_ext. intros b Hb. apply W2. lia.
    + eapply memory_for_uses; [done|]. eapply uses_trans; (eapply wr32_uses; [done|]); [done|by apply O1].
Qed.

(** The nodes one after another, without the cell that leads to the first. *)
Fixpoint linked s (L : list (Z * Z)) : Prop :=
  match L with
  | [] => True
  | (a, _) :: L' => 0 < a < 2 ^ 32 - 8 ∧ get32 s (a + 4) = Some (head_of L') ∧ node_apart a L' ∧ owned s a 8 ∧ linked s L'
  end.

Lemma linked_nodes s c L : nodes s c L → Forall (λ nd : Z * Z, owned s nd.1 8) L → linked s L.
Proof.
  revert c. induction L as [|[a e] L IH]; intros c HL HF; [done|]. destruct HL as (_ & Ha & _ & _ & Hap & HL).
  apply Forall_cons in HF as [Ho HF]. cbn [linked]. split_and!; [lia|lia|by eapply nodes_head|done|done|by eapply IH].
Qed.

Lemma linked_keep s s' a L : linked s L → node_apart a L →
  (∀ b, ¬ (a ≤ b < a + 8) → ¬ al_private s b → ¬ al_private s' b ∧ get8 s' b = get8 s b) → linked s' L.
Proof.
  intros HL Ha Hk. induction L as [|[x e] L IH]; [done|]. destruct HL as (Hx & E & Hap & Ho & HL).
  apply Forall_cons in Ha as [Hax Ha]. simpl in Hax. cbn [linked]. split_and!; [lia|lia| |done| |by apply IH].
  - rewrite <-E. apply get32_ext. intros b Hb. apply Hk; [lia|]. apply Ho. lia.
  - intros b Hb. apply Hk; [lia|by apply Ho].
Qed.

(** [free_list] gives the nodes back, each after its link was read. *)
Lemma free_list_loop_ok n s L : linked s L → (length L < n)%nat →
  ∃ s', free_list_loop n (head_of L) s = Ret tt s' ∧
    ∀ b, ¬ al_private s b → Forall (λ nd : Z * Z, ¬ nd.1 ≤ b < nd.1 + 8) L → ¬ al_private s' b ∧ get8 s' b = get8 s b.
Proof.
  revert s L. induction n as [|n IH]; intros s L HL Hn; [lia|].
  destruct L as [|[a e] L]; cbn [free_list_loop head_of]; [by exists s|].
  destruct HL as (Ha & E & Hap & Ho & HL). rewrite (proj2 (Z.eqb_neq a NULL)) by (unfold NULL; lia).
  rewrite node_next_eq by lia. unfold node_link. run (rd32_Ret _ _ _ E). destruct (free_returns a s) as [s1 E1]. run E1.
  assert (∀ b, ¬ (a ≤ b < a + 8) → ¬ al_private s b → ¬ al_private s1 b ∧ get8 s1 b = get8 s b) as Hk
    by (intros b Hb; by apply (al_free_keeps a 8 s s1 b E1)).
  destruct (IH s1 L) as (s2 & E2 & Hk2); [by eapply linked_keep|simpl in Hn; lia|].
  exists s2. split; [done|]. intros b Hb [Hb1 Hb2]%Forall_cons. destruct (Hk b Hb1 Hb) as [Hp1 Eb1].
  destruct (Hk2 b Hp1 Hb2) as [Hp2 Eb2]. split; [done|congruence].
Qed.

#[export] Instance list_refines : Refines run_list sequence_spec holds.
Proof.
  intros [xs c r] s o out a' HR E. destruct (observe_refines xs c r s HR) as (Rs & Re & Rp & Rr).
  destruct o as [e|i|e| | |]; unfold run_list; cbn [sequence_spec] in E.
  - destruct r as [|r]; [done|]. case_decide; [|done]. injection E as <- <-.
    destruct (add_refines xs c r e s HR) as (s' & E' & HR'); [done|]. exists s'. by run E'.
  - destruct (decide (0 ≤ i)) as [Hi|Hi]; [destruct (xs !! Z.to_nat i) as [e|] eqn:Ex|]; injection E as <- <-.
    + destruct (pop_refines xs c r i s e HR Hi Ex) as (s' & E' & HR'). exists s'. by run E'.
    + exists s. split; [|done]. assert (pop_element fuel l i s = Ret NULL s) as R0 by (apply Rp; rewrite Ex; by intros [_ []%is_Some_None]).
      by run R0.
    + exists s. split; [|done]. by run (Rp i ltac:(tauto)).
  - destruct (first_index e xs) as [i|] eqn:Ex; [case_decide; [done|]|]; injection E as <- <-.
    + destruct (remove_refines xs c r i s e HR Ex) as (s' & E' & HR'); [done|]. exists s'. by run E'.
    + exists s. split; [|done]. by run (Rr e Ex).
  - injection E as <- <-. exists s. split; [by run Rs|done].
  - injection E as <- <-. exists s. split; [by run Re|done].
  - destruct (next_refines xs c r s HR) as (s' & E' & HR'). exists s'.
    destruct (xs !! c) as [e|]; injection E as <- <-; by run E'.
Qed.
End list_refinement.

(** ** Properties *)


(** The end of a list: [free_list] returns, having given back its nodes, and
    nothing else of the program's memory changes - the list itself among it,
    whose head and iterator still lead to the nodes that are gone. *)
Theorem free_list_spec {S : Type} `{ByteStoreLaws S, !Allocator S, !AllocatorLaws S} fuel l a (s : S) :
  (∀ p t, ∃ t', al_free p t = Ret tt t') → holds fuel l a s →
  ∃ s' ns, length ns = length (items a) ∧ free_list fuel l s = Ret tt s' ∧
    (∀ b, ¬ al_private s b → Forall (λ n, ¬ n ≤ b < n + 8) ns → ¬ al_private s' b ∧ get8 s' b = get8 s b) ∧
    get32 s' l = get32 s l ∧ get32 s' (l + 4) = get32 s (l + 4).
Proof.
  intros Hfree (L & ([Hl Hl'] & HL & Hm & Hap & Ho & HF) & Hxs & _ & _ & _ & Hf & _).
  destruct (free_list_loop_ok Hfree fuel s L) as (s' & E & Hk); [by eapply linked_nodes|lia|].
  exists s', L.*1. rewrite Hxs, !length_fmap.
  assert (∀ b, l ≤ b < l + 8 → get8 s' b = get8 s b) as Hkl.
  { intros b Hb. apply Hk; [by apply Ho|]. eapply Forall_impl; [exact Hap|]. intros nd Hnd. simpl in Hnd. lia. }
  split_and!; [done| | | |].
  - unfold free_list, list_head_field. by run (rd32_Ret _ _ _ (nodes_head _ _ _ HL)).
  - intros b Hb Hns. apply Hk; [done|]. by rewrite Forall_fmap in Hns.
  - apply get32_ext. intros b Hb. apply Hkl. lia.
  - apply get32_ext. intros b Hb. apply Hkl. lia.
Qed.

(** ** Witnesses *)

(** Two elements are added; the second is passed over, the first removed; a
    third is added and the list iterated over to its end and beyond. *)
Definition example_client : client list_op list_out :=
  operations [Add 7; Add 8; Next; Next; Remove 7; Add 9; Next; Next; Next; Pop 1; Pop 1; Size; Empty].


(** The list of one element, freed. *)
Lemma free_list_spec_witness :
  ∃ s', free_list 2 0x10 example_arena_one = Ret tt s' ∧ get32 s' 0x10 = Some 0x100.
Proof.
  destruct (free_list_spec 2 0x10 (Sequence [77] 0 0) example_arena_one) as (s' & ns & _ & E & _ & Eh & _).
  - intros p t. by exists t.
  - destruct example_arena_one_list as [HK Hi]. exists [(0x100, 77)].
    split; [exact HK|]. split; [reflexivity|]. split; [apply Nat.le_0_l|]. split; [exact Hi|].
    split; [intros s1 _; exact I|]. split; [cbn [length room]; lia|lia].
  - exists s'. split; [exact E|]. etransitivity; [exact Eh|]. vm_compute. reflexivity.
Defined.
