(* ===== verification/Initrd.v ===== *)
(** * The initial ramdisk: [kernel/fs/initrd.c]

    A read-only file system image in memory: the number of inodes, the inode
    table, the files' contents.  The structures of [include/fs/vfs.h] are laid
    out byte by byte, as the compiler does; a pointer to one is its address. *)

From S2P Require Import Prelude Memory Chain CString Bitmap Phys Paging Kheap Kmalloc KList.

(** ** [include/fs/vfs.h] *)

(** [fs_node_t] *)
Definition fs_node_name (node : Z) : Z := node.
Definition fs_node_size (node : Z) : Z := u32 (node + 148).
Definition fs_node_fs_specific (node : Z) : Z := u32 (node + 152).
Definition fs_node_fs (node : Z) : Z := u32 (node + 156).
Definition sizeof_fs_node : Z := 164.

(** [file_system_t] *)
Definition fs_fs_specific (fs : Z) : Z := u32 (fs + 24).
Definition fs_partition_begin_offset (fs : Z) : Z := u32 (fs + 28).
Definition fs_partition_end_offset (fs : Z) : Z := u32 (fs + 32).
Definition fs_read (fs : Z) : Z := u32 (fs + 36).
Definition fs_write (fs : Z) : Z := u32 (fs + 40).
Definition fs_open (fs : Z) : Z := u32 (fs + 44).
Definition fs_close (fs : Z) : Z := u32 (fs + 48).

(** ** [kernel/fs/initrd.c] *)

(** [initrd_inode_t], packed *)
Definition inode_offset_from_start (inode : Z) : Z := inode.
Definition inode_size (inode : Z) : Z := u32 (inode + 4).
Definition inode_name (inode : Z) : Z := u32 (inode + 8).
Definition sizeof_initrd_inode : Z := 28.

Section initrd_c.
Context {S : Type} `{ByteStore S, Allocator S}.
(** Fuel for the loops over strings. *)
Variable sfuel : nat.

(** [for(int i = 0; i < number_of_inodes; i++)], [n] iterations left. *)
Fixpoint initrd_search_loop (n : nat) (i inode_table_start name : Z) : M S Z :=
  match n with
  | O => mret NULL
  | Datatypes.S n' =>
      let inode := u32 (inode_table_start + i * sizeof_initrd_inode) in
      r ← strcmp sfuel (inode_name inode) name;
      if r =? 0 then mret inode
      else if i =? INT_MAX then mfault
      else initrd_search_loop n' (i + 1) inode_table_start name
  end.

Definition initrd_search_inode_table (inode_table_start number_of_inodes name : Z) : M S Z :=
  initrd_search_loop (Z.to_nat number_of_inodes) 0 inode_table_start name.

Definition initrd_open (fs path : Z) : M S Z :=
  if (fs =? NULL) || (path =? NULL) then mret NULL
  else
    c ← rd8 path;
    let path := if c =? 47 then u32 (path + 1) else path in
    initrd_start_addr ← rd32 (fs_partition_begin_offset fs);
    number_of_inodes ← rd32 initrd_start_addr;
    requested_inode ← initrd_search_inode_table (u32 (initrd_start_addr + 4)) number_of_inodes path;
    if requested_inode =? NULL then mret NULL
    else
      fs_node ← al_malloc sizeof_fs_node;
      if fs_node =? NULL then mret NULL
      else
        n ← strlen sfuel (inode_name requested_inode);
        memcpy (fs_node_name fs_node) (inode_name requested_inode) (i32 (n + 1)) ;;
        count ← rd32 initrd_start_addr;
        let inode_table_end_addr := u32 (initrd_start_addr + 4 + u32 (count * sizeof_initrd_inode)) in
        offset ← rd32 (inode_offset_from_start requested_inode);
        wr32 (fs_node_fs_specific fs_node) (u32 (inode_table_end_addr + offset)) ;;
        size ← rd32 (inode_size requested_inode);
        wr32 (fs_node_size fs_node) size ;;
        wr32 (fs_node_fs fs_node) fs ;;
        mret fs_node.

Definition initrd_close (node : Z) : M S unit :=
  if negb (node =? NULL) then al_free node else mret tt.

Definition initrd_read (node offset length buffer : Z) : M S Z :=
  if (node =? NULL) || (offset <? 0) || (length <=? 0) || (buffer =? NULL) then mret 0
  else
    size ← rd32 (fs_node_size node);
    if size <? u32 (offset + length) then mret 0
    else
      file_address ← rd32 (fs_node_fs_specific node);
      memcpy buffer (u32 (file_address + offset)) (i32 length) ;;
      mret length.
End initrd_c.

(** ** The image *)

Section image.
Context {S : Type} `{ByteStoreLaws S}.
Implicit Types s : S.

(** The inode table at [start] has the [names], in order. *)
Definition inode_names s (start : Z) (names : list (list Z)) : Prop :=
  0 ≤ start ∧ start + Z.of_nat (length names) * 28 < 2 ^ 31 * 2 ∧ Z.of_nat (length names) < INT_MAX ∧
  ∀ i xs, names !! i = Some xs → cstr s (start + Z.of_nat i * 28 + 8) xs.

(** The address of the first inode with a name, or [NULL]. *)
Fixpoint first_named (start : Z) (names : list (list Z)) (name : list Z) : Z :=
  match names with
  | [] => NULL
  | xs :: names' => if decide (xs = name) then start else first_named (start + 28) names' name
  end.

Lemma initrd_search_loop_ok sfuel s start all names i np name :
  inode_names s start all → cstr s np name → (length name < sfuel)%nat →
  Forall (λ xs, (length xs < sfuel)%nat) all → names = drop i all → (i ≤ length all)%nat →
  initrd_search_loop sfuel (length names) (Z.of_nat i) start np s
  = Ret (first_named (start + Z.of_nat i * 28) names name) s.
Proof.
  intros (Hst & Hr & Hlen & Hn) Hname Hf HF. revert i. induction names as [|xs names IH]; intros i Hd Hi; [done|].
  assert (all !! i = Some xs) as Hxs by (rewrite <-(Nat.add_0_r i), <-lookup_drop, <-Hd; done).
  assert (i < length all)%nat by (by eapply lookup_lt_Some).
  pose proof (Hn _ _ Hxs) as Hc. rewrite Forall_forall in HF.
  pose proof (HF xs (list_elem_of_lookup_2 _ _ _ Hxs)) as Hfx.
  cbn [initrd_search_loop length first_named]. unfold sizeof_initrd_inode, inode_name.
  rewrite (u32_small (start + Z.of_nat i * 28)) by lia.
  pose proof (cstr_range _ _ _ Hc). rewrite u32_small by lia.
  run (strcmp_ok sfuel s _ _ xs name Hc Hname Hfx).
  pose proof (strcmp_ref_zero xs name (cstr_bytes _ _ _ Hc) (cstr_bytes _ _ _ Hname)) as Hz.
  destruct (Z.eqb_spec (strcmp_ref xs name) 0) as [E|E].
  - rewrite decide_True by tauto. done.
  - rewrite decide_False by tauto. rewrite (proj2 (Z.eqb_neq _ INT_MAX)) by lia.
    replace (Z.of_nat i + 1) with (Z.of_nat (Datatypes.S i)) by lia.
    rewrite (IH (Datatypes.S i)); [|by rewrite (drop_S _ xs) in Hd; [injection Hd|]|lia].
    by replace (start + Z.of_nat (Datatypes.S i) * 28) with (start + Z.of_nat i * 28 + 28) by lia.
Qed.

Lemma first_named_spec start names name :
  0 < start →
  first_named start names name = NULL ∧ name ∉ names ∨
  ∃ i, names !! i = Some name ∧ first_named start names name = start + Z.of_nat i * 28 ∧
       ∀ j, (j < i)%nat → names !! j ≠ Some name.
Proof.
  revert start. induction names as [|xs names IH]; intros start Hs; simpl.
  - left. split; [done|apply not_elem_of_nil].
  - case_decide as E.
    + subst. right. exists 0%nat. split_and!; [done|simpl; lia|lia].
    + destruct (IH (start + 28)) as [[-> Hn]|(i & Hi & -> & Hj)]; [lia| |].
      * left. split; [done|]. rewrite not_elem_of_cons. split; [congruence|done].
      * right. exists (Datatypes.S i). split_and!; [done|lia|].
        intros [|j] Hlt; simpl; [congruence|apply Hj; lia].
Qed.

Lemma initrd_search_ok sfuel s start names np name :
  inode_names s start names → cstr s np name → (length name < sfuel)%nat →
  Forall (λ xs, (length xs < sfuel)%nat) names →
  initrd_search_inode_table sfuel start (Z.of_nat (length names)) np s
  = Ret (first_named start names name) s.
Proof.
  intros Hn Hname Hf HF. unfold initrd_search_inode_table. rewrite Nat2Z.id.
  pose proof (initrd_search_loop_ok sfuel s start names names 0 np name Hn Hname Hf HF eq_refl ltac:(lia)) as E.
  change (Z.of_nat 0) with 0 in E. by rewrite Z.mul_0_l, Z.add_0_r in E.
Qed.

Lemma strlen_ok fuel s p xs k :
  cstr s p xs → (length xs < fuel)%nat → 0 ≤ k → k + Z.of_nat (length xs) < 2 ^ 32 →
  strlen_loop fuel p k s = Ret (k + Z.of_nat (length xs)) s.
Proof.
  revert p xs k. induction fuel as [|fuel IH]; intros p xs k Hc Hf Hk Hr; [lia|]. cbn [strlen_loop].
  run (rd8_Ret _ _ _ (cstr_first _ _ _ Hc)). destruct xs as [|x xs]; cbn [first_byte].
  - rewrite Z.eqb_refl. by rewrite Z.add_0_r.
  - destruct Hc as (Hp & Hx & _ & Hc). simpl in Hf, Hr.
    rewrite (proj2 (Z.eqb_neq x 0)) by done. rewrite !u32_small by lia.
    rewrite (IH _ xs) by (done || lia). f_equal. simpl. lia.
Qed.

(** A string of [length] characters is one byte longer in memory. *)
Lemma cstr_mapped s p xs : cstr s p xs → mapped s p (Z.of_nat (length xs) + 1).
Proof.
  revert p. induction xs as [|x xs IH]; intros p Hc b Hb; simpl in *.
  - replace b with p by lia. destruct Hc as [_ ->]. eauto.
  - destruct Hc as (_ & _ & E & Hc). destruct (decide (b = p)) as [->|]; [rewrite E; eauto|].
    apply (IH (p + 1)); [done|lia].
Qed.

(** The same bytes elsewhere are the same string. *)
Lemma cstr_moved s s' dst src xs :
  cstr s src xs → 0 ≤ dst → dst + Z.of_nat (length xs) < 2 ^ 32 - 1 →
  (∀ k, 0 ≤ k ≤ Z.of_nat (length xs) → get8 s' (dst + k) = get8 s (src + k)) → cstr s' dst xs.
Proof.
  revert dst src. induction xs as [|x xs IH]; intros dst src Hc Hd Hr He; simpl in *.
  - split; [lia|]. destruct Hc as [_ E]. specialize (He 0). rewrite !Z.add_0_r in He. by rewrite He.
  - destruct Hc as (_ & Hx & E & Hc). split; [lia|]. split; [done|]. split.
    + specialize (He 0). rewrite !Z.add_0_r in He. by rewrite He by lia.
    + apply (IH _ (src + 1)); [done|lia|lia|]. intros k Hk. rewrite <-!Z.add_assoc. apply He. lia.
Qed.
End image.

(** ** Opening a file *)

Section opening.
Context {S : Type} `{ByteStoreLaws S, !Allocator S, !AllocatorLaws S}.
Implicit Types s : S.

(** An image at [img] with [files]: name, size and offset of each; the image's
    head and the [file_system_t] at [fs] belong to the program. *)
Definition initrd_image s (fs img : Z) (files : list (list Z * Z * Z)) : Prop :=
  let n := Z.of_nat (length files) in
  0 < fs ∧ fs + 56 < 2 ^ 32 ∧ 0 < img ∧
  get32 s (fs + 28) = Some img ∧ get32 s img = Some n ∧
  inode_names s (img + 4) (map (λ f, f.1.1) files) ∧
  owned s img (4 + n * 28) ∧
  ∀ i xs size offset, files !! i = Some (xs, size, offset) →
    let inode := img + 4 + Z.of_nat i * 28 in
    get32 s inode = Some offset ∧ get32 s (inode + 4) = Some size ∧ (length xs < 20)%nat.

(** The program's own words survive an allocation. *)
Lemma kept_word s s' n p a v :
  al_malloc n s = Ret p s' → owned s a 4 → get32 s a = Some v → get32 s' a = Some v.
Proof.
  intros E Ho <-. apply get32_ext. intros b Hb. eapply al_malloc_keeps; [done|]. by apply Ho.
Qed.

(** Three words stored apart from each other. *)
Lemma set_words_ok s a b c x y z :
  mapped s a 4 → mapped s b 4 → mapped s c 4 →
  a + 4 ≤ b ∨ b + 4 ≤ a → a + 4 ≤ c ∨ c + 4 ≤ a → b + 4 ≤ c ∨ c + 4 ≤ b →
  ∃ s1 s2 s3, wr32 a x s = Ret tt s1 ∧ wr32 b y s1 = Ret tt s2 ∧ wr32 c z s2 = Ret tt s3 ∧
    get32 s3 a = Some (u32 x) ∧ get32 s3 b = Some (u32 y) ∧ get32 s3 c = Some (u32 z) ∧
    same_but a 4 s s1 ∧ same_but b 4 s1 s2 ∧ same_but c 4 s2 s3.
Proof.
  intros Ha Hb Hc H1 H2 H3.
  destruct (wr32_Ret s a x Ha) as (s1 & E1 & W1).
  destruct (wr32_Ret s1 b y) as (s2 & E2 & W2); [by eapply stored32_mapped|].
  destruct (wr32_Ret s2 c z) as (s3 & E3 & W3); [do 2 (eapply stored32_mapped; [done|]); done|].
  exists s1, s2, s3. split_and!; try done; try by eapply stored32_same_but.
  - rewrite (stored32_other _ _ _ _ a W3), (stored32_other _ _ _ _ a W2) by lia. by apply (stored32_same a x s).
  - rewrite (stored32_other _ _ _ _ b W3) by lia. by apply (stored32_same b y s1).
  - by apply (stored32_same c z s2).
Qed.

(** The first file of a name is found at its place in the table. *)
Lemma first_named_files start (files : list (list Z * Z * Z)) name size offset i :
  0 < start → files !! i = Some (name, size, offset) →
  (∀ j f, (j < i)%nat → files !! j = Some f → f.1.1 ≠ name) →
  first_named start (map (λ f, f.1.1) files) name = start + Z.of_nat i * 28.
Proof.
  intros Hs Hi Hfirst.
  destruct (first_named_spec start (map (λ f, f.1.1) files) name) as [[_ Hn]|(k & Hk & -> & Hj)]; [done| |].
  - destruct Hn. apply list_elem_of_fmap. exists (name, size, offset). split; [done|].
    by eapply list_elem_of_lookup_2.
  - rewrite list_lookup_fmap in Hk. apply fmap_Some in Hk as (f & Hk & Hkn).
    destruct (decide (k = i)) as [->|]; [done|]. destruct (decide (k < i)%nat).
    + by destruct (Hfirst k f).
    + destruct (Hj i); [lia|]. by rewrite list_lookup_fmap, Hi.
Qed.

(** [np] is [path] without its first slash. *)
Definition without_slash s (path np : Z) : Prop :=
  get8 s path = Some 47 ∧ np = path + 1 ∨ (∃ c, get8 s path = Some c ∧ c ≠ 47) ∧ np = path.

Lemma skip_slash s path np name :
  cstr s np name → without_slash s path np →
  ∃ c, rd8 path s = Ret c s ∧ (if c =? 47 then u32 (path + 1) else path) = np.
Proof.
  intros Hc [[Ec ->]|[(c & Ec & Hne) ->]]; eexists; (split; [by apply rd8_Ret|]).
  - pose proof (cstr_range _ _ _ Hc). by rewrite Z.eqb_refl, u32_small by lia.
  - by rewrite (proj2 (Z.eqb_neq c 47)).
Qed.

(** Filling in the node at [p] from the inode of a file. *)
Lemma fill_node_ok s p img n inode name size offset x fs :
  cstr s (inode + 8) name → (length name < 20)%nat → 0 ≤ img → img + 4 ≤ inode → inode + 28 ≤ img + (4 + n * 28) →
  img + (4 + n * 28) < 2 ^ 32 → mapped s p 164 → 0 < p → p + 164 < 2 ^ 32 → p + 164 ≤ img ∨ img + (4 + n * 28) ≤ p →
  get32 s img = Some n → get32 s inode = Some offset → get32 s (inode + 4) = Some size → 0 ≤ fs < 2 ^ 32 →
  owned s p 164 →
  ∃ s1 s2 s3 s4, memcpy p (inode + 8) (Z.of_nat (length name) + 1) s = Ret tt s1 ∧
    get32 s1 img = Some n ∧ get32 s1 inode = Some offset ∧ wr32 (p + 152) (u32 x) s1 = Ret tt s2 ∧
    get32 s2 (inode + 4) = Some size ∧ wr32 (p + 148) size s2 = Ret tt s3 ∧ wr32 (p + 156) fs s3 = Ret tt s4 ∧
    cstr s4 p name ∧ get32 s4 (p + 148) = Some size ∧ get32 s4 (p + 152) = Some (u32 x) ∧
    get32 s4 (p + 156) = Some fs ∧ wrote (λ b, p ≤ b < p + 164) s s4.
Proof.
  intros Hc Hl Himg Hi1 Hi2 Hmax Hm Hp1 Hp2 Hd Gn Go Gs Hfs Ho.
  destruct (memcpy_ok s p (inode + 8) (Z.of_nat (length name) + 1)) as (s1 & E1 & C1);
    [unfold INT_MAX; lia|by apply cstr_mapped|apply (mapped_sub s p 164); [done|lia..]|lia|].
  assert (mapped s1 p 164) as Hm1 by (eapply copied_mapped; [done|by apply cstr_mapped|done]).
  assert (∀ y, img ≤ y → y + 4 ≤ img + (4 + n * 28) → get32 s1 y = get32 s y) as Hk1.
  { intros y ? ?. apply get32_ext. intros b Hb. rewrite C1, decide_False; [done|lia]. }
  destruct (set_words_ok s1 (p + 152) (p + 148) (p + 156) (u32 x) size fs)
    as (s2 & s3 & s4 & E2 & E3 & E4 & G2 & G3 & G4 & W2 & W3 & W4);
    try (apply (mapped_sub s1 p 164); [done|lia..]); try lia.
  exists s1, s2, s3, s4. split_and!; try done.
  - rewrite Hk1; [done|lia..].
  - rewrite Hk1; [done|lia..].
  - rewrite <-Gs, <-(Hk1 (inode + 4)) by lia. apply get32_ext. intros b Hb. apply W2. lia.
  - apply (cstr_moved s s4 p (inode + 8)); [done|lia|lia|]. intros k Hk.
    rewrite W4, W3, W2, C1, decide_True by lia. f_equal. lia.
  - rewrite G3, u32_small; [done|by eapply get32_range].
  - by rewrite G2, u32_u32.
  - rewrite G4, u32_small; [done|lia].
  - assert (∀ a n, p ≤ a → a + n ≤ p + 164 → owned s a n) as Hsub by (intros a k ? ? b Hb; apply Ho; lia).
    eapply wrote_wr32; [|exact E4|apply Hsub; lia|lia]. eapply wrote_wr32; [|exact E3|apply Hsub; lia|lia].
    eapply wrote_wr32; [|exact E2|apply Hsub; lia|lia]. eapply memcpy_wrote; [exact E1|apply Hsub; lia|lia].
Qed.

Lemma initrd_open_ok sfuel s fs path img files name np i size offset p s0 :
  initrd_image s fs img files → cstr s np name → (length name < sfuel)%nat →
  Forall (λ f, (length f.1.1 < sfuel)%nat) files →
  0 < path → without_slash s path np →
  files !! i = Some (name, size, offset) →
  (∀ j f, (j < i)%nat → files !! j = Some f → f.1.1 ≠ name) →
  al_malloc sizeof_fs_node s = Ret p s0 → p ≠ NULL →
  ∃ s', initrd_open sfuel fs path s = Ret p s' ∧ cstr s' p name ∧
    get32 s' (p + 148) = Some size ∧
    get32 s' (p + 152) = Some (u32 (img + 4 + Z.of_nat (length files) * 28 + offset)) ∧
    get32 s' (p + 156) = Some fs ∧ wrote (λ b, p ≤ b < p + 164) s0 s'.
Proof.
  intros (Hfs & Hfs' & Himg & Efs & Eimg & Hnames & Ho & Hfiles) Hname Hf HF Hp Hpath Hi Hfirst Em Hp0.
  pose proof Hnames as (Hs1 & Hs2 & Hs3 & Hcs). rewrite length_map in *.
  destruct (al_malloc_fresh _ _ _ _ Em Hp0) as (Hp1 & Hp2 & Hpm & Hpp). unfold sizeof_fs_node in *.
  destruct (Hfiles _ _ _ _ Hi) as (Eoff & Esz & Hlen).
  assert (i < length files)%nat as Hilt by (by eapply lookup_lt_Some).
  set (inode := img + 4 + Z.of_nat i * 28) in *. set (n := Z.of_nat (length files)) in *.
  assert (first_named (img + 4) (map (λ f, f.1.1) files) name = inode) as Hfn
    by (by eapply first_named_files; [lia|..]).
  assert (img + 4 ≤ inode ∧ inode + 28 ≤ img + (4 + n * 28)) as [Hin1 Hin2] by (unfold inode; lia).
  assert (∀ y v, img ≤ y → y + 4 ≤ img + (4 + n * 28) → get32 s y = Some v → get32 s0 y = Some v) as Hkeep.
  { intros y v ? ? Ey. eapply kept_word; [done| |done]. intros b Hb. apply Ho. lia. }
  assert (cstr s0 (inode + 8) name) as Hcn0.
  { apply (cstr_ext s); [apply (Hcs i name); by rewrite list_lookup_fmap, Hi|].
    intros b Hb. eapply al_malloc_keeps; [done|]. apply Ho. lia. }
  destruct (fill_node_ok s0 p img n inode name size offset (img + 4 + n * 28 + offset) fs)
    as (s1 & s2 & s3 & s4 & E1 & G1 & G2 & E2 & G3 & E3 & E4 & R1 & R2 & R3 & R4 & W);
    try done; try lia; try (apply Hkeep; [lia|lia|done]).
  { apply (private_disjoint s p 164 img (4 + n * 28)); [lia|lia|intros b Hb; by apply Hpp|done]. }
  { intros b Hb. by apply Hpp. }
  exists s4. split_and!; try done.
  - unfold initrd_open. rewrite (proj2 (Z.eqb_neq fs NULL)), (proj2 (Z.eqb_neq path NULL)) by (unfold NULL; lia).
    cbn [orb]. destruct (skip_slash s path np name Hname Hpath) as (c & Ec & Enp). run Ec. rewrite Enp.
    unfold fs_partition_begin_offset. rewrite (u32_small (fs + 28)) by lia. run (rd32_Ret _ _ _ Efs).
    run (rd32_Ret _ _ _ Eimg). rewrite (u32_small (img + 4)) by lia.
    pose proof (initrd_search_ok sfuel s _ _ np name Hnames Hname Hf) as Es.
    rewrite length_map in Es. fold n in Es. rewrite Hfn in Es. run (Es ltac:(by apply Forall_map)).
    rewrite (proj2 (Z.eqb_neq inode NULL)) by (unfold NULL; lia). run Em.
    rewrite (proj2 (Z.eqb_neq p NULL)) by done.
    unfold inode_name, inode_size, inode_offset_from_start, fs_node_name, fs_node_fs_specific, fs_node_size, fs_node_fs.
    rewrite !(u32_small (inode + _)), !(u32_small (p + _)) by lia.
    unfold strlen. run (strlen_ok sfuel s0 _ name 0 Hcn0 Hf ltac:(lia) ltac:(lia)).
    rewrite Z.add_0_l, i32_small by lia. run E1. run (rd32_Ret _ _ _ G1).
    unfold sizeof_initrd_inode. rewrite (u32_small (n * 28)), (u32_small (img + 4 + n * 28)) by lia.
    run (rd32_Ret _ _ _ G2). run E2. run (rd32_Ret _ _ _ G3). run E3. by run E4.
Qed.

(** A new block that is written to: the rest of the program's memory is as it was. *)
Lemma new_block_keeps n s p s0 s' b :
  al_malloc n s = Ret p s0 → p ≠ NULL → wrote (λ b, p ≤ b < p + n) s0 s' → ¬ al_private s b →
  ¬ al_private s' b ∧ get8 s' b = get8 s b.
Proof.
  intros Em Hp Hw Hb. destruct (al_malloc_fresh _ _ _ _ Em Hp) as (_ & _ & _ & Hpp).
  destruct (al_malloc_keeps _ _ _ _ b Em Hb) as [Hn E]. split; [by rewrite (wrote_private _ _ _ b Hw)|].
  rewrite (wrote_same _ _ _ b Hw); [done|]. intros Hpb. by apply Hb, Hpp.
Qed.

Lemma initrd_open_absent sfuel s fs path img files name np :
  initrd_image s fs img files → cstr s np name → (length name < sfuel)%nat →
  Forall (λ f, (length f.1.1 < sfuel)%nat) files → 0 < path → without_slash s path np →
  name ∉ map (λ f, f.1.1) files → initrd_open sfuel fs path s = Ret NULL s.
Proof.
  intros (Hfs & Hfs' & Himg & Efs & Eimg & Hnames & _) Hname Hf HF Hp Hpath Hni.
  pose proof Hnames as (_ & Hs2 & _). rewrite length_map in Hs2.
  unfold initrd_open. rewrite (proj2 (Z.eqb_neq fs NULL)), (proj2 (Z.eqb_neq path NULL)) by (unfold NULL; lia).
  cbn [orb]. destruct (skip_slash s path np name Hname Hpath) as (c & Ec & Enp). run Ec. rewrite Enp.
  unfold fs_partition_begin_offset. rewrite (u32_small (fs + 28)) by lia. run (rd32_Ret _ _ _ Efs).
  run (rd32_Ret _ _ _ Eimg). rewrite (u32_small (img + 4)) by lia.
  pose proof (initrd_search_ok sfuel s _ _ np name Hnames Hname Hf) as Es. rewrite length_map in Es.
  run (Es ltac:(by apply Forall_map)).
  destruct (first_named_spec (img + 4) (map (λ f, f.1.1) files) name) as [[-> _]|(k & Hk & _)]; [lia|done|].
  destruct Hni. by eapply list_elem_of_lookup_2.
Qed.
End opening.

(** ** Properties *)

Section properties.
Context {S : Type} `{ByteStoreLaws S, !Allocator S, !AllocatorLaws S}.
Implicit Types s : S.

(** [initrd_open] looks a path up, its first slash ignored: the first
    file of that name is opened as a new node with the file's name, its size,
    the address of its contents and its file system, and the program's memory
    is unchanged; without such a file the result is [NULL] and nothing
    changes. *)
Theorem initrd_open_spec sfuel s fs path img files name np :
  initrd_image s fs img files → cstr s np name → (length name < sfuel)%nat →
  Forall (λ f, (length f.1.1 < sfuel)%nat) files → 0 < path → without_slash s path np →
  (name ∉ map (λ f, f.1.1) files → initrd_open sfuel fs path s = Ret NULL s) ∧
  (∀ i size offset p s0,
     files !! i = Some (name, size, offset) →
     (∀ j f, (j < i)%nat → files !! j = Some f → f.1.1 ≠ name) →
     al_malloc sizeof_fs_node s = Ret p s0 → p ≠ NULL →
     ∃ s', initrd_open sfuel fs path s = Ret p s' ∧ cstr s' p name ∧
       get32 s' (p + 148) = Some size ∧
       get32 s' (p + 152) = Some (u32 (img + 4 + Z.of_nat (length files) * 28 + offset)) ∧
       get32 s' (p + 156) = Some fs ∧ ∀ b, ¬ al_private s b → get8 s' b = get8 s b).
Proof.
  intros HI Hn Hf HF Hp Hw. split.
  - intros Hni. by eapply initrd_open_absent.
  - intros i size offset p s0 Hi Hj Em Hp0.
    destruct (initrd_open_ok sfuel s fs path img files name np i size offset p s0) as (s' & E & H1 & H2 & H3 & H4 & Hw'); try done.
    exists s'. split_and!; try done. intros b Hb. by eapply new_block_keeps.
Qed.

(** [initrd_read] of a range inside the file copies exactly those bytes
    and returns their number; a range that ends beyond the file is refused,
    unless its end wraps around at 2^32: then memory before the file's
    contents is copied as if it belonged to the file. *)
Theorem initrd_read_spec s node size data offset length buffer :
  0 < node → node + 164 < 2 ^ 32 → get32 s (node + 148) = Some size →
  get32 s (node + 152) = Some data →
  0 ≤ offset < 2 ^ 32 → 0 < length < 2 ^ 31 → buffer ≠ NULL →
  (offset + length < 2 ^ 32 → size < offset + length → initrd_read node offset length buffer s = Ret 0 s) ∧
  (offset + length ≤ size → data + size < 2 ^ 32 → mapped s (data + offset) length → mapped s buffer length →
   buffer + length ≤ data + offset ∨ data + offset + length ≤ buffer →
   ∃ s', initrd_read node offset length buffer s = Ret length s' ∧
     copied buffer (data + offset) length s s') ∧
  (2 ^ 32 ≤ offset + length → offset + length - 2 ^ 32 ≤ size →
   2 ^ 32 ≤ data + offset →
   initrd_read node offset length buffer s
   = (memcpy buffer (data - (2 ^ 32 - offset)) length ;; mret length) s).
Proof.
  intros Hn Hn' Esz Edt Ho Hl Hb. pose proof (get32_range _ _ _ Esz). pose proof (get32_range _ _ _ Edt).
  assert (initrd_read node offset length buffer s =
    (if size <? u32 (offset + length) then mret 0
     else memcpy buffer (u32 (data + offset)) length ;; mret length) s) as ->.
  { unfold initrd_read. rewrite (proj2 (Z.eqb_neq node NULL)), (proj2 (Z.eqb_neq buffer NULL)),
      (proj2 (Z.ltb_ge offset 0)), (proj2 (Z.leb_gt length 0)) by (unfold NULL in *; lia). cbn [orb].
    unfold fs_node_size, fs_node_fs_specific. rewrite !(u32_small (node + _)) by lia.
    run (rd32_Ret _ _ _ Esz). destruct (size <? u32 (offset + length)); [done|].
    run (rd32_Ret _ _ _ Edt). by rewrite i32_small by lia. }
  split_and!.
  - intros Hw Hs. rewrite u32_small by lia. by rewrite (proj2 (Z.ltb_lt _ _)) by lia.
  - intros Hin Hd Hm1 Hm2 Hdis. rewrite (u32_small (offset + length)) by lia.
    rewrite (proj2 (Z.ltb_ge _ _)) by lia. rewrite u32_small by lia.
    destruct (memcpy_ok s buffer (data + offset) length) as (s' & E & Hc);
      [unfold INT_MAX; lia|done|done|done|].
    exists s'. split; [by run E|done].
  - intros Hw Hs Hd.
    assert (u32 (offset + length) = offset + length - 2 ^ 32) as -> by (unfold u32; dlia).
    rewrite (proj2 (Z.ltb_ge _ _)) by lia.
    assert (u32 (data + offset) = data - (2 ^ 32 - offset)) as -> by (unfold u32; dlia). done.
Qed.
End properties.

(** ** Witnesses *)

(** A file system at 0x40, the path [/a] at 0x80, an image of one file of
    five bytes at 0x100 and a node for it at 0x200. *)
Definition example_ramdisk : arena :=
  Arena (CArray 0x2000
    (put_bytes (0x40 + 28) [0; 1; 0; 0]
    (put_bytes 0x80 [47; 97; 0]
    (put_bytes 0x100 [1; 0; 0; 0; 0; 0; 0; 0; 5; 0; 0; 0; 97; 0]
    (put_bytes 0x294 [5; 0; 0; 0; 0x20; 1; 0; 0] ∅))))) 0x400.

Lemma example_ramdisk_image : initrd_image example_ramdisk 0x40 0x100 [([97], 5, 0)].
Proof.
  split_and!; try lia; try reflexivity.
  - split_and!; [lia|reflexivity|reflexivity|].
    intros [|i] xs; simpl; [|done]. intros [= <-]. unfold cstr.
    repeat split; vm_compute; (reflexivity || discriminate).
  - intros b Hb. simpl in Hb. simpl. lia.
  - intros [|i] xs size offset; simpl; [|done]. intros [= <- <- <-].
    split_and!; [reflexivity|reflexivity|simpl; lia].
Qed.

Lemma initrd_open_spec_witness :
  ∃ s', initrd_open 9 0x40 0x80 example_ramdisk = Ret 0x400 s' ∧ cstr s' 0x400 [97] ∧
    get32 s' 0x494 = Some 5 ∧ get32 s' 0x498 = Some 0x120 ∧ get32 s' 0x49c = Some 0x40.
Proof.
  destruct (initrd_open_spec 9 example_ramdisk 0x40 0x80 0x100 [([97], 5, 0)] [97] 0x81) as [_ Ho].
  - exact example_ramdisk_image.
  - unfold cstr. repeat split; vm_compute; (reflexivity || discriminate).
  - simpl. lia.
  - repeat constructor; simpl; lia.
  - reflexivity.
  - left. split; reflexivity.
  - destruct (Ho 0%nat 5 0 0x400 (Arena (ar_mem example_ramdisk) (0x400 + 164))) as (s' & E & Hc & H1 & H2 & H3 & _).
    + reflexivity.
    + lia.
    + reflexivity.
    + discriminate.
    + exists s'. split; [exact E|]. split; [exact Hc|]. split; [exact H1|]. split; [exact H2|exact H3].
Defined.

Lemma initrd_read_spec_witness :
  (∃ s', initrd_read 0x200 1 3 0x500 example_ramdisk = Ret 3 s' ∧
     copied 0x500 0x121 3 example_ramdisk s') ∧
  initrd_read 0x200 2 4 0x500 example_ramdisk = Ret 0 example_ramdisk.
Proof.
  split.
  - destruct (initrd_read_spec example_ramdisk 0x200 5 0x120 1 3 0x500) as (_ & Hr & _);
      [lia|lia|reflexivity|reflexivity|lia|lia|discriminate|].
    apply Hr; [lia|lia| | |right; lia].
    + intros b Hb. unfold get8, arena_store, carray_store. cbn. rewrite decide_True by lia. eauto.
    + intros b Hb. unfold get8, arena_store, carray_store. cbn. rewrite decide_True by lia. eauto.
  - destruct (initrd_read_spec example_ramdisk 0x200 5 0x120 2 4 0x500) as (Hr & _);
      [lia|lia|reflexivity|reflexivity|lia|lia|discriminate|].
    apply Hr; lia.
Defined.
