(* ===== verification/InitrdGen.v ===== *)
(** * The image of the ramdisk: [rootfs/initrd_gen.py]

    The program that makes the image, and the kernel's reading of it
    ([Initrd]).  Files are pairs of a base name and contents, in the order of
    [os.walk]; a Python exception is [None]. *)

From S2P Require Import Prelude Memory Chain CString Bitmap Phys Paging Kheap Kmalloc KList Initrd.

Definition NAME_SIZE : nat := 20.
Definition GARBAGE_VALUE : Z := 85.

(** [struct.pack('I', v)] *)
Definition little_endian (v : Z) : list Z := [u8 v; u8 (Z.shiftr v 8); u8 (Z.shiftr v 16); u8 (Z.shiftr v 24)].
Definition pack_I (v : Z) : option (list Z) :=
  if (0 <=? v) && (v <? 2 ^ 32) then Some (little_endian v) else None.

(** [ctypes.create_string_buffer(init, size).raw] *)
Definition create_string_buffer (init : list Z) (size : nat) : option (list Z) :=
  if decide (length init ≤ size)%nat then Some (init ++ replicate (size - length init) 0) else None.

Definition inode_to_raw (name : list Z) (offset size : Z) : option (list Z) :=
  name ← create_string_buffer name NAME_SIZE;
  size ← pack_I size;
  offset ← pack_I offset;
  Some (offset ++ size ++ name).

Fixpoint accumulate_from (total : Z) (items : list Z) : list Z :=
  match items with
  | [] => []
  | item :: items' => (total + item) :: accumulate_from (total + item) items'
  end.

Definition accumulate : list Z → list Z := accumulate_from 0.

Definition files_sizes (files : list (list Z * list Z)) : list Z := (λ f, Z.of_nat (length f.2)) <$> files.
Definition files_offsets (files : list (list Z * list Z)) : list Z :=
  accumulate (removelast (0 :: files_sizes files)).

(** [If not aligned to 4K, align it] *)
Definition align_image (image : list Z) : list Z :=
  let size := Z.of_nat (length image) in
  if negb (size mod 4096 =? 0) then
    let aligned_size := Z.land size (Z.lnot (PAGE_SIZE - 1)) in
    let aligned_size := if aligned_size <? size then aligned_size + PAGE_SIZE else aligned_size in
    image ++ replicate (Z.to_nat (aligned_size - size)) GARBAGE_VALUE
  else image.

Definition create_initrd (files : list (list Z * list Z)) : option (list Z) :=
  inodes_table ← mapM (λ x : list Z * Z * Z, inode_to_raw x.1.1 x.1.2 x.2)
                      (zip (zip (fst <$> files) (files_offsets files)) (files_sizes files));
  head ← pack_I (Z.of_nat (length files));
  Some (align_image (head ++ concat inodes_table ++ concat (snd <$> files))).

(** ** The layout of the image *)

(** How many bytes of contents come before file [i]. *)
Definition data_offset (files : list (list Z * list Z)) (i : nat) : Z :=
  Z.of_nat (length (concat (take i (snd <$> files)))).

Lemma accumulate_offsets files t x i : (i < length files)%nat →
  accumulate_from t (removelast (x :: files_sizes files)) !! i = Some (t + x + data_offset files i).
Proof.
  revert t x i. induction files as [|f files IH]; intros t x [|i] Hi; simpl in Hi; try lia.
  - cbn. f_equal. unfold data_offset. simpl. lia.
  - change (removelast (x :: files_sizes (f :: files))) with (x :: removelast (Z.of_nat (length f.2) :: files_sizes files)).
    cbn [accumulate_from lookup list_lookup]. rewrite IH by lia. f_equal.
    unfold data_offset. cbn [fmap list_fmap take concat]. rewrite length_app. lia.
Qed.

Lemma files_offsets_lookup files i : (i < length files)%nat → files_offsets files !! i = Some (data_offset files i).
Proof. intros Hi. unfold files_offsets, accumulate. by rewrite accumulate_offsets. Qed.

Lemma accumulate_length t l : length (accumulate_from t l) = length l.
Proof. revert t. induction l as [|x l IH]; intros t; [done|]. simpl. by rewrite IH. Qed.

Lemma removelast_length {A} (x : A) l : length (removelast (x :: l)) = length l.
Proof. revert x. induction l as [|y l IH]; intros x; [done|]. cbn [removelast] in *. simpl. by rewrite <-(IH y). Qed.

Lemma files_offsets_length files : length (files_offsets files) = length files.
Proof.
  unfold files_offsets, accumulate. rewrite accumulate_length, removelast_length. apply length_fmap.
Qed.

(** Element [k] of part [i]. *)
Lemma concat_lookup {A} (ls : list (list A)) i l k x :
  ls !! i = Some l → l !! k = Some x → concat ls !! (length (concat (take i ls)) + k)%nat = Some x.
Proof.
  revert i. induction ls as [|l0 ls IH]; intros [|i] Hi Hk; simpl in *; try done.
  - injection Hi as ->. by apply lookup_app_l_Some.
  - rewrite length_app, <-Nat.add_assoc, lookup_app_r by lia.
    rewrite Nat.add_comm, Nat.add_sub. by apply IH.
Qed.

Lemma concat_rows_length {A} (rows : list (list A)) n i : Forall (λ r, length r = n) rows → (i ≤ length rows)%nat →
  length (concat (take i rows)) = (n * i)%nat.
Proof.
  intros HF. revert i. induction HF as [|r rows Hr HF IH]; intros [|i] Hi; simpl in *; try lia.
  rewrite length_app, Hr, IH by lia. by rewrite Nat.mul_succ_r, Nat.add_comm.
Qed.

Lemma pack_I_Some v bytes : pack_I v = Some bytes ↔ 0 ≤ v < 2 ^ 32 ∧ bytes = little_endian v.
Proof.
  unfold pack_I. destruct (Z.leb_spec 0 v), (Z.ltb_spec v (2 ^ 32)); simpl; split; intros E; try done; try lia.
  - by injection E as <-.
  - by destruct E as [_ ->].
Qed.

Lemma inode_to_raw_Some name offset size row :
  inode_to_raw name offset size = Some row ↔
  (length name ≤ 20)%nat ∧ 0 ≤ offset < 2 ^ 32 ∧ 0 ≤ size < 2 ^ 32 ∧
  row = little_endian offset ++ little_endian size ++ name ++ replicate (20 - length name) 0.
Proof.
  unfold inode_to_raw, create_string_buffer, NAME_SIZE. split.
  - intros E. simplify_option_eq.
    repeat match goal with H : pack_I _ = Some _ |- _ => apply pack_I_Some in H as [? ->] end. done.
  - intros (Hn & Ho & Hs & ->). rewrite decide_True by done. simpl.
    rewrite (proj2 (pack_I_Some size _)) by done. simpl. by rewrite (proj2 (pack_I_Some offset _)) by done.
Qed.

Lemma inode_to_raw_length name offset size row : inode_to_raw name offset size = Some row → length row = 28%nat.
Proof. intros (Hn & _ & _ & ->)%inode_to_raw_Some. rewrite !length_app, length_replicate. simpl. lia. Qed.

Lemma align_image_spec image :
  ∃ pad, align_image image = image ++ pad ∧ Z.of_nat (length (align_image image)) mod 4096 = 0 ∧ (length pad < 4096)%nat.
Proof.
  unfold align_image. set (n := Z.of_nat (length image)).
  destruct (Z.eqb_spec (n mod 4096) 0) as [E|E]; cbn [negb].
  - exists []. rewrite app_nil_r. split_and!; [done|done|simpl; lia].
  - assert (Z.land n (Z.lnot (PAGE_SIZE - 1)) = n / 4096 * 4096) as ->.
    { unfold PAGE_SIZE. change (4096 - 1) with (Z.ones 12). rewrite <-Z.ldiff_land, Z.ldiff_ones_r by lia.
      by rewrite Z.shiftl_mul_pow2, Z.shiftr_div_pow2 by lia. }
    rewrite (proj2 (Z.ltb_lt _ n)) by dlia. unfold PAGE_SIZE. eexists. split; [done|].
    rewrite length_app, length_replicate. split; [|dlia].
    rewrite Nat2Z.inj_add, Z2Nat.id by dlia. fold n. dlia.
Qed.

Lemma inodes_zip files i name data : files !! i = Some (name, data) →
  zip (zip (fst <$> files) (files_offsets files)) (files_sizes files) !! i
  = Some (name, data_offset files i, Z.of_nat (length data)).
Proof.
  intros Hi. pose proof (lookup_lt_Some _ _ _ Hi) as Hl. unfold files_sizes.
  rewrite !lookup_zip_with, !list_lookup_fmap, Hi. simpl. by rewrite files_offsets_lookup.
Qed.

Lemma create_initrd_layout files image : create_initrd files = Some image →
  ∃ rows pad, image = little_endian (Z.of_nat (length files)) ++ concat rows ++ concat (snd <$> files) ++ pad ∧
    Z.of_nat (length files) < 2 ^ 32 ∧ (Z.of_nat (length image) mod 4096 = 0 ∧ (length pad < 4096)%nat) ∧ length rows = length files ∧
    Forall (λ r, length r = 28%nat) rows ∧
    ∀ i name data, files !! i = Some (name, data) →
      ∃ row, rows !! i = Some row ∧ inode_to_raw name (data_offset files i) (Z.of_nat (length data)) = Some row.
Proof.
  unfold create_initrd. intros (rows & Hrows%mapM_Some_1 & (head & [Hn ->]%pack_I_Some & E0)%bind_Some)%bind_Some.
  apply (inj Some) in E0. subst image.
  set (body := little_endian (Z.of_nat (length files)) ++ concat rows ++ concat (snd <$> files)). destruct (align_image_spec body) as (pad & E & Hal & Hpad).
  exists rows, pad. rewrite E in Hal |- *. split_and!; [|lia|done|done| | |].
  - unfold body. by rewrite <-!app_assoc.
  - rewrite <-(Forall2_length _ _ _ Hrows). rewrite !length_zip_with, length_fmap, files_offsets_length.
    unfold files_sizes. rewrite length_fmap. lia.
  - apply Forall_forall. intros r [i Hr]%list_elem_of_lookup_1.
    destruct (Forall2_lookup_r _ _ _ _ _ Hrows Hr) as (x & _ & Hx). by eapply inode_to_raw_length.
  - intros i name data Hi. apply (inodes_zip files) in Hi.
    destruct (Forall2_lookup_l _ _ _ _ _ Hrows Hi) as (row & Hr & Hx). by exists row.
Qed.

(** Where the parts of a file are. *)
Lemma create_initrd_file files image i name data k x :
  create_initrd files = Some image → files !! i = Some (name, data) →
  ((little_endian (data_offset files i) ++ little_endian (Z.of_nat (length data)) ++ name ++ replicate (20 - length name) 0)
     !! k = Some x → image !! (4 + 28 * i + k)%nat = Some x) ∧
  (data !! k = Some x → image !! (4 + 28 * length files + Z.to_nat (data_offset files i) + k)%nat = Some x).
Proof.
  intros (rows & pad & -> & _ & _ & Hlen & HF & Hrows)%create_initrd_layout Hi.
  destruct (Hrows i name data Hi) as (row & Hr & Hx). apply inode_to_raw_Some in Hx as (_ & _ & _ & Hrow).
  pose proof (lookup_lt_Some _ _ _ Hr) as Hlt. rewrite Hlen in Hlt. split; intros Hk.
  - rewrite <-Hrow in Hk. rewrite <-Nat.add_assoc. rewrite lookup_app_r by (simpl; lia).
    replace (4 + (28 * i + k) - length (little_endian (Z.of_nat (length files))))%nat with (28 * i + k)%nat by (simpl; lia).
    apply lookup_app_l_Some. rewrite <-(concat_rows_length rows 28 i) by (done || lia). by eapply concat_lookup.
  - rewrite <-!Nat.add_assoc. rewrite lookup_app_r by (simpl; lia).
    replace (4 + (28 * length files + (Z.to_nat (data_offset files i) + k)) - length (little_endian (Z.of_nat (length files))))%nat
      with (28 * length files + (Z.to_nat (data_offset files i) + k))%nat by (simpl; lia).
    pose proof (concat_rows_length rows 28 (length rows) HF ltac:(lia)) as Hc. rewrite firstn_all, Hlen in Hc.
    rewrite lookup_app_r, Hc by lia. rewrite Nat.add_comm, Nat.add_sub. apply lookup_app_l_Some.
    unfold data_offset. rewrite Nat2Z.id. apply concat_lookup with (l := data); [|done].
    by rewrite list_lookup_fmap, Hi.
Qed.

(** The table and the contents fit into the image. *)
Lemma create_initrd_length files image : create_initrd files = Some image →
  (4 + 28 * length files + length (concat (snd <$> files)) ≤ length image)%nat.
Proof.
  intros (rows & pad & E & _ & _ & Hl & HF & _)%create_initrd_layout.
  pose proof (concat_rows_length rows 28 (length rows) HF ltac:(lia)) as Hcl. rewrite firstn_all, Hl in Hcl.
  rewrite E, !length_app, Hcl. simpl. lia.
Qed.

Lemma data_offset_all files : data_offset files (length files) = Z.of_nat (length (concat (snd <$> files))).
Proof. unfold data_offset. by rewrite firstn_all2 by (by rewrite length_fmap). Qed.

Lemma data_offset_bound files i name data : files !! i = Some (name, data) →
  0 ≤ data_offset files i ∧ data_offset files i + Z.of_nat (length data) ≤ data_offset files (length files).
Proof.
  intros Hi. rewrite data_offset_all. unfold data_offset. split; [lia|].
  assert ((snd <$> files) !! i = Some data) as Hd by (by rewrite list_lookup_fmap, Hi).
  pose proof (f_equal (@concat Z) (take_drop_middle _ _ _ Hd)) as E. rewrite <-E, concat_app, length_app. cbn [concat].
  rewrite length_app. lia.
Qed.

(** A row of the table for every file whose name fits. *)
Lemma inodes_exist files : data_offset files (length files) < 2 ^ 32 → Forall (λ f, (length f.1 ≤ 20)%nat) files →
  is_Some (mapM (λ x : list Z * Z * Z, inode_to_raw x.1.1 x.1.2 x.2)
             (zip (zip (fst <$> files) (files_offsets files)) (files_sizes files))).
Proof.
  intros Ht HF. apply mapM_is_Some_2. apply Forall_forall. intros x [i Hx]%list_elem_of_lookup_1.
  assert (i < length files)%nat as Hl.
  { apply lookup_lt_Some in Hx. rewrite !length_zip_with, length_fmap, files_offsets_length in Hx. lia. }
  destruct (lookup_lt_is_Some_2 _ _ Hl) as [[name data] Hi]. rewrite (inodes_zip _ _ _ _ Hi) in Hx. injection Hx as <-.
  pose proof (data_offset_bound _ _ _ _ Hi). rewrite Forall_forall in HF.
  assert (length name ≤ 20)%nat by (apply (HF (name, data)); by eapply list_elem_of_lookup_2).
  exists (little_endian (data_offset files i) ++ little_endian (Z.of_nat (length data)) ++ name ++ replicate (20 - length name) 0).
  apply inode_to_raw_Some. cbn [fst snd]. split_and!; done || lia.
Qed.

(** ** The image in memory *)

Section memory.
Context {S : Type} `{ByteStoreLaws S, !Allocator S, !AllocatorLaws S}.
Implicit Types s : S.

(** The bytes [xs] are at [a]. *)
Definition bytes_at s (a : Z) (xs : list Z) : Prop := ∀ (k : nat) x, xs !! k = Some x → get8 s (a + Z.of_nat k) = Some x.

Lemma bytes_at_word s a v rest : bytes_at s a (little_endian v ++ rest) → 0 ≤ v < 2 ^ 32 → get32 s a = Some v.
Proof.
  intros B Hv. pose proof (B 0%nat _ eq_refl) as B0. pose proof (B 1%nat _ eq_refl) as B1.
  pose proof (B 2%nat _ eq_refl) as B2. pose proof (B 3%nat _ eq_refl) as B3.
  change (Z.of_nat 1) with 1 in B1. change (Z.of_nat 2) with 2 in B2. change (Z.of_nat 3) with 3 in B3.
  rewrite Z.add_0_r in B0. unfold get32. rewrite B0, B1, B2, B3. simpl.
  rewrite word_of_bytes_shifts, u32_small; done.
Qed.

Lemma bytes_at_app s a xs ys : bytes_at s a (xs ++ ys) → bytes_at s (a + Z.of_nat (length xs)) ys.
Proof.
  intros B k x Hk. rewrite <-Z.add_assoc, <-Nat2Z.inj_add. apply B.
  rewrite lookup_app_r by lia. by replace (length xs + k - length xs)%nat with k by lia.
Qed.

Lemma bytes_at_cstr s a xs rest : bytes_at s a (xs ++ 0 :: rest) → Forall (λ x, x ≠ 0) xs →
  0 ≤ a → a + Z.of_nat (length xs) < 2 ^ 32 - 1 → cstr s a xs.
Proof.
  intros B Hx. revert a B. induction Hx as [|x xs Hx0 Hx IH]; intros a B Ha1 Ha2; simpl in Ha2; cbn [cstr].
  - split; [lia|]. pose proof (B 0%nat 0 eq_refl) as B0. by rewrite Z.add_0_r in B0.
  - split; [lia|]. split; [done|]. split; [pose proof (B 0%nat x eq_refl) as B0; by rewrite Z.add_0_r in B0|].
    apply IH; [|lia|lia]. intros k y Hk. rewrite <-(B (Datatypes.S k) y Hk). f_equal. lia.
Qed.

(** Where the contents of a file are. *)
Lemma image_data s img files image i name data :
  create_initrd files = Some image → bytes_at s img image → files !! i = Some (name, data) →
  let address := img + 4 + Z.of_nat (length files) * 28 + data_offset files i in
  bytes_at s address data ∧ img ≤ address ∧
  address + Z.of_nat (length data) ≤ img + Z.of_nat (length image).
Proof.
  intros Hc B Hi address. pose proof (create_initrd_length _ _ Hc).
  pose proof (data_offset_bound _ _ _ _ Hi) as [Hd0 Hd1]. rewrite data_offset_all in Hd1. split_and!.
  - intros k x Hk. destruct (create_initrd_file files image i name data k x Hc Hi) as [_ Hx]. unfold address.
    replace (img + 4 + Z.of_nat (length files) * 28 + data_offset files i + Z.of_nat k)
      with (img + Z.of_nat (4 + 28 * length files + Z.to_nat (data_offset files i) + k)) by lia.
    by apply B, Hx.
  - unfold address. lia.
  - unfold address. lia.
Qed.

(** What [create_initrd] writes is what [initrd_open] expects. *)
Lemma generated_image s fs img files image :
  create_initrd files = Some image → bytes_at s img image → 0 < fs → fs + 56 < 2 ^ 32 → 0 < img →
  get32 s (fs + 28) = Some img → owned s img (Z.of_nat (length image)) → img + Z.of_nat (length image) < 2 ^ 31 * 2 - 1 →
  Z.of_nat (length files) < INT_MAX → Forall (λ f, (length f.1 < 20)%nat ∧ Forall (λ x, x ≠ 0) f.1) files →
  initrd_image s fs img (imap (λ i f, (f.1, Z.of_nat (length f.2), data_offset files i)) files).
Proof.
  intros Hc B Hfs Hfs' Himg Hb Ho Hr Hn Hnames. pose proof (create_initrd_layout _ _ Hc) as (rows & pad & E & Hn32 & _ & Hl & HF & Hrows).
  pose proof (create_initrd_length _ _ Hc) as Hlen.
  unfold initrd_image. rewrite length_imap. split_and!; try done; try lia.
  - apply (bytes_at_word _ _ _ (concat rows ++ concat (snd <$> files) ++ pad)); [by rewrite <-E|lia].
  - unfold inode_names. rewrite length_map, length_imap. split_and!; try lia.
    intros i xs. rewrite list_lookup_fmap, list_lookup_imap. destruct (files !! i) as [[name data]|] eqn:Hi; [|done].
    simpl. intros [= <-]. rewrite Forall_forall in Hnames.
    destruct (Hnames (name, data)) as [Hnl Hnz]; [by eapply list_elem_of_lookup_2|]. simpl in Hnl, Hnz.
    pose proof (lookup_lt_Some _ _ _ Hi).
    apply (bytes_at_cstr _ _ _ (replicate (19 - length name) 0)); [|done|lia|lia].
    intros k x Hk. replace (img + 4 + Z.of_nat i * 28 + 8 + Z.of_nat k) with (img + Z.of_nat (4 + 28 * i + (8 + k))) by lia.
    apply B. apply (create_initrd_file files image i name data (8 + k) x Hc Hi).
    rewrite lookup_app_r by (simpl; lia). rewrite lookup_app_r by (simpl; lia).
    change (length (little_endian _)) with 4%nat. replace (8 + k - 4 - 4)%nat with k by lia.
    replace (20 - length name)%nat with (Datatypes.S (19 - length name)) by lia. exact Hk.
  - intros b Hb'. apply Ho. lia.
  - intros i xs size offset. rewrite list_lookup_imap. destruct (files !! i) as [[name data]|] eqn:Hi; [|done].
    simpl. intros [= <- <- <-]. rewrite Forall_forall in Hnames.
    destruct (Hnames (name, data)) as [Hnl _]; [by eapply list_elem_of_lookup_2|]. simpl in Hnl.
    destruct (Hrows i name data Hi) as (row & _ & (_ & Hro & Hrs & _)%inode_to_raw_Some).
    assert (bytes_at s (img + 4 + Z.of_nat i * 28) (little_endian (data_offset files i) ++ little_endian (Z.of_nat (length data))
      ++ name ++ replicate (20 - length name) 0)) as BI.
    { intros k x Hk. replace (img + 4 + Z.of_nat i * 28 + Z.of_nat k) with (img + Z.of_nat (4 + 28 * i + k)) by lia.
      apply B. by apply (create_initrd_file files image i name data k x Hc Hi). }
    split_and!; [by eapply bytes_at_word| |lia].
    apply bytes_at_app in BI. by eapply bytes_at_word.
Qed.
End memory.

(** ** Properties *)

(** C38. Which images can be made: with names of at most 20 bytes and less than
    4 GB of files, [create_initrd] gives whole pages that begin with the number
    of files, one page at most being filled up; a longer name is an error, and
    a name of exactly 20 bytes is stored without a terminator. *)
Theorem create_initrd_total files :
  Z.of_nat (length files) < 2 ^ 32 → data_offset files (length files) < 2 ^ 32 →
  (Forall (λ f, (length f.1 ≤ 20)%nat) files →
   ∃ image, create_initrd files = Some image ∧ Z.of_nat (length image) mod 4096 = 0 ∧
     Z.of_nat (length image) - 4096 < 4 + 28 * Z.of_nat (length files) + data_offset files (length files) ≤ Z.of_nat (length image)) ∧
  (Exists (λ f, (20 < length f.1)%nat) files → create_initrd files = None).
Proof.
  intros Hn Ht. split; intros HF.
  - destruct (inodes_exist files Ht HF) as [rows Hrows].
    assert (∃ image, create_initrd files = Some image) as [image Hc].
    { unfold create_initrd. rewrite Hrows. simpl. rewrite (proj2 (pack_I_Some _ _)) by (split; [lia|done]). by eexists. }
    exists image. split; [done|]. pose proof Hc as (rows' & pad & E & _ & (Hal & Hpad) & Hl & Hr & _)%create_initrd_layout.
    split; [done|]. pose proof (concat_rows_length rows' 28 (length rows') Hr ltac:(lia)) as Hcl.
    rewrite firstn_all, Hl in Hcl. rewrite data_offset_all, E, !length_app, Hcl.
    change (length (little_endian _)) with 4%nat. lia.
  - unfold create_initrd. rewrite (mapM_None_2 _ _); [done|]. apply Exists_exists in HF as ([name data] & Hin & Hlong).
    apply list_elem_of_lookup_1 in Hin as [i Hi]. apply Exists_exists. eexists. split; [eapply list_elem_of_lookup_2, inodes_zip, Hi|].
    simpl. destruct (inode_to_raw _ _ _) as [row|] eqn:E; [|done]. apply inode_to_raw_Some in E as [? _]. simpl in Hlong. lia.
Qed.

Section properties.
Context {S : Type} `{ByteStoreLaws S, !Allocator S, !AllocatorLaws S}.
Implicit Types s : S.

(** Making an image and reading it: with the image of any files - names
    of at most 19 bytes - in memory, [initrd_open] of a path finds the first
    file of that name; the node has the file's size and the address of
    exactly its contents. *)
Theorem generated_file_opens sfuel s fs img files image path np i name data p s0 :
  create_initrd files = Some image → bytes_at s img image → 0 < fs → fs + 56 < 2 ^ 32 → 0 < img →
  get32 s (fs + 28) = Some img → owned s img (Z.of_nat (length image)) → img + Z.of_nat (length image) < 2 ^ 31 * 2 - 1 →
  Z.of_nat (length files) < INT_MAX → Forall (λ f, (length f.1 < 20)%nat ∧ Forall (λ x, x ≠ 0) f.1) files → (20 ≤ sfuel)%nat →
  files !! i = Some (name, data) → (∀ j f, (j < i)%nat → files !! j = Some f → f.1 ≠ name) →
  cstr s np name → 0 < path → without_slash s path np → al_malloc sizeof_fs_node s = Ret p s0 → p ≠ NULL →
  ∃ s' address, initrd_open sfuel fs path s = Ret p s' ∧ cstr s' p name ∧
    get32 s' (p + 148) = Some (Z.of_nat (length data)) ∧ get32 s' (p + 152) = Some address ∧ bytes_at s' address data.
Proof.
  intros Hc B Hfs Hfs' Himg Hb Ho Hr Hn Hnames Hsf Hi Hfirst Hcs Hp Hw Em Hp0.
  pose proof (generated_image s fs img files image Hc B Hfs Hfs' Himg Hb Ho Hr Hn Hnames) as HI.
  pose proof (lookup_lt_Some _ _ _ Hi) as Hil. rewrite Forall_forall in Hnames.
  destruct (Hnames (name, data)) as [Hnl _]; [by eapply list_elem_of_lookup_2|]. simpl in Hnl.
  destruct (initrd_open_ok sfuel s fs path img _ name np i (Z.of_nat (length data)) (data_offset files i) p s0 HI)
    as (s' & E & Hc' & H1 & H2 & _ & Hw'); try done; try lia.
  { apply Forall_forall. intros f (j & [nm dt] & -> & Hj)%elem_of_lookup_imap_1. simpl.
    destruct (Hnames (nm, dt)) as [Hl _]; [by eapply list_elem_of_lookup_2|]. simpl in Hl. lia. }
  { by rewrite list_lookup_imap, Hi. }
  { intros j f Hj. rewrite list_lookup_imap. destruct (files !! j) as [f'|] eqn:Hfj; [|done]. simpl. intros [= <-].
    simpl. by apply (Hfirst j f'). }
  destruct (image_data s img files image i name data Hc B Hi) as (BD & Hd1 & Hd2).
  rewrite length_imap, u32_small in H2 by lia. eexists s', _. split_and!; try done.
  intros k x Hk. pose proof (lookup_lt_Some _ _ _ Hk).
  etransitivity; [eapply new_block_keeps; [exact Em|done|done|apply Ho; lia]|by apply BD].
Qed.
End properties.

(** ** Witnesses *)

(** The files [a] and [bc]. *)
Definition example_files : list (list Z * list Z) := [([97], [1; 2; 3]); ([98; 99], [7; 0])].
Definition example_image : list Z := default [] (create_initrd example_files).

Lemma create_initrd_total_witness :
  ∃ image, create_initrd example_files = Some image ∧ Z.of_nat (length image) mod 4096 = 0.
Proof.
  destruct (create_initrd_total example_files) as [Hok _]; [reflexivity|reflexivity|].
  destruct Hok as (image & E & Hal & _); [repeat constructor|]. exists image. split; [exact E|exact Hal].
Defined.

Lemma put_bytes_lookup a xs m k x : xs !! k = Some x → put_bytes a xs m !! (a + Z.of_nat k) = Some x.
Proof.
  revert a k. induction xs as [|y xs IH]; intros a [|k] Hk; simpl in *; try done.
  - rewrite Z.add_0_r, lookup_insert_eq. congruence.
  - rewrite lookup_insert_ne by lia. rewrite <-(IH (a + 1) k Hk). f_equal. lia.
Qed.

(** The image at 0x1000, a file system at 0x40, the path [/bc] at 0x80; memory
    to allocate from 0x2000 on. *)
Definition example_generated : arena :=
  Arena (CArray 0x3000 (put_bytes 0x1000 example_image
    (put_bytes (0x40 + 28) [0; 0x10; 0; 0] (put_bytes 0x80 [47; 98; 99; 0] ∅)))) 0x2000.

Lemma arena_bytes_at size next a xs m : Forall (λ x, u8 x = x) xs → 0 ≤ a → a + Z.of_nat (length xs) ≤ size →
  bytes_at (Arena (CArray size (put_bytes a xs m)) next) a xs.
Proof.
  intros Hx Ha Hs k x Hk. pose proof (lookup_lt_Some _ _ _ Hk). rewrite Forall_forall in Hx.
  unfold get8, arena_store, carray_store. cbn [ar_mem asize adata get8].
  rewrite decide_True by lia. rewrite (put_bytes_lookup _ _ _ _ _ Hk). simpl.
  by rewrite (Hx x (list_elem_of_lookup_2 _ _ _ Hk)).
Qed.

Lemma example_image_bytes : Forall (λ x, u8 x = x) example_image.
Proof. apply (bool_decide_unpack _). vm_compute. exact I. Qed.

Lemma example_generated_bytes : bytes_at example_generated 0x1000 example_image.
Proof. apply arena_bytes_at; [exact example_image_bytes|lia|]. change (length example_image) with 4096%nat. lia. Qed.

Lemma example_generated_malloc :
  al_malloc sizeof_fs_node example_generated = Ret 0x2000 (Arena (ar_mem example_generated) (0x2000 + 164)).
Proof.
  unfold al_malloc, arena_allocator, sizeof_fs_node. cbn [ar_next ar_mem asize example_generated].
  by rewrite bool_decide_eq_true_2 by lia.
Qed.

Lemma example_generated_path :
  get32 example_generated (0x40 + 28) = Some 0x1000 ∧ cstr example_generated 0x81 [98; 99] ∧
  get8 example_generated 0x80 = Some 47.
Proof. unfold cstr. repeat split; vm_compute; (reflexivity || discriminate). Qed.

Lemma generated_file_opens_witness :
  ∃ s' address, initrd_open 20 0x40 0x80 example_generated = Ret 0x2000 s' ∧
    get32 s' (0x2000 + 148) = Some 2 ∧ get32 s' (0x2000 + 152) = Some address ∧ bytes_at s' address [7; 0].
Proof.
  destruct (generated_file_opens 20 example_generated 0x40 0x1000 example_files example_image 0x80 0x81 1 [98; 99] [7; 0]
    0x2000 (Arena (ar_mem example_generated) (0x2000 + 164))) as (s' & address & E & _ & H1 & H2 & H3).
  - vm_compute. reflexivity.
  - exact example_generated_bytes.
  - lia.
  - lia.
  - lia.
  - exact (proj1 example_generated_path).
  - intros b Hb. change (Z.of_nat (length example_image)) with 4096 in Hb. simpl. lia.
  - reflexivity.
  - reflexivity.
  - repeat constructor; discriminate.
  - lia.
  - reflexivity.
  - intros [|j] f Hj; [|lia]. intros [= <-]. discriminate.
  - exact (proj1 (proj2 example_generated_path)).
  - lia.
  - left. split; [exact (proj2 (proj2 example_generated_path))|reflexivity].
  - exact example_generated_malloc.
  - discriminate.
  - exists s', address. split; [exact E|]. split; [exact H1|]. split; [exact H2|exact H3].
Defined.
