(* ===== verification/Vfs.v ===== *)
(** * The virtual file system: [kernel/fs/vfs.c]

    Mount points and files are structures in memory; the operations of a file
    system are function pointers, called through [FsOps].  The values of
    [initialize_list] that the code uses although there are none
    ([KList.initialize_list] returns [None]) are a parameter. *)

From S2P Require Import Prelude Memory Chain CString Bitmap Phys Paging Kheap Kmalloc KList Initrd.

(** What the code at a function pointer does: the pointer is the first argument. *)
Class FsOps (S : Type) := {
  call_open : Z → Z → Z → M S Z;
  call_read : Z → Z → Z → Z → Z → M S Z;
  call_write : Z → Z → Z → Z → Z → M S Z;
  call_close : Z → Z → M S unit
}.

(** [mount_point_t] *)
Definition MAX_PATH_LENGTH : Z := 300.
Definition mount_path (mp : Z) : Z := mp.
Definition mounted_fs (mp : Z) : Z := u32 (mp + MAX_PATH_LENGTH).
Definition mount_children (mp : Z) : Z := u32 (mp + MAX_PATH_LENGTH + 4).
Definition sizeof_mount_point : Z := MAX_PATH_LENGTH + 4 + 8.

Section vfs_c.
Context {S : Type} `{ByteStore S, Allocator S, FsOps S}.

(** The addresses of the static variables and of the literal ["/"]. *)
Variable mount_points root_mount_point slash : Z.

(** What a caller sees of a function that ends without [return]. *)
Variable no_return : bool.

(** Fuel for the loops over strings and over lists. *)
Variable sfuel lfuel : nat.

Definition vfs_init : M S unit :=
  p ← al_malloc sizeof_mount_point;
  wr32 mount_points p ;;
  (if p =? NULL then mpanic else mret tt) ;;
  mp ← rd32 mount_points;
  memcpy (mount_path mp) slash 2 ;;
  mp ← rd32 mount_points;
  wr32 (mounted_fs mp) NULL ;;
  mp ← rd32 mount_points;
  ok ← initialize_list (mount_children mp);
  (if negb (default no_return ok) then mpanic else mret tt) ;;
  mp ← rd32 mount_points;
  wr32 root_mount_point mp.

(** [fs->read && fs->open && fs->close] *)
Definition has_operations (fs : Z) : M S bool :=
  r ← rd32 (fs_read fs);
  if r =? NULL then mret false
  else
    o ← rd32 (fs_open fs);
    if o =? NULL then mret false
    else
      c ← rd32 (fs_close fs);
      mret (negb (c =? NULL)).

(** [None]: control reaches the end of the function. *)
Definition vfs_mount (path fs : Z) : M S (option error_code) :=
  if (path =? NULL) || (fs =? NULL) then mret (Some INVALID_ARGUMENT)
  else
    r ← strcmp sfuel path slash;
    if r =? 0 then
      ok ← has_operations fs;
      if (ok : bool) then
        root ← rd32 root_mount_point;
        wr32 (mounted_fs root) fs ;;
        mret (Some SUCCESS)
      else mret (Some FAILURE)
    else
      root ← rd32 root_mount_point;
      m ← rd32 (mounted_fs root);
      if m =? NULL then mret (Some NO_SUCH_DIRECTORY) else mret None.

Fixpoint path_depth_loop (fuel : nat) (path counter : Z) : M S Z :=
  match fuel with
  | O => mtimeout
  | Datatypes.S fuel' =>
      c ← rd8 path;
      if c =? 0 then mret counter
      else path_depth_loop fuel' (u32 (path + 1)) (if c =? 47 then u32 (counter + 1) else counter)
  end.

Definition path_depth (path : Z) : M S Z :=
  if path =? NULL then mret (u32 (-1)) else path_depth_loop sfuel path 0.

Definition alloc_mount_point (path fs : Z) : M S Z :=
  mount_point ← al_malloc sizeof_mount_point;
  if mount_point =? NULL then mret NULL
  else
    n ← strlen sfuel path;
    memcpy (mount_path mount_point) path (i32 (n + 1)) ;;
    wr32 (mounted_fs mount_point) fs ;;
    mret mount_point.

(** The address of the local variable [tree_nodes]. *)
Variable tree_nodes : Z.

(** The loop over the children; [false] is [goto clean_up]. *)
Fixpoint vfs_open_children (fuel : nat) (path : Z) : M S bool :=
  match fuel with
  | O => mtimeout
  | Datatypes.S fuel' =>
      mp ← rd32 mount_points;
      child ← iter_list (mount_children mp);
      if child =? NULL then mret true
      else
        specific_path ← strstr sfuel path (mount_path child);
        if negb (specific_path =? NULL) then
          n ← strlen sfuel (mount_path child);
          mp ← rd32 mount_points;
          ok ← add_element lfuel tree_nodes mp;
          if (ok : bool) then vfs_open_children fuel' path else mret false
        else vfs_open_children fuel' path
  end.

(** The [do]-loop; the result is [current] at the label [clean_up]. *)
Fixpoint vfs_open_loop (fuel : nat) (path : Z) : M S Z :=
  match fuel with
  | O => mtimeout
  | Datatypes.S fuel' =>
      current ← pop_element lfuel tree_nodes 0;
      ok ← (if negb (current =? NULL) then vfs_open_children lfuel path else mret true);
      if (ok : bool) then
        e ← is_empty tree_nodes;
        if (e : bool) then mret current else vfs_open_loop fuel' path
      else mret current
  end.

Definition vfs_open (path : Z) : M S Z :=
  ok ← initialize_list tree_nodes;
  current ←
    (if default no_return ok then
       mp ← rd32 mount_points;
       ok ← add_element lfuel tree_nodes mp;
       if (ok : bool) then vfs_open_loop lfuel path else mret NULL
     else mret NULL);
  free_list lfuel tree_nodes ;;
  if negb (current =? NULL) then
    fs ← rd32 (mounted_fs current);
    open ← rd32 (fs_open fs);
    fs ← rd32 (mounted_fs current);
    call_open open fs path
  else mret NULL.

Definition vfs_unmount (fs : Z) : M S unit := mret tt.

Definition vfs_read (node offset length buffer : Z) : M S Z :=
  if node =? NULL then mret 0
  else
    fs ← rd32 (fs_node_fs node);
    read ← rd32 (fs_read fs);
    call_read read node offset length buffer.

(** The body is empty: there is no value. *)
Definition vfs_write (node offset length buffer : Z) : M S unit := mret tt.

Definition vfs_close (node : Z) : M S unit :=
  fs ← rd32 (fs_node_fs node);
  close ← rd32 (fs_close fs);
  call_close close node.
End vfs_c.

(** ** The functions the boot code enters for the ramdisk *)

Section initrd_ops.
Context {S : Type} `{ByteStore S, Allocator S}.
Variable sfuel : nat.
(** The addresses of [initrd_open], [initrd_read] and [initrd_close]. *)
Variable open_address read_address close_address : Z.

(** A call of any other address leaves the program. *)
Definition initrd_ops : FsOps S := {|
  call_open f fs path := if f =? open_address then initrd_open sfuel fs path else mfault;
  call_read f node offset length buffer :=
    if f =? read_address then initrd_read node offset length buffer else mfault;
  call_write f node offset length buffer := mfault;
  call_close f node := if f =? close_address then initrd_close node else mfault
|}.
End initrd_ops.

(** ** Mounting *)

Section properties.
Context {S : Type} `{ByteStoreLaws S}.
Implicit Types s : S.

(** [vfs_mount] on the root: a file system with its three operations
    becomes the one mounted there, and is refused without change otherwise;
    on any other path nothing is mounted at all - the call fails when there
    is no root file system, and has no result when there is one. *)
Theorem vfs_mount_spec root_var slash sfuel s path xs fs root m :
  0 < fs → fs + 56 < 2 ^ 32 → 0 < path → 0 < root → root + 312 < 2 ^ 32 →
  cstr s path xs → cstr s slash [47] → (length xs < sfuel)%nat →
  get32 s root_var = Some root → get32 s (root + 300) = Some m →
  ∀ r o c, get32 s (fs + 36) = Some r → get32 s (fs + 44) = Some o → get32 s (fs + 48) = Some c →
  if decide (xs = [47]) then
    if decide (r ≠ NULL ∧ o ≠ NULL ∧ c ≠ NULL) then
      ∃ s', vfs_mount root_var slash sfuel path fs s = Ret (Some SUCCESS) s' ∧
        get32 s' (root + 300) = Some fs ∧ same_but (root + 300) 4 s s' ∧ stores s s'
    else vfs_mount root_var slash sfuel path fs s = Ret (Some FAILURE) s
  else vfs_mount root_var slash sfuel path fs s
       = Ret (if m =? NULL then Some NO_SUCH_DIRECTORY else None) s.
Proof.
  intros Hfs Hfs' Hp Hroot Hroot' Hc Hsl Hf Er Em r o c E1 E2 E3.
  unfold vfs_mount. rewrite (proj2 (Z.eqb_neq path NULL)), (proj2 (Z.eqb_neq fs NULL)) by (unfold NULL; lia).
  cbn [orb]. run (strcmp_ok sfuel s path slash xs [47] Hc Hsl Hf).
  pose proof (strcmp_ref_zero xs [47] (cstr_bytes _ _ _ Hc) (cstr_bytes _ _ _ Hsl)) as Hz.
  unfold has_operations, fs_read, fs_open, fs_close, mounted_fs, MAX_PATH_LENGTH.
  rewrite !(u32_small (fs + _)) by lia.
  case_decide as Hx.
  - rewrite (proj2 (Z.eqb_eq _ 0)) by tauto.
    case_decide as Hops.
    + destruct Hops as (H1 & H2 & H3). rewrite bind_assoc. run (rd32_Ret _ _ _ E1).
      rewrite (proj2 (Z.eqb_neq r NULL)) by done. rewrite bind_assoc. run (rd32_Ret _ _ _ E2).
      rewrite (proj2 (Z.eqb_neq o NULL)) by done. rewrite bind_assoc. run (rd32_Ret _ _ _ E3).
      rewrite (proj2 (Z.eqb_neq c NULL)) by done. rewrite bind_ret_l. cbn [negb].
      run (rd32_Ret _ _ _ Er). rewrite u32_small by lia.
      destruct (wr32_Ret s (root + 300) fs) as (s1 & Ew & W); [by eapply get32_mapped|]. run Ew.
      exists s1. split; [done|]. split; [|split; [by eapply stored32_same_but|by eapply wr32_stores]].
      rewrite (stored32_same _ _ _ _ W). by rewrite u32_small by lia.
    + rewrite bind_assoc. run (rd32_Ret _ _ _ E1). destruct (Z.eqb_spec r NULL); [done|].
      rewrite bind_assoc. run (rd32_Ret _ _ _ E2). destruct (Z.eqb_spec o NULL); [done|].
      rewrite bind_assoc. run (rd32_Ret _ _ _ E3). destruct (Z.eqb_spec c NULL); [done|]. tauto.
  - rewrite (proj2 (Z.eqb_neq _ 0)) by tauto. run (rd32_Ret _ _ _ Er). rewrite u32_small by lia.
    run (rd32_Ret _ _ _ Em). by destruct (m =? NULL).
Qed.
End properties.

(** ** The root mount point *)

Section init.
Context {S : Type} `{ByteStoreLaws S, !Allocator S}.
Implicit Types s : S.

Definition apart (a n b m : Z) : Prop := a + n ≤ b ∨ b + m ≤ a.

(** The block at [p] for the mount point, and the variables and the literal, apart from it. *)
Record init_setting (mount_points root_mount_point slash p : Z) s : Prop := {
  vi_block : 0 < p ∧ p + 312 < 2 ^ 32 ∧ mapped s p 312;
  vi_variables : mapped s mount_points 4 ∧ mapped s root_mount_point 4 ∧ apart mount_points 4 root_mount_point 4;
  vi_slash : cstr s slash [47];
  vi_apart : apart mount_points 4 p 312 ∧ apart root_mount_point 4 p 312 ∧ apart slash 2 p 312 ∧ apart slash 2 mount_points 4
}.

(** A mount point of ["/"] with no file system and no children. *)
Definition fresh_root s (p : Z) : Prop :=
  cstr s p [47] ∧ get32 s (p + 300) = Some NULL ∧ get32 s (p + 304) = Some NULL ∧ get32 s (p + 308) = Some NULL.

Lemma initialize_list_ok s l : 0 < l → l + 8 < 2 ^ 32 → mapped s l 8 →
  ∃ s', initialize_list l s = Ret None s' ∧ get32 s' l = Some NULL ∧ get32 s' (l + 4) = Some NULL ∧
    same_but l 8 s s' ∧ stores s s'.
Proof.
  intros Hl Hl2 Hm.
  destruct (wr32_Ret s l NULL) as (s1 & E1 & W1); [by apply (mapped_sub _ l 8); [|lia..]|].
  destruct (wr32_Ret s1 (l + 4) NULL) as (s2 & E2 & W2);
    [eapply stored32_mapped; [done|]; by apply (mapped_sub _ l 8); [|lia..]|].
  exists s2. split_and!.
  - unfold initialize_list, list_head_field, list_iter_node. rewrite (proj2 (Z.eqb_neq l NULL)) by (unfold NULL; lia).
    run E1. run (rd32_Ret _ _ _ (stored32_same _ _ _ _ W1)). rewrite u32_small by lia. by run E2.
  - rewrite (stored32_other _ _ _ _ _ W2) by lia. by rewrite (stored32_same _ _ _ _ W1).
  - by rewrite (stored32_same _ _ _ _ W2).
  - intros b Hb. rewrite (stored32_same_but _ _ _ _ W2), (stored32_same_but _ _ _ _ W1) by lia. done.
  - unfold stores. etransitivity; by eapply wr32_stores.
Qed.

(** The stores to the block: path, file system, children. *)
Lemma fresh_root_ok s p slash : 0 < p → p + 312 < 2 ^ 32 → mapped s p 312 → cstr s slash [47] → apart slash 2 p 312 →
  ∃ s1 s2 s3, memcpy (mount_path p) slash 2 s = Ret tt s1 ∧ wr32 (mounted_fs p) NULL s1 = Ret tt s2 ∧
    initialize_list (mount_children p) s2 = Ret None s3 ∧ fresh_root s3 p ∧
    same_but p 312 s s1 ∧ same_but p 312 s s2 ∧ same_but p 312 s s3 ∧ stores s s3.
Proof.
  intros Hp Hp2 Hm Hc Ha. unfold apart in Ha. assert (Hc' := Hc). cbn [cstr] in Hc'. destruct Hc' as (Hs & _ & E0 & Hs1 & E1).
  destruct (memcpy_ok s p slash 2) as (s1 & R1 & C1); [unfold INT_MAX; lia| |by apply (mapped_sub _ p 312); [|lia..]|lia|].
  { intros b Hb. assert (b = slash ∨ b = slash + 1) as [->| ->] by lia; eauto. }
  assert (same_but p 312 s s1) as S1 by (intros b Hb; by rewrite C1, decide_False by lia).
  assert (mapped s1 p 312) as Hm1.
  { intros b Hb. rewrite C1. case_decide; [|by apply Hm].
    assert (b = p ∨ b = p + 1) as [->| ->] by lia; [replace (slash + (p - p)) with slash by lia
      |replace (slash + (p + 1 - p)) with (slash + 1) by lia]; eauto. }
  destruct (wr32_Ret s1 (p + 300) NULL) as (s2 & R2 & W2); [by apply (mapped_sub _ p 312); [|lia..]|].
  destruct (initialize_list_ok s2 (p + 304)) as (s3 & R3 & G3 & G4 & S3 & St3);
    [lia|lia|eapply stored32_mapped; [done|]; by apply (mapped_sub _ p 312); [|lia..]|].
  pose proof (stored32_same_but _ _ _ _ W2) as S2.
  exists s1, s2, s3. split_and!; [done|by rewrite <-R2; unfold mounted_fs, MAX_PATH_LENGTH; rewrite u32_small by lia| |..].
  - rewrite <-R3. f_equal. unfold mount_children, MAX_PATH_LENGTH. rewrite u32_small; lia.
  - split_and!.
    + apply (cstr_moved s s3 p slash); [done|lia|simpl; lia|]. intros k Hk. simpl in Hk.
      rewrite S3, S2, C1, decide_True by lia. f_equal. lia.
    + rewrite <-(stored32_same _ _ _ _ W2 : get32 s2 (p + 300) = Some NULL). apply get32_ext. intros b Hb. apply S3. lia.
    + done.
    + by replace (p + 308) with (p + 304 + 4) by lia.
  - done.
  - intros b Hb. rewrite S2 by lia. by apply S1.
  - intros b Hb. rewrite S3, S2 by lia. by apply S1.
  - unfold stores in *. etransitivity; [by eapply memcpy_stores|]. etransitivity; [by eapply wr32_stores|done].
Qed.

(** [vfs_init], when there is memory for the mount point.  The kernel panics
    if the caller of [initialize_list] finds a zero where no result was left. *)
Lemma vfs_init_ok mount_points root_mount_point slash (no_return : bool) s p s0 :
  al_malloc sizeof_mount_point s = Ret p s0 → init_setting mount_points root_mount_point slash p s0 →
  if no_return then
    ∃ s', vfs_init mount_points root_mount_point slash no_return s = Ret tt s' ∧ fresh_root s' p ∧
      get32 s' mount_points = Some p ∧ get32 s' root_mount_point = Some p ∧ stores s0 s' ∧
      ∀ b, ¬ p ≤ b < p + 312 → ¬ mount_points ≤ b < mount_points + 4 → ¬ root_mount_point ≤ b < root_mount_point + 4 →
        get8 s' b = get8 s0 b
  else vfs_init mount_points root_mount_point slash no_return s = Panic.
Proof.
  intros Em [(Hp & Hp2 & Hpm) (Hm1 & Hm2 & Ha0) Hsl (Ha1 & Ha2 & Ha3 & Ha4)]. unfold apart in *.
  destruct (wr32_Ret s0 mount_points p Hm1) as (s1 & E1 & W1). pose proof (stored32_same_but _ _ _ _ W1) as S1.
  assert (get32 s1 mount_points = Some p) as G1 by (rewrite (stored32_same _ _ _ _ W1), u32_small; [done|lia]).
  destruct (fresh_root_ok s1 p slash) as (s2 & s3 & s4 & E2 & E3 & E4 & F4 & S2 & S3 & S4 & St4);
    [done|done|by eapply stored32_mapped|apply (cstr_ext s0); [done|]; intros b Hb; apply S1; simpl in Hb; lia|unfold apart; lia|].
  assert (∀ t, same_but p 312 s1 t → get32 t mount_points = Some p) as Hg.
  { intros t St. rewrite <-G1. apply get32_ext. intros b Hb. apply St. lia. }
  unfold vfs_init. destruct no_return; run Em; run E1; rewrite (proj2 (Z.eqb_neq p NULL)) by (unfold NULL; lia);
    rewrite bind_ret_l; run (rd32_Ret _ _ _ G1); run E2; run (rd32_Ret _ _ _ (Hg _ S2)); run E3;
    run (rd32_Ret _ _ _ (Hg _ S3)); run E4; [|done].
  cbn [default negb]. rewrite bind_ret_l. run (rd32_Ret _ _ _ (Hg _ S4)).
  destruct (wr32_Ret s4 root_mount_point p) as (s5 & E5 & W5).
  { intros b Hb. rewrite S4 by lia. by eapply stored32_mapped. }
  pose proof (stored32_same_but _ _ _ _ W5) as S5. rewrite E5. exists s5. split_and!; [done| | | | |].
  - destruct F4 as (F1 & F2 & F3 & F5). split_and!; [|rewrite (stored32_other _ _ _ _ _ W5) by lia; done..].
    apply (cstr_ext s4); [done|]. intros b Hb. apply S5. simpl in Hb. lia.
  - rewrite (stored32_other _ _ _ _ _ W5) by lia. by apply Hg.
  - rewrite (stored32_same _ _ _ _ W5), u32_small; [done|lia].
  - unfold stores in *. etransitivity; [by eapply wr32_stores|]. etransitivity; [done|by eapply wr32_stores].
  - intros b Hb1 Hb2 Hb3. by rewrite S5, S4, S1.
Qed.
End init.

(** ** Opening *)

Section opening.
Context {S : Type} `{ByteStoreLaws S, !Allocator S, !AllocatorLaws S}.
Implicit Types s : S.

(** The program's bytes in [P] are still the program's, and the same. *)
Definition mem_kept (P : Z → Prop) s s' : Prop :=
  ∀ b, P b → ¬ al_private s b → ¬ al_private s' b ∧ get8 s' b = get8 s b.

Lemma mem_kept_refl P s : mem_kept P s s.
Proof. done. Qed.

Lemma mem_kept_trans P s1 s2 s3 : mem_kept P s1 s2 → mem_kept P s2 s3 → mem_kept P s1 s3.
Proof.
  intros K1 K2 b Hb Hp. destruct (K1 b Hb Hp) as [Hp2 E2]. destruct (K2 b Hb Hp2) as [Hp3 E3].
  split; [done|congruence].
Qed.

Lemma mem_kept_malloc P n s p s' : al_malloc n s = Ret p s' → mem_kept P s s'.
Proof. intros E b _. by eapply al_malloc_keeps. Qed.

Lemma mem_kept_free P p n s s' : al_free p s = Ret tt s' → owned s p n → (∀ b, P b → ¬ p ≤ b < p + n) → mem_kept P s s'.
Proof. intros E Ho HP b Hb. apply (al_free_keeps p n s s' b E Ho). by apply HP. Qed.

Lemma mem_kept_get32 P s s' a : mem_kept P s s' → owned s a 4 → (∀ b, a ≤ b < a + 4 → P b) → get32 s' a = get32 s a.
Proof. intros K Ho HP. apply get32_ext. intros b Hb. apply K; [by apply HP|by apply Ho]. Qed.

Lemma mem_kept_owned (P : Z → Prop) s s' a n : mem_kept P s s' → owned s a n → (∀ b, a ≤ b < a + n → P b) → owned s' a n.
Proof. intros K Ho HP b Hb. apply K; [by apply HP|by apply Ho]. Qed.

(** A store to the program's memory outside of [P]. *)
Lemma store_kept (P : Z → Prop) s a v :
  mapped s a 4 → owned s a 4 → 0 ≤ v < 2 ^ 32 → (∀ b, P b → ¬ a ≤ b < a + 4) →
  ∃ s', wr32 a v s = Ret tt s' ∧ get32 s' a = Some v ∧ same_but a 4 s s' ∧ mem_kept P s s' ∧
    (∀ x k, mapped s x k → mapped s' x k) ∧ (∀ x k, owned s x k → owned s' x k) ∧ uses s s'.
Proof.
  intros Hm Ho Hv HP. destruct (wr32_owned s a v Hm Ho Hv) as (s' & E & G & W & M & O).
  exists s'. split_and!; try done; [|by eapply wrote_uses, (wr32_wrote (λ _, True))]. intros b Hb Hp. split.
  - apply (O b 1); [|lia]. intros c Hc. by replace c with b by lia.
  - apply W. by apply HP.
Qed.

(** The same of any such stores. *)
Lemma mem_kept_wrote (P W : Z → Prop) s s' : wrote W s s' → (∀ b, P b → ¬ W b) → mem_kept P s s'.
Proof.
  intros Hw HP b Hb Hp. split; [by rewrite (wrote_private _ _ _ b Hw)|]. eapply wrote_same; [done|]. by apply HP.
Qed.

(** The list at [t] has the one node [p], for [e]. *)
Record single s (t p e : Z) : Prop := {
  single_list : 0 < t ∧ t + 8 < 2 ^ 32 ∧ mapped s t 8 ∧ owned s t 8;
  single_node : 0 < p ∧ p + 8 < 2 ^ 32 ∧ mapped s p 8 ∧ owned s p 8;
  single_apart : t + 8 ≤ p ∨ p + 8 ≤ t;
  single_words : get32 s t = Some p ∧ get32 s p = Some e ∧ get32 s (p + 4) = Some NULL
}.

(** The list at [t] is empty. *)
Definition empty s (t : Z) : Prop :=
  (0 < t ∧ t + 8 < 2 ^ 32 ∧ mapped s t 8 ∧ owned s t 8) ∧ get32 s t = Some NULL.

Lemma owned_sub s a n b k : owned s a n → a ≤ b → b + k ≤ a + n → owned s b k.
Proof. intros Ho ? ? x Hx. apply Ho. lia. Qed.

Lemma same_but_get32 s s' a n b : same_but a n s s' → b + 4 ≤ a ∨ a + n ≤ b → get32 s' b = get32 s b.
Proof. intros W ?. apply get32_ext. intros x Hx. apply W. lia. Qed.

(** Four of the eight bytes at [a]. *)
#[local] Ltac part a := first [apply (mapped_sub _ a 8)|apply (owned_sub _ a 8)]; [auto 7|lia|lia].

Lemma initialize_empty P s t :
  0 < t → t + 8 < 2 ^ 32 → mapped s t 8 → owned s t 8 → (∀ b, P b → ¬ t ≤ b < t + 8) →
  ∃ s', initialize_list t s = Ret None s' ∧ empty s' t ∧ mem_kept P s s' ∧ wrote (λ b, t ≤ b < t + 8) s s'.
Proof.
  intros Ht Ht2 Hm Ho HP.
  destruct (store_kept P s t NULL) as (s1 & E1 & G1 & W1 & K1 & M1 & O1 & U1);
    [part t|part t|done|intros b Hb; specialize (HP b Hb); lia|].
  destruct (store_kept P s1 (t + 4) NULL) as (s2 & E2 & G2 & W2 & K2 & M2 & O2 & U2);
    [part t|part t|done|
     intros b Hb; specialize (HP b Hb); lia|].
  exists s2. split_and!.
  - unfold initialize_list, list_head_field, list_iter_node.
    rewrite (proj2 (Z.eqb_neq t NULL)) by (unfold NULL; lia). run E1. run (rd32_Ret _ _ _ G1).
    rewrite u32_small by lia. by run E2.
  - split; [split_and!; [lia|lia|by apply M2, M1|by apply O2, O1]|].
    rewrite (same_but_get32 _ _ _ _ _ W2); [done|lia].
  - by eapply mem_kept_trans.
  - eapply wrote_wr32; [|exact E2|part t|lia]. eapply wr32_wrote; [exact E1|part t|lia].
Qed.

Lemma add_first_ok P fuel s t e p s0 :
  empty s t → 0 ≤ e < 2 ^ 32 → (0 < fuel)%nat → al_malloc sizeof_node s = Ret p s0 → p ≠ NULL →
  (∀ b, P b → ¬ t ≤ b < t + 8 ∧ ¬ p ≤ b < p + 8) →
  ∃ s', add_element fuel t e s = Ret true s' ∧ single s' t p e ∧ mem_kept P s s' ∧ uses s0 s'.
Proof.
  intros [(Ht & Ht2 & Hm & Ho) Hg] He Hf Em Hp HP. destruct fuel as [|fuel]; [lia|].
  destruct (al_malloc_fresh _ _ _ _ Em Hp) as (Hp1 & Hp2 & Hpm & Hpp). unfold sizeof_node in Hp2, Hpm, Hpp.
  assert (t + 8 ≤ p ∨ p + 8 ≤ t) as Hd.
  { assert (p + 8 ≤ t ∨ t + 8 ≤ p); [|lia]. apply (private_disjoint s); [lia|lia| |done]. intros b Hb. by apply Hpp. }
  assert (mapped s0 t 8 ∧ owned s0 t 8) as [Hm0 Ho0].
  { split; intros b Hb; destruct (al_malloc_keeps _ _ _ _ b Em (Ho b Hb)) as [Hn E]; [rewrite E; by apply Hm|done]. }
  assert (owned s0 p 8) as Hpo by (intros b Hb; by apply Hpp).
  destruct (store_kept P s0 t p) as (s1 & E1 & G1 & W1 & K1 & M1 & O1 & U1);
    [part t|part t|lia|intros b Hb; specialize (HP b Hb); lia|].
  destruct (store_kept P s1 (p + 4) NULL) as (s2 & E2 & G2 & W2 & K2 & M2 & O2 & U2);
    [part p|part p|done|
     intros b Hb; specialize (HP b Hb); lia|].
  destruct (store_kept P s2 p e) as (s3 & E3 & G3 & W3 & K3 & M3 & O3 & U3);
    [part p|part p|lia|
     intros b Hb; specialize (HP b Hb); lia|].
  destruct (store_kept P s3 (t + 4) p) as (s4 & E4 & G4 & W4 & K4 & M4 & O4 & U4);
    [part t|part t|lia|
     intros b Hb; specialize (HP b Hb); lia|].
  assert (get32 s2 t = Some p) as G12 by (rewrite (same_but_get32 _ _ _ _ _ W2); [done|lia]).
  assert (get32 s3 t = Some p) as G13 by (rewrite (same_but_get32 _ _ _ _ _ W3); [done|lia]).
  exists s4. split_and!.
  - unfold add_element. rewrite (proj2 (Z.eqb_neq t NULL)) by (unfold NULL; lia).
    unfold list_head_field, list_iter_node, node_next, node_element. cbn [add_element_loop].
    rewrite bind_assoc. run (rd32_Ret _ _ _ Hg). rewrite Z.eqb_refl, bind_ret_l. run Em. run E1.
    run (rd32_Ret _ _ _ G1). rewrite (u32_small (p + 4)) by lia. run E2. run (rd32_Ret _ _ _ G12). run E3.
    rewrite Z.eqb_refl, bind_assoc. run (rd32_Ret _ _ _ G13). rewrite (u32_small (t + 4)) by lia. by run E4.
  - split; [split_and!; [lia|lia|by apply M4, M3, M2, M1|by apply O4, O3, O2, O1]
           |split_and!; [lia|lia|by apply M4, M3, M2, M1|by apply O4, O3, O2, O1]|done|].
    split_and!; rewrite (same_but_get32 _ _ _ _ _ W4) by lia; [done|done|].
    rewrite (same_but_get32 _ _ _ _ _ W3); [done|lia].
  - eapply mem_kept_trans; [by eapply mem_kept_malloc|]. do 2 (eapply mem_kept_trans; [done|]). by eapply mem_kept_trans.
  - do 2 (eapply uses_trans; [done|]). by eapply uses_trans.
Qed.
Lemma pop_single_ok P fuel s t p e :
  single s t p e → (0 < fuel)%nat → (∀ s1, ∃ s2, al_free p s1 = Ret tt s2) →
  (∀ b, P b → ¬ t ≤ b < t + 8 ∧ ¬ p ≤ b < p + 8) →
  ∃ s', pop_element fuel t 0 s = Ret e s' ∧ empty s' t ∧ mem_kept P s s' ∧ uses s s'.
Proof.
  intros [(Ht & Ht2 & Hm & Ho) (Hp & Hp2 & Hpm & Hpo) Hd (Hg & Hge & Hgn)] Hf Hfree HP.
  destruct fuel as [|fuel]; [lia|].
  destruct (store_kept (λ b, P b ∨ t + 4 ≤ b < t + 8) s t NULL) as (s1 & E1 & G1 & W1 & K1 & M1 & O1 & U1);
    [part t|part t|done|intros b [Hb|Hb]; [specialize (HP b Hb)|]; lia|].
  destruct (Hfree s1) as [s2 E2].
  assert (mem_kept (λ b, P b ∨ t ≤ b < t + 8) s1 s2) as K2.
  { apply (mem_kept_free _ p 8 _ _ E2); [by apply O1|]. intros b [Hb|Hb]; [specialize (HP b Hb)|]; lia. }
  assert (owned s2 t 8) as Ho2 by (apply (mem_kept_owned _ s1 s2 t 8 K2); [by apply O1|intros b Hb; by right]).
  assert (mapped s2 t 8) as Hm2.
  { intros b Hb. destruct (K2 b (or_intror Hb)) as [_ ->]; [exact (O1 t 8 Ho b Hb)|exact (M1 t 8 Hm b Hb)]. }
  assert (get32 s2 t = Some NULL) as G2.
  { rewrite (mem_kept_get32 _ _ _ t K2); [done|part t|intros b Hb; right; lia]. }
  destruct (store_kept P s2 (t + 4) NULL) as (s3 & E3 & G3 & W3 & K3 & M3 & O3 & U3);
    [part t|part t|done|intros b Hb; specialize (HP b Hb); lia|].
  exists s3. split_and!.
  - unfold pop_element. rewrite (proj2 (Z.eqb_neq t NULL)) by (unfold NULL; lia). cbn [orb Z.ltb Z.compare].
    unfold list_head_field, list_iter_node. run (rd32_Ret _ _ _ Hg). cbn [pop_element_loop].
    rewrite (proj2 (Z.eqb_neq p NULL)) by (unfold NULL; lia). rewrite Z.eqb_refl.
    unfold node_next, node_element. rewrite (u32_small (p + 4)) by lia. run (rd32_Ret _ _ _ Hgn). run E1.
    assert (get32 s1 p = Some e) as G1p by (rewrite (same_but_get32 _ _ _ _ _ W1); [done|lia]).
    run (rd32_Ret _ _ _ G1p). run E2. unfold list_head_field, list_iter_node. run (rd32_Ret _ _ _ G2).
    rewrite (u32_small (t + 4)) by lia. by run E3.
  - split; [split_and!; [lia|lia|by apply M3|by apply O3]|].
    rewrite (same_but_get32 _ _ _ _ _ W3); [done|lia].
  - eapply mem_kept_trans; [|done]. eapply mem_kept_trans; [|].
    + intros b Hb. apply K1. by left.
    + intros b Hb. apply K2. by left.
  - eapply uses_trans; [done|]. eapply uses_trans; [|done]. eapply free_uses; [done| |by apply O1]. done.
Qed.

(** Iterating over a list that is empty. *)
Lemma iter_empty_ok P s l :
  0 < l → l + 8 < 2 ^ 32 → owned s l 8 → get32 s l = Some NULL → get32 s (l + 4) = Some NULL →
  (∀ b, P b → ¬ l + 4 ≤ b < l + 8) →
  ∃ s', iter_list l s = Ret NULL s' ∧ mem_kept P s s' ∧ uses s s'.
Proof.
  intros Hl Hl2 Ho Hh Hi HP.
  destruct (store_kept P s (l + 4) NULL) as (s1 & E1 & G1 & W1 & K1 & M1 & O1 & U1);
    [by eapply get32_mapped|part l|done|intros b Hb; specialize (HP b Hb); lia|].
  exists s1. split; [|by split]. unfold iter_list, list_iter_node, list_head_field.
  rewrite (u32_small (l + 4)) by lia. run (rd32_Ret _ _ _ Hi). rewrite Z.eqb_refl. run (rd32_Ret _ _ _ Hh). by run E1.
Qed.
End opening.

Section opening_root.
Context {S : Type} `{ByteStoreLaws S, !Allocator S, !AllocatorLaws S, !FsOps S}.
Implicit Types s : S.

(** The root is mounted: the mount point [mp] without children has the file
    system [fs], whose function to open a file is [open]; [tree_nodes] is the
    local list. *)
Record root_mounted s (mount_points tree_nodes mp fs open : Z) : Prop := {
  rm_variable : get32 s mount_points = Some mp ∧ owned s mount_points 4;
  rm_point : 0 < mp ∧ mp + 312 < 2 ^ 32 ∧ owned s mp 312;
  rm_children : get32 s (mp + 304) = Some NULL ∧ get32 s (mp + 308) = Some NULL;
  rm_fs : get32 s (mp + 300) = Some fs ∧ get32 s (fs + 44) = Some open;
  rm_fs_range : 0 < fs ∧ fs + 56 < 2 ^ 32 ∧ owned s fs 56;
  rm_local : 0 < tree_nodes ∧ tree_nodes + 8 < 2 ^ 32 ∧ mapped s tree_nodes 8 ∧ owned s tree_nodes 8;
  rm_apart : apart tree_nodes 8 mount_points 4 ∧ apart tree_nodes 8 (mp + 300) 12 ∧ apart tree_nodes 8 (fs + 44) 4;
  rm_apart2 : apart mount_points 4 (mp + 308) 4 ∧ apart (fs + 44) 4 (mp + 308) 4
}.

(** What [vfs_open] leaves alone: all of the program's memory but the local
    list and the iterator of the root's children. *)
Definition open_kept (tree_nodes mp b : Z) : Prop :=
  ¬ tree_nodes ≤ b < tree_nodes + 8 ∧ ¬ mp + 308 ≤ b < mp + 312.

Lemma vfs_open_children_none fuel mount_points sfuel lfuel t mp path P s :
  (0 < fuel)%nat → get32 s mount_points = Some mp → 0 < mp → mp + 312 < 2 ^ 32 → owned s (mp + 304) 8 →
  get32 s (mp + 304) = Some NULL → get32 s (mp + 308) = Some NULL → (∀ b, P b → ¬ mp + 308 ≤ b < mp + 312) →
  ∃ s', vfs_open_children mount_points sfuel lfuel t fuel path s = Ret true s' ∧ mem_kept P s s' ∧ uses s s'.
Proof.
  intros Hf Hv Hm1 Hm2 Ho Hc Hi HP. destruct fuel as [|fuel]; [lia|].
  destruct (iter_empty_ok P s (mp + 304)) as (s' & E & K); [lia|lia|done|done| |
    intros b Hb; specialize (HP b Hb); lia|].
  { by replace (mp + 304 + 4) with (mp + 308) by lia. }
  exists s'. split; [|done]. cbn [vfs_open_children]. run (rd32_Ret _ _ _ Hv).
  assert (mount_children mp = mp + 304) as -> by (unfold mount_children, MAX_PATH_LENGTH; rewrite u32_small; lia).
  by run E.
Qed.
(** The list is empty: nothing is given back. *)
Lemma free_empty_ok fuel s t : (0 < fuel)%nat → empty s t → free_list fuel t s = Ret tt s.
Proof.
  intros Hf [_ E]. destruct fuel as [|fuel]; [lia|]. unfold free_list, list_head_field. by run (rd32_Ret _ _ _ E).
Qed.

(** One pass of the loop empties the list and finds the root. *)
Lemma vfs_open_loop_root lfuel mount_points sfuel t mp path p s :
  (0 < lfuel)%nat → single s t p mp → (∀ s1, ∃ s2, al_free p s1 = Ret tt s2) →
  get32 s mount_points = Some mp → owned s mount_points 4 → 0 < mp → mp + 312 < 2 ^ 32 → owned s (mp + 300) 12 →
  get32 s (mp + 304) = Some NULL → get32 s (mp + 308) = Some NULL →
  (∀ b, mount_points ≤ b < mount_points + 4 ∨ mp + 300 ≤ b < mp + 312 → ¬ p ≤ b < p + 8) →
  apart t 8 mount_points 4 → apart t 8 (mp + 300) 12 →
  ∃ s', vfs_open_loop mount_points sfuel lfuel t lfuel path s = Ret mp s' ∧ empty s' t ∧
    mem_kept (λ b, open_kept t mp b ∧ ¬ p ≤ b < p + 8) s s' ∧ uses s s'.
Proof.
  intros Hf Hs Hfree Hv Hvo Hm1 Hm2 Hmo Hc Hi Hp Ha1 Ha2. destruct lfuel as [|n]; [lia|].
  destruct (pop_single_ok (λ b, ¬ t ≤ b < t + 8 ∧ ¬ p ≤ b < p + 8) (Datatypes.S n) s t p mp)
    as (s1 & E1 & He1 & K1 & U1); [done|lia|done|tauto|].
  assert (∀ a k, mount_points ≤ a ∧ a + k ≤ mount_points + 4 ∨ mp + 300 ≤ a ∧ a + k ≤ mp + 312 →
    ∀ b, a ≤ b < a + k → ¬ t ≤ b < t + 8 ∧ ¬ p ≤ b < p + 8) as Hin.
  { unfold apart in *. intros a k Hak b Hb. split; [lia|]. apply Hp. lia. }
  destruct (vfs_open_children_none (Datatypes.S n) mount_points sfuel (Datatypes.S n) t mp path
    (λ b, ¬ mp + 308 ≤ b < mp + 312) s1) as (s2 & E2 & K2 & U2); [lia| |done|done| | | |done|].
  - rewrite (mem_kept_get32 _ _ _ _ K1); [done|done|apply (Hin _ 4); lia].
  - apply (mem_kept_owned _ s s1 _ _ K1); [by apply (owned_sub _ (mp + 300) 12); [|lia..]|apply (Hin _ 8); lia].
  - rewrite (mem_kept_get32 _ _ _ _ K1); [done|by apply (owned_sub _ (mp + 300) 12); [|lia..]|apply (Hin _ 4); lia].
  - rewrite (mem_kept_get32 _ _ _ _ K1); [done|by apply (owned_sub _ (mp + 300) 12); [|lia..]|apply (Hin _ 4); lia].
  - assert (empty s2 t) as He2.
    { destruct He1 as [(Ht & Ht2 & Hm & Ho) G]. unfold apart in Ha2. split; [split_and!; [done|done| |]|].
      - intros b Hb. destruct (K2 b) as [_ ->]; [lia|exact (Ho b Hb)|exact (Hm b Hb)].
      - apply (mem_kept_owned _ s1 s2 _ _ K2); [done|intros b Hb; lia].
      - rewrite (mem_kept_get32 _ _ _ _ K2); [done|by apply (owned_sub _ t 8); [|lia..]|intros b Hb; lia]. }
    exists s2. split; [|split_and!; [done| |by eapply uses_trans]].
    + cbn [vfs_open_loop]. run E1. rewrite (proj2 (Z.eqb_neq mp NULL)) by (unfold NULL; lia). cbn [negb]. run E2.
      unfold is_empty. destruct He2 as [(Ht & _) G]. rewrite (proj2 (Z.eqb_neq t NULL)) by (unfold NULL; lia).
      cbn [negb]. unfold list_head_field. rewrite bind_assoc. run (rd32_Ret _ _ _ G). done.
    + eapply mem_kept_trans.
      * intros b [[Hb1 Hb2] Hb3]. by apply K1.
      * intros b [[Hb1 Hb2] Hb3]. by apply K2.
Qed.

(** The search of [vfs_open] with the list initialised: the root is found and
    the list is empty again. *)
Lemma vfs_open_search mount_points t sfuel lfuel path s mp fs open s1 p s2 :
  root_mounted s mount_points t mp fs open → (0 < lfuel)%nat →
  empty s1 t → mem_kept (λ b, ¬ t ≤ b < t + 8) s s1 →
  al_malloc sizeof_node s1 = Ret p s2 → p ≠ NULL → (∀ p s1, ∃ s2, al_free p s1 = Ret tt s2) →
  ∃ s3 s4, add_element lfuel t mp s1 = Ret true s3 ∧
    vfs_open_loop mount_points sfuel lfuel t lfuel path s3 = Ret mp s4 ∧ empty s4 t ∧ mem_kept (open_kept t mp) s s4 ∧ uses s2 s4.
Proof.
  intros [[Hv Hvo] (Hm1 & Hm2 & Hmo) [Hc Hi] _ _ _ (Ha1 & Ha2 & _) _] Hl He1 K1 Em Hp Hfree.
  destruct (al_malloc_fresh _ _ _ _ Em Hp) as (_ & _ & _ & Hpp). unfold sizeof_node in Hpp.
  assert (∀ a k, 0 < k → owned s a k → apart t 8 a k → ∀ b, a ≤ b < a + k → ¬ t ≤ b < t + 8 ∧ ¬ p ≤ b < p + 8) as Hin.
  { intros a k Hk Ho Ha b Hb. unfold apart in Ha. split; [lia|]. intros Hpb.
    destruct (K1 b) as [Hn _]; [lia|by apply Ho|]. apply Hn. by apply Hpp. }
  destruct (add_first_ok (λ b, ¬ t ≤ b < t + 8 ∧ ¬ p ≤ b < p + 8) lfuel s1 t mp p s2) as (s3 & E3 & Hs3 & K3 & U3);
    [done|lia|done|done|done|done|].
  assert (mem_kept (λ b, ¬ t ≤ b < t + 8 ∧ ¬ p ≤ b < p + 8) s s3) as K13.
  { eapply mem_kept_trans; [|done]. intros b [Hb _]. by apply K1. }
  assert (∀ a v, owned s a 4 → apart t 8 a 4 → get32 s a = Some v → get32 s3 a = Some v) as Hw3.
  { intros a v Ho Ha <-. apply (mem_kept_get32 _ _ _ _ K13 Ho). by apply Hin. }
  assert (∀ a k, mp ≤ a → a + k ≤ mp + 312 → owned s a k) as Hsub by (intros a k ? ?; by apply (owned_sub _ mp 312)).
  destruct (vfs_open_loop_root lfuel mount_points sfuel t mp path p s3) as (s4 & E4 & He4 & K4 & U4);
    try done; try (apply Hw3; [apply Hsub; lia|unfold apart in *; lia|done]).
  { by apply Hw3. }
  { apply (mem_kept_owned _ _ _ _ _ K13 Hvo). by apply Hin. }
  { apply (mem_kept_owned _ _ _ _ _ K13); [apply Hsub; lia|]. apply Hin; [lia|apply Hsub; lia|done]. }
  { intros b [Hb|Hb]; [by apply (Hin mount_points 4)|]. apply (Hin (mp + 300) 12); [lia|apply Hsub; lia|done|lia]. }
  exists s3, s4. split_and!; [done..| |by eapply uses_trans].
  assert (mem_kept (λ b, open_kept t mp b ∧ ¬ p ≤ b < p + 8) s s4) as K14.
  { eapply mem_kept_trans; [|done]. intros b [[Hb1 Hb2] Hb3]. by apply K13. }
  intros b Hb Hn. apply K14; [|done]. split; [done|]. intros Hpb.
  destruct (K1 b) as [Hn1 _]; [by destruct Hb|done|]. apply Hn1. by apply Hpp.
Qed.

(** The path is handed to the file system of the root, after an allocation. *)
Lemma vfs_open_ok mount_points t sfuel lfuel path s mp fs open :
  root_mounted s mount_points t mp fs open → (0 < lfuel)%nat →
  (∀ s1, wrote (λ b, t ≤ b < t + 8) s s1 → ∃ p s2, al_malloc sizeof_node s1 = Ret p s2 ∧ p ≠ NULL) →
  (∀ p s1, ∃ s2, al_free p s1 = Ret tt s2) →
  ∃ s1 p s2 s', wrote (λ b, t ≤ b < t + 8) s s1 ∧ al_malloc sizeof_node s1 = Ret p s2 ∧ uses s2 s' ∧
    vfs_open mount_points true sfuel lfuel t path s = call_open open fs path s' ∧ mem_kept (open_kept t mp) s s'.
Proof.
  intros Hroot Hl Hall Hfree.
  pose proof Hroot as [[Hv Hvo] (Hm1 & Hm2 & Hmo) _ [Hf Hop] (Hf1 & Hf2 & Hfo) (Ht1 & Ht2 & Htm & Hto) (Ha1 & Ha2 & Ha3) [Ha4 Ha5]].
  destruct (initialize_empty (λ b, ¬ t ≤ b < t + 8) s t) as (s1 & E1 & He1 & K1 & W1); [done..|].
  destruct (Hall s1 W1) as (p & s2 & Em & Hp).
  destruct (vfs_open_search mount_points t sfuel lfuel path s mp fs open s1 p s2)
    as (s3 & s4 & E3 & E4 & He4 & K4 & U4); [done..|].
  assert (get32 s1 mount_points = Some mp) as Hv1.
  { rewrite <-Hv. apply (mem_kept_get32 _ _ _ _ K1 Hvo). intros b Hb. unfold apart in Ha1. lia. }
  assert (∀ a v, owned s a 4 → apart t 8 a 4 → apart a 4 (mp + 308) 4 → get32 s a = Some v → get32 s4 a = Some v) as Hw4.
  { intros a v Ho Ha Ha' <-. apply (mem_kept_get32 _ _ _ _ K4 Ho). unfold apart, open_kept in *. lia. }
  assert (get32 s4 (mp + 300) = Some fs) as Hf4.
  { apply Hw4; [by apply (owned_sub _ mp 312); [|lia..]|unfold apart in *; lia..|done]. }
  assert (get32 s4 (fs + 44) = Some open) as Hop4.
  { apply Hw4; [by apply (owned_sub _ fs 56); [|lia..]|done..]. }
  exists s1, p, s2, s4. split_and!; [done..| |done].
  unfold vfs_open. run E1. cbn [default from_option].
  rewrite bind_assoc. run (rd32_Ret _ _ _ Hv1). rewrite bind_assoc. run E3. run E4.
  run (free_empty_ok lfuel s4 t Hl He4). rewrite (proj2 (Z.eqb_neq mp NULL)) by (unfold NULL; lia). cbn [negb].
  unfold mounted_fs, MAX_PATH_LENGTH. rewrite (u32_small (mp + 300)) by lia. run (rd32_Ret _ _ _ Hf4).
  unfold fs_open. rewrite (u32_small (fs + 44)) by lia. run (rd32_Ret _ _ _ Hop4). by run (rd32_Ret _ _ _ Hf4).
Qed.

(** [vfs_open] on a root without mounted children.  The path is opened by the
    root's file system, and of the program's memory only the local list and an
    iterator change - provided that the caller takes what [initialize_list]
    left in the result's register for true, since it returns nothing;
    otherwise no file is ever found. *)
Theorem vfs_open_root mount_points t no_return sfuel lfuel path s mp fs open :
  root_mounted s mount_points t mp fs open → (0 < lfuel)%nat →
  (∀ s1, stores s s1 → ∃ p s2, al_malloc sizeof_node s1 = Ret p s2 ∧ p ≠ NULL) →
  (∀ p s1, ∃ s2, al_free p s1 = Ret tt s2) →
  ∃ s', vfs_open mount_points no_return sfuel lfuel t path s
        = (if no_return then call_open open fs path else mret NULL) s' ∧ mem_kept (open_kept t mp) s s'.
Proof.
  intros Hroot Hl Hall Hfree. destruct no_return.
  - destruct (vfs_open_ok mount_points t sfuel lfuel path s mp fs open) as (s1 & p & s2 & s' & _ & _ & _ & E & K);
      [done|done| |done|by exists s'].
    intros s1 W. apply Hall. by eapply wrote_stores.
  - pose proof Hroot as [_ _ _ _ _ (Ht1 & Ht2 & Htm & Hto) _ _].
    destruct (initialize_empty (λ b, ¬ t ≤ b < t + 8) s t) as (s1 & E1 & He1 & K1 & W1); [done..|].
    exists s1. split; [|intros b [Hb _]; by apply K1]. unfold vfs_open. run E1. cbn [default from_option].
    rewrite bind_ret_l. by run (free_empty_ok lfuel s1 t Hl He1).
Qed.
End opening_root.

(** ** Witness *)

(** The root mount point at 0x100, its variable at 0x20, the literal at 0x30,
    a complete file system at 0x40. *)
Definition example_vfs : carray :=
  CArray 0x1000
    (put_bytes 0x20 [0; 1; 0; 0] (put_bytes 0x30 [47; 0] (put_bytes 0x38 [47; 97; 0]
    (put_bytes (0x40 + 36) [1; 0; 0; 0]
    (put_bytes (0x40 + 44) [2; 0; 0; 0; 3; 0; 0; 0] ∅))))).

Lemma example_vfs_strings :
  cstr example_vfs 0x30 [47] ∧ cstr example_vfs 0x38 [47; 97].
Proof. unfold cstr. repeat split; vm_compute; (reflexivity || discriminate). Qed.

Lemma vfs_mount_spec_witness :
  (∃ s', vfs_mount 0x20 0x30 3 0x30 0x40 example_vfs = Ret (Some SUCCESS) s' ∧
     get32 s' 0x22c = Some 0x40 ∧ same_but 0x22c 4 example_vfs s' ∧ stores example_vfs s') ∧
  vfs_mount 0x20 0x30 3 0x38 0x40 example_vfs = Ret (Some NO_SUCH_DIRECTORY) example_vfs.
Proof.
  split.
  - apply (vfs_mount_spec 0x20 0x30 3 example_vfs 0x30 [47] 0x40 0x100 0 eq_refl eq_refl eq_refl eq_refl
             eq_refl (proj1 example_vfs_strings) (proj1 example_vfs_strings)) with (r := 1) (o := 2) (c := 3);
      [repeat constructor|vm_compute; reflexivity..].
  - apply (vfs_mount_spec 0x20 0x30 3 example_vfs 0x38 [47; 97] 0x40 0x100 0 eq_refl eq_refl eq_refl eq_refl
             eq_refl (proj2 example_vfs_strings) (proj1 example_vfs_strings)) with (r := 1) (o := 2) (c := 3);
      [repeat constructor|vm_compute; reflexivity..].
Defined.

(** The same after the mount, with the mount point's variable at 0x20, the
    local list at 0x28 and memory to allocate from 0x300 on. *)
Definition example_mounted : arena :=
  Arena (CArray 0x1000 (put_bytes 0x22c [0x40; 0; 0; 0] (adata example_vfs))) 0x300.

Lemma vfs_open_root_witness :
  ∃ s', @vfs_open arena _ _ (initrd_ops 5 2 1 3) 0x20 true 5 1 0x28 0x38 example_mounted
    = initrd_open 5 0x40 0x38 s' ∧ mem_kept (open_kept 0x28 0x100) example_mounted s'.
Proof.
  apply (@vfs_open_root arena _ _ _ _ (initrd_ops 5 2 1 3) 0x20 0x28 true 5 1 0x38 example_mounted 0x100 0x40 2).
  - split; [split; [reflexivity|intros b Hb; simpl; lia]|split_and!; [lia|lia|intros b Hb; simpl; lia]
      |split; reflexivity|split; reflexivity|split_and!; [lia|lia|intros b Hb; simpl; lia]| |
      unfold apart; lia|unfold apart; lia].
    split_and!; [lia|lia| |intros b Hb; simpl; lia].
    intros b Hb. unfold get8, arena_store, carray_store. cbn. rewrite decide_True by lia. eauto.
  - lia.
  - intros s1 [Hn Hs]%arena_stores. unfold al_malloc, arena_allocator. rewrite Hn, Hs. by do 2 eexists.
  - intros p s1. by eexists.
Defined.
