(* ===== verification/Entry.v ===== *)
(** * Boot: [kernel/entry.c]

    The mount of the initial ramdisk.  [register_ramdisk] is called by the
    code and defined nowhere: it is a parameter; so is the mapping of the
    boot module into the kernel's heap ([Kheap]), for its effect on memory. *)

From S2P Require Import Prelude Memory Chain CString Bitmap Phys Paging Kheap Kmalloc KList Initrd Vfs.

(** [struct multiboot_info], [multiboot_module_t] *)
Definition mods_count (info : Z) : Z := u32 (info + 20).
Definition mods_addr (info : Z) : Z := u32 (info + 24).
Definition mod_start (module : Z) : Z := module.
Definition mod_end (module : Z) : Z := u32 (module + 4).

(** The fields of [file_system_t] that [Initrd] does not use. *)
Definition fs_name (fs : Z) : Z := fs.
Definition fs_device (fs : Z) : Z := u32 (fs + 20).
Definition sizeof_fs : Z := 56.

Section entry_c.
Context {S : Type} `{ByteStore S}.
Variable register_ramdisk : Z → Z → M S error_code.
Variable map_physical : Z → Z → M S Z.

(** The addresses of the literals ["initrd"] and ["/"], of the three functions
    and of the variables of [Vfs]. *)
Variables initrd_literal slash read_address open_address close_address root_mount_point : Z.
Variable sfuel : nat.

(** Neither does anything, nor is called. *)
Definition harddisk_boot : M S unit := mret tt.
Definition floppy_boot (initrd : Z) : M S unit := mret tt.

Definition make_initrd_fs (info fs : Z) : M S unit :=
  n ← rd32 (mods_count info);
  (if negb (n =? 1) then mpanic else mret tt) ;;
  memcpy (fs_name fs) initrd_literal 8 ;;
  wr32 (fs_read fs) read_address ;;
  wr32 (fs_open fs) open_address ;;
  wr32 (fs_close fs) close_address ;;
  m ← rd32 (mods_addr info);
  b ← rd32 (mod_start m);
  wr32 (fs_partition_begin_offset fs) b ;;
  m ← rd32 (mods_addr info);
  e ← rd32 (mod_end m);
  wr32 (fs_partition_end_offset fs) e ;;
  e ← rd32 (fs_partition_end_offset fs);
  b ← rd32 (fs_partition_begin_offset fs);
  wr32 (fs_fs_specific fs) (u32 (e - b)) ;;
  wr32 (fs_device fs) NULL ;;
  b ← rd32 (fs_partition_begin_offset fs);
  e ← rd32 (fs_partition_end_offset fs);
  r ← register_ramdisk b e;
  (if negb (bool_decide (r = SUCCESS)) then mpanic else mret tt) ;;
  e ← rd32 (fs_partition_end_offset fs);
  b ← rd32 (fs_partition_begin_offset fs);
  let num_pages := u32 (e - b) / PAGE_SIZE in
  b ← rd32 (fs_partition_begin_offset fs);
  virtual_address ← map_physical b num_pages;
  (if virtual_address =? NULL then mpanic else mret tt) ;;
  wr32 (fs_partition_begin_offset fs) virtual_address ;;
  b ← rd32 (fs_partition_begin_offset fs);
  wr32 (fs_partition_end_offset fs) (u32 (b + u32 (num_pages * PAGE_SIZE))).

(** [kmain] from [file_system_t fs = {0}] to the end of the mount. *)
Definition kmain_mount (info fs : Z) : M S unit :=
  memset 0 fs sizeof_fs ;;
  make_initrd_fs info fs ;;
  r ← vfs_mount root_mount_point slash sfuel slash fs;
  if negb (bool_decide (r = Some SUCCESS)) then mpanic else mret tt.
End entry_c.

(** ** The structure in memory *)

Section fields.
Context {S : Type} `{ByteStoreLaws S}.
Implicit Types s : S.

(** The words of the file system at [fs] from number 2 on; the name comes first. *)
Definition fields s (fs : Z) (g : Z → Z) : Prop :=
  0 < fs ∧ fs + 56 < 2 ^ 32 ∧ mapped s fs 56 ∧ ∀ k, 5 ≤ k < 14 → get32 s (fs + 4 * k) = Some (g k).

Definition update (k v : Z) (g : Z → Z) : Z → Z := λ j, if j =? k then v else g j.

Lemma field_read s fs g a k : fields s fs g → a = u32 (fs + 4 * k) → 5 ≤ k < 14 → rd32 a s = Ret (g k) s.
Proof. intros (H1 & H2 & _ & Hg) -> Hk. rewrite u32_small by lia. by apply rd32_Ret, Hg. Qed.

Lemma field_store s fs g a k v : fields s fs g → a = u32 (fs + 4 * k) → 5 ≤ k < 14 → 0 ≤ v < 2 ^ 32 →
  ∃ s', wr32 a v s = Ret tt s' ∧ fields s' fs (update k v g) ∧ same_but fs 56 s s' ∧ stores s s'.
Proof.
  intros (H1 & H2 & Hm & Hg) -> Hk Hv. rewrite u32_small by lia.
  destruct (wr32_Ret s (fs + 4 * k) v) as (s' & E & W); [by apply (mapped_sub _ fs 56); [|lia..]|].
  exists s'. split_and!; [done| | |by eapply wr32_stores].
  - split_and!; [done|done|by eapply stored32_mapped|]. intros j Hj. unfold update.
    destruct (Z.eqb_spec j k) as [->|Hne].
    + rewrite (stored32_same _ _ _ _ W). by rewrite u32_small.
    + rewrite (stored32_other _ _ _ _ _ W); [by apply Hg|lia].
  - intros b Hb. apply (stored32_same_but _ _ _ _ W). lia.
Qed.

Lemma fields_keeps s s' fs g : keeps (λ _, True) s s' → fields s fs g → fields s' fs g.
Proof.
  intros K (H1 & H2 & Hm & Hg). split_and!; [done|done| |].
  - intros b Hb. destruct (Hm b Hb) as [v Hv]. exists v. by apply K.
  - intros k Hk. by apply (keeps_get32 _ _ _ _ _ K); [intros|apply Hg].
Qed.

Lemma fields_cleared s s' fs : 0 < fs → fs + 56 < 2 ^ 32 → filled fs 56 0 s s' → mapped s fs 56 → fields s' fs (λ _, 0).
Proof.
  intros H1 H2 F Hm. split_and!; [done|done|by eapply filled_mapped|]. intros k Hk. unfold get32.
  rewrite !F, !decide_True by lia. done.
Qed.
End fields.

(** ** The mount *)

Section mounting.
Context {S : Type} `{ByteStoreLaws S}.
Implicit Types s : S.
Variables initrd_literal slash read_address open_address close_address root_mount_point : Z.

(** The boot information with one module from [b] to [e], and the root mount
    point at [root]; the memory of [fs] is apart from them. *)
Record boot_setting (info fs m b e root : Z) s : Prop := {
  bs_info : 0 < info ∧ info + 28 < 2 ^ 32 ∧ get32 s (info + 20) = Some 1 ∧ get32 s (info + 24) = Some m;
  bs_module : 0 < m ∧ m + 8 < 2 ^ 32 ∧ get32 s m = Some b ∧ get32 s (m + 4) = Some e ∧ 0 ≤ b ≤ e;
  bs_fs : 0 < fs ∧ fs + 56 < 2 ^ 32 ∧ mapped s fs 56;
  bs_literals : mapped s initrd_literal 8 ∧ 0 < slash ∧ cstr s slash [47];
  bs_root : 0 < root ∧ root + 312 < 2 ^ 32 ∧ get32 s root_mount_point = Some root ∧ mapped s (root + 300) 4;
  bs_functions : 0 < read_address < 2 ^ 32 ∧ 0 < open_address < 2 ^ 32 ∧ 0 < close_address < 2 ^ 32;
  bs_apart : Forall (λ r, apart fs 56 r.1 r.2)
    [(info + 20, 8); (m, 8); (initrd_literal, 8); (slash, 2); (root_mount_point, 4); (root + 300, 4)]
}.

Definition boot_words (info m b e root : Z) s : Prop :=
  get32 s (info + 24) = Some m ∧ get32 s m = Some b ∧ get32 s (m + 4) = Some e ∧
  get32 s root_mount_point = Some root ∧ mapped s (root + 300) 4 ∧ cstr s slash [47].

(** They survive stores to the file system's memory, and whatever keeps memory. *)
Lemma boot_words_same info fs m b e root s s0 s' : boot_setting info fs m b e root s0 →
  boot_words info m b e root s → same_but fs 56 s s' → boot_words info m b e root s'.
Proof.
  intros [_ _ _ _ _ _ Ha] (W1 & W2 & W3 & W4 & W5 & W6) Hs. rewrite !Forall_cons in Ha. unfold apart in Ha. simpl in Ha.
  assert (∀ a v, a + 4 ≤ fs ∨ fs + 56 ≤ a → get32 s a = Some v → get32 s' a = Some v) as Hw.
  { intros a v Hd <-. apply get32_ext. intros x Hx. apply Hs. lia. }
  split_and!; try (apply Hw; [lia|done]).
  - intros x Hx. rewrite Hs by lia. by apply W5.
  - eapply cstr_ext; [done|]. intros x Hx. simpl in Hx. apply Hs. lia.
Qed.

Lemma boot_words_keeps info m b e root s s' :
  boot_words info m b e root s → keeps (λ _, True) s s' → boot_words info m b e root s'.
Proof.
  intros (W1 & W2 & W3 & W4 & W5 & W6) K. split_and!; try (by eapply (keeps_get32 _ _ _ _ _ K)).
  - by eapply (keeps_mapped _ _ _ _ _ K).
  - cbn [cstr] in *. destruct W6 as (H1 & H2 & H3 & H4 & H5). split_and!; first [lia|done|by apply K].
Qed.

Section run_make.
Variable register_ramdisk : Z → Z → M S error_code.
Variable map_physical : Z → Z → M S Z.
Variables info fs m b e root v : Z.

(** Where the two are called, they leave memory as it is; the module is mapped at [v]. *)
Variable s_begin : S.
Hypothesis calls_ok : ∀ s, stores s_begin s → ∃ s1 s2, register_ramdisk b e s = Ret SUCCESS s1 ∧
  map_physical b ((e - b) / 4096) s1 = Ret v s2 ∧ keeps (λ _, True) s s1 ∧ keeps (λ _, True) s1 s2.
Hypothesis v_range : 0 < v ∧ v + (e - b) < 2 ^ 32.

(** The words 6 to 12: size, bounds, functions. *)
Definition mounted_fields (g : Z → Z) : Prop :=
  g 6 = e - b ∧ g 7 = v ∧ g 8 = v + (e - b) / 4096 * 4096 ∧ g 9 = read_address ∧ g 11 = open_address ∧ g 12 = close_address.

Abbreviation boot_state s0 g s := (fields s fs g ∧ boot_words info m b e root s ∧ keeps (λ x, ¬ fs ≤ x < fs + 56) s0 s).


Lemma boot_store s0 g s a k x : boot_setting info fs m b e root s0 → boot_state s0 g s →
  a = u32 (fs + 4 * k) → 5 ≤ k < 14 → 0 ≤ x < 2 ^ 32 →
  ∃ s', wr32 a x s = Ret tt s' ∧ boot_state s0 (update k x g) s' ∧ stores s s'.
Proof.
  intros HB (F & W & K) Ha Hk Hx. destruct (field_store s fs g a k x F Ha Hk Hx) as (s' & E & F' & Hs & St).
  exists s'. split_and!; [done|done|by eapply boot_words_same| |done].
  eapply keeps_trans; [done|]. by apply (keeps_same_but _ fs 56); [|done].
Qed.

Lemma boot_keeps s0 g s s' : boot_state s0 g s → keeps (λ _, True) s s' → boot_state s0 g s'.
Proof.
  intros (F & W & K) K'. split_and!; [by eapply fields_keeps|by eapply boot_words_keeps|].
  eapply keeps_trans; [done|]. by eapply keeps_weaken.
Qed.

(** The name and the functions, the first part of [make_initrd_fs]. *)
Lemma boot_name s0 s : boot_setting info fs m b e root s0 → boot_state s0 (λ _, 0) s → mapped s initrd_literal 8 →
  ∃ s', memcpy fs initrd_literal 8 s = Ret tt s' ∧ boot_state s0 (λ _, 0) s' ∧ stores s s'.
Proof.
  intros HB (F & W & K) Hlit. pose proof HB as [_ _ (Hf1 & Hf2 & _) _ _ _ Ha].
  rewrite !Forall_cons in Ha. unfold apart in Ha. simpl in Ha.
  destruct (memcpy_ok s fs initrd_literal 8) as (s1 & E1 & C1);
    [unfold INT_MAX; lia|done|apply (mapped_sub _ fs 56); [apply F|lia..]|lia|].
  assert (same_but fs 56 s s1) as S1 by (intros x Hx; rewrite C1, decide_False by lia; done).
  exists s1. split; [done|].
  split_and!; [|by eapply boot_words_same|eapply keeps_trans; [done|by apply (keeps_same_but _ fs 56); [|done]]|by eapply memcpy_stores].
  destruct F as (_ & _ & Fm & Fg). split_and!; [done|done| |].
  - intros x Hx. rewrite C1. case_decide; [apply Hlit; lia|by apply Fm].
  - intros k Hk. rewrite <-(Fg k Hk). apply get32_ext. intros x Hx. by rewrite C1, decide_False by lia.
Qed.

(** The calls that were made, and the rest of the way to [s']. *)
Definition made_calls (s' : S) : Prop :=
  ∃ s1 s2 s3, stores s_begin s1 ∧ register_ramdisk b e s1 = Ret SUCCESS s2 ∧
    map_physical b ((e - b) / 4096) s2 = Ret v s3 ∧ stores s3 s'.

#[local] Ltac store_field HB B f k x s E B' St :=
  destruct (boot_store _ _ _ f k x HB B) as (s & E & B' & St); [done|lia|first [done|lia]|]; run E.
#[local] Ltac read_field B f k :=
  run (field_read _ _ _ f k (proj1 B) eq_refl ltac:(lia)); cbn [update Z.eqb Pos.eqb].

Lemma make_initrd_fs_ok s0 s : boot_setting info fs m b e root s0 → boot_state s0 (λ _, 0) s → stores s_begin s →
  mapped s initrd_literal 8 → get32 s (info + 20) = Some 1 →
  ∃ s' g, make_initrd_fs register_ramdisk map_physical initrd_literal read_address open_address close_address info fs s
    = Ret tt s' ∧ boot_state s0 g s' ∧ mounted_fields g ∧ made_calls s'.
Proof.
  intros HB B0 St0 Hlit Hn.
  pose proof HB as [(Hi1 & Hi2 & _) (Hm1 & Hm2 & _ & He%get32_range & Hbe) (Hf1 & Hf2 & _) _ _ (Hr & Ho & Hc) _].
  destruct (boot_name s0 s HB B0 Hlit) as (s1 & E1 & B1 & St1).
  unfold make_initrd_fs, mods_count, mods_addr, mod_start, mod_end, fs_name.
  rewrite (u32_small (info + 20)), (u32_small (info + 24)) by lia.
  run (rd32_Ret _ _ _ Hn). change (negb (1 =? 1)) with false. cbv iota. rewrite bind_ret_l. run E1.
  store_field HB B1 (fs_read fs) 9 read_address s2 E2 B2 St2.
  store_field HB B2 (fs_open fs) 11 open_address s3 E3 B3 St3.
  store_field HB B3 (fs_close fs) 12 close_address s4 E4 B4 St4.
  pose proof B4 as (_ & (V1 & V2 & _) & _). run (rd32_Ret _ _ _ V1). run (rd32_Ret _ _ _ V2).
  store_field HB B4 (fs_partition_begin_offset fs) 7 b s5 E5 B5 St5.
  pose proof B5 as (_ & (V3 & _ & V4 & _) & _). run (rd32_Ret _ _ _ V3). rewrite (u32_small (m + 4)) by lia. run (rd32_Ret _ _ _ V4).
  store_field HB B5 (fs_partition_end_offset fs) 8 e s6 E6 B6 St6.
  read_field B6 (fs_partition_end_offset fs) 8. read_field B6 (fs_partition_begin_offset fs) 7.
  rewrite (u32_small (e - b)) by lia.
  store_field HB B6 (fs_fs_specific fs) 6 (e - b) s7 E7 B7 St7.
  store_field HB B7 (fs_device fs) 5 NULL s8 E8 B8 St8.
  read_field B8 (fs_partition_begin_offset fs) 7. read_field B8 (fs_partition_end_offset fs) 8.
  assert (stores s_begin s8) as Sta by (unfold stores in *; repeat (etransitivity; [eassumption|]); reflexivity).
  destruct (calls_ok s8 Sta) as (s9 & s10 & E9 & E10 & K9 & K10). run E9.
  rewrite bool_decide_eq_true_2 by done. cbn [negb]. rewrite bind_ret_l.
  pose proof (boot_keeps _ _ _ _ B8 K9) as B9. pose proof (boot_keeps _ _ _ _ B9 K10) as B10.
  read_field B9 (fs_partition_end_offset fs) 8. do 2 (read_field B9 (fs_partition_begin_offset fs) 7).
  rewrite (u32_small (e - b)) by lia. unfold PAGE_SIZE. cbv zeta. run E10.
  rewrite (proj2 (Z.eqb_neq v NULL)) by (unfold NULL; lia). rewrite bind_ret_l.
  store_field HB B10 (fs_partition_begin_offset fs) 7 v s11 E11 B11 St11.
  read_field B11 (fs_partition_begin_offset fs) 7.
  assert (0 ≤ (e - b) / 4096 * 4096 ≤ e - b) as Hq by dlia.
  rewrite (u32_small ((e - b) / 4096 * 4096)), u32_small by lia.
  destruct (boot_store s0 _ s11 (fs_partition_end_offset fs) 8 (v + (e - b) / 4096 * 4096) HB B11)
    as (s12 & E12 & B12 & St12); [done|lia|lia|].
  eexists s12, _. split; [exact E12|]. split; [exact B12|]. split; [repeat split|].
  exists s8, s9, s10. split_and!; [exact Sta|exact E9|exact E10|]. unfold stores in *. by trans s11.
Qed.
End run_make.
End mounting.

(** ** Properties *)

Section properties.
Context {S : Type} `{ByteStoreLaws S}.
Implicit Types s : S.

(** The mount of the ramdisk at boot.  With one boot module, from [b] to
    [e], that the memory managers accept and map at [v], the file system's
    structure has the module's size, the functions of [Initrd] and the part
    of the mapping that consists of whole pages - up to 4095 bytes at the
    module's end are neither mapped nor inside the partition - and the root's
    mount point refers to it; other memory is kept.  With any other number of
    modules the kernel panics. *)
Theorem kmain_mount_spec register_ramdisk map_physical initrd_literal slash read_address open_address close_address
    root_mount_point sfuel info fs m b e root v s :
  boot_setting initrd_literal slash read_address open_address close_address root_mount_point info fs m b e root s →
  (∀ s1, stores s s1 → ∃ s2 s3, register_ramdisk b e s1 = Ret SUCCESS s2 ∧
    map_physical b ((e - b) / 4096) s2 = Ret v s3 ∧ keeps (λ _, True) s1 s2 ∧ keeps (λ _, True) s2 s3) →
  0 < v ∧ v + (e - b) < 2 ^ 32 → (1 < sfuel)%nat →
  (∃ s', kmain_mount register_ramdisk map_physical initrd_literal slash read_address open_address close_address
           root_mount_point sfuel info fs s = Ret tt s' ∧
    get32 s' (root + 300) = Some fs ∧ get32 s' (fs + 24) = Some (e - b) ∧
    get32 s' (fs + 28) = Some v ∧ get32 s' (fs + 32) = Some (v + (e - b) / 4096 * 4096) ∧
    get32 s' (fs + 36) = Some read_address ∧ get32 s' (fs + 44) = Some open_address ∧
    get32 s' (fs + 48) = Some close_address ∧
    keeps (λ x, ¬ fs ≤ x < fs + 56 ∧ ¬ root + 300 ≤ x < root + 304) s s' ∧
    made_calls register_ramdisk map_physical b e v s s') ∧
  ∀ s1 n, get32 s1 (info + 20) = Some n → n ≠ 1 →
    make_initrd_fs register_ramdisk map_physical initrd_literal read_address open_address close_address info fs s1 = Panic.
Proof.
  intros HB Hcalls Hv Hsf. pose proof HB as [(Hi1 & Hi2 & Hn & Hm) (Hm1 & Hm2 & Hb & He & Hbe) (Hf1 & Hf2 & Hfm)
    (Hlit & Hsl & Hc) (Hr1 & Hr2 & Hr & Hrm) (Hra & Hoa & Hca) Ha]. split.
  - destruct (memset_ok s 0 fs 56) as (s1 & E1 & F1); [unfold INT_MAX; lia|done|].
    assert (same_but fs 56 s s1) as S1 by (intros x Hx; rewrite F1, decide_False by lia; done).
    assert (boot_words slash root_mount_point info m b e root s) as W0 by done.
    pose proof Ha as Ha'. rewrite !Forall_cons in Ha'. unfold apart in Ha'. simpl in Ha'.
    destruct (make_initrd_fs_ok initrd_literal slash read_address open_address close_address root_mount_point
      register_ramdisk map_physical info fs m b e root v s Hcalls Hv s s1 HB) as (s2 & g & E2 & B2 & G & Hmade).
    { split_and!; [by apply (fields_cleared s)|by eapply boot_words_same|by apply (keeps_same_but _ fs 56); [|done]]. }
    { by eapply memset_stores. }
    { intros x Hx. rewrite S1 by lia. by apply Hlit. }
    { rewrite <-Hn. apply get32_ext. intros x Hx. apply S1. lia. }
    destruct B2 as ((_ & _ & _ & F2) & (_ & _ & _ & V2 & M2 & C2) & K2).
    destruct G as (G6 & G7 & G8 & G9 & G11 & G12).
    destruct (mapped_get32 _ _ M2) as [old Hold].
    pose proof (vfs_mount_spec root_mount_point slash sfuel s2 slash [47] fs root old Hf1 Hf2 Hsl Hr1 Hr2 C2 C2
      ltac:(simpl; lia) V2 Hold (g 9) (g 11) (g 12) (F2 9 ltac:(lia)) (F2 11 ltac:(lia)) (F2 12 ltac:(lia))) as HM.
    rewrite decide_True in HM by done.
    rewrite decide_True in HM by (unfold NULL; lia). destruct HM as (s3 & E3 & R3 & S3 & St3).
    exists s3. assert (∀ k, 5 ≤ k < 14 → get32 s3 (fs + 4 * k) = Some (g k)) as F3.
    { intros k Hk. rewrite <-(F2 k Hk). apply get32_ext. intros x Hx. apply S3. lia. }
    split_and!; [|done|by rewrite <-G6; apply (F3 6)|by rewrite <-G7; apply (F3 7)|
      by rewrite <-G8; apply (F3 8)|by rewrite <-G9; apply (F3 9)|by rewrite <-G11; apply (F3 11)|by rewrite <-G12; apply (F3 12)| |].
    + unfold kmain_mount, sizeof_fs. run E1. run E2. run E3. by rewrite bool_decide_eq_true_2.
    + eapply keeps_trans; [eapply keeps_weaken; [exact K2|tauto]|]. apply (keeps_same_but _ (root + 300) 4); [done|intros x [_ Hx]; lia].
    + destruct Hmade as (sa & sb & sc & Ha1 & Ha2 & Ha3 & Ha4). exists sa, sb, sc. split_and!; [done..|].
      unfold stores in *. by trans s2.
  - intros s1 n Hn1 Hne. unfold make_initrd_fs, mods_count. rewrite (u32_small (info + 20)) by lia.
    run (rd32_Ret _ _ _ Hn1). by rewrite (proj2 (Z.eqb_neq n 1)).
Qed.
End properties.

(** ** Witness *)

(** The boot information at 0x10, the module's description at 0x30, the
    literals at 0x40 and 0x48, the root mount point's variable at 0x4c, the
    mount point at 0x50, the file system at 0x200; a module of 0x2345 bytes at
    0x100000, mapped at 0xC0810000. *)
Definition example_boot : carray :=
  CArray 0x1000 (put_bytes 0x24 [1; 0; 0; 0; 0x30; 0; 0; 0] (put_bytes 0x30 [0; 0; 0x10; 0; 0x45; 0x23; 0x10; 0]
    (put_bytes 0x40 [105; 110; 105; 116; 114; 100; 0; 0; 47; 0; 0; 0; 0x50; 0; 0; 0] ∅))).

Definition example_register (b e : Z) : M carray error_code := mret SUCCESS.
Definition example_map (b n : Z) : M carray Z := mret 0xC0810000.

Lemma example_boot_mapped a n : 0 ≤ a → a + n ≤ 0x1000 → mapped example_boot a n.
Proof.
  intros H1 H2 b Hb. unfold get8, carray_store, example_boot. cbn [asize].
  rewrite decide_True by lia. eauto.
Qed.

Lemma kmain_mount_spec_witness :
  ∃ s', kmain_mount example_register example_map 0x40 0x48 1 2 3 0x4c 2 0x10 0x200 example_boot = Ret tt s' ∧
    get32 s' (0x50 + 300) = Some 0x200 ∧ get32 s' (0x200 + 24) = Some 0x2345 ∧ get32 s' (0x200 + 32) = Some 0xC0812000.
Proof.
  destruct (kmain_mount_spec example_register example_map 0x40 0x48 1 2 3 0x4c 2 0x10 0x200
    0x30 0x100000 0x102345 0x50 0xC0810000 example_boot) as [(s' & E & H1 & H2 & _ & H4 & _) _].
  - split; [split_and!; (lia || reflexivity)|split_and!; (lia || reflexivity)|split_and!; [lia|lia|]| |
      split_and!; [lia|lia|reflexivity|]|split_and!; lia|].
    + apply example_boot_mapped; lia.
    + split_and!; [apply example_boot_mapped; lia|lia|]. unfold cstr. repeat split; vm_compute; (reflexivity || discriminate).
    + apply example_boot_mapped; lia.
    + unfold apart. repeat constructor; simpl; lia.
  - intros s1 _. exists s1, s1. split_and!; [reflexivity|reflexivity|apply keeps_refl|apply keeps_refl].
  - lia.
  - lia.
  - exists s'. split; [exact E|]. split; [exact H1|]. split; [exact H2|exact H4].
Defined.
