(* ===== verification/File.v ===== *)
(** * Open files: [kernel/fs/file.c]

    A [file_t] is three words: the mode at offset 0, the position at 4, the
    node at 8.  [None] is a function that ends without a return statement. *)

From S2P Require Import Prelude Memory Chain CString Bitmap Phys Paging Kheap Kmalloc KList Initrd Vfs.

Definition file_mode_field (file : Z) : Z := file.
Definition file_offset (file : Z) : Z := u32 (file + 4).
Definition file_inode (file : Z) : Z := u32 (file + 8).
Definition sizeof_file : Z := 12.

(** [file_mode_t] *)
Definition READ : Z := 1.
Definition WRITE : Z := 2.
Definition APPEND : Z := 4.
Definition CREATE_FILE : Z := 8.
Definition TRUNCATE_TO_ZERO : Z := 16.

Inductive seek_type := SEEK_SET | SEEK_CUR | SEEK_END | seek_other.

Definition modes_bits : list Z :=
  let w := Z.lor (Z.lor WRITE CREATE_FILE) TRUNCATE_TO_ZERO in
  let a := Z.lor APPEND CREATE_FILE in
  let rw := Z.lor READ WRITE in
  let wp := Z.lor (Z.lor (Z.lor TRUNCATE_TO_ZERO CREATE_FILE) READ) WRITE in
  [READ; READ; w; w; a; a; rw; rw; rw; wp; wp; wp; a; a; a].

Section file_c.
Context {S : Type} `{ByteStore S, Allocator S, FsOps S}.
Variable sfuel : nat.

(** The addresses of the strings [possible_modes] and of the array [mode_buf]. *)
Variable possible_modes : list Z.
Variable mode_buf : Z.
Variable vfs_open : Z → M S Z.

(** The loop over the modes still to be tried, with their bits. *)
Fixpoint file_open_loop (modes : list (Z * Z)) (path : Z) : M S Z :=
  match modes with
  | [] => mret NULL
  | (mode, bits) :: modes' =>
      r ← strncmp sfuel mode_buf mode 3;
      if r =? 0 then
        inode ← vfs_open path;
        if negb (inode =? NULL) then
          file ← al_malloc sizeof_file;
          wr32 (file_inode file) inode ;;
          wr32 (file_mode_field file) bits ;;
          wr32 (file_offset file) 0 ;;
          mret file
        else mret NULL
      else file_open_loop modes' path
  end.

Definition file_open (path mode : Z) : M S Z :=
  if path =? NULL then mret NULL
  else
    mode_size ← strlen sfuel mode;
    memcpy mode_buf mode (i32 mode_size) ;;
    wr8 (u32 (mode_buf + mode_size)) 0 ;;
    file_open_loop (zip possible_modes modes_bits) path.

Definition file_read (file buffer length : Z) : M S Z :=
  if (buffer =? NULL) || (file =? NULL) then mret 0
  else
    inode ← rd32 (file_inode file);
    size ← rd32 (fs_node_size inode);
    offset ← rd32 (file_offset file);
    let length := if length >? u32 (size - offset) then u32 (size - offset) else length in
    bytes_read ← vfs_read inode offset length buffer;
    offset ← rd32 (file_offset file);
    wr32 (file_offset file) (u32 (offset + bytes_read)) ;;
    mret bytes_read.

Definition file_write (file buffer length : Z) : M S Z :=
  if (buffer =? NULL) || (file =? NULL) then mret (int_of_error_code INVALID_ARGUMENT)
  else
    inode ← rd32 (file_inode file);
    fs ← rd32 (fs_node_fs inode);
    write ← rd32 (fs_write fs);
    offset ← rd32 (file_offset file);
    bytes_written ← call_write write inode offset length buffer;
    offset ← rd32 (file_offset file);
    wr32 (file_offset file) (u32 (offset + i32 bytes_written)) ;;
    mret (u32 (i32 bytes_written)).

Definition file_close (file : Z) : M S error_code :=
  if file =? NULL then mret INVALID_ARGUMENT
  else
    inode ← rd32 (file_inode file);
    vfs_close inode ;;
    al_free file ;;
    mret SUCCESS.

(** [jmp] is signed; added to or compared with the unsigned fields it is
    converted to 32 bits. *)
Definition file_seek (file jmp : Z) (t : seek_type) : M S (option error_code) :=
  if file =? NULL then mret (Some INVALID_ARGUMENT)
  else
    match t with
    | SEEK_SET =>
        inode ← rd32 (file_inode file);
        size ← rd32 (fs_node_size inode);
        if (jmp <? 0) || (u32 jmp >=? size) then mret (Some INVALID_ARGUMENT)
        else
          wr32 (file_offset file) jmp ;;
          mret None
    | SEEK_CUR =>
        offset ← rd32 (file_offset file);
        inode ← rd32 (file_inode file);
        size ← rd32 (fs_node_size inode);
        if (u32 (offset + jmp) >=? size) || (u32 (offset + jmp) <? 0) then mret (Some INVALID_ARGUMENT)
        else
          offset ← rd32 (file_offset file);
          wr32 (file_offset file) (u32 (offset + jmp)) ;;
          mret None
    | SEEK_END =>
        if jmp <=? 0 then
          offset ← rd32 (file_offset file);
          wr32 (file_offset file) (u32 (offset - jmp)) ;;
          mret None
        else mret (Some INVALID_ARGUMENT)
    | seek_other => mret (Some INVALID_ARGUMENT)
    end.
End file_c.

(** ** Open files *)

Section file_facts.
Context {S : Type} `{ByteStoreLaws S}.
Implicit Types s : S.

(** [file] is at position [offset] of the node [inode] of [size] bytes. *)
Definition open_file s (file inode size offset : Z) : Prop :=
  0 < file ∧ file + 12 < 2 ^ 32 ∧ 0 < inode ∧ inode + 164 < 2 ^ 32 ∧
  get32 s (file + 4) = Some offset ∧ get32 s (file + 8) = Some inode ∧
  get32 s (inode + 148) = Some size.

Lemma set_offset_ok s file inode size offset v :
  open_file s file inode size offset → 0 ≤ v < 2 ^ 32 →
  file + 8 ≤ inode + 148 ∨ inode + 152 ≤ file + 4 →
  ∃ s', wr32 (file_offset file) v s = Ret tt s' ∧ open_file s' file inode size v ∧
    same_but (file + 4) 4 s s'.
Proof.
  intros (Hf & Hf' & Hi & Hi' & Eo & Ei & Es) Hv Hd. unfold file_offset. rewrite u32_small by lia.
  destruct (wr32_Ret s (file + 4) v) as (s' & E & W); [by eapply get32_mapped|].
  exists s'. split; [done|]. split; [|by eapply stored32_same_but].
  split_and!; try lia.
  - rewrite (stored32_same _ _ _ _ W). by rewrite u32_small.
  - rewrite (stored32_other _ _ _ _ _ W) by lia. done.
  - rewrite (stored32_other _ _ _ _ _ W) by lia. done.
Qed.

(** The reads at the beginning of each operation. *)
Lemma file_words s file inode size offset :
  open_file s file inode size offset →
  rd32 (file_offset file) s = Ret offset s ∧ rd32 (file_inode file) s = Ret inode s ∧
  rd32 (fs_node_size inode) s = Ret size s ∧ file ≠ NULL ∧ 0 ≤ offset < 2 ^ 32 ∧ 0 ≤ size < 2 ^ 32.
Proof.
  intros (Hf & Hf' & Hi & Hi' & Eo & Ei & Es). unfold file_offset, file_inode, fs_node_size.
  rewrite !u32_small by lia.
  split_and!; try (by apply rd32_Ret); try (by eapply get32_range); unfold NULL; lia.
Qed.

(** Where [file_seek] goes, if anywhere: with [SEEK_END] the end plays no part. *)
Definition seek_target (size offset jmp : Z) (t : seek_type) : option Z :=
  match t with
  | SEEK_SET => if decide (0 ≤ jmp < size) then Some jmp else None
  | SEEK_CUR => if decide (u32 (offset + jmp) < size) then Some (u32 (offset + jmp)) else None
  | SEEK_END => if decide (jmp ≤ 0) then Some (u32 (offset - jmp)) else None
  | seek_other => None
  end.

Lemma file_seek_eq s file inode size offset jmp t :
  open_file s file inode size offset → - 2 ^ 31 ≤ jmp < 2 ^ 31 →
  file_seek file jmp t s =
    match seek_target size offset jmp t with
    | Some v => (wr32 (file_offset file) v ;; mret None) s
    | None => Ret (Some INVALID_ARGUMENT) s
    end.
Proof.
  intros Hof Hj. destruct (file_words _ _ _ _ _ Hof) as (Ro & Ri & Rs & Hf & Hor & Hsr).
  unfold file_seek. rewrite (proj2 (Z.eqb_neq file NULL)) by done. destruct t; cbn [seek_target]; [| | |done].
  - run Ri. run Rs. rewrite Z.geb_leb. case_decide as Hc.
    + by rewrite (proj2 (Z.ltb_ge jmp 0)), u32_small, (proj2 (Z.leb_gt size jmp)) by lia.
    + destruct (Z.ltb_spec jmp 0); [done|]. rewrite u32_small by lia. by rewrite (proj2 (Z.leb_le size jmp)) by lia.
  - run Ro. run Ri. run Rs. rewrite Z.geb_leb.
    pose proof (u32_range (offset + jmp)) as Hu. rewrite (proj2 (Z.ltb_ge (u32 (offset + jmp)) 0)) by lia.
    rewrite orb_false_r. case_decide as Hc.
    + rewrite (proj2 (Z.leb_gt size _)) by lia. by run Ro.
    + by rewrite (proj2 (Z.leb_le size _)) by lia.
  - case_decide as Hc.
    + rewrite (proj2 (Z.leb_le jmp 0)) by lia. by run Ro.
    + by rewrite (proj2 (Z.leb_gt jmp 0)) by lia.
Qed.
End file_facts.

(** ** Files of the ramdisk *)

(** Where the structures of an open file of the ramdisk are: the [file_t], the
    node, the file system, and the contents in the image. *)
Record file_view := FileView {
  fv_file : Z; fv_inode : Z; fv_fs : Z; fv_data : Z; fv_size : Z
}.

Section ramdisk_file.
Context {S : Type} `{ByteStoreLaws S}.
Implicit Types s : S.
Variable read_address : Z.

Record initrd_file s (f : file_view) (offset : Z) : Prop := {
  rf_open : open_file s (fv_file f) (fv_inode f) (fv_size f) offset;
  rf_size : 0 ≤ fv_size f < 2 ^ 31;
  rf_data : get32 s (fv_inode f + 152) = Some (fv_data f) ∧ fv_data f + fv_size f < 2 ^ 32;
  rf_fs : get32 s (fv_inode f + 156) = Some (fv_fs f) ∧ 0 < fv_fs f ∧ fv_fs f + 56 < 2 ^ 32;
  rf_read : get32 s (fv_fs f + 36) = Some read_address;
  rf_mapped : mapped s (fv_data f) (fv_size f);
  rf_apart : ∀ b, fv_file f + 4 ≤ b < fv_file f + 8 →
    ¬ fv_inode f ≤ b < fv_inode f + 164 ∧ ¬ fv_fs f ≤ b < fv_fs f + 56 ∧ ¬ fv_data f ≤ b < fv_data f + fv_size f
}.

(** The bytes of these structures. *)
Definition file_area (f : file_view) (b : Z) : Prop :=
  fv_file f ≤ b < fv_file f + 12 ∨ fv_inode f ≤ b < fv_inode f + 164 ∨ fv_fs f ≤ b < fv_fs f + 56 ∨
  fv_data f ≤ b < fv_data f + fv_size f.

Lemma initrd_file_ext s s' f offset :
  initrd_file s f offset → keeps (file_area f) s s' → initrd_file s' f offset.
Proof.
  intros [(H1 & H2 & H3 & H4 & E1 & E2 & E3) Hs [Hd1 Hd2] [Hf1 Hf2] Hr Hm Ha] Hk. unfold file_area in Hk.
  split; try done.
  - split_and!; try done; (eapply keeps_get32; [exact Hk|simpl; lia|done]).
  - split; [|done]. eapply keeps_get32; [exact Hk|simpl; lia|done].
  - split; [|done]. eapply keeps_get32; [exact Hk|simpl; lia|done].
  - eapply keeps_get32; [exact Hk|simpl; lia|done].
  - eapply keeps_mapped; [exact Hk|simpl; lia|done].
Qed.

(** The position is a word of the file's own. *)
Lemma initrd_file_moved s s' f offset v :
  initrd_file s f offset → stored32 (fv_file f + 4) v s s' → 0 ≤ v < 2 ^ 32 → initrd_file s' f v.
Proof.
  intros [(H1 & H2 & H3 & H4 & E1 & E2 & E3) Hs [Hd1 Hd2] [Hf1 Hf2] Hr Hm Ha] Hst Hv.
  assert (∀ a, (∀ b, a ≤ b < a + 4 → ¬ fv_file f + 4 ≤ b < fv_file f + 8) → get32 s' a = get32 s a) as Hw.
  { intros a Hin. apply get32_ext. intros b Hb. rewrite Hst, decide_False; [done|]. pose proof (Hin b Hb). lia. }
  assert (∀ a, fv_inode f ≤ a → a + 4 ≤ fv_inode f + 164 → get32 s' a = get32 s a) as Hi.
  { intros a ? ?. apply Hw. intros b Hb Hc. destruct (Ha b Hc) as [Hn _]. lia. }
  split; try done.
  - unfold open_file. rewrite (stored32_same _ _ _ _ Hst), u32_small, (Hi (fv_inode f + 148)) by lia.
    rewrite Hw by (intros; lia). done.
  - by rewrite Hi by lia.
  - by rewrite Hi by lia.
  - rewrite Hw; [done|]. intros b Hb Hc. destruct (Ha b Hc) as (_ & Hn & _). lia.
  - by eapply stored32_mapped.
Qed.

Lemma set_position_ok s f offset v :
  initrd_file s f offset → 0 ≤ v < 2 ^ 32 →
  ∃ s', wr32 (file_offset (fv_file f)) v s = Ret tt s' ∧ initrd_file s' f v ∧
    same_but (fv_file f + 4) 4 s s' ∧ stores s s'.
Proof.
  intros Hf Hv. pose proof Hf as [(? & ? & ? & ? & E1 & _) _ _ _ _ _ _]. unfold file_offset. rewrite u32_small by lia.
  destruct (wr32_Ret s (fv_file f + 4) v) as (s' & E & W); [by eapply get32_mapped|].
  exists s'. split; [done|]. split; [by eapply initrd_file_moved|]. split; [by eapply stored32_same_but|by eapply wr32_stores].
Qed.

(** [file_seek] inside the file. *)
Lemma file_seek_set_ok s f offset jmp :
  initrd_file s f offset → 0 ≤ jmp < fv_size f →
  ∃ s', file_seek (fv_file f) jmp SEEK_SET s = Ret None s' ∧ initrd_file s' f jmp ∧
    same_but (fv_file f + 4) 4 s s' ∧ stores s s'.
Proof.
  intros Hf Hj. pose proof Hf as [Hof Hsz _ _ _ _ _].
  rewrite (file_seek_eq _ _ _ _ _ _ _ Hof) by lia. cbn [seek_target]. rewrite decide_True by done.
  destruct (set_position_ok s f offset jmp Hf) as (s' & E & H'); [lia|]. exists s'. split; [by run E|done].
Qed.

(** [file_read] inside the file, into a buffer apart from its structures: a
    copy, and a store of the new position. *)
Lemma file_read_steps `{!Allocator S} sfuel open_address close_address s f offset length buffer :
  initrd_file s f offset → offset ≤ fv_size f → 0 ≤ length < 2 ^ 32 →
  let n := length `min` (fv_size f - offset) in
  0 < buffer → mapped s buffer n → (∀ b, buffer ≤ b < buffer + n → ¬ file_area f b) →
  ∃ s', @file_read S _ (initrd_ops sfuel open_address read_address close_address)
          (fv_file f) buffer length s = Ret n s' ∧
    initrd_file s' f (offset + n) ∧
    (∃ s1, memcpy buffer (fv_data f + offset) n s = Ret tt s1 ∧ wr32 (fv_file f + 4) (offset + n) s1 = Ret tt s') ∧
    ∀ b, ¬ (fv_file f + 4 ≤ b < fv_file f + 8) →
      get8 s' b = if decide (buffer ≤ b < buffer + n) then get8 s (fv_data f + offset + (b - buffer)) else get8 s b.
Proof.
  intros Hf Hos Hl n Hb Hmb Hd. pose proof Hf as [Hof Hsz [Hd1 Hd2] (Hf1 & Hf2 & Hf3) Hr Hm Ha].
  destruct (file_words _ _ _ _ _ Hof) as (Ro & Ri & Rs & Hn & Hor & _). pose proof Hof as (? & ? & ? & ? & E1 & _).
  pose proof (get32_range _ _ _ Hd1). unfold file_area in Hd.
  assert ((if length >? u32 (fv_size f - offset) then u32 (fv_size f - offset) else length) = n) as Hnn.
  { rewrite u32_small by lia. rewrite Z.gtb_ltb. destruct (Z.ltb_spec (fv_size f - offset) length); lia. }
  assert (∃ s1, initrd_read (fv_inode f) offset n buffer s = Ret n s1 ∧ copied buffer (fv_data f + offset) n s s1 ∧
    memcpy buffer (fv_data f + offset) n s = Ret tt s1) as (s1 & R1 & C1 & Em1).
  { unfold initrd_read. rewrite (proj2 (Z.eqb_neq _ NULL)), (proj2 (Z.eqb_neq buffer NULL)),
      (proj2 (Z.ltb_ge offset 0)) by (unfold NULL; lia). cbn [orb]. rewrite orb_false_r.
    destruct (Z.leb_spec n 0) as [Hn0|Hn0].
    { exists s. replace n with 0 by lia. split; [done|]. split; [|done]. intros b. by rewrite decide_False by lia. }
    run Rs. rewrite (u32_small (offset + n)), (proj2 (Z.ltb_ge (fv_size f) (offset + n))) by lia.
    unfold fs_node_fs_specific. rewrite (u32_small (fv_inode f + 152)) by lia. run (rd32_Ret _ _ _ Hd1).
    rewrite (u32_small (fv_data f + offset)), i32_small by lia.
    destruct (memcpy_ok s buffer (fv_data f + offset) n) as (s1 & R1 & C1); [unfold INT_MAX; lia| |done| |].
    - intros b Hb'. apply Hm. lia.
    - destruct (decide (n ≤ 0)); [lia|]. destruct (Z.le_gt_cases (buffer + n) (fv_data f + offset)); [by left|right].
      destruct (Z.le_gt_cases (fv_data f + offset + n) buffer); [done|]. exfalso.
      destruct (Z.le_gt_cases (fv_data f + offset) buffer);
        [apply (Hd buffer)|apply (Hd (fv_data f + offset))]; lia.
    - exists s1. by split; [run R1|]. }
  assert (initrd_file s1 f offset) as Hf1'.
  { eapply initrd_file_ext; [done|]. intros b v Hb'. rewrite C1, decide_False; [done|]. intros Hc. by apply (Hd b). }
  pose proof Hf1' as [Hof1 _ _ _ _ _ _]. destruct (file_words _ _ _ _ _ Hof1) as (Ro1 & _).
  pose proof Hof1 as (_ & _ & _ & _ & E1' & _).
  destruct (wr32_Ret s1 (fv_file f + 4) (offset + n)) as (s2 & R2 & W2); [by eapply get32_mapped|].
  exists s2. split_and!.
  - unfold file_read. rewrite (proj2 (Z.eqb_neq buffer NULL)), (proj2 (Z.eqb_neq (fv_file f) NULL)) by (unfold NULL in *; lia).
    cbn [orb]. run Ri. run Rs. run Ro. rewrite Hnn. unfold vfs_read.
    rewrite (proj2 (Z.eqb_neq (fv_inode f) NULL)) by (unfold NULL; lia). unfold fs_node_fs, fs_read.
    rewrite (u32_small (fv_inode f + 156)) by lia.
    rewrite bind_assoc. run (rd32_Ret _ _ _ Hf1). rewrite (u32_small (fv_fs f + 36)) by lia. rewrite bind_assoc.
    run (rd32_Ret _ _ _ Hr). cbn [call_read initrd_ops]. rewrite Z.eqb_refl. run R1. run Ro1.
    unfold file_offset. rewrite (u32_small (offset + n)), (u32_small (fv_file f + 4)) by lia. by run R2.
  - eapply initrd_file_moved; [done|done|lia].
  - by exists s1.
  - intros b Hb'. rewrite W2, decide_False by lia. apply C1.
Qed.

(** The same, as stores. *)
Lemma file_read_ok `{!Allocator S} sfuel open_address close_address s f offset length buffer :
  initrd_file s f offset → offset ≤ fv_size f → 0 ≤ length < 2 ^ 32 →
  let n := length `min` (fv_size f - offset) in
  0 < buffer → mapped s buffer n → (∀ b, buffer ≤ b < buffer + n → ¬ file_area f b) →
  ∃ s', @file_read S _ (initrd_ops sfuel open_address read_address close_address)
          (fv_file f) buffer length s = Ret n s' ∧
    initrd_file s' f (offset + n) ∧ stores s s' ∧
    ∀ b, ¬ (fv_file f + 4 ≤ b < fv_file f + 8) →
      get8 s' b = if decide (buffer ≤ b < buffer + n) then get8 s (fv_data f + offset + (b - buffer)) else get8 s b.
Proof.
  intros Hf Hos Hl n Hb Hmb Hd.
  destruct (file_read_steps sfuel open_address close_address s f offset length buffer) as (s' & E & Hf' & (s1 & E1 & E2) & Hg);
    [done..|]. exists s'. split_and!; [done|done| |done].
  unfold stores. etransitivity; [by eapply memcpy_stores|by eapply wr32_stores].
Qed.
End ramdisk_file.

(** ** Properties *)

Section properties.
Context {S : Type} `{ByteStoreLaws S}.
Implicit Types s : S.

(** [file_seek].  A position from the beginning or relative to the current
    one is set exactly when it lies inside the file - the sum is taken modulo
    2^32 - and refused without change otherwise.  With [SEEK_END] the end
    plays no part: the position moves forward by [-jmp] from where it is,
    beyond the end if need be.  No branch that succeeds returns a value. *)
Theorem file_seek_spec s file inode size offset jmp :
  open_file s file inode size offset → - 2 ^ 31 ≤ jmp < 2 ^ 31 →
  file + 8 ≤ inode + 148 ∨ inode + 152 ≤ file + 4 →
  (if decide (0 ≤ jmp < size)
   then ∃ s', file_seek file jmp SEEK_SET s = Ret None s' ∧ open_file s' file inode size jmp
   else file_seek file jmp SEEK_SET s = Ret (Some INVALID_ARGUMENT) s) ∧
  (if decide (u32 (offset + jmp) < size)
   then ∃ s', file_seek file jmp SEEK_CUR s = Ret None s' ∧
          open_file s' file inode size (u32 (offset + jmp))
   else file_seek file jmp SEEK_CUR s = Ret (Some INVALID_ARGUMENT) s) ∧
  (if decide (jmp ≤ 0)
   then ∃ s', file_seek file jmp SEEK_END s = Ret None s' ∧
          open_file s' file inode size (u32 (offset - jmp))
   else file_seek file jmp SEEK_END s = Ret (Some INVALID_ARGUMENT) s).
Proof.
  intros Hof Hj Hd.
  assert (∀ v, 0 ≤ v < 2 ^ 32 → ∃ s', (wr32 (file_offset file) v ;; mret None) s = Ret (@None error_code) s' ∧
            open_file s' file inode size v) as Hset.
  { intros v Hv. destruct (set_offset_ok s file inode size offset v Hof Hv Hd) as (s' & E & Ho & _).
    exists s'. by run E. }
  rewrite !(file_seek_eq _ _ _ _ _ _ _ Hof Hj). cbn [seek_target].
  split_and!; case_decide; try done; apply Hset; first [apply u32_range|lia].
Qed.

(** Reading a file of the ramdisk in sequence: [file_read] inside the file
    copies the bytes from the current position on, at most up to the end of
    the file, returns how many they are and moves the position behind them;
    at the end of the file it reads nothing.  Nothing but the buffer and the
    position changes. *)
Theorem file_read_initrd `{!Allocator S} sfuel open_address read_address close_address s f offset length buffer :
  initrd_file read_address s f offset → offset ≤ fv_size f → 0 ≤ length < 2 ^ 32 →
  let n := length `min` (fv_size f - offset) in
  0 < buffer → mapped s buffer n → (∀ b, buffer ≤ b < buffer + n → ¬ file_area f b) →
  ∃ s', @file_read S _ (initrd_ops sfuel open_address read_address close_address)
          (fv_file f) buffer length s = Ret n s' ∧
    initrd_file read_address s' f (offset + n) ∧
    (∀ k, 0 ≤ k < n → get8 s' (buffer + k) = get8 s (fv_data f + offset + k)) ∧
    ∀ b, ¬ (buffer ≤ b < buffer + n) → ¬ (fv_file f + 4 ≤ b < fv_file f + 8) → get8 s' b = get8 s b.
Proof.
  intros Hf Hos Hl n Hb Hm Hd.
  destruct (file_read_ok read_address sfuel open_address close_address s f offset length buffer)
    as (s' & E & Hf' & _ & Hg); [done..|]. exists s'. split_and!; [done|done| |].
  - intros k Hk. rewrite Hg, decide_True by (first [lia | intros Hc; apply (Hd (buffer + k)); unfold file_area; lia]).
    f_equal. lia.
  - intros b Hb1 Hb2. by rewrite Hg, decide_False by done.
Qed.
End properties.

(** ** Witnesses *)

(** A file at 0x40, one byte into its node at 0x100, of five bytes at 0x300. *)
Definition example_file : arena :=
  Arena (CArray 0x1000
    (put_bytes 0x44 [1; 0; 0; 0; 0; 1; 0; 0]
    (put_bytes 0x194 [5; 0; 0; 0; 0; 3; 0; 0; 0; 2; 0; 0]
    (put_bytes 0x224 [7; 0; 0; 0]
    (put_bytes 0x300 [104; 101; 108; 108; 111] ∅))))) 0x800.

Lemma example_file_open : open_file example_file 0x40 0x100 5 1.
Proof. split_and!; try lia; vm_compute; reflexivity. Qed.

Lemma example_file_mapped a n : 0 ≤ a → a + n ≤ 0x1000 → mapped example_file a n.
Proof. intros ? ? b Hb. unfold get8, arena_store, carray_store. cbn. rewrite decide_True by lia. eauto. Qed.

Lemma file_seek_spec_witness :
  (∃ s', file_seek 0x40 4 SEEK_SET example_file = Ret None s' ∧ open_file s' 0x40 0x100 5 4) ∧
  file_seek 0x40 4 SEEK_CUR example_file = Ret (Some INVALID_ARGUMENT) example_file ∧
  file_seek 0x40 4 SEEK_END example_file = Ret (Some INVALID_ARGUMENT) example_file.
Proof.
  apply (file_seek_spec example_file 0x40 0x100 5 1 4).
  - exact example_file_open.
  - lia.
  - lia.
Defined.

Definition example_view : file_view := FileView 0x40 0x100 0x200 0x300 5.

Lemma example_initrd_file : initrd_file 7 example_file example_view 1.
Proof.
  split.
  - exact example_file_open.
  - simpl. lia.
  - split; vm_compute; reflexivity.
  - split_and!; vm_compute; reflexivity.
  - vm_compute. reflexivity.
  - apply example_file_mapped; simpl; lia.
  - simpl. lia.
Qed.

Lemma file_read_initrd_witness :
  ∃ s', @file_read arena _ (initrd_ops 9 6 7 8) 0x40 0x400 100 example_file = Ret 4 s' ∧
    get8 s' 0x402 = get8 example_file 0x303.
Proof.
  destruct (file_read_initrd 9 6 7 8 example_file example_view 1 100 0x400) as (s' & E & _ & Hg & _).
  - exact example_initrd_file.
  - simpl. lia.
  - lia.
  - lia.
  - apply example_file_mapped; simpl; lia.
  - unfold file_area. simpl. lia.
  - exists s'. split; [exact E|]. exact (Hg 2 ltac:(simpl; lia)).
Defined.
