(* ===== verification/OpenFile.v ===== *)
(** * Files by path: [file_open] and everything it calls

    The modes of [file_open], with the stores of [strncmp] into the strings it
    compares; and, on a kernel with the ramdisk mounted, opening a file by its
    path, reading it and closing it again, through [kernel/fs/file.c],
    [kernel/fs/vfs.c], [kernel/data_structures/list.c] and
    [kernel/fs/initrd.c], from an image that [rootfs/initrd_gen.py] made. *)

From S2P Require Import Prelude Memory Chain CString Bitmap Phys Paging Kheap Kmalloc KList Initrd InitrdGen Vfs File.

(** ** Modes *)

(** The strings of [possible_modes]. *)
Definition possible_mode_strings : list (list Z) :=
  [[114]; [114; 98]; [119]; [119; 98]; [97]; [97; 98]; [114; 43]; [114; 98; 43]; [114; 43; 98];
   [119; 43]; [119; 98; 43]; [119; 43; 98]; [97; 43]; [97; 98; 43]; [97; 43; 98]].

Definition mode_table : list (list Z * Z) := zip possible_mode_strings modes_bits.

(** The bits of the first mode that begins with the same two characters. *)
Fixpoint bits_of_mode (table : list (list Z * Z)) (mode : list Z) : option Z :=
  match table with
  | [] => None
  | (m, bits) :: table' => if decide (take 2 m = take 2 mode) then Some bits else bits_of_mode table' mode
  end.

Section modes.
Context {S : Type} `{ByteStoreLaws S, !Allocator S, !AllocatorLaws S}.
Implicit Types s : S.

(** The program's three bytes at [a] begin with the first two characters of
    [m] and its end, if it is no longer than that. *)
Record window s (a : Z) (m : list Z) : Prop := {
  w_range : 0 ≤ a ∧ a + 3 < 2 ^ 32;
  w_nonzero : Forall (λ x, 0 < x < 256) m;
  w_chars : ∀ (k : nat) x, (k < 2)%nat → (m ++ [0]) !! k = Some x → get8 s (a + Z.of_nat k) = Some x;
  w_third : is_Some (get8 s (a + 2)) ∧ ¬ al_private s (a + 2)
}.

Lemma window_wrote (W : Z → Prop) s s' a m :
  wrote W s s' → window s a m → ¬ W a → ¬ W (a + 1) → window s' a m.
Proof.
  intros Hw [Hr Hn Hc [Hm Ho]] Hw0 Hw1. split; [done|done| |].
  - intros k x Hk Hx. rewrite (wrote_same _ _ _ _ Hw); [by apply Hc|].
    destruct k as [|[|]]; [by rewrite Z.add_0_r|done|lia].
  - split; [eapply stores_mapped; [by eapply wrote_stores|done]|by rewrite (wrote_private _ _ _ _ Hw)].
Qed.

(** With a zero in the third byte the string is cut off after two characters. *)
Lemma window_cut s a m : window s a m → get8 s (a + 2) = Some 0 → cstr s a (take 2 m).
Proof.
  intros [[Hr1 Hr2] Hn Hc _] E. pose proof (Hc 0%nat) as E0. pose proof (Hc 1%nat) as E1. simpl in E0, E1.
  rewrite Z.add_0_r in E0. destruct m as [|x [|y m]]; cbn [take cstr].
  - split; [lia|]. apply E0; [lia|done].
  - inversion_clear Hn. repeat (split; [lia || done || (apply E0; [lia|done])|]). apply E1; [lia|done].
  - inversion_clear Hn as [|? ? ? Hn']. inversion_clear Hn'. replace (a + 1 + 1) with (a + 2) by lia.
    repeat (split; [lia || done || (apply E0; [lia|done]) || (apply E1; [lia|done])|]). done.
Qed.

(** [strncmp] of three characters compares two, and writes a zero behind them. *)
Lemma strncmp_window_ok sfuel s p q xs ys :
  window s p xs → window s q ys → apart p 3 q 3 → (3 ≤ sfuel)%nat →
  ∃ s', strncmp sfuel p q 3 s = Ret (strcmp_ref (take 2 xs) (take 2 ys)) s' ∧
    wrote (λ b, b = p + 2 ∨ b = q + 2) s s'.
Proof.
  intros Hx Hy Ha Hf. unfold apart in Ha.
  pose proof Hx as [[Hp1 Hp2] _ _ [[vp Ep] Op]]. pose proof Hy as [[Hq1 Hq2] _ _ [[vq Eq] Oq]].
  destruct (wr8_Ret s (p + 2) 0 vp Ep) as (s1 & E1 & G1).
  assert (wrote (λ b, b = p + 2) s s1) as W1 by (by eapply wr8_wrote).
  destruct (wr8_Ret s1 (q + 2) 0 vq) as (s2 & E2 & G2); [by rewrite G1, decide_False by lia|].
  assert (wrote (λ b, b = q + 2) s1 s2) as W2.
  { eapply wr8_wrote; [done|done|]. by rewrite (wrote_private _ _ _ _ W1). }
  assert (window s2 p xs) as Hx2 by (do 2 (eapply window_wrote; [done| |simpl; lia..]); done).
  assert (window s2 q ys) as Hy2 by (do 2 (eapply window_wrote; [done| |simpl; lia..]); done).
  assert (cstr s2 p (take 2 xs)) as Cx by (apply window_cut; [done|by rewrite G2, decide_False, G1, decide_True by lia]).
  assert (cstr s2 q (take 2 ys)) as Cy by (apply window_cut; [done|by rewrite G2, decide_True by lia]).
  exists s2. split.
  - unfold strncmp. rewrite (u32_small (3 - 1)), !u32_small by lia. change (3 - 1) with 2. run E1. run E2.
    apply strcmp_ok; [done|done|]. rewrite length_take. lia.
  - eapply wrote_trans; (eapply wrote_weaken; [done|intros b ->; auto]).
Qed.
End modes.

Lemma cstr_lookup {S} `{ByteStore S} (s : S) p xs k x : cstr s p xs → xs !! k = Some x → get8 s (p + Z.of_nat k) = Some x.
Proof.
  revert p k. induction xs as [|y xs IH]; intros p [|k] Hc Hk; simpl in *; try done.
  - rewrite Z.add_0_r. destruct Hc as (_ & _ & E & _). congruence.
  - replace (p + Z.of_nat (Datatypes.S k)) with (p + 1 + Z.of_nat k) by lia. apply IH; [apply Hc|done].
Qed.

(** The strings at these addresses have three bytes each of their own. *)
Fixpoint spread (l : list Z) : Prop :=
  match l with
  | [] => True
  | a :: l' => Forall (λ b, apart a 3 b 3) l' ∧ spread l'
  end.

Section opening_mode.
Context {S : Type} `{ByteStoreLaws S, !Allocator S, !AllocatorLaws S}.
Implicit Types s : S.
Variable sfuel : nat.
Variable mode_buf : Z.
Variable vfs_open : Z → M S Z.

(** What [file_open] does once it knows the bits. *)
Definition open_with (bits path : Z) : M S Z :=
  inode ← vfs_open path;
  if negb (inode =? NULL) then
    file ← al_malloc sizeof_file;
    wr32 (file_inode file) inode ;;
    wr32 (file_mode_field file) bits ;;
    wr32 (file_offset file) 0 ;;
    mret file
  else mret NULL.

Abbreviation the_loop := (file_open_loop sfuel mode_buf vfs_open).

(** The bytes written for the strings at [l]. *)
Definition third_bytes (l : list Z) (b : Z) : Prop := b = mode_buf + 2 ∨ ∃ a, a ∈ l ∧ b = a + 2.

(** One string is tried. *)
Lemma file_open_loop_step a m bits rest path mode s :
  window s mode_buf mode → window s a m → apart mode_buf 3 a 3 → (3 ≤ sfuel)%nat →
  ∃ s', the_loop ((a, bits) :: rest) path s
        = (if decide (take 2 m = take 2 mode) then open_with bits path else the_loop rest path) s' ∧
    wrote (third_bytes [a]) s s'.
Proof.
  intros Hb Ha Hd Hf. destruct (strncmp_window_ok sfuel s mode_buf a mode m) as (s' & E & W); [done..|].
  exists s'. split; [|eapply wrote_weaken; [done|]; intros b [->| ->]; [by left|right; exists a; split; [left|done]]].
  cbn [file_open_loop]. run E.
  pose proof (strcmp_ref_zero (take 2 mode) (take 2 m)
    (Forall_take _ _ _ (w_nonzero _ _ _ Hb)) (Forall_take _ _ _ (w_nonzero _ _ _ Ha))) as Hz.
  case_decide as Hc; [by rewrite (proj2 (Z.eqb_eq _ 0)) by (by apply Hz)|].
  rewrite (proj2 (Z.eqb_neq _ 0)); [done|]. intros Hc'%Hz. by destruct Hc.
Qed.

(** All of them: the first that begins like the mode decides. *)
Lemma file_open_loop_ok (tbl : list (Z * (list Z * Z))) path mode s :
  window s mode_buf mode → Forall (λ e, window s e.1 e.2.1 ∧ apart mode_buf 3 e.1 3) tbl → spread (fst <$> tbl) →
  (3 ≤ sfuel)%nat →
  ∃ s', the_loop ((λ e, (e.1, e.2.2)) <$> tbl) path s
        = (match bits_of_mode (snd <$> tbl) mode with Some bits => open_with bits path | None => mret NULL end) s' ∧
    wrote (third_bytes (fst <$> tbl)) s s'.
Proof.
  intros Hb HF Hs Hf. revert s Hb HF. induction tbl as [|[a [m bits]] tbl IH]; intros s Hb HF.
  { exists s. split; [done|apply rtc_refl]. }
  apply Forall_cons in HF as [[Hw Hd] HF]. destruct Hs as [Hsa Hs]. simpl in Hw, Hd.
  destruct (file_open_loop_step a m bits ((λ e, (e.1, e.2.2)) <$> tbl) path mode s) as (s1 & E1 & W1); [done..|].
  assert (∀ b, third_bytes [a] b → third_bytes (fst <$> ((a, (m, bits)) :: tbl)) b) as Hsub.
  { intros b [->|(c & Hc%list_elem_of_singleton & ->)]; [by left|right]. exists c. subst. split; [left|done]. }
  cbn [fmap list_fmap fst snd bits_of_mode]. rewrite E1. case_decide as Hc.
  { exists s1. split; [done|]. by eapply wrote_weaken. }
  assert (∀ x ys, window s x ys → apart x 3 mode_buf 3 ∨ x = mode_buf → apart a 3 x 3 → window s1 x ys) as Hwin.
  { intros x ys Hx Hxb Hxa. unfold apart in *. eapply window_wrote; [exact W1|done| |];
      intros [Hn|(c & Hn%list_elem_of_singleton & ?)]; lia. }
  destruct (IH Hs s1) as (s' & E & W).
  - apply Hwin; [done|by right|unfold apart in *; lia].
  - rewrite !Forall_forall in *. intros e He. destruct (HF e He) as [Hwe Hde]. split; [|done].
    apply Hwin; [done|unfold apart in *; lia|]. apply Hsa. apply list_elem_of_fmap. by exists e.
  - exists s'. split; [done|]. eapply wrote_trans; [by eapply wrote_weaken|]. eapply wrote_weaken; [exact W|].
    intros b [->|(c & Hc' & ->)]; [by left|right]. exists c. split; [by right|done].
Qed.

(** The copy of the mode on the stack: so many bytes are written. *)
Definition mode_buf_size (mode : list Z) : Z := (Z.of_nat (length mode) + 1) `max` 3.

(** The path, the mode and the place for its copy. *)
Record mode_setting s (path mode_address : Z) (mode : list Z) : Prop := {
  mo_path : path ≠ NULL;
  mo_mode : cstr s mode_address mode ∧ (length mode < sfuel)%nat ∧ Z.of_nat (length mode) < INT_MAX;
  mo_buf : 0 ≤ mode_buf ∧ mode_buf + mode_buf_size mode < 2 ^ 32;
  mo_buf_owned : mapped s mode_buf (mode_buf_size mode) ∧ owned s mode_buf (mode_buf_size mode);
  mo_apart : apart mode_buf (Z.of_nat (length mode)) mode_address (Z.of_nat (length mode))
}.

Lemma copy_mode_ok possible_modes s path mode_address mode :
  mode_setting s path mode_address mode →
  ∃ s', file_open sfuel possible_modes mode_buf vfs_open path mode_address s
        = the_loop (zip possible_modes modes_bits) path s' ∧
    window s' mode_buf mode ∧ wrote (λ b, mode_buf ≤ b < mode_buf + mode_buf_size mode) s s'.
Proof.
  intros [Hp (Hc & Hf & Hi) [Hb1 Hb2] [Hm Ho] Ha]. unfold mode_buf_size in *. set (n := Z.of_nat (length mode)) in *.
  unfold apart in Ha. pose proof (cstr_bytes _ _ _ Hc) as Hnz. pose proof (cstr_range _ _ _ Hc).
  destruct (memcpy_ok s mode_buf mode_address n) as (s1 & E1 & C1); [lia| |by apply (mapped_sub _ mode_buf ((n + 1) `max` 3)); [|lia..]|lia|].
  { apply (mapped_sub _ mode_address (n + 1)); [by apply cstr_mapped|lia..]. }
  assert (wrote (λ b, mode_buf ≤ b < mode_buf + (n + 1) `max` 3) s s1) as W1.
  { eapply memcpy_wrote; [exact E1| |lia]. intros b Hb. apply Ho. lia. }
  destruct (wrote_mapped _ _ _ _ _ W1 Hm (mode_buf + n)) as [v Ev]; [lia|].
  destruct (wr8_Ret s1 (mode_buf + n) 0 v Ev) as (s2 & E2 & G2).
  assert (wrote (λ b, mode_buf ≤ b < mode_buf + (n + 1) `max` 3) s s2) as W2.
  { eapply wrote_trans; [exact W1|]. eapply wr8_wrote; [exact E2|lia|]. rewrite (wrote_private _ _ _ _ W1). apply Ho. lia. }
  exists s2. split_and!; [| |done].
  - unfold file_open. rewrite (proj2 (Z.eqb_neq path NULL)) by done.
    unfold strlen. run (strlen_ok sfuel s mode_address mode 0 Hc Hf ltac:(lia) ltac:(lia)). fold n.
    rewrite Z.add_0_l, i32_small, u32_small by (unfold INT_MAX in *; lia). run E1. by run E2.
  - split; [lia|done| |].
    + intros k x Hk Hx. rewrite G2. apply lookup_app_Some in Hx as [Hx|[Hl Hx]].
      * pose proof (lookup_lt_Some _ _ _ Hx). rewrite decide_False, C1, decide_True by lia.
        replace (mode_address + (mode_buf + Z.of_nat k - mode_buf)) with (mode_address + Z.of_nat k) by lia.
        by apply (cstr_lookup _ _ mode).
      * apply list_lookup_singleton_Some in Hx as [? <-]. by rewrite decide_True by lia.
    + split; [apply (wrote_mapped _ _ _ _ _ W2 Hm); lia|]. rewrite (wrote_private _ _ _ _ W2). apply Ho. lia.
Qed.
End opening_mode.

(** ** Properties of the modes *)

Section mode_properties.
Context {S : Type} `{ByteStoreLaws S, !Allocator S, !AllocatorLaws S}.
Implicit Types s : S.

(** The addresses of the fifteen strings: each has three bytes of its own. *)
Record modes_at s (mode_buf size : Z) (possible_modes : list Z) : Prop := {
  ma_strings : length possible_modes = 15%nat ∧
    ∀ i a m, possible_modes !! i = Some a → possible_mode_strings !! i = Some m → window s a m;
  ma_apart : Forall (λ a, apart mode_buf size a 3) possible_modes;
  ma_spread : spread possible_modes
}.

Lemma spread_apart l a c : spread l → a ∈ l → c ∈ l → a = c ∨ apart a 3 c 3.
Proof.
  induction l as [|x l IH]; [by intros _ ?%not_elem_of_nil|]. intros [Hx Hs]. rewrite Forall_forall in Hx.
  intros [->|Ha]%elem_of_cons [->|Hc]%elem_of_cons; [by left|right; by apply Hx| |by apply IH].
  right. specialize (Hx a Ha). unfold apart in *. lia.
Qed.

(** The writes of [file_open] leave the beginnings of the strings alone. *)
Lemma modes_at_wrote (W : Z → Prop) s s' mode_buf size l :
  wrote W s s' → (∀ b, W b → mode_buf ≤ b < mode_buf + size ∨ ∃ a, a ∈ l ∧ b = a + 2) →
  modes_at s mode_buf size l → modes_at s' mode_buf size l.
Proof.
  intros Hw HW [[Hl Hs] Ha Hsp]. split; [split; [done|]|done..]. intros i a m Hi Hm.
  pose proof (list_elem_of_lookup_2 _ _ _ Hi) as Hin. rewrite Forall_forall in Ha. specialize (Ha a Hin). unfold apart in *.
  apply (window_wrote _ _ _ _ _ Hw (Hs _ _ _ Hi Hm)); intros [?|(c & Hc & ?)]%HW; try lia;
    destruct (spread_apart l a c Hsp Hin Hc); unfold apart in *; lia.
Qed.

Lemma snd_mode_table : snd <$> mode_table = modes_bits.
Proof. reflexivity. Qed.

Lemma zip_snd {A B C} (l : list A) (k : list (B * C)) : zip l (snd <$> k) = (λ e, (e.1, e.2.2)) <$> zip l k.
Proof. revert k. induction l as [|x l IH]; intros [|y k]; simpl; [done..|]. by rewrite IH. Qed.

End mode_properties.

(** ** Opening a file of the ramdisk *)

Section ramdisk.
Context {S : Type} `{ByteStoreLaws S, !Allocator S, !AllocatorLaws S}.
Implicit Types s : S.

(** Fuel; the variable [mount_points], the local list of [vfs_open], the
    literal of the first mode and the ones after it, the copy of the mode; the
    functions of the ramdisk. *)
Variables (sfuel lfuel : nat) (mount_points tree_nodes lit : Z) (more : list Z) (mode_buf : Z).
Variables (open_address read_address close_address : Z).

(** What the memory is good for in the end. *)
Variable Q : S → Prop.

Abbreviation ops := (initrd_ops sfuel open_address read_address close_address).
Abbreviation the_vfs_open := (@vfs_open S _ _ ops mount_points true sfuel lfuel tree_nodes).
Abbreviation the_file_open := (file_open sfuel (lit :: more) mode_buf the_vfs_open).

(** What opening a file with the mode ["r"] writes to, of the memory that was
    the program's before. *)
Definition mode_scratch (b : Z) : Prop := mode_buf ≤ b < mode_buf + 3 ∨ b = lit + 2.
Definition scratch (mp b : Z) : Prop := mode_scratch b ∨ ¬ open_kept tree_nodes mp b.

(** A path and the bytes it takes. *)
Definition path_bytes (path np : Z) (name : list Z) (b : Z) : Prop := path ≤ b < np + Z.of_nat (length name) + 1.

(** The root file system is a ramdisk with the [image] of [files]. *)
Record ramdisk_mounted s (mp fs img : Z) (files : list (list Z * list Z)) (image : list Z) : Prop := {
  rd_root : root_mounted s mount_points tree_nodes mp fs open_address;
  rd_ops : get32 s (fs + 36) = Some read_address ∧ get32 s (fs + 48) = Some close_address;
  rd_image : create_initrd files = Some image ∧ bytes_at s img image ∧ get32 s (fs + 28) = Some img;
  rd_range : 0 < img ∧ img + Z.of_nat (length image) < 2 ^ 32 - 1 ∧ Z.of_nat (length image) < 2 ^ 31;
  rd_owned : owned s img (Z.of_nat (length image));
  rd_names : Forall (λ f, (length f.1 < 20)%nat ∧ Forall (λ x, x ≠ 0) f.1) files;
  rd_apart : ∀ b, mode_scratch b → ¬ mount_points ≤ b < mount_points + 4 ∧ ¬ tree_nodes ≤ b < tree_nodes + 8 ∧
    ¬ mp ≤ b < mp + 312;
  rd_kept : ∀ b, fs ≤ b < fs + 56 ∨ img ≤ b < img + Z.of_nat (length image) → ¬ scratch mp b
}.

(** The path of the file [name], with or without a slash. *)
Record path_setting s (mp path np : Z) (name : list Z) : Prop := {
  pa_path : 0 < path ∧ without_slash s path np ∧ cstr s np name;
  pa_owned : ∀ b, path_bytes path np name b → ¬ al_private s b ∧ ¬ scratch mp b
}.

(** A root stays mounted under stores elsewhere. *)
Lemma root_mounted_wrote (W : Z → Prop) s s' mp fs open :
  wrote W s s' → root_mounted s mount_points tree_nodes mp fs open →
  (∀ b, W b → ¬ mount_points ≤ b < mount_points + 4 ∧ ¬ tree_nodes ≤ b < tree_nodes + 8 ∧ ¬ mp ≤ b < mp + 312) →
  (∀ b, fs ≤ b < fs + 56 → ¬ W b) → root_mounted s' mount_points tree_nodes mp fs open.
Proof.
  intros Hw [[Hv Hvo] (Hm1 & Hm2 & Hmo) [Hc Hi] [Hf Hop] (Hf1 & Hf2 & Hfo) (Ht1 & Ht2 & Htm & Hto) Ha Ha2] HW Hfs.
  assert (∀ a, (∀ b, a ≤ b < a + 4 → ¬ W b) → get32 s' a = get32 s a) as Hg by (intros a; by apply (wrote_get32 W)).
  split; try done.
  - split; [rewrite Hg; [done|]; intros b Hb HWb; by apply HW in HWb as []|by eapply wrote_owned].
  - split_and!; [done|done|by eapply wrote_owned].
  - split; (rewrite Hg; [done|]); intros b Hb (_ & _ & Hn)%HW; lia.
  - split; (rewrite Hg; [done|]); [intros b Hb (_ & _ & Hn)%HW; lia|]. intros b Hb. apply Hfs. lia.
  - split_and!; [done|done|by eapply wrote_owned].
  - split_and!; [done|done|by eapply wrote_mapped|by eapply wrote_owned].
Qed.

(** A path and an image stay what they are where the memory is kept. *)
Lemma path_setting_kept s s' mp path np name :
  mem_kept (λ b, ¬ scratch mp b) s s' → path_setting s mp path np name → path_setting s' mp path np name.
Proof.
  intros K [(Hp & Hw & Hc) Ho]. pose proof (cstr_range _ _ _ Hc).
  assert (path ≤ np ≤ path + 1) as Hnp by (destruct Hw as [[_ ->]|[_ ->]]; lia).
  assert (∀ b, path_bytes path np name b → ¬ al_private s' b ∧ get8 s' b = get8 s b) as Hk
    by (intros b Hb; destruct (Ho b Hb); by apply K).
  unfold path_bytes in *. split.
  - split_and!; [done| |eapply cstr_ext; [done|]; intros b Hb; apply Hk; lia].
    unfold without_slash. rewrite (proj2 (Hk path ltac:(lia))). exact Hw.
  - intros b Hb. split; [by apply Hk|by apply Ho].
Qed.

Lemma bytes_at_mapped s a xs : bytes_at s a xs → mapped s a (Z.of_nat (length xs)).
Proof.
  intros B b Hb. destruct (lookup_lt_is_Some_2 xs (Z.to_nat (b - a))) as [x Hx]; [lia|].
  exists x. rewrite <-(B _ _ Hx). f_equal. lia.
Qed.

(** A word of a block that belongs to the program. *)
Lemma owned_word_kept s s' p n a v :
  (∀ b, ¬ al_private s b → ¬ al_private s' b ∧ get8 s' b = get8 s b) → owned s p n → p ≤ a → a + 4 ≤ p + n →
  get32 s a = Some v → get32 s' a = Some v.
Proof. intros K Ho ? ? <-. apply get32_ext. intros b Hb. apply K, Ho. lia. Qed.

Lemma bytes_at_kept (P : Z → Prop) s s' a xs : mem_kept P s s' → bytes_at s a xs → owned s a (Z.of_nat (length xs)) →
  (∀ b, a ≤ b < a + Z.of_nat (length xs) → P b) → bytes_at s' a xs.
Proof.
  intros K B Ho HP k x Hk. pose proof (lookup_lt_Some _ _ _ Hk).
  destruct (K (a + Z.of_nat k)) as [_ E]; [apply HP; lia|apply Ho; lia|]. rewrite E. by apply B.
Qed.

(** *** The node *)

(** What [initrd_open] needs holds where [vfs_open] calls it. *)
Lemma image_ready s s' mp fs img files image :
  ramdisk_mounted s mp fs img files image → mem_kept (λ b, ¬ scratch mp b) s s' →
  initrd_image s' fs img (imap (λ i f, (f.1, Z.of_nat (length f.2), data_offset files i)) files) ∧
  bytes_at s' img image ∧ owned s' img (Z.of_nat (length image)).
Proof.
  intros [[_ _ _ _ (Hf1 & Hf2 & Hfo) _ _ _] _ (Hc & B & Gi) (Hi1 & Hi2 & Hi3) Ho Hnm _ Hk] K.
  assert (bytes_at s' img image) as B' by (eapply bytes_at_kept; [exact K|done|done|]; intros b Hb; apply Hk; lia).
  assert (owned s' img (Z.of_nat (length image))) as Ho'
    by (apply (mem_kept_owned _ _ _ _ _ K Ho); intros b Hb; apply Hk; lia).
  assert (get32 s' (fs + 28) = Some img) as Gi'.
  { rewrite <-Gi. apply (mem_kept_get32 _ _ _ _ K); [by apply (owned_sub _ fs 56); [|lia..]|]. intros b Hb. apply Hk. lia. }
  split_and!; [|done..]. apply (generated_image s' fs img files image); try done; try lia.
  pose proof (create_initrd_length _ _ Hc). unfold INT_MAX. lia.
Qed.

(** A new node at [p] for the file. *)
Record node_opened s s' (mp fs img : Z) (files : list (list Z * list Z)) (i : nat) (data : list Z) (p : Z) : Prop := {
  no_range : 0 < p ∧ p + 164 < 2 ^ 32 ∧ owned s' p 164;
  no_size : get32 s' (p + 148) = Some (Z.of_nat (length data));
  no_data : get32 s' (p + 152) = Some (img + 4 + Z.of_nat (length files) * 28 + data_offset files i);
  no_fs : get32 s' (p + 156) = Some fs;
  no_new : ∀ b, ¬ al_private s b → ¬ scratch mp b → ¬ p ≤ b < p + 164;
  no_kept : mem_kept (λ b, ¬ scratch mp b) s s'
}.

(** [vfs_open] up to the call of [initrd_open]. *)
Lemma to_initrd_open_ok s mp fs img files image path ns :
  ramdisk_mounted s mp fs img files image → (0 < lfuel)%nat →
  memory_for Q (sizeof_node :: ns) s → (∀ p s1, ∃ s2, al_free p s1 = Ret tt s2) →
  ∃ s', the_vfs_open path s = initrd_open sfuel fs path s' ∧ mem_kept (λ b, ¬ scratch mp b) s s' ∧ memory_for Q ns s'.
Proof.
  intros Hd Hl Hm Hfree.
  destruct (@vfs_open_ok S _ _ _ _ ops mount_points tree_nodes sfuel lfuel path s mp fs open_address)
    as (s1 & p & s2 & s' & W1 & Em & U2 & E & K); [apply Hd|done| |done|].
  { intros s1 W. destruct (Hm s1) as (p & s2 & Em & Hp & _); [by eapply wrote_uses|]. eauto. }
  exists s'. split_and!.
  - rewrite E. cbn [call_open initrd_ops]. by rewrite Z.eqb_refl.
  - intros b Hb. apply K. unfold scratch in Hb. destruct (decide (tree_nodes ≤ b < tree_nodes + 8));
      [exfalso; apply Hb; right; unfold open_kept; tauto|].
    destruct (decide (mp + 308 ≤ b < mp + 312)); [exfalso; apply Hb; right; unfold open_kept; tauto|done].
  - destruct (Hm s1) as (p' & s2' & Em' & _ & Hns); [by eapply wrote_uses|]. rewrite Em in Em'. injection Em' as <- <-.
    by eapply memory_for_uses.
Qed.

(** The names in the image fit the fuel. *)
Lemma names_fit files : Forall (λ f : list Z * list Z, (length f.1 < 20)%nat ∧ Forall (λ x, x ≠ 0) f.1) files → (20 ≤ sfuel)%nat →
  Forall (λ f : list Z * Z * Z, (length f.1.1 < sfuel)%nat) (imap (λ i f, (f.1, Z.of_nat (length f.2), data_offset files i)) files).
Proof.
  intros Hn Hf. rewrite Forall_forall in Hn. apply Forall_forall. intros f (j & g & -> & Hj)%elem_of_lookup_imap_1. simpl.
  destruct (Hn g) as [Hl _]; [by eapply list_elem_of_lookup_2|lia].
Qed.

Lemma imap_names (files : list (list Z * list Z)) :
  map (λ f, f.1.1) (imap (λ i f, (f.1, Z.of_nat (length f.2), data_offset files i)) files) = fst <$> files.
Proof.
  apply list_eq. intros i. rewrite list_lookup_fmap, list_lookup_imap, list_lookup_fmap. by destruct (files !! i).
Qed.

Lemma vfs_open_file_ok s mp fs img files image path np i name data ns :
  ramdisk_mounted s mp fs img files image → path_setting s mp path np name → files !! i = Some (name, data) →
  (∀ j f, (j < i)%nat → files !! j = Some f → f.1 ≠ name) → (20 ≤ sfuel)%nat → (0 < lfuel)%nat →
  memory_for Q (sizeof_node :: sizeof_fs_node :: ns) s → (∀ p s1, ∃ s2, al_free p s1 = Ret tt s2) →
  ∃ s' p, the_vfs_open path s = Ret p s' ∧ p ≠ NULL ∧ node_opened s s' mp fs img files i data p ∧ memory_for Q ns s'.
Proof.
  intros Hd Hpa Hi Hfirst Hsf Hlf Hm Hfree.
  destruct (to_initrd_open_ok s mp fs img files image path (sizeof_fs_node :: ns)) as (s1 & E1 & K1 & M1); [done..|].
  destruct (image_ready s s1 mp fs img files image Hd K1) as (HI & B & Ho).
  destruct (path_setting_kept _ _ _ _ _ _ K1 Hpa) as [(Hp & Hw & Hc) _].
  destruct (memory_for_next _ _ _ _ M1) as (p & s2 & Em & Hp0 & M2).
  pose proof Hd as [_ _ (Hcr & _ & _) (Hr1 & Hr2 & _) _ Hnm _ _]. pose proof (names_fit _ Hnm Hsf) as Hfit.
  rewrite Forall_forall in Hnm. destruct (Hnm (name, data)) as [Hnl _]; [by eapply list_elem_of_lookup_2|]. simpl in Hnl.
  destruct (initrd_open_ok sfuel s1 fs path img _ name np i (Z.of_nat (length data)) (data_offset files i) p s2 HI)
    as (s3 & E3 & _ & G1 & G2 & G3 & W3); try done; try lia.
  { by rewrite list_lookup_imap, Hi. }
  { intros j f Hj. rewrite list_lookup_imap. destruct (files !! j) as [f'|] eqn:Hfj; [|done]. simpl. intros [= <-].
    simpl. by apply (Hfirst j f'). }
  destruct (al_malloc_fresh _ _ _ _ Em Hp0) as (Hp1 & Hp2 & _ & Hpp). unfold sizeof_fs_node in *.
  destruct (image_data s1 img files image i name data Hcr B Hi) as (_ & Hd1 & Hd2).
  rewrite length_imap, u32_small in G2 by lia.
  exists s3, p. split_and!; [by rewrite E1|done| |by eapply memory_for_uses, wrote_uses].
  split; try done.
  - split_and!; [lia|lia|]. eapply wrote_owned; [done|]. intros b Hb. by apply Hpp.
  - intros b Hb Hs Hpb. destruct (K1 b Hs Hb) as [Hn _]. by apply Hn, Hpp.
  - eapply mem_kept_trans; [exact K1|]. intros b _ Hb. by eapply new_block_keeps.
Qed.

(** A name that no file has. *)
Lemma vfs_open_absent_ok s mp fs img files image path np name ns :
  ramdisk_mounted s mp fs img files image → path_setting s mp path np name → name ∉ fst <$> files →
  (20 ≤ sfuel)%nat → (length name < sfuel)%nat → (0 < lfuel)%nat →
  memory_for Q (sizeof_node :: ns) s → (∀ p s1, ∃ s2, al_free p s1 = Ret tt s2) →
  ∃ s', the_vfs_open path s = Ret NULL s' ∧ mem_kept (λ b, ¬ scratch mp b) s s'.
Proof.
  intros Hd Hpa Hni Hsf Hnl Hlf Hm Hfree.
  destruct (to_initrd_open_ok s mp fs img files image path ns) as (s1 & E1 & K1 & _); [done..|].
  destruct (image_ready s s1 mp fs img files image Hd K1) as (HI & _ & _).
  destruct (path_setting_kept _ _ _ _ _ _ K1 Hpa) as [(Hp & Hw & Hc) _].
  exists s1. split; [|done]. rewrite E1. eapply initrd_open_absent; [exact HI|done|done| |done|done|by rewrite imap_names].
  apply names_fit; [apply Hd|done].
Qed.

(** *** The [file_t] *)

Lemma fill_file_ok s file inode bits :
  0 < file → file + 12 < 2 ^ 32 → mapped s file 12 → owned s file 12 → 0 ≤ inode < 2 ^ 32 → 0 ≤ bits < 2 ^ 32 →
  ∃ s', (wr32 (file_inode file) inode ;; wr32 (file_mode_field file) bits ;; wr32 (file_offset file) 0 ;; mret file) s
        = Ret file s' ∧
    get32 s' file = Some bits ∧ get32 s' (file + 4) = Some 0 ∧ get32 s' (file + 8) = Some inode ∧
    wrote (λ b, file ≤ b < file + 12) s s'.
Proof.
  intros Hf1 Hf2 Hm Ho Hi Hb.
  destruct (set_words_ok s (file + 8) file (file + 4) inode bits 0) as (s1 & s2 & s3 & E1 & E2 & E3 & G1 & G2 & G3 & _);
    try (apply (mapped_sub _ file 12); [done|lia..]); try lia.
  exists s3. split_and!.
  - unfold file_inode, file_mode_field, file_offset. rewrite !u32_small by lia. run E1. run E2. by run E3.
  - rewrite G2, u32_small by lia. done.
  - by rewrite G3.
  - rewrite G1, u32_small by lia. done.
  - assert (∀ a n, file ≤ a → a + n ≤ file + 12 → owned s a n) as Hsub by (intros a n ? ? b Hb'; apply Ho; lia).
    eapply wrote_wr32; [|exact E3|apply Hsub; lia|lia]. eapply wrote_wr32; [|exact E2|apply Hsub; lia|lia].
    eapply wr32_wrote; [exact E1|apply Hsub; lia|lia].
Qed.

(** [f] is a file of the ramdisk that was opened: at its beginning, with the
    contents [data], in memory that was the allocator's. *)
Record file_opened s s' (mp fs : Z) (data : list Z) (f : file_view) : Prop := {
  fo_file : initrd_file read_address s' f 0 ∧ get32 s' (fv_file f) = Some READ;
  fo_data : fv_size f = Z.of_nat (length data) ∧ bytes_at s' (fv_data f) data;
  fo_fs : fv_fs f = fs;
  fo_owned : owned s' (fv_file f) 12 ∧ owned s' (fv_inode f) 164;
  fo_apart : apart (fv_file f) 12 (fv_inode f) 164;
  fo_new : ∀ b, ¬ al_private s b → ¬ scratch mp b →
    ¬ fv_file f ≤ b < fv_file f + 12 ∧ ¬ fv_inode f ≤ b < fv_inode f + 164;
  fo_kept : mem_kept (λ b, ¬ scratch mp b) s s'
}.

(** A [file_t] over a node, in a new block. *)
Lemma file_over_node s s1 s2 s3 mp fs img files image i name data p file :
  ramdisk_mounted s mp fs img files image → files !! i = Some (name, data) → node_opened s s1 mp fs img files i data p →
  al_malloc sizeof_file s1 = Ret file s2 → file ≠ NULL → wrote (λ b, file ≤ b < file + 12) s2 s3 →
  get32 s3 file = Some READ → get32 s3 (file + 4) = Some 0 → get32 s3 (file + 8) = Some p →
  let address := img + 4 + Z.of_nat (length files) * 28 + data_offset files i in
  file_opened s s3 mp fs data (FileView file p fs address (Z.of_nat (length data))).
Proof.
  intros Hd Hi [(Hp1 & Hp2 & Ho1) G1 G2 G3 Hnew K1] Em Hf0 W3 F1 F2 F3 address. unfold sizeof_file in *.
  destruct (al_malloc_fresh _ _ _ _ Em Hf0) as (Hf1 & Hf2 & _ & Hfp).
  assert (∀ b, ¬ al_private s1 b → ¬ al_private s3 b ∧ get8 s3 b = get8 s1 b) as K3 by (intros b Hb; by eapply new_block_keeps).
  assert (mem_kept (λ b, ¬ scratch mp b) s s3) as K by (eapply mem_kept_trans; [exact K1|]; intros b _ Hb; by apply K3).
  pose proof Hd as [[_ _ _ _ (Hfs1 & Hfs2 & Hfso) _ _ _] [R1 _] (Hcr & B & _) (Hr1 & Hr2 & Hr3) Hio _ _ Hk].
  destruct (image_data s img files image i name data Hcr B Hi) as (BD & Hd1 & Hd2). fold address in BD, Hd1, Hd2.
  assert (∀ b, ¬ al_private s1 b → ¬ file ≤ b < file + 12) as Hnf by (intros b Hb Hfb; by apply Hb, Hfp).
  assert (∀ b, fs ≤ b < fs + 56 ∨ address ≤ b < address + Z.of_nat (length data) → ¬ al_private s b ∧ ¬ scratch mp b) as Hold.
  { intros b Hb. split; [destruct Hb; [by apply Hfso|apply Hio; lia]|apply Hk; lia]. }
  assert (∀ a v, p ≤ a → a + 4 ≤ p + 164 → get32 s1 a = Some v → get32 s3 a = Some v) as Hw
    by (intros a v; by apply owned_word_kept).
  split; cbn [fv_file fv_inode fv_fs fv_data fv_size].
  - split; [|done]. split; cbn [fv_file fv_inode fv_fs fv_data fv_size].
    + split_and!; try done; try lia. (apply Hw; [lia|lia|done]).
    + lia.
    + split; [(apply Hw; [lia|lia|done])|lia].
    + split_and!; [(apply Hw; [lia|lia|done])|lia..].
    + rewrite <-R1. apply (mem_kept_get32 _ _ _ _ K); [by apply (owned_sub _ fs 56); [|lia..]|]. intros b Hb. apply Hold. lia.
    + intros b Hb. destruct (Hold b) as [Hb1 Hb2]; [by right|]. destruct (K b Hb2 Hb1) as [_ ->].
      destruct (bytes_at_mapped _ _ _ BD b Hb). eauto.
    + intros b Hb. split_and!; intros Hc; [apply (Hnf b); [by apply Ho1|lia]|..];
        (destruct (Hold b) as [Hb1 Hb2]; [tauto|]; apply (Hnf b); [by apply K1|lia]).
  - split; [done|]. eapply bytes_at_kept; [exact K|done| |].
    + intros b Hb. apply Hold. by right.
    + intros b Hb. apply Hold. by right.
  - done.
  - split; [|by intros b Hb; apply K3, Ho1]. eapply wrote_owned; [done|]. intros b Hb. by apply Hfp.
  - destruct (private_disjoint s1 file 12 p 164) as [?|?]; [lia|lia|intros b Hb; by apply Hfp|done|by left|by right].
  - intros b Hb Hs. split; [|by apply Hnew]. apply Hnf. by apply K1.
  - done.
Qed.

(** Opening for reading. *)
Lemma open_with_ok s mp fs img files image path np i name data ns :
  ramdisk_mounted s mp fs img files image → path_setting s mp path np name → files !! i = Some (name, data) →
  (∀ j f, (j < i)%nat → files !! j = Some f → f.1 ≠ name) → (20 ≤ sfuel)%nat → (0 < lfuel)%nat →
  memory_for Q (sizeof_node :: sizeof_fs_node :: sizeof_file :: ns) s → (∀ p s1, ∃ s2, al_free p s1 = Ret tt s2) →
  ∃ s' f, open_with the_vfs_open READ path s = Ret (fv_file f) s' ∧ fv_file f ≠ NULL ∧ file_opened s s' mp fs data f ∧
    (img ≤ fv_data f ∧ fv_data f + Z.of_nat (length data) ≤ img + Z.of_nat (length image)) ∧ memory_for Q ns s'.
Proof.
  intros Hd Hpa Hi Hfirst Hsf Hlf Hm Hfree.
  destruct (vfs_open_file_ok s mp fs img files image path np i name data (sizeof_file :: ns))
    as (s1 & p & E1 & Hp & Hno & M1); [done..|].
  destruct (memory_for_next _ _ _ _ M1) as (file & s2 & Em & Hf0 & M2). pose proof Hno as [(Hp1 & Hp2 & _) _ _ _ _ _].
  destruct (al_malloc_fresh _ _ _ _ Em Hf0) as (Hf1 & Hf2 & Hfm & Hfp). unfold sizeof_file in Hf2, Hfm, Hfp.
  destruct (fill_file_ok s2 file p READ) as (s3 & E3 & F1 & F2 & F3 & W3);
    [lia|lia|done|intros b Hb; by apply Hfp|lia|unfold READ; lia|].
  pose proof Hd as [_ _ (Hcr & B & _) _ _ _ _ _].
  destruct (image_data s img files image i name data Hcr B Hi) as (_ & Hd1 & Hd2).
  eexists s3, _. split_and!; [|shelve|by apply (file_over_node s s1 s2 s3 mp fs img files image i name data p file)|done|done|by eapply memory_for_uses, wrote_uses].
  - unfold open_with. run E1. rewrite (proj2 (Z.eqb_neq p NULL)) by done. cbn [negb]. run Em. exact E3.
  Unshelve. done.
Qed.

(** *** The whole of [file_open] *)

Lemma mode_scratch_kept mp s s' : wrote mode_scratch s s' → mem_kept (λ b, ¬ scratch mp b) s s'.
Proof. intros Hw. apply (mem_kept_wrote _ _ _ _ Hw). intros b Hb Hm. apply Hb. by left. Qed.

Lemma ramdisk_mounted_wrote s s' mp fs img files image :
  wrote mode_scratch s s' → ramdisk_mounted s mp fs img files image → ramdisk_mounted s' mp fs img files image.
Proof.
  intros Hw [Hroot [R1 R2] (Hc & B & Gi) Hr Ho Hn Ha Hk]. pose proof (mode_scratch_kept mp s s' Hw) as K.
  pose proof Hroot as [_ _ _ _ (Hf1 & Hf2 & Hfo) _ _ _].
  assert (∀ a, fs ≤ a → a + 4 ≤ fs + 56 → get32 s' a = get32 s a) as Hg.
  { intros a ? ?. apply (mem_kept_get32 _ _ _ _ K); [by apply (owned_sub _ fs 56)|]. intros b Hb. apply Hk. lia. }
  split; try done.
  - eapply root_mounted_wrote; [exact Hw|done|exact Ha|]. intros b Hb Hs. apply (Hk b); [by left|by left].
  - by rewrite !Hg by lia.
  - split_and!; [done| |by rewrite Hg by lia]. eapply bytes_at_kept; [exact K|done|done|]. intros b Hb. apply Hk. by right.
  - by eapply wrote_owned.
Qed.

Lemma file_opened_after s s1 s' mp fs data f :
  wrote mode_scratch s s1 → file_opened s1 s' mp fs data f → file_opened s s' mp fs data f.
Proof.
  intros Hw [? ? ? ? ? Hnew K]. split; try done.
  - intros b Hb. apply Hnew. by rewrite (wrote_private _ _ _ _ Hw).
  - eapply mem_kept_trans; [by apply mode_scratch_kept|done].
Qed.

(** The mode ["r"], at [mode_address]; [lit] is the first string of [possible_modes]. *)
Record read_mode s (path mode_address : Z) : Prop := {
  rm_mode : mode_setting sfuel mode_buf s path mode_address [114];
  rm_literal : window s lit [114] ∧ apart mode_buf 3 lit 3
}.

(** It is found at once, whatever the other strings are. *)
Lemma file_open_read_mode s path mode_address :
  read_mode s path mode_address → (3 ≤ sfuel)%nat →
  ∃ s', the_file_open path mode_address s = open_with the_vfs_open READ path s' ∧ wrote mode_scratch s s'.
Proof.
  intros [Hm [Hw Ha]] Hf.
  destruct (copy_mode_ok sfuel mode_buf the_vfs_open (lit :: more) s path mode_address [114] Hm) as (s1 & E1 & Hwin & W1).
  change (mode_buf_size [114]) with 3 in W1.
  destruct (file_open_loop_step sfuel mode_buf the_vfs_open lit [114] READ (zip more (tail modes_bits)) path [114] s1)
    as (s2 & E2 & W2); [done| |done|done|].
  { unfold apart in Ha. by apply (window_wrote _ _ _ _ _ W1 Hw); lia. }
  exists s2. split.
  - rewrite E1. exact E2.
  - eapply wrote_trans; (eapply wrote_weaken; [done|]); [by left|]. unfold mode_scratch.
    intros b [->|(c & ->%list_elem_of_singleton & ->)]; [left; lia|by right].
Qed.

Lemma file_open_ok s mp fs img files image path np mode_address i name data ns :
  ramdisk_mounted s mp fs img files image → path_setting s mp path np name → read_mode s path mode_address →
  files !! i = Some (name, data) → (∀ j f, (j < i)%nat → files !! j = Some f → f.1 ≠ name) →
  (20 ≤ sfuel)%nat → (0 < lfuel)%nat →
  memory_for Q (sizeof_node :: sizeof_fs_node :: sizeof_file :: ns) s → (∀ p s1, ∃ s2, al_free p s1 = Ret tt s2) →
  ∃ s' f, the_file_open path mode_address s = Ret (fv_file f) s' ∧ fv_file f ≠ NULL ∧ file_opened s s' mp fs data f ∧
    (img ≤ fv_data f ∧ fv_data f + Z.of_nat (length data) ≤ img + Z.of_nat (length image)) ∧ memory_for Q ns s'.
Proof.
  intros Hd Hpa Hmo Hi Hfirst Hsf Hlf Hm Hfree.
  destruct (file_open_read_mode s path mode_address Hmo) as (s1 & E1 & W1); [lia|].
  destruct (open_with_ok s1 mp fs img files image path np i name data ns) as (s2 & f & E2 & Hf & Ho & Hr & M2); try done.
  - by eapply ramdisk_mounted_wrote.
  - eapply path_setting_kept; [by apply mode_scratch_kept|done].
  - by eapply memory_for_uses, wrote_uses.
  - exists s2, f. split_and!; [by rewrite E1|done|by eapply file_opened_after|apply Hr..|done].
Qed.

Lemma file_open_absent_ok s mp fs img files image path np mode_address name ns :
  ramdisk_mounted s mp fs img files image → path_setting s mp path np name → read_mode s path mode_address →
  name ∉ fst <$> files → (20 ≤ sfuel)%nat → (length name < sfuel)%nat → (0 < lfuel)%nat →
  memory_for Q (sizeof_node :: ns) s → (∀ p s1, ∃ s2, al_free p s1 = Ret tt s2) →
  ∃ s', the_file_open path mode_address s = Ret NULL s' ∧ mem_kept (λ b, ¬ scratch mp b) s s'.
Proof.
  intros Hd Hpa Hmo Hni Hsf Hnl Hlf Hm Hfree.
  destruct (file_open_read_mode s path mode_address Hmo) as (s1 & E1 & W1); [lia|].
  destruct (vfs_open_absent_ok s1 mp fs img files image path np name ns) as (s2 & E2 & K2); try done.
  - by eapply ramdisk_mounted_wrote.
  - eapply path_setting_kept; [by apply mode_scratch_kept|done].
  - by eapply memory_for_uses, wrote_uses.
  - exists s2. split; [rewrite E1; unfold open_with; by run E2|]. eapply mem_kept_trans; [by apply mode_scratch_kept|done].
Qed.

(** *** Reading and closing *)

(** Reading from the beginning. *)
Lemma file_read_start_ok s f data length buffer :
  initrd_file read_address s f 0 → fv_size f = Z.of_nat (List.length data) → bytes_at s (fv_data f) data →
  0 ≤ length < 2 ^ 32 → let n := length `min` Z.of_nat (List.length data) in
  0 < buffer → mapped s buffer n → owned s buffer n → owned s (fv_file f) 12 → (∀ b, buffer ≤ b < buffer + n → ¬ file_area f b) →
  ∃ s', @file_read S _ ops (fv_file f) buffer length s = Ret n s' ∧ initrd_file read_address s' f n ∧
    wrote (λ b, buffer ≤ b < buffer + n ∨ fv_file f + 4 ≤ b < fv_file f + 8) s s' ∧
    bytes_at s' buffer (take (Z.to_nat length) data).
Proof.
  intros Hf Hs B Hl n Hb Hm Hbo Hfo Hd.
  destruct (file_read_steps read_address sfuel open_address close_address s f 0 length buffer)
    as (s' & E & Hf' & (s1 & E1 & E2) & Hg); try done; try lia; rewrite Hs, Z.sub_0_r in *; try done.
  rewrite Z.add_0_l in *. fold n in E, Hf', E1, E2, Hg. exists s'. split_and!; [done|done| |].
  - eapply wrote_wr32; [|exact E2| |]; [|intros b Hb'; apply Hfo; lia|lia].
    eapply memcpy_wrote; [exact E1|done|lia].
  - intros k x Hk. assert (k < Z.to_nat length)%nat as Hlt by (apply lookup_lt_Some in Hk; rewrite length_take in Hk; lia).
    rewrite lookup_take_lt in Hk by done. pose proof (lookup_lt_Some _ _ _ Hk).
    rewrite Hg, decide_True by (first [lia|intros Hc; apply (Hd (buffer + Z.of_nat k)); unfold file_area; lia]).
    rewrite <-(B k x Hk). f_equal. lia.
Qed.

Lemma file_close_ok s f offset :
  initrd_file read_address s f offset → get32 s (fv_fs f + 48) = Some close_address →
  owned s (fv_file f) 12 → owned s (fv_inode f) 164 → apart (fv_file f) 12 (fv_inode f) 164 →
  (∀ p s1, ∃ s2, al_free p s1 = Ret tt s2) →
  ∃ s', @file_close S _ _ ops (fv_file f) s = Ret SUCCESS s' ∧
    mem_kept (λ b, ¬ fv_file f ≤ b < fv_file f + 12 ∧ ¬ fv_inode f ≤ b < fv_inode f + 164) s s'.
Proof.
  intros [Hof _ _ (Hf1 & Hf2 & Hf3) _ _ _] Hc Ho1 Ho2 Ha Hfree.
  destruct (file_words _ _ _ _ _ Hof) as (_ & Ri & _ & Hn & _). pose proof Hof as (? & ? & Hi1 & Hi2 & _).
  destruct (Hfree (fv_inode f) s) as [s1 E1]. destruct (Hfree (fv_file f) s1) as [s2 E2].
  assert (mem_kept (λ b, ¬ fv_inode f ≤ b < fv_inode f + 164) s s1) as K1 by (by eapply mem_kept_free).
  assert (mem_kept (λ b, ¬ fv_file f ≤ b < fv_file f + 12) s1 s2) as K2.
  { eapply mem_kept_free; [done| |done]. apply (mem_kept_owned _ _ _ _ _ K1 Ho1). unfold apart in Ha. lia. }
  exists s2. split.
  - unfold file_close. rewrite (proj2 (Z.eqb_neq _ NULL)) by done. run Ri. unfold vfs_close, fs_node_fs, fs_close.
    rewrite (u32_small (fv_inode f + 156)) by lia. rewrite bind_assoc. run (rd32_Ret _ _ _ Hf1).
    rewrite (u32_small (fv_fs f + 48)) by lia. rewrite bind_assoc. run (rd32_Ret _ _ _ Hc).
    cbn [call_close initrd_ops]. rewrite Z.eqb_refl. unfold initrd_close.
    rewrite (proj2 (Z.eqb_neq (fv_inode f) NULL)) by (unfold NULL; lia). cbn [negb]. run E1. by run E2.
  - eapply mem_kept_trans; [intros b [_ Hb]; by apply K1|intros b [Hb _]; by apply K2].
Qed.

(** *** From the path to the contents *)

(** A program that opens a file, reads from its beginning and closes it. *)
Definition read_file (path mode buffer length : Z) : M S (Z * error_code) :=
  file ← the_file_open path mode;
  n ← @file_read S _ ops file buffer length;
  e ← @file_close S _ _ ops file;
  mret (n, e).
End ramdisk.

(** ** Properties of files by path *)

Section file_properties.
Context {S : Type} `{ByteStoreLaws S, !Allocator S, !AllocatorLaws S}.
Implicit Types s : S.
Variables (sfuel lfuel : nat) (mount_points tree_nodes lit : Z) (more : list Z) (mode_buf : Z).
Variables (open_address read_address close_address : Z).

(** Everything is set up: the ramdisk, the path, the mode and the memory. *)
Record file_system_setting s (mp fs img : Z) (files : list (list Z * list Z)) (image : list Z)
    (path np mode : Z) (name : list Z) : Prop := {
  se_ramdisk : ramdisk_mounted mount_points tree_nodes lit mode_buf open_address read_address close_address s mp fs img files image;
  se_path : path_setting tree_nodes lit mode_buf s mp path np name;
  se_mode : read_mode sfuel lit mode_buf s path mode;
  se_fuel : (20 ≤ sfuel)%nat ∧ (length name < sfuel)%nat ∧ (0 < lfuel)%nat;
  se_memory : memory_for (λ _, True) [sizeof_node; sizeof_fs_node; sizeof_file] s ∧ ∀ p s1, ∃ s2, al_free p s1 = Ret tt s2
}.

Abbreviation the_file_open := (file_open sfuel (lit :: more) mode_buf
  (@vfs_open S _ _ (initrd_ops sfuel open_address read_address close_address) mount_points true sfuel lfuel tree_nodes)).


End file_properties.

(** ** Witnesses *)

(** The ramdisk's image at 0x1000, its file system at 0x40, mounted on the root
    at 0x100; the variable [mount_points] at 0x20, the local list at 0x28, the
    strings [r] and [rb] at 0x30, one right after the other, the path [/bc] at
    0x80, the copy of the mode at 0x90, a buffer at 0x300. *)
Definition example_disk : arena :=
  Arena (CArray 0x3000 (put_bytes 0x1000 example_image
    (put_bytes 0x20 [0; 1; 0; 0] (put_bytes 0x30 [114; 0; 114; 98; 0] (put_bytes 0x80 [47; 98; 99; 0]
    (put_bytes 0x5c [0; 0x10; 0; 0] (put_bytes 0x64 [1; 0; 0; 0] (put_bytes 0x6c [2; 0; 0; 0; 3; 0; 0; 0]
    (put_bytes 0x22c [0x40; 0; 0; 0] ∅))))))))) 0x2000.

Lemma example_disk_mapped a n : 0 ≤ a → a + n ≤ 0x3000 → mapped example_disk a n.
Proof. intros ? ? b Hb. unfold get8, arena_store, carray_store. cbn [ar_mem asize adata get8 example_disk]. rewrite decide_True by lia. eauto. Qed.

Lemma example_disk_owned a n : a + n ≤ 0x2000 → owned example_disk a n.
Proof. intros ? b Hb. change (¬ 0x2000 ≤ b). lia. Qed.

Lemma example_disk_words :
  get32 example_disk 0x20 = Some 0x100 ∧ get32 example_disk 0x22c = Some 0x40 ∧
  get32 example_disk 0x230 = Some NULL ∧ get32 example_disk 0x234 = Some NULL ∧
  get32 example_disk 0x5c = Some 0x1000 ∧ get32 example_disk 0x64 = Some 1 ∧ get32 example_disk 0x6c = Some 2 ∧
  get32 example_disk 0x70 = Some 3.
Proof. split_and!; vm_compute; reflexivity. Qed.

Lemma example_disk_strings :
  cstr example_disk 0x81 [98; 99] ∧ get8 example_disk 0x80 = Some 47 ∧ cstr example_disk 0x30 [114].
Proof. unfold cstr. repeat split; vm_compute; (reflexivity || discriminate). Qed.

Lemma example_disk_root : root_mounted example_disk 0x20 0x28 0x100 0x40 2.
Proof.
  destruct example_disk_words as (G1 & G2 & G3 & G4 & G5 & G6 & G7 & G8). split; cbv beta.
  - exact (conj G1 (example_disk_owned 0x20 4 ltac:(lia))).
  - split_and!; [lia|lia|apply example_disk_owned; lia].
  - exact (conj G3 G4).
  - exact (conj G2 G7).
  - split_and!; [lia|lia|apply example_disk_owned; lia].
  - split_and!; [lia|lia|apply example_disk_mapped; lia|apply example_disk_owned; lia].
  - unfold apart. lia.
  - unfold apart. lia.
Qed.

Lemma example_disk_mounted :
  ramdisk_mounted 0x20 0x28 0x30 0x90 2 1 3 example_disk 0x100 0x40 0x1000 example_files example_image.
Proof.
  destruct example_disk_words as (G1 & G2 & G3 & G4 & G5 & G6 & G7 & G8).
  assert (Z.of_nat (length example_image) = 4096) as Hl by (vm_compute; reflexivity).
  split; rewrite ?Hl; unfold scratch, mode_scratch, open_kept.
  - exact example_disk_root.
  - exact (conj G6 G8).
  - split_and!; [vm_compute; reflexivity| |exact G5]. apply arena_bytes_at; [exact example_image_bytes|lia|rewrite Hl; lia].
  - lia.
  - apply example_disk_owned. lia.
  - repeat constructor; discriminate.
  - lia.
  - lia.
Qed.

Lemma example_read_mode : read_mode 20 0x30 0x90 example_disk 0x80 0x30.
Proof.
  destruct example_disk_strings as (_ & _ & Hr). split.
  - split; unfold apart; change (mode_buf_size [114]) with 3; simpl length.
    + discriminate.
    + split_and!; [done|lia|unfold INT_MAX; lia].
    + lia.
    + split; [apply example_disk_mapped; lia|apply example_disk_owned; lia].
    + lia.
  - split; [|unfold apart; lia]. split; [lia|by repeat constructor| |].
    + intros [|[|k]] x Hk; [..|lia]; intros [= <-]; vm_compute; reflexivity.
    + split; [apply (example_disk_mapped 0x30 3); lia|]. apply (example_disk_owned 0x30 3); lia.
Qed.

Lemma example_disk_setting :
  file_system_setting 20 1 0x20 0x28 0x30 0x90 2 1 3 example_disk 0x100 0x40 0x1000 example_files example_image
    0x80 0x81 0x30 [98; 99].
Proof.
  destruct example_disk_strings as (Hp & Hs & _). split.
  - exact example_disk_mounted.
  - split; [exact (conj eq_refl (conj (or_introl (conj Hs eq_refl)) Hp))|]. unfold path_bytes, scratch, mode_scratch, open_kept. simpl length. intros b Hb.
    split; [change (¬ 0x2000 ≤ b); lia|lia].
  - exact example_read_mode.
  - simpl. lia.
  - split; [|intros p s1; by eexists]. apply arena_memory_for; [done|by repeat constructor|reflexivity|discriminate|reflexivity].
Qed.



(** The fifteen strings, each in four bytes from 0x400 on; the mode [rb+] at
    0x100 and the copy of a mode at 0x200; memory to allocate from 0x800 on. *)
Definition example_modes : list Z := (λ i, 0x400 + 4 * Z.of_nat i) <$> seq 0 15.

Definition example_strings_spread : arena :=
  Arena (CArray 0x1000
    (put_bytes 0x400 (concat ((λ m, m ++ replicate (4 - length m) 0) <$> possible_mode_strings))
      (put_bytes 0x100 [114; 98; 43; 0] ∅))) 0x800.

Lemma example_spread_mapped a n : 0 ≤ a → a + n ≤ 0x1000 → mapped example_strings_spread a n.
Proof. intros ? ? b Hb. unfold get8, arena_store, carray_store. cbn [ar_mem asize adata get8 example_strings_spread]. rewrite decide_True by lia. eauto. Qed.

Lemma example_spread_owned a n : a + n ≤ 0x800 → owned example_strings_spread a n.
Proof. intros ? b Hb. change (¬ 0x800 ≤ b). lia. Qed.

Lemma example_modes_at : modes_at example_strings_spread 0x200 4 example_modes.
Proof.
  split.
  - split; [reflexivity|]. intros i a m Ha Hm.
    assert (Forall (λ x, 0 < x < 256) m) as Hn.
    { assert (Forall (Forall (λ x, 0 < x < 256)) possible_mode_strings) as HF by (repeat constructor).
      rewrite Forall_forall in HF. apply HF. by eapply list_elem_of_lookup_2. }
    assert (i < 15)%nat as Hi by (by apply lookup_lt_Some in Hm).
    apply list_lookup_fmap_Some in Ha as (j & -> & Hj). apply lookup_seq in Hj as [-> _].
    split; [lia|done| |].
    + intros k x Hk Hx. do 15 (destruct i as [|i]; [injection Hm as <-; destruct k as [|[|k]]; [..|lia];
        injection Hx as <-; vm_compute; reflexivity|]). lia.
    + split; [apply (example_spread_mapped (0x400 + 4 * Z.of_nat (0 + i)) 3); lia|].
      apply (example_spread_owned (0x400 + 4 * Z.of_nat (0 + i)) 3); lia.
  - unfold apart. repeat constructor; lia.
  - unfold apart. repeat constructor; lia.
Qed.


(** *** What becomes of the modes *)

(** [rb+] and [wb+] are taken for [rb] and [wb]: a file cannot be opened for
    update that way. *)
Lemma binary_update_modes :
  filter (λ e, bits_of_mode mode_table e.1 ≠ Some e.2) mode_table
  = [([114; 98; 43], Z.lor READ WRITE);
     ([119; 98; 43], Z.lor (Z.lor (Z.lor TRUNCATE_TO_ZERO CREATE_FILE) READ) WRITE)].
Proof. vm_compute. reflexivity. Qed.

(** The strings one right after the other, as a compiler may place them, and the mode [rb]. *)
Definition packed_strings : arena :=
  Arena (CArray 0x1000 (put_bytes 0x400 (concat ((λ m, m ++ [0]) <$> possible_mode_strings))
      (put_bytes 0x100 [114; 98; 0] ∅))) 0x800.
Definition packed_modes : list Z :=
  (λ i, 0x400 + Z.of_nat (length (concat ((λ m, m ++ [0]) <$> take i possible_mode_strings)))) <$> seq 0 15.

(** Comparing with [r] then destroys [rb], and the file is opened with the bits
    of [rb+]. *)
Lemma packed_rb_opens_for_update :
  match file_open 9 packed_modes 0x200 (λ _, mret 0x50) 0x80 0x100 packed_strings with
  | Ret file s' => get32 s' file
  | _ => None
  end = Some (Z.lor READ WRITE).
Proof. vm_compute. reflexivity. Qed.
