(* ===== verification/Stream.v ===== *)
(** * Files of the ramdisk as streams

    What [file_read] and [file_seek] promise together: an open file is the
    bytes of the file and a position in it.  The operations refine this
    specification; what was read is looked at in the buffer afterwards. *)

From S2P Require Import Prelude Refine Memory Chain CString Bitmap Phys Paging Kheap Kmalloc KList Initrd InitrdGen Vfs File OpenFile.

Record stream := Stream { contents : list Z; position : Z }.

Inductive stream_op := Read (n : Z) | Seek (jmp : Z) (t : seek_type).
Inductive stream_out := Bytes (xs : list Z) | Sought (r : option error_code).

Definition stream_size (a : stream) : Z := Z.of_nat (length (contents a)).

(** Reading stops at the end of the file and gives nothing behind it.  There,
    where the end of what is asked for would wrap, nothing is promised. *)
Definition stream_spec (capacity : Z) (a : stream) (o : stream_op) : option (stream_out * stream) :=
  match o with
  | Read n =>
      if decide (0 ≤ n ≤ capacity ∧ (position a ≤ stream_size a ∨ position a + n < 2 ^ 32)) then
        let xs := take (Z.to_nat n) (drop (Z.to_nat (position a)) (contents a)) in
        Some (Bytes xs, Stream (contents a) (position a + Z.of_nat (length xs)))
      else None
  | Seek jmp t =>
      if decide (- 2 ^ 31 ≤ jmp < 2 ^ 31) then
        match seek_target (stream_size a) (position a) jmp t with
        | Some v => Some (Sought None, Stream (contents a) v)
        | None => Some (Sought (Some INVALID_ARGUMENT), a)
        end
      else None
  end.

Section stream_c.
Context {S : Type} `{ByteStore S, Allocator S, FsOps S}.

Definition run_stream (file buffer : Z) (o : stream_op) : M S stream_out :=
  match o with
  | Read n =>
      k ← file_read file buffer n;
      xs ← read_back (Z.to_nat k) buffer;
      mret (Bytes xs)
  | Seek jmp t => r ← file_seek file jmp t; mret (Sought r)
  end.
End stream_c.

Section stream_refinement.
Context {S : Type} `{ByteStoreLaws S, !Allocator S, !AllocatorLaws S}.
Implicit Types s : S.
Variable sfuel : nat.
Variables open_address read_address close_address : Z.
Variable f : file_view.
Variables buffer capacity : Z.

#[local] Instance stream_ops : FsOps S := initrd_ops sfuel open_address read_address close_address.

(** The bytes that the operations write to. *)
Definition stream_bytes (b : Z) : Prop := fv_file f + 4 ≤ b < fv_file f + 8 ∨ buffer ≤ b < buffer + capacity.

Lemma set_position_wrote s offset v : initrd_file read_address s f offset → owned s (fv_file f) 12 → 0 ≤ v < 2 ^ 32 →
  ∃ s', wr32 (file_offset (fv_file f)) v s = Ret tt s' ∧ initrd_file read_address s' f v ∧ wrote stream_bytes s s'.
Proof.
  intros Hf Ho Hv. destruct (set_position_ok read_address s f offset v Hf Hv) as (s' & E & Hf' & _). exists s'. split_and!; [done..|].
  pose proof Hf as [(? & ? & _) _ _ _ _ _ _]. unfold file_offset in E. rewrite u32_small in E by lia.
  eapply wr32_wrote; [done|by apply (owned_sub _ (fv_file f) 12); [|lia..]|]. intros b Hb. left. lia.
Qed.

(** Behind the end of the file nothing is read. *)
Lemma file_read_beyond s offset n : initrd_file read_address s f offset → owned s (fv_file f) 12 →
  fv_size f < offset → 0 ≤ n → offset + n < 2 ^ 32 → 0 < buffer →
  ∃ s', file_read (fv_file f) buffer n s = Ret 0 s' ∧ initrd_file read_address s' f offset ∧ wrote stream_bytes s s'.
Proof.
  intros Hf Hown Ho Hn Hr Hb. pose proof Hf as [Hof Hsz _ (Hf1 & Hf2 & Hf3) Hrd _ _].
  destruct (file_words _ _ _ _ _ Hof) as (Ro & Ri & Rs & Hfn & Hor & _). pose proof Hof as (? & ? & ? & ? & _).
  destruct (set_position_wrote s offset (u32 (offset + 0)) Hf Hown) as (s' & E & Hf' & Hs); [apply u32_range|].
  exists s'. rewrite Z.add_0_r, u32_small in Hf' by lia. split; [|done].
  unfold file_read. rewrite (proj2 (Z.eqb_neq buffer NULL)), (proj2 (Z.eqb_neq (fv_file f) NULL)) by (unfold NULL in *; lia).
  cbn [orb]. run Ri. run Rs. run Ro. unfold vfs_read.
  assert (u32 (fv_size f - offset) = fv_size f - offset + 2 ^ 32) as -> by (unfold u32; rewrite <-(Z_mod_plus _ 1), Z.mod_small; lia).
  rewrite Z.gtb_ltb, (proj2 (Z.ltb_ge _ n)) by lia.
  rewrite (proj2 (Z.eqb_neq (fv_inode f) NULL)) by (unfold NULL; lia). unfold fs_node_fs, fs_read.
  rewrite (u32_small (fv_inode f + 156)) by lia. rewrite bind_assoc. run (rd32_Ret _ _ _ Hf1).
  rewrite (u32_small (fv_fs f + 36)) by lia. rewrite bind_assoc. run (rd32_Ret _ _ _ Hrd).
  assert (call_read read_address (fv_inode f) offset n buffer s = Ret 0 s) as R1.
  { cbn [call_read stream_ops initrd_ops]. rewrite Z.eqb_refl. unfold initrd_read.
    rewrite (proj2 (Z.eqb_neq (fv_inode f) NULL)), (proj2 (Z.eqb_neq buffer NULL)), (proj2 (Z.ltb_ge offset 0)) by (unfold NULL; lia).
    cbn [orb]. rewrite orb_false_r. destruct (Z.leb_spec n 0); [done|]. run Rs.
    by rewrite (u32_small (offset + n)), (proj2 (Z.ltb_lt (fv_size f) _)) by lia. }
  run R1. run Ro. by run E.
Qed.

(** The open file [f] is the stream [a], and there is a buffer for its bytes. *)
Record streams (a : stream) s : Prop := {
  st_file : initrd_file read_address s f (position a);
  st_size : stream_size a = fv_size f;
  st_contents : ∀ (k : nat) x, contents a !! k = Some x → get8 s (fv_data f + Z.of_nat k) = Some x;
  st_buffer : 0 < buffer ∧ mapped s buffer capacity;
  st_apart : ∀ b, buffer ≤ b < buffer + capacity → ¬ file_area f b;
  st_owned : owned s (fv_file f) 12 ∧ owned s buffer capacity
}.

Lemma streams_moved a s s' v : streams a s → initrd_file read_address s' f v → wrote stream_bytes s s' →
  streams (Stream (contents a) v) s'.
Proof.
  intros [Hf Hsz Hc [Hb Hm] Ha [Ho1 Ho2]] Hf' Hw. split; try done.
  - intros k x Hx. pose proof (lookup_lt_Some _ _ _ Hx). unfold stream_size in Hsz.
    rewrite (wrote_same _ _ _ _ Hw); [by apply Hc|]. intros [Hin|Hin].
    + destruct (rf_apart _ _ _ _ Hf' _ Hin) as (_ & _ & Hn). cbn in *. lia.
    + apply (Ha _ Hin). unfold file_area. cbn in *. lia.
  - split; [done|by eapply wrote_mapped].
  - split; by eapply wrote_owned.
Qed.

(** Reading inside the file. *)
Lemma read_inside a s n : streams a s → 0 ≤ n ≤ capacity → capacity < 2 ^ 32 → position a ≤ stream_size a →
  let xs := take (Z.to_nat n) (drop (Z.to_nat (position a)) (contents a)) in
  ∃ s', file_read (fv_file f) buffer n s = Ret (Z.of_nat (length xs)) s' ∧ read_back (length xs) buffer s' = Ret xs s' ∧
    initrd_file read_address s' f (position a + Z.of_nat (length xs)) ∧ wrote stream_bytes s s'.
Proof.
  intros [Hf Hsz Hc [Hb Hm] Ha [Ho1 Ho2]] Hn Hcap Hin xs.
  destruct (file_words _ _ _ _ _ (rf_open _ _ _ _ Hf)) as (_ & _ & _ & _ & Hp & _).
  assert (Z.of_nat (length xs) = n `min` (stream_size a - position a)) as Hl.
  { unfold xs, stream_size in *. rewrite length_take, length_drop. lia. }
  destruct (file_read_steps read_address sfuel open_address close_address s f (position a) n buffer)
    as (s' & E & Hf' & (s1 & E1 & E2) & Hg); [done|lia|lia|done|intros b Hb'; apply Hm; lia|intros b Hb'; apply Ha; lia|].
  rewrite <-Hsz, <-Hl in *. exists s'. split_and!; [done| |done|].
  - apply read_back_ok. intros k x Hx. pose proof (lookup_lt_Some _ _ _ Hx). unfold xs in Hx.
    apply lookup_take_Some in Hx as [Hx Hk]. rewrite lookup_drop in Hx. rewrite Hg, decide_True; [|lia|].
    + rewrite <-(Hc _ _ Hx). f_equal. lia.
    + intros Hin'. apply (Ha (buffer + Z.of_nat k)); [lia|]. unfold file_area. lia.
  - assert (wrote stream_bytes s s1) as W1.
    { eapply memcpy_wrote; [done|apply (owned_sub _ buffer capacity); [done|lia..]|]. intros b Hb'. right. lia. }
    eapply wrote_wr32; [done|done| |intros b Hb'; left; lia]. apply (owned_sub _ (fv_file f) 12); [done|lia..].
Qed.

Lemma read_refines a s n : streams a s → 0 ≤ n ≤ capacity → capacity < 2 ^ 32 → position a ≤ stream_size a ∨ position a + n < 2 ^ 32 →
  let xs := take (Z.to_nat n) (drop (Z.to_nat (position a)) (contents a)) in
  ∃ s', run_stream (fv_file f) buffer (Read n) s = Ret (Bytes xs) s' ∧
    streams (Stream (contents a) (position a + Z.of_nat (length xs))) s' ∧ wrote stream_bytes s s'.
Proof.
  intros Hst Hn Hcap Hpos xs. destruct (Z.le_gt_cases (position a) (stream_size a)) as [Hin|Hout].
  - destruct (read_inside a s n Hst Hn Hcap Hin) as (s' & E & Eb & Hf' & W). exists s'.
    split; [|split; [by eapply streams_moved|done]]. unfold run_stream. run E. rewrite Nat2Z.id. by run Eb.
  - pose proof Hst as [Hf Hsz _ [Hb _] _ [Ho _]]. assert (xs = []) as ->.
    { unfold xs, stream_size in *. rewrite drop_ge by lia. apply take_nil. }
    cbn [length]. rewrite Z.add_0_r. destruct (file_read_beyond s (position a) n Hf Ho) as (s' & E & Hf' & W); [lia..|].
    exists s'. split; [unfold run_stream; by run E|]. split; [by eapply streams_moved|done].
Qed.

Lemma seek_refines a s jmp t : streams a s → - 2 ^ 31 ≤ jmp < 2 ^ 31 →
  match seek_target (stream_size a) (position a) jmp t with
  | Some v => ∃ s', file_seek (fv_file f) jmp t s = Ret None s' ∧ streams (Stream (contents a) v) s' ∧ wrote stream_bytes s s'
  | None => file_seek (fv_file f) jmp t s = Ret (Some INVALID_ARGUMENT) s
  end.
Proof.
  intros Hst Hj. pose proof Hst as [Hf Hsz _ _ _ [Ho _]]. rewrite (file_seek_eq _ _ _ _ _ _ _ (rf_open _ _ _ _ Hf) Hj), <-Hsz.
  destruct (seek_target (stream_size a) (position a) jmp t) as [v|] eqn:Et; [|done].
  destruct (set_position_wrote s (position a) v Hf Ho) as (s' & E & Hf' & W).
  { pose proof (rf_size _ _ _ _ Hf). destruct t; cbn in Et; repeat case_decide; simplify_eq; try apply u32_range. lia. }
  exists s'. split; [by run E|]. split; [by eapply streams_moved|done].
Qed.

(** Since the client began at [s0], only the buffer and the position have changed. *)
Definition streams_from s0 a s : Prop := streams a s ∧ wrote stream_bytes s0 s.

#[export] Instance stream_refines s0 : capacity < 2 ^ 32 →
  Refines (run_stream (fv_file f) buffer) (stream_spec capacity) (streams_from s0).
Proof.
  intros Hcap a s [n|jmp t] out a' [Hst W0] E; cbn [stream_spec] in E; case_decide as Hc; try done.
  - injection E as <- <-. destruct Hc as [Hn Hp]. destruct (read_refines a s n Hst Hn Hcap Hp) as (s' & E & Hst' & W).
    exists s'. split; [done|]. split; [done|by eapply wrote_trans].
  - unfold run_stream. pose proof (seek_refines a s jmp t Hst Hc) as Hs.
    destruct (seek_target _ _ _ _) as [v|]; injection E as <- <-.
    + destruct Hs as (s' & E' & Hs' & W). exists s'. split; [by run E'|]. split; [done|by eapply wrote_trans].
    + exists s. split; [by run Hs|done].
Qed.

Lemma stream_client_ok c a s outs a' : streams a s → capacity < 2 ^ 32 →
  spec_client (stream_spec capacity) c a = Some (outs, a') →
  ∃ s', run_client (run_stream (fv_file f) buffer) c s = Ret outs s' ∧ streams a' s' ∧ wrote stream_bytes s s'.
Proof.
  intros Hst Hcap E. eapply (client_refines _ _ (streams_from s) (Refines0 := stream_refines s Hcap)); [|exact E].
  split; [done|apply rtc_refl].
Qed.
End stream_refinement.

(** ** Properties *)

(** C24. An open file of the ramdisk is a stream.  Whatever a client does with it -
    reading into its buffer, moving the position, each step depending on what
    it has read so far - it reads the bytes and gets the answers that the file's
    contents and a position say, and nothing but the buffer and the position
    changes.  In particular reading never goes beyond the file, even from
    positions behind its end. *)
Theorem file_is_stream {S : Type} `{ByteStoreLaws S, !Allocator S, !AllocatorLaws S} sfuel open_address read_address close_address
    f buffer capacity a (s : S) c outs a' :
  streams read_address f buffer capacity a s → capacity < 2 ^ 32 →
  spec_client (stream_spec capacity) c a = Some (outs, a') →
  ∃ s', run_client (run_stream (H1 := initrd_ops sfuel open_address read_address close_address) (fv_file f) buffer) c s = Ret outs s' ∧
    streams read_address f buffer capacity a' s' ∧
    ∀ b, ¬ (fv_file f + 4 ≤ b < fv_file f + 8) → ¬ (buffer ≤ b < buffer + capacity) → get8 s' b = get8 s b.
Proof.
  intros Hst Hcap E.
  destruct (stream_client_ok sfuel open_address read_address close_address f buffer capacity c a s outs a' Hst Hcap E) as (s' & E' & Hst' & W).
  exists s'. split_and!; [done..|]. intros b Hb1 Hb2. eapply wrote_same; [done|]. by intros [?|?].
Qed.

(** A program that opens a file by its path, works with it and closes it. *)
Section session.
Context {S : Type} `{ByteStoreLaws S, !Allocator S, !AllocatorLaws S}.
Implicit Types s : S.
Variables (sfuel lfuel : nat) (mount_points tree_nodes lit : Z) (more : list Z) (mode_buf : Z).
Variables (open_address read_address close_address : Z).

#[local] Instance session_ops : FsOps S := initrd_ops sfuel open_address read_address close_address.

Definition file_session (path mode buffer : Z) (c : client stream_op stream_out) : M S (list stream_out * error_code) :=
  file ← file_open sfuel (lit :: more) mode_buf (vfs_open mount_points true sfuel lfuel tree_nodes) path mode;
  outs ← run_client (run_stream file buffer) c;
  e ← file_close file;
  mret (outs, e).

End session.

(** ** Witnesses *)

(** Reads on until nothing comes, at most [n] times. *)
Fixpoint read_all (n : nat) : client stream_op stream_out :=
  match n with
  | O => Done
  | Datatypes.S n' => Do (Read 2) (λ out, match out with Bytes (_ :: _) => read_all n' | _ => Done end)
  end.

(** Two refused moves, a move to the second byte, and the rest of the file. *)
Definition example_reader : client stream_op stream_out :=
  Do (Seek 3 SEEK_END) (λ _, Do (Seek (-2) SEEK_CUR) (λ _, Do (Seek 1 SEEK_SET) (λ _, read_all 9))).

(** The word hello from its second byte on. *)
Lemma example_streams : streams 7 example_view 0x400 0x100 (Stream [104; 101; 108; 108; 111] 1) example_file.
Proof.
  split.
  - exact example_initrd_file.
  - reflexivity.
  - intros k x Hk. do 5 (destruct k as [|k]; [injection Hk as <-; vm_compute; reflexivity|]). discriminate.
  - split; [lia|]. apply example_file_mapped; simpl; lia.
  - unfold file_area. simpl. lia.
  - split; intros b Hb; change (¬ 0x800 ≤ b); simpl in Hb; lia.
Qed.

Lemma file_is_stream_witness :
  ∃ s', run_client (run_stream (H1 := initrd_ops 9 6 7 8) 0x40 0x400) example_reader example_file
    = Ret [Sought (Some INVALID_ARGUMENT); Sought (Some INVALID_ARGUMENT); Sought None; Bytes [101; 108]; Bytes [108; 111]; Bytes []] s' ∧
    streams 7 example_view 0x400 0x100 (Stream [104; 101; 108; 108; 111] 5) s'.
Proof.
  edestruct (file_is_stream 9 6 7 8 example_view 0x400 0x100 (Stream [104; 101; 108; 108; 111] 1) example_file example_reader) as (s' & E & Hst & _).
  - exact example_streams.
  - lia.
  - vm_compute. reflexivity.
  - exists s'. split; [exact E|exact Hst].
Defined.

