(* ===== verification/Gdt.v ===== *)
(** * Segment descriptors: [kernel/gdt.c] and [kernel/multitask/userspace_manager.c]

    The global descriptor table has six entries.  An entry is kept field by
    field, each at its width, as in [struct gdt_entry]; [descriptor_base],
    [descriptor_limit] and the other [descriptor_] functions read it the way
    the processor does.  The [lgdt], [ltr] and segment register instructions
    act on registers that are not modelled, but for the table's address. *)

From S2P Require Import Prelude.

Record gdt_entry := GdtEntry {
  limit_low : Z;
  base_low : Z;
  base_middle : Z;
  access : Z;
  granularity : Z;
  base_high : Z
}.

Definition zero_gdt_entry : gdt_entry := GdtEntry 0 0 0 0 0 0.

Definition GDT__ON_BIT : Z := Z.shiftl 1 4.
Definition GDT__PRESENT : Z := Z.lor (Z.shiftl 1 7) GDT__ON_BIT.
Definition GDT__RING3 : Z := Z.lor (Z.shiftl 3 5) GDT__ON_BIT.
Definition GDT__RING0 : Z := Z.lor 0 GDT__ON_BIT.
Definition GDT__EXECUTABLE : Z := Z.lor (Z.shiftl 1 3) GDT__ON_BIT.
Definition GDT__READABLE_WRITEABLE : Z := Z.lor (Z.shiftl 1 1) GDT__ON_BIT.

Record gdt_ptr := GdtPtr { gp_limit : Z; gp_base : Z }.

(** [struct tss_struct], the fields the code writes. *)
Record tss_struct := TssStruct { esp0 : Z; ss0 : Z }.
Definition sizeof_tss_struct : Z := 25 * 4 + 2 * 2.

Record gdt_state := GdtState { gdt : list gdt_entry; gp : gdt_ptr; task_state : tss_struct }.

Definition set_entry (num : Z) (e : gdt_entry) : M gdt_state unit := λ s,
  if decide (0 ≤ num < Z.of_nat (length (gdt s)))
  then Ret tt (GdtState (<[Z.to_nat num := e]> (gdt s)) (gp s) (task_state s)) else Fault.

(** The field assignments of [set_gdt_gate] and [early_set_gdt_gate]. *)
Definition make_gate (base limit access gran : Z) : gdt_entry :=
  GdtEntry (Z.land limit 0xFFFF) (Z.land base 0xFFFF) (Z.land (Z.shiftr base 16) 0xFF) access
    (Z.lor (Z.land (Z.shiftr limit 16) 0x0F) (Z.land gran 0xF0))
    (Z.land (Z.shiftr base 24) 0xFF).

Definition early_set_gdt_gate (num base limit access gran : Z) : M gdt_state unit :=
  set_entry num (make_gate base limit access gran).

Definition set_gdt_gate (num base limit access gran : Z) : M gdt_state unit :=
  set_entry num (make_gate base limit access gran).

Section gdt_c.
(** The addresses of [early_gdt] and of [task_state]. *)
Variable early_gdt task_state_address : Z.

Definition load_gdt : M gdt_state unit :=
  mmodify (λ s, GdtState (gdt s) (GdtPtr (u16 (8 * 6 - 1)) (u32 early_gdt)) (task_state s)) ;;
  early_set_gdt_gate 0 0 0 0 0 ;;
  early_set_gdt_gate 1 0 0xFFFFFFFF
    (Z.lor (Z.lor (Z.lor GDT__PRESENT GDT__RING0) GDT__READABLE_WRITEABLE) GDT__EXECUTABLE) 0xCF ;;
  early_set_gdt_gate 2 0 0xFFFFFFFF
    (Z.lor (Z.lor GDT__PRESENT GDT__RING0) GDT__READABLE_WRITEABLE) 0xCF.

Definition remap_gdt : M gdt_state unit :=
  mmodify (λ s, GdtState (gdt s)
    (GdtPtr (gp_limit (gp s)) (u32 (gp_base (gp s) + KERNEL_VIRTUAL_OFFSET))) (task_state s)).

(** [kernel/multitask/userspace_manager.c] *)
Definition TSS_SEGMENT_ENTRY : Z := 0x5.
Definition RING3_DATA_SEGMENT_ENTRY : Z := 0x4.
Definition RING3_CODE_SEGMENT_ENTRY : Z := 0x3.

Definition load_task_state_segment : M gdt_state unit :=
  set_gdt_gate TSS_SEGMENT_ENTRY (u32 task_state_address)
    (u32 (u32 task_state_address + sizeof_tss_struct - 1)) 0xe9 0x00 ;;
  mmodify (λ s, GdtState (gdt s) (gp s) (TssStruct (esp0 (task_state s)) 0x10)).

Definition load_ring3_segments : M gdt_state unit :=
  set_gdt_gate RING3_CODE_SEGMENT_ENTRY 0 0xFFFFFFFF
    (Z.lor (Z.lor (Z.lor GDT__PRESENT GDT__RING3) GDT__READABLE_WRITEABLE) GDT__EXECUTABLE) 0xCF ;;
  set_gdt_gate RING3_DATA_SEGMENT_ENTRY 0 0xFFFFFFFF
    (Z.lor (Z.lor GDT__PRESENT GDT__RING3) GDT__READABLE_WRITEABLE) 0xCF ;;
  load_task_state_segment.

Definition userspace_init : M gdt_state unit := load_ring3_segments.

Definition set_kernel_stack (address : Z) : M gdt_state unit :=
  mmodify (λ s, GdtState (gdt s) (gp s) (TssStruct (u32 address) (ss0 (task_state s)))).
End gdt_c.

(** ** The processor's reading of a descriptor *)

Definition descriptor_base (e : gdt_entry) : Z :=
  base_low e + base_middle e * 2 ^ 16 + base_high e * 2 ^ 24.

(** The 20-bit limit field. *)
Definition descriptor_limit (e : gdt_entry) : Z :=
  limit_low e + (granularity e mod 16) * 2 ^ 16.

(** The last valid offset: the limit counts pages if the granularity bit is set. *)
Definition descriptor_last_offset (e : gdt_entry) : Z :=
  if Z.testbit (granularity e) 7 then descriptor_limit e * 4096 + 4095 else descriptor_limit e.

Definition descriptor_present (e : gdt_entry) : bool := Z.testbit (access e) 7.
Definition descriptor_ring (e : gdt_entry) : Z := Z.land (Z.shiftr (access e) 5) 3.
Definition descriptor_executable (e : gdt_entry) : bool :=
  Z.testbit (access e) 4 && Z.testbit (access e) 3.
Definition descriptor_writable_data (e : gdt_entry) : bool :=
  Z.testbit (access e) 4 && negb (Z.testbit (access e) 3) && Z.testbit (access e) 1.

Lemma land_low v k : 0 ≤ k → Z.land v (Z.ones k) = v mod 2 ^ k.
Proof. apply Z.land_ones. Qed.

Lemma make_gate_base base limit a gran :
  0 ≤ base < 2 ^ 32 → descriptor_base (make_gate base limit a gran) = base.
Proof.
  intros Hb. unfold descriptor_base. cbn [make_gate base_low base_middle base_high].
  change 0xFFFF with (Z.ones 16). change 0xFF with (Z.ones 8).
  rewrite !Z.land_ones, !Z.shiftr_div_pow2 by lia. dlia.
Qed.

Lemma granularity_field limit gran :
  let g := Z.lor (Z.land (Z.shiftr limit 16) 0x0F) (Z.land gran 0xF0) in
  g mod 16 = (limit / 2 ^ 16) mod 16 ∧ ∀ k, 4 ≤ k < 8 → Z.testbit g k = Z.testbit gran k.
Proof.
  assert (0x0F = Z.ones 4) as -> by reflexivity. split.
  - rewrite <-(Z.land_ones _ 4), Z.land_lor_distr_l by lia.
    rewrite <-Z.land_assoc, Z.land_diag, <-Z.land_assoc.
    change (Z.land 0xF0 (Z.ones 4)) with 0. rewrite Z.land_0_r, Z.lor_0_r.
    by rewrite Z.land_ones, Z.shiftr_div_pow2 by lia.
  - intros k Hk. rewrite Z.lor_spec, !Z.land_spec, Z.ones_spec_high, andb_false_r by lia. cbn [orb].
    change 0xF0 with (Z.shiftl (Z.ones 4) 4). rewrite Z.shiftl_spec, Z.ones_spec_low by lia.
    by rewrite andb_true_r.
Qed.

Lemma make_gate_limit base limit a gran :
  0 ≤ limit < 2 ^ 32 → descriptor_limit (make_gate base limit a gran) = limit mod 2 ^ 20.
Proof.
  intros Hl. unfold descriptor_limit. cbn [make_gate limit_low granularity].
  rewrite (proj1 (granularity_field limit gran)).
  change 0xFFFF with (Z.ones 16). rewrite Z.land_ones by lia. dlia.
Qed.

Lemma set_entry_Ret num e s :
  0 ≤ num < Z.of_nat (length (gdt s)) →
  set_entry num e s = Ret tt (GdtState (<[Z.to_nat num := e]> (gdt s)) (gp s) (task_state s)).
Proof. intros Hn. unfold set_entry. by rewrite decide_True. Qed.

(** ** Properties *)

(** Encoding and decoding a descriptor: whatever base, limit, access byte
    and flags are given for an entry of the table, the processor reads back
    that base, the limit's low 20 bits, that access byte and those flags; no
    other entry changes, and a number beyond the table is not written. *)
Theorem set_gdt_gate_roundtrip s num base limit a gran :
  length (gdt s) = 6%nat → 0 ≤ base < 2 ^ 32 → 0 ≤ limit < 2 ^ 32 → 0 ≤ num →
  if decide (num < 6)
  then ∃ s' e, set_gdt_gate num base limit a gran s = Ret tt s' ∧
         gdt s' !! Z.to_nat num = Some e ∧
         descriptor_base e = base ∧ descriptor_limit e = limit mod 2 ^ 20 ∧ access e = a ∧
         (∀ k, 4 ≤ k < 8 → Z.testbit (granularity e) k = Z.testbit gran k) ∧
         (∀ j, j ≠ Z.to_nat num → gdt s' !! j = gdt s !! j) ∧ length (gdt s') = 6%nat
  else set_gdt_gate num base limit a gran s = Fault.
Proof.
  intros Hlen Hb Hl Hn. unfold set_gdt_gate. case_decide as Hnum.
  - rewrite set_entry_Ret by lia. eexists _, (make_gate base limit a gran). split; [reflexivity|].
    split_and!.
    + apply list_lookup_insert_eq. lia.
    + by apply make_gate_base.
    + by apply make_gate_limit.
    + done.
    + apply granularity_field.
    + intros j Hj. by apply list_lookup_insert_ne.
    + cbn [gdt]. by rewrite length_insert.
  - unfold set_entry. by rewrite decide_False by lia.
Qed.

(** C30.  After [load_gdt] and [userspace_init] the table holds flat 4 GB code
    and data segments for rings 0 and 3, and a task state segment based at
    [task_state]; but the limit given for the latter is its last address, not
    its size less one, so the segment that the processor sees extends beyond
    [task_state] unless that happens to lie on a 1 MB boundary. *)
Theorem userspace_init_descriptors early_gdt tss s :
  length (gdt s) = 6%nat → 0 ≤ tss → tss + 4096 < 2 ^ 32 →
  ∃ s' c0 d0 c3 d3 t, (load_gdt early_gdt ;; userspace_init tss) s = Ret tt s' ∧
    gdt s' = [zero_gdt_entry; c0; d0; c3; d3; t] ∧
    Forall (λ e, descriptor_base e = 0 ∧ descriptor_last_offset e = 2 ^ 32 - 1 ∧
                 descriptor_present e = true) [c0; d0; c3; d3] ∧
    Forall (λ e, descriptor_executable e = true) [c0; c3] ∧
    Forall (λ e, descriptor_writable_data e = true) [d0; d3] ∧
    (descriptor_ring c0, descriptor_ring d0, descriptor_ring c3, descriptor_ring d3) = (0, 0, 3, 3) ∧
    descriptor_base t = tss ∧ descriptor_last_offset t = (tss + 103) mod 2 ^ 20 ∧
    (tss mod 4096 = 0 → tss mod 2 ^ 20 ≠ 0 → 4096 ≤ descriptor_last_offset t).
Proof.
  intros Hlen Ht Htr.
  destruct s as [[|e0 [|e1 [|e2 [|e3 [|e4 [|e5 []]]]]]] gp ts]; try done. clear Hlen.
  eexists _, _, _, _, _, (make_gate tss (tss + 103) 0xe9 0).
  assert (descriptor_last_offset (make_gate tss (tss + 103) 233 0) = (tss + 103) mod 2 ^ 20) as Hlast.
  { unfold descriptor_last_offset. rewrite make_gate_limit by lia.
    cbn [make_gate granularity]. rewrite (proj2 (granularity_field (tss + 103) 0) 7) by lia. done. }
  split_and!.
  - unfold load_gdt, userspace_init, load_ring3_segments, load_task_state_segment,
      early_set_gdt_gate, set_gdt_gate, sizeof_tss_struct. exec.
    repeat (rewrite (bind_Ret _ _ _ _ _ (set_entry_Ret _ _ _ ltac:(cbn [gdt length]; lia)));
            cbn [gdt gp task_state Z.to_nat Pos.to_nat Pos.iter_op insert list_insert Nat.add]).
    reflexivity.
  - cbn. rewrite (u32_small tss), u32_small by lia.
    replace (tss + (25 * 4 + 2 * 2) - 1) with (tss + 103) by lia. reflexivity.
  - repeat constructor.
  - repeat constructor.
  - repeat constructor.
  - reflexivity.
  - apply make_gate_base. lia.
  - exact Hlast.
  - intros H1 H2. rewrite Hlast. dlia.
Qed.

(** ** Witnesses *)

Definition example_gdt : gdt_state :=
  GdtState (replicate 6 zero_gdt_entry) (GdtPtr 0 0) (TssStruct 0 0).

Lemma set_gdt_gate_roundtrip_witness :
  ∃ s' e, set_gdt_gate 5 0xC0123000 0xABCDE 0x89 0x40 example_gdt = Ret tt s' ∧
    gdt s' !! 5%nat = Some e ∧ descriptor_base e = 0xC0123000 ∧ descriptor_limit e = 0xABCDE.
Proof.
  destruct (set_gdt_gate_roundtrip example_gdt 5 0xC0123000 0xABCDE 0x89 0x40)
    as (s' & e & E & He & Hb & Hl & _); [reflexivity|lia|lia|lia|].
  exists s', e. split; [exact E|]. split; [exact He|]. split; [exact Hb|exact Hl].
Defined.

Lemma userspace_init_descriptors_witness :
  ∃ s' c0 d0 c3 d3 t, (load_gdt 0x101000 ;; userspace_init 0xC0123000) example_gdt = Ret tt s' ∧
    gdt s' = [zero_gdt_entry; c0; d0; c3; d3; t] ∧ descriptor_base t = 0xC0123000 ∧
    4096 ≤ descriptor_last_offset t.
Proof.
  destruct (userspace_init_descriptors 0x101000 0xC0123000 example_gdt)
    as (s' & c0 & d0 & c3 & d3 & t & E & Hg & _ & _ & _ & _ & Hb & _ & Hl); [reflexivity|lia|lia|].
  exists s', c0, d0, c3, d3, t. split; [exact E|]. split; [exact Hg|]. split; [exact Hb|].
  apply Hl; [reflexivity|discriminate].
Defined.
