(* ===== verification/Irq.v ===== *)
(** * Interrupts: [kernel/idt.c] and [kernel/irq.c]

    The interrupt descriptor table, the initialisation of the two interrupt
    controllers and the dispatch of hardware interrupts.  Port output is a
    trace of port and value.  The controllers are hardware: [pic_write] is
    the 8259A's documented reaction to the bytes it is sent.  The interrupt
    stubs [irq_0] to [irq_15] are assembly, known by their addresses, and the
    registered handlers are function pointers; both are parameters. *)

From S2P Require Import Prelude.

Record idt_entry := IdtEntry {
  offset_lowerbits : Z;
  selector : Z;
  zero : Z;
  flags : Z;
  offset_higherbits : Z
}.

Record irq_state := IrqState {
  idt_table : gmap Z idt_entry;
  idt_limit : Z;
  idt_base : Z;
  irq_handlers : gmap Z Z;
  ports : list (Z * Z)
}.

Definition IDT_SIZE : Z := 256.
Definition PIC_1_CTRL : Z := 0x20.
Definition PIC_2_CTRL : Z := 0xA0.
Definition PIC_1_DATA : Z := 0x21.
Definition PIC_2_DATA : Z := 0xA1.
Definition KERNEL_CODE_SEGMENT : Z := 0x08.
Definition IDT__RING0 : Z := 0.
Definition IDT__PRESENT : Z := Z.shiftl 1 7.
Definition IDT__INTERRUPT_GATE : Z := 0x0e.
Definition SLAVE_PIC_CMD : Z := 0xA0.
Definition MASTER_PIC_CMD : Z := 0x20.
Definition PIC_ACK : Z := 0x20.
Definition NUMBER_OF_IRQS : Z := 16.

Definition write_port (port value : Z) : M irq_state unit :=
  mmodify (λ s, IrqState (idt_table s) (idt_limit s) (idt_base s) (irq_handlers s)
                  (ports s ++ [(port, u8 value)])).

Definition make_idt_entry (base sel fl : Z) : idt_entry :=
  IdtEntry (Z.land base 0xFFFF) (u16 sel) 0 (u8 fl) (Z.land (Z.shiftr base 16) 0xFFFF).

Definition load_idt_entry (isr_number base sel fl : Z) : M irq_state unit :=
  mmodify (λ s, IrqState (<[u8 isr_number := make_idt_entry base sel fl]> (idt_table s))
                  (idt_limit s) (idt_base s) (irq_handlers s) (ports s)).

Definition initialize_pic : M irq_state unit :=
  write_port PIC_1_CTRL 0x11 ;; write_port PIC_2_CTRL 0x11 ;;
  write_port PIC_1_DATA 0x20 ;; write_port PIC_2_DATA 0x28 ;;
  write_port 0x21 0x4 ;; write_port 0xA1 0x2 ;;
  write_port PIC_1_DATA 0x00 ;; write_port PIC_2_DATA 0x00 ;;
  write_port PIC_1_DATA 0x01 ;; write_port PIC_2_DATA 0x01 ;;
  write_port 0x21 0xff ;; write_port 0xA1 0xff.

Section idt_c.
(** The address of [idt_table], and of the interrupt stubs. *)
Variable idt_table_address : Z.
Variable irq : Z → Z.

Definition initialize_idt_pointer : M irq_state unit :=
  mmodify (λ s, IrqState (idt_table s) (u16 (8 * IDT_SIZE - 1)) (u32 idt_table_address)
                  (irq_handlers s) (ports s)).

Definition idt_init : M irq_state unit :=
  initialize_pic ;; initialize_idt_pointer.

Definition load_irq_gate (vector n : Z) : M irq_state unit :=
  load_idt_entry vector (u32 (irq n)) KERNEL_CODE_SEGMENT
    (Z.lor (Z.lor IDT__PRESENT IDT__RING0) IDT__INTERRUPT_GATE).

Definition irq_init : M irq_state unit :=
  load_irq_gate 32 0 ;; load_irq_gate 33 1 ;; load_irq_gate 34 2 ;; load_irq_gate 35 3 ;;
  load_irq_gate 36 4 ;; load_irq_gate 37 5 ;; load_irq_gate 38 6 ;; load_irq_gate 39 7 ;;
  load_irq_gate 0x70 8 ;; load_irq_gate 0x71 9 ;; load_irq_gate 0x72 10 ;; load_irq_gate 0x73 11 ;;
  load_irq_gate 0x74 12 ;; load_irq_gate 0x75 13 ;; load_irq_gate 0x76 14 ;; load_irq_gate 0x77 15.

Definition irq_ack (irq_number : Z) : M irq_state unit :=
  if irq_number >=? 8 then write_port SLAVE_PIC_CMD PIC_ACK
  else write_port MASTER_PIC_CMD PIC_ACK.

(** [irq_handlers[i]]; beyond the array's end the access is undefined. *)
Definition read_irq_handler (i : Z) : M irq_state Z := λ s,
  if decide (0 ≤ i < NUMBER_OF_IRQS) then Ret (default NULL (irq_handlers s !! i)) s else Fault.

Section dispatch.
(** A handler may act on a larger state, of which the interrupts' is a part. *)
Context {S : Type}.
Variable get : S → irq_state.
Variable set : irq_state → S → S.

(** What a registered handler does. *)
Variable run_handler : Z → M S unit.

(** Without a handler a warning is logged. *)
Definition default_irq_handler (irq_number : Z) : M S unit :=
  h ← zoom get set (read_irq_handler irq_number);
  (if negb (h =? NULL) then
     h ← zoom get set (read_irq_handler irq_number);
     run_handler h
   else mret tt) ;;
  zoom get set (irq_ack irq_number).
End dispatch.

Definition write_irq_handler (i v : Z) : M irq_state unit :=
  mmodify (λ s, IrqState (idt_table s) (idt_limit s) (idt_base s) (<[i := v]> (irq_handlers s)) (ports s)).

Definition register_irq (irq_handler index : Z) : M irq_state error_code :=
  if (irq_handler =? NULL) || (index <? 0) || (index >? 15) then mret INVALID_ARGUMENT
  else
    write_irq_handler index irq_handler ;;
    mret SUCCESS.

Definition unregister_irq (irq_handler index : Z) : M irq_state error_code :=
  if (irq_handler =? NULL) || (index <? 0) || (index >? 15) then mret INVALID_ARGUMENT
  else
    write_irq_handler index NULL ;;
    mret SUCCESS.
End idt_c.

(** ** The interrupt controller, as its data sheet has it *)

(** Which initialisation word comes next; [Ready] outside of initialisation. *)
Inductive pic_phase := Ready | WaitICW2 | WaitICW3 | WaitICW4.

Record pic := Pic {
  phase : pic_phase;
  needs_icw4 : bool;
  single_mode : bool;
  vector_base : Z;
  icw4 : Z;
  mask : Z;
  in_service : Z
}.

(** A non-specific end of interrupt clears the lowest bit in service. *)
Definition lowest_cleared (v : Z) : Z := Z.land v (v - 1).

Definition pic_command (v : Z) (p : pic) : pic :=
  if Z.testbit v 4 then Pic WaitICW2 (Z.testbit v 0) (Z.testbit v 1) (vector_base p) 0 0 0
  else if v =? 0x20 then
    Pic (phase p) (needs_icw4 p) (single_mode p) (vector_base p) (icw4 p) (mask p)
        (lowest_cleared (in_service p))
  else p.

Definition pic_data (v : Z) (p : pic) : pic :=
  let after_icw3 := if needs_icw4 p then WaitICW4 else Ready in
  match phase p with
  | WaitICW2 => Pic (if single_mode p then after_icw3 else WaitICW3) (needs_icw4 p) (single_mode p)
                    (Z.land v 0xF8) (icw4 p) (mask p) (in_service p)
  | WaitICW3 => Pic after_icw3 (needs_icw4 p) (single_mode p) (vector_base p) (icw4 p) (mask p) (in_service p)
  | WaitICW4 => Pic Ready (needs_icw4 p) (single_mode p) (vector_base p) v (mask p) (in_service p)
  | Ready => Pic Ready (needs_icw4 p) (single_mode p) (vector_base p) (icw4 p) v (in_service p)
  end.

(** The controller at a command port, the data port being the one above. *)
Definition pic_write (ctrl : Z) (p : pic) (w : Z * Z) : pic :=
  if w.1 =? ctrl then pic_command w.2 p
  else if w.1 =? ctrl + 1 then pic_data w.2 p else p.

Definition pic_after (ctrl : Z) (p : pic) (trace : list (Z * Z)) : pic :=
  foldl (pic_write ctrl) p trace.

(** Bit 0 of the last initialisation word selects 8086 mode. *)
Definition mode_8086 (p : pic) : bool := Z.testbit (icw4 p) 0.

(** ** The processor's reading of a gate *)

Definition gate_offset (e : idt_entry) : Z := offset_lowerbits e + offset_higherbits e * 2 ^ 16.
Definition gate_present (e : idt_entry) : bool := Z.testbit (flags e) 7.
Definition gate_is_interrupt (e : idt_entry) : bool := Z.land (flags e) 0x1F =? 0x0E.

Lemma make_idt_entry_offset base sel fl :
  0 ≤ base < 2 ^ 32 → gate_offset (make_idt_entry base sel fl) = base.
Proof.
  intros Hb. unfold gate_offset. cbn [make_idt_entry offset_lowerbits offset_higherbits].
  change 0xFFFF with (Z.ones 16). rewrite !Z.land_ones, Z.shiftr_div_pow2 by lia. dlia.
Qed.

(** A present ring 0 interrupt gate of the kernel's code segment to [target]. *)
Definition routes_to (e : option idt_entry) (target : Z) : Prop :=
  ∃ g, e = Some g ∧ gate_offset g = target ∧ selector g = KERNEL_CODE_SEGMENT ∧
    gate_present g = true ∧ gate_is_interrupt g = true.

Definition irq_gate (irq : Z → Z) (n : Z) : idt_entry :=
  make_idt_entry (u32 (irq n)) KERNEL_CODE_SEGMENT (Z.lor (Z.lor IDT__PRESENT IDT__RING0) IDT__INTERRUPT_GATE).

Lemma irq_gate_routes irq n : 0 ≤ irq n < 2 ^ 32 → routes_to (Some (irq_gate irq n)) (irq n).
Proof.
  intros Hn. exists (irq_gate irq n). unfold irq_gate. rewrite u32_small by done.
  split_and!; [done|by apply make_idt_entry_offset|done|done|done].
Qed.

Definition irq_vector (n : Z) : Z := if n <? 8 then 32 + n else 0x70 + (n - 8).

Lemma load_irq_gate_Ret irq v n s : 0 ≤ v < 256 →
  load_irq_gate irq v n s = Ret tt (IrqState (<[v := irq_gate irq n]> (idt_table s))
    (idt_limit s) (idt_base s) (irq_handlers s) (ports s)).
Proof. intros Hv. unfold load_irq_gate, load_idt_entry, mmodify. by rewrite u8_small. Qed.

Lemma read_irq_handler_Ret i s : 0 ≤ i < 16 →
  read_irq_handler i s = Ret (default NULL (irq_handlers s !! i)) s.
Proof. intros Hi. unfold read_irq_handler, NUMBER_OF_IRQS. by rewrite decide_True. Qed.

Lemma small_cases (n : nat) (x : Z) (P : Z → Prop) :
  0 ≤ x < Z.of_nat n → Forall P (Z.of_nat <$> seq 0 n) → P x.
Proof.
  intros Hx HF. rewrite Forall_forall in HF. apply HF. apply list_elem_of_fmap.
  exists (Z.to_nat x). split; [lia|]. apply elem_of_seq. lia.
Qed.

(** A vector that no line has is not one of the literal ones. *)
Ltac other_vector Hv :=
  lazymatch goal with
  | |- ?k ≠ _ =>
      let n := eval vm_compute in (if k <? 0x70 then k - 32 else k - 0x70 + 8) in
      let Hd := fresh in intros Hd; apply (Hv n); [lia|by rewrite <-Hd]
  end.

Lemma irq_init_ok irq s :
  ∃ s', irq_init irq s = Ret tt s' ∧ ports s' = ports s ∧ irq_handlers s' = irq_handlers s ∧
    (∀ n, 0 ≤ n < 16 → idt_table s' !! irq_vector n = Some (irq_gate irq n)) ∧
    (∀ v, (∀ n, 0 ≤ n < 16 → v ≠ irq_vector n) → idt_table s' !! v = idt_table s !! v).
Proof.
  unfold irq_init.
  do 15 (erewrite bind_Ret by (apply load_irq_gate_Ret; lia);
         cbn [idt_table idt_limit idt_base irq_handlers ports]).
  rewrite load_irq_gate_Ret by lia. cbn [idt_table idt_limit idt_base irq_handlers ports].
  eexists. split; [reflexivity|]. cbn [idt_table ports irq_handlers]. split_and!; [done|done| |].
  - intros n Hn. pattern n. apply (small_cases 16); [done|].
    repeat constructor; cbn [idt_table];
      repeat (rewrite lookup_insert_ne by done); by rewrite lookup_insert_eq.
  - intros v Hv. cbn [idt_table].
    do 16 (rewrite lookup_insert_ne by other_vector Hv). done.
Qed.

(** Handlers of the interrupts' own state. *)
Abbreviation dispatch := (default_irq_handler (λ s : irq_state, s) (λ s _, s)).

Lemma zoom_self {A} (m : M irq_state A) s : zoom (λ s : irq_state, s) (λ s _, s) m s = m s.
Proof. unfold zoom. by destruct (m s). Qed.

Lemma dispatch_eq run_handler n s :
  dispatch run_handler n s =
  (h ← read_irq_handler n;
   (if negb (h =? NULL) then h ← read_irq_handler n; run_handler h else mret tt) ;;
   irq_ack n) s.
Proof.
  unfold default_irq_handler, mbind, M_bind. rewrite zoom_self.
  destruct (read_irq_handler n s) as [h s1| | |]; [|done..]. destruct (negb (h =? NULL)).
  - rewrite zoom_self. destruct (read_irq_handler n s1) as [h1 s2| | |]; [|done..].
    destruct (run_handler h1 s2); [|done..]. by rewrite zoom_self.
  - cbn. by rewrite zoom_self.
Qed.

(** ** Properties *)


(** Dispatch.  A handler registered for a line in range is run on that
    line's interrupt, after which the interrupt is acknowledged; unregistered,
    only the acknowledgement is left; the other lines keep their handlers and
    a null handler or a line above 15 is refused.  The acknowledgement of a
    line of the second controller goes to that controller alone: the first
    one, through which the interrupt came, still has it in service. *)
Theorem irq_dispatch run_handler s h n master :
  h ≠ NULL → 0 ≤ n →
  if decide (n < 16) then
    ∃ s1 s2, register_irq h n s = Ret SUCCESS s1 ∧
      dispatch run_handler n s1 = (run_handler h ;; irq_ack n) s1 ∧
      (∀ m, m ≠ n → irq_handlers s1 !! m = irq_handlers s !! m) ∧
      unregister_irq h n s1 = Ret SUCCESS s2 ∧
      dispatch run_handler n s2 = irq_ack n s2 ∧
      ∃ s3, irq_ack n s2 = Ret tt s3 ∧
        ports s3 = ports s2 ++ [(if n <? 8 then MASTER_PIC_CMD else SLAVE_PIC_CMD, PIC_ACK)] ∧
        (8 ≤ n → pic_after MASTER_PIC_CMD master [(SLAVE_PIC_CMD, PIC_ACK)] = master)
  else register_irq h n s = Ret INVALID_ARGUMENT s ∧ unregister_irq h n s = Ret INVALID_ARGUMENT s ∧
       dispatch run_handler n s = Fault.
Proof.
  intros Hh Hn. unfold register_irq, unregister_irq.
  rewrite (proj2 (Z.eqb_neq h NULL)), (proj2 (Z.ltb_ge n 0)) by done. cbn [orb].
  rewrite Z.gtb_ltb. case_decide as Hr.
  - rewrite (proj2 (Z.ltb_ge 15 n)) by lia. eexists _, _. split; [reflexivity|]. split_and!.
    + rewrite dispatch_eq. rewrite (bind_Ret _ _ _ _ _ (read_irq_handler_Ret _ _ (conj Hn Hr))).
      cbn [irq_handlers]. rewrite lookup_insert_eq. cbn [default from_option id].
      rewrite (proj2 (Z.eqb_neq h NULL)) by done. cbn [negb]. rewrite bind_assoc.
      rewrite (bind_Ret _ _ _ _ _ (read_irq_handler_Ret _ _ (conj Hn Hr))).
      cbn [irq_handlers]. by rewrite lookup_insert_eq.
    + intros m Hm. cbn [irq_handlers]. by rewrite lookup_insert_ne.
    + reflexivity.
    + rewrite dispatch_eq. rewrite (bind_Ret _ _ _ _ _ (read_irq_handler_Ret _ _ (conj Hn Hr))).
      cbn [irq_handlers]. by rewrite lookup_insert_eq.
    + unfold irq_ack. rewrite Z.geb_leb. destruct (Z.ltb_spec n 8) as [H8|H8].
      * rewrite (proj2 (Z.leb_gt 8 n)) by done. eexists. split; [reflexivity|]. split; [done|lia].
      * rewrite (proj2 (Z.leb_le 8 n)) by done. eexists. split; [reflexivity|]. done.
  - rewrite (proj2 (Z.ltb_lt 15 n)) by lia. split_and!; [done|done|].
    rewrite dispatch_eq. unfold read_irq_handler, NUMBER_OF_IRQS, mbind, M_bind.
    by rewrite decide_False by lia.
Qed.

(** ** Witnesses *)

Definition example_irq_state : irq_state := IrqState ∅ 0 0 ∅ [].
Definition example_pic : pic := Pic Ready false false 8 1 0 0x04.
Definition example_stub (n : Z) : Z := if (0 <=? n) && (n <? 16) then 0xC0100000 + 16 * n else 0.

Lemma example_stub_range n : 0 ≤ example_stub n < 2 ^ 32.
Proof.
  unfold example_stub. destruct (Z.leb_spec 0 n), (Z.ltb_spec n 16); simpl; lia.
Qed.


Lemma irq_dispatch_witness :
  ∃ s1, register_irq 0xC0103000 1 example_irq_state = Ret SUCCESS s1 ∧
    dispatch (λ h, write_port 0x60 h) 1 s1
    = (write_port 0x60 0xC0103000 ;; irq_ack 1) s1.
Proof.
  destruct (irq_dispatch (λ h, write_port 0x60 h) example_irq_state 0xC0103000 1 example_pic)
    as (s1 & s2 & E & E1 & _); [discriminate|discriminate|].
  exists s1. split; [exact E|exact E1].
Defined.
