(* ===== verification/Exceptions.v ===== *)
(** * Processor exceptions: [kernel/exceptions.c]

    The handlers have empty bodies and nothing installs them.  What the
    processor does with an exception is its documented behaviour: it looks for
    the vector's gate in the interrupt descriptor table, a fault on the way
    there is an exception of its own, and after a double fault it gives up. *)

From S2P Require Import Prelude Irq.

Section exceptions_c.
Context {S : Type}.

Definition divide_error : M S unit := mret tt.
Definition debug_exception : M S unit := mret tt.
Definition overflow : M S unit := mret tt.
Definition bounds_check : M S unit := mret tt.
Definition invalid_opcode : M S unit := mret tt.
Definition coprocessor_not_available : M S unit := mret tt.
Definition double_fault : M S unit := mret tt.
Definition segment_overrun : M S unit := mret tt.
Definition invalid_tss : M S unit := mret tt.
Definition segment_not_present : M S unit := mret tt.
Definition stack_exception : M S unit := mret tt.
Definition triple_fault : M S unit := mret tt.
Definition page_fault : M S unit := mret tt.

Definition exceptions_init : M S unit := mret tt.
End exceptions_c.

(** ** The processor's delivery of an exception *)

Definition DOUBLE_FAULT : Z := 8.
Definition SEGMENT_NOT_PRESENT : Z := 11.
Definition GENERAL_PROTECTION : Z := 13.
Definition PAGE_FAULT : Z := 14.

(** Divide error, invalid TSS, segment not present, stack and general
    protection faults and page faults: a second fault during the delivery of
    one of these is a double fault.  The others are benign. *)
Definition is_benign (v : Z) : bool :=
  bool_decide (v ∉ [0; 10; SEGMENT_NOT_PRESENT; 12; GENERAL_PROTECTION; PAGE_FAULT]).

(** Task, interrupt and trap gates. *)
Definition is_gate (g : idt_entry) : bool := bool_decide (Z.land (flags g) 0x1F ∈ [5; 6; 7; 14; 15]).

(** The fault at the vector's gate; an entry that was never loaded is zero. *)
Definition gate_fault (i : irq_state) (v : Z) : option Z :=
  if 8 * v + 7 >? idt_limit i then Some GENERAL_PROTECTION
  else
    match idt_table i !! v with
    | None => Some GENERAL_PROTECTION
    | Some g => if negb (is_gate g) then Some GENERAL_PROTECTION
                else if negb (gate_present g) then Some SEGMENT_NOT_PRESENT
                else None
    end.

Inductive delivery := Raised (v : Z) | Entered (g : idt_entry) | Shutdown.

Inductive deliver (i : irq_state) : delivery → delivery → Prop :=
  | deliver_handler v g : gate_fault i v = None → idt_table i !! v = Some g →
      deliver i (Raised v) (Entered g)
  | deliver_second v f : gate_fault i v = Some f → is_benign v = true → v ≠ DOUBLE_FAULT →
      deliver i (Raised v) (Raised f)
  | deliver_double v f : gate_fault i v = Some f → is_benign v = false →
      deliver i (Raised v) (Raised DOUBLE_FAULT)
  | deliver_triple f : gate_fault i DOUBLE_FAULT = Some f →
      deliver i (Raised DOUBLE_FAULT) Shutdown.

(** No handler is reachable for any of the 32 exceptions. *)
Definition no_handlers (i : irq_state) : Prop := ∀ v, 0 ≤ v < 32 → idt_table i !! v = None.

Section no_handlers.
Variable i : irq_state.
Hypothesis none : no_handlers i.

Lemma no_handlers_fault v : 0 ≤ v < 32 → gate_fault i v = Some GENERAL_PROTECTION.
Proof. intros Hv. unfold gate_fault. rewrite none by done. by case_match. Qed.

(** A delivery that has not reached a handler, and what is left of it. *)
Definition unhandled (d : delivery) : Prop :=
  match d with Raised v => 0 ≤ v < 32 | Entered _ => False | Shutdown => True end.

Definition attempts (d : delivery) : nat :=
  match d with
  | Raised v => if decide (v = DOUBLE_FAULT) then 1 else if is_benign v then 3 else 2
  | Entered _ | Shutdown => 0
  end.

Lemma unhandled_step d d' : deliver i d d' → unhandled d → unhandled d' ∧ (attempts d' < attempts d)%nat.
Proof.
  intros [v g E _|v f E Hb H8|v f E Hb|f E] Hv; cbn [unhandled attempts] in *;
    rewrite no_handlers_fault in E by exact Hv; simplify_eq.
  - rewrite (decide_False (P := v = DOUBLE_FAULT)), Hb by done. split; [unfold GENERAL_PROTECTION; lia|by apply Nat.ltb_lt].
  - rewrite Hb. destruct (decide (v = DOUBLE_FAULT)) as [->|]; [done|]. split; [unfold DOUBLE_FAULT; lia|by apply Nat.ltb_lt].
  - split; [done|by apply Nat.ltb_lt].
Qed.

Lemma unhandled_steps n d d' : nsteps (deliver i) n d d' → unhandled d → unhandled d' ∧ (n + attempts d' ≤ attempts d)%nat.
Proof.
  intros Hn. induction Hn as [d|n d d1 d2 Hs _ IH]; intros Hd; [by split|].
  destruct (unhandled_step _ _ Hs Hd) as [H1 ?]. destruct (IH H1). split; [done|lia].
Qed.

Lemma unhandled_shutdown d : unhandled d → rtc (deliver i) d Shutdown.
Proof.
  assert (rtc (deliver i) (Raised DOUBLE_FAULT) Shutdown) as H8.
  { apply rtc_once. eapply deliver_triple. by apply no_handlers_fault. }
  assert (∀ w, 0 ≤ w < 32 → is_benign w = false → rtc (deliver i) (Raised w) Shutdown) as Hc.
  { intros w Hw Hn. eapply rtc_l; [|exact H8]. eapply deliver_double; [by apply no_handlers_fault|done]. }
  destruct d as [v| |]; [|done..]. intros Hv.
  destruct (decide (v = DOUBLE_FAULT)) as [->|Hne]; [done|]. destruct (is_benign v) eqn:Hb; [|by apply Hc].
  eapply rtc_l; [eapply deliver_second; [by apply no_handlers_fault|done|done]|]. by apply Hc.
Qed.

(** Every run of the delivery is short and can only go on to the shutdown. *)
Lemma no_handlers_delivery v n d : 0 ≤ v < 32 → nsteps (deliver i) n (Raised v) d →
  (n ≤ 3)%nat ∧ (∀ g, d ≠ Entered g) ∧ rtc (deliver i) d Shutdown.
Proof.
  intros Hv Hn. destruct (unhandled_steps _ _ _ Hn Hv) as [Hd Hl]. split_and!.
  - unfold attempts in Hl at 2. repeat case_match; lia.
  - by destruct d.
  - by apply unhandled_shutdown.
Qed.
End no_handlers.

(** The vectors the kernel loads are none of the exceptions'. *)
Lemma irq_vector_not_exception n v : 0 ≤ n < 16 → 0 ≤ v < 32 → v ≠ irq_vector n.
Proof. intros Hn Hv. unfold irq_vector. destruct (Z.ltb_spec n 8); lia. Qed.
