(* ===== verification/Device.v ===== *)
(** * The table of block devices: [kernel/dev/device.c]

    [devices_ptrs] is an array of [MAX_DEVICES] pointers; [registered_devices]
    is a 32-bit count. *)

From S2P Require Import Prelude.

Definition MAX_DEVICES : nat := 50.

Record devices := Devices { devices_ptrs : list Z; registered_devices : Z }.

(** The static initial values. *)
Definition no_devices : devices := Devices (replicate MAX_DEVICES NULL) 0.

(** The loop of [register_device] from slot [i] on: it does not stop at the
    first empty slot. *)
Definition register_device_loop (dev : Z) (ptrs : list Z) : list Z :=
  map (λ p, if p =? NULL then dev else p) ptrs.

Definition register_device (dev : Z) : M devices bool := λ s,
  if (dev =? NULL) || (registered_devices s =? Z.of_nat MAX_DEVICES) then Ret false s
  else Ret false (Devices (register_device_loop dev (devices_ptrs s)) (u32 (registered_devices s + 1))).

(** The slots after the first one that holds [dev] was cleared. *)
Fixpoint unregister_device_loop (dev : Z) (ptrs : list Z) : option (list Z) :=
  match ptrs with
  | [] => None
  | p :: ptrs' =>
      if p =? dev then Some (NULL :: ptrs')
      else (p ::.) <$> unregister_device_loop dev ptrs'
  end.

Definition unregister_device (dev : Z) : M devices bool := λ s,
  if dev =? NULL then Ret false s
  else
    match unregister_device_loop dev (devices_ptrs s) with
    | Some ptrs => Ret true (Devices ptrs (u32 (registered_devices s - 1)))
    | None => Ret false s
    end.

(** ** Properties *)

Lemma register_loop_full dev ptrs : dev ≠ NULL → NULL ∉ register_device_loop dev ptrs.
Proof.
  intros Hd [p [Hp _]]%list_elem_of_fmap. destruct (Z.eqb_spec p NULL); congruence.
Qed.

Lemma register_loop_noop dev ptrs : NULL ∉ ptrs → register_device_loop dev ptrs = ptrs.
Proof.
  unfold register_device_loop. induction ptrs as [|p ptrs IH]; [done|].
  rewrite not_elem_of_cons. intros [Hp Hn]. simpl. rewrite IH by done.
  by rewrite (proj2 (Z.eqb_neq p NULL)) by congruence.
Qed.

(** Registering takes every free slot at once and reports failure: after
    [register_device(d)] on a table with room, each slot that was empty holds
    [d], so that no other device can be entered any more - a second
    registration changes nothing but the count - and both calls return
    [false], as a refused call does. *)
Theorem register_device_fills s d d' :
  d ≠ NULL → d' ≠ NULL → length (devices_ptrs s) = MAX_DEVICES →
  0 ≤ registered_devices s < 49 →
  ∃ s1 s2, register_device d s = Ret false s1 ∧ register_device d' s1 = Ret false s2 ∧
    (∀ i, devices_ptrs s !! i = Some NULL → devices_ptrs s1 !! i = Some d) ∧
    (∀ i p, p ≠ NULL → devices_ptrs s !! i = Some p → devices_ptrs s1 !! i = Some p) ∧
    devices_ptrs s2 = devices_ptrs s1 ∧
    registered_devices s2 = registered_devices s + 2.
Proof.
  intros Hd Hd' Hlen Hn. unfold register_device.
  rewrite (proj2 (Z.eqb_neq d NULL)), (proj2 (Z.eqb_neq (registered_devices s) (Z.of_nat MAX_DEVICES)))
    by (done || (unfold MAX_DEVICES; lia)). cbn [orb].
  eexists _, _. split; [reflexivity|]. cbn [registered_devices devices_ptrs]. rewrite (u32_small (_ + 1)) by lia.
  rewrite (proj2 (Z.eqb_neq d' NULL)), (proj2 (Z.eqb_neq (registered_devices s + 1) (Z.of_nat MAX_DEVICES)))
    by (done || (unfold MAX_DEVICES; lia)). cbn [orb].
  split; [reflexivity|]. split_and!.
  - intros i Hi. unfold register_device_loop. rewrite list_lookup_fmap, Hi. done.
  - intros i p Hp Hi. unfold register_device_loop. rewrite list_lookup_fmap, Hi. simpl.
    by rewrite (proj2 (Z.eqb_neq p NULL)).
  - cbn. apply register_loop_noop. by apply register_loop_full.
  - cbn. rewrite u32_small by lia. lia.
Qed.

Lemma register_device_fills_witness :
  ∃ s1 s2, register_device 0x100 no_devices = Ret false s1 ∧ register_device 0x200 s1 = Ret false s2 ∧
    devices_ptrs s2 = devices_ptrs s1.
Proof.
  destruct (register_device_fills no_devices 0x100 0x200) as (s1 & s2 & E1 & E2 & _ & _ & E3 & _);
    [discriminate|discriminate|reflexivity|split; [discriminate|reflexivity]|].
  exists s1, s2. split; [exact E1|]. split; [exact E2|exact E3].
Defined.

Lemma unregister_loop_spec dev ptrs :
  match list_find (dev =.) ptrs with
  | Some (i, _) => unregister_device_loop dev ptrs = Some (<[i := NULL]> ptrs)
  | None => unregister_device_loop dev ptrs = None
  end.
Proof.
  induction ptrs as [|p ptrs IH]; [done|]. cbn [unregister_device_loop list_find]. destruct (Z.eqb_spec p dev) as [->|Hp].
  - by rewrite decide_True.
  - rewrite decide_False by congruence. destruct (list_find (dev =.) ptrs) as [[i x]|]; cbn; by rewrite IH.
Qed.

(** Removing clears the first slot with the device, and no other: of a device
    that was registered on a table with more than one free slot, as
    [register_device] enters it, a pointer is left although [true] is returned
    and the count is what it was before. *)
Theorem unregister_device_spec s d :
  d ≠ NULL → 0 < registered_devices s < 2 ^ 32 →
  match list_find (d =.) (devices_ptrs s) with
  | Some (i, _) => unregister_device d s = Ret true (Devices (<[i := NULL]> (devices_ptrs s)) (registered_devices s - 1))
  | None => unregister_device d s = Ret false s
  end ∧
  ∀ i j, i ≠ j → devices_ptrs s !! i = Some NULL → devices_ptrs s !! j = Some NULL → registered_devices s < 50 →
    ∃ s1 s2, register_device d s = Ret false s1 ∧ unregister_device d s1 = Ret true s2 ∧
      d ∈ devices_ptrs s2 ∧ registered_devices s2 = registered_devices s.
Proof.
  intros Hd Hn.
  assert (∀ t, unregister_device d t = match list_find (d =.) (devices_ptrs t) with
    | Some (i, _) => Ret true (Devices (<[i := NULL]> (devices_ptrs t)) (u32 (registered_devices t - 1)))
    | None => Ret false t end) as Hu.
  { intros t. unfold unregister_device. rewrite (proj2 (Z.eqb_neq d NULL)) by done.
    pose proof (unregister_loop_spec d (devices_ptrs t)) as E. by destruct (list_find _ _) as [[i x]|]; rewrite E. }
  split.
  - rewrite Hu. destruct (list_find _ _) as [[i x]|]; [|done]. by rewrite u32_small by lia.
  - intros i j Hij Hi Hj Hlt. unfold register_device at 1.
    rewrite (proj2 (Z.eqb_neq d NULL)), (proj2 (Z.eqb_neq _ (Z.of_nat MAX_DEVICES))) by (done || (unfold MAX_DEVICES; lia)). cbn [orb].
    rewrite (u32_small (_ + 1)) by lia.
    exists (Devices (register_device_loop d (devices_ptrs s)) (registered_devices s + 1)). rewrite Hu. cbn [devices_ptrs registered_devices].
    set (ptrs := register_device_loop d (devices_ptrs s)).
    assert (∀ k, devices_ptrs s !! k = Some NULL → ptrs !! k = Some d) as Hk
      by (intros k E; unfold ptrs, register_device_loop; by rewrite list_lookup_fmap, E).
    destruct (list_find (d =.) ptrs) as [[k x]|] eqn:E.
    + eexists. split; [done|]. split; [done|]. cbn [devices_ptrs registered_devices]. split; [|rewrite u32_small; lia].
      destruct (decide (k = i)) as [->|]; apply list_elem_of_lookup; [exists j|exists i]; rewrite list_lookup_insert_ne by done; by apply Hk.
    + apply list_find_None in E. rewrite Forall_forall in E. destruct (E d); [|done].
      apply list_elem_of_lookup. exists i. by apply Hk.
Qed.

Lemma unregister_device_spec_witness :
  ∃ s1 s2, register_device 0x100 (Devices (0x300 :: replicate 49 NULL) 1) = Ret false s1 ∧
    unregister_device 0x100 s1 = Ret true s2 ∧ 0x100 ∈ devices_ptrs s2.
Proof.
  destruct (proj2 (unregister_device_spec (Devices (0x300 :: replicate 49 NULL) 1) 0x100 ltac:(discriminate) ltac:(cbn; lia))
    1%nat 2%nat) as (s1 & s2 & E1 & E2 & Hin & _); [discriminate|reflexivity|reflexivity|cbn; lia|].
  exists s1, s2. split; [exact E1|]. split; [exact E2|exact Hin].
Defined.
