(* ===== verification/Vga.v ===== *)
(** * The text screen: [kernel/drivers/vga/vga.c]

    The screen's memory is part of the memory the kernel sees, from
    [vga_buffer] on; [vga_state] adds the driver's static variables to it.  A
    [char] is kept as its byte.  [vga_putc] and [backspace_handler] call each
    other; the depth given is enough because the blank that
    [backspace_handler] prints is no special character. *)

From S2P Require Import Prelude Memory CString CPtr Bitmap Phys Paging Kheap Kmalloc.

Definition SCREEN_COLS : Z := 80.
Definition SCREEN_ROWS : Z := 25.
Definition VGA_PHYSICAL_ADDRESS : Z := 0xb8000.

(** [color_t] *)
Definition COLOR_BLACK : Z := 0.
Definition COLOR_BLUE : Z := 1.
Definition COLOR_RED : Z := 4.
Definition COLOR_LIGHT_GREY : Z := 7.
Definition COLOR_LIGHT_BLUE : Z := 9.
Definition COLOR_LIGHT_MAGENTA : Z := 13.
Definition COLOR_WHITE : Z := 15.
Definition VGA_DEFAULT_COLOR : Z := COLOR_LIGHT_GREY.

Record vga_state (T : Type) := VgaState {
  vga_mem : T;
  vga_buffer : Z;
  vga_color : Z;
  vga_x : Z;
  vga_y : Z
}.
Arguments VgaState {T} _ _ _ _ _.
Arguments vga_mem {T} _.
Arguments vga_buffer {T} _.
Arguments vga_color {T} _.
Arguments vga_x {T} _.
Arguments vga_y {T} _.

Definition set_vga_mem {T} (m : T) (s : vga_state T) : vga_state T :=
  VgaState m (vga_buffer s) (vga_color s) (vga_x s) (vga_y s).

#[export] Instance vga_store {T} `{ByteStore T} : ByteStore (vga_state T) := {
  get8 s a := get8 (vga_mem s) a;
  set8 s a v := m ← set8 (vga_mem s) a v; Some (set_vga_mem m s)
}.

#[export] Instance vga_laws {T} `{ByteStoreLaws T} : ByteStoreLaws (vga_state T).
Proof.
  split; unfold get8, set8; simpl.
  - intros s a v. apply get8_range.
  - intros s a v Hm. destruct (set8_total (vga_mem s) a v Hm) as [m ->]. simpl. eauto.
  - intros s a v s'. destruct (set8 (vga_mem s) a v) eqn:E; simpl; [|done]. intros _. by eapply set8_mapped.
  - intros s a v s' b. destruct (set8 (vga_mem s) a v) eqn:E; simpl; [|done]. intros [= <-]. by apply get8_set8.
Qed.

Section vga_c.
Context {T : Type} `{ByteStore T}.
Abbreviation state := (vga_state T).

Definition move_to (x y : Z) : M state unit :=
  mmodify (λ s, VgaState (vga_mem s) (vga_buffer s) (vga_color s) x y).

Definition special_characters : list Z := [10; 9; 13; 8].

Fixpoint get_special_character_index_loop (chars : list Z) (i c : Z) : Z :=
  match chars with
  | [] => u32 (-1)
  | x :: chars' => if x =? i8 c then i else get_special_character_index_loop chars' (i + 1) c
  end.

Definition get_special_character_index (c : Z) : Z :=
  get_special_character_index_loop special_characters 0 c.

Definition get_address_by_location (x y : Z) : M state Z :=
  mgets (λ s, u32 (vga_buffer s + u32 (u32 (x * 2) + u32 (y * SCREEN_COLS * 2)))).

Definition y_reached_limit : M state bool := mgets (λ s, vga_y s >? SCREEN_ROWS).
Definition x_reached_limit : M state bool := mgets (λ s, vga_x s >? SCREEN_COLS).

(** [while(i < (SCREEN_COLS * SCREEN_ROWS * 2))] *)
Fixpoint vga_flush_loop (fuel : nat) (i : Z) : M state unit :=
  match fuel with
  | O => mtimeout
  | S fuel' =>
      if i <? SCREEN_COLS * SCREEN_ROWS * 2 then
        b ← mgets vga_buffer;
        wr8 (u32 (b + i)) 32 ;;
        wr8 (u32 (b + i + 1)) COLOR_BLACK ;;
        vga_flush_loop fuel' (i + 2)
      else mret tt
  end.

Definition vga_flush : M state unit := vga_flush_loop 2001 0 ;; move_to 0 0.

Definition newline_handler : M state unit :=
  y ← mgets vga_y;
  move_to 0 (u32 (y + 1)) ;;
  limit ← y_reached_limit;
  if (limit : bool) then vga_flush else mret tt.

Definition tab_handler : M state unit :=
  x ← mgets vga_x; y ← mgets vga_y;
  move_to (u32 (x + 4)) y ;;
  limit ← x_reached_limit;
  if (limit : bool) then newline_handler else mret tt.

Definition default_handler (c : Z) : M state unit :=
  x ← mgets vga_x; y ← mgets vga_y;
  addr ← get_address_by_location x y;
  wr8 addr c ;;
  color ← mgets vga_color;
  wr8 (u32 (addr + 1)) color ;;
  x ← mgets vga_x; y ← mgets vga_y;
  move_to (u32 (x + 1)) y ;;
  limit ← x_reached_limit;
  if (limit : bool) then newline_handler else mret tt.

Definition backspace_handler (vga_putc : Z → M state unit) : M state unit :=
  x ← mgets vga_x; y ← mgets vga_y;
  if u32 (x - 1) >=? 0 then
    move_to (u32 (x - 1)) y ;;
    vga_putc 32 ;;
    x ← mgets vga_x; y ← mgets vga_y;
    move_to (u32 (x - 1)) y
  else mret tt.

(** [special_characters_handlers[i]()]: there are three handlers. *)
Definition special_characters_handlers (vga_putc : Z → M state unit) (i : Z) : M state unit :=
  if i =? 0 then newline_handler
  else if i =? 1 then tab_handler
  else if i =? 2 then backspace_handler vga_putc
  else mfault.

Fixpoint vga_putc_rec (depth : nat) (c : Z) : M state unit :=
  match depth with
  | O => mtimeout
  | S depth' =>
      let handler_index := get_special_character_index c in
      if negb (handler_index =? u32 (-1))
      then special_characters_handlers (vga_putc_rec depth') handler_index
      else default_handler c
  end.

Definition vga_putc : Z → M state unit := vga_putc_rec 2.

Fixpoint vga_print (fuel : nat) (str : cptr) : M state unit :=
  match fuel with
  | O => mtimeout
  | S fuel' =>
      c ← rdc str;
      if c =? 0 then mret tt
      else
        vga_putc c ;;
        vga_print fuel' (cnext str)
  end.

Definition set_terminal_color (color : Z) : M state unit :=
  if (color >=? COLOR_BLUE) && (color <=? COLOR_WHITE)
  then mmodify (λ s, VgaState (vga_mem s) (vga_buffer s) color (vga_x s) (vga_y s))
  else mret tt.

(** [VGA_WORD_TO_CHAR(word)] of the 16-bit word at [a]. *)
Definition vga_word_char (a : Z) : M state Z :=
  lo ← rd8 a;
  hi ← rd8 (u32 (a + 1));
  mret (u8 (Z.shiftr (lo + 256 * hi) 8)).

Fixpoint vga_scroll_loop (fuel : nat) (rows_iter : Z) : M state Z :=
  match fuel with
  | O => mtimeout
  | S fuel' =>
      c ← vga_word_char rows_iter;
      if negb (c =? 10) then vga_scroll_loop fuel' (u32 (rows_iter + 2)) else mret (u32 (rows_iter + 2))
  end.

(** [vga_scroll], which nothing calls. *)
Definition vga_scroll (fuel : nat) : M state unit :=
  b ← mgets vga_buffer;
  rows_iter ← vga_scroll_loop fuel b;
  b ← mgets vga_buffer;
  memcpy b rows_iter (SCREEN_COLS * (SCREEN_ROWS - 1) * 2).

(** The pages of the screen are mapped by [map_physical_address_to_kheap]. *)
Definition vga_init (map_physical : Z → Z → M T Z) : M state unit :=
  vga_buffer ← zoom vga_mem set_vga_mem (map_physical VGA_PHYSICAL_ADDRESS 2);
  mmodify (λ s, VgaState (vga_mem s) vga_buffer (vga_color s) (vga_x s) (vga_y s)).
End vga_c.

(** ** What printing keeps

    The driver changes memory by storing bytes only: what such stores keep,
    printing keeps. *)

Section keeping.
Context {T : Type} `{ByteStore T} (I : T → Prop).
Hypothesis store_keeps : ∀ a v m m', I m → set8 m a v = Some m' → I m'.
Abbreviation kept := (λ s : vga_state T, I (vga_mem s)).

Lemma wr8_kept a v : preserves kept (wr8 a v).
Proof.
  intros s [] s' HI E. unfold wr8, mtry, set8 in E. simpl in E.
  destruct (set8 (vga_mem s) a v) as [m|] eqn:Em; [|done]. injection E as <-. by eapply store_keeps.
Qed.

Lemma rdc_kept p : preserves kept (rdc p).
Proof.
  intros s a s' HI E. destruct p as [a'|xs k]; simpl in E; [unfold rd8 in E; by destruct (get8 s a'); simplify_eq|].
  unfold mlift in E. by repeat (case_match; simplify_eq).
Qed.

Lemma move_to_kept x y : preserves kept (move_to x y).
Proof. by apply preserves_modify. Qed.
#[local] Hint Resolve wr8_kept rdc_kept move_to_kept : preserves.
#[local] Hint Extern 1 (preserves _ (mgets _)) => apply preserves_gets : preserves.

Lemma vga_flush_kept : preserves kept vga_flush.
Proof.
  apply preserves_bind; [|preserve]. generalize 2001%nat, 0. intros n.
  induction n as [|n IH]; intros i; cbn [vga_flush_loop]; preserve.
Qed.
#[local] Hint Resolve vga_flush_kept : preserves.

Lemma newline_handler_kept : preserves kept newline_handler.
Proof. unfold newline_handler, y_reached_limit. preserve. Qed.
#[local] Hint Resolve newline_handler_kept : preserves.

Lemma vga_putc_rec_kept n c : preserves kept (vga_putc_rec n c).
Proof.
  revert c. induction n as [|n IH]; intros c; cbn [vga_putc_rec]; [apply preserves_timeout|].
  unfold special_characters_handlers, default_handler, tab_handler, backspace_handler, get_address_by_location, x_reached_limit.
  preserve.
Qed.

Lemma vga_print_kept fuel str : preserves kept (vga_print fuel str).
Proof.
  revert str. induction fuel as [|fuel IH]; intros str; cbn [vga_print]; [apply preserves_timeout|].
  pose proof (vga_putc_rec_kept 2). unfold vga_putc. preserve.
Qed.
End keeping.

(** ** The screen *)

Section screen.
Context {T : Type} `{ByteStoreLaws T}.
Implicit Types s : vga_state T.

(** The bytes of the screen's 25 rows, and what the driver may write to: one
    more row and one more column. *)
Definition SCREEN_BYTES : Z := 4000.
Definition WRITTEN_BYTES : Z := 4162.

(** The address of column [x] of row [y]. *)
Definition cell s (x y : Z) : Z := vga_buffer s + 2 * (80 * y + x).

Record screen_ok s : Prop := {
  so_x : 0 ≤ vga_x s ≤ 80;
  so_y : 0 ≤ vga_y s ≤ 25;
  so_color : 0 ≤ vga_color s < 256;
  so_buffer : 0 ≤ vga_buffer s ∧ vga_buffer s + WRITTEN_BYTES ≤ 2 ^ 32;
  so_mapped : mapped s (vga_buffer s) WRITTEN_BYTES
}.

(** [s'] has the driver's variables of [s], but for the cursor. *)
Definition cursor_at s (x y : Z) s' : Prop :=
  vga_buffer s' = vga_buffer s ∧ vga_color s' = vga_color s ∧ vga_x s' = x ∧ vga_y s' = y.

(** [s'] shows [c] at column [x] of row [y]; the rest of memory is that of [s]. *)
Definition shows s (x y c : Z) s' : Prop :=
  ∀ b, get8 s' b = if decide (b = cell s x y) then Some (u8 c)
                   else if decide (b = cell s x y + 1) then Some (vga_color s) else get8 s b.

(** The screen of [s'] is blank; the rest of memory is that of [s]. *)
Definition cleared s s' : Prop :=
  ∀ b, get8 s' b = if decide (vga_buffer s ≤ b < vga_buffer s + SCREEN_BYTES)
                   then Some (if decide ((b - vga_buffer s) mod 2 = 0) then 32 else 0) else get8 s b.

Lemma screen_ok_next s s' x y :
  screen_ok s → cursor_at s x y s' → 0 ≤ x ≤ 80 → 0 ≤ y ≤ 25 →
  (∀ b, is_Some (get8 s b) → is_Some (get8 s' b)) → screen_ok s'.
Proof.
  intros [Hx Hy Hc Hb Hm] (Eb & Ec & Ex & Ey) Hx' Hy' Hk.
  split; rewrite ?Eb, ?Ec, ?Ex, ?Ey; try done. intros b Hr. apply Hk, Hm, Hr.
Qed.

Lemma shows_mapped s x y c s' b : 0 ≤ vga_color s < 256 → shows s x y c s' → is_Some (get8 s b) → is_Some (get8 s' b).
Proof. intros _ Hs Hb. rewrite Hs. repeat case_decide; eauto. Qed.

Lemma cleared_mapped s s' b : cleared s s' → is_Some (get8 s b) → is_Some (get8 s' b).
Proof. intros Hs Hb. rewrite Hs. repeat case_decide; eauto. Qed.

Lemma wr8_vga s a v w : get8 s a = Some w →
  ∃ m, wr8 a v s = Ret tt (set_vga_mem m s) ∧
    ∀ b, get8 (set_vga_mem m s) b = if decide (b = a) then Some (u8 v) else get8 s b.
Proof.
  intros E. destruct (set8_Some (vga_mem s) a v w E) as (m & Em & Hb).
  exists m. split; [|exact Hb]. unfold wr8, mtry, set8. simpl. by rewrite Em.
Qed.

Lemma vga_flush_loop_ok fuel s i :
  screen_ok s → 0 ≤ i ≤ 2000 → (Z.to_nat (2000 - i) < fuel)%nat →
  ∃ m, vga_flush_loop fuel (2 * i) s = Ret tt (set_vga_mem m s) ∧
    ∀ b, get8 (set_vga_mem m s) b =
      if decide (vga_buffer s + 2 * i ≤ b < vga_buffer s + SCREEN_BYTES)
      then Some (if decide ((b - vga_buffer s) mod 2 = 0) then 32 else 0) else get8 s b.
Proof.
  intros Hok Hi Hf. revert s i Hok Hi Hf. induction fuel as [|fuel IH]; intros s i Hok Hi Hf; [lia|].
  cbn [vga_flush_loop]. unfold SCREEN_COLS, SCREEN_ROWS, SCREEN_BYTES in *.
  destruct (Z.ltb_spec (2 * i) (80 * 25 * 2)).
  - pose proof Hok as [_ _ _ Hb Hm]. unfold WRITTEN_BYTES in *. rewrite bind_gets, !u32_small by lia.
    destruct (Hm (vga_buffer s + 2 * i)) as [w0 E0]; [lia|].
    destruct (wr8_vga s _ 32 w0 E0) as (m1 & R1 & W1). run R1.
    destruct (Hm (vga_buffer s + 2 * i + 1)) as [w1 E1]; [lia|].
    destruct (wr8_vga (set_vga_mem m1 s) (vga_buffer s + 2 * i + 1) COLOR_BLACK w1) as (m2 & R2 & W2).
    { by rewrite W1, decide_False by lia. }
    run R2. change (set_vga_mem m2 (set_vga_mem m1 s)) with (set_vga_mem m2 s) in *.
    destruct (IH (set_vga_mem m2 s) (i + 1)) as (m3 & R3 & W3); [|lia|lia|].
    { eapply (screen_ok_next s); [done|done|apply Hok|apply Hok|]. intros b Hs. rewrite W2, W1.
      repeat case_decide; eauto. }
    replace (2 * i + 2) with (2 * (i + 1)) by lia.
    exists m3. split; [exact R3|]. intros b. specialize (W3 b).
    change (set_vga_mem m3 (set_vga_mem m2 s)) with (set_vga_mem m3 s) in W3.
    rewrite W3. cbn [vga_buffer set_vga_mem].
    destruct (decide (vga_buffer s + 2 * (i + 1) ≤ b < vga_buffer s + 4000)).
    { by rewrite (decide_True (P := vga_buffer s + 2 * i ≤ b < _)) by lia. }
    rewrite W2, W1. destruct (decide (b = vga_buffer s + 2 * i + 1)) as [->|].
    { rewrite decide_True by lia. rewrite decide_False by dlia. done. }
    destruct (decide (b = vga_buffer s + 2 * i)) as [->|].
    { rewrite decide_True by lia. rewrite decide_True by dlia. done. }
    by rewrite decide_False by lia.
  - exists (vga_mem s). destruct s. split; [done|]. intros b. rewrite decide_False; [done|]. simpl. lia.
Qed.

Lemma vga_flush_ok s : screen_ok s → ∃ s', vga_flush s = Ret tt s' ∧ cleared s s' ∧ cursor_at s 0 0 s'.
Proof.
  intros Hok. destruct (vga_flush_loop_ok 2001 s 0) as (m & R & W); [done|lia|lia|].
  unfold vga_flush. run R. eexists. split; [reflexivity|]. split; [|done].
  intros b. specialize (W b). rewrite Z.mul_0_r, Z.add_0_r in W. exact W.
Qed.

(** A new line, or a new screen below the last one. *)
Lemma newline_handler_ok s : screen_ok s →
  if decide (vga_y s < 25)
  then newline_handler s = Ret tt (VgaState (vga_mem s) (vga_buffer s) (vga_color s) 0 (vga_y s + 1))
  else ∃ s', newline_handler s = Ret tt s' ∧ cleared s s' ∧ cursor_at s 0 0 s'.
Proof.
  intros Hok. pose proof (so_y s Hok) as Hy. unfold newline_handler. rewrite bind_gets.
  unfold move_to. rewrite bind_modify. unfold y_reached_limit. rewrite bind_gets. cbn [vga_y].
  unfold SCREEN_ROWS. rewrite u32_small, Z.gtb_ltb by lia. case_decide.
  - by rewrite (proj2 (Z.ltb_ge 25 _)) by lia.
  - rewrite (proj2 (Z.ltb_lt 25 _)) by lia.
    (* only the cursor is off, and the flush resets it *)
    destruct (vga_flush_loop_ok 2001 s 0) as (m & R & W); [done|lia|lia|].
    assert (∀ fuel i x y s, vga_flush_loop fuel i (VgaState (vga_mem s) (vga_buffer s) (vga_color s) x y)
      = match vga_flush_loop fuel i s with
        | Ret _ s' => Ret tt (VgaState (vga_mem s') (vga_buffer s') (vga_color s') x y)
        | Fault => Fault | Panic => Panic | Timeout => Timeout end) as Hany.
    { clear. induction fuel as [|fuel IH]; intros i x y s; [done|]. cbn [vga_flush_loop].
      destruct (_ <? _); [|done]. rewrite !bind_gets. cbn [vga_buffer]. unfold mbind, M_bind, wr8, mtry, set8.
      simpl. destruct (set8 (vga_mem s) _ _) as [m1|]; simpl; [|done].
      destruct (set8 m1 _ _) as [m2|]; simpl; [|done].
      by rewrite <-(IH _ _ _ (set_vga_mem m2 s)). }
    unfold vga_flush. rewrite Z.mul_0_r in R.
    assert (vga_flush_loop 2001 0 (VgaState (vga_mem s) (vga_buffer s) (vga_color s) 0 (vga_y s + 1))
      = Ret tt (VgaState m (vga_buffer s) (vga_color s) 0 (vga_y s + 1))) as R' by by rewrite Hany, R.
    run R'. eexists. split; [reflexivity|]. split; [|done].
    intros b. specialize (W b). rewrite Z.mul_0_r, Z.add_0_r in W. exact W.
Qed.

(** Storing a character and its colour at a cell. *)
Lemma store_at_ok s x y c :
  0 ≤ vga_color s < 256 → 0 ≤ cell s x y → cell s x y + 2 ≤ 2 ^ 32 → mapped s (cell s x y) 2 →
  ∃ m, (wr8 (cell s x y) c ;; color ← mgets vga_color; wr8 (u32 (cell s x y + 1)) color) s
        = Ret tt (set_vga_mem m s) ∧ shows s x y c (set_vga_mem m s).
Proof.
  intros Hc H1 H2 Hm. destruct (Hm (cell s x y)) as [w0 E0]; [lia|].
  destruct (wr8_vga s _ c w0 E0) as (m1 & R1 & W1). run R1. rewrite bind_gets.
  rewrite u32_small by lia. cbn [vga_color set_vga_mem].
  destruct (Hm (cell s x y + 1)) as [w1 E1]; [lia|].
  destruct (wr8_vga (set_vga_mem m1 s) (cell s x y + 1) (vga_color s) w1) as (m2 & R2 & W2).
  { by rewrite W1, decide_False by lia. }
  exists m2. split; [exact R2|]. intros b.
  change (set_vga_mem m2 (set_vga_mem m1 s)) with (set_vga_mem m2 s) in W2. rewrite W2, W1.
  rewrite (u8_small (vga_color s)) by lia.
  destruct (decide (b = cell s x y)) as [->|]; [by rewrite decide_False by lia|done].
Qed.

(** The address of a cell, the one before a line's first included. *)
Lemma get_address_by_location_ok s x y :
  -1 ≤ x ≤ 80 → 0 ≤ y ≤ 25 → 0 ≤ cell s x y < 2 ^ 32 →
  get_address_by_location (u32 x) y s = Ret (cell s x y) s.
Proof.
  intros Hx Hy Hc. unfold get_address_by_location, SCREEN_COLS, mgets. f_equal. unfold cell in *.
  rewrite (u32_small (y * 80 * 2)) by lia. rewrite <-(u32_small (vga_buffer s + 2 * (80 * y + x))) by lia.
  unfold u32. rewrite Zplus_mod_idemp_r, Z.mul_mod_idemp_l by lia.
  rewrite (Z.add_comm ((x * 2) mod _)), Z.add_assoc, Zplus_mod_idemp_r. f_equal. lia.
Qed.

Lemma cell_in_screen s x y : screen_ok s → 0 ≤ x ≤ 80 → 0 ≤ y ≤ 25 →
  0 ≤ cell s x y ∧ cell s x y + 2 ≤ 2 ^ 32 ∧ mapped s (cell s x y) 2.
Proof.
  intros [_ _ _ Hb Hm] Hx Hy. unfold cell, WRITTEN_BYTES in *.
  split_and!; [lia|lia|]. eapply mapped_sub; [exact Hm|lia|lia].
Qed.

(** Where the next character goes. *)
Definition advanced s s' : Prop :=
  if decide (vga_x s < 80) then cursor_at s (vga_x s + 1) (vga_y s) s'
  else cursor_at s 0 (vga_y s + 1) s'.

Definition ordinary (c : Z) : Prop := i8 c ≠ 10 ∧ i8 c ≠ 9 ∧ i8 c ≠ 13 ∧ i8 c ≠ 8.

Lemma special_index_ordinary c : ordinary c → get_special_character_index c = u32 (-1).
Proof.
  intros (H1 & H2 & H3 & H4). unfold get_special_character_index, special_characters.
  cbn [get_special_character_index_loop]. by rewrite !(proj2 (Z.eqb_neq _ (i8 c))) by congruence.
Qed.

Lemma vga_putc_ordinary n c s : ordinary c → vga_putc_rec (S n) c s = default_handler c s.
Proof. intros Ho. cbn [vga_putc_rec]. rewrite special_index_ordinary by done. by rewrite Z.eqb_refl. Qed.

Lemma default_handler_at s x c :
  -1 ≤ x ≤ 80 → 0 ≤ vga_y s ≤ 25 → 0 ≤ vga_color s < 256 → vga_x s = u32 x →
  0 ≤ cell s x (vga_y s) → cell s x (vga_y s) + 2 ≤ 2 ^ 32 → mapped s (cell s x (vga_y s)) 2 →
  ∃ m, shows s x (vga_y s) c (set_vga_mem m s) ∧
    default_handler c s =
      (limit ← x_reached_limit; if (limit : bool) then newline_handler else mret tt)
        (VgaState m (vga_buffer s) (vga_color s) (u32 (vga_x s + 1)) (vga_y s)).
Proof.
  intros Hx Hy Hc Ex H1 H2 Hm. unfold default_handler. rewrite !bind_gets.
  destruct (store_at_ok s x (vga_y s) c) as (m & R & W); [done..|].
  exists m. split; [done|].
  assert (get_address_by_location (vga_x s) (vga_y s) s = Ret (cell s x (vga_y s)) s) as R0.
  { rewrite Ex. apply get_address_by_location_ok; [done|done|lia]. }
  apply bind_Ret_inv in R as ([] & s2 & R2 & (col & s3 & R3 & R4)%bind_Ret_inv).
  run R0. run R2. run R3. run R4. rewrite !bind_gets. done.
Qed.

Lemma default_handler_stores s c :
  screen_ok s →
  ∃ m, shows s (vga_x s) (vga_y s) c (set_vga_mem m s) ∧
    default_handler c s =
      (limit ← x_reached_limit; if (limit : bool) then newline_handler else mret tt)
        (VgaState m (vga_buffer s) (vga_color s) (vga_x s + 1) (vga_y s)).
Proof.
  intros Hok. pose proof (so_x s Hok) as Hx. pose proof (so_y s Hok) as Hy.
  destruct (cell_in_screen s (vga_x s) (vga_y s) Hok Hx Hy) as (C1 & C2 & C3).
  destruct (default_handler_at s (vga_x s) c) as (m & W & E); [lia|lia|apply Hok| |lia|lia|done|].
  { by rewrite u32_small by lia. }
  exists m. split; [done|]. by rewrite E, u32_small by lia.
Qed.

(** In the middle of a line. *)
Lemma default_handler_inside s c : screen_ok s → vga_x s < 80 →
  ∃ s', default_handler c s = Ret tt s' ∧ screen_ok s' ∧ shows s (vga_x s) (vga_y s) c s' ∧
    cursor_at s (vga_x s + 1) (vga_y s) s'.
Proof.
  intros Hok Hx. pose proof (so_x s Hok). destruct (default_handler_stores s c Hok) as (m & W & ->).
  unfold x_reached_limit, SCREEN_COLS. rewrite bind_gets. cbn [vga_x].
  rewrite Z.gtb_ltb, (proj2 (Z.ltb_ge 80 _)) by lia. eexists. split; [reflexivity|].
  assert (cursor_at s (vga_x s + 1) (vga_y s) (VgaState m (vga_buffer s) (vga_color s) (vga_x s + 1) (vga_y s)))
    as Hcur by done.
  split_and!; [|exact W|done].
  eapply screen_ok_next; [done|exact Hcur|lia|apply Hok|]. intros b.
  exact (shows_mapped s (vga_x s) (vga_y s) c (set_vga_mem m s) b (so_color s Hok) W).
Qed.

(** At column 80 the cursor goes to the next line. *)
Lemma default_handler_wraps s c : screen_ok s → vga_x s = 80 → vga_y s < 25 →
  ∃ s', default_handler c s = Ret tt s' ∧ screen_ok s' ∧ shows s 80 (vga_y s) c s' ∧
    cursor_at s 0 (vga_y s + 1) s'.
Proof.
  intros Hok Hx Hy. pose proof (so_y s Hok). destruct (default_handler_stores s c Hok) as (m & W & ->).
  rewrite Hx in *. unfold x_reached_limit, SCREEN_COLS. rewrite bind_gets. cbn [vga_x].
  change (80 + 1 >? 80) with true. cbv iota.
  (* the state at the newline, with a column that is in range *)
  assert (newline_handler (VgaState m (vga_buffer s) (vga_color s) (80 + 1) (vga_y s))
    = newline_handler (set_vga_mem m s)) as ->.
  { unfold newline_handler. rewrite !bind_gets. done. }
  assert (screen_ok (set_vga_mem m s)) as Hok'.
  { eapply (screen_ok_next s _ (vga_x s) (vga_y s)); [done|done|lia|lia|]. intros b.
    exact (shows_mapped s _ _ c (set_vga_mem m s) b (so_color s Hok) W). }
  pose proof (newline_handler_ok _ Hok') as Hn. cbn [vga_y set_vga_mem] in Hn. rewrite decide_True in Hn by done.
  rewrite Hn. eexists. split; [reflexivity|].
  split_and!; [|exact W|done].
  eapply (screen_ok_next (set_vga_mem m s) _ 0 (vga_y s + 1)); [done|done|lia|lia|done].
Qed.

(** At the end of the last line the screen is cleared. *)
Lemma default_handler_clears s c : screen_ok s → vga_x s = 80 → vga_y s = 25 →
  ∃ s1 s', default_handler c s = Ret tt s' ∧ screen_ok s' ∧ shows s 80 25 c s1 ∧
    vga_buffer s1 = vga_buffer s ∧ cleared s1 s' ∧ cursor_at s 0 0 s'.
Proof.
  intros Hok Hx Hy. destruct (default_handler_stores s c Hok) as (m & W & ->).
  rewrite Hx, Hy in *. unfold x_reached_limit, SCREEN_COLS. rewrite bind_gets. cbn [vga_x].
  change (80 + 1 >? 80) with true. cbv iota.
  assert (newline_handler (VgaState m (vga_buffer s) (vga_color s) (80 + 1) 25)
    = newline_handler (set_vga_mem m s)) as ->.
  { unfold newline_handler. rewrite !bind_gets. cbn [vga_y set_vga_mem]. by rewrite Hy. }
  assert (screen_ok (set_vga_mem m s)) as Hok'.
  { eapply (screen_ok_next s _ (vga_x s) (vga_y s)); [done|done|lia|lia|]. intros b.
    exact (shows_mapped s _ _ c (set_vga_mem m s) b (so_color s Hok) W). }
  pose proof (newline_handler_ok _ Hok') as Hn. cbn [vga_y set_vga_mem] in Hn. rewrite decide_False in Hn by lia.
  destruct Hn as (s' & R & Hcl & Hcur). exists (set_vga_mem m s), s'. split; [done|].
  split_and!; [|done|done|done|done]. eapply screen_ok_next; [exact Hok'|exact Hcur|lia|lia|].
  intros b. by apply cleared_mapped.
Qed.

(** A string of which no byte is in the memory the driver writes to. *)
Definition off_screen s (str : cptr) (xs : list Z) : Prop :=
  match str with
  | Mem a => a + Z.of_nat (length xs) < vga_buffer s ∨ vga_buffer s + WRITTEN_BYTES ≤ a
  | Arr _ _ => True
  end.

Lemma off_screen_kept s s' str xs :
  off_screen s str xs → same_but (vga_buffer s) WRITTEN_BYTES s s' → kept s s' str xs.
Proof. destruct str; simpl; [|done]. intros Ho Hs b Hb. apply Hs. lia. Qed.

Lemma off_screen_cons s s' str x xs :
  cstring s str (x :: xs) → off_screen s str (x :: xs) → vga_buffer s' = vga_buffer s →
  off_screen s' (cnext str) xs.
Proof. destruct str; simpl; [|done]. intros (Hp & _) Ho ->. rewrite u32_small by lia. lia. Qed.

Lemma shows_same_but s x y c s' : shows s x y c s' → same_but (cell s x y) 2 s s'.
Proof. intros Hs b Hb. by rewrite Hs, !decide_False by lia. Qed.

(** Ordinary characters that fit in the rest of the line. *)
Lemma vga_print_inside fuel s str xs :
  screen_ok s → cstring s str xs → off_screen s str xs → Forall ordinary xs → (length xs < fuel)%nat →
  vga_x s + Z.of_nat (length xs) ≤ 80 →
  ∃ s', vga_print fuel str s = Ret tt s' ∧ screen_ok s' ∧
    cursor_at s (vga_x s + Z.of_nat (length xs)) (vga_y s) s' ∧
    (∀ i x, xs !! i = Some x →
       get8 s' (cell s (vga_x s + Z.of_nat i) (vga_y s)) = Some x ∧
       get8 s' (cell s (vga_x s + Z.of_nat i) (vga_y s) + 1) = Some (vga_color s)) ∧
    same_but (cell s (vga_x s) (vga_y s)) (2 * Z.of_nat (length xs)) s s'.
Proof.
  revert s str xs. induction fuel as [|fuel IH]; intros s str xs Hok Hc Hoff Hord Hf Hx; [lia|].
  cbn [vga_print]. run (rdc_first _ _ _ Hc). destruct xs as [|x xs]; cbn [first_byte].
  { exists s. rewrite Z.eqb_refl, Z.add_0_r. split_and!; try done. }
  pose proof (cstring_bytes _ _ _ Hc) as [Hxr _]%Forall_cons. apply Forall_cons in Hord as [Hord1 Hord].
  rewrite (proj2 (Z.eqb_neq x 0)) by lia. cbn [length] in *.
  destruct (default_handler_inside s x Hok) as (s1 & R1 & Hok1 & W1 & Hcur1); [lia|].
  assert (vga_putc x s = Ret tt s1) as R by (unfold vga_putc; by rewrite vga_putc_ordinary). run R. clear R R1.
  pose proof Hcur1 as (Eb & Ec & Ex & Ey). pose proof (shows_same_but _ _ _ _ _ W1) as Hs1.
  pose proof (so_x s Hok). pose proof (so_y s Hok).
  assert (cstring s1 (cnext str) xs) as Hc1.
  { apply (cstring_cons s1 str x). apply (cstring_kept s); [done|]. apply (off_screen_kept s); [done|].
    intros b Hb. apply Hs1. unfold cell, WRITTEN_BYTES in *. lia. }
  destruct (IH s1 (cnext str) xs) as (s2 & R2 & Hok2 & Hcur2 & Hcells & Hsame); try done; try lia.
  { exact (off_screen_cons s s1 str x xs Hc Hoff Eb). }
  destruct Hcur2 as (Eb2 & Ec2 & Ex2 & Ey2). unfold cell in *. rewrite Eb, Ec, Ex, Ey in *.
  exists s2. split_and!; [done|done| | |].
  - split_and!; try congruence. lia.
  - intros [|i] z Hz.
    + injection Hz as ->. rewrite Z.add_0_r, !Hsame by lia. rewrite !W1. unfold cell.
      split; [by rewrite decide_True, u8_small by lia|by rewrite decide_False, decide_True by lia].
    + specialize (Hcells i z Hz).
      replace (vga_x s + Z.of_nat (S i)) with (vga_x s + 1 + Z.of_nat i) by lia. exact Hcells.
  - intros b Hb. rewrite Hsame by lia. apply Hs1. lia.
Qed.
(** One ordinary character. *)
Lemma vga_putc_step s c :
  screen_ok s → ordinary c →
  ∃ s', vga_putc c s = Ret tt s' ∧ screen_ok s' ∧
    same_but (vga_buffer s) WRITTEN_BYTES s s' ∧
    if decide (vga_x s = 80 ∧ vga_y s = 25)
    then cursor_at s 0 0 s' ∧
         ∀ b, vga_buffer s ≤ b < vga_buffer s + SCREEN_BYTES →
           get8 s' b = Some (if decide ((b - vga_buffer s) mod 2 = 0) then 32 else 0)
    else shows s (vga_x s) (vga_y s) c s' ∧ advanced s s'.
Proof.
  intros Hok Ho. unfold vga_putc. rewrite vga_putc_ordinary by done.
  pose proof (so_x s Hok). pose proof (so_y s Hok). unfold advanced.
  assert (∀ s', shows s (vga_x s) (vga_y s) c s' → same_but (vga_buffer s) WRITTEN_BYTES s s') as Hsame.
  { intros s' Hs b Hb. apply (shows_same_but _ _ _ _ _ Hs). unfold cell, WRITTEN_BYTES in *. lia. }
  destruct (decide (vga_x s < 80)); [|destruct (decide (vga_y s = 25)) as [Hy|]].
  - destruct (default_handler_inside s c) as (s' & R & Hok' & W & Hcur); [done..|].
    exists s'. rewrite decide_False by lia. auto.
  - destruct (default_handler_clears s c) as (s1 & s' & R & Hok' & W & Eb & Hcl & Hcur); [done|lia|done|].
    assert (vga_x s = 80) as Hx by lia. rewrite <-Hx, <-Hy in W.
    exists s'. rewrite decide_True by lia. split_and!; [done|done| |done|].
    + intros b Hb. rewrite Hcl, Eb. unfold SCREEN_BYTES, WRITTEN_BYTES in *.
      rewrite decide_False by lia. apply Hsame; [done|]. unfold WRITTEN_BYTES. lia.
    + intros b Hb. rewrite Hcl, Eb. by rewrite decide_True.
  - assert (vga_x s = 80) as Hx by lia.
    destruct (default_handler_wraps s c) as (s' & R & Hok' & W & Hcur); [done|done|lia|].
    exists s'. rewrite decide_False by lia. rewrite <-Hx in W. auto.
Qed.

(** Every character but the two that go wrong keeps the cursor in range and
    writes to the screen only. *)
Lemma vga_putc_ok s c : screen_ok s → 0 < c < 256 → c ≠ 8 → c ≠ 13 →
  ∃ s', vga_putc c s = Ret tt s' ∧ screen_ok s' ∧ vga_buffer s' = vga_buffer s ∧
    vga_color s' = vga_color s ∧ same_but (vga_buffer s) WRITTEN_BYTES s s'.
Proof.
  intros Hok Hc H8 H13.
  assert (∀ k, 0 ≤ k < 127 → i8 c = k → c = k) as Hi.
  { intros k Hk E. apply i8_inj; [lia|lia|]. rewrite E. unfold i8. change (2 ^ 7) with 128. dlia. }
  assert (∀ y, 0 ≤ y ≤ 25 → ∀ x, ∃ s', newline_handler (VgaState (vga_mem s) (vga_buffer s) (vga_color s) x y)
      = Ret tt s' ∧ screen_ok s' ∧ vga_buffer s' = vga_buffer s ∧
    vga_color s' = vga_color s ∧ same_but (vga_buffer s) WRITTEN_BYTES s s') as Hnl.
  { intros y Hy x. set (s0 := VgaState (vga_mem s) (vga_buffer s) (vga_color s) 0 y).
    assert (screen_ok s0) as Hok0 by (apply (screen_ok_next s s0 0 y); [done|done|lia|done|done]).
    change (newline_handler (VgaState (vga_mem s) (vga_buffer s) (vga_color s) x y)) with (newline_handler s0).
    pose proof (newline_handler_ok s0 Hok0) as Hn. cbn [vga_y s0] in Hn. destruct (decide (y < 25)).
    - rewrite Hn. eexists. split; [reflexivity|]. split_and!; try done.
      eapply (screen_ok_next s0 _ 0 (y + 1)); [done|done|lia|lia|done].
    - destruct Hn as (s' & R & Hcl & Hcur). exists s'. split; [done|].
      pose proof Hcur as (Eb & Ec & _ & _). split_and!; [|done|done|].
      + eapply screen_ok_next; [exact Hok0|exact Hcur|lia|lia|]. intros b. by apply cleared_mapped.
      + intros b Hb. rewrite Hcl. rewrite decide_False; [done|]. cbn [vga_buffer s0].
        unfold SCREEN_BYTES, WRITTEN_BYTES in *. lia. }
  pose proof (so_x s Hok) as Hx. pose proof (so_y s Hok) as Hy.
  destruct (decide (c = 10)) as [->|H10].
  { destruct s as [m b col x y]. exact (Hnl y Hy x). }
  destruct (decide (c = 9)) as [->|H9].
  { change (vga_putc 9 s) with (tab_handler s). unfold tab_handler. rewrite !bind_gets.
    unfold move_to. rewrite bind_modify. unfold x_reached_limit, SCREEN_COLS. rewrite bind_gets. cbn [vga_x].
    rewrite u32_small, Z.gtb_ltb by lia. destruct (Z.ltb_spec 80 (vga_x s + 4)); [apply Hnl; lia|].
    eexists. split; [reflexivity|]. split_and!; try done.
    eapply (screen_ok_next s _ (vga_x s + 4) (vga_y s)); [done|done|lia|lia|done]. }
  destruct (vga_putc_step s c Hok) as (s' & R & Hok' & Hs & Hr).
  { split_and!; intros E; apply Hi in E; lia. }
  exists s'. split_and!; try done.
  - destruct (decide _); [by destruct Hr as [(? & _) _]|]. destruct Hr as [_ Ha]. unfold advanced in Ha.
    destruct (decide _); by destruct Ha as (? & _).
  - destruct (decide _); [by destruct Hr as [(_ & ? & _) _]|]. destruct Hr as [_ Ha]. unfold advanced in Ha.
    destruct (decide _); by destruct Ha as (_ & ? & _).
Qed.
End screen.

(** ** Properties *)

Section properties.
Context {T : Type} `{ByteStoreLaws T}.

(** C33.  [vga_putc] of an ordinary character, with the cursor where the
    driver keeps it: the character appears at the cursor in the current
    colour and the cursor moves on, to the next line when column 80 has been
    written; at the end of row 25 the screen is cleared and the cursor goes
    home.  Nothing else in memory changes, no byte outside of the 4162 from
    the screen's beginning on is written, and the cursor stays in range. *)
Theorem vga_putc_spec (s : vga_state T) c :
  screen_ok s → ordinary c →
  ∃ s', vga_putc c s = Ret tt s' ∧ screen_ok s' ∧
    same_but (vga_buffer s) WRITTEN_BYTES s s' ∧
    if decide (vga_x s = 80 ∧ vga_y s = 25)
    then cursor_at s 0 0 s' ∧
         ∀ b, vga_buffer s ≤ b < vga_buffer s + SCREEN_BYTES →
           get8 s' b = Some (if decide ((b - vga_buffer s) mod 2 = 0) then 32 else 0)
    else shows s (vga_x s) (vga_y s) c s' ∧ advanced s s'.
Proof. apply vga_putc_step. Qed.

(** Printing text on one line: a string of ordinary characters that fits
    in the rest of the line appears there in the current colour, the cursor
    ends behind it, and nothing else in memory changes. *)
Theorem vga_print_line fuel (s : vga_state T) str xs :
  screen_ok s → cstring s str xs → off_screen s str xs → Forall ordinary xs → (length xs < fuel)%nat →
  vga_x s + Z.of_nat (length xs) ≤ 80 →
  ∃ s', vga_print fuel str s = Ret tt s' ∧ screen_ok s' ∧
    cursor_at s (vga_x s + Z.of_nat (length xs)) (vga_y s) s' ∧
    (∀ i x, xs !! i = Some x →
       get8 s' (cell s (vga_x s + Z.of_nat i) (vga_y s)) = Some x ∧
       get8 s' (cell s (vga_x s + Z.of_nat i) (vga_y s) + 1) = Some (vga_color s)) ∧
    same_but (cell s (vga_x s) (vga_y s)) (2 * Z.of_nat (length xs)) s s'.
Proof. apply vga_print_inside. Qed.

(** The cursor may be one column and one row too far.  What is printed in
    column 80 is stored in the first cell of the next line, where the next
    character replaces it; what is printed in row 25 is stored behind the
    screen and cannot be seen. *)
Theorem vga_lost_characters (s : vga_state T) c d :
  screen_ok s → ordinary c → ordinary d →
  (vga_x s = 80 → vga_y s < 25 →
   ∃ s', (vga_putc c ;; vga_putc d) s = Ret tt s' ∧ cursor_at s 1 (vga_y s + 1) s' ∧
     shows s 0 (vga_y s + 1) d s') ∧
  (vga_x s < 80 → vga_y s = 25 →
   ∃ s', vga_putc c s = Ret tt s' ∧
     ∀ b, vga_buffer s ≤ b < vga_buffer s + SCREEN_BYTES → get8 s' b = get8 s b).
Proof.
  intros Hok Hc Hd. unfold vga_putc. split; intros Hx Hy.
  - destruct (default_handler_wraps s c) as (s1 & R1 & Hok1 & W1 & Hcur1); [done..|].
    rewrite <-(vga_putc_ordinary 1 c s Hc) in R1. run R1. rewrite vga_putc_ordinary by done.
    destruct Hcur1 as (Eb & Ec & Ex & Ey).
    destruct (default_handler_inside s1 d) as (s2 & R2 & _ & W2 & (Eb2 & Ec2 & Ex2 & Ey2)); [done|lia|].
    exists s2. split_and!; [done| |].
    + split_and!; congruence || lia.
    + intros b. rewrite W2, W1. rewrite Ec. unfold cell. rewrite Eb, Ex, Ey.
      replace (vga_buffer s + 2 * (80 * vga_y s + 80)) with (vga_buffer s + 2 * (80 * (vga_y s + 1) + 0)) by lia.
      repeat case_decide; done.
  - rewrite vga_putc_ordinary by done.
    destruct (default_handler_inside s c) as (s1 & R1 & _ & W1 & _); [done..|].
    pose proof (so_x s Hok). exists s1. split; [done|]. intros b Hb. apply (shows_same_but _ _ _ _ _ W1).
    unfold cell, SCREEN_BYTES in *. lia.
Qed.

(** The other special characters.  There are four of them and three
    handlers: a backspace calls through the word behind the table.  The
    carriage return has the backspace's handler: it blanks the character
    before the cursor and moves there; at the beginning of a line its test
    for that passes all the same, it blanks the last cell of the line before
    - of the two bytes in front of the screen, on the first line - and
    leaves the cursor in column 2^32 - 1. *)
Theorem vga_special_characters (s : vga_state T) :
  screen_ok s → 2 ≤ vga_buffer s → mapped s (vga_buffer s - 2) 2 →
  vga_putc 8 s = Fault ∧
  (∃ s', vga_putc 13 s = Ret tt s' ∧ shows s (vga_x s - 1) (vga_y s) 32 s' ∧
     cursor_at s (u32 (vga_x s - 1)) (vga_y s) s') ∧
  (vga_y s < 25 → ∃ s', vga_putc 10 s = Ret tt s' ∧ cursor_at s 0 (vga_y s + 1) s' ∧
     ∀ b, get8 s' b = get8 s b).
Proof.
  intros Hok Hbuf Hmap. pose proof Hok as [Hx Hy Hcol Hb Hm]. unfold WRITTEN_BYTES in *.
  split_and!; [done| |].
  - change (vga_putc 13 s) with (backspace_handler (vga_putc_rec 1) s). unfold backspace_handler.
    rewrite !bind_gets, Z.geb_leb. pose proof (u32_range (vga_x s - 1)). rewrite (proj2 (Z.leb_le 0 _)) by lia.
    unfold move_to. rewrite bind_modify.
    set (s1 := VgaState _ _ _ _ _).
    destruct (default_handler_at s1 (vga_x s - 1) 32) as (m & W & E); try done; try lia.
    + cbn [vga_buffer s1]. unfold cell. cbn [vga_buffer vga_y s1]. lia.
    + unfold cell. cbn [vga_buffer vga_y s1]. lia.
    + intros b. unfold cell. cbn [vga_buffer vga_y s1]. intros Hr.
      destruct (decide (b < vga_buffer s)); [apply Hmap; lia|apply Hm; lia].
    + unfold x_reached_limit in E. rewrite bind_gets in E. cbn [vga_x s1] in E.
      assert (u32 (u32 (vga_x s - 1) + 1) = vga_x s) as Eu.
      { unfold u32. rewrite Zplus_mod_idemp_l. rewrite Z.mod_small; lia. }
      rewrite Eu, Z.gtb_ltb in E. unfold SCREEN_COLS in E. rewrite (proj2 (Z.ltb_ge 80 _)) in E by lia.
      assert (vga_putc_rec 1 32 s1 = Ret tt (VgaState m (vga_buffer s) (vga_color s) (vga_x s) (vga_y s))) as R by exact E.
      run R. rewrite !bind_gets. eexists. split; [reflexivity|]. split; [exact W|done].
  - intros Hy25. change (vga_putc 10 s) with (newline_handler s).
    pose proof (newline_handler_ok s Hok) as Hn. rewrite decide_True in Hn by done.
    rewrite Hn. eexists. split; [reflexivity|]. split; [done|]. done.
Qed.
End properties.

(** ** Witnesses *)

Definition example_screen (x y : Z) : vga_state carray := VgaState (CArray 0x2000 ∅) 0x100 VGA_DEFAULT_COLOR x y.

Lemma example_screen_mapped x y a n : 0 ≤ a → a + n ≤ 0x2000 → mapped (example_screen x y) a n.
Proof. intros Ha Hn b Hb. unfold get8. simpl. rewrite decide_True by lia. eauto. Qed.

Lemma example_screen_ok x y : 0 ≤ x ≤ 80 → 0 ≤ y ≤ 25 → screen_ok (example_screen x y).
Proof.
  intros Hx Hy. split; cbn [vga_x vga_y vga_color vga_buffer example_screen].
  - done.
  - done.
  - unfold VGA_DEFAULT_COLOR, COLOR_LIGHT_GREY. lia.
  - unfold WRITTEN_BYTES. lia.
  - apply example_screen_mapped; unfold WRITTEN_BYTES; lia.
Qed.

Lemma example_ordinary : Forall ordinary [72; 105].
Proof. repeat constructor; vm_compute; congruence. Qed.

Lemma vga_putc_spec_witness :
  ∃ s', vga_putc 72 (example_screen 3 1) = Ret tt s' ∧
    shows (example_screen 3 1) 3 1 72 s' ∧ cursor_at (example_screen 3 1) 4 1 s'.
Proof.
  destruct (vga_putc_spec (example_screen 3 1) 72) as (s' & R & _ & _ & Hr).
  - apply example_screen_ok; lia.
  - apply (Forall_inv example_ordinary).
  - exists s'. split; [exact R|]. rewrite decide_False in Hr by (simpl; lia). exact Hr.
Defined.

Lemma vga_print_line_witness :
  ∃ s', vga_print 3 (Arr [72; 105; 0] 0) (example_screen 78 24) = Ret tt s' ∧
    cursor_at (example_screen 78 24) 80 24 s' ∧
    get8 s' (0x100 + 2 * (80 * 24 + 79)) = Some 105.
Proof.
  destruct (vga_print_line 3 (example_screen 78 24) (Arr [72; 105; 0] 0) [72; 105])
    as (s' & R & _ & Hcur & Hcells & _).
  - apply example_screen_ok; lia.
  - apply (cstring_arr _ [72; 105]). repeat constructor; lia.
  - exact I.
  - exact example_ordinary.
  - simpl. lia.
  - simpl. lia.
  - exists s'. split; [exact R|]. split; [exact Hcur|]. exact (proj1 (Hcells 1%nat 105 eq_refl)).
Defined.

Lemma vga_lost_characters_witness :
  (∃ s', (vga_putc 72 ;; vga_putc 105) (example_screen 80 3) = Ret tt s' ∧
     cursor_at (example_screen 80 3) 1 4 s' ∧ shows (example_screen 80 3) 0 4 105 s') ∧
  (∃ s', vga_putc 72 (example_screen 0 25) = Ret tt s' ∧
     ∀ b, 0x100 ≤ b < 0x100 + SCREEN_BYTES → get8 s' b = get8 (example_screen 0 25) b).
Proof.
  pose proof (Forall_inv example_ordinary) as H1.
  pose proof (Forall_inv (Forall_inv_tail example_ordinary)) as H2.
  split.
  - destruct (vga_lost_characters (example_screen 80 3) 72 105) as [Hl _]; [apply example_screen_ok; lia|done|done|].
    exact (Hl eq_refl eq_refl).
  - destruct (vga_lost_characters (example_screen 0 25) 72 105) as [_ Hl]; [apply example_screen_ok; lia|done|done|].
    exact (Hl eq_refl eq_refl).
Defined.

Lemma vga_special_characters_witness :
  vga_putc 8 (example_screen 0 2) = Fault ∧
  ∃ s', vga_putc 13 (example_screen 0 2) = Ret tt s' ∧ vga_x s' = 2 ^ 32 - 1 ∧
    get8 s' (0x100 + 2 * (80 * 1 + 79)) = Some 32.
Proof.
  destruct (vga_special_characters (example_screen 0 2)) as (H1 & (s' & R & W & Hcur) & _).
  - apply example_screen_ok; lia.
  - simpl. lia.
  - apply example_screen_mapped; simpl; lia.
  - split; [exact H1|]. exists s'. split; [exact R|]. split; [exact (proj1 (proj2 (proj2 Hcur)))|].
    rewrite W. reflexivity.
Defined.
