(* ===== verification/Stdio.v ===== *)
(** * Formatted output: [libc/stdio.c]

    The console is an interface, [Console]: [vga_print] of a short string.  An
    [int] that is incremented beyond [INT_MAX], or negated when it is the least
    one, is undefined and faults.  [va_list] is the list of the words passed;
    [print_buf] and [scr] are local arrays (see [CPtr]).  One fuel serves the
    loops over strings; the loop over digits stops at the latest when
    [print_buf] is full, so its fuel is a constant. *)

From S2P Require Import Prelude Memory CString CPtr Bitmap Phys Paging Kheap Kmalloc Vga.

(** [vga_print]. *)
Class Console (T : Type) := { print_string : cptr → M T unit }.

Definition PAD_RIGHT : Z := 1.
Definition PAD_ZERO : Z := 2.
Definition PRINT_BUF_LEN : nat := 12.

Definition has_flag (pad flag : Z) : bool := negb (Z.land pad flag =? 0).

Section stdio_c.
Context {T : Type} `{ByteStore T, Console T}.

(** The literal ["(null)"], and what [print_buf] holds before it is written. *)
Variable null_string : Z.
Variable print_buf : list Z.

(** [x + y] of two [int]s. *)
Definition int_add (x y : Z) : M T Z := if x + y >? INT_MAX then mfault else mret (x + y).

Definition printchar (out c : Z) : M T unit :=
  if negb (out =? NULL) then
    str ← rd32 out;
    wr8 str c ;;
    str ← rd32 out;
    wr32 out (u32 (str + 1))
  else print_string (Arr [u8 c; 0] 0).

(** [for (ptr = string; *ptr; ++ptr) ++len;] *)
Fixpoint prints_len (fuel : nat) (ptr : cptr) (len : Z) : M T Z :=
  match fuel with
  | O => mtimeout
  | S fuel' =>
      c ← rdc ptr;
      if c =? 0 then mret len
      else
        len ← int_add len 1;
        prints_len fuel' (cnext ptr) len
  end.

(** [for ( ; width > 0; --width)], [n] iterations left; the result is [pc]. *)
Fixpoint prints_pad (n : nat) (out padchar pc : Z) : M T Z :=
  match n with
  | O => mret pc
  | S n' =>
      printchar out padchar ;;
      pc ← int_add pc 1;
      prints_pad n' out padchar pc
  end.

Fixpoint prints_body (fuel : nat) (out : Z) (string : cptr) (pc : Z) : M T Z :=
  match fuel with
  | O => mtimeout
  | S fuel' =>
      c ← rdc string;
      if c =? 0 then mret pc
      else
        c ← rdc string;
        printchar out (i8 c) ;;
        pc ← int_add pc 1;
        prints_body fuel' out (cnext string) pc
  end.

Definition prints (fuel : nat) (out : Z) (string : cptr) (width pad : Z) : M T Z :=
  wp ← (if width >? 0 then
          len ← prints_len fuel string 0;
          mret (if len >=? width then 0 else width - len, if has_flag pad PAD_ZERO then 48 else 32)
        else mret (width, 32));
  let '(width, padchar) := wp : Z * Z in
  pw ← (if negb (has_flag pad PAD_RIGHT) then
          pc ← prints_pad (Z.to_nat width) out padchar 0;
          mret (pc, Z.min width 0)
        else mret (0, width));
  let '(pc, width) := pw : Z * Z in
  pc ← prints_body fuel out string pc;
  prints_pad (Z.to_nat width) out padchar pc.

(** [print_buf[i] = v] *)
Definition set_local (arr : list Z) (i v : Z) : M T (list Z) :=
  if decide (0 ≤ i < Z.of_nat (length arr)) then mret (<[Z.to_nat i := u8 v]> arr) else mfault.

(** [while (u)]; [s] is an index into the array. *)
Fixpoint printi_digits (fuel : nat) (arr : list Z) (s u b letbase : Z) : M T (list Z * Z) :=
  match fuel with
  | O => mtimeout
  | S fuel' =>
      if u =? 0 then mret (arr, s)
      else
        let t := u mod b in
        let t := if t >=? 10 then t + (letbase - 48 - 10) else t in
        arr ← set_local arr (s - 1) (t + 48);
        printi_digits fuel' arr (s - 1) (u / b) b letbase
  end.

Definition printi (fuel : nat) (out i b sg width pad letbase : Z) : M T Z :=
  if i =? 0 then
    arr ← set_local print_buf 0 48;
    arr ← set_local arr 1 0;
    prints fuel out (Arr arr 0) width pad
  else
    let neg := negb (sg =? 0) && (b =? 10) && (i <? 0) in
    u ← (if neg then (if i =? - 2 ^ 31 then mfault else mret (u32 (- i))) else mret (u32 i));
    arr ← set_local print_buf (Z.of_nat PRINT_BUF_LEN - 1) 0;
    r ← printi_digits (S PRINT_BUF_LEN) arr (Z.of_nat PRINT_BUF_LEN - 1) u b letbase;
    let '(arr, s) := r : list Z * Z in
    if neg then
      if negb (width =? 0) && has_flag pad PAD_ZERO then
        printchar out 45 ;;
        n ← prints fuel out (Arr arr s) (width - 1) pad;
        int_add 1 n
      else
        arr ← set_local arr (s - 1) 45;
        prints fuel out (Arr arr (s - 1)) width pad
    else prints fuel out (Arr arr s) width pad.

Definition va_arg (args : list Z) : M T (Z * list Z) :=
  match args with [] => mfault | a :: args' => mret (a, args') end.

(** [while] [*format == '0'] *)
Fixpoint print_zeros (fuel : nat) (format : cptr) (pad : Z) : M T (cptr * Z) :=
  match fuel with
  | O => mtimeout
  | S fuel' =>
      c ← rdc format;
      if c =? 48 then print_zeros fuel' (cnext format) (Z.lor pad PAD_ZERO) else mret (format, pad)
  end.

(** [for ( ; *format >= '0' && *format <= '9'; ++format)] *)
Fixpoint print_width (fuel : nat) (format : cptr) (width : Z) : M T (cptr * Z) :=
  match fuel with
  | O => mtimeout
  | S fuel' =>
      c ← rdc format;
      if (i8 c >=? 48) && (i8 c <=? 57) then
        w ← (if width * 10 >? INT_MAX then mfault else int_add (width * 10) (i8 c - 48));
        print_width fuel' (cnext format) w
      else mret (format, width)
  end.

(** The tests on the conversion character: the characters printed and the
    arguments left. *)
Definition print_conversion (fuel : nat) (out c width pad : Z) (args : list Z) : M T (Z * list Z) :=
  if c =? 115 then
    a ← va_arg args;
    n ← prints fuel out (Mem (if negb (u32 a.1 =? 0) then u32 a.1 else null_string)) width pad;
    mret (n, a.2)
  else if c =? 100 then
    a ← va_arg args;
    n ← printi fuel out (i32 a.1) 10 1 width pad 97;
    mret (n, a.2)
  else if c =? 120 then
    a ← va_arg args;
    n ← printi fuel out (i32 a.1) 16 0 width pad 97;
    mret (n, a.2)
  else if c =? 88 then
    a ← va_arg args;
    n ← printi fuel out (i32 a.1) 16 0 width pad 65;
    mret (n, a.2)
  else if c =? 117 then
    a ← va_arg args;
    n ← printi fuel out (i32 a.1) 10 0 width pad 97;
    mret (n, a.2)
  else if c =? 99 then
    a ← va_arg args;
    n ← prints fuel out (Arr [u8 a.1; 0] 0) width pad;
    mret (n, a.2)
  else mret (0, args).

(** The loop over the format; [fuel'] bounds it, [fuel] the strings. *)
Fixpoint print_loop (fuel fuel' : nat) (out : Z) (format : cptr) (args : list Z) (pc : Z) : M T Z :=
  match fuel' with
  | O => mtimeout
  | S fuel' =>
      c ← rdc format;
      if c =? 0 then mret pc
      else if c =? 37 then
        let format := cnext format in
        c ← rdc format;
        if c =? 0 then mret pc
        else if c =? 37 then
          printchar out (i8 c) ;;
          pc ← int_add pc 1;
          print_loop fuel fuel' out (cnext format) args pc
        else
          let '(format, pad) := if c =? 45 then (cnext format, PAD_RIGHT) else (format, 0) in
          fp ← print_zeros fuel format pad;
          let '(format, pad) := fp : cptr * Z in
          fw ← print_width fuel format 0;
          let '(format, width) := fw : cptr * Z in
          c ← rdc format;
          r ← print_conversion fuel out c width pad args;
          let '(n, args) := r : Z * list Z in
          pc ← int_add pc n;
          print_loop fuel fuel' out (cnext format) args pc
      else
        printchar out (i8 c) ;;
        pc ← int_add pc 1;
        print_loop fuel fuel' out (cnext format) args pc
  end.

Definition print (fuel : nat) (out : Z) (format : cptr) (args : list Z) : M T Z :=
  pc ← print_loop fuel fuel out format args 0;
  (if negb (out =? NULL) then
     str ← rd32 out;
     wr8 str 0
   else mret tt) ;;
  mret pc.

Definition printf (fuel : nat) (format : cptr) (args : list Z) : M T Z := print fuel NULL format args.
End stdio_c.

(** ** What the console promises *)

Class ConsoleLaws (T : Type) `{ByteStore T, Console T} := {
  (** The states in which characters can be printed, the bytes of memory that
      printing changes, and the characters that can be printed. *)
  con_ready : T → Prop;
  con_private : T → Z → Prop;
  con_char : Z → Prop;
  con_char_ascii c : 32 ≤ c < 127 → con_char c;
  con_put s c : con_ready s → con_char c →
    ∃ s', print_string (Arr [c; 0] 0) s = Ret tt s' ∧ con_ready s' ∧
      (∀ b, con_private s' b ↔ con_private s b) ∧
      ∀ b, ¬ con_private s b → get8 s' b = get8 s b
}.

Fixpoint print_chars {T} `{Console T} (xs : list Z) : M T unit :=
  match xs with
  | [] => mret tt
  | c :: xs' => print_string (Arr [c; 0] 0) ;; print_chars xs'
  end.

Section output.
Context {T : Type} `{ByteStoreLaws T, !Console T, !ConsoleLaws T}.
Implicit Types s : T.

(** [s'] is [s] after the console was given the characters [xs]. *)
Definition shown (xs : list Z) s s' : Prop :=
  print_chars xs s = Ret tt s' ∧ con_ready s' ∧
  (∀ b, con_private s' b ↔ con_private s b) ∧ ∀ b, ¬ con_private s b → get8 s' b = get8 s b.

Lemma shown_nil s : con_ready s → shown [] s s.
Proof. by repeat split. Qed.

Lemma print_chars_app xs ys s s1 :
  print_chars xs s = Ret tt s1 → print_chars (xs ++ ys) s = print_chars ys s1.
Proof.
  revert s. induction xs as [|c xs IH]; intros s E; simpl in *; [by injection E as ->|].
  apply bind_Ret_inv in E as ([] & s2 & E1 & E2). run E1. by apply IH.
Qed.

Lemma shown_app xs ys s s1 s2 : shown xs s s1 → shown ys s1 s2 → shown (xs ++ ys) s s2.
Proof.
  intros (E1 & R1 & P1 & K1) (E2 & R2 & P2 & K2). split_and!.
  - by rewrite (print_chars_app _ _ _ _ E1).
  - done.
  - intros b. by rewrite P2, P1.
  - intros b Hb. rewrite K2 by (by rewrite P1). by apply K1.
Qed.

Lemma shown_ready xs s s' : shown xs s s' → con_ready s'.
Proof. by intros (_ & ? & _). Qed.

Lemma printchar_ok s c : con_ready s → con_char (u8 c) →
  ∃ s', printchar NULL c s = Ret tt s' ∧ shown [u8 c] s s'.
Proof.
  intros Hr Hc. destruct (con_put s (u8 c) Hr Hc) as (s' & E & Hr' & Hp & Hk).
  exists s'. split; [exact E|]. split_and!; try done. simpl. by run E.
Qed.

(** A string that printing leaves alone. *)
Definition text s (p : cptr) (xs : list Z) : Prop :=
  cstring s p xs ∧
  match p with
  | Mem a => ∀ b, a ≤ b ≤ a + Z.of_nat (length xs) → ¬ con_private s b
  | Arr _ _ => True
  end.

Lemma text_shown s s' ys p xs : shown ys s s' → text s p xs → text s' p xs.
Proof.
  intros (_ & _ & Hp & Hk) [Hc Ha]. split.
  - apply (cstring_kept s); [done|]. destruct p; simpl; [|done]. intros b Hb. apply Hk, Ha, Hb.
  - destruct p; [|done]. intros b Hb. rewrite Hp. by apply Ha.
Qed.

Lemma text_cons s p x xs : text s p (x :: xs) → text s (cnext p) xs.
Proof.
  intros [Hc Ha]. split; [by eapply cstring_cons|]. destruct p as [a|]; simpl in *; [|done].
  destruct Hc as (Hp & _). rewrite u32_small by lia. intros b Hb. apply Ha. lia.
Qed.

Lemma text_arr s pre xs post : Forall (λ x, 0 < x < 256) xs →
  text s (Arr (pre ++ xs ++ 0 :: post) (Z.of_nat (length pre))) xs.
Proof. intros Hx. split; [|done]. by exists pre, post. Qed.

Lemma text_byte s p x xs : text s p (x :: xs) → 0 < x < 256.
Proof. intros [Hc _]. by apply cstring_bytes, Forall_inv in Hc. Qed.

Lemma text_first s p xs : text s p xs → rdc p s = Ret (first_byte xs) s.
Proof. intros [Hc _]. by apply rdc_first. Qed.
End output.

(** ** What the formats mean *)

(** [xs] in a field of [width] characters. *)
Definition padded (lft zero : bool) (width : Z) (xs : list Z) : list Z :=
  let fill := replicate (Z.to_nat (width - Z.of_nat (length xs))) (if zero then 48 else 32) in
  if lft then xs ++ fill else fill ++ xs.

Definition digit (letbase t : Z) : Z := if t >=? 10 then letbase + (t - 10) else 48 + t.

Fixpoint digits (n : nat) (b letbase u : Z) (acc : list Z) : list Z :=
  match n with
  | O => acc
  | S n' => if u =? 0 then acc else digits n' b letbase (u / b) (digit letbase (u mod b) :: acc)
  end.

(** The digits of [u], which has no more than ten; none for zero. *)
Definition numeral (b letbase u : Z) : list Z := digits 10 b letbase u [].

(** A number in a field; the sign goes before zeros that fill it. *)
Definition number (signed : bool) (b letbase : Z) (lft zero : bool) (width i : Z) : list Z :=
  if i =? 0 then padded lft zero width [48]
  else if signed && (i <? 0) then
    if negb (width =? 0) && zero then 45 :: padded lft zero (width - 1) (numeral b letbase (- i))
    else padded lft zero width (45 :: numeral b letbase (- i))
  else padded lft zero width (numeral b letbase (u32 i)).

Inductive conversion := Str | Dec | Hex | HEX | Uns | Chr.

Definition conversion_char (cv : conversion) : Z :=
  match cv with Str => 115 | Dec => 100 | Hex => 120 | HEX => 88 | Uns => 117 | Chr => 99 end.

(** The items of a format: a character, ["%%"], and a conversion with its
    flags [-] and [0] and the digits of its width. *)
Inductive item :=
  | Lit (c : Z)
  | Percent
  | Conv (lft : bool) (zeros : nat) (width : list Z) (cv : conversion).

Definition item_format (it : item) : list Z :=
  match it with
  | Lit c => [c]
  | Percent => [37; 37]
  | Conv lft zeros width cv =>
      37 :: (if lft then [45] else []) ++ replicate zeros 48 ++ width ++ [conversion_char cv]
  end.

Definition width_value (width : list Z) : Z := fold_left (λ w d, w * 10 + (d - 48)) width 0.

Definition item_wf (it : item) : Prop :=
  match it with
  | Lit c => c ≠ 37
  | Percent => True
  | Conv _ _ width _ => Forall (λ d, 48 ≤ d ≤ 57) width ∧ head width ≠ Some 48 ∧ width_value width ≤ INT_MAX
  end.

Section meaning.
Context {T : Type} `{ByteStoreLaws T, !Console T, !ConsoleLaws T}.
Implicit Types s : T.
Variable null_string : Z.
Variable fuel : nat.

(** [item_text s it args xs rest]: with the arguments [args] in memory [s],
    [it] stands for the characters [xs] and leaves the arguments [rest]. *)
Inductive item_text s : item → list Z → list Z → list Z → Prop :=
  | text_lit c args : item_text s (Lit c) args [c] args
  | text_percent args : item_text s Percent args [37] args
  | text_str lft zeros width a args xs :
      text s (Mem (if negb (u32 a =? 0) then u32 a else null_string)) xs → (length xs < fuel)%nat →
      item_text s (Conv lft zeros width Str) (a :: args)
        (padded lft (negb (zeros =? 0)%nat) (width_value width) xs) args
  | text_dec lft zeros width a args : i32 a ≠ - 2 ^ 31 →
      item_text s (Conv lft zeros width Dec) (a :: args)
        (number true 10 97 lft (negb (zeros =? 0)%nat) (width_value width) (i32 a)) args
  | text_hex lft zeros width a args :
      item_text s (Conv lft zeros width Hex) (a :: args)
        (number false 16 97 lft (negb (zeros =? 0)%nat) (width_value width) (i32 a)) args
  | text_HEX lft zeros width a args :
      item_text s (Conv lft zeros width HEX) (a :: args)
        (number false 16 65 lft (negb (zeros =? 0)%nat) (width_value width) (i32 a)) args
  | text_uns lft zeros width a args :
      item_text s (Conv lft zeros width Uns) (a :: args)
        (number false 10 97 lft (negb (zeros =? 0)%nat) (width_value width) (i32 a)) args
  | text_chr lft zeros width a args :
      item_text s (Conv lft zeros width Chr) (a :: args)
        (padded lft (negb (zeros =? 0)%nat) (width_value width) (if u8 a =? 0 then [] else [u8 a])) args.

Inductive items_text s : list item → list Z → list Z → list Z → Prop :=
  | items_nil args : items_text s [] args [] args
  | items_cons it its args xs args1 ys args2 :
      item_text s it args xs args1 → items_text s its args1 ys args2 →
      items_text s (it :: its) args (xs ++ ys) args2.

Lemma item_text_shown s s' ys it args xs rest :
  shown ys s s' → item_text s it args xs rest → item_text s' it args xs rest.
Proof. intros Hs Hi. destruct Hi; constructor; try done. by eapply text_shown. Qed.

Lemma items_text_shown s s' ys its args xs rest :
  shown ys s s' → items_text s its args xs rest → items_text s' its args xs rest.
Proof.
  intros Hs Hi. induction Hi; [constructor|]. econstructor; [by eapply item_text_shown|done].
Qed.
End meaning.

(** ** Strings in fields *)

Section printing.
Context {T : Type} `{ByteStoreLaws T, !Console T, !ConsoleLaws T}.
Implicit Types s : T.

Lemma int_add_ok x y s : x + y ≤ INT_MAX → int_add x y s = Ret (x + y) s.
Proof. intros. unfold int_add. by rewrite Z.gtb_ltb, (proj2 (Z.ltb_ge _ _)) by lia. Qed.

(** One character and the count of it. *)
Lemma put_ok s c pc : con_ready s → con_char (u8 c) → pc + 1 ≤ INT_MAX →
  ∃ s', (printchar NULL c ;; int_add pc 1) s = Ret (pc + 1) s' ∧ shown [u8 c] s s'.
Proof.
  intros Hr Hc Hpc. destruct (printchar_ok s c Hr Hc) as (s' & E & Hs). exists s'. split; [|done].
  run E. by apply int_add_ok.
Qed.

Lemma prints_len_ok fuel s p xs n :
  text s p xs → (length xs < fuel)%nat → n + Z.of_nat (length xs) ≤ INT_MAX →
  prints_len fuel p n s = Ret (n + Z.of_nat (length xs)) s.
Proof.
  revert s p xs n. induction fuel as [|fuel IH]; intros s p xs n Ht Hf Hn; [lia|].
  cbn [prints_len]. run (text_first _ _ _ Ht). destruct xs as [|x xs]; cbn [first_byte length] in *.
  - by rewrite Z.eqb_refl, Z.add_0_r.
  - pose proof (text_byte _ _ _ _ Ht). rewrite (proj2 (Z.eqb_neq x 0)) by lia.
    run (int_add_ok n 1 s ltac:(lia)). rewrite (IH s (cnext p) xs); [f_equal; lia|by eapply text_cons|lia|lia].
Qed.

Lemma prints_pad_ok n s c pc : con_ready s → con_char c → 0 ≤ c < 256 → pc + Z.of_nat n ≤ INT_MAX →
  ∃ s', prints_pad n NULL c pc s = Ret (pc + Z.of_nat n) s' ∧ shown (replicate n c) s s'.
Proof.
  revert s pc. induction n as [|n IH]; intros s pc Hr Hc Hb Hpc.
  - exists s. rewrite Z.add_0_r. split; [done|by apply shown_nil].
  - cbn [prints_pad replicate]. destruct (put_ok s c pc) as (s1 & E1 & S1); [done|by rewrite u8_small|lia|].
    rewrite u8_small in S1 by done. apply bind_Ret_inv in E1 as ([] & s0 & E0 & E1). run E0. run E1.
    destruct (IH s1 (pc + 1)) as (s2 & E2 & S2); [by eapply shown_ready|done|done|lia|].
    exists s2. replace (pc + Z.of_nat (S n)) with (pc + 1 + Z.of_nat n) by lia.
    split; [done|]. by apply (shown_app [c] _ s s1).
Qed.

Lemma prints_body_ok fuel s p xs pc :
  con_ready s → text s p xs → Forall con_char xs → (length xs < fuel)%nat →
  pc + Z.of_nat (length xs) ≤ INT_MAX →
  ∃ s', prints_body fuel NULL p pc s = Ret (pc + Z.of_nat (length xs)) s' ∧ shown xs s s'.
Proof.
  revert s p xs pc. induction fuel as [|fuel IH]; intros s p xs pc Hr Ht Hc Hf Hpc; [lia|].
  cbn [prints_body]. run (text_first _ _ _ Ht). destruct xs as [|x xs]; cbn [first_byte length] in *.
  - rewrite Z.eqb_refl, Z.add_0_r. exists s. split; [done|by apply shown_nil].
  - pose proof (text_byte _ _ _ _ Ht). rewrite (proj2 (Z.eqb_neq x 0)) by lia.
    run (text_first _ _ _ Ht). cbn [first_byte]. apply Forall_cons in Hc as [Hc Hcs].
    assert (u8 (i8 x) = x) as Hx by (rewrite i8_congr; apply u8_small; lia).
    destruct (put_ok s (i8 x) pc) as (s1 & E1 & S1); [done|by rewrite Hx|lia|]. rewrite Hx in S1.
    apply bind_Ret_inv in E1 as ([] & s0 & E0 & E1). run E0. run E1.
    destruct (IH s1 (cnext p) xs (pc + 1)) as (s2 & E2 & S2); [by eapply shown_ready| |done|lia|lia|].
    { eapply text_shown; [done|]. by eapply text_cons. }
    exists s2. replace (pc + Z.of_nat (S (length xs))) with (pc + 1 + Z.of_nat (length xs)) by lia.
    split; [done|]. by apply (shown_app [x] _ s s1).
Qed.

Definition pad_flags (lft zero : bool) : Z :=
  Z.lor (if lft then PAD_RIGHT else 0) (if zero then PAD_ZERO else 0).

Lemma pad_flags_right lft zero : has_flag (pad_flags lft zero) PAD_RIGHT = lft.
Proof. by destruct lft, zero. Qed.

Lemma pad_flags_zero lft zero : has_flag (pad_flags lft zero) PAD_ZERO = zero.
Proof. by destruct lft, zero. Qed.

Lemma padded_length lft zero width xs :
  Z.of_nat (length (padded lft zero width xs)) = Z.max width (Z.of_nat (length xs)).
Proof. unfold padded. destruct lft; rewrite length_app, length_replicate; lia. Qed.

Lemma con_char_fill (zero : bool) : con_char (if zero then 48 else 32).
Proof. apply con_char_ascii. destruct zero; lia. Qed.

Lemma prints_ok fuel s p xs width lft zero :
  con_ready s → text s p xs → Forall con_char xs → (length xs < fuel)%nat →
  Z.max width (Z.of_nat (length xs)) ≤ INT_MAX →
  ∃ s', prints fuel NULL p width (pad_flags lft zero) s = Ret (Z.of_nat (length (padded lft zero width xs))) s' ∧
    shown (padded lft zero width xs) s s'.
Proof.
  intros Hr Ht Hc Hf Hmax. set (n := Z.to_nat (width - Z.of_nat (length xs))).
  set (c := if decide (width > 0) then if zero then 48 else 32 else 32).
  assert ((if width >? 0 then
             len ← prints_len fuel p 0;
             mret (if len >=? width then 0 else width - len, if has_flag (pad_flags lft zero) PAD_ZERO then 48 else 32)
           else mret (width, 32)) s = Ret (if decide (width > 0) then Z.of_nat n else width, c) s) as E.
  { unfold c, n. rewrite Z.gtb_ltb. destruct (Z.ltb_spec 0 width).
    - rewrite !decide_True by lia. run (prints_len_ok fuel s p xs 0 Ht Hf ltac:(lia)).
      rewrite pad_flags_zero, Z.geb_leb, Z.add_0_l. unfold mret, M_ret. do 2 f_equal.
      destruct (Z.leb_spec width (Z.of_nat (length xs))); lia.
    - by rewrite !decide_False by lia. }
  unfold prints. run E. rewrite pad_flags_right. clear E.
  assert (Z.to_nat (if decide (width > 0) then Z.of_nat n else width) = n) as Hn by (case_decide; lia).
  assert (replicate n c = replicate n (if zero then 48 else 32)) as Hfill.
  { unfold c. case_decide; [done|]. by replace n with 0%nat by lia. }
  assert (con_char c ∧ 0 ≤ c < 256) as [Hcc Hcb].
  { unfold c. split; [apply con_char_ascii|]; repeat case_match; lia. }
  rewrite padded_length. unfold padded. fold n. rewrite <-Hfill. destruct lft; cbn [negb].
  - rewrite bind_ret_l. destruct (prints_body_ok fuel s p xs 0) as (s1 & E1 & S1); [done..|lia|]. run E1. rewrite Hn.
    destruct (prints_pad_ok n s1 c (0 + Z.of_nat (length xs))) as (s2 & E2 & S2); [by eapply shown_ready|done|done|lia|].
    exists s2. rewrite E2. split; [f_equal; lia|by eapply shown_app].
  - rewrite bind_assoc, Hn. destruct (prints_pad_ok n s c 0) as (s1 & E1 & S1); [done|done|done|lia|]. run E1.
    rewrite bind_ret_l.
    destruct (prints_body_ok fuel s1 p xs (0 + Z.of_nat n)) as (s2 & E2 & S2); [by eapply shown_ready|by eapply text_shown|done|done|lia|].
    run E2. replace (Z.to_nat (Z.min _ 0)) with 0%nat by (case_decide; lia). cbn [prints_pad].
    exists s2. split; [unfold mret, M_ret; f_equal; lia|by eapply shown_app].
Qed.
End printing.

(** ** Numbers *)

Section numbers.
Context {T : Type} `{ByteStoreLaws T, !Console T, !ConsoleLaws T}.
Implicit Types s : T.

Lemma digits_acc n b l u acc : digits n b l u acc = digits n b l u [] ++ acc.
Proof.
  revert u acc. induction n as [|n IH]; intros u acc; simpl; [done|]. destruct (u =? 0); [done|].
  by rewrite IH, (IH _ [_]), <-app_assoc.
Qed.

Lemma digits_length n b l u : (length (digits n b l u []) ≤ n)%nat.
Proof.
  revert u. induction n as [|n IH]; intros u; simpl; [done|]. destruct (u =? 0); simpl; [lia|].
  rewrite digits_acc, length_app. simpl. specialize (IH (u / b)). lia.
Qed.

Lemma set_local_ok arr i v s : 0 ≤ i < Z.of_nat (length arr) →
  set_local arr i v s = Ret (<[Z.to_nat i := u8 v]> arr) s.
Proof. intros. unfold set_local. by rewrite decide_True. Qed.

(** A write to the last place of a prefix. *)
Lemma set_local_before pre x post v s :
  set_local ((pre ++ [x]) ++ post) (Z.of_nat (length (pre ++ [x])) - 1) v s = Ret (pre ++ u8 v :: post) s.
Proof.
  rewrite set_local_ok by (rewrite !length_app; simpl; lia). f_equal.
  rewrite length_app. simpl. replace (Z.to_nat _) with (length pre + 0)%nat by lia.
  by rewrite <-app_assoc, insert_app_r.
Qed.

Lemma digit_char l t b : 2 ≤ b ≤ 16 → 58 ≤ l ≤ 97 → 0 ≤ t < b → 48 ≤ digit l t < 127.
Proof. intros. unfold digit. rewrite Z.geb_leb. destruct (Z.leb_spec 10 t); lia. Qed.

(** The loop that fills [print_buf] from its end. *)
Lemma printi_digits_ok n fuel pre acc s u b l :
  2 ≤ b ≤ 16 → 58 ≤ l ≤ 97 → 0 ≤ u < b ^ Z.of_nat n → (n < fuel)%nat → (n ≤ length pre)%nat →
  ∃ pre', printi_digits fuel (pre ++ acc) (Z.of_nat (length pre)) u b l s
    = Ret (pre' ++ digits n b l u acc, Z.of_nat (length pre')) s ∧
    (length pre' + length (digits n b l u []) = length pre)%nat.
Proof.
  intros Hb Hl. revert fuel pre acc u. induction n as [|n IH]; intros [|fuel] pre acc u Hu Hf Hpre; try lia.
  - change (b ^ Z.of_nat 0) with 1 in Hu. assert (u = 0) as -> by lia. exists pre. split; [done|]. simpl. lia.
  - cbn [printi_digits digits]. destruct (Z.eqb_spec u 0) as [->|Hu0].
    { exists pre. split; [done|]. simpl. lia. }
    destruct pre as [|x pre _] using rev_ind; [simpl in Hpre; lia|].
    pose proof (Z.mod_pos_bound u b ltac:(lia)) as Hm. pose proof (digit_char l (u mod b) b Hb Hl Hm) as Hd.
    assert ((if u mod b >=? 10 then u mod b + (l - 48 - 10) else u mod b) + 48 = digit l (u mod b)) as ->.
    { unfold digit. destruct (u mod b >=? 10); lia. }
    rewrite (bind_Ret _ _ _ _ _ (set_local_before pre x acc _ s)). rewrite (u8_small (digit l _)) by lia.
    replace (Z.of_nat (length (pre ++ [x])) - 1) with (Z.of_nat (length pre)) by (rewrite length_app; simpl; lia).
    rewrite length_app in Hpre. simpl in Hpre.
    destruct (IH fuel pre (digit l (u mod b) :: acc) (u / b)) as (pre' & E & Hlen); [|lia|lia|].
    { rewrite Nat2Z.inj_succ, Z.pow_succ_r in Hu by lia.
      split; [apply Z.div_pos; lia|apply Z.div_lt_upper_bound; lia]. }
    exists pre'. split; [exact E|]. rewrite (digits_acc n b l (u / b) [_]), !length_app. simpl. lia.
Qed.

Lemma digits_chars n b l u : 2 ≤ b ≤ 16 → 58 ≤ l ≤ 97 → 0 ≤ u →
  Forall (λ c, 48 ≤ c < 127) (digits n b l u []).
Proof.
  intros Hb Hl. revert u. induction n as [|n IH]; intros u Hu; simpl; [constructor|].
  destruct (Z.eqb_spec u 0); [constructor|]. rewrite digits_acc. apply Forall_app. split.
  - apply IH. apply Z.div_pos; lia.
  - constructor; [|constructor]. apply (digit_char l _ b Hb Hl), Z.mod_pos_bound. lia.
Qed.

Lemma ascii_chars xs : Forall (λ c, 48 ≤ c < 127) xs → Forall con_char xs ∧ Forall (λ c, 0 < c < 256) xs.
Proof. intros Hx. split; (eapply Forall_impl; [exact Hx|]); intros c Hc; simpl in Hc; [apply con_char_ascii|]; lia. Qed.

(** The value of a numeral. *)
Definition digit_value (c : Z) : Z := if c <? 58 then c - 48 else if c <? 97 then c - 55 else c - 87.
Definition numeral_value (b : Z) (xs : list Z) : Z := fold_left (λ v c, v * b + digit_value c) xs 0.

Lemma digit_value_digit b l t : 2 ≤ b ≤ 16 → l = 65 ∨ l = 97 → 0 ≤ t < b → digit_value (digit l t) = t.
Proof.
  intros Hb Hl Ht. unfold digit, digit_value. rewrite Z.geb_leb. destruct (Z.leb_spec 10 t).
  - rewrite (proj2 (Z.ltb_ge (l + (t - 10)) 58)) by lia.
    destruct Hl as [-> | ->]; [rewrite (proj2 (Z.ltb_lt _ 97)) by lia|rewrite (proj2 (Z.ltb_ge _ 97)) by lia]; lia.
  - rewrite (proj2 (Z.ltb_lt _ 58)) by lia. lia.
Qed.

Lemma numeral_value_digits n b l u : 2 ≤ b ≤ 16 → l = 65 ∨ l = 97 → 0 ≤ u < b ^ Z.of_nat n →
  numeral_value b (digits n b l u []) = u.
Proof.
  intros Hb Hl. revert u. induction n as [|n IH]; intros u Hu.
  - change (b ^ Z.of_nat 0) with 1 in Hu. unfold numeral_value. simpl. lia.
  - cbn [digits]. destruct (Z.eqb_spec u 0) as [->|]; [done|].
    rewrite digits_acc. unfold numeral_value. rewrite fold_left_app. fold (numeral_value b (digits n b l (u / b) [])).
    rewrite Nat2Z.inj_succ, Z.pow_succ_r in Hu by lia.
    rewrite IH by (split; [apply Z.div_pos; lia|apply Z.div_lt_upper_bound; lia]). simpl.
    rewrite (digit_value_digit b) by (try apply Z.mod_pos_bound; lia). pose proof (Z.div_mod u b). lia.
Qed.

Lemma numeral_chars b l u : b = 10 ∨ b = 16 → l = 65 ∨ l = 97 → 0 ≤ u →
  Forall (λ c, 48 ≤ c < 127) (numeral b l u).
Proof. intros Hb Hl Hu. apply digits_chars; lia. Qed.

Lemma numeral_length b l u : (length (numeral b l u) ≤ 10)%nat.
Proof. apply digits_length. Qed.

Variable print_buf : list Z.
Hypothesis Hbuf : length print_buf = PRINT_BUF_LEN.

(** [print_buf] after the digits of [u] were written, and its beginning. *)
Lemma print_buf_digits s u b l : b = 10 ∨ b = 16 → l = 65 ∨ l = 97 → 0 ≤ u < 2 ^ 32 →
  ∃ pre, (1 ≤ length pre)%nat ∧
    (arr ← set_local print_buf (Z.of_nat PRINT_BUF_LEN - 1) 0;
     printi_digits (S PRINT_BUF_LEN) arr (Z.of_nat PRINT_BUF_LEN - 1) u b l) s
    = Ret (pre ++ numeral b l u ++ [0], Z.of_nat (length pre)) s.
Proof.
  intros Hb Hl Hu. destruct print_buf as [|x pre _] eqn:Ebuf using rev_ind; [done|].
  rewrite length_app in Hbuf. unfold PRINT_BUF_LEN in *. simpl in Hbuf.
  replace (Z.of_nat 12 - 1) with (Z.of_nat (length (pre ++ [x])) - 1) by (rewrite length_app; simpl; lia).
  pose proof (set_local_before pre x [] 0 s) as Es. rewrite app_nil_r in Es.
  rewrite (bind_Ret _ _ _ _ _ Es). clear Es.
  replace (Z.of_nat (length (pre ++ [x])) - 1) with (Z.of_nat (length pre)) by (rewrite length_app; simpl; lia).
  destruct (printi_digits_ok 10 13 pre [0] s u b l) as (pre' & E & Hlen); [lia|lia| |lia|lia|].
  { change (Z.of_nat 10) with 10. destruct Hb as [-> | ->]; lia. }
  exists pre'. unfold numeral. rewrite digits_acc in E. split; [|exact E].
  pose proof (digits_length 10 b l u). lia.
Qed.

Lemma printi_zero fuel s b sg width lft zero l :
  con_ready s → (1 < fuel)%nat → 0 ≤ width ≤ INT_MAX →
  ∃ s', printi print_buf fuel NULL 0 b sg width (pad_flags lft zero) l s
        = Ret (Z.of_nat (length (padded lft zero width [48]))) s' ∧ shown (padded lft zero width [48]) s s'.
Proof.
  intros Hr Hf Hw. unfold printi. rewrite Z.eqb_refl. unfold PRINT_BUF_LEN in Hbuf.
  destruct print_buf as [|x [|y rest]]; [done..|].
  run (set_local_ok (x :: y :: rest) 0 48 s ltac:(simpl; lia)). change (u8 48) with 48.
  change (<[Z.to_nat 0:=48]> (x :: y :: rest)) with (48 :: y :: rest).
  run (set_local_ok (48 :: y :: rest) 1 0 s ltac:(simpl; lia)).
  change (<[Z.to_nat 1:=u8 0]> (48 :: y :: rest)) with ([] ++ [48] ++ 0 :: rest).
  apply prints_ok; [done| | |done|].
  - apply (text_arr s [] [48] rest). repeat constructor.
  - constructor; [|done]. apply con_char_ascii. lia.
  - simpl. unfold INT_MAX in *. lia.
Qed.

(** [printi] writes the number in its field. *)
Lemma printi_ok fuel s i b (sg : bool) width lft zero l :
  con_ready s → (12 < fuel)%nat → 0 ≤ width ≤ INT_MAX → b = 10 ∨ b = 16 → l = 65 ∨ l = 97 →
  (sg = true → b = 10) → - 2 ^ 31 ≤ i < 2 ^ 31 → (sg = true → i ≠ - 2 ^ 31) →
  ∃ s', printi print_buf fuel NULL i b (if sg then 1 else 0) width (pad_flags lft zero) l s
        = Ret (Z.of_nat (length (number sg b l lft zero width i))) s' ∧
    shown (number sg b l lft zero width i) s s'.
Proof.
  intros Hr Hf Hw Hb Hl Hsg Hi Hmin. unfold number. destruct (Z.eqb_spec i 0) as [->|Hi0].
  { apply printi_zero; [done|lia|done]. }
  unfold printi. rewrite (proj2 (Z.eqb_neq i 0)) by done. cbv zeta.
  assert (negb ((if sg then 1 else 0) =? 0) && (b =? 10) && (i <? 0) = sg && (i <? 0)) as ->.
  { destruct sg; [|done]. by rewrite (Hsg eq_refl). }
  destruct (sg && (i <? 0)) eqn:Eneg.
  - apply andb_true_iff in Eneg as [-> Hneg%Z.ltb_lt]. specialize (Hmin eq_refl).
    rewrite (proj2 (Z.eqb_neq i _)) by lia. rewrite bind_ret_l, u32_small by lia.
    destruct (print_buf_digits s (- i) b l) as (pre & Hpre & E); [done|done|lia|].
    pose proof (numeral_chars b l (- i) Hb Hl ltac:(lia)) as Hch.
    pose proof (numeral_length b l (- i)) as Hnl. destruct (ascii_chars _ Hch) as [Hcc Hcb].
    apply bind_Ret_inv in E as (arr & s0 & E0 & E). run E0. run E.
    rewrite pad_flags_zero. destruct (negb (width =? 0) && zero) eqn:Ez.
    + destruct (put_ok s 45 0) as (s1 & E1 & S1); [done|apply con_char_ascii; done|unfold INT_MAX; lia|].
      apply bind_Ret_inv in E1 as ([] & s2 & E1 & E2). injection E2 as <-. run E1.
      destruct (prints_ok fuel s2 (Arr (pre ++ numeral b l (- i) ++ [0]) (Z.of_nat (length pre)))
        (numeral b l (- i)) (width - 1) lft zero) as (s3 & E3 & S3); [by eapply shown_ready| |done|lia| |].
      { by apply text_arr. }
      { unfold INT_MAX in *. lia. }
      run E3. apply andb_true_iff in Ez as [Hw0%negb_true_iff%Z.eqb_neq _].
      exists s3. rewrite int_add_ok.
      * split; [cbn [length]; f_equal; lia|]. by apply (shown_app [45] _ s s2).
      * rewrite padded_length. unfold INT_MAX in *. lia.
    + destruct pre as [|x pre _] using rev_ind; [simpl in Hpre; lia|].
      rewrite (bind_Ret _ _ _ _ _ (set_local_before pre x (numeral b l (- i) ++ [0]) 45 s)).
      change (u8 45) with 45.
      replace (Z.of_nat (length (pre ++ [x])) - 1) with (Z.of_nat (length pre)) by (rewrite length_app; simpl; lia).
      apply prints_ok; [done| | |simpl; lia|].
      * apply (text_arr s pre (45 :: numeral b l (- i)) []). by constructor.
      * constructor; [by apply con_char_ascii|done].
      * simpl. unfold INT_MAX in *. lia.
  - rewrite bind_ret_l.
    destruct (print_buf_digits s (u32 i) b l) as (pre & Hpre & E); [done|done|apply u32_range|].
    pose proof (numeral_chars b l (u32 i) Hb Hl (proj1 (u32_range i))) as Hch.
    pose proof (numeral_length b l (u32 i)) as Hnl. destruct (ascii_chars _ Hch) as [Hcc Hcb].
    apply bind_Ret_inv in E as (arr & s0 & E0 & E). run E0. run E.
    apply prints_ok; [done| |done|lia|unfold INT_MAX in *; lia]. by apply text_arr.
Qed.
End numbers.

(** ** Formats *)

Section formats.
Context {T : Type} `{ByteStoreLaws T, !Console T, !ConsoleLaws T}.
Implicit Types s : T.
Lemma print_zeros_ok n s p rest lft zero z :
  text s p (replicate z 48 ++ rest) → first_byte rest ≠ 48 → (z < n)%nat →
  ∃ p', print_zeros n p (pad_flags lft zero) s = Ret (p', pad_flags lft (zero || negb (z =? 0)%nat)) s ∧
    text s p' rest ∧ p' = Nat.iter z cnext p.
Proof.
  revert p zero z. induction n as [|n IH]; intros p zero z Ht Hr Hz; [lia|].
  cbn [print_zeros]. run (text_first _ _ _ Ht). destruct z as [|z]; cbn [replicate app] in *.
  - rewrite (proj2 (Z.eqb_neq _ 48)) by done. exists p. by rewrite orb_false_r.
  - cbn [first_byte]. rewrite Z.eqb_refl.
    assert (Z.lor (pad_flags lft zero) PAD_ZERO = pad_flags lft true) as -> by (by destruct lft, zero).
    destruct (IH (cnext p) true z) as (p' & E & Ht' & ->); [by eapply text_cons|done|lia|].
    exists (Nat.iter z cnext (cnext p)). rewrite Nat.iter_succ_r, E. by rewrite orb_true_r.
Qed.

Lemma width_value_grows ws w : Forall (λ d, 48 ≤ d ≤ 57) ws → 0 ≤ w →
  w ≤ fold_left (λ w d, w * 10 + (d - 48)) ws w.
Proof.
  intros Hw. revert w. induction Hw as [|d ws Hd Hws IH]; intros w Hw0; simpl; [lia|].
  specialize (IH (w * 10 + (d - 48)) ltac:(lia)). lia.
Qed.

Lemma print_width_ok n s p ws rest w :
  text s p (ws ++ rest) → Forall (λ d, 48 ≤ d ≤ 57) ws → ¬ (48 ≤ i8 (first_byte rest) ≤ 57) → 0 ≤ w →
  fold_left (λ w d, w * 10 + (d - 48)) ws w ≤ INT_MAX → (length ws < n)%nat →
  ∃ p', print_width n p w s = Ret (p', fold_left (λ w d, w * 10 + (d - 48)) ws w) s ∧ text s p' rest ∧
    p' = Nat.iter (length ws) cnext p.
Proof.
  intros Ht Hws Hc Hw Hmax Hn. revert p ws w Ht Hws Hw Hmax Hn.
  induction n as [|n IH]; intros p ws w Ht Hws Hw Hmax Hn; [lia|].
  cbn [print_width]. run (text_first _ _ _ Ht).
  assert (∀ d, 0 ≤ d < 127 → i8 d = d) as Hi8 by (intros d Hd; unfold i8; change (2 ^ 7) with 128; dlia).
  destruct ws as [|d ws]; cbn [app first_byte] in *.
  - assert ((i8 (first_byte rest) >=? 48) && (i8 (first_byte rest) <=? 57) = false) as ->.
    { apply andb_false_iff. rewrite Z.geb_leb, !Z.leb_gt. lia. }
    by exists p.
  - apply Forall_cons in Hws as [Hd Hws]. rewrite Hi8 by lia.
    rewrite Z.geb_leb, (proj2 (Z.leb_le 48 d)), (proj2 (Z.leb_le d 57)) by lia. cbn [andb fold_left] in *.
    pose proof (width_value_grows ws (w * 10 + (d - 48)) Hws ltac:(lia)).
    rewrite Z.gtb_ltb, (proj2 (Z.ltb_ge INT_MAX _)) by lia.
    run (int_add_ok (w * 10) (d - 48) s ltac:(lia)). cbn [length]. rewrite Nat.iter_succ_r.
    apply IH; [by eapply text_cons|done|lia|done|simpl in Hn; lia].
Qed.

Lemma padded_chars (lft zero : bool) width xs : Forall con_char (padded lft zero width xs) → Forall con_char xs.
Proof. unfold padded. destruct lft; rewrite Forall_app; tauto. Qed.

Lemma padded_bounds lft zero width xs :
  Z.of_nat (length (padded lft zero width xs)) ≤ INT_MAX → Z.max width (Z.of_nat (length xs)) ≤ INT_MAX.
Proof. by rewrite padded_length. Qed.

Lemma i32_range z : - 2 ^ 31 ≤ i32 z < 2 ^ 31.
Proof. unfold i32. pose proof (Z.mod_pos_bound (z + 2 ^ 31) (2 ^ 32)). lia. Qed.

Variable null_string : Z.
Variable print_buf : list Z.
Hypothesis Hbuf : length print_buf = PRINT_BUF_LEN.
Variable fuel : nat.
Hypothesis Hfuel : (12 < fuel)%nat.

Lemma conversion_ok s lft zeros width cv args xs rest :
  con_ready s → item_wf (Conv lft zeros width cv) →
  item_text null_string fuel s (Conv lft zeros width cv) args xs rest →
  Forall con_char xs → Z.of_nat (length xs) ≤ INT_MAX →
  ∃ s', print_conversion null_string print_buf fuel NULL (conversion_char cv) (width_value width)
          (pad_flags lft (negb (zeros =? 0)%nat)) args s = Ret (Z.of_nat (length xs), rest) s' ∧ shown xs s s'.
Proof.
  intros Hr (Hd & _ & Hw) Hi Hc Hlen.
  pose proof (width_value_grows width 0 Hd ltac:(lia)) as Hg. change (0 ≤ width_value width) in Hg.
  assert (0 ≤ width_value width ≤ INT_MAX) as Hwv by lia.
  inversion Hi; subst; cbn [conversion_char]; unfold print_conversion; rewrite ?Z.eqb_refl;
    repeat (rewrite (proj2 (Z.eqb_neq _ _)) by done); cbv iota; unfold va_arg; rewrite bind_ret_l; cbn [fst snd].
  - edestruct (prints_ok fuel s) as (s' & E & S'); [done|eassumption|by eapply padded_chars|done|by eapply padded_bounds|].
    run E. by exists s'.
  - edestruct (printi_ok print_buf Hbuf fuel s (i32 a) 10 true) as (s' & E & S');
      [done|done|done|by left|by right|done|apply i32_range|done|]. run E. by exists s'.
  - edestruct (printi_ok print_buf Hbuf fuel s (i32 a) 16 false) as (s' & E & S');
      [done|done|done|by right|by right|done|apply i32_range|done|]. run E. by exists s'.
  - edestruct (printi_ok print_buf Hbuf fuel s (i32 a) 16 false) as (s' & E & S');
      [done|done|done|by right|by left|done|apply i32_range|done|]. run E. by exists s'.
  - edestruct (printi_ok print_buf Hbuf fuel s (i32 a) 10 false) as (s' & E & S');
      [done|done|done|by left|by right|done|apply i32_range|done|]. run E. by exists s'.
  - assert (text s (Arr [u8 a; 0] 0) (if u8 a =? 0 then [] else [u8 a])) as Ht.
    { pose proof (u8_range a). destruct (Z.eqb_spec (u8 a) 0) as [->|Hne].
      - by apply (text_arr s [] [] [0]).
      - apply (text_arr s [] [u8 a] []). constructor; [lia|done]. }
    edestruct (prints_ok fuel s) as (s' & E & S'); [done|exact Ht|by eapply padded_chars| |by eapply padded_bounds|].
    { destruct (u8 a =? 0); simpl; lia. }
    run E. by exists s'.
Qed.

Lemma item_format_length it : (0 < length (item_format it))%nat.
Proof. destruct it; simpl; lia. Qed.

Lemma conversion_char_range cv : 58 ≤ conversion_char cv < 127.
Proof. destruct cv; simpl; lia. Qed.

(** The flags and the width, up to the conversion character. *)
Lemma directive_ok s p lft zeros width cv rest n :
  text s p (item_format (Conv lft zeros width cv) ++ rest) → item_wf (Conv lft zeros width cv) →
  (length (item_format (Conv lft zeros width cv)) ≤ n)%nat →
  ∃ c q p1 p2, rdc (cnext p) s = Ret c s ∧ c ≠ 0 ∧ c ≠ 37 ∧
    q = (if c =? 45 then (cnext (cnext p), PAD_RIGHT) else (cnext p, 0)) ∧
    print_zeros n q.1 q.2 s = Ret (p1, pad_flags lft (negb (zeros =? 0)%nat)) s ∧
    print_width n p1 0 s = Ret (p2, width_value width) s ∧ text s p2 (conversion_char cv :: rest).
Proof.
  intros Ht (Hd & Hhd & Hw) Hn. pose proof (conversion_char_range cv) as Hcv.
  assert (first_byte (width ++ conversion_char cv :: rest) ≠ 48) as Hf.
  { destruct width as [|d ws]; simpl in *; [lia|congruence]. }
  assert (∀ q, text s q (replicate zeros 48 ++ width ++ conversion_char cv :: rest) →
    ∃ p1 p2, print_zeros n q (pad_flags lft false) s = Ret (p1, pad_flags lft (negb (zeros =? 0)%nat)) s ∧
      print_width n p1 0 s = Ret (p2, width_value width) s ∧ text s p2 (conversion_char cv :: rest)) as Hgo.
  { intros q Hq. cbn [item_format] in Hn. cbn [length] in Hn. rewrite !length_app, length_replicate in Hn. simpl in Hn.
    destruct (print_zeros_ok n s q _ lft false zeros Hq Hf) as (p1 & E1 & Ht1 & _); [lia|].
    destruct (print_width_ok n s p1 width (conversion_char cv :: rest) 0) as (p2 & E2 & Ht2 & _);
      [done|done| |done|done|lia|].
    { simpl. unfold i8. change (2 ^ 7) with 128. dlia. }
    by exists p1, p2. }
  cbn [item_format app] in Ht. apply text_cons in Ht. rewrite <-!app_assoc in Ht. cbn [app] in Ht.
  destruct lft; cbn [app] in Ht.
  - destruct (Hgo (cnext (cnext p))) as (p1 & p2 & E1 & E2 & Ht2); [by eapply text_cons|].
    exists 45, (cnext (cnext p), PAD_RIGHT), p1, p2. split_and!; try done. by rewrite (text_first _ _ _ Ht).
  - destruct (Hgo (cnext p)) as (p1 & p2 & E1 & E2 & Ht2); [done|].
    set (c := first_byte (replicate zeros 48 ++ width ++ conversion_char cv :: rest)).
    assert (48 ≤ c < 127) as Hc.
    { unfold c. destruct zeros; [|simpl; lia]. destruct width as [|d ws]; simpl; [lia|].
      apply Forall_inv in Hd. lia. }
    exists c, (cnext p, 0), p1, p2. split_and!; try done; try lia; [by apply text_first|].
    by rewrite (proj2 (Z.eqb_neq c 45)) by lia.
Qed.

Lemma print_loop_ok n s p its args xs rest pc :
  con_ready s → text s p (concat (item_format <$> its)) → Forall item_wf its →
  items_text null_string fuel s its args xs rest → Forall con_char xs →
  0 ≤ pc → pc + Z.of_nat (length xs) ≤ INT_MAX →
  (length (concat (item_format <$> its)) < n)%nat → (n ≤ fuel)%nat →
  ∃ s', print_loop null_string print_buf fuel n NULL p args pc s = Ret (pc + Z.of_nat (length xs)) s' ∧ shown xs s s'.
Proof.
  revert s p its args xs pc. induction n as [|n IH]; intros s p its args xs pc Hr Ht Hwf Hi Hc Hpc0 Hpc Hn Hnf; [lia|].
  cbn [print_loop]. run (text_first _ _ _ Ht). destruct Hi as [args|it its args xs args1 ys args2 Hit Hits].
  { simpl. rewrite Z.add_0_r. exists s. split; [done|by apply shown_nil]. }
  apply Forall_cons in Hwf as [Hwf1 Hwf]. apply Forall_app in Hc as [Hc1 Hc2].
  rewrite length_app, Nat2Z.inj_add in Hpc. cbn [fmap list_fmap concat] in Ht, Hn |- *.
  fold (item_format <$> its) in Ht, Hn |- *. rewrite length_app in Hn. pose proof (item_format_length it).
  (* what remains after the item *)
  assert (∀ s1 q n', shown xs s s1 → text s1 q (concat (item_format <$> its)) → n' = n →
    ∃ s', print_loop null_string print_buf fuel n' NULL q args1 (pc + Z.of_nat (length xs)) s1
      = Ret (pc + Z.of_nat (length (xs ++ ys))) s' ∧ shown (xs ++ ys) s s') as Hgo.
  { intros s1 q n' S1 Hq ->. destruct (IH s1 q its args1 ys (pc + Z.of_nat (length xs))) as (s' & E & S2);
      [by eapply shown_ready|done|done|by eapply items_text_shown|done|lia|lia|lia|lia|].
    exists s'. rewrite E, length_app, Nat2Z.inj_add. split; [f_equal; lia|by eapply shown_app]. }
  assert (∀ c q, xs = [c] → 0 ≤ c < 256 → con_char c → text s q (c :: concat (item_format <$> its)) → args1 = args →
    ∃ s', (printchar NULL (i8 c) ;; pc ← int_add pc 1;
           print_loop null_string print_buf fuel n NULL (cnext q) args pc) s
      = Ret (pc + Z.of_nat (length (xs ++ ys))) s' ∧ shown (xs ++ ys) s s') as Hput.
  { intros c q -> Hcr Hcc Hq ->. assert (u8 (i8 c) = c) as Hu by (rewrite i8_congr; by apply u8_small).
    simpl in Hpc. destruct (put_ok s (i8 c) pc) as (s1 & E1 & S1); [done|by rewrite Hu|lia|]. rewrite Hu in S1.
    apply bind_Ret_inv in E1 as ([] & s0 & E0 & E1). run E0. run E1.
    apply (Hgo s1 (cnext q) n); [done| |done]. eapply text_shown; [done|]. by eapply text_cons. }
  destruct it as [c| |lft zeros width cv].
  - inversion Hit; subst. cbn [item_format app first_byte] in *. pose proof (text_byte _ _ _ _ Ht).
    simpl in Hwf1. rewrite (proj2 (Z.eqb_neq c 0)), (proj2 (Z.eqb_neq c 37)) by lia.
    apply Hput; [done|lia|by apply Forall_inv in Hc1|done|done].
  - inversion Hit; subst. cbn [item_format app first_byte] in *.
    pose proof (text_cons _ _ _ _ Ht) as Ht2. change (37 =? 0) with false. change (37 =? 37) with true. cbv iota zeta.
    run (text_first _ _ _ Ht2). cbn [first_byte]. change (37 =? 0) with false. change (37 =? 37) with true. cbv iota.
    apply Hput; [done|lia|by apply Forall_inv in Hc1|done|done].
  - change (first_byte (item_format (Conv lft zeros width cv) ++ concat (item_format <$> its))) with 37.
    change (37 =? 0) with false. change (37 =? 37) with true. cbv iota zeta.
    destruct (directive_ok s p lft zeros width cv _ fuel Ht Hwf1) as (c & q & p1 & p2 & Ec & Hc0 & Hc37 & -> & E1 & E2 & Ht2); [lia|].
    run Ec. rewrite (proj2 (Z.eqb_neq c 0)), (proj2 (Z.eqb_neq c 37)) by done.
    assert (print_zeros fuel (if c =? 45 then (cnext (cnext p), PAD_RIGHT) else (cnext p, 0)).1
      (if c =? 45 then (cnext (cnext p), PAD_RIGHT) else (cnext p, 0)).2 s
      = Ret (p1, pad_flags lft (negb (zeros =? 0)%nat)) s) as E1' by exact E1.
    destruct (if c =? 45 then _ else _) as [q pad]. cbn [fst snd] in E1'. run E1'. run E2. run (text_first _ _ _ Ht2).
    cbn [first_byte].
    destruct (conversion_ok s lft zeros width cv args xs args1) as (s1 & E3 & S1); [done|done|done|done|lia|].
    run E3. run (int_add_ok pc (Z.of_nat (length xs)) s1 ltac:(lia)).
    apply (Hgo s1 (cnext p2) n); [done| |done]. eapply text_shown; [done|]. by eapply text_cons.
Qed.
End formats.

(** ** The screen as a console *)

#[export] Instance vga_console {T} `{ByteStore T} : Console (vga_state T) := { print_string := vga_print 2 }.

#[export] Program Instance vga_console_laws {T} `{ByteStoreLaws T} : ConsoleLaws (vga_state T) := {
  con_ready := screen_ok;
  con_private s b := vga_buffer s ≤ b < vga_buffer s + WRITTEN_BYTES;
  con_char c := 0 < c < 256 ∧ c ≠ 8 ∧ c ≠ 13
}.
Next Obligation. intros. simpl in *. lia. Qed.
Next Obligation.
  intros T ?? s c Hok (Hc & H8 & H13).
  destruct (vga_putc_ok s c Hok Hc H8 H13) as (s' & R & Hok' & Eb & _ & Hs).
  exists s'. split_and!; [|done|by rewrite Eb|done].
  unfold print_string, vga_console. cbn [vga_print].
  run (rdc_first s (Arr [c; 0] 0) [c] (cstring_arr s [c] ltac:(by constructor))). cbn [first_byte].
  rewrite (proj2 (Z.eqb_neq c 0)) by lia. run R.
  by run (rdc_first s' (Arr [c; 0] 1) [] ltac:(by exists [c], [])).
Qed.

(** ** Properties *)

Section properties.
Context {T : Type} `{ByteStoreLaws T, !Console T, !ConsoleLaws T}.

(** C10.  [printf] implements its format language: on any format made of
    literal characters, ["%%"] and the conversions [%s], [%d], [%x], [%X],
    [%u] and [%c] with the flags [-] and [0] and a width, with the arguments
    the conversions ask for, exactly the characters that the format stands for
    are printed, in order, and their number is returned. *)
Theorem printf_formats null_string print_buf fuel (s : T) format its args xs rest :
  length print_buf = PRINT_BUF_LEN → con_ready s → Forall item_wf its →
  text s format (concat (item_format <$> its)) → items_text null_string fuel s its args xs rest →
  Forall con_char xs → Z.of_nat (length xs) ≤ INT_MAX →
  (length (concat (item_format <$> its)) < fuel)%nat → (12 < fuel)%nat →
  ∃ s', printf null_string print_buf fuel format args s = Ret (Z.of_nat (length xs)) s' ∧ shown xs s s'.
Proof.
  intros Hbuf Hr Hwf Ht Hi Hc Hlen Hf Hf2. unfold printf, print.
  destruct (print_loop_ok null_string print_buf Hbuf fuel Hf2 fuel s format its args xs rest 0) as (s' & E & S');
    [done..|lia|lia|done|]. run E. exists s'. split; [done|done].
Qed.

(** What a signed decimal stands for. *)
Definition int_value (xs : list Z) : Z :=
  match xs with 45 :: ys => - numeral_value 10 ys | _ => numeral_value 10 xs end.

(** C35.  Printing and reading back a number: the characters [printi] prints
    for an [int] stand for it - as a signed decimal ([%d]) for itself, in
    base 10 ([%u]) or 16 ([%x], [%X]) for the unsigned value of its bits -
    and there are no more than fit in [print_buf].  Only for the least [int]
    is [%d] undefined, since the code negates it. *)
Theorem printi_roundtrip print_buf fuel (s : T) i :
  length print_buf = PRINT_BUF_LEN → con_ready s → (12 < fuel)%nat → - 2 ^ 31 ≤ i < 2 ^ 31 →
  (if decide (i = - 2 ^ 31) then printi print_buf fuel NULL i 10 1 0 0 97 s = Fault
   else ∃ s' xs, printi print_buf fuel NULL i 10 1 0 0 97 s = Ret (Z.of_nat (length xs)) s' ∧
          shown xs s s' ∧ int_value xs = i ∧ (length xs < PRINT_BUF_LEN)%nat) ∧
  ∀ b l, b = 10 ∨ b = 16 → l = 65 ∨ l = 97 →
    ∃ s' xs, printi print_buf fuel NULL i b 0 0 0 l s = Ret (Z.of_nat (length xs)) s' ∧
      shown xs s s' ∧ numeral_value b xs = u32 i ∧ (length xs < PRINT_BUF_LEN)%nat.
Proof.
  intros Hbuf Hr Hf Hi.
  assert (∀ xs, padded false false 0 xs = xs) as Hpad.
  { intros xs. unfold padded. by replace (Z.to_nat (0 - Z.of_nat (length xs))) with 0%nat by lia. }
  split.
  - case_decide as Hmin; [by subst|].
    destruct (printi_ok print_buf Hbuf fuel s i 10 true 0 false false 97) as (s' & E & S');
      [done|done|unfold INT_MAX; lia|by left|by right|done|done|done|].
    exists s', (number true 10 97 false false 0 i). split_and!; [exact E|exact S'|..]; unfold number;
      (destruct (Z.eqb_spec i 0) as [->|Hi0]; [first [reflexivity|vm_compute; lia]|]);
      destruct (Z.ltb_spec i 0); cbn [andb negb]; change (0 =? 0) with true; cbn [negb andb]; rewrite Hpad.
    + change (- numeral_value 10 (digits 10 10 97 (- i) []) = i).
      rewrite numeral_value_digits; [lia|lia|by right|change (Z.of_nat 10) with 10; lia].
    + assert (numeral_value 10 (numeral 10 97 (u32 i)) = i) as Hv.
      { rewrite u32_small by lia. apply numeral_value_digits; [lia|by right|change (Z.of_nat 10) with 10; lia]. }
      pose proof (numeral_chars 10 97 (u32 i) ltac:(by left) ltac:(by right) (proj1 (u32_range i))) as Hch.
      unfold int_value. destruct (numeral 10 97 (u32 i)) as [|c ys]; [done|].
      apply Forall_inv in Hch. repeat (case_match; try done). lia.
    + cbn [length]. pose proof (numeral_length 10 97 (- i)). unfold PRINT_BUF_LEN. lia.
    + pose proof (numeral_length 10 97 (u32 i)). unfold PRINT_BUF_LEN. lia.
  - intros b l Hb Hl. destruct (printi_ok print_buf Hbuf fuel s i b false 0 false false l) as (s' & E & S');
      [done|done|unfold INT_MAX; lia|done|done|done|done|done|].
    exists s', (number false b l false false 0 i). pose proof (u32_range i) as Hu.
    split_and!; [exact E|exact S'|..]; unfold number; destruct (Z.eqb_spec i 0) as [->|Hi0]; cbn [andb]; rewrite Hpad.
    + reflexivity.
    + apply numeral_value_digits; [lia|done|]. change (Z.of_nat 10) with 10. destruct Hb as [-> | ->]; lia.
    + unfold PRINT_BUF_LEN. simpl. lia.
    + pose proof (numeral_length b l (u32 i)). unfold PRINT_BUF_LEN. lia.
Qed.

Lemma iter_cnext_Mem n a : 0 ≤ a → a + Z.of_nat n < 2 ^ 32 → Nat.iter n cnext (Mem a) = Mem (a + Z.of_nat n).
Proof.
  intros Ha. induction n as [|n IH]; intros Hn; [by rewrite Z.add_0_r|].
  cbn [Nat.iter]. rewrite Nat.iter_succ, IH by lia. simpl. rewrite u32_small by lia. f_equal. lia.
Qed.

(** A format that ends inside a conversion, after its flags or its width:
    the terminator is taken for the conversion character and skipped, and
    whatever lies behind the format in memory is printed as more of it. *)
Theorem printf_reads_past_end null_string print_buf fuel (s : T) a zeros ws ys :
  length print_buf = PRINT_BUF_LEN → con_ready s →
  let fmt := 37 :: replicate zeros 48 ++ ws in
  (1 < length fmt)%nat → Forall (λ d, 48 ≤ d ≤ 57) ws → head ws ≠ Some 48 → width_value ws ≤ INT_MAX →
  text s (Mem a) fmt → text s (Mem (a + Z.of_nat (length fmt) + 1)) ys →
  Forall (λ y, y ≠ 37) ys → Forall con_char ys → Z.of_nat (length ys) ≤ INT_MAX →
  (12 < fuel)%nat → (length fmt < fuel)%nat → (S (length ys) < fuel)%nat →
  ∃ s', printf null_string print_buf fuel (Mem a) [] s = Ret (Z.of_nat (length ys)) s' ∧ shown ys s s'.
Proof.
  intros Hbuf Hr fmt Hlen Hws Hhd Hw Ht Hys Hy Hc Hl Hf Hf1 Hf2. 
  assert (∃ s', print_loop null_string print_buf fuel fuel NULL (Mem a) [] 0 s = Ret (Z.of_nat (length ys)) s' ∧
    shown ys s s') as (s' & E & S').
  2: { unfold printf, print. run E. by exists s'. }
  destruct fuel as [|fuel]; [lia|]. cbn [print_loop]. run (text_first _ _ _ Ht).
  change (first_byte fmt) with 37. change (37 =? 0) with false. change (37 =? 37) with true. cbv iota zeta.
  pose proof (text_cons _ _ _ _ Ht) as Ht1. run (text_first _ _ _ Ht1).
  set (c := first_byte (replicate zeros 48 ++ ws)).
  assert (48 ≤ c ≤ 57) as Hcr.
  { unfold c, fmt in *. destruct zeros; [|simpl; lia]. destruct ws as [|d ws]; simpl in *; [lia|].
    by apply Forall_inv in Hws. }
  rewrite (proj2 (Z.eqb_neq c 0)), (proj2 (Z.eqb_neq c 37)), (proj2 (Z.eqb_neq c 45)) by lia.
  assert (length fmt = S (zeros + length ws)) as El by (unfold fmt; simpl; by rewrite length_app, length_replicate).
  destruct (print_zeros_ok (S fuel) s (cnext (Mem a)) ws false false zeros Ht1) as (p1 & E1 & Ht2 & Ep1);
    [destruct ws as [|d ws]; simpl in *; congruence|lia|].
  change (pad_flags false false) with 0 in E1. run E1.
  destruct (print_width_ok (S fuel) s p1 ws [] 0) as (p2 & E2 & Ht3 & Ep2);
    [by rewrite app_nil_r|done|simpl; change (i8 0) with 0; lia|done|done|lia|].
  run E2. run (text_first _ _ _ Ht3). cbn [first_byte].
  unfold print_conversion. change (0 =? 115) with false. change (0 =? 100) with false. change (0 =? 120) with false.
  change (0 =? 88) with false. change (0 =? 117) with false. change (0 =? 99) with false. cbv iota.
  rewrite bind_ret_l. run (int_add_ok 0 0 s ltac:(unfold INT_MAX; lia)).
  pose proof (cstr_range _ _ _ (proj1 Ht)) as [Ha1 Ha2].
  pose proof (cstr_range _ _ _ (proj1 Hys)) as [Hb1 Hb2].
  assert (cnext p2 = Mem (a + Z.of_nat (length fmt) + 1)) as Ep.
  { subst p1 p2. change (cnext (Mem a)) with (Nat.iter 1 cnext (Mem a)).
    rewrite <-!Nat.iter_add, iter_cnext_Mem by lia. cbn [cnext]. rewrite u32_small by lia. f_equal. lia. }
  rewrite Ep.
  destruct (print_loop_ok null_string print_buf Hbuf (S fuel) Hf fuel s
    (Mem (a + Z.of_nat (length fmt) + 1)) (Lit <$> ys) [] ys [] 0) as (s' & E & S').
  - done.
  - assert (concat (item_format <$> (Lit <$> ys)) = ys) as ->; [|done].
    clear. induction ys as [|y ys IH]; simpl; [done|]. by f_equal.
  - apply Forall_fmap. exact Hy.
  - clear. induction ys as [|y ys IH]; [constructor|]. apply (items_cons _ _ _ _ _ [] [y] [] ys []); [constructor|done].
  - done.
  - lia.
  - lia.
  - assert (concat (item_format <$> (Lit <$> ys)) = ys) as ->; [|lia].
    clear. induction ys as [|y ys IH]; simpl; [done|]. by f_equal.
  - lia.
  - by exists s'.
Qed.
End properties.

(** ** Witnesses *)

Definition example_print_buf : list Z := replicate PRINT_BUF_LEN 0.

(** [printf("%-3d|%c", -7, 'x')] *)
Definition example_items : list item := [Conv true 0 [51] Dec; Lit 124; Conv false 0 [] Chr].

Lemma example_items_text (s : vga_state carray) :
  items_text 0 20 s example_items [2 ^ 32 - 7; 120] [45; 55; 32; 124; 120] [].
Proof.
  apply (items_cons _ _ _ _ _ [2 ^ 32 - 7; 120] [45; 55; 32] [120] [124; 120] []).
  { apply (text_dec 0 20 s true 0 [51] (2 ^ 32 - 7) [120]). discriminate. }
  apply (items_cons _ _ _ _ _ [120] [124] [120] [120] []).
  { apply (text_lit 0 20 s 124 [120]). }
  apply (items_cons _ _ _ _ _ [120] [120] [] [] []).
  { apply (text_chr 0 20 s false 0 [] 120 []). }
  constructor.
Qed.

Lemma printf_formats_witness :
  ∃ s', printf 0 example_print_buf 20 (Arr [37; 45; 51; 100; 124; 37; 99; 0] 0) [2 ^ 32 - 7; 120]
          (example_screen 0 0) = Ret 5 s' ∧ shown [45; 55; 32; 124; 120] (example_screen 0 0) s'.
Proof.
  apply (printf_formats 0 example_print_buf 20 (example_screen 0 0) (Arr [37; 45; 51; 100; 124; 37; 99; 0] 0)
    example_items [2 ^ 32 - 7; 120] [45; 55; 32; 124; 120] []).
  - reflexivity.
  - apply example_screen_ok; lia.
  - repeat constructor; vm_compute; congruence.
  - apply (text_arr _ [] [37; 45; 51; 100; 124; 37; 99] []). repeat constructor; lia.
  - apply example_items_text.
  - repeat constructor; lia.
  - discriminate.
  - simpl. lia.
  - lia.
Defined.

Lemma printi_roundtrip_witness :
  ∃ s' xs, printi example_print_buf 20 NULL (-1234) 10 1 0 0 97 (example_screen 0 0) = Ret (Z.of_nat (length xs)) s' ∧
    int_value xs = -1234.
Proof.
  destruct (printi_roundtrip example_print_buf 20 (example_screen 0 0) (-1234)) as [Hd _].
  - reflexivity.
  - apply example_screen_ok; lia.
  - lia.
  - lia.
  - destruct Hd as (s' & xs & E & _ & Hv & _). exists s', xs. split; [exact E|exact Hv].
Defined.

(** ["%5"] at 0x1800, ["Hi"] behind it. *)
Definition example_formats : vga_state carray :=
  VgaState (CArray 0x2000 (list_to_map (zip (seqZ 0x1800 6) [37; 53; 0; 72; 105; 0]))) 0x100 VGA_DEFAULT_COLOR 0 0.

Lemma example_formats_ok : screen_ok example_formats.
Proof.
  split; cbn [vga_x vga_y vga_color vga_buffer example_formats]; try lia.
  - unfold VGA_DEFAULT_COLOR, COLOR_LIGHT_GREY. lia.
  - unfold WRITTEN_BYTES. lia.
  - intros b Hb. unfold get8. simpl. unfold WRITTEN_BYTES in Hb. rewrite decide_True by lia. eauto.
Qed.

Lemma printf_reads_past_end_witness :
  ∃ s', printf 0 example_print_buf 20 (Mem 0x1800) [] example_formats = Ret 2 s' ∧
    shown [72; 105] example_formats s'.
Proof.
  apply (printf_reads_past_end 0 example_print_buf 20 example_formats 0x1800 0 [53] [72; 105]).
  - reflexivity.
  - exact example_formats_ok.
  - simpl. lia.
  - repeat constructor; lia.
  - discriminate.
  - discriminate.
  - split.
    + vm_compute. repeat split; congruence.
    + intros b. unfold con_private, vga_console_laws, WRITTEN_BYTES. simpl. lia.
  - split.
    + vm_compute. repeat split; congruence.
    + intros b. unfold con_private, vga_console_laws, WRITTEN_BYTES. simpl. lia.
  - repeat constructor; lia.
  - repeat constructor; lia.
  - discriminate.
  - lia.
  - simpl. lia.
  - simpl. lia.
Defined.
