(* ===== verification/Logger.v ===== *)
(** * Log messages and panics: [kernel/logging/logger.c], [kernel/panic.c]

    A string literal is an array of its own; the addresses the literals have
    play no part.  [kernel_panic] never returns: [HLT] halts the processor in
    a loop. *)

From Stdlib Require String Ascii.
From S2P Require Import Prelude Memory CString CPtr Bitmap Phys Paging Kheap Kmalloc Vga Stdio.

Inductive log_type := LOG_INFO | LOG_WARNING | LOG_ERROR | LOG_DEBUG.

Definition LOG_PREFIXS (t : log_type) : list Z :=
  match t with
  | LOG_INFO => [91; 73; 78; 70; 79; 93; 58]
  | LOG_WARNING => [91; 87; 65; 82; 78; 73; 78; 71; 93; 58]
  | LOG_ERROR => [91; 69; 82; 82; 79; 82; 93; 58]
  | LOG_DEBUG => [91; 68; 69; 66; 85; 71; 93; 58]
  end.

Definition colors (t : log_type) : Z :=
  match t with
  | LOG_INFO => COLOR_LIGHT_BLUE
  | LOG_WARNING => COLOR_LIGHT_MAGENTA
  | LOG_ERROR => COLOR_RED
  | LOG_DEBUG => COLOR_BLUE
  end.

(** The characters of a text, and a string literal. *)
Definition chars (t : String.string) : list Z := (λ c, Z.of_nat (Ascii.nat_of_ascii c)) <$> String.list_ascii_of_string t.
Definition literal (xs : list Z) : cptr := Arr (xs ++ [0]) 0.

Section logger_c.
Context {T : Type} `{ByteStore T}.
Abbreviation state := (vga_state T).
Variable null_string : Z.
Variable print_buf : list Z.
Variable fuel : nat.

Definition log_print (t : log_type) (format : cptr) (args : list Z) : M state unit :=
  set_terminal_color (colors t) ;;
  _ ← printf null_string print_buf fuel (literal (LOG_PREFIXS t)) [];
  _ ← print null_string print_buf fuel NULL format args;
  _ ← printf null_string print_buf fuel (literal [10]) [];
  set_terminal_color VGA_DEFAULT_COLOR.

Definition kernel_panic : M state unit :=
  log_print LOG_ERROR (literal [75; 69; 82; 78; 69; 76; 32; 80; 65; 78; 73; 67; 33]) [] ;;
  mpanic.
End logger_c.

(** ** What a message looks like *)

Section messages.
Context {T : Type} `{ByteStoreLaws T}.
Implicit Types s : vga_state T.

Definition with_color (c : Z) s : vga_state T := VgaState (vga_mem s) (vga_buffer s) c (vga_x s) (vga_y s).

Lemma set_terminal_color_ok s c : 1 ≤ c ≤ 15 → set_terminal_color c s = Ret tt (with_color c s).
Proof.
  intros Hc. unfold set_terminal_color, COLOR_BLUE, COLOR_WHITE.
  by rewrite Z.geb_leb, (proj2 (Z.leb_le 1 c)), (proj2 (Z.leb_le c 15)) by lia.
Qed.

Lemma screen_ok_color s c : 0 ≤ c < 256 → screen_ok s → screen_ok (with_color c s).
Proof. intros Hc [H1 H2 _ H4 H5]. by split. Qed.

(** What printing does to the state, as far as the rest of the kernel is
    concerned: memory outside of the screen is kept, by stores alone. *)
Definition printed s s' : Prop :=
  screen_ok s' ∧ vga_buffer s' = vga_buffer s ∧ stores (vga_mem s) (vga_mem s') ∧
  ∀ b, ¬ vga_buffer s ≤ b < vga_buffer s + WRITTEN_BYTES → get8 s' b = get8 s b.

Lemma printed_trans s1 s2 s3 : printed s1 s2 → printed s2 s3 → printed s1 s3.
Proof.
  intros (_ & B1 & S1 & G1) (O2 & B2 & S2 & G2). split_and!; [done|congruence|unfold stores in *; by trans (vga_mem s2)|].
  intros b Hb. rewrite G2, G1; [done|done|by rewrite B1].
Qed.

Lemma printed_color s s' c d : 0 ≤ d < 256 → printed (with_color c s) s' → printed s (with_color d s').
Proof. intros Hd (H1 & H2 & H3 & H4). split_and!; [by apply screen_ok_color|done..]. Qed.

Lemma shown_printed xs s s' : shown xs s s' → printed s s'.
Proof.
  intros (E & Hok & Hp & Hg). simpl in Hok, Hp, Hg.
  assert (vga_buffer s' = vga_buffer s) as Hb.
  { pose proof (Hp (vga_buffer s)) as H1. pose proof (Hp (vga_buffer s')) as H2. unfold WRITTEN_BYTES in *. lia. }
  split_and!; [done|done| |done].
  assert (preserves (λ t, stores (vga_mem s) (vga_mem t)) (print_chars xs)) as Hk.
  { clear. induction xs as [|c xs IH]; cbn [print_chars]; [apply preserves_ret|].
    apply preserves_bind; [|done]. apply vga_print_kept. intros a v m m' Hm Em.
    unfold stores in *. eapply rtc_r; [done|by exists a, v]. }
  by eapply Hk; [|exact E].
Qed.

Lemma text_color s c p xs : text s p xs → text (with_color c s) p xs.
Proof.
  intros [Hc Ha]. split; [|exact Ha]. destruct p as [a|]; [|exact Hc].
  simpl in *. by eapply cstr_ext.
Qed.

Lemma items_text_color null_string fuel s c its args xs rest :
  items_text null_string fuel s its args xs rest → items_text null_string fuel (with_color c s) its args xs rest.
Proof.
  induction 1 as [|it its args xs args1 ys args2 Hi Hits IH]; [constructor|].
  econstructor; [|exact IH]. destruct Hi; constructor; try done. by apply text_color.
Qed.

Lemma text_literal s xs : Forall (λ x, 0 < x < 256) xs → text s (literal xs) xs.
Proof. intros Hx. exact (text_arr s [] xs [] Hx). Qed.

(** A format without conversions. *)
Lemma lit_formats (xs : list Z) : concat (item_format <$> (Lit <$> xs)) = xs.
Proof. induction xs as [|x xs IH]; simpl; [done|]. by f_equal. Qed.

Lemma lit_text null_string fuel s (xs : list Z) args : items_text null_string fuel s (Lit <$> xs) args xs args.
Proof. induction xs as [|x xs IH]; [constructor|]. apply (items_cons _ _ _ _ _ args [x] args xs args); [constructor|done]. Qed.

Lemma printf_literal null_string print_buf fuel s (xs : list Z) :
  length print_buf = PRINT_BUF_LEN → (12 < fuel)%nat → (length xs < fuel)%nat → screen_ok s →
  Forall (λ x, 0 < x < 256 ∧ x ≠ 37 ∧ x ≠ 8 ∧ x ≠ 13) xs → Z.of_nat (length xs) ≤ INT_MAX →
  ∃ s', printf null_string print_buf fuel (literal xs) [] s = Ret (Z.of_nat (length xs)) s' ∧ shown xs s s'.
Proof.
  intros Hbuf Hf Hl Hok Hx Hlen. unfold printf, print.
  destruct (print_loop_ok null_string print_buf Hbuf fuel Hf fuel s (literal xs) (Lit <$> xs) [] xs [] 0)
    as (s' & E & S').
  - done.
  - rewrite lit_formats. apply text_literal. eapply Forall_impl; [exact Hx|]. naive_solver.
  - apply Forall_fmap. eapply Forall_impl; [exact Hx|]. simpl. naive_solver.
  - apply lit_text.
  - eapply Forall_impl; [exact Hx|]. simpl. naive_solver.
  - lia.
  - lia.
  - by rewrite lit_formats.
  - lia.
  - run E. by exists s'.
Qed.

Lemma prefix_ok t : Forall (λ x, 0 < x < 256 ∧ x ≠ 37 ∧ x ≠ 8 ∧ x ≠ 13) (LOG_PREFIXS t) ∧
  (length (LOG_PREFIXS t) ≤ 10)%nat.
Proof. split; [|destruct t; simpl; lia]. destruct t; repeat constructor; lia. Qed.

Lemma colors_range t : 1 ≤ colors t ≤ 15.
Proof. destruct t; vm_compute; intuition congruence. Qed.

Lemma log_print_ok null_string print_buf fuel s t format its args xs rest :
  length print_buf = PRINT_BUF_LEN → screen_ok s → Forall item_wf its →
  text s format (concat (item_format <$> its)) → items_text null_string fuel s its args xs rest →
  Forall con_char xs → Z.of_nat (length xs) ≤ INT_MAX →
  (length (concat (item_format <$> its)) < fuel)%nat → (12 < fuel)%nat →
  ∃ s', log_print null_string print_buf fuel t format args s = Ret tt (with_color VGA_DEFAULT_COLOR s') ∧
    shown (LOG_PREFIXS t ++ xs ++ [10]) (with_color (colors t) s) s'.
Proof.
  intros Hbuf Hok Hwf Ht Hi Hc Hlen Hf Hf2. unfold log_print.
  pose proof (colors_range t) as Hcol. run (set_terminal_color_ok s (colors t) Hcol).
  destruct (prefix_ok t) as [Hp Hpl].
  destruct (printf_literal null_string print_buf fuel (with_color (colors t) s) (LOG_PREFIXS t)) as (s1 & E1 & S1);
    [done|done|lia|apply screen_ok_color; [lia|done]|done|unfold INT_MAX; lia|]. run E1.
  destruct (print_loop_ok null_string print_buf Hbuf fuel Hf2 fuel s1 format its args xs rest 0) as (s2 & E2 & S2);
    [by eapply shown_ready|eapply text_shown; [done|by apply text_color]|done|
     eapply items_text_shown; [done|by apply items_text_color]|done|lia|lia|done|lia|].
  assert (print null_string print_buf fuel NULL format args s1 = Ret (0 + Z.of_nat (length xs)) s2) as E2'.
  { unfold print. by run E2. }
  run E2'.
  destruct (printf_literal null_string print_buf fuel s2 [10]) as (s3 & E3 & S3);
    [done|done|simpl; lia|by apply shown_ready in S2|by repeat constructor|unfold INT_MAX; simpl; lia|]. run E3.
  exists s3. split; [by apply set_terminal_color_ok|].
  eapply shown_app; [done|]. by eapply shown_app.
Qed.

(** A message without conversions. *)
Lemma log_print_literal null_string print_buf fuel s t (xs : list Z) :
  length print_buf = PRINT_BUF_LEN → screen_ok s →
  Forall (λ x, 0 < x < 256 ∧ x ≠ 37 ∧ x ≠ 8 ∧ x ≠ 13) xs → Z.of_nat (length xs) ≤ INT_MAX →
  (length xs < fuel)%nat → (12 < fuel)%nat →
  ∃ s', log_print null_string print_buf fuel t (literal xs) [] s = Ret tt (with_color VGA_DEFAULT_COLOR s') ∧
    shown (LOG_PREFIXS t ++ xs ++ [10]) (with_color (colors t) s) s'.
Proof.
  intros Hbuf Hok Hx Hlen Hl Hf. apply (log_print_ok _ _ _ _ _ _ (Lit <$> xs) [] xs []).
  - done.
  - done.
  - apply Forall_fmap. eapply Forall_impl; [exact Hx|]. simpl. naive_solver.
  - rewrite lit_formats. apply text_literal. eapply Forall_impl; [exact Hx|]. naive_solver.
  - apply lit_text.
  - eapply Forall_impl; [exact Hx|]. simpl. naive_solver.
  - done.
  - by rewrite lit_formats.
  - done.
Qed.
End messages.

(** ** Properties *)

Section properties.
Context {T : Type} `{ByteStoreLaws T}.

(** C34.  [log_print] prints, in the colour of the message's kind, its prefix,
    the formatted message and a new line, and leaves the default colour; and
    [kernel_panic] ends in the halted state whatever the screen shows. *)
Theorem log_print_spec null_string print_buf fuel (s : vga_state T) t format its args xs rest :
  length print_buf = PRINT_BUF_LEN → screen_ok s → Forall item_wf its →
  text s format (concat (item_format <$> its)) → items_text null_string fuel s its args xs rest →
  Forall con_char xs → Z.of_nat (length xs) ≤ INT_MAX →
  (length (concat (item_format <$> its)) < fuel)%nat → (13 < fuel)%nat →
  (∃ s', log_print null_string print_buf fuel t format args s = Ret tt (with_color VGA_DEFAULT_COLOR s') ∧
    shown (LOG_PREFIXS t ++ xs ++ [10]) (with_color (colors t) s) s') ∧
  kernel_panic null_string print_buf fuel s = Panic.
Proof.
  intros Hbuf Hok Hwf Ht Hi Hc Hlen Hf Hf2. split; [apply (log_print_ok _ _ _ _ _ _ its _ _ rest); done || lia|].
  unfold kernel_panic. set (m := [75; 69; 82; 78; 69; 76; 32; 80; 65; 78; 73; 67; 33]).
  destruct (log_print_literal null_string print_buf fuel s LOG_ERROR m) as (s' & E & _);
    [done|done|repeat constructor; lia|unfold INT_MAX; simpl; lia|simpl; lia|lia|].
  by run E.
Qed.
End properties.

(** ** Witnesses *)

Lemma log_print_spec_witness :
  ∃ s', log_print 0 example_print_buf 20 LOG_ERROR (literal [37; 45; 51; 100; 124; 37; 99]) [2 ^ 32 - 7; 120]
          (example_screen 0 0) = Ret tt (with_color VGA_DEFAULT_COLOR s') ∧
    shown (LOG_PREFIXS LOG_ERROR ++ [45; 55; 32; 124; 120] ++ [10]) (with_color COLOR_RED (example_screen 0 0)) s'.
Proof.
  apply (log_print_spec 0 example_print_buf 20 (example_screen 0 0) LOG_ERROR
    (literal [37; 45; 51; 100; 124; 37; 99]) example_items [2 ^ 32 - 7; 120] [45; 55; 32; 124; 120] []).
  - reflexivity.
  - apply example_screen_ok; lia.
  - repeat constructor; vm_compute; congruence.
  - apply text_literal. repeat constructor; lia.
  - apply example_items_text.
  - repeat constructor; lia.
  - discriminate.
  - simpl. lia.
  - lia.
Defined.
