(* ===== verification/PortIO.v ===== *)
(** * Port input and output: [include/port_io/port_io.h]

    The four routines are single [in] and [out] instructions in assembly;
    what answers is hardware.  Drivers are written against this interface. *)

From S2P Require Import Prelude.

Class PortIO (T : Type) := {
  read_port : Z → M T Z;
  write_port : Z → Z → M T unit;
  read_word_port : Z → M T Z;
  write_word_port : Z → Z → M T unit
}.
