(* ===== verification/Ata.v ===== *)
(** * The disk driver: [kernel/drivers/ata/ata.c]

    Programmed transfers of 28-bit addressed sectors.  The driver's tables are
    in [ata_state]; a pointer to an [ata_device_t] is the index of the entry,
    [None] the null pointer.  Messages are left out, and [kernel_panic] only
    panics.  The disks are hardware: [channel] is what the ATA standard has
    the two disks of a cable do, as far as these commands go. *)

From S2P Require Import Prelude Memory PortIO.

Definition ATA_DATA_PORT : Z := 0x0.
Definition ATA_SECTOR_COUNT_PORT : Z := 0x2.
Definition ATA_LBA_LOW_PORT : Z := 0x3.
Definition ATA_LBA_MID_PORT : Z := 0x4.
Definition ATA_LBA_HIGH_PORT : Z := 0x5.
Definition ATA_DRIVE_PORT : Z := 0x6.
Definition ATA_COMMAND_PORT : Z := 0x7.
Definition ATA_STATUS_PORT : Z := 0x7.
Definition ALTERNATIVE_CONTROL_PORT : Z := 0x206.
Definition MAX_ATA_DRIVES : Z := 4.
Definition DEFAULT_SECTOR_SIZE : Z := 512.
Definition IDENTIFY_BUFFER_SIZE : Z := 256.
Definition DEVICE_BUSY : Z := 0x80.
Definition DEVICE_READY : Z := 0x40.
Definition DEVICE_DATA_READY : Z := 0x08.
Definition ATA_CMD_READ_PIO : Z := 0x20.
Definition ATA_CMD_WRITE_PIO : Z := 0x30.
Definition ATA_CMD_IDENTIFY_PACKET : Z := 0xA1.
Definition ATA_CMD_IDENTIFY : Z := 0xEC.

Inductive device_type := ATA | ATAPI | SATA.

Record ata_device := AtaDevice {
  base : Z;
  ata_device_type : device_type;
  signature : Z;
  features : Z;
  command_supported : Z;
  ata_sector_size : Z;
  drive_size : Z;
  exists_ : bool;
  is_lba48 : bool;
  is_slave : bool
}.

(** [.bss] *)
Definition zero_ata_device : ata_device := AtaDevice 0 ATA 0 0 0 0 0 false false false.

(** [block_device_t], the fields that are set: the name, [device_specific],
    the two sizes, and whether [read] and [write] are the driver's. *)
Record block_device := BlockDevice {
  device_name : list Z;
  device_specific : option nat;
  device_size : Z;
  sector_size : Z;
  has_read_write : bool
}.

Definition zero_block_device : block_device := BlockDevice [] None 0 0 false.

Record ata_state (T : Type) := AtaState {
  ata_machine : T;
  ata_devices : list ata_device;
  block_devices : list block_device;
  root_device : option nat
}.
Arguments AtaState {T} _ _ _ _.
Arguments ata_machine {T} _.
Arguments ata_devices {T} _.
Arguments block_devices {T} _.
Arguments root_device {T} _.

Section ata_c.
Context {T : Type} {Hmem : ByteStore T} {Hports : PortIO T}.
Abbreviation state := (ata_state T).

Definition lift {A} : M T A → M state A :=
  zoom ata_machine (λ m s, AtaState m (ata_devices s) (block_devices s) (root_device s)).

Definition get_device (i : nat) : M state ata_device := λ s,
  match ata_devices s !! i with Some d => Ret d s | None => Fault end.

(** [if(device == NULL) kernel_panic();] and the access to it. *)
Definition the_device (device : option nat) : M state ata_device :=
  match device with None => mpanic | Some i => get_device i end.

(** An access through the pointer that is not checked before. *)
Definition deref_device (device : option nat) : M state ata_device :=
  match device with None => mfault | Some i => get_device i end.

Definition set_device (i : nat) (f : ata_device → ata_device) : M state unit :=
  mmodify (λ s, AtaState (ata_machine s) (alter f i (ata_devices s)) (block_devices s) (root_device s)).

Definition set_block_device (i : nat) (b : block_device) : M state unit :=
  mmodify (λ s, AtaState (ata_machine s) (ata_devices s) (<[i := b]> (block_devices s)) (root_device s)).

Definition set_root_device (i : nat) : M state unit :=
  mmodify (λ s, AtaState (ata_machine s) (ata_devices s) (block_devices s) (Some i)).

Definition with_base (b : Z) (d : ata_device) : ata_device :=
  AtaDevice b (ata_device_type d) (signature d) (features d) (command_supported d) (ata_sector_size d)
    (drive_size d) (exists_ d) (is_lba48 d) (is_slave d).
Definition with_slave (b : bool) (d : ata_device) : ata_device :=
  AtaDevice (base d) (ata_device_type d) (signature d) (features d) (command_supported d) (ata_sector_size d)
    (drive_size d) (exists_ d) (is_lba48 d) b.
Definition with_exists (b : bool) (d : ata_device) : ata_device :=
  AtaDevice (base d) (ata_device_type d) (signature d) (features d) (command_supported d) (ata_sector_size d)
    (drive_size d) b (is_lba48 d) (is_slave d).
Definition with_type (t : device_type) (d : ata_device) : ata_device :=
  AtaDevice (base d) t (signature d) (features d) (command_supported d) (ata_sector_size d)
    (drive_size d) (exists_ d) (is_lba48 d) (is_slave d).
Definition with_sector_size (z : Z) (d : ata_device) : ata_device :=
  AtaDevice (base d) (ata_device_type d) (signature d) (features d) (command_supported d) z
    (drive_size d) (exists_ d) (is_lba48 d) (is_slave d).

Definition ata_sleep (device : option nat) : M state unit :=
  d ← the_device device;
  _ ← lift (read_port (u32 (base d + ALTERNATIVE_CONTROL_PORT)));
  _ ← lift (read_port (u32 (base d + ALTERNATIVE_CONTROL_PORT)));
  _ ← lift (read_port (u32 (base d + ALTERNATIVE_CONTROL_PORT)));
  _ ← lift (read_port (u32 (base d + ALTERNATIVE_CONTROL_PORT)));
  mret tt.

Definition ata_select_device (device : option nat) : M state unit :=
  d ← the_device device;
  lift (write_port (u32 (base d + ATA_DRIVE_PORT)) (if is_slave d then 0xB0 else 0xA0)) ;;
  ata_sleep device.

Definition ata_identify (is_atapi : bool) (device : option nat) : M state bool :=
  d ← the_device device;
  lift (write_port (u32 (base d + ATA_SECTOR_COUNT_PORT)) 0) ;;
  lift (write_port (u32 (base d + ATA_LBA_LOW_PORT)) 0) ;;
  lift (write_port (u32 (base d + ATA_LBA_MID_PORT)) 0) ;;
  lift (write_port (u32 (base d + ATA_LBA_HIGH_PORT)) 0) ;;
  ata_sleep device ;;
  lift (write_port (u32 (base d + ATA_COMMAND_PORT))
          (if is_atapi then ATA_CMD_IDENTIFY_PACKET else ATA_CMD_IDENTIFY)) ;;
  ata_sleep device ;;
  r ← lift (read_port (u32 (base d + ATA_STATUS_PORT)));
  mret (negb (r =? 0)).

(** [for(int i = 0; i < 4; i++)]; nothing calls this function. *)
Fixpoint ata_poll_loop (n : nat) (port status : Z) : M state Z :=
  match n with
  | O => mret status
  | S n' =>
      status ← lift (read_port port);
      ata_poll_loop n' port status
  end.

Definition ata_poll (device : option nat) : M state Z :=
  d ← deref_device device;
  ata_poll_loop 4 (u32 (base d + ATA_STATUS_PORT)) 0.

(** [identify_buffer[k]] *)
Definition word_of (buffer : list Z) (k : nat) : Z := default 0 (buffer !! k).

Definition identified (buffer : list Z) (d : ata_device) : ata_device :=
  AtaDevice (base d) (ata_device_type d) (word_of buffer 0) (word_of buffer 0x31)
    (Z.lor (word_of buffer 0x52) (u32 (Z.shiftl (word_of buffer 0x53) 16)))
    (ata_sector_size d)
    (u32 (Z.lor (u32 (Z.shiftl (word_of buffer 0x3d) 16)) (word_of buffer 0x3c) * ata_sector_size d))
    (exists_ d) false (is_slave d).

Definition extract_identify_buffer (i : nat) (identify_buffer : list Z) : M state bool :=
  if word_of identify_buffer 0 =? 0 then
    set_device i (with_exists false) ;;
    mret false
  else
    set_device i (identified identify_buffer) ;;
    mret true.

(** [for (int j = 0; j < IDENTIFY_BUFFER_SIZE; j++)], [n] words left. *)
Fixpoint read_identify_buffer (n : nat) (port : Z) : M state (list Z) :=
  match n with
  | O => mret []
  | S n' =>
      w ← lift (read_word_port port);
      ws ← read_identify_buffer n' port;
      mret (w :: ws)
  end.

Definition type_name (t : device_type) : list Z :=
  match t with ATA => [65; 84; 65] | ATAPI => [65; 84; 65; 80; 73] | SATA => [83; 65; 84; 65] end.

(** The body of the loop of [ata_init]. *)
Definition ata_init_device (i : nat) : M state unit :=
  set_device i (with_slave (Nat.odd i)) ;;
  ata_select_device (Some i) ;;
  ok ← ata_identify false (Some i);
  if negb ok then mret tt
  else
    set_device i (with_exists true) ;;
    d ← get_device i;
    type1 ← lift (read_port (u32 (base d + ATA_LBA_MID_PORT)));
    type2 ← lift (read_port (u32 (base d + ATA_LBA_HIGH_PORT)));
    (if (type1 =? 0x14) && (type2 =? 0x15) then
       _ ← ata_identify true (Some i);
       set_device i (with_type ATAPI)
     else if (type1 =? 0x3c) && (type2 =? 0xc3) then set_device i (with_type SATA)
     else
       set_device i (with_type ATA) ;;
       set_device i (with_sector_size DEFAULT_SECTOR_SIZE)) ;;
    identify_buffer ← read_identify_buffer (Z.to_nat IDENTIFY_BUFFER_SIZE) (u32 (base d + ATA_DATA_PORT));
    ok ← extract_identify_buffer i identify_buffer;
    if negb ok then mret tt
    else
      d ← get_device i;
      set_block_device i (BlockDevice (type_name (ata_device_type d)) (Some i) (drive_size d) (ata_sector_size d) true) ;;
      r ← mgets root_device;
      match r with
      | None => set_root_device i
      | Some _ => mret tt
      end.

Definition ata_init : M state unit :=
  set_device 0 (with_base 0x1F0) ;;
  set_device 2 (with_base 0x170) ;;
  set_device 0 (with_base 0x1F0) ;;
  set_device 1 (with_base 0x1F0) ;;
  set_device 2 (with_base 0x170) ;;
  set_device 3 (with_base 0x170) ;;
  for_range 0 MAX_ATA_DRIVES (λ i, ata_init_device (Z.to_nat i)).

Fixpoint ata_block_if_busy (fuel : nat) (device : option nat) : M state unit :=
  match fuel with
  | O => mtimeout
  | S fuel' =>
      d ← deref_device device;
      st ← lift (read_port (u32 (base d + ATA_STATUS_PORT)));
      if negb (Z.land st DEVICE_BUSY =? 0) then ata_block_if_busy fuel' device else mret tt
  end.

Fixpoint ata_wait_for_status (fuel : nat) (device : option nat) (status : Z) : M state unit :=
  match fuel with
  | O => mtimeout
  | S fuel' =>
      d ← deref_device device;
      st ← lift (read_port (u32 (base d + ATA_STATUS_PORT)));
      if Z.land st status =? 0 then ata_wait_for_status fuel' device status else mret tt
  end.

Definition ata_pio28_pre_stages (device : option nat) (sector sector_count : Z) : M state unit :=
  d ← deref_device device;
  let dev_type := if is_slave d then 0xF0 else 0xE0 in
  lift (write_port (u32 (base d + ATA_DRIVE_PORT)) (u8 (Z.lor dev_type (Z.land (Z.shiftr sector 24) 0x0F)))) ;;
  lift (write_port (u32 (base d + ATA_SECTOR_COUNT_PORT)) sector_count) ;;
  lift (write_port (u32 (base d + ATA_LBA_LOW_PORT)) (u8 sector)) ;;
  lift (write_port (u32 (base d + ATA_LBA_MID_PORT)) (u8 (Z.shiftr sector 8))) ;;
  lift (write_port (u32 (base d + ATA_LBA_HIGH_PORT)) (u8 (Z.shiftr sector 16))).

(** [&buffer[j + (DEFAULT_SECTOR_SIZE / 2) * i]] *)
Definition buffer_word (buffer i j : Z) : Z := u32 (buffer + 2 * (j + DEFAULT_SECTOR_SIZE / 2 * i)).

(** The checks at the beginning of both transfers; the numbers are unsigned. *)
Definition check_transfer (device : option nat) (buffer : Z) : M state ata_device :=
  d ← the_device device;
  if negb (exists_ d) || (buffer =? NULL) then mpanic else mret d.

Definition ata_pio28_read (fuel : nat) (device : option nat) (buffer sector sector_count : Z) : M state unit :=
  d ← check_transfer device buffer;
  ata_pio28_pre_stages device sector sector_count ;;
  lift (write_port (u32 (base d + ATA_COMMAND_PORT)) ATA_CMD_READ_PIO) ;;
  ata_wait_for_status fuel device DEVICE_READY ;;
  ata_wait_for_status fuel device DEVICE_DATA_READY ;;
  for_range 0 sector_count (λ i,
    for_range 0 (DEFAULT_SECTOR_SIZE / 2) (λ j,
      w ← lift (read_word_port (u32 (base d + ATA_DATA_PORT)));
      lift (wr16 (buffer_word buffer i j) w)) ;;
    ata_sleep device).

Definition ata_pio28_write (fuel : nat) (device : option nat) (buffer sector sector_count : Z) : M state unit :=
  d ← check_transfer device buffer;
  ata_pio28_pre_stages device sector sector_count ;;
  lift (write_port (u32 (base d + ATA_COMMAND_PORT)) ATA_CMD_WRITE_PIO) ;;
  ata_wait_for_status fuel device DEVICE_READY ;;
  ata_wait_for_status fuel device DEVICE_DATA_READY ;;
  for_range 0 sector_count (λ i,
    for_range 0 (DEFAULT_SECTOR_SIZE / 2) (λ j,
      w ← lift (rd16 (buffer_word buffer i j));
      lift (write_word_port (u32 (base d + ATA_DATA_PORT)) w) ;;
      ata_sleep device) ;;
    ata_sleep device).

(** [ata_read] and [ata_write], given [dev->device_specific]; the number of
    sectors is cut to a [uint8_t] on the way. *)
Definition ata_read (fuel : nat) (device : option nat) (buf begin_sector num_sectors : Z) : M state unit :=
  ata_block_if_busy fuel device ;;
  ata_pio28_read fuel device buf begin_sector (u8 num_sectors).

Definition ata_write (fuel : nat) (device : option nat) (buf begin_sector num_sectors : Z) : M state unit :=
  ata_block_if_busy fuel device ;;
  ata_pio28_write fuel device buf begin_sector (u8 num_sectors).
End ata_c.

(** ** The disks of a cable

    Two disks share the registers; bit 4 of the drive register selects one.
    With bit 6 set the low four bits of the drive register and the three
    address registers are the number of a sector.  A transfer command moves
    as many sectors as the count register says, 256 if it is zero, word by
    word through the data port.  After a command the disk is busy for
    [latency] readings of its status, then it is ready, and has its data
    request bit set while the transfer lasts. *)

Inductive transfer :=
  | Idle
  | Reading (word left : Z)
  | Writing (word left : Z).

Record channel := Channel {
  ch_count : Z;
  ch_low : Z;
  ch_mid : Z;
  ch_high : Z;
  ch_drive : Z;
  ch_delay : nat;
  ch_transfer : transfer;
  ch_words : bool → gmap Z Z
}.

Section hardware.
Variable ch_base : Z.
Variable latency : nat.

Definition selected (c : channel) : bool := Z.testbit (ch_drive c) 4.

Definition disk_word (c : channel) (slave : bool) (w : Z) : Z := default 0 (ch_words c slave !! w).

(** The number of the sector in the registers. *)
Definition lba (c : channel) : Z :=
  (ch_drive c mod 16) * 2 ^ 24 + ch_high c * 2 ^ 16 + ch_mid c * 2 ^ 8 + ch_low c.

Definition sectors_asked (c : channel) : Z := if ch_count c =? 0 then 256 else ch_count c.

Definition set_transfer (t : transfer) (delay : nat) (c : channel) : channel :=
  Channel (ch_count c) (ch_low c) (ch_mid c) (ch_high c) (ch_drive c) delay t (ch_words c).

Definition ch_command (v : Z) (c : channel) : channel :=
  if v =? ATA_CMD_READ_PIO then set_transfer (Reading (256 * lba c) (256 * sectors_asked c)) latency c
  else if v =? ATA_CMD_WRITE_PIO then set_transfer (Writing (256 * lba c) (256 * sectors_asked c)) latency c
  else c.

Definition ch_out (port v : Z) (c : channel) : channel :=
  let r := port - ch_base in
  if r =? 2 then Channel v (ch_low c) (ch_mid c) (ch_high c) (ch_drive c) (ch_delay c) (ch_transfer c) (ch_words c)
  else if r =? 3 then Channel (ch_count c) v (ch_mid c) (ch_high c) (ch_drive c) (ch_delay c) (ch_transfer c) (ch_words c)
  else if r =? 4 then Channel (ch_count c) (ch_low c) v (ch_high c) (ch_drive c) (ch_delay c) (ch_transfer c) (ch_words c)
  else if r =? 5 then Channel (ch_count c) (ch_low c) (ch_mid c) v (ch_drive c) (ch_delay c) (ch_transfer c) (ch_words c)
  else if r =? 6 then Channel (ch_count c) (ch_low c) (ch_mid c) (ch_high c) v (ch_delay c) (ch_transfer c) (ch_words c)
  else if r =? 7 then ch_command v c
  else c.

Definition ch_status (c : channel) : Z :=
  match ch_delay c with
  | S _ => DEVICE_BUSY
  | O => match ch_transfer c with Idle => DEVICE_READY | _ => Z.lor DEVICE_READY DEVICE_DATA_READY end
  end.

Definition ch_tick (c : channel) : channel := set_transfer (ch_transfer c) (pred (ch_delay c)) c.

Definition ch_in (port : Z) (c : channel) : Z * channel :=
  let r := port - ch_base in
  if (r =? 7) || (r =? 0x206) then (ch_status c, ch_tick c) else (0, c).

Definition next_word (t : transfer) : transfer :=
  match t with
  | Idle => Idle
  | Reading w n => if n =? 1 then Idle else Reading (w + 1) (n - 1)
  | Writing w n => if n =? 1 then Idle else Writing (w + 1) (n - 1)
  end.

Definition ch_in_word (port : Z) (c : channel) : Z * channel :=
  match ch_transfer c with
  | Reading w _ =>
      if port - ch_base =? 0
      then (u16 (disk_word c (selected c) w), set_transfer (next_word (ch_transfer c)) (ch_delay c) c) else (0, c)
  | _ => (0, c)
  end.

Definition ch_out_word (port v : Z) (c : channel) : channel :=
  match ch_transfer c with
  | Writing w _ =>
      if port - ch_base =? 0 then
        Channel (ch_count c) (ch_low c) (ch_mid c) (ch_high c) (ch_drive c) (ch_delay c) (next_word (ch_transfer c))
          (λ b, if Bool.eqb b (selected c) then <[w := v]> (ch_words c b) else ch_words c b)
      else c
  | _ => c
  end.
End hardware.

(** A machine with memory and one cable. *)
Record machine (T : Type) := Machine { mach_mem : T; mach_channel : channel }.
Arguments Machine {T} _ _.
Arguments mach_mem {T} _.
Arguments mach_channel {T} _.

#[export] Instance machine_store {T} `{ByteStore T} : ByteStore (machine T) := {
  get8 s a := get8 (mach_mem s) a;
  set8 s a v := m ← set8 (mach_mem s) a v; Some (Machine m (mach_channel s))
}.

#[export] Instance machine_laws {T} `{ByteStoreLaws T} : ByteStoreLaws (machine T).
Proof.
  split; unfold get8, set8; simpl.
  - intros s a v. apply get8_range.
  - intros s a v Hm. destruct (set8_total (mach_mem s) a v Hm) as [m ->]. simpl. eauto.
  - intros s a v s'. destruct (set8 (mach_mem s) a v) eqn:E; simpl; [|done]. intros _. by eapply set8_mapped.
  - intros s a v s' b. destruct (set8 (mach_mem s) a v) eqn:E; simpl; [|done]. intros [= <-]. by apply get8_set8.
Qed.

Definition machine_ports {T} (ch_base : Z) (latency : nat) : PortIO (machine T) := {|
  read_port port s := let r := ch_in ch_base port (mach_channel s) in Ret r.1 (Machine (mach_mem s) r.2);
  write_port port v s := Ret tt (Machine (mach_mem s) (ch_out ch_base latency port (u8 v) (mach_channel s)));
  read_word_port port s := let r := ch_in_word ch_base port (mach_channel s) in Ret r.1 (Machine (mach_mem s) r.2);
  write_word_port port v s := Ret tt (Machine (mach_mem s) (ch_out_word ch_base port (u16 v) (mach_channel s)))
|}.

(** ** Driving the disks *)

(** Byte [x] of a disk, counted from its first sector. *)
Definition disk_byte (c : channel) (slave : bool) (x : Z) : Z :=
  u8 (Z.shiftr (u16 (disk_word c slave (x / 2))) (8 * (x mod 2))).

(** [n] words still to come, from word [w] on. *)
Definition reading_at (w n : Z) : transfer := if n =? 0 then Idle else Reading w n.
Definition writing_at (w n : Z) : transfer := if n =? 0 then Idle else Writing w n.

Section driving.
Context {T : Type} `{ByteStoreLaws T}.
Variable latency : nat.
Variable d : ata_device.
Variable i : nat.
Variable s : ata_state (machine T).
Hypothesis Hdev : ata_devices s !! i = Some d.
Hypothesis Hbase : 0 ≤ base d ∧ base d + 0x1000 < 2 ^ 32.
#[local] Instance ports : PortIO (machine T) := machine_ports (base d) latency.

(** The driver's state with memory [m] and the disks in state [c]. *)
Definition at_ (m : T) (c : channel) : ata_state (machine T) :=
  AtaState (Machine m c) (ata_devices s) (block_devices s) (root_device s).

Lemma the_device_ok m c : the_device (Some i) (at_ m c) = Ret d (at_ m c).
Proof. unfold the_device, get_device. cbn [ata_devices at_]. by rewrite Hdev. Qed.

Lemma deref_device_ok m c : deref_device (Some i) (at_ m c) = Ret d (at_ m c).
Proof. exact (the_device_ok m c). Qed.

Lemma lift_Ret {A} (f : M (machine T) A) m c a m' c' :
  f (Machine m c) = Ret a (Machine m' c') → lift f (at_ m c) = Ret a (at_ m' c').
Proof. intros E. unfold lift, zoom. cbn [ata_machine at_]. by rewrite E. Qed.

Lemma read_status m c :
  lift (read_port (u32 (base d + ATA_STATUS_PORT))) (at_ m c) = Ret (ch_status c) (at_ m (ch_tick c)).
Proof.
  apply lift_Ret. unfold read_port, ports, machine_ports, ch_in. simpl. unfold ATA_STATUS_PORT.
  rewrite u32_small by lia. by replace (base d + 7 - base d) with 7 by lia.
Qed.

Lemma read_alternative m c :
  lift (read_port (u32 (base d + ALTERNATIVE_CONTROL_PORT))) (at_ m c) = Ret (ch_status c) (at_ m (ch_tick c)).
Proof.
  apply lift_Ret. unfold read_port, ports, machine_ports, ch_in. simpl. unfold ALTERNATIVE_CONTROL_PORT.
  rewrite u32_small by lia. by replace (base d + 0x206 - base d) with 0x206 by lia.
Qed.

Lemma out_ok r v m c : 0 ≤ r < 8 →
  lift (write_port (u32 (base d + r)) v) (at_ m c) = Ret tt (at_ m (ch_out 0 latency r (u8 v) c)).
Proof.
  intros Hr. apply lift_Ret. unfold write_port, ports, machine_ports, ch_out. simpl.
  rewrite u32_small by lia. replace (base d + r - base d) with r by lia. by rewrite Z.sub_0_r.
Qed.

(** A disk that is ready is not changed by looking at its status. *)
Lemma ch_tick_ready c : ch_delay c = 0%nat → ch_tick c = c.
Proof. destruct c; simpl; intros ->. done. Qed.

Lemma ata_sleep_ok m c : ch_delay c = 0%nat → ata_sleep (Some i) (at_ m c) = Ret tt (at_ m c).
Proof.
  intros Hc. unfold ata_sleep. run (the_device_ok m c).
  by do 4 (run (read_alternative m c); rewrite ch_tick_ready by done).
Qed.

Lemma ata_block_if_busy_ok fuel m c : (ch_delay c < fuel)%nat →
  ata_block_if_busy fuel (Some i) (at_ m c) = Ret tt (at_ m (set_transfer (ch_transfer c) 0 c)).
Proof.
  revert c. induction fuel as [|fuel IH]; intros c Hf; [lia|]. cbn [ata_block_if_busy].
  run (deref_device_ok m c). run (read_status m c). unfold ch_status. destruct (ch_delay c) as [|n] eqn:En.
  - assert (negb (Z.land (match ch_transfer c with Idle => DEVICE_READY | _ => Z.lor DEVICE_READY DEVICE_DATA_READY end)
      DEVICE_BUSY =? 0) = false) as -> by (by destruct (ch_transfer c)).
    unfold ch_tick. by rewrite En.
  - change (negb (Z.land DEVICE_BUSY DEVICE_BUSY =? 0)) with true. cbv iota.
    rewrite IH by (simpl; rewrite En; simpl; lia). done.
Qed.

Lemma ata_wait_for_status_ok fuel m c status : (ch_delay c < fuel)%nat →
  status = DEVICE_READY ∨ (status = DEVICE_DATA_READY ∧ ch_transfer c ≠ Idle) →
  ata_wait_for_status fuel (Some i) status (at_ m c) = Ret tt (at_ m (set_transfer (ch_transfer c) 0 c)).
Proof.
  intros Hf Hst. revert c Hf Hst. induction fuel as [|fuel IH]; intros c Hf Hst; [lia|]. cbn [ata_wait_for_status].
  run (deref_device_ok m c). run (read_status m c). unfold ch_status. destruct (ch_delay c) as [|n] eqn:En.
  - assert ((Z.land (match ch_transfer c with Idle => DEVICE_READY | _ => Z.lor DEVICE_READY DEVICE_DATA_READY end)
      status =? 0) = false) as ->.
    { destruct Hst as [-> | [-> Ht]]; by destruct (ch_transfer c). }
    unfold ch_tick. by rewrite En.
  - assert ((Z.land DEVICE_BUSY status =? 0) = true) as -> by (by destruct Hst as [-> | [-> _]]).
    rewrite IH by (first [simpl; rewrite En; simpl; lia | done]). done.
Qed.

(** The registers after [ata_pio28_pre_stages]. *)
Definition addressed (sector count : Z) (c : channel) : channel :=
  Channel count (u8 sector) (u8 (Z.shiftr sector 8)) (u8 (Z.shiftr sector 16))
    (u8 (Z.lor (if is_slave d then 0xF0 else 0xE0) (Z.land (Z.shiftr sector 24) 0x0F)))
    (ch_delay c) (ch_transfer c) (ch_words c).

Lemma u8_u8 z : u8 (u8 z) = u8 z.
Proof. apply u8_small, u8_range. Qed.

Lemma pre_stages_ok m c sector count : 0 ≤ count < 256 →
  ata_pio28_pre_stages (Some i) sector count (at_ m c) = Ret tt (at_ m (addressed sector count c)).
Proof.
  intros Hc. unfold ata_pio28_pre_stages. run (deref_device_ok m c).
  unfold ATA_DRIVE_PORT, ATA_SECTOR_COUNT_PORT, ATA_LBA_LOW_PORT, ATA_LBA_MID_PORT, ATA_LBA_HIGH_PORT.
  run (out_ok 6 (u8 (Z.lor (if is_slave d then 0xF0 else 0xE0) (Z.land (Z.shiftr sector 24) 0x0F))) m c ltac:(lia)).
  rewrite (bind_Ret _ _ _ _ _ (out_ok 2 count m _ ltac:(lia))).
  rewrite (bind_Ret _ _ _ _ _ (out_ok 3 (u8 sector) m _ ltac:(lia))).
  rewrite (bind_Ret _ _ _ _ _ (out_ok 4 (u8 (Z.shiftr sector 8)) m _ ltac:(lia))).
  rewrite (out_ok 5 (u8 (Z.shiftr sector 16)) m _ ltac:(lia)).
  unfold addressed. rewrite !u8_u8, (u8_small count) by done. reflexivity.
Qed.

(** The drive register: the disk it selects, and the address's high bits. *)
Lemma drive_register (b : bool) x : 0 ≤ x < 16 →
  let v := u8 (Z.lor (if b then 0xF0 else 0xE0) x) in Z.testbit v 4 = b ∧ v mod 16 = x.
Proof.
  intros Hx. assert (forallb (λ x, forallb (λ b : bool, let v := u8 (Z.lor (if b then 0xF0 else 0xE0) x) in
    Bool.eqb (Z.testbit v 4) b && (v mod 16 =? x)) [true; false]) (seqZ 0 16) = true) as Hall by (vm_compute; reflexivity).
  rewrite forallb_forall in Hall. specialize (Hall x). rewrite <-list_elem_of_In, elem_of_seqZ, forallb_forall in Hall.
  specialize (Hall ltac:(lia) b). cbv zeta in *.
  destruct (andb_prop _ _ (Hall ltac:(destruct b; simpl; tauto))) as [H1 H2].
  split; [by apply eqb_prop|by apply Z.eqb_eq].
Qed.

Lemma addressed_sector sector count c : 0 ≤ sector →
  selected (addressed sector count c) = is_slave d ∧ lba (addressed sector count c) = sector mod 2 ^ 28.
Proof.
  intros Hs. change 0x0F with (Z.ones 4) in *. unfold selected, lba. cbn [ch_drive ch_high ch_mid ch_low addressed].
  change 0x0F with (Z.ones 4). rewrite Z.land_ones, !Z.shiftr_div_pow2 by lia.
  destruct (drive_register (is_slave d) ((sector / 2 ^ 24) mod 2 ^ 4)) as [-> ->].
  { change (2 ^ 4) with 16. apply Z.mod_pos_bound. lia. }
  split; [done|]. unfold u8. change (2 ^ 4) with 16. change (2 ^ 8) with 256. change (2 ^ 16) with 65536.
  change (2 ^ 24) with 16777216. change (2 ^ 28) with 268435456. dlia.
Qed.

(** *** Words in memory *)

Lemma wr8_machine a v (m : T) c m' : wr8 a v m = Ret tt m' → wr8 a v (Machine m c) = Ret tt (Machine m' c).
Proof.
  unfold wr8, mtry. unfold set8 at 2. cbn [machine_store mach_mem]. destruct (set8 m a v); [|done].
  intros [= ->]. done.
Qed.

Lemma wr16_machine a v (m : T) c : 0 ≤ a → a + 2 ≤ 2 ^ 32 → mapped m a 2 →
  ∃ m', wr16 a v (Machine m c) = Ret tt (Machine m' c) ∧
    ∀ b, get8 m' b = if decide (a ≤ b < a + 2) then Some (u8 (Z.shiftr v (8 * (b - a)))) else get8 m b.
Proof.
  intros Ha Hr Hm. unfold wr16. destruct (Hm a) as [w0 E0]; [lia|].
  destruct (wr8_Ret m a v w0 E0) as (m1 & R1 & W1). run (wr8_machine a v m c m1 R1).
  rewrite u32_small by lia. destruct (Hm (a + 1)) as [w1 E1]; [lia|].
  destruct (wr8_Ret m1 (a + 1) (Z.shiftr v 8) w1) as (m2 & R2 & W2); [by rewrite W1, decide_False by lia|].
  exists m2. split; [by apply wr8_machine|]. intros b. rewrite W2, W1.
  destruct (decide (a ≤ b < a + 2)); [|by rewrite !decide_False by lia].
  assert (b = a ∨ b = a + 1) as [-> | ->] by lia.
  - rewrite decide_False, decide_True by lia. by rewrite Z.sub_diag.
  - rewrite decide_True by lia. do 2 f_equal. f_equal. lia.
Qed.

(** The 16-bit word at [a]. *)
Definition mem_word (m : T) (a : Z) : Z := default 0 (get8 m a) + 256 * default 0 (get8 m (a + 1)).

Lemma rd16_machine a (m : T) c : 0 ≤ a → a + 2 ≤ 2 ^ 32 → mapped m a 2 →
  rd16 a (Machine m c) = Ret (mem_word m a) (Machine m c) ∧ 0 ≤ mem_word m a < 2 ^ 16.
Proof.
  intros Ha Hr Hm. destruct (Hm a) as [v0 E0]; [lia|]. destruct (Hm (a + 1)) as [v1 E1]; [lia|].
  unfold rd16, mem_word. rewrite E0, E1. simpl default.
  assert (∀ b v, get8 m b = Some v → rd8 b (Machine m c) = Ret v (Machine m c)) as Hrd.
  { intros b v E. apply rd8_Ret. exact E. }
  run (Hrd a v0 E0). rewrite u32_small by lia. run (Hrd (a + 1) v1 E1).
  apply get8_range in E0, E1. split; [done|lia].
Qed.

(** *** Reading *)

Section transfer.
Variables (m : T) (c : channel) (buf w0 n : Z).
Hypothesis Hbuf : 0 < buf ∧ buf + 2 * n ≤ 2 ^ 32.
Hypothesis Hmap : mapped m buf (2 * n).
Hypothesis Hw0 : 0 ≤ w0.

(** After [k] of the [n] words from [w0] on. *)
Definition read_words (k : Z) (s' : ata_state (machine T)) : Prop :=
  ∃ m', s' = at_ m' (set_transfer (reading_at (w0 + k) (n - k)) 0 c) ∧
    ∀ b, get8 m' b = if decide (buf ≤ b < buf + 2 * k)
                     then Some (disk_byte c (selected c) (2 * w0 + (b - buf))) else get8 m b.

Lemma read_word_ok k j i' s' : 0 ≤ k < n → k = j + 256 * i' → read_words k s' →
  ∃ s'', (w ← lift (read_word_port (u32 (base d + ATA_DATA_PORT))); lift (wr16 (buffer_word buf i' j) w)) s'
         = Ret tt s'' ∧ read_words (k + 1) s''.
Proof.
  intros Hk -> (m' & -> & Hm'). set (k := j + 256 * i') in *.
  assert (lift (read_word_port (u32 (base d + ATA_DATA_PORT))) (at_ m' (set_transfer (reading_at (w0 + k) (n - k)) 0 c))
    = Ret (u16 (disk_word c (selected c) (w0 + k))) (at_ m' (set_transfer (reading_at (w0 + (k + 1)) (n - (k + 1))) 0 c)))
    as E.
  { apply lift_Ret. unfold read_word_port, ports, machine_ports, ch_in_word. cbn [mach_channel ch_transfer set_transfer mach_mem].
    unfold reading_at at 1. rewrite (proj2 (Z.eqb_neq (n - k) 0)) by lia.
    unfold ATA_DATA_PORT. rewrite u32_small by lia. rewrite Z.add_0_r, Z.sub_diag. cbn [Z.eqb fst snd].
    f_equal. f_equal. unfold reading_at. rewrite (proj2 (Z.eqb_neq (n - k) 0)) by lia. cbn [next_word].
    replace (n - k =? 1) with (n - (k + 1) =? 0) by (destruct (Z.eqb_spec (n - (k + 1)) 0), (Z.eqb_spec (n - k) 1); lia).
    replace (w0 + k + 1) with (w0 + (k + 1)) by lia. by replace (n - k - 1) with (n - (k + 1)) by lia. }
  run E. unfold buffer_word, DEFAULT_SECTOR_SIZE. change (512 / 2) with 256. fold k. rewrite u32_small by lia.
  destruct (wr16_machine (buf + 2 * k) (u16 (disk_word c (selected c) (w0 + k))) m'
    (set_transfer (reading_at (w0 + (k + 1)) (n - (k + 1))) 0 c)) as (m2 & R & W); [lia|lia| |].
  { intros b Hb. rewrite Hm'. rewrite decide_False by lia. apply Hmap. lia. }
  rewrite (lift_Ret _ _ _ _ _ _ R). eexists. split; [reflexivity|]. exists m2. split; [done|].
  intros b. rewrite W, Hm'. destruct (decide (buf + 2 * k ≤ b < buf + 2 * k + 2)) as [Hb|Hb].
  - rewrite decide_True by lia. unfold disk_byte. do 2 f_equal.
    assert (b = buf + 2 * k ∨ b = buf + 2 * k + 1) as [-> | ->] by lia.
    + replace ((2 * w0 + (buf + 2 * k - buf)) / 2) with (w0 + k) by dlia.
      replace ((2 * w0 + (buf + 2 * k - buf)) mod 2) with 0 by dlia. f_equal. lia.
    + replace ((2 * w0 + (buf + 2 * k + 1 - buf)) / 2) with (w0 + k) by dlia.
      replace ((2 * w0 + (buf + 2 * k + 1 - buf)) mod 2) with 1 by dlia. f_equal. lia.
  - destruct (decide (buf ≤ b < buf + 2 * k)); [by rewrite decide_True by lia|by rewrite decide_False by lia].
Qed.

Lemma read_sectors_ok count s' : 0 ≤ count < 256 → n = 256 * count → read_words 0 s' →
  ∃ s'', for_range 0 count (λ i',
    for_range 0 (DEFAULT_SECTOR_SIZE / 2) (λ j,
      w ← lift (read_word_port (u32 (base d + ATA_DATA_PORT)));
      lift (wr16 (buffer_word buf i' j) w)) ;;
    ata_sleep (Some i)) s' = Ret tt s'' ∧ read_words n s''.
Proof.
  intros Hc Hn Hs. destruct (for_range_inv (λ i', read_words (256 * i')) (λ i',
    for_range 0 (DEFAULT_SECTOR_SIZE / 2) (λ j,
      w ← lift (read_word_port (u32 (base d + ATA_DATA_PORT)));
      lift (wr16 (buffer_word buf i' j) w)) ;;
    ata_sleep (Some i)) 0 count s') as (s2 & E & H2); [unfold INT_MAX; lia|exact Hs| |].
  - intros i' s1 Hi' H1. destruct (for_range_inv (λ j, read_words (j + 256 * i')) (λ j,
      w ← lift (read_word_port (u32 (base d + ATA_DATA_PORT)));
      lift (wr16 (buffer_word buf i' j) w)) 0 (DEFAULT_SECTOR_SIZE / 2) s1) as (s3 & E3 & H3).
    + change (DEFAULT_SECTOR_SIZE / 2) with 256. unfold INT_MAX. lia.
    + exact H1.
    + intros j s4 Hj H4. change (DEFAULT_SECTOR_SIZE / 2) with 256 in Hj.
      destruct (read_word_ok (j + 256 * i') j i' s4) as (s5 & E5 & H5); [lia|done|done|].
      exists s5. split; [done|]. by replace (j + 1 + 256 * i') with (j + 256 * i' + 1) by lia.
    + run E3. change (DEFAULT_SECTOR_SIZE / 2) with 256 in H3.
      replace (256 + 256 * i') with (256 * (i' + 1)) in H3 by lia.
      exists s3. split; [|done]. destruct H3 as (m' & -> & _). by apply ata_sleep_ok.
  - rewrite Hn. by exists s2.
Qed.

(** *** Writing *)

(** After [k] of the [n] words to [w0] on. *)
Definition written_words (k : Z) (s' : ata_state (machine T)) : Prop :=
  ∃ c', s' = at_ m c' ∧ ch_delay c' = 0%nat ∧ selected c' = selected c ∧
    ch_transfer c' = writing_at (w0 + k) (n - k) ∧
    ∀ sl w, disk_word c' sl w = if decide (sl = selected c ∧ w0 ≤ w < w0 + k)
                                then mem_word m (buf + 2 * (w - w0)) else disk_word c sl w.

Lemma write_word_ok k j i' s' : 0 ≤ k < n → k = j + 256 * i' → written_words k s' →
  ∃ s'', (w ← lift (rd16 (buffer_word buf i' j));
          lift (write_word_port (u32 (base d + ATA_DATA_PORT)) w) ;;
          ata_sleep (Some i)) s' = Ret tt s'' ∧ written_words (k + 1) s''.
Proof.
  intros Hk -> (c' & -> & Hdelay & Hsel & Htr & Hw). set (k := j + 256 * i') in *.
  unfold buffer_word, DEFAULT_SECTOR_SIZE. change (512 / 2) with 256. fold k. rewrite (u32_small (buf + 2 * k)) by lia.
  destruct (rd16_machine (buf + 2 * k) m c') as [R Hr]; [lia|lia| |].
  { intros b Hb. apply Hmap. lia. }
  run (lift_Ret _ _ _ _ _ _ R).
  set (c2 := ch_out_word (base d) (u32 (base d + ATA_DATA_PORT)) (u16 (mem_word m (buf + 2 * k))) c').
  assert (lift (write_word_port (u32 (base d + ATA_DATA_PORT)) (mem_word m (buf + 2 * k))) (at_ m c') = Ret tt (at_ m c2))
    as E by (by apply lift_Ret).
  run E.
  assert (c2 = Channel (ch_count c') (ch_low c') (ch_mid c') (ch_high c') (ch_drive c') (ch_delay c')
    (writing_at (w0 + (k + 1)) (n - (k + 1)))
    (λ b, if Bool.eqb b (selected c') then <[w0 + k := mem_word m (buf + 2 * k)]> (ch_words c' b) else ch_words c' b)) as Hc2.
  { unfold c2, ch_out_word. rewrite Htr. unfold writing_at at 1. rewrite (proj2 (Z.eqb_neq (n - k) 0)) by lia.
    unfold ATA_DATA_PORT. rewrite (u32_small (base d + 0)) by lia. rewrite Z.add_0_r, Z.sub_diag. cbn [Z.eqb].
    unfold writing_at. rewrite (proj2 (Z.eqb_neq (n - k) 0)) by lia. cbn [next_word].
    replace (n - k =? 1) with (n - (k + 1) =? 0) by (destruct (Z.eqb_spec (n - (k + 1)) 0), (Z.eqb_spec (n - k) 1); lia).
    replace (w0 + k + 1) with (w0 + (k + 1)) by lia. replace (n - k - 1) with (n - (k + 1)) by lia.
    assert (u16 (mem_word m (buf + 2 * k)) = mem_word m (buf + 2 * k)) as -> by (unfold u16; by apply Z.mod_small).
    done. }
  rewrite ata_sleep_ok by (by rewrite Hc2). eexists. split; [reflexivity|]. exists c2.
  split_and!; [done|by rewrite Hc2|by rewrite Hc2|by rewrite Hc2|].
  intros sl w. rewrite Hc2. unfold disk_word. cbn [ch_words]. rewrite Hsel.
  specialize (Hw sl w). unfold disk_word in Hw.
  destruct (eqb_spec sl (selected c)) as [->|Hne].
  - destruct (decide (w = w0 + k)) as [->|Hwk].
    + rewrite lookup_insert_eq, decide_True by (split; [done|lia]). simpl. f_equal. lia.
    + rewrite lookup_insert_ne by done. rewrite Hw.
      destruct (decide (w0 ≤ w < w0 + k)); [rewrite !decide_True by (split; [done|lia])|rewrite !decide_False by lia]; done.
  - rewrite Hw. by rewrite !decide_False by naive_solver.
Qed.

Lemma write_sectors_ok count s' : 0 ≤ count < 256 → n = 256 * count → written_words 0 s' →
  ∃ s'', for_range 0 count (λ i',
    for_range 0 (DEFAULT_SECTOR_SIZE / 2) (λ j,
      w ← lift (rd16 (buffer_word buf i' j));
      lift (write_word_port (u32 (base d + ATA_DATA_PORT)) w) ;;
      ata_sleep (Some i)) ;;
    ata_sleep (Some i)) s' = Ret tt s'' ∧ written_words n s''.
Proof.
  intros Hc Hn Hs. destruct (for_range_inv (λ i', written_words (256 * i')) (λ i',
    for_range 0 (DEFAULT_SECTOR_SIZE / 2) (λ j,
      w ← lift (rd16 (buffer_word buf i' j));
      lift (write_word_port (u32 (base d + ATA_DATA_PORT)) w) ;;
      ata_sleep (Some i)) ;;
    ata_sleep (Some i)) 0 count s') as (s2 & E & H2); [unfold INT_MAX; lia|exact Hs| |].
  - intros i' s1 Hi' H1. destruct (for_range_inv (λ j, written_words (j + 256 * i')) (λ j,
      w ← lift (rd16 (buffer_word buf i' j));
      lift (write_word_port (u32 (base d + ATA_DATA_PORT)) w) ;;
      ata_sleep (Some i)) 0 (DEFAULT_SECTOR_SIZE / 2) s1) as (s3 & E3 & H3).
    + change (DEFAULT_SECTOR_SIZE / 2) with 256. unfold INT_MAX. lia.
    + exact H1.
    + intros j s4 Hj H4. change (DEFAULT_SECTOR_SIZE / 2) with 256 in Hj.
      destruct (write_word_ok (j + 256 * i') j i' s4) as (s5 & E5 & H5); [lia|done|done|].
      exists s5. split; [done|]. by replace (j + 1 + 256 * i') with (j + 256 * i' + 1) by lia.
    + run E3. change (DEFAULT_SECTOR_SIZE / 2) with 256 in H3.
      replace (256 + 256 * i') with (256 * (i' + 1)) in H3 by lia.
      exists s3. split; [|done]. destruct H3 as (c' & -> & Hdelay & _). by apply ata_sleep_ok.
  - rewrite Hn. by exists s2.
Qed.
End transfer.

(** *** Whole transfers *)

Lemma command_ok v m c :
  lift (write_port (u32 (base d + ATA_COMMAND_PORT)) (u8 v)) (at_ m c) = Ret tt (at_ m (ch_command latency (u8 v) c)).
Proof. unfold ATA_COMMAND_PORT. rewrite (out_ok 7 (u8 v) m c ltac:(lia)). by rewrite u8_u8. Qed.

Lemma check_transfer_ok m c buf : exists_ d = true → buf ≠ NULL →
  check_transfer (Some i) buf (at_ m c) = Ret d (at_ m c).
Proof.
  intros He Hb. unfold check_transfer. run (the_device_ok m c). by rewrite He, (proj2 (Z.eqb_neq buf NULL)).
Qed.

Lemma pio28_read_begins fuel m c buf sector count :
  exists_ d = true → buf ≠ NULL → (latency < fuel)%nat → 0 ≤ count < 256 →
  let a := addressed sector count c in
  ata_pio28_read fuel (Some i) buf sector count (at_ m c)
  = for_range 0 count (λ i',
      for_range 0 (DEFAULT_SECTOR_SIZE / 2) (λ j,
        w ← lift (read_word_port (u32 (base d + ATA_DATA_PORT)));
        lift (wr16 (buffer_word buf i' j) w)) ;;
      ata_sleep (Some i)) (at_ m (set_transfer (Reading (256 * lba a) (256 * sectors_asked a)) 0 a)).
Proof.
  intros He Hb Hf Hc a. unfold ata_pio28_read. run (check_transfer_ok m c buf He Hb).
  run (pre_stages_ok m c sector count Hc). run (command_ok 0x20 m (addressed sector count c)).
  fold a. change (u8 0x20) with ATA_CMD_READ_PIO. unfold ch_command. rewrite Z.eqb_refl.
  rewrite (bind_Ret _ _ _ _ _ (ata_wait_for_status_ok fuel m (set_transfer (Reading (256 * lba a) (256 * sectors_asked a)) latency a)
    DEVICE_READY ltac:(done) ltac:(by left))).
  rewrite (bind_Ret _ _ _ _ _ (ata_wait_for_status_ok fuel m (set_transfer (Reading (256 * lba a) (256 * sectors_asked a)) 0 a)
    DEVICE_DATA_READY ltac:(simpl; lia) ltac:(by right))).
  done.
Qed.

Lemma pio28_write_begins fuel m c buf sector count :
  exists_ d = true → buf ≠ NULL → (latency < fuel)%nat → 0 ≤ count < 256 →
  let a := addressed sector count c in
  ata_pio28_write fuel (Some i) buf sector count (at_ m c)
  = for_range 0 count (λ i',
      for_range 0 (DEFAULT_SECTOR_SIZE / 2) (λ j,
        w ← lift (rd16 (buffer_word buf i' j));
        lift (write_word_port (u32 (base d + ATA_DATA_PORT)) w) ;;
        ata_sleep (Some i)) ;;
      ata_sleep (Some i)) (at_ m (set_transfer (Writing (256 * lba a) (256 * sectors_asked a)) 0 a)).
Proof.
  intros He Hb Hf Hc a. unfold ata_pio28_write. run (check_transfer_ok m c buf He Hb).
  run (pre_stages_ok m c sector count Hc). run (command_ok 0x30 m (addressed sector count c)).
  fold a. change (u8 0x30) with ATA_CMD_WRITE_PIO. unfold ch_command.
  change (ATA_CMD_WRITE_PIO =? ATA_CMD_READ_PIO) with false. rewrite Z.eqb_refl. cbv iota.
  rewrite (bind_Ret _ _ _ _ _ (ata_wait_for_status_ok fuel m (set_transfer (Writing (256 * lba a) (256 * sectors_asked a)) latency a)
    DEVICE_READY ltac:(done) ltac:(by left))).
  rewrite (bind_Ret _ _ _ _ _ (ata_wait_for_status_ok fuel m (set_transfer (Writing (256 * lba a) (256 * sectors_asked a)) 0 a)
    DEVICE_DATA_READY ltac:(simpl; lia) ltac:(by right))).
  done.
Qed.

(** Both transfers of [count] sectors from [sector] on. *)
Section whole.
Variables (fuel : nat) (m : T) (c : channel) (buf sector num : Z).
Hypothesis Hexists : exists_ d = true.
Hypothesis Hbuf : 0 < buf ∧ buf + 512 * num ≤ 2 ^ 32.
Hypothesis Hmap : mapped m buf (512 * num).
Hypothesis Hnum : 1 ≤ num < 256.
Hypothesis Hsector : 0 ≤ sector ∧ sector + num ≤ 2 ^ 28.
Hypothesis Hfuel : (latency < fuel)%nat ∧ (ch_delay c < fuel)%nat.

Let c1 := set_transfer (ch_transfer c) 0 c.
Let a := addressed sector num c1.

Lemma addressed_transfer : lba a = sector ∧ sectors_asked a = num ∧ selected a = is_slave d.
Proof.
  destruct (addressed_sector sector num c1) as [H1 H2]; [lia|]. fold a in H1, H2.
  split_and!; [by rewrite H2, Z.mod_small by lia| |done].
  unfold sectors_asked. change (ch_count a) with num. by rewrite (proj2 (Z.eqb_neq num 0)) by lia.
Qed.

Lemma ata_read_ok :
  ∃ m' c', ata_read fuel (Some i) buf sector num (at_ m c) = Ret tt (at_ m' c') ∧
    ch_words c' = ch_words c ∧ ch_transfer c' = Idle ∧ ch_delay c' = 0%nat ∧
    ∀ b, get8 m' b = if decide (buf ≤ b < buf + 512 * num)
                     then Some (disk_byte c (is_slave d) (512 * sector + (b - buf))) else get8 m b.
Proof.
  destruct addressed_transfer as (Hl & Ha & Hs). destruct Hfuel as [Hf1 Hf2].
  unfold ata_read. run (ata_block_if_busy_ok fuel m c Hf2). rewrite (u8_small num) by lia. fold c1.
  rewrite pio28_read_begins by first [done | lia | unfold NULL; lia]. cbv zeta. fold a. rewrite Hl, Ha.
  destruct (read_sectors_ok m a buf (256 * sector) (256 * num) ltac:(lia)
    ltac:(by replace (2 * (256 * num)) with (512 * num) by lia) num
    (at_ m (set_transfer (Reading (256 * sector) (256 * num)) 0 a))) as (s' & E & m' & -> & Hm').
  - lia.
  - done.
  - exists m. split.
    + unfold reading_at. rewrite (proj2 (Z.eqb_neq (256 * num - 0) 0)) by lia. by rewrite Z.add_0_r, Z.sub_0_r.
    + intros b. by rewrite decide_False by lia.
  - exists m', (set_transfer (reading_at (256 * sector + 256 * num) (256 * num - 256 * num)) 0 a).
    split_and!; [exact E|done| |done|].
    + by rewrite Z.sub_diag.
    + intros b. rewrite Hm', Hs. replace (2 * (256 * num)) with (512 * num) by lia.
      replace (2 * (256 * sector)) with (512 * sector) by lia. done.
Qed.

Lemma ata_write_ok :
  ∃ c', ata_write fuel (Some i) buf sector num (at_ m c) = Ret tt (at_ m c') ∧
    ch_transfer c' = Idle ∧ ch_delay c' = 0%nat ∧
    ∀ sl w, disk_word c' sl w = if decide (sl = is_slave d ∧ 256 * sector ≤ w < 256 * (sector + num))
                                then mem_word m (buf + 2 * (w - 256 * sector)) else disk_word c sl w.
Proof.
  destruct addressed_transfer as (Hl & Ha & Hs). destruct Hfuel as [Hf1 Hf2].
  unfold ata_write. run (ata_block_if_busy_ok fuel m c Hf2). rewrite (u8_small num) by lia. fold c1.
  rewrite pio28_write_begins by first [done | lia | unfold NULL; lia]. cbv zeta. fold a. rewrite Hl, Ha.
  destruct (write_sectors_ok m a buf (256 * sector) (256 * num) ltac:(lia)
    ltac:(by replace (2 * (256 * num)) with (512 * num) by lia) num
    (at_ m (set_transfer (Writing (256 * sector) (256 * num)) 0 a))) as (s' & E & c' & -> & Hd' & _ & Ht & Hw).
  - lia.
  - done.
  - eexists. split; [reflexivity|]. split_and!; [done|done| |].
    + unfold writing_at. rewrite (proj2 (Z.eqb_neq (256 * num - 0) 0)) by lia. by rewrite Z.add_0_r, Z.sub_0_r.
    + intros sl w. by rewrite decide_False by lia.
  - exists c'. split_and!; [exact E| |done|].
    + by rewrite Ht, Z.sub_diag.
    + intros sl w. rewrite Hw, Hs. replace (256 * sector + 256 * num) with (256 * (sector + num)) by lia. done.
Qed.
End whole.
End driving.

Lemma mem_word_byte {T} `{ByteStoreLaws T} (m : T) buf x : 0 ≤ x → mapped m buf (2 * (x / 2) + 2) →
  get8 m (buf + x) = Some (u8 (Z.shiftr (u16 (mem_word m (buf + 2 * (x / 2)))) (8 * (x mod 2)))).
Proof.
  intros Hx Hm. destruct (Hm (buf + 2 * (x / 2))) as [v0 E0]; [dlia|].
  destruct (Hm (buf + 2 * (x / 2) + 1)) as [v1 E1]; [dlia|].
  unfold mem_word. rewrite E0, E1. simpl default.
  pose proof (get8_range _ _ _ E0). pose proof (get8_range _ _ _ E1).
  assert (u16 (v0 + 256 * v1) = v0 + 256 * v1) as -> by (unfold u16; apply Z.mod_small; lia).
  assert (x mod 2 = 0 ∨ x mod 2 = 1) as [Hm2 | Hm2] by dlia; rewrite Hm2.
  - replace (buf + x) with (buf + 2 * (x / 2)) by dlia. rewrite E0, Z.shiftr_0_r. f_equal. unfold u8.
    change (2 ^ 8) with 256. dlia.
  - replace (buf + x) with (buf + 2 * (x / 2) + 1) by dlia. rewrite E1, Z.shiftr_div_pow2 by lia. f_equal. unfold u8.
    change (2 ^ (8 * 1)) with 256. change (2 ^ 8) with 256. dlia.
Qed.

(** ** Properties *)

(** The cable of device [d], entry [i] of the driver's table; what a transfer
    of [num] sectors from [sector] on needs. *)
Record transfer_ok {T} `{ByteStore T} (latency fuel : nat) (d : ata_device) (i : nat) (s : ata_state (machine T))
    (sector num : Z) : Prop := {
  ok_entry : ata_devices s !! i = Some d;
  ok_exists : exists_ d = true;
  ok_base : 0 ≤ base d ∧ base d + 0x1000 < 2 ^ 32;
  ok_num : 1 ≤ num < 256;
  ok_sector : 0 ≤ sector ∧ sector + num ≤ 2 ^ 28;
  ok_fuel : (latency < fuel)%nat ∧ (ch_delay (mach_channel (ata_machine s)) < fuel)%nat
}.

(** A buffer of [num] sectors at [buf]. *)
Definition buffer_ok {T} `{ByteStore T} (s : ata_state (machine T)) (buf num : Z) : Prop :=
  0 < buf ∧ buf + 512 * num ≤ 2 ^ 32 ∧ mapped (mach_mem (ata_machine s)) buf (512 * num).

Lemma written_byte {T} `{ByteStoreLaws T} (m : T) (c c' : channel) sl buf sector num x :
  (∀ sl' w, disk_word c' sl' w = if decide (sl' = sl ∧ 256 * sector ≤ w < 256 * (sector + num))
                              then mem_word m (buf + 2 * (w - 256 * sector)) else disk_word c sl' w) →
  mapped m buf (512 * num) → 0 ≤ x < 512 * num →
  get8 m (buf + x) = Some (disk_byte c' sl (512 * sector + x)).
Proof.
  intros Hw Hm Hx. rewrite (mem_word_byte m buf x); [|lia|intros b Hb; apply Hm; dlia].
  unfold disk_byte. rewrite Hw, decide_True by (split; [done|dlia]).
  replace ((512 * sector + x) / 2 - 256 * sector) with (x / 2) by dlia.
  by replace ((512 * sector + x) mod 2) with (x mod 2) by dlia.
Qed.

Section ata_properties.
Context {T : Type} `{ByteStoreLaws T}.
Variable latency : nat.
Variable d : ata_device.
Abbreviation the_ports := (ports latency d).
Abbreviation memory s := (mach_mem (ata_machine s)).
Abbreviation cable s := (mach_channel (ata_machine s)).

Lemma at_self (s : ata_state (machine T)) : at_ s (memory s) (cable s) = s.
Proof. by destruct s as [[? ?] ? ? ?]. Qed.



(** Sectors written from one buffer and read into another one hold the
    same bytes there, whatever the two buffers are. *)
Theorem ata_transfer_roundtrip fuel i s buf1 buf2 sector num :
  transfer_ok latency fuel d i s sector num → buffer_ok s buf1 num → buffer_ok s buf2 num →
  ∃ s', (ata_write (Hports := the_ports) fuel (Some i) buf1 sector num ;;
         ata_read (Hports := the_ports) fuel (Some i) buf2 sector num) s = Ret tt s' ∧
    ∀ x, 0 ≤ x < 512 * num → get8 (memory s') (buf2 + x) = get8 (memory s) (buf1 + x).
Proof.
  intros [He Hx Hb Hn Hs Hf] (Hp & Hr & Hm) (Hp2 & Hr2 & Hm2).
  destruct (ata_write_ok latency d i s He Hb fuel (memory s) (cable s) buf1 sector num)
    as (c' & E & Ht & Hd & Hw); [done..|]. rewrite at_self in E. run E.
  destruct (ata_read_ok latency d i s He Hb fuel (memory s) c' buf2 sector num)
    as (m' & c2 & E2 & _ & _ & _ & Hg); [done..|rewrite Hd; lia|]. rewrite E2.
  eexists. split; [reflexivity|]. intros x Hx'. simpl.
  rewrite Hg, decide_True by lia. replace (512 * sector + (buf2 + x - buf2)) with (512 * sector + x) by lia.
  symmetry. by eapply written_byte.
Qed.

(** C26. The number of sectors is cut to eight bits: asked for a multiple of
    256 sectors, [ata_read] succeeds without transferring anything, and leaves
    the disk waiting to deliver 256 sectors. *)
Theorem ata_count_truncated fuel i s buf sector num :
  ata_devices s !! i = Some d → exists_ d = true → 0 ≤ base d ∧ base d + 0x1000 < 2 ^ 32 →
  u8 num = 0 → buf ≠ NULL → 0 ≤ sector < 2 ^ 28 →
  (latency < fuel)%nat ∧ (ch_delay (cable s) < fuel)%nat →
  ∃ s', ata_read (Hports := the_ports) fuel (Some i) buf sector num s = Ret tt s' ∧
    memory s' = memory s ∧ ch_words (cable s') = ch_words (cable s) ∧
    ch_transfer (cable s') = Reading (256 * sector) (256 * 256).
Proof.
  intros He Hx Hb Hn Hbuf Hs [Hf1 Hf2]. unfold ata_read.
  pose proof (ata_block_if_busy_ok latency d i s He Hb fuel (memory s) (cable s) Hf2) as E.
  rewrite at_self in E. run E. rewrite Hn.
  rewrite (pio28_read_begins latency d i s He Hb fuel (memory s) _ buf sector 0) by (done || lia). cbv zeta.
  eexists. split; [reflexivity|]. split_and!; [done..|]. simpl.
  destruct (addressed_sector d Hb sector 0 (set_transfer (ch_transfer (cable s)) 0 (cable s))) as [_ ->]; [lia|].
  by rewrite Z.mod_small by lia.
Qed.

(** A transfer through the null pointer is not caught by the driver's
    check, which comes after the first access to the device; a device that does
    not exist and a null buffer are. *)
Theorem ata_read_errors fuel i s buf sector num :
  ata_devices s !! i = Some d → 0 ≤ base d ∧ base d + 0x1000 < 2 ^ 32 → (ch_delay (cable s) < fuel)%nat →
  ata_read (Hports := the_ports) fuel None buf sector num s = Fault ∧
  (exists_ d = false ∨ buf = NULL → ata_read (Hports := the_ports) fuel (Some i) buf sector num s = Panic).
Proof.
  intros He Hb Hf. split.
  - unfold ata_read. destruct fuel as [|fuel]; [lia|done].
  - intros Hor. unfold ata_read.
    pose proof (ata_block_if_busy_ok latency d i s He Hb fuel (memory s) (cable s) Hf) as E.
    rewrite at_self in E. run E. unfold ata_pio28_read, check_transfer.
    rewrite (bind_assoc (the_device (Some i))).
    run (the_device_ok d i s He (memory s) (set_transfer (ch_transfer (cable s)) 0 (cable s))).
    destruct Hor as [-> | ->]; [done|]. by destruct (exists_ d).
Qed.
End ata_properties.

(** ** Finding the disks *)

Definition is_ata_port (p : Z) : Prop := 0x170 ≤ p ≤ 0x3F6.

(** Hardware that answers every access to the disks' ports. *)
Class AtaPortsTotal {T} {Hports : PortIO T} (J : T → Prop) : Prop := {
  read_port_total p : is_ata_port p → total J (read_port p);
  write_port_total p v : is_ata_port p → total J (write_port p v);
  read_word_port_total p : is_ata_port p → total J (read_word_port p)
}.

Section finding.
Context {T} {Hports : PortIO T} (J : T → Prop) `{!AtaPortsTotal J}.

(** The first [k] devices have been looked at. *)
Record drives_ok (k : nat) (s : ata_state T) : Prop := {
  dk_machine : J (ata_machine s);
  dk_base : base <$> ata_devices s = [0x1F0; 0x1F0; 0x170; 0x170];
  dk_slave : ∀ j d, (j < k)%nat → ata_devices s !! j = Some d → is_slave d = Nat.odd j;
  dk_blocks : length (block_devices s) = 4%nat;
  dk_root : ∀ r, root_device s = Some r → (r < 4)%nat
}.

(** A device keeps its base and place whatever else becomes known of it. *)
Lemma set_device_total k i f : (∀ d, base (f d) = base d) → (∀ d, is_slave (f d) = is_slave d) →
  total (drives_ok k) (set_device i f).
Proof.
  intros Hb Hs. apply total_modify. intros s [H1 H2 H3 H4 H5]. split; cbn [ata_machine ata_devices block_devices root_device]; try done.
  - rewrite <-H2. apply list_eq. intros j. rewrite !list_lookup_fmap. destruct (decide (j = i)) as [->|].
    + rewrite list_lookup_alter_eq. destruct (ata_devices s !! i); [cbn; by rewrite Hb|done].
    + by rewrite list_lookup_alter_ne.
  - intros j d Hj Hd. destruct (decide (j = i)) as [->|]; [|rewrite list_lookup_alter_ne in Hd by done; by eapply H3].
    rewrite list_lookup_alter_eq in Hd. apply fmap_Some in Hd as (d' & Hd & ->). rewrite Hs. by eapply H3.
Qed.

Lemma lift_total {A} k (m : M T A) : total J m → total (drives_ok k) (lift m).
Proof. apply total_zoom; [by intros s []|]. intros s t [] Ht. by split. Qed.

Lemma device_base k s i d : drives_ok k s → ata_devices s !! i = Some d → base d = 0x1F0 ∨ base d = 0x170.
Proof.
  intros [_ H _ _ _] Hd. apply (f_equal (fmap base)) in Hd. rewrite <-list_lookup_fmap, H in Hd.
  destruct i as [|[|[|[|i]]]]; simpl in Hd; naive_solver.
Qed.

(** What is done with a device that is there: its base is one of two. *)
Lemma get_device_total {A} k i (f : ata_device → M (ata_state T) A) : (i < 4)%nat →
  (∀ d, base d = 0x1F0 ∨ base d = 0x170 → total (drives_ok k) (f d)) → total (drives_ok k) (d ← get_device i; f d).
Proof.
  intros Hi Hf s Hs. pose proof (f_equal length (dk_base _ _ Hs)) as Hl. rewrite length_fmap in Hl. simpl in Hl.
  destruct (lookup_lt_is_Some_2 (ata_devices s) i) as [d Hd]; [lia|].
  assert (get_device i s = Ret d s) as E by (unfold get_device; by rewrite Hd). rewrite (bind_Ret _ _ _ _ _ E).
  apply (Hf d); [|done]. by eapply device_base.
Qed.

Lemma ata_port_of b o : b = 0x1F0 ∨ b = 0x170 → 0 ≤ o ≤ 0x206 → is_ata_port (u32 (b + o)).
Proof. intros Hb Ho. unfold is_ata_port. rewrite u32_small by lia. lia. Qed.

#[local] Hint Resolve lift_total : total.
#[local] Hint Extern 1 (total J (read_port _)) => apply read_port_total, ata_port_of; [assumption|done] : total.
#[local] Hint Extern 1 (total J (write_port _ _)) => apply write_port_total, ata_port_of; [assumption|done] : total.
#[local] Hint Extern 1 (total J (read_word_port _)) => apply read_word_port_total, ata_port_of; [assumption|done] : total.
#[local] Hint Extern 1 (total _ (set_device _ _)) => apply set_device_total; intros []; reflexivity : total.
#[local] Hint Extern 1 (total _ (get_device _ ≫= _)) => apply get_device_total; [assumption|] : total.

Lemma ata_sleep_total k i : (i < 4)%nat → total (drives_ok k) (ata_sleep (Some i)).
Proof. intros Hi. apply get_device_total; [done|]. totally. Qed.
#[local] Hint Resolve ata_sleep_total : total.

Lemma ata_select_total k i : (i < 4)%nat → total (drives_ok k) (ata_select_device (Some i)).
Proof. intros Hi. apply get_device_total; [done|]. totally. Qed.

Lemma ata_identify_total k b i : (i < 4)%nat → total (drives_ok k) (ata_identify b (Some i)).
Proof. intros Hi. apply get_device_total; [done|]. totally. Qed.
#[local] Hint Resolve ata_select_total ata_identify_total : total.

Lemma read_identify_total k n p : is_ata_port p → total (drives_ok k) (read_identify_buffer n p).
Proof.
  intros Hp. induction n as [|n IH]; [apply total_ret|]. cbn [read_identify_buffer].
  apply total_bind; [by apply lift_total, read_word_port_total|]. totally.
Qed.

Lemma extract_total k i buf : total (drives_ok k) (extract_identify_buffer i buf).
Proof. unfold extract_identify_buffer. totally. Qed.
#[local] Hint Resolve extract_total : total.

Lemma set_block_device_total k i b : total (drives_ok k) (set_block_device i b).
Proof.
  apply total_modify. intros s [H1 H2 H3 H4 H5]. split; cbn [ata_machine ata_devices block_devices root_device]; try done.
  by rewrite length_insert.
Qed.

Lemma set_root_device_total k i : (i < 4)%nat → total (drives_ok k) (set_root_device i).
Proof.
  intros Hi. apply total_modify. intros s [H1 H2 H3 H4 H5].
  split; cbn [ata_machine ata_devices block_devices root_device]; try done. by intros r [= <-].
Qed.
#[local] Hint Resolve set_block_device_total set_root_device_total : total.

(** [totally], where the result of [get_device] is used. *)
#[local] Ltac totally_known :=
  repeat first
    [ progress intros
    | solve [eauto 2 with total]
    | match goal with |- total _ (get_device _ ≫= _) => apply get_device_total; [assumption|] end
    | apply total_bind
    | match goal with |- total _ (if ?b then _ else _) => destruct b end
    | match goal with |- total _ (match ?x with _ => _ end) => destruct x end ].

Lemma ata_init_device_total k s : (k < 4)%nat → drives_ok k s →
  ∃ s', ata_init_device k s = Ret tt s' ∧ drives_ok (S k) s'.
Proof.
  intros Hk [H1 H2 H3 H4 H5]. unfold ata_init_device.
  set (s1 := AtaState (ata_machine s) (alter (with_slave (Nat.odd k)) k (ata_devices s)) (block_devices s) (root_device s)).
  assert (set_device k (with_slave (Nat.odd k)) s = Ret tt s1) as E1 by done. run E1.
  assert (drives_ok (S k) s1) as Hs1.
  { split; cbn [ata_machine ata_devices block_devices root_device s1]; try done.
    - rewrite <-H2. apply list_eq. intros j. rewrite !list_lookup_fmap. destruct (decide (j = k)) as [->|].
      + rewrite list_lookup_alter_eq. by destruct (ata_devices s !! k).
      + by rewrite list_lookup_alter_ne.
    - intros j d Hj Hd. destruct (decide (j = k)) as [->|].
      + rewrite list_lookup_alter_eq in Hd. by apply fmap_Some in Hd as (d' & _ & ->).
      + rewrite list_lookup_alter_ne in Hd by done. apply (H3 j); [lia|done]. }
  clearbody s1. clear H1 H2 H3 H4 H5. revert s1 E1 Hs1.
  match goal with |- ∀ s1, _ → drives_ok _ s1 → ∃ s', ?m s1 = _ ∧ _ => assert (total (drives_ok (S k)) m) as Ht end.
  { apply total_bind; [by apply ata_select_total|intros _]. totally_known. }
  intros s1 _ Hs1. destruct (Ht s1 Hs1) as ([] & s' & E & Hs'). by exists s'.
Qed.

(** The bases are set before the loop. *)
Lemma ata_init_bases s : J (ata_machine s) → length (ata_devices s) = 4%nat → length (block_devices s) = 4%nat →
  root_device s = None →
  ∃ s', ata_init s = for_range 0 MAX_ATA_DRIVES (λ i, ata_init_device (Z.to_nat i)) s' ∧ drives_ok 0 s'.
Proof.
  intros HJ Hl Hb Hr. destruct s as [m ds bs r]. simpl in *. destruct ds as [|d0 [|d1 [|d2 [|d3 [|]]]]]; try done.
  eexists. split; [unfold ata_init, set_device; repeat (erewrite bind_Ret by reflexivity); reflexivity|].
  split; cbn [ata_machine ata_devices block_devices root_device]; try done; [lia|by rewrite Hr].
Qed.

(** [ata_init] ends whatever the hardware answers: it has no loop that waits. *)
Lemma ata_init_total s : J (ata_machine s) → length (ata_devices s) = 4%nat → length (block_devices s) = 4%nat →
  root_device s = None → ∃ s', ata_init s = Ret tt s' ∧ drives_ok 4 s'.
Proof.
  intros HJ Hl Hb Hr. destruct (ata_init_bases s) as (s1 & -> & H1); [done..|].
  apply (for_range_inv (λ i, drives_ok (Z.to_nat i))); [vm_compute; split; discriminate|done|].
  intros i s2 Hi H2. destruct (ata_init_device_total (Z.to_nat i) s2) as (s3 & E & H3);
    [change MAX_ATA_DRIVES with 4 in Hi; lia|done|].
  exists s3. split; [done|]. by replace (Z.to_nat (i + 1)) with (S (Z.to_nat i)) by lia.
Qed.
End finding.

(** A machine whose ports read [b] and [w] all the time: no cable at all pulls
    the bus to [0], or leaves it floating at all ones. *)
Definition bus (b w : Z) : PortIO unit := {|
  read_port _ s := Ret b s;
  write_port _ _ s := Ret tt s;
  read_word_port _ s := Ret w s;
  write_word_port _ _ s := Ret tt s
|}.

(** [.bss] *)
Definition ata_boot : ata_state unit := AtaState tt (replicate 4 zero_ata_device) (replicate 4 zero_block_device) None.

(** C32. Whatever the ports of the disks answer, as long as they answer, [ata_init]
    ends: there is no loop that waits.  Afterwards the four devices have the
    bases of the two cables and alternate between first and second disk, and
    the root device, if one was found, is one of them.  What the hardware
    keeps while it answers ([J]) is kept. *)
Theorem ata_init_ends {T} {Hports : PortIO T} (J : T → Prop) `{!AtaPortsTotal J} (m : T) :
  J m →
  ∃ s', ata_init (AtaState m (replicate 4 zero_ata_device) (replicate 4 zero_block_device) None) = Ret tt s' ∧
    J (ata_machine s') ∧ base <$> ata_devices s' = [0x1F0; 0x1F0; 0x170; 0x170] ∧
    is_slave <$> ata_devices s' = [false; true; false; true] ∧
    (∀ r, root_device s' = Some r → (r < 4)%nat).
Proof.
  intros HJ. destruct (ata_init_total J (AtaState m (replicate 4 zero_ata_device) (replicate 4 zero_block_device) None))
    as (s' & E & [H1 H2 H3 H4 H5]); [done..|].
  exists s'. split_and!; try done. pose proof (f_equal length H2) as Hl. rewrite length_fmap in Hl.
  destruct (ata_devices s') as [|d0 [|d1 [|d2 [|d3 [|]]]]]; try done. cbn.
  by rewrite (H3 0%nat d0), (H3 1%nat d1), (H3 2%nat d2), (H3 3%nat d3) by (done || lia).
Qed.

(** With no disk attached, [ata_init] finds none when the status reads as
    zero; when the bus floats at all ones it finds four disks of -512 bytes
    (as [uint32_t]), and the first becomes the root device. *)
Theorem ata_init_no_disks :
  (∃ s, ata_init (Hports := bus 0 0) ata_boot = Ret tt s ∧
     map exists_ (ata_devices s) = replicate 4 false ∧ root_device s = None) ∧
  (∃ s, ata_init (Hports := bus 0xFF 0xFFFF) ata_boot = Ret tt s ∧
     map exists_ (ata_devices s) = replicate 4 true ∧ root_device s = Some 0%nat ∧
     map device_size (block_devices s) = replicate 4 (2 ^ 32 - 512)).
Proof. split; (eexists; split; [vm_compute; reflexivity|done]). Qed.

(** ** Witnesses *)

(** The second disk of the first cable, its sectors empty; the buffers are in
    4 KiB of memory. *)
Definition example_disk : ata_device := AtaDevice 0x1F0 ATA 0x40 0 0 512 (2 ^ 20) true false true.
Definition example_driver : ata_state (machine carray) :=
  AtaState (Machine (CArray 0x1000 {[0x400 := 7; 0x5FF := 8]}) (Channel 0 0 0 0 0 1 Idle (λ _, {[771 := 0x2A2B]})))
    [zero_ata_device; example_disk] [] None.

Lemma example_transfer_ok num : 1 ≤ num < 256 → transfer_ok 2 5 example_disk 1 example_driver 3 num.
Proof. intros Hn. split; simpl; done || lia. Qed.

Lemma example_buffer_ok buf : 0 < buf → buf + 1024 ≤ 0x1000 → buffer_ok example_driver buf 2.
Proof.
  intros Hb Hr. split_and!; [done|lia|]. intros b Hx. unfold get8, example_driver. simpl.
  rewrite decide_True by lia. eauto.
Qed.



Lemma ata_transfer_roundtrip_witness :
  ∃ s', (ata_write (Hports := ports 2 example_disk) 5 (Some 1%nat) 0x400 3 2 ;;
         ata_read (Hports := ports 2 example_disk) 5 (Some 1%nat) 0x800 3 2) example_driver = Ret tt s' ∧
    get8 (mach_mem (ata_machine s')) 0x9FF = Some 8.
Proof.
  destruct (ata_transfer_roundtrip 2 example_disk 5 1 example_driver 0x400 0x800 3 2) as (s' & E & Hg).
  - by apply example_transfer_ok.
  - by apply example_buffer_ok.
  - by apply example_buffer_ok.
  - exists s'. split; [exact E|]. exact (Hg 0x1FF ltac:(lia)).
Defined.

Lemma ata_count_truncated_witness :
  ∃ s', ata_read (Hports := ports 2 example_disk) 5 (Some 1%nat) 0x400 3 512 example_driver = Ret tt s' ∧
    mach_mem (ata_machine s') = mach_mem (ata_machine example_driver).
Proof.
  destruct (ata_count_truncated 2 example_disk 5 1 example_driver 0x400 3 512) as (s' & E & Hm & _).
  - reflexivity.
  - reflexivity.
  - simpl. lia.
  - reflexivity.
  - discriminate.
  - lia.
  - simpl. lia.
  - by exists s'.
Defined.

Lemma ata_read_errors_witness :
  ata_read (Hports := ports 2 example_disk) 5 None 0x400 3 2 example_driver = Fault ∧
  ata_read (Hports := ports 2 example_disk) 5 (Some 1%nat) NULL 3 2 example_driver = Panic.
Proof.
  split.
  - destruct (ata_read_errors 2 example_disk 5 1 example_driver 0x400 3 2) as [E _];
      [reflexivity|simpl; lia|simpl; lia|exact E].
  - destruct (ata_read_errors 2 example_disk 5 1 example_driver NULL 3 2) as [_ E];
      [reflexivity|simpl; lia|simpl; lia|]. apply E. by right.
Defined.

#[local] Instance bus_total b w : AtaPortsTotal (Hports := bus b w) (λ _ : unit, True).
Proof. split; intros; intros s _; by do 2 eexists. Qed.

Lemma ata_init_ends_witness :
  ∃ s', ata_init (Hports := bus 0x50 0x1234) ata_boot = Ret tt s' ∧ is_slave <$> ata_devices s' = [false; true; false; true].
Proof.
  destruct (ata_init_ends (Hports := bus 0x50 0x1234) (λ _, True) tt I) as (s' & E & _ & _ & Hs & _).
  exists s'. split; [exact E|exact Hs].
Defined.
