(* ===== verification/DiskSpec.v ===== *)
(** * Disks as bytes

    What [ata_read] and [ata_write] promise together: a disk is its bytes, of
    which whole sectors are read and written.  The driver with the disks of
    its cable refines this specification; the client's bytes pass through a
    buffer. *)

From S2P Require Import Prelude Refine Memory PortIO Ata.

Inductive disk_op := ReadSectors (sector num : Z) | WriteSectors (sector : Z) (xs : list Z).
Inductive disk_out := Sectors (xs : list Z) | Written.

(** Stores to the machine's memory do not reach the disks. *)
Lemma machine_stores {T} `{ByteStore T} (s s' : machine T) : stores s s' → mach_channel s' = mach_channel s.
Proof.
  induction 1 as [|s1 s2 s3 (a & v & E) _ IH]; [done|]. rewrite IH. unfold set8, machine_store in E.
  destruct (set8 (mach_mem s1) a v); [|done]. by injection E as <-.
Qed.

(** Up to 255 whole sectors of the 2^28 that can be addressed. *)
Definition sectors_ok (capacity sector num : Z) : Prop :=
  1 ≤ num < 256 ∧ 0 ≤ sector ∧ sector + num ≤ 2 ^ 28 ∧ 512 * num ≤ capacity.

#[export] Instance sectors_ok_dec capacity sector num : Decision (sectors_ok capacity sector num).
Proof. unfold sectors_ok. apply _. Defined.

(** How many sectors the bytes are. *)
Definition sectors_of (xs : list Z) : Z := Z.of_nat (length xs) / 512.

(** The bytes [xs] over those of [a] from [x0] on. *)
Definition bytes_over (x0 : Z) (xs : list Z) (a : Z → Z) : Z → Z :=
  λ x, if decide (x0 ≤ x) then default (a x) (xs !! Z.to_nat (x - x0)) else a x.

Definition disk_spec (capacity : Z) (a : Z → Z) (o : disk_op) : option (disk_out * (Z → Z)) :=
  match o with
  | ReadSectors sector num =>
      if decide (sectors_ok capacity sector num) then Some (Sectors (a <$> seqZ (512 * sector) (512 * num)), a) else None
  | WriteSectors sector xs =>
      if decide (sectors_ok capacity sector (sectors_of xs) ∧ Z.of_nat (length xs) = 512 * sectors_of xs ∧
                 Forall (λ x, 0 ≤ x < 256) xs)
      then Some (Written, bytes_over (512 * sector) xs a) else None
  end.

Section disk_refinement.
Context {T : Type} `{ByteStoreLaws T}.
Variables latency fuel : nat.
Variable d : ata_device.
Variable i : nat.
Variables buf capacity : Z.
Abbreviation the_ports := (ports latency d).
Abbreviation memory s := (mach_mem (ata_machine s)).
Abbreviation cable s := (mach_channel (ata_machine s)).
Implicit Types s : ata_state (machine T).

Definition run_disk (o : disk_op) : M (ata_state (machine T)) disk_out :=
  match o with
  | ReadSectors sector num =>
      ata_read (Hports := the_ports) fuel (Some i) buf sector num ;;
      xs ← lift (read_back (Z.to_nat (512 * num)) buf);
      mret (Sectors xs)
  | WriteSectors sector xs =>
      lift (store_bytes buf xs) ;;
      ata_write (Hports := the_ports) fuel (Some i) buf sector (sectors_of xs) ;;
      mret Written
  end.

(** Device [i] holds the bytes [a]; since [s0] only they and the buffer have
    changed, the cable's other disk in particular has not. *)
Record on_disk s0 (a : Z → Z) s : Prop := {
  od_device : ata_devices s !! i = Some d ∧ exists_ d = true ∧ 0 ≤ base d ∧ base d + 0x1000 < 2 ^ 32;
  od_fuel : (latency < fuel)%nat ∧ (ch_delay (cable s) < fuel)%nat;
  od_buffer : 0 < buf ∧ buf + capacity ≤ 2 ^ 32 ∧ mapped (memory s) buf capacity;
  od_bytes : ∀ x, 0 ≤ x → disk_byte (cable s) (is_slave d) x = a x;
  od_other : ∀ x, disk_byte (cable s) (negb (is_slave d)) x = disk_byte (cable s0) (negb (is_slave d)) x;
  od_memory : ∀ b, ¬ buf ≤ b < buf + capacity → get8 (memory s) b = get8 (memory s0) b;
  od_driver : ata_devices s = ata_devices s0 ∧ block_devices s = block_devices s0 ∧ root_device s = root_device s0
}.

Lemma on_disk_transfer s0 a s sector num : on_disk s0 a s → sectors_ok capacity sector num →
  transfer_ok latency fuel d i s sector num ∧ buffer_ok s buf num.
Proof.
  intros [(H1 & H2 & H3 & H4) Hf (B1 & B2 & B3) _ _ _ _] (Hn & Hs & Hr & Hc). split.
  - by split.
  - split_and!; [done|lia|]. intros b Hb. apply B3. lia.
Qed.

Lemma read_sectors_refines s0 a s sector num : on_disk s0 a s → sectors_ok capacity sector num →
  ∃ s', run_disk (ReadSectors sector num) s = Ret (Sectors (a <$> seqZ (512 * sector) (512 * num))) s' ∧ on_disk s0 a s'.
Proof.
  intros Hd Hok. destruct (on_disk_transfer _ _ _ _ _ Hd Hok) as [[K1 K2 K3 K4 K5 K6] (P1 & P2 & P3)].
  destruct Hok as (Hn & Hs & Hr & Hc).
  destruct (ata_read_ok latency d i s K1 K3 fuel (memory s) (cable s) buf sector num)
    as (m' & c' & E & Hw & Ht & Hdl & Hg); [done..|].
  rewrite at_self in E. set (s' := at_ s m' c') in *. exists s'.
  assert (lift (read_back (Z.to_nat (512 * num)) buf) s' = Ret (a <$> seqZ (512 * sector) (512 * num)) s') as Eb.
  { unfold lift, zoom. replace (Z.to_nat (512 * num)) with (length (a <$> seqZ (512 * sector) (512 * num)))
      by (by rewrite length_fmap, length_seqZ).
    rewrite read_back_ok; [done|]. intros k x (y & -> & [-> Hk]%lookup_seqZ)%list_lookup_fmap_Some.
    unfold get8, machine_store. cbn [ata_machine s' at_ mach_mem]. rewrite Hg, decide_True by lia. f_equal.
    rewrite <-(od_bytes _ _ _ Hd) by lia. f_equal. lia. }
  split; [unfold run_disk; run E; by run Eb|].
  assert (∀ sl x, disk_byte c' sl x = disk_byte (cable s) sl x) as Hdb by (intros sl x; unfold disk_byte, disk_word; by rewrite Hw).
  destruct Hd as [O1 O2 (B1 & B2 & B3) O4 O5 O6 O7]. split; cbn [ata_machine s' at_ mach_mem mach_channel ata_devices block_devices root_device].
  - done.
  - rewrite Hdl. lia.
  - split_and!; [done|done|]. intros b Hb. rewrite Hg. case_decide; [by eexists|by apply B3].
  - intros x Hx. rewrite Hdb. by apply O4.
  - intros x. rewrite Hdb. apply O5.
  - intros b Hb. rewrite Hg, decide_False by lia. by apply O6.
  - done.
Qed.

Lemma write_sectors_refines s0 a s sector xs : on_disk s0 a s → sectors_ok capacity sector (sectors_of xs) →
  Z.of_nat (length xs) = 512 * sectors_of xs → Forall (λ x, 0 ≤ x < 256) xs →
  ∃ s', run_disk (WriteSectors sector xs) s = Ret Written s' ∧ on_disk s0 (bytes_over (512 * sector) xs a) s'.
Proof.
  intros Hd Hok Hl HF. destruct (on_disk_transfer _ _ _ _ _ Hd Hok) as [[K1 K2 K3 K4 K5 K6] (P1 & P2 & P3)].
  destruct Hok as (Hn & Hs & Hr & Hc). set (num := sectors_of xs) in *.
  destruct Hd as [O1 O2 (B1 & B2 & B3) O4 O5 O6 O7].
  destruct (store_bytes_ok (ata_machine s) buf xs) as (t1 & E1 & St & H1); [intros b Hb; apply B3; lia|done|].
  apply machine_stores in St. destruct t1 as [m1 c1]. cbn in St. subst c1.
  assert (lift (store_bytes buf xs) s = Ret tt (at_ s m1 (cable s))) as E1' by (unfold lift, zoom; by rewrite E1).
  assert (∀ b, get8 m1 b = if decide (buf ≤ b < buf + 512 * num) then xs !! Z.to_nat (b - buf) else get8 (memory s) b) as Hg1
    by (intros b; rewrite <-Hl; exact (H1 b)).
  assert (mapped m1 buf capacity) as Hm1.
  { intros b Hb. rewrite Hg1. case_decide; [|by apply B3]. apply lookup_lt_is_Some_2. lia. }
  destruct (ata_write_ok latency d i s K1 K3 fuel m1 (cable s) buf sector num)
    as (c' & E & Ht & Hdl & Hw); try done; [intros b Hb; apply Hm1; lia|].
  exists (at_ s m1 c'). split; [unfold run_disk; run E1'; by run E|].
  split; cbn [ata_machine at_ mach_mem mach_channel ata_devices block_devices root_device]; [done|rewrite Hdl; lia|done| | | |done].
  - intros x Hx. unfold bytes_over. destruct (decide (512 * sector ≤ x < 512 * (sector + num))) as [Hin|Hout].
    + rewrite decide_True by lia. pose proof (written_byte m1 (cable s) c' (is_slave d) buf sector num (x - 512 * sector) Hw
        ltac:(intros b Hb; apply Hm1; lia) ltac:(lia)) as Eb.
      replace (512 * sector + (x - 512 * sector)) with x in Eb by lia. rewrite Hg1, decide_True in Eb by lia.
      replace (buf + (x - 512 * sector) - buf) with (x - 512 * sector) in Eb by lia. by rewrite Eb.
    + assert (disk_byte c' (is_slave d) x = disk_byte (cable s) (is_slave d) x) as ->.
      { unfold disk_byte. by rewrite Hw, decide_False by dlia. }
      rewrite O4 by done. case_decide; [|done]. by rewrite lookup_ge_None_2 by lia.
  - intros x. rewrite <-O5. unfold disk_byte. rewrite Hw, decide_False; [done|]. intros [Hc' _]. by destruct (is_slave d).
  - intros b Hb. rewrite Hg1, decide_False by lia. by apply O6.
Qed.

#[export] Instance disk_refines s0 : Refines run_disk (disk_spec capacity) (on_disk s0).
Proof.
  intros a s [sector num|sector xs] out a' Hd E; cbn [disk_spec] in E; case_decide as Hc; try done; injection E as <- <-.
  - by apply read_sectors_refines.
  - destruct Hc as (Hok & Hl & HF). by apply write_sectors_refines.
Qed.
End disk_refinement.

(** ** Properties *)


(** ** Witnesses *)

(** The bytes of the disk of the driver's example, with a buffer of 2 sectors at 0x800. *)
Definition example_bytes (x : Z) : Z := disk_byte (mach_channel (ata_machine example_driver)) true x.

Lemma example_on_disk : on_disk 2 5 example_disk 1 0x800 0x400 example_driver example_bytes example_driver.
Proof.
  split; try done.
  - cbn. lia.
  - split_and!; [lia|lia|]. intros b Hb. unfold get8, example_driver. cbn. rewrite decide_True by lia. eauto.
Qed.

(** A sector is copied to the next one; both are read back. *)
Definition example_copier : client disk_op disk_out :=
  Do (ReadSectors 3 1) (λ out, match out with
    | Sectors xs => operations [WriteSectors 4 xs; ReadSectors 3 2]
    | Written => Done
    end).

