(* ===== verification/Elf.v ===== *)
(** * Loading programs: [kernel/multitask/elf_loader.c]

    The structures of [include/multitask/elf.h] and [include/multitask/task.h]
    are laid out byte by byte; the two local arrays of the loader are
    variables with their addresses.  [mmap] is used through an interface. *)

From S2P Require Import Prelude Memory Chain CString Bitmap Phys Paging Kheap Kmalloc KList Initrd Vfs File.

(** What [mmap] does for the code that uses the memory (see [Vmm.mmap]). *)
Class UserMemory (S : Type) := { um_mmap : Z → Z → M S error_code }.

(** [um_room]: so many pages can certainly be mapped still, whatever is stored
    to memory in between.  After a success the pages are there, and what was
    mapped before is as it was. *)
Class UserMemoryLaws (S : Type) `{ByteStore S, UserMemory S} := {
  um_room : S → Z;
  um_room_store s a v s' : set8 s a v = Some s' → um_room s' = um_room s;
  um_success s va n : 0 ≤ va → va mod 4096 = 0 → 0 < n → va + 4096 * n < KERNEL_VIRTUAL_OFFSET → n ≤ um_room s →
    ∃ s', um_mmap va n s = Ret SUCCESS s' ∧ um_room s - n ≤ um_room s';
  um_mapped s va n s' : um_mmap va n s = Ret SUCCESS s' → 0 ≤ va → 0 ≤ n → mapped s' va (4096 * n);
  um_kept s va n s' b v : um_mmap va n s = Ret SUCCESS s' → get8 s b = Some v → get8 s' b = Some v
}.

(** [task_t] *)
Definition task_vmm (task : Z) : Z := task.
Definition task_name (task : Z) : Z := u32 (task + 36).
Definition task_stack_begin (task : Z) : Z := u32 (task + 56).
Definition task_stack_end (task : Z) : Z := u32 (task + 60).
Definition task_text_begin (task : Z) : Z := u32 (task + 64).
Definition task_data_begin (task : Z) : Z := u32 (task + 72).
Definition task_kernel_ss (task : Z) : Z := u32 (task + 84).
Definition task_kernel_stack (task : Z) : Z := u32 (task + 88).
Definition sizeof_task : Z := 92.

(** [Elf32_Ehdr] *)
Definition e_ident (hdr i : Z) : Z := u32 (hdr + i).
Definition e_type (hdr : Z) : Z := u32 (hdr + 16).
Definition e_machine (hdr : Z) : Z := u32 (hdr + 18).
Definition e_phoff (hdr : Z) : Z := u32 (hdr + 28).
Definition e_phnum (hdr : Z) : Z := u32 (hdr + 44).
Definition ELF_HEADER_SIZE : Z := 52.

(** [Elf32_Phdr] *)
Definition p_type (phdr : Z) : Z := phdr.
Definition p_offset (phdr : Z) : Z := u32 (phdr + 4).
Definition p_vaddr (phdr : Z) : Z := u32 (phdr + 8).
Definition p_filesz (phdr : Z) : Z := u32 (phdr + 16).
Definition p_memsz (phdr : Z) : Z := u32 (phdr + 20).
Definition p_flags (phdr : Z) : Z := u32 (phdr + 24).
Definition sizeof_phdr : Z := 32.

Definition ELFMAG0 : Z := 0x7F.
Definition ELFMAG1 : Z := 69.
Definition ELFMAG2 : Z := 76.
Definition ELFMAG3 : Z := 70.
Definition EM_386 : Z := 3.
Definition EV_CURRENT : Z := 1.
Definition ELFDATA2LSB : Z := 1.
Definition ELFCLASS32 : Z := 1.
Definition EI_CLASS : Z := 4.
Definition EI_DATA : Z := 5.
Definition EI_VERSION : Z := 6.
Definition ET_REL : Z := 1.
Definition ET_EXEC : Z := 2.
Definition PT_LOAD : Z := 1.
Definition PF_RX : Z := 5.
Definition PF_RW : Z := 6.

Section elf_c.
Context {S : Type} `{ByteStore S, Allocator S, FsOps S, UserMemory S}.
Variable sfuel : nat.

(** The parameters of [file_open], and the literal ["r"]. *)
Variable possible_modes : list Z.
Variable mode_buf : Z.
Variable vfs_open : Z → M S Z.
Variable r_literal : Z.

(** The addresses of [elf_header_buf] and of the array [segments]. *)
Variable elf_header_buf segments : Z.

Definition check_elf_header (elf_header : Z) : M S error_code :=
  if elf_header =? NULL then mret INVALID_ARGUMENT
  else
    b ← rd8 (e_ident elf_header 0);
    if negb (b =? ELFMAG0) then mret INVALID_ARGUMENT
    else
      b ← rd8 (e_ident elf_header 1);
      if negb (b =? ELFMAG1) then mret INVALID_ARGUMENT
      else
        b ← rd8 (e_ident elf_header 2);
        if negb (b =? ELFMAG2) then mret INVALID_ARGUMENT
        else
          b ← rd8 (e_ident elf_header 3);
          if negb (b =? ELFMAG3) then mret INVALID_ARGUMENT else mret SUCCESS.

Definition check_elf_supported (elf_header : Z) : M S error_code :=
  b ← rd8 (e_ident elf_header EI_CLASS);
  if negb (b =? ELFCLASS32) then mret INVALID_ARGUMENT
  else
    b ← rd8 (e_ident elf_header EI_DATA);
    if negb (b =? ELFDATA2LSB) then mret INVALID_ARGUMENT
    else
      h ← rd16 (e_machine elf_header);
      if negb (h =? EM_386) then mret INVALID_ARGUMENT
      else
        b ← rd8 (e_ident elf_header EI_VERSION);
        if negb (b =? EV_CURRENT) then mret INVALID_ARGUMENT
        else
          h ← rd16 (e_type elf_header);
          if negb (h =? ET_REL) && negb (h =? ET_EXEC) then mret INVALID_ARGUMENT else mret SUCCESS.

Definition load_program_header_table (elf_file elf_header segments_headers number_of_segments : Z) : M S Z :=
  off ← rd32 (e_phoff elf_header);
  file_seek elf_file (i32 off) SEEK_SET ;;
  file_read elf_file segments_headers (u32 (number_of_segments * sizeof_phdr)).

(** [aligned_mem_size] *)
Definition aligned_mem_size (segment_memory_size : Z) : Z :=
  let aligned := PAGE_BOUNDARY segment_memory_size in
  if aligned <? segment_memory_size then u32 (aligned + PAGE_SIZE) else aligned.

(** [Update the task struct] *)
Definition update_task (task flags segment_virtual_address : Z) : M S unit :=
  (if flags =? PF_RX then wr32 (task_text_begin task) segment_virtual_address else mret tt) ;;
  if flags =? PF_RW then wr32 (task_data_begin task) segment_virtual_address else mret tt.

(** The body of the loop; [Some] is an early return. *)
Definition load_segment (task elf_file segment : Z) : M S (option error_code) :=
  type ← rd32 (p_type segment);
  if type =? PT_LOAD then
    segment_memory_size ← rd32 (p_memsz segment);
    segment_file_size ← rd32 (p_filesz segment);
    segment_virtual_address ← rd32 (p_vaddr segment);
    r ← um_mmap segment_virtual_address (segment_memory_size / PAGE_SIZE + 1);
    if negb (bool_decide (r = SUCCESS)) then mret (Some FAILURE)
    else
      off ← rd32 (p_offset segment);
      file_seek elf_file (i32 off) SEEK_SET ;;
      n ← file_read elf_file segment_virtual_address segment_file_size;
      if n =? 0 then mret (Some FAILURE)
      else
        (if segment_memory_size >? segment_file_size then
           memset 0 (u32 (segment_virtual_address + segment_file_size))
             (u32 (aligned_mem_size segment_memory_size - segment_file_size))
         else mret tt) ;;
        flags ← rd32 (p_flags segment);
        update_task task flags segment_virtual_address ;;
        mret None
  else mret None.

(** [n] segments from number [i] on. *)
Fixpoint load_segments_loop (n : nat) (task elf_file i : Z) : M S error_code :=
  match n with
  | O => mret SUCCESS
  | Datatypes.S n' =>
      r ← load_segment task elf_file (u32 (segments + i * sizeof_phdr));
      match r with
      | Some e => mret e
      | None => load_segments_loop n' task elf_file (i + 1)
      end
  end.

Definition load_segments (task elf_header elf_file : Z) : M S error_code :=
  number_of_segments ← rd16 (e_phnum elf_header);
  n ← load_program_header_table elf_file elf_header segments number_of_segments;
  if n =? 0 then mret FAILURE
  else load_segments_loop (Z.to_nat number_of_segments) task elf_file 0.

Definition load_elf (task : Z) : M S error_code :=
  if task =? NULL then mret INVALID_ARGUMENT
  else
    elf_file ← file_open sfuel possible_modes mode_buf vfs_open (task_name task) r_literal;
    if elf_file =? NULL then mret NO_SUCH_FILE
    else
      memset 0 elf_header_buf ELF_HEADER_SIZE ;;
      n ← file_read elf_file elf_header_buf ELF_HEADER_SIZE;
      if n =? 0 then mret FAILURE
      else
        r ← check_elf_header elf_header_buf;
        if negb (bool_decide (r = SUCCESS)) then mret FAILURE
        else
          r ← check_elf_supported elf_header_buf;
          if negb (bool_decide (r = SUCCESS)) then mret FAILURE
          else
            type ← rd16 (e_type elf_header_buf);
            if type =? ET_EXEC then
              load_segments task elf_header_buf elf_file ;;
              mret SUCCESS
            else mret SUCCESS.
End elf_c.

(** ** Program headers and images *)

Record phdr := Phdr { ph_type : Z; ph_offset : Z; ph_vaddr : Z; ph_filesz : Z; ph_memsz : Z; ph_flags : Z }.

Definition loads (ph : phdr) : bool := ph_type ph =? PT_LOAD.

(** The end of what is stored for a segment: the rest of its last page is
    cleared, unless the segment ends with its bytes in the file. *)
Definition seg_end (ph : phdr) : Z :=
  ph_vaddr ph + (if ph_memsz ph >? ph_filesz ph then aligned_mem_size (ph_memsz ph) else ph_filesz ph).

(** The pages that are mapped for a segment, and for all of them. *)
Definition segment_pages (ph : phdr) : Z := ph_memsz ph / PAGE_SIZE + 1.
Definition pages_of (phs : list phdr) : Z :=
  foldr (λ ph n, (if loads ph then segment_pages ph else 0) + n) 0 phs.

Lemma aligned_mem_size_bounds m : 0 ≤ m < 2 ^ 31 - 4096 →
  m ≤ aligned_mem_size m < m + 4096 ∧ aligned_mem_size m ≤ 4096 * (m / PAGE_SIZE + 1).
Proof.
  intros Hm. unfold aligned_mem_size. rewrite PAGE_BOUNDARY_eq, u32_small by lia. unfold PAGE_SIZE.
  destruct (Z.ltb_spec (m / 4096 * 4096) m).
  - rewrite u32_small by dlia. dlia.
  - dlia.
Qed.

Section images.
Context {S : Type} `{ByteStoreLaws S}.
Implicit Types s : S.

(** The program header at [a]. *)
Definition phdr_at s (a : Z) (ph : phdr) : Prop :=
  get32 s a = Some (ph_type ph) ∧ get32 s (a + 4) = Some (ph_offset ph) ∧ get32 s (a + 8) = Some (ph_vaddr ph) ∧
  get32 s (a + 16) = Some (ph_filesz ph) ∧ get32 s (a + 20) = Some (ph_memsz ph) ∧
  get32 s (a + 24) = Some (ph_flags ph).

Lemma phdr_at_keeps P s s' a ph : keeps P s s' → (∀ b, a ≤ b < a + 32 → P b) → phdr_at s a ph → phdr_at s' a ph.
Proof.
  intros Hk HP (H1 & H2 & H3 & H4 & H5 & H6).
  split_and!; (eapply keeps_get32; [exact Hk|intros b Hb; apply HP; lia|done]).
Qed.

(** What byte [b] of a segment is to hold. *)
Definition segment_byte s (f : file_view) (ph : phdr) (b : Z) : option Z :=
  if decide (b < ph_vaddr ph + ph_filesz ph) then get8 s (fv_data f + ph_offset ph + (b - ph_vaddr ph)) else Some 0.

(** Loading one segment over the memory [g], and all of them in turn. *)
Definition load_over s f (g : Z → option Z) (ph : phdr) (b : Z) : option Z :=
  if loads ph && bool_decide (ph_vaddr ph ≤ b < seg_end ph) then segment_byte s f ph b else g b.

Definition image s f (phs : list phdr) : Z → option Z := fold_left (load_over s f) phs (get8 s).

(** The task's fields: the last segment with these flags counts. *)
Definition begin_of (flags : Z) (phs : list phdr) (init : Z) : Z :=
  fold_left (λ t ph, if loads ph && (ph_flags ph =? flags) then ph_vaddr ph else t) phs init.

(** A loadable segment that fits into user memory and the file. *)
Definition segment_ok (f : file_view) (ph : phdr) : Prop :=
  loads ph = true →
  0 < ph_vaddr ph ∧ ph_vaddr ph mod 4096 = 0 ∧ ph_vaddr ph + 4096 * segment_pages ph < KERNEL_VIRTUAL_OFFSET ∧
  0 < ph_filesz ph ≤ ph_memsz ph ∧ ph_memsz ph < 2 ^ 31 - 4096 ∧
  0 ≤ ph_offset ph ∧ ph_offset ph + ph_filesz ph ≤ fv_size f.
End images.

(** ** Loading *)

Section loading.
Context {S : Type} `{ByteStoreLaws S, !Allocator S, !UserMemory S, !UserMemoryLaws S}.
Implicit Types s : S.
Variable sfuel : nat.
Variable open_address read_address close_address : Z.
#[local] Instance ramdisk : FsOps S := initrd_ops sfuel open_address read_address close_address.

Variable f : file_view.
Variable task : Z.

Lemma um_room_stores s s' : stores s s' → um_room s' = um_room s.
Proof. induction 1 as [|s1 s2 s3 (a & v & E) _ IH]; [done|]. by rewrite IH, (um_room_store _ _ _ _ E). Qed.

(** Kernel memory that reading a segment keeps, and that loading one does. *)
Definition read_kept (b : Z) : Prop := KERNEL_VIRTUAL_OFFSET ≤ b ∧ ¬ fv_file f + 4 ≤ b < fv_file f + 8.
Definition loader_kept (b : Z) : Prop :=
  read_kept b ∧ ¬ task + 64 ≤ b < task + 68 ∧ ¬ task + 72 ≤ b < task + 76.

(** The task and the file lie apart in kernel memory. *)
Definition kernel_layout : Prop :=
  KERNEL_VIRTUAL_OFFSET ≤ task ∧ task + 92 < 2 ^ 32 ∧
  ∀ b, file_area f b → KERNEL_VIRTUAL_OFFSET ≤ b ∧ ¬ task ≤ b < task + 92.

Definition task_begins s (text data : Z) : Prop :=
  get32 s (task + 64) = Some text ∧ get32 s (task + 72) = Some data.

Lemma task_begins_keeps P s s' text data : keeps P s s' → (∀ b, task ≤ b < task + 92 → P b) →
  task_begins s text data → task_begins s' text data.
Proof. intros Hk HP [E1 E2]. split; (eapply keeps_get32; [exact Hk|intros b Hb; apply HP; lia|done]). Qed.

Lemma update_task_ok s flags vaddr text data :
  kernel_layout → task_begins s text data → 0 ≤ vaddr < 2 ^ 32 →
  ∃ s', update_task task flags vaddr s = Ret tt s' ∧
    task_begins s' (if flags =? PF_RX then vaddr else text) (if flags =? PF_RW then vaddr else data) ∧
    keeps (λ b, ¬ task + 64 ≤ b < task + 68 ∧ ¬ task + 72 ≤ b < task + 76) s s' ∧ stores s s'.
Proof.
  intros (Ht & Ht' & _) [E1 E2] Hv. unfold KERNEL_VIRTUAL_OFFSET in *.
  unfold update_task, task_text_begin, task_data_begin. rewrite !u32_small by lia.
  assert (∃ s1, (if flags =? PF_RX then wr32 (task + 64) vaddr else mret tt) s = Ret tt s1 ∧
    task_begins s1 (if flags =? PF_RX then vaddr else text) data ∧ same_but (task + 64) 4 s s1 ∧ stores s s1)
    as (s1 & R1 & [T1 T2] & K1 & St1).
  { destruct (flags =? PF_RX).
    - destruct (wr32_Ret s (task + 64) vaddr) as (s1 & R1 & W1); [by eapply get32_mapped|].
      exists s1. split; [done|]. split; [|split; [by eapply stored32_same_but|by eapply wr32_stores]]. split.
      + by rewrite (stored32_same _ _ _ _ W1), u32_small by lia.
      + rewrite (stored32_other _ _ _ _ _ W1) by lia. done.
    - exists s. split_and!; [done..|apply rtc_refl]. }
  run R1. destruct (flags =? PF_RW).
  - destruct (wr32_Ret s1 (task + 72) vaddr) as (s2 & R2 & W2); [by eapply get32_mapped|].
    exists s2. split; [done|]. split; [split|split].
    + rewrite (stored32_other _ _ _ _ _ W2) by lia. done.
    + by rewrite (stored32_same _ _ _ _ W2), u32_small by lia.
    + eapply keeps_trans; [eapply keeps_same_but; [done|simpl; lia]|].
      eapply keeps_same_but; [by eapply stored32_same_but|simpl; lia].
    + unfold stores. etransitivity; [exact St1|by eapply wr32_stores].
  - exists s1. split; [done|]. split; [done|]. split; [|done]. eapply keeps_same_but; [done|simpl; lia].
Qed.

(** The clearing of a segment's rest. *)
Lemma clear_rest_ok s ph :
  0 < ph_vaddr ph → ph_vaddr ph + 4096 * segment_pages ph < KERNEL_VIRTUAL_OFFSET →
  0 < ph_filesz ph ≤ ph_memsz ph → ph_memsz ph < 2 ^ 31 - 4096 →
  mapped s (ph_vaddr ph) (4096 * segment_pages ph) →
  ∃ s', (if ph_memsz ph >? ph_filesz ph then
           memset 0 (u32 (ph_vaddr ph + ph_filesz ph)) (u32 (aligned_mem_size (ph_memsz ph) - ph_filesz ph))
         else mret tt) s = Ret tt s' ∧ stores s s' ∧
    ∀ b, get8 s' b = if decide (ph_vaddr ph + ph_filesz ph ≤ b < seg_end ph) then Some 0 else get8 s b.
Proof.
  intros Hv Hve Hfs Hms Hm. destruct (aligned_mem_size_bounds (ph_memsz ph)) as [Ha1 Ha2]; [lia|]. fold (segment_pages ph) in Ha2.
  unfold KERNEL_VIRTUAL_OFFSET in *. unfold seg_end. destruct (Z.gtb_spec (ph_memsz ph) (ph_filesz ph)) as [Hgt|Hle].
  - rewrite !u32_small by lia.
    destruct (memset_ok s 0 (ph_vaddr ph + ph_filesz ph) (aligned_mem_size (ph_memsz ph) - ph_filesz ph)) as (s' & E & Hf').
    + unfold INT_MAX. lia.
    + eapply mapped_sub; [done|lia|lia].
    + exists s'. split; [done|]. split; [by eapply memset_stores|]. intros b. rewrite Hf'. change (u8 (i8 0)) with 0.
      destruct (decide (ph_vaddr ph + ph_filesz ph ≤ b < ph_vaddr ph + aligned_mem_size (ph_memsz ph)));
        [by rewrite decide_True by lia|by rewrite decide_False by lia].
  - exists s. split; [done|]. split; [apply rtc_refl|]. intros b. by rewrite decide_False by lia.
Qed.

(** The pages, the seek and the read of one segment. *)
Lemma read_segment_ok s off ph :
  kernel_layout → initrd_file read_address s f off → segment_ok f ph → loads ph = true → segment_pages ph ≤ um_room s →
  ∃ s1 s2 s3, um_mmap (ph_vaddr ph) (segment_pages ph) s = Ret SUCCESS s1 ∧
    file_seek (fv_file f) (ph_offset ph) SEEK_SET s1 = Ret None s2 ∧
    file_read (fv_file f) (ph_vaddr ph) (ph_filesz ph) s2 = Ret (ph_filesz ph) s3 ∧
    initrd_file read_address s3 f (ph_offset ph + ph_filesz ph) ∧ mapped s3 (ph_vaddr ph) (4096 * segment_pages ph) ∧
    keeps read_kept s s1 ∧ keeps read_kept s s2 ∧ keeps read_kept s s3 ∧ um_room s - segment_pages ph ≤ um_room s3 ∧
    ∀ b v, b < KERNEL_VIRTUAL_OFFSET →
      (if decide (ph_vaddr ph ≤ b < ph_vaddr ph + ph_filesz ph)
       then get8 s (fv_data f + ph_offset ph + (b - ph_vaddr ph)) else get8 s b) = Some v → get8 s3 b = Some v.
Proof.
  intros (Hk1 & Hk2 & Hk3) Hf Hsg Hl Hroom. destruct (Hsg Hl) as (Hv & Hva & Hve & Hfs & Hms & Ho & Hoe).
  assert (0 < segment_pages ph) as Hn by (unfold segment_pages, PAGE_SIZE; dlia).
  destruct (um_success s (ph_vaddr ph) (segment_pages ph)) as (s1 & E1 & Hr1); [lia|done|done|lia|done|]. exists s1.
  assert (keeps (λ _, True) s s1) as K1 by (intros b v _; by eapply um_kept).
  assert (initrd_file read_address s1 f off) as Hf1 by (eapply initrd_file_ext; [done|by eapply keeps_weaken]).
  pose proof (um_mapped _ _ _ _ E1 ltac:(lia) ltac:(lia)) as M1.
  destruct (file_seek_set_ok read_address s1 f off (ph_offset ph) Hf1) as (s2 & E2 & Hf2 & B2 & St2); [lia|]. exists s2.
  assert (KERNEL_VIRTUAL_OFFSET ≤ fv_file f) as Hfk by (apply Hk3; unfold file_area; lia).
  assert (ph_filesz ph ≤ 4096 * segment_pages ph) as Hfm by (unfold segment_pages, PAGE_SIZE; dlia).
  assert (∀ b, b < KERNEL_VIRTUAL_OFFSET → get8 s2 b = get8 s1 b) as U2 by (intros; apply B2; lia).
  destruct (file_read_ok read_address sfuel open_address close_address s2 f (ph_offset ph) (ph_filesz ph) (ph_vaddr ph) Hf2)
    as (s3 & E3 & Hf3 & St3 & G3).
  - lia.
  - unfold KERNEL_VIRTUAL_OFFSET in *. lia.
  - done.
  - intros b Hb. rewrite U2 by lia. apply M1. lia.
  - intros b Hb Hfa. apply Hk3 in Hfa. lia.
  - rewrite Z.min_l in E3, Hf3, G3 by lia. exists s3.
    assert (keeps read_kept s1 s2) as K2 by (eapply keeps_same_but; [done|unfold read_kept; lia]).
    assert (keeps read_kept s2 s3) as K3.
    { intros b v [Hb Hb'] Eb. rewrite G3, decide_False by lia. done. }
    assert (keeps read_kept s s1) as K1' by (by eapply keeps_weaken).
    split_and!; try done.
    + intros b Hb. rewrite G3 by lia. case_decide as Hc.
      * destruct Hf2 as [_ _ _ _ _ Hm2 _]. apply Hm2. lia.
      * rewrite U2 by lia. apply M1. lia.
    + eapply keeps_trans; done.
    + do 2 (eapply keeps_trans; [done|]). done.
    + by rewrite (um_room_stores _ _ St3), (um_room_stores _ _ St2).
    + intros b v Hb Eb. rewrite G3 by lia. case_decide.
      * assert (¬ fv_file f + 4 ≤ fv_data f + ph_offset ph + (b - ph_vaddr ph) < fv_file f + 8) as Hx.
        { intros Hx. destruct Hf as [_ _ _ _ _ _ Ha]. destruct (Ha _ Hx) as (_ & _ & Hn'). lia. }
        rewrite B2 by lia. by apply K1.
      * rewrite U2 by lia. by apply K1.
Qed.

(** One loadable segment: what it is to hold is in user memory, the task knows
    where text and data begin, and the kernel's memory is kept. *)
Lemma load_segment_ok s off seg ph text data :
  kernel_layout → initrd_file read_address s f off → segment_ok f ph → loads ph = true →
  0 ≤ seg → seg + 32 < 2 ^ 32 → (∀ b, seg ≤ b < seg + 32 → loader_kept b) → phdr_at s seg ph →
  task_begins s text data → segment_pages ph ≤ um_room s →
  ∃ s', load_segment task (fv_file f) seg s = Ret None s' ∧
    initrd_file read_address s' f (ph_offset ph + ph_filesz ph) ∧ keeps loader_kept s s' ∧
    um_room s - segment_pages ph ≤ um_room s' ∧
    task_begins s' (if ph_flags ph =? PF_RX then ph_vaddr ph else text)
      (if ph_flags ph =? PF_RW then ph_vaddr ph else data) ∧
    ∀ b v, b < KERNEL_VIRTUAL_OFFSET → load_over s f (get8 s) ph b = Some v → get8 s' b = Some v.
Proof.
  intros Hk Hf Hsg Hl Hs0 Hs1 Hsk Hph Ht Hroom.
  destruct (read_segment_ok s off ph Hk Hf Hsg Hl Hroom) as (s1 & s2 & s3 & R1 & R2 & R3 & Hf3 & M3 & K1 & K2 & K3 & Hr3 & U3).
  destruct (Hsg Hl) as (Hv & Hva & Hve & Hfs & Hms & Ho & Hoe). pose proof Hk as (Hk1 & Hk2 & Hk3).
  destruct Hf as [_ Hfsz _ _ _ _ _].
  destruct (clear_rest_ok s3 ph Hv Hve Hfs Hms M3) as (s4 & R4 & St4 & G4).
  destruct (aligned_mem_size_bounds (ph_memsz ph)) as [Ha1 Ha2]; [lia|]. fold (segment_pages ph) in Ha2.
  assert (seg_end ph ≤ KERNEL_VIRTUAL_OFFSET) as Hse by (unfold seg_end; destruct (_ >? _); lia).
  assert (keeps (λ b, KERNEL_VIRTUAL_OFFSET ≤ b) s3 s4) as K4 by (intros b v Hb Eb; rewrite G4, decide_False by lia; done).
  assert (keeps read_kept s s4) as K4'.
  { eapply keeps_trans; [exact K3|]. eapply keeps_weaken; [exact K4|]. by intros b [Hb _]. }
  assert (∀ b, task ≤ b < task + 92 → read_kept b) as Htk.
  { intros b Hb. split; [lia|]. intros Hc. destruct (Hk3 b) as [_ Hn]; [unfold file_area; lia|done]. }
  assert (task_begins s4 text data) as Ht4.
  { by eapply task_begins_keeps. }
  destruct (update_task_ok s4 (ph_flags ph) (ph_vaddr ph) text data Hk Ht4) as (s5 & R5 & Ht5 & K5 & St5).
  { unfold KERNEL_VIRTUAL_OFFSET in *. lia. }
  assert (∀ s', keeps read_kept s s' → phdr_at s' seg ph) as Hph'.
  { intros s' Hs'. eapply phdr_at_keeps; [exact Hs'| |done]. intros b Hb. by apply Hsk. }
  destruct Hph as (P1 & P2 & P3 & P4 & P5 & P6). destruct (Hph' s1 K1) as (_ & P2' & _). destruct (Hph' s4 K4') as (_ & _ & _ & _ & _ & P6').
  exists s5. split_and!.
  - unfold load_segment, p_type, p_offset, p_vaddr, p_filesz, p_memsz, p_flags. rewrite !u32_small by lia.
    run (rd32_Ret _ _ _ P1). unfold loads in Hl. rewrite Hl. run (rd32_Ret _ _ _ P5). run (rd32_Ret _ _ _ P4).
    run (rd32_Ret _ _ _ P3). fold (segment_pages ph). run R1. rewrite bool_decide_true by done. cbn [negb]. run (rd32_Ret _ _ _ P2').
    rewrite i32_small by lia. run R2. run R3. rewrite (proj2 (Z.eqb_neq _ 0)) by lia. run R4. run (rd32_Ret _ _ _ P6').
    by run R5.
  - eapply initrd_file_ext; [exact Hf3|]. intros b v Hb Eb. destruct (Hk3 b Hb) as [Hb1 Hb2].
    apply K5; [lia|]. by apply K4.
  - eapply keeps_trans; [eapply keeps_weaken; [exact K4'|by intros b [Hb _]]|].
    eapply keeps_weaken; [exact K5|by intros b [_ Hb]].
  - by rewrite (um_room_stores _ _ St5), (um_room_stores _ _ St4).
  - done.
  - intros b v Hb. unfold load_over. rewrite Hl. cbn [andb]. intros Eb. apply K5; [lia|]. rewrite G4.
    unfold segment_byte in Eb. case_bool_decide as Hc; [case_decide as Hc2|].
    + rewrite decide_False by lia. apply U3; [done|]. by rewrite decide_True by lia.
    + by rewrite decide_True by lia.
    + rewrite decide_False by (unfold seg_end in *; destruct (_ >? _); lia). apply U3; [done|].
      rewrite decide_False; [done|]. unfold seg_end in Hc; destruct (_ >? _); lia.
Qed.

(** The file's bytes are those of [s] in [s'], too. *)
Lemma segment_byte_kept s s' ph b v :
  keeps (λ b, fv_data f ≤ b < fv_data f + fv_size f) s s' → segment_ok f ph → loads ph = true → ph_vaddr ph ≤ b →
  segment_byte s f ph b = Some v → segment_byte s' f ph b = Some v.
Proof.
  intros Hk Hsg Hl Hb. destruct (Hsg Hl) as (_ & _ & _ & _ & _ & Ho & Hoe). unfold segment_byte.
  case_decide; [|done]. apply Hk. lia.
Qed.

Lemma image_mono s s' phs (g g' : Z → option Z) b v :
  keeps (λ b, fv_data f ≤ b < fv_data f + fv_size f) s s' → Forall (segment_ok f) phs → (∀ v, g b = Some v → g' b = Some v) →
  fold_left (load_over s f) phs g b = Some v → fold_left (load_over s' f) phs g' b = Some v.
Proof.
  intros Hk Hsg. revert g g'. induction Hsg as [|ph phs Hph Hphs IH]; intros g g' Hg; simpl; [apply Hg|].
  apply IH. intros w. unfold load_over. destruct (loads ph) eqn:Hl; cbn [andb]; [|apply Hg].
  case_bool_decide as Hc; [|apply Hg]. apply segment_byte_kept; try done. lia.
Qed.

Lemma file_area_kept : kernel_layout →
  ∀ b, file_area f b → ¬ fv_file f + 4 ≤ b < fv_file f + 8 → loader_kept b.
Proof. intros (_ & _ & Hk) b Hb Hn. destruct (Hk b Hb). split; [done|]. lia. Qed.

Lemma file_data_kept s s' off : kernel_layout → initrd_file read_address s f off → keeps loader_kept s s' →
  keeps (λ b, fv_data f ≤ b < fv_data f + fv_size f) s s'.
Proof.
  intros Hk [_ _ _ _ _ _ Ha] Hs. eapply keeps_weaken; [exact Hs|]. intros b Hb. apply file_area_kept; [done|unfold file_area; tauto|].
  intros Hc. by destruct (Ha b Hc) as (_ & _ & ?).
Qed.

Variable segments : Z.

Lemma pages_of_pos phs : Forall (segment_ok f) phs → 0 ≤ pages_of phs.
Proof.
  induction 1 as [|ph phs Hph _ IH]; cbn [pages_of foldr]; [done|]. fold (pages_of phs).
  destruct (loads ph) eqn:Hl; [|lia]. destruct (Hph Hl) as (_ & _ & _ & Hfs & _). unfold segment_pages, PAGE_SIZE. dlia.
Qed.

Lemma load_segments_loop_ok phs s off i text data :
  kernel_layout → initrd_file read_address s f off → Forall (segment_ok f) phs →
  0 ≤ i → 0 ≤ segments → segments + 32 * (i + Z.of_nat (length phs)) < 2 ^ 32 →
  (∀ b, segments ≤ b < segments + 32 * (i + Z.of_nat (length phs)) → loader_kept b) →
  (∀ k ph, phs !! k = Some ph → phdr_at s (segments + (i + Z.of_nat k) * 32) ph) → task_begins s text data →
  pages_of phs ≤ um_room s →
  ∃ s', load_segments_loop segments (length phs) task (fv_file f) i s = Ret SUCCESS s' ∧
    keeps loader_kept s s' ∧ um_room s - pages_of phs ≤ um_room s' ∧ task_begins s' (begin_of PF_RX phs text) (begin_of PF_RW phs data) ∧
    ∀ b v, b < KERNEL_VIRTUAL_OFFSET → image s f phs b = Some v → get8 s' b = Some v.
Proof.
  intros Hk Hf Hsg. revert s off i text data Hf.
  induction Hsg as [|ph phs Hph Hphs IH]; intros s off i text data Hf Hi Hg0 Hg1 Hseg Hat Ht Hroom; cbn [length load_segments_loop] in *.
  { exists s. split_and!; try done; [apply keeps_refl|simpl; lia]. }
  unfold sizeof_phdr. rewrite u32_small by lia.
  pose proof (Hat 0%nat ph eq_refl) as Hp0. replace ((i + Z.of_nat 0) * 32) with (i * 32) in Hp0 by lia.
  assert (∃ s1 off1, load_segment task (fv_file f) (segments + i * 32) s = Ret None s1 ∧
    initrd_file read_address s1 f off1 ∧ keeps loader_kept s s1 ∧
    um_room s - pages_of (ph :: phs) + pages_of phs ≤ um_room s1 ∧
    task_begins s1 (if loads ph && (ph_flags ph =? PF_RX) then ph_vaddr ph else text)
      (if loads ph && (ph_flags ph =? PF_RW) then ph_vaddr ph else data) ∧
    ∀ b v, b < KERNEL_VIRTUAL_OFFSET → load_over s f (get8 s) ph b = Some v → get8 s1 b = Some v)
    as (s1 & off1 & R1 & Hf1 & K1 & Hr1 & T1 & G1).
  { cbn [pages_of foldr] in Hroom |- *. fold (pages_of phs) in Hroom |- *.
    assert (0 ≤ pages_of phs) as Hp by (by apply pages_of_pos).
    destruct (loads ph) eqn:Hl; cbn [andb].
    - destruct (load_segment_ok s off (segments + i * 32) ph text data) as (s1 & R1 & Hf1 & K1 & Hr1 & T1 & G1);
        try done; [lia|lia| |lia|].
      + intros b Hb. apply Hseg. lia.
      + exists s1, (ph_offset ph + ph_filesz ph). split_and!; try done. lia.
    - exists s, off. split_and!; try done; [|apply keeps_refl|lia|].
      + unfold load_segment, p_type. destruct Hp0 as [P1 _]. run (rd32_Ret _ _ _ P1). unfold loads in Hl. by rewrite Hl.
      + intros b v _. unfold load_over. by rewrite Hl. }
  run R1.
  edestruct (IH s1 off1 (i + 1)) as (s2 & R2 & K2 & U2 & T2 & G2); [exact Hf1|lia|done|lia| | |exact T1|lia|].
  - intros b Hb. apply Hseg. lia.
  - intros k ph' Hph'. pose proof (Hat (Datatypes.S k) ph' Hph') as Hp.
    replace (segments + (i + 1 + Z.of_nat k) * 32) with (segments + (i + Z.of_nat (Datatypes.S k)) * 32) by lia.
    eapply phdr_at_keeps; [exact K1| |exact Hp]. intros b Hb. apply Hseg. apply lookup_lt_Some in Hph'. lia.
  - exists s2. split_and!; [exact R2|by eapply keeps_trans|lia|exact T2|]. intros b v Hb Hv. apply G2; [done|].
    unfold image in *. cbn [fold_left] in Hv. eapply image_mono; [|done| |exact Hv].
    + by eapply file_data_kept.
    + intros w. by apply G1.
Qed.

(** *** The headers *)

Variable elf_header_buf : Z.

(** A local array of [n] bytes, apart from the file and the task. *)
Definition local_array s (a n : Z) : Prop :=
  KERNEL_VIRTUAL_OFFSET ≤ a ∧ a + n < 2 ^ 32 ∧ mapped s a n ∧
  ∀ b, a ≤ b < a + n → ¬ file_area f b ∧ ¬ task ≤ b < task + 92.

(** The task lies apart from it and from the file's position. *)
Lemma task_apart s a n : kernel_layout → local_array s a n →
  ∀ b, task ≤ b < task + 92 → ¬ fv_file f + 4 ≤ b < fv_file f + 8 ∧ ¬ a ≤ b < a + n.
Proof.
  intros (_ & _ & Hk3) (_ & _ & _ & L4) b Hb.
  split; intros Hc; [destruct (Hk3 b) as [_ Hx]; [unfold file_area; lia|done]|by destruct (L4 b Hc)].
Qed.

(** The bytes of an ELF header. *)
Definition header_at s (a : Z) (h : Z → Z) : Prop := ∀ k, 0 ≤ k < ELF_HEADER_SIZE → get8 s (a + k) = Some (h k).

Definition half (h : Z → Z) (k : Z) : Z := h k + 256 * h (k + 1).

Definition elf_magic (h : Z → Z) : bool :=
  (h 0 =? ELFMAG0) && (h 1 =? ELFMAG1) && (h 2 =? ELFMAG2) && (h 3 =? ELFMAG3).

Definition elf_supported (h : Z → Z) : bool :=
  (h 4 =? ELFCLASS32) && (h 5 =? ELFDATA2LSB) && (half h 18 =? EM_386) && (h 6 =? EV_CURRENT) &&
  ((half h 16 =? ET_REL) || (half h 16 =? ET_EXEC)).

Section header.
Variables (s : S) (a : Z) (h : Z → Z).
Hypothesis Ha : 0 < a ∧ a + ELF_HEADER_SIZE < 2 ^ 32.
Hypothesis Hh : header_at s a h.

Lemma header_rd8 k : 0 ≤ k < ELF_HEADER_SIZE → rd8 (u32 (a + k)) s = Ret (h k) s.
Proof. intros Hk. rewrite u32_small by lia. apply rd8_Ret. by apply Hh. Qed.

Lemma header_rd16 k : 0 ≤ k → k + 1 < ELF_HEADER_SIZE → rd16 (u32 (a + k)) s = Ret (half h k) s.
Proof.
  intros Hk Hk'. unfold rd16. run (header_rd8 k ltac:(lia)). rewrite (u32_small (a + k)) by lia.
  replace (a + k + 1) with (a + (k + 1)) by lia. by run (header_rd8 (k + 1) ltac:(lia)).
Qed.

Lemma check_elf_header_ok : check_elf_header a s = Ret (if elf_magic h then SUCCESS else INVALID_ARGUMENT) s.
Proof.
  unfold check_elf_header, e_ident, elf_magic. rewrite (proj2 (Z.eqb_neq a NULL)) by (unfold NULL; lia).
  run (header_rd8 0 ltac:(done)). destruct (h 0 =? ELFMAG0); [|done]. cbn [negb andb].
  run (header_rd8 1 ltac:(done)). destruct (h 1 =? ELFMAG1); [|done]. cbn [negb andb].
  run (header_rd8 2 ltac:(done)). destruct (h 2 =? ELFMAG2); [|done]. cbn [negb andb].
  run (header_rd8 3 ltac:(done)). by destruct (h 3 =? ELFMAG3).
Qed.

Lemma check_elf_supported_ok :
  check_elf_supported a s = Ret (if elf_supported h then SUCCESS else INVALID_ARGUMENT) s.
Proof.
  unfold check_elf_supported, e_ident, e_machine, e_type, elf_supported, EI_CLASS, EI_DATA, EI_VERSION.
  run (header_rd8 4 ltac:(done)). destruct (h 4 =? ELFCLASS32); [|done]. cbn [negb andb].
  run (header_rd8 5 ltac:(done)). destruct (h 5 =? ELFDATA2LSB); [|done]. cbn [negb andb].
  run (header_rd16 18 ltac:(done) ltac:(done)). destruct (half h 18 =? EM_386); [|done]. cbn [negb andb].
  run (header_rd8 6 ltac:(done)). destruct (h 6 =? EV_CURRENT); [|done]. cbn [negb andb].
  run (header_rd16 16 ltac:(done) ltac:(done)). by destruct (half h 16 =? ET_REL), (half h 16 =? ET_EXEC).
Qed.
End header.

(** Reading at position [off] into a local array. *)
Lemma read_local_ok s off a n :
  kernel_layout → initrd_file read_address s f off → local_array s a n → 0 ≤ n → off + n ≤ fv_size f →
  ∃ s', file_read (fv_file f) a n s = Ret n s' ∧ initrd_file read_address s' f (off + n) ∧ stores s s' ∧
    (∀ k, 0 ≤ k < n → get8 s' (a + k) = get8 s (fv_data f + off + k)) ∧
    keeps (λ b, ¬ fv_file f + 4 ≤ b < fv_file f + 8 ∧ ¬ a ≤ b < a + n) s s'.
Proof.
  intros Hk Hf (Ha1 & Ha2 & Hm & Hap) Hn Ho. unfold KERNEL_VIRTUAL_OFFSET in *.
  destruct (file_read_ok read_address sfuel open_address close_address s f off n a Hf) as (s' & E & Hf' & St & G).
  - lia.
  - lia.
  - lia.
  - eapply mapped_sub; [done|lia|lia].
  - intros b Hb. apply Hap. lia.
  - rewrite Z.min_l in E, Hf', G by lia. exists s'. split_and!; [done|done|done| |].
    + intros k Hk'. destruct (Hap (a + k)) as [Hn' _]; [lia|]. unfold file_area in Hn'.
      rewrite G, decide_True by lia. f_equal. lia.
    + intros b v [Hb1 Hb2] Eb. by rewrite G, decide_False.
Qed.

(** *** The program header table *)

Lemma get32_moved s s' a a' : (∀ j, 0 ≤ j < 4 → get8 s' (a' + j) = get8 s (a + j)) → get32 s' a' = get32 s a.
Proof.
  intros Hm. unfold get32. pose proof (Hm 0 ltac:(lia)) as H0'. rewrite !Z.add_0_r in H0'.
  by rewrite H0', (Hm 1), (Hm 2), (Hm 3) by lia.
Qed.

Lemma phdr_at_moved s s' a a' ph : (∀ j, 0 ≤ j < 32 → get8 s' (a' + j) = get8 s (a + j)) →
  phdr_at s a ph → phdr_at s' a' ph.
Proof.
  intros Hm (P1 & P2 & P3 & P4 & P5 & P6).
  assert (∀ k v, 0 ≤ k → k + 4 ≤ 32 → get32 s (a + k) = Some v → get32 s' (a' + k) = Some v) as Hw.
  { intros k v Hk Hk' E. rewrite <-E. apply get32_moved. intros j Hj.
    replace (a' + k + j) with (a' + (k + j)) by lia. rewrite Hm by lia. f_equal. lia. }
  split_and!; try (by apply Hw). specialize (Hw 0). rewrite !Z.add_0_r in Hw. by apply Hw.
Qed.

(** An executable file whose program headers are [phs]. *)
Record executable s (h : Z → Z) (phs : list phdr) : Prop := {
  ex_header : header_at s (fv_data f) h;
  ex_kind : elf_magic h && elf_supported h = true ∧ half h 16 = ET_EXEC;
  ex_phnum : half h 44 = Z.of_nat (length phs) ∧ (0 < length phs)%nat;
  ex_table : ∃ phoff, get32 s (fv_data f + 28) = Some phoff ∧
    phoff + 32 * Z.of_nat (length phs) ≤ fv_size f ∧
    ∀ k ph, phs !! k = Some ph → phdr_at s (fv_data f + phoff + 32 * Z.of_nat k) ph;
  ex_size : ELF_HEADER_SIZE ≤ fv_size f
}.

Definition table_size (phs : list phdr) : Z := 32 * Z.of_nat (length phs).

(** The table is read into the array [segments]. *)
Lemma load_table_ok s off h phs :
  kernel_layout → initrd_file read_address s f off → executable s h phs →
  header_at s elf_header_buf h → 0 < elf_header_buf ∧ elf_header_buf + ELF_HEADER_SIZE < 2 ^ 32 →
  local_array s segments (table_size phs) →
  ∃ s' off', load_program_header_table (fv_file f) elf_header_buf segments (Z.of_nat (length phs)) s
      = Ret (table_size phs) s' ∧ initrd_file read_address s' f off' ∧ stores s s' ∧
    (∀ k ph, phs !! k = Some ph → phdr_at s' (segments + Z.of_nat k * 32) ph) ∧
    keeps (λ b, ¬ fv_file f + 4 ≤ b < fv_file f + 8 ∧ ¬ segments ≤ b < segments + table_size phs) s s'.
Proof.
  intros Hk Hf [Hh _ [Hn Hn0] (phoff & Eoff & Hps & Hat) Hsz] Hhb Hb Hloc. unfold table_size in *.
  assert (get32 s (elf_header_buf + 28) = Some phoff) as Eoff'.
  { rewrite <-Eoff. apply get32_moved. intros j Hj. rewrite <-!Z.add_assoc.
    by rewrite Hhb, Hh by (unfold ELF_HEADER_SIZE; lia). }
  pose proof (get32_range _ _ _ Eoff). pose proof Hf as [_ Hfsz _ _ _ _ _].
  destruct (file_seek_set_ok read_address s f off phoff Hf) as (s1 & E1 & Hf1 & B1 & St1); [lia|].
  assert (local_array s1 segments (32 * Z.of_nat (length phs))) as Hloc1.
  { destruct Hloc as (L1 & L2 & L3 & L4). split_and!; try done. intros b Hb'. rewrite B1; [by apply L3|].
    intros Hc. destruct (L4 b Hb') as [Hx _]. apply Hx. unfold file_area. lia. }
  destruct (read_local_ok s1 phoff segments (32 * Z.of_nat (length phs)) Hk Hf1 Hloc1) as (s2 & E2 & Hf2 & St2 & G2 & K2); [lia|lia|].
  exists s2, (phoff + 32 * Z.of_nat (length phs)). split_and!; [|done|unfold stores; by etransitivity| |].
  - unfold load_program_header_table, e_phoff. rewrite (u32_small (elf_header_buf + 28)) by (unfold ELF_HEADER_SIZE in *; lia).
    run (rd32_Ret _ _ _ Eoff'). rewrite i32_small by lia. run E1. unfold sizeof_phdr.
    destruct Hloc as (L1 & L2 & _). unfold KERNEL_VIRTUAL_OFFSET in *. rewrite u32_small by lia.
    by rewrite Z.mul_comm.
  - intros k ph Hph. pose proof (lookup_lt_Some _ _ _ Hph). eapply phdr_at_moved; [|by apply Hat]. intros j Hj.
    replace (segments + Z.of_nat k * 32 + j) with (segments + (32 * Z.of_nat k + j)) by lia.
    rewrite G2 by lia. destruct Hf as [_ _ _ _ _ _ Ha].
    rewrite B1 by (intros Hc; destruct (Ha (fv_data f + phoff + (32 * Z.of_nat k + j))) as (_ & _ & Hx); lia).
    f_equal. lia.
  - eapply keeps_trans; [eapply keeps_same_but; [exact B1|simpl; lia]|exact K2].
Qed.

Lemma load_segments_ok s off h phs text data :
  kernel_layout → initrd_file read_address s f off → executable s h phs → Forall (segment_ok f) phs →
  header_at s elf_header_buf h → 0 < elf_header_buf ∧ elf_header_buf + ELF_HEADER_SIZE < 2 ^ 32 →
  local_array s segments (table_size phs) → task_begins s text data → pages_of phs ≤ um_room s →
  ∃ s', load_segments segments task elf_header_buf (fv_file f) s = Ret SUCCESS s' ∧
    keeps (λ b, loader_kept b ∧ ¬ segments ≤ b < segments + table_size phs) s s' ∧
    um_room s - pages_of phs ≤ um_room s' ∧
    task_begins s' (begin_of PF_RX phs text) (begin_of PF_RW phs data) ∧
    ∀ b v, b < KERNEL_VIRTUAL_OFFSET → image s f phs b = Some v → get8 s' b = Some v.
Proof.
  intros Hk Hf Hex Hsg Hhb Hb Hloc Ht Hroom. pose proof Hex as [_ _ [Hn Hn0] _ _]. pose proof Hk as (Hk1 & Hk2 & Hk3).
  destruct (load_table_ok s off h phs Hk Hf Hex Hhb Hb Hloc) as (s1 & off1 & E1 & Hf1 & St1 & P1 & K1).
  pose proof Hloc as (L1 & L2 & L3 & L4). unfold table_size in *.
  assert (KERNEL_VIRTUAL_OFFSET ≤ fv_file f) as Hfk by (apply Hk3; unfold file_area; lia).
  assert (task_begins s1 text data) as Ht1.
  { eapply task_begins_keeps; [exact K1|by apply (task_apart s)|done]. }
  destruct (load_segments_loop_ok phs s1 off1 0 text data Hk Hf1 Hsg) as (s2 & E2 & K2 & U2 & T2 & G2).
  - done.
  - unfold KERNEL_VIRTUAL_OFFSET in *. lia.
  - lia.
  - intros b Hb'. destruct (L4 b) as [Lf Lt]; [lia|]. split; [split; [lia|]|lia]. intros Hc. apply Lf. unfold file_area. lia.
  - exact P1.
  - exact Ht1.
  - by rewrite (um_room_stores _ _ St1).
  - exists s2. split_and!; [|eapply keeps_trans|by rewrite <-(um_room_stores _ _ St1)|exact T2|].
    + unfold load_segments, e_phnum. run (header_rd16 s elf_header_buf h Hb Hhb 44 ltac:(done) ltac:(done)). rewrite Hn. run E1.
      rewrite (proj2 (Z.eqb_neq _ 0)) by lia. by rewrite Nat2Z.id.
    + eapply keeps_weaken; [exact K1|]. intros b [[[_ Hb1] _] Hb2]. done.
    + eapply keeps_weaken; [exact K2|]. by intros b [Hb1 _].
    + intros b v Hb' Hv. apply G2; [done|]. eapply image_mono; [|done| |exact Hv].
      * eapply keeps_weaken; [exact K1|]. intros c Hc. split.
        -- intros Hx. destruct Hf as [_ _ _ _ _ _ Ha]. destruct (Ha c Hx) as (_ & _ & Hy). lia.
        -- intros Hx. destruct (L4 c Hx) as [Hy _]. apply Hy. unfold file_area. tauto.
      * intros w. apply K1. lia.
Qed.

(** A segment without bytes in the file cannot be loaded. *)
Lemma load_segment_empty s off seg ph :
  kernel_layout → initrd_file read_address s f off → loads ph = true → ph_filesz ph = 0 →
  0 < ph_vaddr ph < 2 ^ 32 → 0 ≤ ph_offset ph < fv_size f →
  ph_vaddr ph mod 4096 = 0 → 0 < segment_pages ph ≤ um_room s → ph_vaddr ph + 4096 * segment_pages ph < KERNEL_VIRTUAL_OFFSET →
  0 ≤ seg → seg + 32 < 2 ^ 32 → phdr_at s seg ph →
  ∃ s', load_segment task (fv_file f) seg s = Ret (Some FAILURE) s' ∧
    keeps (λ b, ¬ fv_file f + 4 ≤ b < fv_file f + 8) s s'.
Proof.
  intros Hk Hf Hl Hz Hv Ho Hva Hroom Hve Hs0 Hs1 (P1 & P2 & P3 & P4 & P5 & P6).
  destruct (um_success s (ph_vaddr ph) (segment_pages ph)) as (s1 & E1 & _); [lia|done|lia|done|lia|]. assert (keeps (λ _, True) s s1) as K1 by (intros b v _; by eapply um_kept).
  assert (initrd_file read_address s1 f off) as Hf1 by (eapply initrd_file_ext; [done|by eapply keeps_weaken]).
  destruct (file_seek_set_ok read_address s1 f off (ph_offset ph) Hf1 Ho) as (s2 & E2 & Hf2 & B2 & _).
  pose proof Hf as [_ Hfsz _ _ _ _ _].
  destruct (file_read_ok read_address sfuel open_address close_address s2 f (ph_offset ph) 0 (ph_vaddr ph) Hf2)
    as (s3 & E3 & _ & _ & G3); [lia|lia|lia|intros b Hb; lia|intros b Hb; lia|].
  rewrite Z.min_l in E3, G3 by lia. exists s3. split.
  - unfold load_segment, p_type, p_offset, p_vaddr, p_filesz, p_memsz. rewrite !u32_small by lia.
    run (rd32_Ret _ _ _ P1). unfold loads in Hl. rewrite Hl. run (rd32_Ret _ _ _ P5). run (rd32_Ret _ _ _ P4).
    run (rd32_Ret _ _ _ P3). fold (segment_pages ph). run E1. rewrite bool_decide_true by done. cbn [negb].
    assert (get32 s1 (seg + 4) = Some (ph_offset ph)) as P2' by (by eapply keeps_get32).
    run (rd32_Ret _ _ _ P2'). rewrite i32_small by lia. run E2. rewrite Hz. by run E3.
  - intros b v Hb Eb. rewrite G3 by done. rewrite decide_False by lia. rewrite B2 by lia. by apply K1.
Qed.
Lemma load_segments_empty s off h ph phs :
  kernel_layout → initrd_file read_address s f off → executable s h (ph :: phs) →
  header_at s elf_header_buf h → 0 < elf_header_buf ∧ elf_header_buf + ELF_HEADER_SIZE < 2 ^ 32 →
  local_array s segments (table_size (ph :: phs)) →
  loads ph = true → ph_filesz ph = 0 → 0 < ph_vaddr ph < 2 ^ 32 → 0 ≤ ph_offset ph < fv_size f →
  ph_vaddr ph mod 4096 = 0 → 0 < segment_pages ph ≤ um_room s → ph_vaddr ph + 4096 * segment_pages ph < KERNEL_VIRTUAL_OFFSET →
  ∃ s', load_segments segments task elf_header_buf (fv_file f) s = Ret FAILURE s' ∧
    keeps (λ b, ¬ fv_file f + 4 ≤ b < fv_file f + 8 ∧ ¬ segments ≤ b < segments + table_size (ph :: phs)) s s'.
Proof.
  intros Hk Hf Hex Hhb Hb Hls Hl Hz Hv Ho Hva Hroom Hve. pose proof Hex as [_ _ [Hn _] _ _].
  destruct (load_table_ok s off h (ph :: phs)) as (s4 & off4 & E4 & Hf4 & St4 & P4 & K4); [done..|].
  pose proof Hls as (L1 & L2 & _). unfold table_size, KERNEL_VIRTUAL_OFFSET in *. cbn [length] in *.
  destruct (load_segment_empty s4 off4 segments ph) as (s5 & E5 & K5); [done..|by rewrite (um_room_stores _ _ St4)|done|lia|lia| |].
  { pose proof (P4 0%nat ph eq_refl) as P0. by rewrite Z.add_0_r in P0. }
  exists s5. split.
  - unfold load_segments, e_phnum. run (header_rd16 s elf_header_buf h Hb Hhb 44 ltac:(done) ltac:(done)).
    rewrite Hn. run E4. rewrite (proj2 (Z.eqb_neq _ 0)), Nat2Z.id by lia. cbn [load_segments_loop].
    rewrite Z.mul_0_l, Z.add_0_r, u32_small by lia. by run E5.
  - eapply keeps_trans; [exact K4|]. eapply keeps_weaken; [exact K5|]. by intros b [Hb1 _].
Qed.

(** *** The whole loader *)

Variable possible_modes : list Z.
Variable mode_buf : Z.
Variable vfs_open : Z → M S Z.
Variable r_literal : Z.

Abbreviation the_file_opens s s1 :=
  (file_open sfuel possible_modes mode_buf vfs_open (task_name task) r_literal s = Ret (fv_file f) s1).
Abbreviation the_load_elf := (load_elf sfuel possible_modes mode_buf vfs_open r_literal elf_header_buf segments task).

(** Up to the decision what to do with the file. *)
Lemma load_elf_begins s s1 h :
  kernel_layout → the_file_opens s s1 → initrd_file read_address s1 f 0 → ELF_HEADER_SIZE ≤ fv_size f →
  header_at s1 (fv_data f) h → local_array s1 elf_header_buf ELF_HEADER_SIZE →
  ∃ s3, the_load_elf s =
      (if elf_magic h && elf_supported h then
         if half h 16 =? ET_EXEC
         then (load_segments segments task elf_header_buf (fv_file f) ;; mret SUCCESS) s3 else Ret SUCCESS s3
       else Ret FAILURE s3) ∧
    initrd_file read_address s3 f ELF_HEADER_SIZE ∧ header_at s3 elf_header_buf h ∧ stores s1 s3 ∧
    keeps (λ b, ¬ fv_file f + 4 ≤ b < fv_file f + 8 ∧
                ¬ elf_header_buf ≤ b < elf_header_buf + ELF_HEADER_SIZE) s1 s3.
Proof.
  intros Hk Eo Hf Hsz Hh Hloc. pose proof Hloc as (L1 & L2 & L3 & L4). pose proof Hk as (Hk1 & Hk2 & Hk3).
  destruct (memset_ok s1 0 elf_header_buf ELF_HEADER_SIZE) as (s2 & E2 & F2); [done|done|].
  assert (keeps (λ b, ¬ elf_header_buf ≤ b < elf_header_buf + ELF_HEADER_SIZE) s1 s2) as K2.
  { intros b v Hb Eb. by rewrite F2, decide_False. }
  assert (keeps (file_area f) s1 s2) as K2f.
  { eapply keeps_weaken; [exact K2|]. intros b Hb Hc. by destruct (L4 b Hc). }
  assert (initrd_file read_address s2 f 0) as Hf2 by (by eapply initrd_file_ext).
  destruct (read_local_ok s2 0 elf_header_buf ELF_HEADER_SIZE Hk Hf2) as (s3 & E3 & Hf3 & St3 & G3 & K3).
  - split_and!; try done. by eapply filled_mapped.
  - done.
  - lia.
  - assert (header_at s3 elf_header_buf h) as Hh3.
    { intros k Hk'. rewrite G3, Z.add_0_r by done. apply K2f; [unfold file_area; unfold ELF_HEADER_SIZE in *; lia|by apply Hh]. }
    assert (0 < elf_header_buf ∧ elf_header_buf + ELF_HEADER_SIZE < 2 ^ 32) as Hhb by (unfold KERNEL_VIRTUAL_OFFSET in *; lia).
    exists s3. split_and!; [|exact Hf3|exact Hh3|unfold stores; etransitivity; [by eapply memset_stores|exact St3]|].
    + unfold load_elf. unfold KERNEL_VIRTUAL_OFFSET in *. rewrite (proj2 (Z.eqb_neq task NULL)) by (unfold NULL; lia). run Eo.
      destruct Hf as [(Hfl & _) _ _ _ _ _ _]. rewrite (proj2 (Z.eqb_neq (fv_file f) NULL)) by (unfold NULL; lia).
      run E2. run E3. change (ELF_HEADER_SIZE =? 0) with false. cbv iota.
      run (check_elf_header_ok s3 elf_header_buf h Hhb Hh3). destruct (elf_magic h); [|done]. rewrite bool_decide_true by done. cbn [negb andb].
      run (check_elf_supported_ok s3 elf_header_buf h Hhb Hh3). destruct (elf_supported h); [|done]. rewrite bool_decide_true by done.
      cbn [negb]. run (header_rd16 s3 elf_header_buf h Hhb Hh3 16 ltac:(done) ltac:(done)).
      by destruct (half h 16 =? ET_EXEC).
    + eapply keeps_trans; [eapply keeps_weaken; [exact K2|]|eapply keeps_weaken; [exact K3|]]; by intros b [? ?].
Qed.

Lemma executable_kept s s' h phs : keeps (λ b, fv_data f ≤ b < fv_data f + fv_size f) s s' →
  executable s h phs → executable s' h phs.
Proof.
  intros Hk [Hh Hkd Hn (phoff & Eo & Hps & Hat) Hsz].
  assert (∀ k, 0 ≤ k → k + 4 ≤ ELF_HEADER_SIZE → ∀ b, fv_data f + k ≤ b < fv_data f + k + 4 →
    fv_data f ≤ b < fv_data f + fv_size f) as Hin by (intros; lia).
  split; try done.
  - intros k Hk'. apply Hk; [lia|by apply Hh].
  - exists phoff. split_and!; [|done|].
    + eapply keeps_get32; [exact Hk|apply Hin; done|done].
    + intros k ph Hph. pose proof (lookup_lt_Some _ _ _ Hph). pose proof (get32_range _ _ _ Eo).
      eapply phdr_at_keeps; [exact Hk| |by apply Hat]. intros b Hb. cbv beta. lia.
Qed.

(** What reading the header keeps. *)
Lemma header_read_keeps s s3 n :
  kernel_layout → initrd_file read_address s f 0 → local_array s elf_header_buf ELF_HEADER_SIZE →
  local_array s segments n → elf_header_buf + ELF_HEADER_SIZE ≤ segments ∨ segments + n ≤ elf_header_buf →
  keeps (λ b, ¬ fv_file f + 4 ≤ b < fv_file f + 8 ∧
              ¬ elf_header_buf ≤ b < elf_header_buf + ELF_HEADER_SIZE) s s3 →
  keeps (λ b, fv_data f ≤ b < fv_data f + fv_size f) s s3 ∧ local_array s3 segments n ∧
  (∀ text data, task_begins s text data → task_begins s3 text data) ∧ keeps (λ b, b < KERNEL_VIRTUAL_OFFSET) s s3.
Proof.
  intros Hk [_ _ _ _ _ _ Ha] Hlh (N1 & N2 & N3 & N4) Hap K.
  pose proof Hlh as (L1 & _ & _ & L4). pose proof Hk as (Hk1 & Hk2 & Hk3).
  assert (∀ b, fv_file f + 4 ≤ b < fv_file f + 8 → file_area f b) as Hpos by (intros; unfold file_area; lia).
  split_and!.
  - eapply keeps_weaken; [exact K|]. intros b Hb. split.
    + intros Hc. by destruct (Ha b Hc) as (_ & _ & Hx).
    + intros Hc. destruct (L4 b Hc) as [Hx _]. apply Hx. unfold file_area. tauto.
  - split_and!; try done. eapply keeps_mapped; [exact K| |exact N3]. intros b Hb. split; [|lia].
    intros Hc. destruct (N4 b Hb) as [Hx _]. auto.
  - intros text data. eapply task_begins_keeps; [exact K|]. by apply (task_apart s).
  - eapply keeps_weaken; [exact K|]. intros b Hb. split; [|lia]. intros Hc. destruct (Hk3 b (Hpos b Hc)). lia.
Qed.

End loading.

(** ** Properties *)

Section elf_properties.
Context {S : Type} `{ByteStoreLaws S, !Allocator S, !UserMemory S, !UserMemoryLaws S}.
Implicit Types s : S.
Variables (sfuel : nat) (open_address read_address close_address : Z).
Abbreviation rd := (ramdisk sfuel open_address read_address close_address).

Variables (possible_modes : list Z) (mode_buf : Z) (vfs_open : Z → M S Z) (r_literal elf_header_buf segments : Z).

(** The file is opened at its beginning, and the loader's two local arrays
    lie apart from everything else. *)
Record loader_setting (task : Z) (f : file_view) (n : Z) s s1 : Prop := {
  ls_layout : kernel_layout f task;
  ls_open : file_open sfuel possible_modes mode_buf vfs_open (task_name task) r_literal s = Ret (fv_file f) s1;
  ls_file : initrd_file read_address s1 f 0;
  ls_size : ELF_HEADER_SIZE ≤ fv_size f;
  ls_header : local_array f task s1 elf_header_buf ELF_HEADER_SIZE;
  ls_segments : local_array f task s1 segments n;
  ls_apart : elf_header_buf + ELF_HEADER_SIZE ≤ segments ∨ segments + n ≤ elf_header_buf
}.

Abbreviation the_load_elf task :=
  (@load_elf S _ _ rd _ sfuel possible_modes mode_buf vfs_open r_literal elf_header_buf segments task).

Lemma load_elf_ok task f h phs s s1 text data :
  loader_setting task f (table_size phs) s s1 → executable f s1 h phs → Forall (segment_ok f) phs →
  task_begins task s1 text data → pages_of phs ≤ um_room s1 →
  ∃ s', the_load_elf task s = Ret SUCCESS s' ∧
    um_room s1 - pages_of phs ≤ um_room s' ∧
    task_begins task s' (begin_of PF_RX phs text) (begin_of PF_RW phs data) ∧
    (∀ b v, b < KERNEL_VIRTUAL_OFFSET → image s1 f phs b = Some v → get8 s' b = Some v) ∧
    keeps (λ b, loader_kept f task b ∧ ¬ segments ≤ b < segments + table_size phs ∧
                ¬ elf_header_buf ≤ b < elf_header_buf + ELF_HEADER_SIZE) s1 s'.
Proof.
  intros [Hk Eo Hf Hsz Hlh Hls Hap] Hex Hsg Ht Hroom. pose proof Hex as [Hh [Hkind Hexec] _ _ _].
  destruct (load_elf_begins sfuel open_address read_address close_address f task segments elf_header_buf possible_modes
    mode_buf vfs_open r_literal s s1 h) as (s3 & E & Hf3 & Hh3 & St3 & K3); [done..|].
  rewrite Hkind, Hexec in E. change (ET_EXEC =? ET_EXEC) with true in E. cbv iota in E.
  destruct (header_read_keeps open_address read_address f task segments elf_header_buf vfs_open s1 s3 (table_size phs)) as (Kd & Hls3 & Ht3 & Ku); try done.
  pose proof (executable_kept f s1 s3 h phs Kd Hex) as Hex3.
  destruct (load_segments_ok sfuel open_address read_address close_address f task segments elf_header_buf s3
    ELF_HEADER_SIZE h phs text data) as (s4 & E4 & K4 & U4 & T4 & G4); try done; [|by apply Ht3|by rewrite (um_room_stores _ _ St3)|].
  { destruct Hlh as (L1 & L2 & _). unfold KERNEL_VIRTUAL_OFFSET in *. lia. }
  exists s4. split_and!; [|by rewrite <-(um_room_stores _ _ St3)|done| |].
  - rewrite E. by run E4.
  - intros b v Hb Hv. apply G4; [done|]. eapply image_mono; [exact Kd|exact Hsg| |exact Hv]. intros w. by apply Ku.
  - eapply keeps_trans; [eapply keeps_weaken; [exact K3|]|eapply keeps_weaken; [exact K4|]].
    + by intros b (([? ?] & _) & _ & ?).
    + by intros b (? & ? & _).
Qed.

(** [load_elf] of an executable in the ramdisk, any number of segments:
    user memory holds the segments' bytes from the file, the rest of their
    pages cleared, later segments over earlier ones, and what was mapped
    outside of them is kept; the task gets the beginnings of its text and
    data, and the kernel's memory is kept but for the loader's two arrays
    and the file's position. *)
Theorem load_elf_spec task f h phs s s1 text data :
  loader_setting task f (table_size phs) s s1 → executable f s1 h phs → Forall (segment_ok f) phs →
  task_begins task s1 text data → pages_of phs ≤ um_room s1 →
  ∃ s', the_load_elf task s = Ret SUCCESS s' ∧
    task_begins task s' (begin_of PF_RX phs text) (begin_of PF_RW phs data) ∧
    (∀ b v, b < KERNEL_VIRTUAL_OFFSET → image s1 f phs b = Some v → get8 s' b = Some v) ∧
    keeps (λ b, loader_kept f task b ∧ ¬ segments ≤ b < segments + table_size phs ∧
                ¬ elf_header_buf ≤ b < elf_header_buf + ELF_HEADER_SIZE) s1 s'.
Proof.
  intros Hs Hex Hsg Ht Hroom.
  destruct (load_elf_ok task f h phs s s1 text data Hs Hex Hsg Ht Hroom) as (s' & E & _ & HT & HI & HK). by exists s'.
Qed.


(** [load_elf] ignores what [load_segments] returns: when the first
    loadable segment has no bytes in the file (only zero-initialised data),
    no segment is loaded and the task's text is not set, but the result is
    [SUCCESS]. *)
Theorem load_elf_ignores_failure task f h ph phs s s1 text data :
  loader_setting task f (table_size (ph :: phs)) s s1 → executable f s1 h (ph :: phs) →
  loads ph = true → ph_filesz ph = 0 → 0 < ph_vaddr ph < 2 ^ 32 → 0 ≤ ph_offset ph < fv_size f →
  ph_vaddr ph mod 4096 = 0 → 0 < segment_pages ph ≤ um_room s1 → ph_vaddr ph + 4096 * segment_pages ph < KERNEL_VIRTUAL_OFFSET →
  task_begins task s1 text data →
  ∃ s', the_load_elf task s = Ret SUCCESS s' ∧ task_begins task s' text data ∧
    keeps (λ b, b < KERNEL_VIRTUAL_OFFSET) s1 s'.
Proof.
  intros [Hk Eo Hf Hsz Hlh Hls Hap] Hex Hl Hz Hv Ho Hva Hroom Hve Ht. pose proof Hex as [Hh [Hkind Hexec] [Hn _] _ _].
  destruct (load_elf_begins sfuel open_address read_address close_address f task segments elf_header_buf possible_modes
    mode_buf vfs_open r_literal s s1 h) as (s3 & E & Hf3 & Hh3 & St3 & K3); [done..|].
  rewrite Hkind, Hexec in E. change (ET_EXEC =? ET_EXEC) with true in E. cbv iota in E.
  destruct (header_read_keeps open_address read_address f task segments elf_header_buf vfs_open s1 s3 (table_size (ph :: phs)))
    as (Kd & Hls3 & Ht3 & Ku); try done.
  pose proof (executable_kept f s1 s3 h _ Kd Hex) as Hex3.
  destruct (load_segments_empty sfuel open_address read_address close_address f task segments elf_header_buf s3
    ELF_HEADER_SIZE h ph phs) as (s4 & E4 & K4); try done; [|by rewrite (um_room_stores _ _ St3)|].
  { destruct Hlh as (L1 & L2 & _). unfold KERNEL_VIRTUAL_OFFSET in *. lia. }
  exists s4. split_and!.
  - rewrite E. by run E4.
  - eapply task_begins_keeps; [exact K4|by apply (task_apart f task s1)|by apply Ht3].
  - destruct Hk as (Hk1 & _ & Hk3). destruct Hls as (L1 & _).
    assert (KERNEL_VIRTUAL_OFFSET ≤ fv_file f) as Hfk by (apply Hk3; unfold file_area; lia).
    eapply keeps_trans; [exact Ku|]. eapply keeps_weaken; [exact K4|]. intros b Hb. cbv beta. lia.
Qed.
End elf_properties.

(** ** Witnesses *)

(** User memory grows as far as it is asked to. *)
#[export] Instance arena_user_memory : UserMemory arena := {
  um_mmap va n s :=
    if bool_decide (0 ≤ va ∧ 0 ≤ n)
    then Ret SUCCESS (Arena (CArray (asize (ar_mem s) `max` (va + 4096 * n)) (adata (ar_mem s))) (ar_next s))
    else Ret INVALID_ARGUMENT s
}.

#[export] Instance arena_user_memory_laws : UserMemoryLaws arena.
Proof.
  refine {| um_room := λ _, 2 ^ 20 |}; [done| |intros s va n s'|intros s va n s' b v]; simpl.
  - intros s va n ? _ ? _ _. rewrite bool_decide_true by lia. eexists. split; [reflexivity|lia].
  - case_bool_decide as Hc; [|done]. intros [= <-] _ _ b Hb. unfold get8, arena_store, carray_store. simpl.
    rewrite decide_True by lia. eauto.
  - case_bool_decide; [|done]. intros [= <-]. unfold get8, arena_store, carray_store. simpl.
    case_decide; [|done]. by rewrite decide_True by lia.
Defined.

(** Three files of 87 bytes: the header, one segment of text, three bytes of
    code; a segment of eight bytes not in the file; a relocatable file. *)
Inductive example := Text | Bss | Relocatable.
Definition ex_type (e : example) : Z := match e with Relocatable => ET_REL | _ => ET_EXEC end.
Definition ex_filesz (e : example) : Z := match e with Bss => 0 | _ => 3 end.

Definition example_program (e : example) : list Z :=
  [0x7F; 69; 76; 70; 1; 1; 1; 0; 0; 0; 0; 0; 0; 0; 0; 0;
   ex_type e; 0; 3; 0; 1; 0; 0; 0; 0; 0; 0; 0; 52; 0; 0; 0; 0; 0; 0; 0; 0; 0; 0; 0; 52; 0; 32; 0; 1; 0; 0; 0; 0; 0; 0; 0;
   1; 0; 0; 0; 84; 0; 0; 0; 0; 16; 0; 0; 0; 0; 0; 0; ex_filesz e; 0; 0; 0; 8; 0; 0; 0; 5; 0; 0; 0; 0; 0; 0; 0;
   0x90; 0x90; 0xC3].

(** It is the file ["a"] of a ramdisk that is mounted at the root. *)
Definition example_system (e : example) : arena := Arena (CArray 0xD0000000
  (put_bytes 0xC1000000 ([1; 0; 0; 0; 0; 0; 0; 0; 87; 0; 0; 0; 97; 0] ++ replicate 18 0 ++ example_program e)
  (put_bytes 0xC000101C [0; 0; 0; 0xC1; 0; 1; 0; 0xC1; 7; 0; 0; 0; 0; 0; 0; 0; 6; 0; 0; 0; 8; 0; 0; 0]
  (put_bytes 0xC0002000 [0; 0x21; 0; 0xC0]
  (put_bytes 0xC000222C [0; 0x10; 0; 0xC0]
  (put_bytes 0xC0003024 [97; 0]
  (put_bytes 0xC0004000 [114; 0]
  (put_bytes 0xC0004010 [114; 0] ∅)))))))) 0xC8000000.

Definition example_vfs_open : Z → M arena Z :=
  @vfs_open arena _ _ (initrd_ops 9 6 7 8) 0xC0002000 true 9 9 0xC0004200.

Definition example_opened (e : example) : arena :=
  match file_open 9 [0xC0004010] 0xC0004100 example_vfs_open 0xC0003024 0xC0004000 (example_system e) with
  | Ret _ s => s
  | _ => example_system e
  end.

Definition example_elf_view : file_view := FileView 0xC80000AC 0xC8000008 0xC0001000 0xC1000020 87.
Definition example_header (e : example) (k : Z) : Z := nth (Z.to_nat k) (example_program e) 0.
Definition example_phdr (e : example) : phdr := Phdr PT_LOAD 84 0x1000 (ex_filesz e) 8 PF_RX.

Lemma arena_mapped (s : arena) a n : 0 ≤ a → a + n ≤ asize (ar_mem s) → mapped s a n.
Proof. intros ? ? b Hb. unfold get8, arena_store, carray_store. simpl. rewrite decide_True by lia. eauto. Qed.

Lemma example_opened_mapped e a n : 0 ≤ a → a + n ≤ 0xD0000000 → mapped (example_opened e) a n.
Proof.
  intros Ha Hn. apply arena_mapped; [done|].
  assert (asize (ar_mem (example_opened e)) = 0xD0000000) as -> by (destruct e; vm_compute; reflexivity).
  done.
Qed.

Lemma example_elf_file e : initrd_file 7 (example_opened e) example_elf_view 0.
Proof.
  split.
  - destruct e; (split_and!; vm_compute; reflexivity).
  - simpl. lia.
  - destruct e; (split; vm_compute; reflexivity).
  - destruct e; (split_and!; vm_compute; reflexivity).
  - destruct e; (vm_compute; reflexivity).
  - apply example_opened_mapped; simpl; lia.
  - simpl. lia.
Qed.

Lemma example_setting e :
  loader_setting 9 7 [0xC0004010] 0xC0004100 example_vfs_open 0xC0004000 0xC0005000 0xC0005100
    0xC0003000 example_elf_view 32 (example_system e) (example_opened e).
Proof.
  split; unfold ELF_HEADER_SIZE.
  - split_and!; [done|done|]. intros b. unfold file_area, KERNEL_VIRTUAL_OFFSET. simpl. lia.
  - destruct e; vm_compute; reflexivity.
  - by apply example_elf_file.
  - done.
  - split_and!; [done|done|apply example_opened_mapped; lia|intros b Hb; unfold file_area; simpl; lia].
  - split_and!; [done|done|apply example_opened_mapped; lia|intros b Hb; unfold file_area; simpl; lia].
  - lia.
Qed.

Lemma example_header_at e : header_at (example_opened e) 0xC1000020 (example_header e).
Proof.
  assert (forallb (λ k, bool_decide (get8 (example_opened e) (0xC1000020 + k) = Some (example_header e k)))
    (seqZ 0 52) = true) as Hall by (destruct e; vm_compute; reflexivity).
  rewrite forallb_forall in Hall. intros k Hk. specialize (Hall k).
  rewrite <-list_elem_of_In, elem_of_seqZ, bool_decide_eq_true in Hall. by apply Hall.
Qed.

Lemma example_executable e : ex_type e = ET_EXEC →
  executable example_elf_view (example_opened e) (example_header e) [example_phdr e].
Proof.
  intros Ht. split.
  - apply example_header_at.
  - destruct e; try done; (split; vm_compute; reflexivity).
  - destruct e; (split; [vm_compute; reflexivity|simpl; lia]).
  - exists 52. split_and!; [destruct e; vm_compute; reflexivity|done|].
    intros [|k] ph; [|done]. intros [= <-]. destruct e; (split_and!; vm_compute; reflexivity).
  - done.
Qed.

Lemma example_begins e : task_begins 0xC0003000 (example_opened e) 0 0.
Proof. destruct e; (split; vm_compute; reflexivity). Qed.

Abbreviation example_load_elf :=
  (@load_elf arena _ _ (initrd_ops 9 6 7 8) _ 9 [0xC0004010] 0xC0004100 example_vfs_open 0xC0004000 0xC0005000 0xC0005100).

Lemma load_elf_spec_witness :
  ∃ s', example_load_elf 0xC0003000 (example_system Text) = Ret SUCCESS s' ∧
    task_begins 0xC0003000 s' 0x1000 0 ∧ get8 s' 0x1002 = Some 0xC3 ∧ get8 s' 0x1005 = Some 0.
Proof.
  destruct (load_elf_spec 9 6 7 8 [0xC0004010] 0xC0004100 example_vfs_open 0xC0004000 0xC0005000 0xC0005100
    0xC0003000 example_elf_view (example_header Text) [example_phdr Text] (example_system Text) (example_opened Text) 0 0)
    as (s' & E & Ht & Hu & _).
  - apply (example_setting Text).
  - apply (example_executable Text). reflexivity.
  - apply Forall_singleton. intros _. unfold KERNEL_VIRTUAL_OFFSET. simpl.
    split_and!; vm_compute; first [reflexivity | discriminate].
  - apply (example_begins Text).
  - vm_compute. discriminate.
  - exists s'. split_and!; [exact E|exact Ht|apply Hu; [done|]; vm_compute; reflexivity..].
Defined.


Lemma load_elf_ignores_failure_witness :
  ∃ s', example_load_elf 0xC0003000 (example_system Bss) = Ret SUCCESS s' ∧ task_begins 0xC0003000 s' 0 0.
Proof.
  destruct (load_elf_ignores_failure 9 6 7 8 [0xC0004010] 0xC0004100 example_vfs_open 0xC0004000 0xC0005000 0xC0005100
    0xC0003000 example_elf_view (example_header Bss) (example_phdr Bss) [] (example_system Bss) (example_opened Bss) 0 0)
    as (s' & E & Ht & _).
  - apply (example_setting Bss).
  - apply (example_executable Bss). reflexivity.
  - reflexivity.
  - reflexivity.
  - simpl. lia.
  - simpl. lia.
  - reflexivity.
  - vm_compute. split; [reflexivity|discriminate].
  - reflexivity.
  - apply (example_begins Bss).
  - exists s'. split; [exact E|exact Ht].
Defined.
