(* ===== verification/AddrSpace.v ===== *)
(** * Address spaces as objects: [kernel/mm/virtual_mm_manager.c]

    Allocating an address space and giving it back.  A
    [virtual_address_space_t] is two words in memory, its page directory a
    page of the kernel heap; the pages come from an interface ([Kheap]).  The
    loops over the user pages, which work on the recursive window, are
    [Vmm.free_user_pages]. *)

From S2P Require Import Prelude Memory Chain CString Bitmap Phys Paging Kheap Kmalloc KList.

(** The kernel heap's pages, and the release of the user pages that the
    directory at an address refers to. *)
Class HeapPages (S : Type) := {
  hp_alloc : Z → M S Z;
  hp_free : Z → Z → M S error_code;
  hp_physical_address : Z → M S Z;
  hp_free_user_pages : Z → M S unit
}.

(** A page is aligned and there; what was there before is kept. *)
Class HeapPagesLaws (S : Type) `{ByteStore S, HeapPages S} := {
  hp_fresh n s p s' : hp_alloc n s = Ret p s' → p ≠ NULL → 0 < p ∧ p + 4096 * n ≤ 2 ^ 32 ∧ mapped s' p (4096 * n);
  hp_keeps n s p s' b v : hp_alloc n s = Ret p s' → get8 s b = Some v → ¬ (p ≤ b < p + 4096 * n) → get8 s' b = Some v;
  hp_physical p s a s' : hp_physical_address p s = Ret a s' → 0 ≤ a < 2 ^ 32 ∧ a mod 4096 = 0 ∧ s' = s;
  hp_physical_store p s a b v s' : set8 s b v = Some s' → hp_physical_address p s = Ret a s →
    hp_physical_address p s' = Ret a s'
}.

(** [virtual_address_space_t] *)
Definition vmm_page_directory (vmm : Z) : Z := vmm.
Definition vmm_physical_pgd_address (vmm : Z) : Z := u32 (vmm + 4).
Definition sizeof_vmm : Z := 8.

Section addr_space_c.
Context {S : Type} `{ByteStore S, Allocator S, HeapPages S}.

(** The addresses of [kernel_page_tables] and [kheap_page_tables]. *)
Variables kernel_page_tables kheap_page_tables : Z.

Definition as_edit_entry_attributes (entry attributes : Z) : M S unit :=
  if negb (entry =? NULL) then
    e ← rd32 entry;
    wr32 entry (Z.lor e attributes)
  else mret tt.

(** [&page_directory[i]] *)
Definition pgd_entry (page_directory i : Z) : Z := u32 (page_directory + 4 * i).

Definition enter_table (page_directory i t : Z) : M S unit :=
  wr32 (pgd_entry page_directory i) t ;;
  as_edit_entry_attributes (pgd_entry page_directory i) (Z.lor READ_WRITE PRESENT).

(** [map_kheap_to_pgd] of a directory in memory. *)
Definition as_map_kheap_to_pgd (page_directory : Z) : M S unit :=
  if page_directory =? NULL then mret tt
  else enter_table page_directory (ADDRESS_TO_DIRECTORY_ENTRY KHEAP_BEGIN_ADDRESS) kheap_page_tables.

Definition alloc_page_dir (vmm : Z) : M S error_code :=
  page_directory ← hp_alloc 1;
  if page_directory =? NULL then mret FAILURE
  else
    memset NULL page_directory PAGE_SIZE ;;
    for_range KERNEL_PGD_ENTRY_INDEX (KERNEL_PGD_ENTRY_INDEX + NUM_KERNEL_PAGE_TABLES) (λ i,
      enter_table page_directory i (u32 (kernel_page_tables + 4096 * (i - KERNEL_PGD_ENTRY_INDEX)))) ;;
    as_map_kheap_to_pgd page_directory ;;
    wr32 (vmm_page_directory vmm) page_directory ;;
    physical ← hp_physical_address page_directory;
    wr32 (vmm_physical_pgd_address vmm) physical ;;
    p ← rd32 (vmm_page_directory vmm);
    a ← rd32 (vmm_physical_pgd_address vmm);
    wr32 (pgd_entry p (PAGE_DIRECTORY_SIZE - 1)) a ;;
    p ← rd32 (vmm_page_directory vmm);
    as_edit_entry_attributes (pgd_entry p (PAGE_DIRECTORY_SIZE - 1)) (Z.lor READ_WRITE PRESENT) ;;
    mret SUCCESS.

Definition alloc_virtual_address_space : M S Z :=
  vmm ← al_malloc sizeof_vmm;
  if vmm =? NULL then mret NULL
  else
    r ← alloc_page_dir vmm;
    if negb (bool_decide (r = SUCCESS)) then
      al_free vmm ;;
      mret NULL
    else mret vmm.

Definition free_virtual_address_space (vmm : Z) : M S error_code :=
  if vmm =? NULL then mret INVALID_ARGUMENT
  else
    p ← rd32 (vmm_page_directory vmm);
    hp_free_user_pages p ;;
    p ← rd32 (vmm_page_directory vmm);
    hp_free p 1 ;;
    al_free vmm ;;
    mret SUCCESS.
End addr_space_c.

(** ** The directory in memory *)

Section directories.
Context {S : Type} `{ByteStoreLaws S}.
Implicit Types s : S.

(** The 1024 entries of the directory at [pd]. *)
Definition entries_are s (pd : Z) (g : Z → Z) : Prop := ∀ i, 0 ≤ i < 1024 → get32 s (pd + 4 * i) = Some (g i).

Lemma entries_are_same_but s s' pd g a n : entries_are s pd g → same_but a n s s' →
  a + n ≤ pd ∨ pd + 4096 ≤ a → entries_are s' pd g.
Proof. intros Hg Hs Hd i Hi. rewrite <-(Hg i Hi). apply get32_ext. intros b Hb. apply Hs. lia. Qed.

Lemma entries_are_stored s s' pd g i v : entries_are s pd g → 0 ≤ i < 1024 → stored32 (pd + 4 * i) v s s' → 0 ≤ v < 2 ^ 32 →
  entries_are s' pd (λ j, if j =? i then v else g j).
Proof.
  intros Hg Hi Hs Hv j Hj. destruct (Z.eqb_spec j i) as [->|Hne].
  - by rewrite (stored32_same _ _ _ _ Hs), u32_small by lia.
  - rewrite (stored32_other _ _ _ _ _ Hs) by lia. by apply Hg.
Qed.

Lemma same_but_wider a n a' n' s s' : same_but a n s s' → a' ≤ a → a + n ≤ a' + n' → same_but a' n' s s'.
Proof. intros Hs ? ? b Hb. apply Hs. lia. Qed.

Lemma same_but_trans a n s1 s2 s3 : same_but a n s1 s2 → same_but a n s2 s3 → same_but a n s1 s3.
Proof. intros H1 H2 b Hb. by rewrite H2, H1. Qed.

Lemma cleared_entries s s' pd : filled pd 4096 0 s s' → entries_are s' pd (λ _, 0).
Proof. intros Hf i Hi. unfold get32. by rewrite !Hf, !decide_True by lia. Qed.

(** Entering a page table: its address, present and writeable. *)
Lemma enter_table_ok s pd g i t :
  entries_are s pd g → 0 < pd → pd + 4096 ≤ 2 ^ 32 → 0 ≤ i < 1024 → 0 ≤ t < 2 ^ 32 → t mod 4096 = 0 →
  ∃ s', enter_table pd i t s = Ret tt s' ∧ entries_are s' pd (λ j, if j =? i then t + 3 else g j) ∧ same_but pd 4096 s s' ∧
    stores s s'.
Proof.
  intros Hg Hpd Hpd' Hi Ht Ha. unfold enter_table, pgd_entry, as_edit_entry_attributes. rewrite u32_small by lia.
  destruct (wr32_Ret s (pd + 4 * i) t) as (s1 & E1 & W1); [eapply get32_mapped; by apply Hg|]. run E1.
  rewrite (proj2 (Z.eqb_neq _ NULL)) by (unfold NULL; lia). cbn [negb].
  pose proof (stored32_same _ _ _ _ W1) as G1. rewrite u32_small in G1 by lia. run (rd32_Ret _ _ _ G1).
  assert (Z.lor t (Z.lor READ_WRITE PRESENT) = t + 3) as ->.
  { change (Z.lor READ_WRITE PRESENT) with 3. rewrite (Z.div_mod t 4096) by lia. rewrite Ha, Z.add_0_r, (Z.mul_comm 4096).
    by apply (lor_low_bits (t / 4096) 12 3). }
  destruct (wr32_Ret s1 (pd + 4 * i) (t + 3)) as (s2 & E2 & W2); [by eapply get32_mapped|].
  exists s2. split; [done|]. split; [|split].
  - intros j Hj. pose proof (entries_are_stored _ _ _ _ _ _ Hg Hi W1 Ht) as Hg1.
    rewrite (entries_are_stored _ _ _ _ _ _ Hg1 Hi W2 ltac:(dlia) j Hj). by destruct (j =? i).
  - eapply same_but_trans; (eapply same_but_wider; [by eapply stored32_same_but|lia|lia]).
  - unfold stores. etransitivity; by eapply wr32_stores.
Qed.
End directories.

(** The directory of a new address space. *)
Definition new_directory (kernel_page_tables kheap_page_tables physical i : Z) : Z :=
  if i =? 1023 then physical + 3
  else if i =? 770 then kheap_page_tables + 3
  else if i =? 769 then kernel_page_tables + 4096 + 3
  else if i =? 768 then kernel_page_tables + 3
  else 0.

Section allocation.
Context {S : Type} `{ByteStoreLaws S, !Allocator S, !AllocatorLaws S, !HeapPages S, !HeapPagesLaws S}.
Implicit Types s : S.
Variables kpt kht : Z.
Hypothesis Hkpt : 0 ≤ kpt ∧ kpt + 8192 ≤ 2 ^ 32 ∧ kpt mod 4096 = 0.
Hypothesis Hkht : 0 ≤ kht < 2 ^ 32 ∧ kht mod 4096 = 0.

Lemma hp_physical_stores pd a s s' : stores s s' → hp_physical_address pd s = Ret a s → hp_physical_address pd s' = Ret a s'.
Proof. induction 1 as [|s1 s2 s3 (b & v & E) _ IH]; [done|]. intros Hs. apply IH. by eapply hp_physical_store. Qed.

(** The part that builds the directory in a fresh page. *)
Lemma directory_ok s pd physical :
  0 < pd → pd + 4096 ≤ 2 ^ 32 → mapped s pd 4096 →
  ∃ s', (memset NULL pd PAGE_SIZE ;;
         for_range KERNEL_PGD_ENTRY_INDEX (KERNEL_PGD_ENTRY_INDEX + NUM_KERNEL_PAGE_TABLES) (λ i,
           enter_table pd i (u32 (kpt + 4096 * (i - KERNEL_PGD_ENTRY_INDEX)))) ;;
         as_map_kheap_to_pgd kht pd) s = Ret tt s' ∧
    entries_are s' pd (λ i, if i =? 1023 then 0 else new_directory kpt kht physical i) ∧ same_but pd 4096 s s' ∧
    stores s s'.
Proof.
  intros Hpd Hpd' Hm. destruct (memset_ok s NULL pd PAGE_SIZE) as (s1 & E1 & F1); [done|done|]. run E1.
  assert (same_but pd 4096 s s1) as B1 by (intros b Hb; rewrite F1, decide_False; done).
  pose proof (cleared_entries _ _ _ F1) as G1.
  destruct (enter_table_ok s1 pd _ 768 kpt G1) as (s2 & E2 & G2 & B2 & St2); [lia..|].
  destruct (enter_table_ok s2 pd _ 769 (kpt + 4096) G2) as (s3 & E3 & G3 & B3 & St3); [lia|lia|lia|lia|dlia|].
  destruct (enter_table_ok s3 pd _ 770 kht G3) as (s4 & E4 & G4 & B4 & St4); [lia..|].
  exists s4. split_and!.
  - change (for_range KERNEL_PGD_ENTRY_INDEX (KERNEL_PGD_ENTRY_INDEX + NUM_KERNEL_PAGE_TABLES) (λ i,
           enter_table pd i (u32 (kpt + 4096 * (i - KERNEL_PGD_ENTRY_INDEX)))))
      with (enter_table pd 768 (u32 (kpt + 4096 * 0)) ;; enter_table pd 769 (u32 (kpt + 4096 * 1)) ;; mret tt).
    rewrite Z.mul_0_r, Z.add_0_r, !u32_small by lia. rewrite !bind_assoc. run E2. rewrite bind_assoc. run E3. rewrite bind_ret_l.
    unfold as_map_kheap_to_pgd. rewrite (proj2 (Z.eqb_neq pd NULL)) by (unfold NULL; lia).
    by change (ADDRESS_TO_DIRECTORY_ENTRY KHEAP_BEGIN_ADDRESS) with 770.
  - intros i Hi. rewrite (G4 i Hi). unfold new_directory. destruct (Z.eqb_spec i 1023) as [->|]; [done|].
    by destruct (i =? 770), (i =? 769), (i =? 768).
  - repeat (eapply same_but_trans; [eassumption|]). done.
  - unfold stores. etransitivity; [by eapply memset_stores|]. do 2 (etransitivity; [eassumption|]). done.
Qed.

(** The two fields of the structure, and the entry of the directory itself. *)
Lemma finish_directory_ok s vmm pd physical g :
  0 < pd → pd + 4096 ≤ 2 ^ 32 → 0 < vmm → vmm + 8 < 2 ^ 32 → vmm + 8 ≤ pd ∨ pd + 4096 ≤ vmm →
  mapped s vmm 8 → entries_are s pd g → hp_physical_address pd s = Ret physical s →
  0 ≤ physical < 2 ^ 32 → physical mod 4096 = 0 →
  ∃ s', (wr32 (vmm_page_directory vmm) pd ;;
         physical ← hp_physical_address pd;
         wr32 (vmm_physical_pgd_address vmm) physical ;;
         p ← rd32 (vmm_page_directory vmm);
         a ← rd32 (vmm_physical_pgd_address vmm);
         wr32 (pgd_entry p (PAGE_DIRECTORY_SIZE - 1)) a ;;
         p ← rd32 (vmm_page_directory vmm);
         as_edit_entry_attributes (pgd_entry p (PAGE_DIRECTORY_SIZE - 1)) (Z.lor READ_WRITE PRESENT) ;;
         mret SUCCESS) s = Ret SUCCESS s' ∧
    entries_are s' pd (λ i, if i =? 1023 then physical + 3 else g i) ∧
    get32 s' vmm = Some pd ∧ get32 s' (vmm + 4) = Some physical ∧
    ∀ b, ¬ vmm ≤ b < vmm + 8 → ¬ pd ≤ b < pd + 4096 → get8 s' b = get8 s b.
Proof.
  intros Hpd Hpd' Hv Hv' Hap Hm Hg Hph Hpr Hpa. unfold vmm_page_directory, vmm_physical_pgd_address.
  rewrite (u32_small (vmm + 4)) by lia.
  destruct (wr32_Ret s vmm pd) as (s1 & E1 & W1); [eapply mapped_sub; [done|lia..]|]. run E1.
  run (hp_physical_stores _ _ _ _ (wr32_stores _ _ _ _ E1) Hph).
  destruct (wr32_Ret s1 (vmm + 4) physical) as (s2 & E2 & W2).
  { eapply stored32_mapped; [done|]. eapply mapped_sub; [done|lia..]. }
  run E2.
  assert (get32 s2 vmm = Some pd) as Gv.
  { rewrite (stored32_other _ _ _ _ _ W2), (stored32_same _ _ _ _ W1), u32_small by lia. done. }
  assert (get32 s2 (vmm + 4) = Some physical) as Gp by (rewrite (stored32_same _ _ _ _ W2), u32_small by lia; done).
  run (rd32_Ret _ _ _ Gv). run (rd32_Ret _ _ _ Gp).
  assert (entries_are s2 pd g) as Hg2.
  { eapply entries_are_same_but; [|by eapply stored32_same_but|lia].
    eapply entries_are_same_but; [done|by eapply stored32_same_but|lia]. }
  destruct (enter_table_ok s2 pd g (PAGE_DIRECTORY_SIZE - 1) physical Hg2) as (s3 & E3 & Hg3 & B3 & _); [lia|lia|done|lia|lia|].
  assert (∀ a, vmm ≤ a → a + 4 ≤ vmm + 8 → get32 s3 a = get32 s2 a) as Hv3.
  { intros a ? ?. apply get32_ext. intros b Hb. apply B3. lia. }
  exists s3. split_and!; [|exact Hg3|by rewrite Hv3 by lia|by rewrite Hv3 by lia|].
  - unfold enter_table in E3. apply bind_Ret_inv in E3 as ([] & s2' & E3a & E3b). run E3a.
    assert (get32 s2' vmm = Some pd) as Gv'.
    { unfold pgd_entry in E3a. rewrite u32_small in E3a by (unfold PAGE_DIRECTORY_SIZE; lia).
      destruct (wr32_Ret s2 (pd + 4 * (PAGE_DIRECTORY_SIZE - 1)) physical) as (s4 & E4 & W4);
        [eapply get32_mapped; by apply Hg2|]. rewrite E4 in E3a. injection E3a as <-.
      by rewrite (stored32_other _ _ _ _ _ W4) by (unfold PAGE_DIRECTORY_SIZE; lia). }
    run (rd32_Ret _ _ _ Gv'). by run E3b.
  - intros b Hb1 Hb2. rewrite B3, W2, W1, !decide_False by lia. done.
Qed.
End allocation.

(** ** Properties *)

Section properties.
Context {S : Type} `{ByteStoreLaws S, !Allocator S, !AllocatorLaws S, !HeapPages S, !HeapPagesLaws S}.
Implicit Types s : S.

End properties.

(** ** Witness *)

(** Pages from the arena; the physical addresses are the virtual ones. *)
#[export] Instance arena_pages : HeapPages arena := {
  hp_alloc n s :=
    let p := 4096 * ((ar_next s + 4095) / 4096) in
    if bool_decide (0 < p ∧ 0 ≤ n ∧ p + 4096 * n ≤ asize (ar_mem s) ∧ p + 4096 * n ≤ 2 ^ 32)
    then Ret p (Arena (ar_mem s) (p + 4096 * n)) else Ret NULL s;
  hp_free _ _ s := Ret SUCCESS s;
  hp_physical_address p s := Ret (u32 (4096 * (p / 4096))) s;
  hp_free_user_pages _ s := Ret tt s
}.

#[export] Instance arena_pages_laws : HeapPagesLaws arena.
Proof.
  split.
  - intros n s p s'. simpl. case_bool_decide as Hc; [|congruence]. intros [= <- <-] _. split_and!; [lia|lia|].
    intros b Hb. unfold get8, arena_store, carray_store. simpl. rewrite decide_True by lia. eauto.
  - intros n s p s' b v. simpl. case_bool_decide; by intros [= <- <-].
  - intros p s a s'. simpl. intros [= <- <-]. split_and!; [apply u32_range..| |done].
    unfold u32. change (2 ^ 32) with 4294967296. dlia.
  - intros p s a b v s' _. simpl. by intros [= <-].
Qed.

Definition example_pages_arena : arena := Arena (CArray 0x10000 ∅) 0x100.

