(* ===== verification/Task.v ===== *)
(** * Tasks: [kernel/multitask/task.c]

    A [task_t] is a structure in memory (see [Elf]).  The program loader is a
    parameter; the registers of the processor that a task switch writes are
    an interface. *)

From S2P Require Import Prelude Memory Chain CString Bitmap Phys Paging Kheap Kmalloc KList Initrd Vfs File Elf AddrSpace.

(** The page directory register, the kernel stack of the task state segment
    ([Gdt.set_kernel_stack]), and the jump to user mode. *)
Class Cpu (S : Type) := {
  cpu_load_cr3 : Z → M S unit;
  set_kernel_stack : Z → M S unit;
  jmp_to_userspace : Z → Z → M S unit
}.

Definition KERNEL_DATA_SEGMENT : Z := 0x10.
Definition KERNEL_STACK_SIZE : Z := PAGE_SIZE.
Definition STACK_END_ADDRESS : Z := KERNEL_VIRTUAL_OFFSET - PAGE_SIZE.
Definition STACK_SIZE : Z := 5.

Section task_c.
Context {S : Type} `{ByteStore S, Allocator S, HeapPages S, UserMemory S, Cpu S}.
Variable sfuel : nat.
Variables kernel_page_tables kheap_page_tables : Z.
Variable load_elf : Z → M S error_code.

(** [kernel/mm/virtual_mm_manager.c] *)
Definition as_switch (vmm : Z) : M S error_code :=
  if vmm =? NULL then mret INVALID_ARGUMENT
  else
    p ← rd32 (vmm_page_directory vmm);
    if p =? NULL then mret INVALID_ARGUMENT
    else
      a ← rd32 (vmm_physical_pgd_address vmm);
      cpu_load_cr3 a ;;
      mret SUCCESS.

Definition alloc_task (name : Z) : M S Z :=
  if name =? NULL then mret NULL
  else
    task ← al_malloc sizeof_task;
    if task =? NULL then mret NULL
    else
      vmm ← alloc_virtual_address_space kernel_page_tables kheap_page_tables;
      wr32 (task_vmm task) vmm ;;
      v ← rd32 (task_vmm task);
      if v =? NULL then
        al_free task ;;
        mret NULL
      else
        n ← strlen sfuel name;
        memcpy (task_name task) name (u32 (n + 1)) ;;
        wr32 (task_kernel_ss task) KERNEL_DATA_SEGMENT ;;
        p ← hp_alloc 1;
        wr32 (task_kernel_stack task) p ;;
        p ← rd32 (task_kernel_stack task);
        if p =? NULL then
          v ← rd32 (task_vmm task);
          free_virtual_address_space v ;;
          al_free task ;;
          mret NULL
        else mret task.

Definition free_task (task : Z) : M S error_code :=
  if task =? NULL then mret INVALID_ARGUMENT
  else
    v ← rd32 (task_vmm task);
    r ← free_virtual_address_space v;
    if negb (bool_decide (r = SUCCESS)) then mret FAILURE
    else
      p ← rd32 (task_kernel_stack task);
      hp_free p 1 ;;
      al_free task ;;
      mret SUCCESS.

Definition load_task (path : Z) : M S Z :=
  task ← alloc_task path;
  if task =? NULL then mret NULL
  else
    v ← rd32 (task_vmm task);
    as_switch v ;;
    p ← rd32 (task_kernel_stack task);
    set_kernel_stack (u32 (p + KERNEL_STACK_SIZE)) ;;
    r ← load_elf task;
    if negb (bool_decide (r = SUCCESS)) then
      free_task task ;;
      mret NULL
    else
      r ← um_mmap (STACK_END_ADDRESS - STACK_SIZE * PAGE_SIZE) STACK_SIZE;
      if negb (bool_decide (r = SUCCESS)) then
        free_task task ;;
        mret NULL
      else
        wr32 (task_stack_begin task) (STACK_END_ADDRESS - STACK_SIZE * PAGE_SIZE) ;;
        wr32 (task_stack_end task) STACK_END_ADDRESS ;;
        text ← rd32 (task_text_begin task);
        stack ← rd32 (task_stack_end task);
        jmp_to_userspace text stack ;;
        mret task.
End task_c.

(** ** Allocating a task *)

Section tasks.
Context {S : Type} `{ByteStoreLaws S, !Allocator S, !AllocatorLaws S, !HeapPages S, !HeapPagesLaws S, !UserMemory S, !Cpu S}.
Implicit Types s : S.
Variable sfuel : nat.
Variables kpt kht : Z.

(** What [alloc_task] starts from: the task and its address space have been
    allocated, and it has a page for the kernel's stack; [n] bytes of memory at
    the task are apart from the name and the page. *)
Record task_setting (name : Z) (xs : list Z) (task vmm stack n : Z) s s1 s2 : Prop := {
  ts_task : al_malloc sizeof_task s = Ret task s1;
  ts_vmm : alloc_virtual_address_space kpt kht s1 = Ret vmm s2;
  ts_stack s' : stores s2 s' → ∃ s'', hp_alloc 1 s' = Ret stack s'';
  ts_null : name ≠ NULL ∧ task ≠ NULL ∧ vmm ≠ NULL ∧ stack ≠ NULL;
  ts_room : sizeof_task ≤ n ∧ 0 < task ∧ task + n < 2 ^ 32 ∧ mapped s2 task n;
  ts_name : cstr s2 name xs ∧ (length xs < sfuel)%nat ∧ Z.of_nat (length xs) < INT_MAX ∧
    36 + Z.of_nat (length xs) + 1 ≤ n;
  ts_apart : (task + n ≤ name ∨ name + Z.of_nat (length xs) + 1 ≤ task) ∧
    (task + n ≤ stack ∨ stack + 4096 ≤ task);
  ts_range : 0 ≤ vmm < 2 ^ 32 ∧ 0 ≤ stack < 2 ^ 32
}.

Lemma alloc_task_ok name xs task vmm stack n s s1 s2 :
  task_setting name xs task vmm stack n s s1 s2 →
  ∃ s', alloc_task sfuel kpt kht name s = Ret task s' ∧
    get32 s' task = Some vmm ∧ get32 s' (task + 84) = Some KERNEL_DATA_SEGMENT ∧ get32 s' (task + 88) = Some stack ∧
    ∀ k, 0 ≤ k ≤ Z.of_nat (length xs) → ¬ 48 ≤ k < 56 → get8 s' (task + 36 + k) = get8 s2 (name + k).
Proof.
  intros [Et Ev Hst (N1 & N2 & N3 & N4) (R1 & R2 & R3 & Hm) (Hc & Hf & Hl & Hln) (A1 & A2) (V & P)].
  change sizeof_task with 92 in R1. set (len := Z.of_nat (length xs)) in *. pose proof (cstr_range _ _ _ Hc) as Hcr. fold len in Hcr.
  unfold alloc_task. rewrite (proj2 (Z.eqb_neq name NULL)) by done. run Et. rewrite (proj2 (Z.eqb_neq task NULL)) by done.
  run Ev. unfold task_vmm, task_name, task_kernel_ss, task_kernel_stack. rewrite !(u32_small (task + _)) by lia.
  destruct (wr32_Ret s2 task vmm) as (s3 & E3 & W3); [eapply mapped_sub; [done|lia..]|]. run E3.
  pose proof (stored32_same _ _ _ _ W3) as G3. rewrite u32_small in G3 by lia. run (rd32_Ret _ _ _ G3).
  rewrite (proj2 (Z.eqb_neq vmm NULL)) by done.
  assert (cstr s3 name xs) as Hc3 by (eapply cstr_ext; [done|]; intros b Hb; rewrite W3, decide_False by lia; done).
  run (strlen_ok sfuel s3 name xs 0 Hc3 Hf ltac:(lia) ltac:(unfold len, INT_MAX in *; lia)). rewrite Z.add_0_l. fold len.
  rewrite u32_small by (unfold INT_MAX in *; lia).
  assert (∀ s', (∀ b, is_Some (get8 s2 b) → is_Some (get8 s' b)) → mapped s' task n) as Hmm by (intros s' Hs b Hb; by apply Hs, Hm).
  assert (∀ b, is_Some (get8 s2 b) → is_Some (get8 s3 b)) as M3 by (intros b Hb; rewrite W3; case_decide; eauto).
  destruct (memcpy_ok s3 (task + 36) name (len + 1)) as (s4 & E4 & C4); [lia|by apply cstr_mapped| |lia|].
  { eapply mapped_sub; [by apply Hmm|lia..]. }
  run E4.
  assert (∀ b, is_Some (get8 s2 b) → is_Some (get8 s4 b)) as M4.
  { intros b Hb. rewrite C4. case_decide; [|by apply M3]. apply (cstr_mapped _ _ _ Hc3). lia. }
  destruct (wr32_Ret s4 (task + 84) KERNEL_DATA_SEGMENT) as (s5 & E5 & W5); [eapply mapped_sub; [by apply Hmm|lia..]|]. run E5.
  destruct (Hst s5) as [s6 E6].
  { unfold stores. etransitivity; [by eapply wr32_stores|]. etransitivity; [by eapply memcpy_stores|by eapply wr32_stores]. }
  run E6. destruct (hp_fresh _ _ _ _ E6 N4) as (P1 & P2 & _).
  assert (keeps (λ b, task ≤ b < task + n) s5 s6) as K6 by (intros b v Hb Eb; eapply hp_keeps; [done|done|lia]).
  assert (mapped s6 task n) as M6.
  { eapply keeps_mapped; [exact K6|simpl; lia|]. intros b Hb. rewrite W5. case_decide; [eauto|]. by apply M4, Hm. }
  destruct (wr32_Ret s6 (task + 88) stack) as (s7 & E7 & W7); [eapply mapped_sub; [done|lia..]|]. run E7.
  pose proof (stored32_same _ _ _ _ W7) as G7. rewrite u32_small in G7 by lia. run (rd32_Ret _ _ _ G7).
  rewrite (proj2 (Z.eqb_neq stack NULL)) by done. exists s7. split_and!; [done| | |done|].
  - rewrite (stored32_other _ _ _ _ _ W7) by lia. eapply keeps_get32; [exact K6|simpl; lia|].
    rewrite (stored32_other _ _ _ _ _ W5) by lia. rewrite <-G3. apply get32_ext. intros b Hb. by rewrite C4, decide_False by lia.
  - rewrite (stored32_other _ _ _ _ _ W7) by lia. eapply keeps_get32; [exact K6|simpl; lia|].
    by rewrite (stored32_same _ _ _ _ W5).
  - intros k Hk Hk'. destruct (cstr_mapped _ _ _ Hc3 (name + k)) as [v Hv]; [lia|].
    assert (get8 s2 (name + k) = Some v) as Hv2 by (rewrite W3, decide_False in Hv by lia; done). rewrite Hv2.
    rewrite W7, decide_False by lia. apply K6; [lia|]. rewrite W5, decide_False, C4, decide_True by lia.
    rewrite <-Hv. f_equal. lia.
Qed.

(** The steps of [load_task] when all of them succeed. *)
(** [load_task] up to the loader: the task's address space is entered and the
    kernel's stack set. *)
Lemma load_task_begins load_elf path s task s1 vmm pd physical stack s2 s3 :
  alloc_task sfuel kpt kht path s = Ret task s1 → 0 < task → task + 92 < 2 ^ 32 → 0 < vmm → vmm + 8 < 2 ^ 32 →
  get32 s1 task = Some vmm → get32 s1 vmm = Some pd → pd ≠ NULL → get32 s1 (vmm + 4) = Some physical →
  cpu_load_cr3 physical s1 = Ret tt s2 → get32 s2 (task + 88) = Some stack →
  set_kernel_stack (u32 (stack + 4096)) s2 = Ret tt s3 →
  load_task sfuel kpt kht load_elf path s =
    (r ← load_elf task;
     if negb (bool_decide (r = SUCCESS)) then free_task task ;; mret NULL
     else
       r ← um_mmap 0xBFFFA000 5;
       if negb (bool_decide (r = SUCCESS)) then free_task task ;; mret NULL
       else
         wr32 (task_stack_begin task) 0xBFFFA000 ;;
         wr32 (task_stack_end task) 0xBFFFF000 ;;
         text ← rd32 (task_text_begin task);
         stack ← rd32 (task_stack_end task);
         jmp_to_userspace text stack ;;
         mret task) s3.
Proof.
  intros Ea Ht1 Ht2 Hv1 Hv2 Gt Gv Hpd Gp Ec Gs Ek. unfold load_task. run Ea.
  rewrite (proj2 (Z.eqb_neq task NULL)) by (unfold NULL; lia). unfold task_vmm. run (rd32_Ret _ _ _ Gt).
  assert (as_switch vmm s1 = Ret SUCCESS s2) as Es.
  { unfold as_switch, vmm_page_directory, vmm_physical_pgd_address. rewrite (proj2 (Z.eqb_neq vmm NULL)) by (unfold NULL; lia).
    run (rd32_Ret _ _ _ Gv). rewrite (proj2 (Z.eqb_neq pd NULL)) by done. rewrite u32_small by lia. run (rd32_Ret _ _ _ Gp).
    by run Ec. }
  run Es. unfold task_kernel_stack. rewrite (u32_small (task + 88)) by lia.
  run (rd32_Ret _ _ _ Gs). change KERNEL_STACK_SIZE with 4096. by run Ek.
Qed.

Lemma load_task_ok load_elf path s task s1 vmm pd physical stack s2 s3 s4 s5 text :
  alloc_task sfuel kpt kht path s = Ret task s1 → 0 < task → task + 92 < 2 ^ 32 → 0 < vmm → vmm + 8 < 2 ^ 32 →
  get32 s1 task = Some vmm → get32 s1 vmm = Some pd → pd ≠ NULL → get32 s1 (vmm + 4) = Some physical →
  cpu_load_cr3 physical s1 = Ret tt s2 → get32 s2 (task + 88) = Some stack →
  set_kernel_stack (u32 (stack + 4096)) s2 = Ret tt s3 → load_elf task s3 = Ret SUCCESS s4 →
  um_mmap 0xBFFFA000 5 s4 = Ret SUCCESS s5 → mapped s5 task 92 → get32 s5 (task + 64) = Some text →
  ∃ s6, load_task sfuel kpt kht load_elf path s = (jmp_to_userspace text 0xBFFFF000 ;; mret task) s6 ∧
    get32 s6 (task + 56) = Some 0xBFFFA000 ∧ get32 s6 (task + 60) = Some 0xBFFFF000 ∧ same_but (task + 56) 8 s5 s6.
Proof.
  intros Ea Ht1 Ht2 Hv1 Hv2 Gt Gv Hpd Gp Ec Gs Ek El Em Hm Gx.
  rewrite (load_task_begins load_elf path s task s1 vmm pd physical stack s2 s3) by done.
  run El. rewrite bool_decide_true by done. cbn [negb]. run Em. rewrite bool_decide_true by done. cbn [negb].
  unfold task_stack_begin, task_stack_end, task_text_begin. rewrite !(u32_small (task + _)) by lia.
  destruct (wr32_Ret s5 (task + 56) 0xBFFFA000) as (s6 & E6 & W6); [eapply mapped_sub; [done|lia..]|]. run E6.
  destruct (wr32_Ret s6 (task + 60) 0xBFFFF000) as (s7 & E7 & W7).
  { eapply stored32_mapped; [done|]. eapply mapped_sub; [done|lia..]. }
  run E7. assert (get32 s7 (task + 64) = Some text) as Gx7.
  { by rewrite (stored32_other _ _ _ _ _ W7), (stored32_other _ _ _ _ _ W6) by lia. }
  run (rd32_Ret _ _ _ Gx7). assert (get32 s7 (task + 60) = Some 0xBFFFF000) as Ge by (by rewrite (stored32_same _ _ _ _ W7)).
  run (rd32_Ret _ _ _ Ge). exists s7. split_and!; [done| |done|].
  - rewrite (stored32_other _ _ _ _ _ W7) by lia. by rewrite (stored32_same _ _ _ _ W6).
  - intros b Hb. by rewrite W7, W6, !decide_False by lia.
Qed.
End tasks.

(** ** Properties *)

Section properties.
Context {S : Type} `{ByteStoreLaws S, !Allocator S, !AllocatorLaws S, !HeapPages S, !HeapPagesLaws S, !UserMemory S, !Cpu S}.
Implicit Types s : S.
Variable sfuel : nat.
Variables kpt kht : Z.


(** The name's array has 20 bytes, and [alloc_task] does not look at the
    length of the name: characters from number 20 on, and the terminator, end
    up in the fields behind it - the bounds of stack, text and data - and from
    number 56 on behind the task's 92 bytes. *)
Theorem alloc_task_name_overflow name xs task vmm stack n s s1 s2 k x :
  task_setting sfuel kpt kht name xs task vmm stack n s s1 s2 →
  xs !! k = Some x → (20 ≤ k)%nat → ¬ (48 ≤ k < 56)%nat →
  ∃ s', alloc_task sfuel kpt kht name s = Ret task s' ∧ get8 s' (task_stack_begin task + (Z.of_nat k - 20)) = Some x.
Proof.
  intros Hs Hx Hk Hk'. destruct (alloc_task_ok _ _ _ _ _ _ _ _ _ _ _ _ Hs) as (s' & E & _ & _ & _ & Hn).
  exists s'. split; [done|]. destruct Hs as [_ _ _ _ (R1 & R2 & R3 & _) (Hc & _) _ _]. change sizeof_task with 92 in R1.
  pose proof (lookup_lt_Some _ _ _ Hx). unfold task_stack_begin. rewrite u32_small by lia.
  replace (task + 56 + (Z.of_nat k - 20)) with (task + 36 + Z.of_nat k) by lia. rewrite Hn by lia.
  rewrite <-(take_drop_middle _ _ _ Hx) in Hc. apply cstr_app in Hc. rewrite length_take_le in Hc by lia.
  apply cstr_first in Hc. done.
Qed.

(** What [alloc_task] does when something is missing: without a task, the
    null pointer; without an address space, it gives the task back. *)
Theorem alloc_task_errors name s task s1 vmm s2 :
  alloc_task sfuel kpt kht NULL s = Ret NULL s ∧
  (name ≠ NULL → al_malloc sizeof_task s = Ret task s1 →
   (task = NULL → alloc_task sfuel kpt kht name s = Ret NULL s1) ∧
   (task ≠ NULL → alloc_virtual_address_space kpt kht s1 = Ret vmm s2 → vmm = NULL → mapped s2 task 4 →
    ∃ s3, stored32 task NULL s2 s3 ∧ alloc_task sfuel kpt kht name s = (al_free task ;; mret NULL) s3)).
Proof.
  split; [done|]. intros Hn Et. unfold alloc_task. rewrite (proj2 (Z.eqb_neq name NULL)) by done. run Et. split.
  - intros ->. done.
  - intros Ht Ev -> Hm. rewrite (proj2 (Z.eqb_neq task NULL)) by done. run Ev. unfold task_vmm.
    destruct (wr32_Ret s2 task NULL Hm) as (s3 & E3 & W3). run E3. exists s3. split; [done|].
    pose proof (stored32_same _ _ _ _ W3) as G3. by run (rd32_Ret _ _ _ G3).
Qed.

(** [load_task] of a program that loads: in the task's address space, with
    the kernel's stack set to the end of its page, user mode begins where the
    task's text begins, whatever entry point the program has, with the
    stack's end at the last page below the kernel. *)
Theorem load_task_spec load_elf path s task s1 vmm pd physical stack s2 s3 s4 s5 text :
  alloc_task sfuel kpt kht path s = Ret task s1 → 0 < task → task + 92 < 2 ^ 32 → 0 < vmm → vmm + 8 < 2 ^ 32 →
  get32 s1 task = Some vmm → get32 s1 vmm = Some pd → pd ≠ NULL → get32 s1 (vmm + 4) = Some physical →
  cpu_load_cr3 physical s1 = Ret tt s2 → get32 s2 (task + 88) = Some stack →
  set_kernel_stack (u32 (stack + 4096)) s2 = Ret tt s3 → load_elf task s3 = Ret SUCCESS s4 →
  um_mmap 0xBFFFA000 5 s4 = Ret SUCCESS s5 → mapped s5 task 92 → get32 s5 (task + 64) = Some text →
  ∃ s6, load_task sfuel kpt kht load_elf path s = (jmp_to_userspace text 0xBFFFF000 ;; mret task) s6 ∧
    get32 s6 (task + 56) = Some 0xBFFFA000 ∧ get32 s6 (task + 60) = Some 0xBFFFF000 ∧ same_but (task + 56) 8 s5 s6.
Proof. exact (load_task_ok sfuel kpt kht load_elf path s task s1 vmm pd physical stack s2 s3 s4 s5 text). Qed.

(** [load_task] of a program that does not load, or without memory for the
    stack: the task is freed and the null pointer returned.  The processor is
    still in the task's address space: no other one is entered. *)
Theorem load_task_fails load_elf path s task s1 vmm pd physical stack s2 s3 r s4 r' s5 :
  alloc_task sfuel kpt kht path s = Ret task s1 → 0 < task → task + 92 < 2 ^ 32 → 0 < vmm → vmm + 8 < 2 ^ 32 →
  get32 s1 task = Some vmm → get32 s1 vmm = Some pd → pd ≠ NULL → get32 s1 (vmm + 4) = Some physical →
  cpu_load_cr3 physical s1 = Ret tt s2 → get32 s2 (task + 88) = Some stack →
  set_kernel_stack (u32 (stack + 4096)) s2 = Ret tt s3 → load_elf task s3 = Ret r s4 → um_mmap 0xBFFFA000 5 s4 = Ret r' s5 →
  (r ≠ SUCCESS → load_task sfuel kpt kht load_elf path s = (free_task task ;; mret NULL) s4) ∧
  (r = SUCCESS → r' ≠ SUCCESS → load_task sfuel kpt kht load_elf path s = (free_task task ;; mret NULL) s5).
Proof.
  intros Ea Ht1 Ht2 Hv1 Hv2 Gt Gv Hpd Gp Ec Gs Ek El Em.
  rewrite (load_task_begins sfuel kpt kht load_elf path s task s1 vmm pd physical stack s2 s3) by done. split.
  - intros Hr. run El. by rewrite bool_decide_false by done.
  - intros -> Hr. run El. rewrite bool_decide_true by done. cbn [negb]. run Em. by rewrite bool_decide_false by done.
Qed.
End properties.

(** ** Witnesses *)

(** A processor whose registers nothing here reads. *)
#[export] Instance arena_cpu : Cpu arena := {
  cpu_load_cr3 _ s := Ret tt s;
  set_kernel_stack _ s := Ret tt s;
  jmp_to_userspace _ _ s := Ret tt s
}.

(** A name of [n] characters at 0x40. *)
Definition example_named (n : nat) : arena := Arena (CArray 0x10000 (put_bytes 0x40 (replicate n 97) ∅)) 0x100.

Definition state_of {A} (r : res arena A) (s : arena) : arena := match r with Ret _ s' => s' | _ => s end.

Definition example_task (n : nat) : arena := Arena (ar_mem (example_named n)) 0x15c.
Definition example_vmm (n : nat) : arena :=
  state_of (alloc_virtual_address_space 0x400000 0x402000 (example_task n)) (example_task n).

Definition value_of {A} (r : res arena A) : option A := match r with Ret a _ => Some a | _ => None end.

Lemma value_of_Ret {A} (r : res arena A) a s : value_of r = Some a → r = Ret a (state_of r s).
Proof. destruct r; simpl; by intros [= ->]. Qed.

Fixpoint cstrb (s : arena) (p : Z) (xs : list Z) : bool :=
  bool_decide (0 ≤ p < 2 ^ 32 - 1) &&
  match xs with
  | [] => bool_decide (get8 s p = Some 0)
  | x :: xs' => negb (x =? 0) && bool_decide (get8 s p = Some x) && cstrb s (p + 1) xs'
  end.

Lemma cstrb_cstr s p xs : cstrb s p xs = true → cstr s p xs.
Proof.
  revert p. induction xs as [|x xs IH]; intros p; cbn [cstrb cstr].
  - intros [H1 H2]%andb_prop. rewrite bool_decide_eq_true in H1. rewrite bool_decide_eq_true in H2. done.
  - intros [H1 [[H2 H3]%andb_prop H4]%andb_prop]%andb_prop. apply negb_true_iff, Z.eqb_neq in H2.
    rewrite bool_decide_eq_true in H1. rewrite bool_decide_eq_true in H3. split_and!; [lia..|done|done|by apply IH].
Qed.

Lemma example_vmm_facts m : m = 3%nat ∨ m = 60%nat →
  (λ s, (value_of (alloc_virtual_address_space 0x400000 0x402000 (example_task m)), asize (ar_mem s), ar_next s,
         cstrb s 0x40 (replicate m 97))) (example_vmm m) = (Some 0x15c, 0x10000, 0x2000, true).
Proof. intros [-> | ->]; vm_compute; reflexivity. Qed.

Lemma example_task_setting m n : m = 3%nat ∨ m = 60%nat → 36 + Z.of_nat m + 1 ≤ n → 92 ≤ n → n ≤ 200 →
  task_setting 99 0x400000 0x402000 0x40 (replicate m 97) 0x100 0x15c 0x2000 n
    (example_named m) (example_task m) (example_vmm m).
Proof.
  intros Hm Hn Hn' Hn''. pose proof (example_vmm_facts m Hm) as Hfacts. cbv beta in Hfacts.
  rewrite !pair_equal_spec in Hfacts. destruct Hfacts as [[[Hval Hsz] Hnext] Hname]. split.
  - destruct Hm as [-> | ->]; reflexivity.
  - by apply value_of_Ret.
  - intros s' [Hnext' Hs']%arena_stores. unfold hp_alloc, arena_pages. rewrite Hnext', Hs', Hnext, Hsz. eexists. reflexivity.
  - split_and!; discriminate.
  - split_and!; [unfold sizeof_task; lia|done|lia|]. apply arena_mapped; [done|]. rewrite Hsz. lia.
  - rewrite length_replicate. split_and!; [by apply cstrb_cstr|lia|unfold INT_MAX; lia|lia].
  - rewrite length_replicate. lia.
  - lia.
Qed.


(** Character number 58 is the first byte of the next block in memory but two. *)
Lemma alloc_task_name_overflow_witness :
  ∃ s', alloc_task 99 0x400000 0x402000 0x40 (example_named 60) = Ret 0x100 s' ∧ get8 s' 0x15e = Some 97.
Proof.
  destruct (alloc_task_name_overflow 99 0x400000 0x402000 0x40 (replicate 60 97) 0x100 0x15c 0x2000 97 (example_named 60)
    (example_task 60) (example_vmm 60) 58 97) as (s' & E & Hb).
  - apply example_task_setting; [by right|done..].
  - reflexivity.
  - lia.
  - lia.
  - exists s'. split; [exact E|exact Hb].
Defined.

Lemma alloc_task_errors_witness :
  alloc_task 9 0x400000 0x402000 NULL (example_named 3) = Ret NULL (example_named 3) ∧
  alloc_task 9 0x400000 0x402000 0x40 (Arena (CArray 0x60 ∅) 0x40) = Ret NULL (Arena (CArray 0x60 ∅) 0x40).
Proof.
  split.
  - exact (proj1 (alloc_task_errors 9 0x400000 0x402000 NULL (example_named 3) 0 (example_named 3) 0 (example_named 3))).
  - destruct (alloc_task_errors 9 0x400000 0x402000 0x40 (Arena (CArray 0x60 ∅) 0x40) NULL (Arena (CArray 0x60 ∅) 0x40) 0
      (example_named 3)) as [_ Hr].
    destruct Hr as [Hr _]; [discriminate|reflexivity|]. exact (Hr eq_refl).
Defined.

(** The program of [Elf], loaded by the loader itself. *)
Definition example_loaded_task : arena :=
  state_of (alloc_task 9 0x400000 0x402000 0xC0003024 (example_system Text)) (example_system Text).
Definition example_loaded : arena := state_of (example_load_elf 0xC8000000 example_loaded_task) example_loaded_task.

Lemma example_loaded_facts :
  (λ s1 s4, (value_of (alloc_task 9 0x400000 0x402000 0xC0003024 (example_system Text)),
         get32 s1 0xC8000000, get32 s1 0xC800005c, get32 s1 0xC8000060, get32 s1 0xC8000058,
         value_of (example_load_elf 0xC8000000 s1), get32 s4 0xC8000040, asize (ar_mem s4))) example_loaded_task example_loaded
  = (Some 0xC8000000, Some 0xC800005c, Some 0xC8001000, Some 0xC8001000, Some 0xC8002000, Some SUCCESS, Some 0x1000, 0xD0000000).
Proof. vm_compute. reflexivity. Qed.

Lemma example_loaded_each :
  alloc_task 9 0x400000 0x402000 0xC0003024 (example_system Text) = Ret 0xC8000000 example_loaded_task ∧
  get32 example_loaded_task 0xC8000000 = Some 0xC800005c ∧ get32 example_loaded_task 0xC800005c = Some 0xC8001000 ∧
  get32 example_loaded_task 0xC8000060 = Some 0xC8001000 ∧ get32 example_loaded_task 0xC8000058 = Some 0xC8002000 ∧
  example_load_elf 0xC8000000 example_loaded_task = Ret SUCCESS example_loaded ∧
  get32 example_loaded 0xC8000040 = Some 0x1000 ∧ asize (ar_mem example_loaded) = 0xD0000000.
Proof.
  destruct (proj1 (pair_equal_spec _ _ _ _) example_loaded_facts) as [F F8].
  apply pair_equal_spec in F as [[[[[[F1 F2]%pair_equal_spec F3]%pair_equal_spec F4]%pair_equal_spec F5]%pair_equal_spec F6]%pair_equal_spec F7].
  split_and!; [exact (value_of_Ret _ _ _ F1)|exact F2|exact F3|exact F4|exact F5|exact (value_of_Ret _ _ _ F6)|exact F7|exact F8].
Qed.

(** Pages for the stack. *)
Definition with_stack (s : arena) : arena :=
  Arena (CArray (asize (ar_mem s) `max` (0xBFFFA000 + 4096 * 5)) (adata (ar_mem s))) (ar_next s).

Lemma load_task_spec_witness :
  ∃ s6, load_task 9 0x400000 0x402000 example_load_elf 0xC0003024 (example_system Text)
        = (jmp_to_userspace 0x1000 0xBFFFF000 ;; mret 0xC8000000) s6 ∧ get32 s6 0xC800003c = Some 0xBFFFF000.
Proof.
  destruct example_loaded_each as (F1 & F2 & F3 & F4 & F5 & F6 & F7 & F8).
  destruct (load_task_spec 9 0x400000 0x402000 example_load_elf 0xC0003024 (example_system Text) 0xC8000000 example_loaded_task
    0xC800005c 0xC8001000 0xC8001000 0xC8002000 example_loaded_task example_loaded_task example_loaded
    (with_stack example_loaded) 0x1000) as (s6 & E & _ & Ge & _).
  - exact F1.
  - lia.
  - lia.
  - lia.
  - lia.
  - exact F2.
  - exact F3.
  - discriminate.
  - exact F4.
  - reflexivity.
  - exact F5.
  - reflexivity.
  - exact F6.
  - reflexivity.
  - apply arena_mapped; [done|]. cbn [with_stack ar_mem asize]. rewrite F8. lia.
  - eapply (keeps_get32 (λ _, True) example_loaded); [|done|exact F7].
    intros b v _. apply (um_kept example_loaded 0xBFFFA000 5). reflexivity.
  - exists s6. split; [exact E|exact Ge].
Defined.

(** A loader that fails: the task is freed. *)
Lemma load_task_fails_witness :
  load_task 9 0x400000 0x402000 (λ _ s, Ret NO_SUCH_FILE s) 0xC0003024 (example_system Text)
  = (free_task 0xC8000000 ;; mret NULL) example_loaded_task.
Proof.
  destruct example_loaded_each as (F1 & F2 & F3 & F4 & F5 & _).
  destruct (load_task_fails 9 0x400000 0x402000 (λ _ s, Ret NO_SUCH_FILE s) 0xC0003024 (example_system Text) 0xC8000000 example_loaded_task
    0xC800005c 0xC8001000 0xC8001000 0xC8002000 example_loaded_task example_loaded_task NO_SUCH_FILE example_loaded_task
    SUCCESS (with_stack example_loaded_task)) as [E _].
  - exact F1.
  - lia.
  - lia.
  - lia.
  - lia.
  - exact F2.
  - exact F3.
  - discriminate.
  - exact F4.
  - reflexivity.
  - exact F5.
  - reflexivity.
  - reflexivity.
  - reflexivity.
  - apply E. discriminate.
Defined.
