(* ===== verification/Program.v ===== *)
(** * Programs from the ramdisk: [load_elf] and [load_task] on a file of the image

    A program is a list of bytes, the contents of a file that
    [rootfs/initrd_gen.py] put into the image.  What the bytes mean is said
    here without memory - the program headers they hold, and the memory they
    ask for - and [load_elf], with [file_open] and everything it calls, is
    shown to arrive at exactly that; [load_task] then enters user mode in it. *)

From S2P Require Import Prelude Memory Chain CString Bitmap Phys Paging Kheap Kmalloc KList Initrd InitrdGen Vfs File OpenFile Elf AddrSpace Task.

(** ** What the bytes of a program mean *)

Definition byte_of (data : list Z) (k : Z) : Z := nth (Z.to_nat k) data 0.
Definition word_of (data : list Z) (k : Z) : Z :=
  word_of_bytes (byte_of data k) (byte_of data (k + 1)) (byte_of data (k + 2)) (byte_of data (k + 3)).

Definition phdr_of (data : list Z) (k : Z) : phdr :=
  Phdr (word_of data k) (word_of data (k + 4)) (word_of data (k + 8)) (word_of data (k + 16)) (word_of data (k + 20))
    (word_of data (k + 24)).

Definition phoff_of (data : list Z) : Z := word_of data 28.
Definition phnum_of (data : list Z) : Z := half (byte_of data) 44.

(** The program headers. *)
Definition segments_of (data : list Z) : list phdr :=
  (λ k, phdr_of data (phoff_of data + 32 * Z.of_nat k)) <$> seq 0 (Z.to_nat (phnum_of data)).

(** An executable for this machine, with all of its program headers. *)
Definition is_executable (data : list Z) : bool :=
  bool_decide (ELF_HEADER_SIZE ≤ Z.of_nat (length data)) && elf_magic (byte_of data) && elf_supported (byte_of data) &&
  (half (byte_of data) 16 =? ET_EXEC) && (0 <? phnum_of data) &&
  bool_decide (phoff_of data + 32 * phnum_of data ≤ Z.of_nat (length data)).

(** A loadable segment lies within user memory and within the file. *)
Definition segment_fits (size : Z) (ph : phdr) : Prop :=
  loads ph = true →
  0 < ph_vaddr ph ∧ ph_vaddr ph mod 4096 = 0 ∧ ph_vaddr ph + 4096 * segment_pages ph < KERNEL_VIRTUAL_OFFSET ∧
  0 < ph_filesz ph ≤ ph_memsz ph ∧ ph_memsz ph < 2 ^ 31 - 4096 ∧
  0 ≤ ph_offset ph ∧ ph_offset ph + ph_filesz ph ≤ size.

(** The memory [g] with one segment over it, and with all of them in turn. *)
Definition segment_over (data : list Z) (g : Z → option Z) (ph : phdr) (b : Z) : option Z :=
  if loads ph && bool_decide (ph_vaddr ph ≤ b < seg_end ph) then
    if decide (b < ph_vaddr ph + ph_filesz ph) then data !! Z.to_nat (ph_offset ph + (b - ph_vaddr ph)) else Some 0
  else g b.

Definition program_over (data : list Z) (g : Z → option Z) : Z → option Z :=
  fold_left (segment_over data) (segments_of data) g.

Section contents.
Context {S : Type} `{ByteStoreLaws S}.
Implicit Types s : S.

Lemma byte_of_at s a data k : bytes_at s a data → 0 ≤ k < Z.of_nat (length data) → get8 s (a + k) = Some (byte_of data k).
Proof.
  intros B Hk. destruct (lookup_lt_is_Some_2 data (Z.to_nat k)) as [x Hx]; [lia|]. unfold byte_of.
  rewrite (nth_lookup_Some _ _ _ _ Hx), <-(B _ _ Hx). f_equal. lia.
Qed.

Lemma word_of_at s a data k : bytes_at s a data → 0 ≤ k → k + 4 ≤ Z.of_nat (length data) →
  get32 s (a + k) = Some (word_of data k).
Proof.
  intros B Hk Hk'. unfold get32, word_of. rewrite <-!Z.add_assoc.
  by rewrite !(byte_of_at s a data) by (done || lia).
Qed.

Lemma phdr_of_at s a data k : bytes_at s a data → 0 ≤ k → k + 32 ≤ Z.of_nat (length data) → phdr_at s (a + k) (phdr_of data k).
Proof.
  intros B Hk Hk'. unfold phdr_at, phdr_of. cbn [ph_type ph_offset ph_vaddr ph_filesz ph_memsz ph_flags].
  rewrite <-!Z.add_assoc. split_and!; apply word_of_at; done || lia.
Qed.

(** The file of an executable is one for the loader. *)
Lemma executable_file s f data : bytes_at s (fv_data f) data → fv_size f = Z.of_nat (length data) → is_executable data = true →
  executable f s (byte_of data) (segments_of data).
Proof.
  intros B Hs [[[[[Hl Hm]%andb_prop Hsu]%andb_prop Ht%Z.eqb_eq]%andb_prop Hn%Z.ltb_lt]%andb_prop Hp]%andb_prop.
  apply bool_decide_eq_true in Hl, Hp.
  assert (get32 s (fv_data f + 28) = Some (phoff_of data)) as Go by (apply word_of_at; [done|lia|unfold ELF_HEADER_SIZE in *; lia]).
  pose proof (get32_range _ _ _ Go) as Hor.
  assert (length (segments_of data) = Z.to_nat (phnum_of data)) as Hlen by (unfold segments_of; by rewrite length_fmap, length_seq).
  split.
  - intros k Hk. apply byte_of_at; [done|lia].
  - by rewrite Hm, Hsu.
  - rewrite Hlen. fold (phnum_of data). lia.
  - exists (phoff_of data). rewrite Hlen. split_and!; [done|lia|]. intros k ph Hk.
    apply list_lookup_fmap_Some in Hk as (j & -> & [-> Hj]%lookup_seq). rewrite Nat.add_0_l, <-Z.add_assoc.
    apply phdr_of_at; [done|lia|lia].
  - lia.
Qed.

Lemma segment_fits_ok f ph : segment_fits (fv_size f) ph → segment_ok f ph.
Proof. done. Qed.

(** What the bytes ask for is what the loader's image has. *)
Lemma program_over_image s f data (g g' : Z → option Z) b v :
  bytes_at s (fv_data f) data → (∀ v, g b = Some v → g' b = Some v) → Forall (segment_fits (Z.of_nat (length data))) (segments_of data) →
  program_over data g b = Some v → fold_left (load_over s f) (segments_of data) g' b = Some v.
Proof.
  intros B Hg HF. unfold program_over. revert g g' Hg. induction HF as [|ph phs Hph _ IH]; intros g g' Hg; simpl; [apply Hg|].
  apply IH. intros w. unfold segment_over, load_over. destruct (loads ph) eqn:Hl; cbn [andb]; [|apply Hg].
  case_bool_decide as Hc; [|apply Hg]. unfold segment_byte. case_decide as Hd; [|done]. intros Hw.
  destruct (Hph Hl) as (? & _ & _ & _ & _ & ? & _). rewrite <-(B _ _ Hw). f_equal. lia.
Qed.
End contents.

(** ** The loader on a mounted ramdisk *)

Section programs.
Context {S : Type} `{ByteStoreLaws S, !Allocator S, !AllocatorLaws S, !UserMemory S, !UserMemoryLaws S}.
Implicit Types s : S.
Variables (sfuel lfuel : nat) (mount_points tree_nodes lit : Z) (more : list Z) (mode_buf : Z).
Variables (open_address read_address close_address : Z) (r_literal elf_header_buf segments : Z).

Abbreviation the_scratch := (scratch tree_nodes lit mode_buf).
Abbreviation the_vfs_open :=
  (@vfs_open S _ _ (initrd_ops sfuel open_address read_address close_address) mount_points true sfuel lfuel tree_nodes).
Abbreviation the_load_elf := (@load_elf S _ _ (initrd_ops sfuel open_address read_address close_address) _ sfuel (lit :: more)
  mode_buf the_vfs_open r_literal elf_header_buf segments).

(** [n] bytes of kernel memory that are the program's, and no part of the
    ramdisk or of what [file_open] writes to. *)
Definition kernel_object s (mp fs img size a n : Z) : Prop :=
  KERNEL_VIRTUAL_OFFSET ≤ a ∧ a + n < 2 ^ 32 ∧ mapped s a n ∧ owned s a n ∧
  ∀ b, a ≤ b < a + n → ¬ the_scratch mp b ∧ ¬ fs ≤ b < fs + 56 ∧ ¬ img ≤ b < img + size.

(** The task, its name the path of a program, with everything the loader
    needs: the ramdisk, its two local arrays, and memory for [extra] pages more
    than the program has. *)
Record program_setting s (mp fs img : Z) (files : list (list Z * list Z)) (image : list Z)
    (task np : Z) (name data : list Z) (extra : Z) : Prop := {
  ps_ramdisk : ramdisk_mounted mount_points tree_nodes lit mode_buf open_address read_address close_address s mp fs img files image;
  ps_path : path_setting tree_nodes lit mode_buf s mp (task + 36) np name;
  ps_mode : read_mode sfuel lit mode_buf s (task + 36) r_literal;
  ps_fuel : (20 ≤ sfuel)%nat ∧ (0 < lfuel)%nat;
  ps_memory : memory_for (λ t, pages_of (segments_of data) + extra ≤ um_room t) [sizeof_node; sizeof_fs_node; sizeof_file] s ∧
    ∀ p s1, ∃ s2, al_free p s1 = Ret tt s2;
  ps_file : ∃ i, files !! i = Some (name, data) ∧ ∀ j f, (j < i)%nat → files !! j = Some f → f.1 ≠ name;
  ps_kernel : KERNEL_VIRTUAL_OFFSET ≤ fs ∧ KERNEL_VIRTUAL_OFFSET ≤ img ∧
    ∀ b, b < KERNEL_VIRTUAL_OFFSET → ¬ al_private s b ∧ ¬ the_scratch mp b;
  ps_task : kernel_object s mp fs img (Z.of_nat (length image)) task 92;
  ps_header : kernel_object s mp fs img (Z.of_nat (length image)) elf_header_buf ELF_HEADER_SIZE;
  ps_segments : kernel_object s mp fs img (Z.of_nat (length image)) segments (32 * phnum_of data);
  ps_apart : apart task 92 elf_header_buf ELF_HEADER_SIZE ∧ apart task 92 segments (32 * phnum_of data) ∧
    apart elf_header_buf ELF_HEADER_SIZE segments (32 * phnum_of data)
}.

(** What becomes of such memory when a file is opened. *)
Lemma object_after s s1 mp fs img size a n data f :
  kernel_object s mp fs img size a n → file_opened tree_nodes lit mode_buf read_address s s1 mp fs data f →
  img ≤ fv_data f → fv_data f + Z.of_nat (length data) ≤ img + size →
  mapped s1 a n ∧ ∀ b, a ≤ b < a + n → ¬ file_area f b ∧ get8 s1 b = get8 s b.
Proof.
  intros (_ & _ & Hm & Ho & Hb) [_ [Hsz _] Hfs _ _ Hnew K] Hr1 Hr2.
  assert (∀ b, a ≤ b < a + n → ¬ file_area f b ∧ get8 s1 b = get8 s b) as Hk.
  { intros b Hin. destruct (Hb b Hin) as (Hs & Hnf & Hni). destruct (Hnew b (Ho b Hin) Hs) as [H1 H2].
    destruct (K b Hs (Ho b Hin)) as [_ ->]. split; [|done]. unfold file_area. rewrite Hfs, Hsz. lia. }
  split; [|done]. intros b Hin. destruct (Hk b Hin) as [_ ->]. by apply Hm.
Qed.

(** The file's memory is kernel memory. *)
Lemma file_in_kernel s s1 mp fs img size data f b :
  file_opened tree_nodes lit mode_buf read_address s s1 mp fs data f →
  img ≤ fv_data f → fv_data f + Z.of_nat (length data) ≤ img + size →
  KERNEL_VIRTUAL_OFFSET ≤ fs → KERNEL_VIRTUAL_OFFSET ≤ img →
  (∀ b, b < KERNEL_VIRTUAL_OFFSET → ¬ al_private s b ∧ ¬ the_scratch mp b) → file_area f b → KERNEL_VIRTUAL_OFFSET ≤ b.
Proof.
  intros [_ [Hsz _] Hfs _ _ Hnew _] Hr1 Hr2 Hk1 Hk2 Hk3 Hb. unfold file_area in Hb. rewrite Hfs, Hsz in Hb.
  destruct (Z.le_gt_cases KERNEL_VIRTUAL_OFFSET b); [done|]. destruct (Hk3 b) as [Hp Hs]; [done|].
  destruct (Hnew b Hp Hs). lia.
Qed.

(** Opening the file of the task leads to the loader's setting. *)
Lemma program_opens s mp fs img files image task np name data extra :
  program_setting s mp fs img files image task np name data extra → is_executable data = true →
  ∃ s1 f, loader_setting sfuel read_address (lit :: more) mode_buf the_vfs_open r_literal elf_header_buf segments task f
      (table_size (segments_of data)) s s1 ∧
    file_opened tree_nodes lit mode_buf read_address s s1 mp fs data f ∧
    pages_of (segments_of data) + extra ≤ um_room s1 ∧ ∀ b, task ≤ b < task + 92 → get8 s1 b = get8 s b.
Proof.
  intros [Hd Hp Hm [Hf1 Hf2] [Hmem Hfree] (i & Hi & Hfirst) (Hk1 & Hk2 & Hk3) Ht Hh Hg (A1 & A2 & A3)] Hx.
  edestruct (@file_open_ok S) as (s1 & f & E & Hf0 & Ho & [Hr1 Hr2] & Hroom); [done..|].
  destruct (object_after _ _ _ _ _ _ _ _ _ _ Ht Ho Hr1 Hr2) as [_ Kt].
  destruct (object_after _ _ _ _ _ _ _ _ _ _ Hh Ho Hr1 Hr2) as [Mh Kh].
  destruct (object_after _ _ _ _ _ _ _ _ _ _ Hg Ho Hr1 Hr2) as [Mg Kg].
  assert (table_size (segments_of data) = 32 * phnum_of data) as Hts.
  { unfold is_executable in Hx. rewrite !andb_true_iff in Hx. destruct Hx as [[_ Hn%Z.ltb_lt] _].
    unfold table_size, segments_of. rewrite length_fmap, length_seq. lia. }
  exists s1, f. split_and!; [|done|exact (memory_for_end _ _ Hroom)|intros b Hb; by apply Kt].
  destruct Ht as (T1 & T2 & _). destruct Hh as (B1 & B2 & _). destruct Hg as (G1 & G2 & _). unfold apart in *.
  pose proof Ho as [[Hfile _] [Hsz _] _ _ _ _ _].
  assert (∀ b, task ≤ b < task + 92 → ¬ file_area f b) as Ktf by (intros b Hb; by apply Kt).
  split; rewrite ?Hts; try done.
  - split_and!; [done|done|]. intros b Hb. split; [by eapply file_in_kernel|]. intros Hc. by apply (Ktf b Hc).
  - unfold task_name. rewrite u32_small by (unfold KERNEL_VIRTUAL_OFFSET in *; lia). exact E.
  - rewrite Hsz. unfold is_executable in Hx. rewrite !andb_true_iff, bool_decide_eq_true in Hx. tauto.
  - split_and!; [done|done|done|]. intros b Hb. split; [by apply Kh|lia].
  - split_and!; [done|done|done|]. intros b Hb. split; [by apply Kg|lia].
Qed.

(** The loader, from the bytes of the program. *)
Lemma load_program_ok s mp fs img files image task np name data extra text_begin data_begin :
  program_setting s mp fs img files image task np name data extra → is_executable data = true →
  Forall (segment_fits (Z.of_nat (length data))) (segments_of data) → task_begins task s text_begin data_begin → 0 ≤ extra →
  ∃ s', the_load_elf task s = Ret SUCCESS s' ∧
    task_begins task s' (begin_of PF_RX (segments_of data) text_begin) (begin_of PF_RW (segments_of data) data_begin) ∧
    (∀ b v, b < KERNEL_VIRTUAL_OFFSET → program_over data (get8 s) b = Some v → get8 s' b = Some v) ∧
    extra ≤ um_room s' ∧
    keeps (λ b, task ≤ b < task + 92 ∧ ¬ task + 64 ≤ b < task + 68 ∧ ¬ task + 72 ≤ b < task + 76) s s'.
Proof.
  intros Hp Hx HF [Gt Gd] Hex. pose proof Hp as [_ _ _ _ _ _ (_ & _ & Hk3) _ _ _ (A1 & A2 & _)].
  destruct (program_opens _ _ _ _ _ _ _ _ _ _ _ Hp Hx) as (s1 & f & Hls & Ho & Hroom & Kt).
  pose proof Ho as [_ [Hsz B] _ _ _ _ K]. pose proof Hls as [Hlay _ _ _ _ _ _].
  assert (∀ a, task ≤ a → a + 4 ≤ task + 92 → get32 s1 a = get32 s a) as Hw
    by (intros a ? ?; apply get32_ext; intros b Hb; apply Kt; lia).
  assert (table_size (segments_of data) = 32 * phnum_of data) as Hts.
  { unfold is_executable in Hx. rewrite !andb_true_iff in Hx. destruct Hx as [[_ Hn%Z.ltb_lt] _].
    unfold table_size, segments_of. rewrite length_fmap, length_seq. lia. }
  destruct (load_elf_ok sfuel open_address read_address close_address (lit :: more) mode_buf the_vfs_open r_literal elf_header_buf
    segments task f (byte_of data) (segments_of data) s s1 text_begin data_begin) as (s' & E & U & T & G & KK); try done.
  - by apply executable_file.
  - eapply Forall_impl; [exact HF|]. intros ph Hph. apply segment_fits_ok. by rewrite Hsz.
  - split; by rewrite Hw by lia.
  - lia.
  - exists s'. split_and!; [done|done| |lia|].
    + intros b v Hb Hv. apply G; [done|]. unfold Elf.image. eapply program_over_image; [exact B| |exact HF|exact Hv].
      intros w. by rewrite (proj2 (K b (proj2 (Hk3 b Hb)) (proj1 (Hk3 b Hb)))).
    + intros b v (Hb & H1 & H2) Ev. destruct Hlay as (L1 & L2 & L3). unfold apart in A1, A2. apply KK; [|by rewrite Kt].
      rewrite Hts. split_and!; [|lia|lia]. split; [|done]. split; [lia|]. intros Hc. destruct (L3 b) as [_ Hn]; [unfold file_area; lia|done].
Qed.
End programs.

(** ** Properties *)

Section program_properties.
Context {S : Type} `{ByteStoreLaws S, !Allocator S, !AllocatorLaws S, !UserMemory S, !UserMemoryLaws S}.
Implicit Types s : S.
Variables (sfuel lfuel : nat) (mount_points tree_nodes lit : Z) (more : list Z) (mode_buf : Z).
Variables (open_address read_address close_address : Z) (r_literal elf_header_buf segments : Z).

Abbreviation the_program_setting :=
  (program_setting sfuel lfuel mount_points tree_nodes lit mode_buf open_address read_address close_address r_literal elf_header_buf segments).
Abbreviation the_load_elf := (@load_elf S _ _ (initrd_ops sfuel open_address read_address close_address) _ sfuel (lit :: more) mode_buf
  (@vfs_open S _ _ (initrd_ops sfuel open_address read_address close_address) mount_points true sfuel lfuel tree_nodes)
  r_literal elf_header_buf segments).


End program_properties.

(** ** Witness *)

(** The program of [Elf], as the only file [a] of an image at 0xC1000000: the
    file system at 0xC0001000 is mounted on the root at 0xC0002100, the variable
    [mount_points] is at 0xC0002000, the path at 0xC0003024, the literals of the
    mode at 0xC0004000 and 0xC0004010, its copy at 0xC0004100, the local list at
    0xC0004200; memory is allocated from 0xC8000000 on. *)
Definition example_data : list Z := example_program Text.
Definition example_program_files : list (list Z * list Z) := [([97], example_data)].
Definition example_program_image : list Z := default [] (create_initrd example_program_files).

Definition example_machine : arena := Arena (CArray 0xD0000000
  (put_bytes 0xC1000000 example_program_image
  (put_bytes 0xC000101C [0; 0; 0; 0xC1; 0; 1; 0; 0xC1; 7; 0; 0; 0; 0; 0; 0; 0; 6; 0; 0; 0; 8; 0; 0; 0]
  (put_bytes 0xC0002000 [0; 0x21; 0; 0xC0]
  (put_bytes 0xC000222C [0; 0x10; 0; 0xC0]
  (put_bytes 0xC0003024 [97; 0]
  (put_bytes 0xC0004000 [114; 0]
  (put_bytes 0xC0004010 [114; 0] ∅)))))))) 0xC8000000.

(** The machine with the task allocated, at 0xC8000000. *)
Definition example_ready : arena := state_of (alloc_task 20 0x400000 0x402000 0xC0003024 example_machine) example_machine.

(** The bytes [xs] at [a], decided. *)
Fixpoint bytes_atb (s : arena) (a : Z) (xs : list Z) : bool :=
  match xs with [] => true | x :: xs' => bool_decide (get8 s a = Some x) && bytes_atb s (a + 1) xs' end.

Lemma bytes_atb_at s a xs : bytes_atb s a xs = true → bytes_at s a xs.
Proof.
  revert a. induction xs as [|x xs IH]; intros a; cbn [bytes_atb]; [intros _ [|k] y Hk; done|].
  intros [E HB]%andb_prop [|k] y Hk; cbn [lookup list_lookup] in Hk.
  { rewrite bool_decide_eq_true in E. rewrite Z.add_0_r, E. done. }
  rewrite <-(IH (a + 1) HB k y Hk). f_equal. lia.
Qed.

Lemma example_ready_arena :
  value_of (alloc_task 20 0x400000 0x402000 0xC0003024 example_machine) = Some 0xC8000000 ∧
  asize (ar_mem example_ready) = 0xD0000000 ∧ ar_next example_ready = 0xC8003000.
Proof. split_and!; vm_compute; reflexivity. Qed.

Lemma example_ready_disk :
  get32 example_ready 0xC0002000 = Some 0xC0002100 ∧ get32 example_ready 0xC000222C = Some 0xC0001000 ∧
  get32 example_ready 0xC0002230 = Some NULL ∧ get32 example_ready 0xC0002234 = Some NULL ∧
  get32 example_ready 0xC000101C = Some 0xC1000000 ∧ get32 example_ready 0xC0001024 = Some 7 ∧
  get32 example_ready 0xC000102C = Some 6 ∧ get32 example_ready 0xC0001030 = Some 8.
Proof. split_and!; vm_compute; reflexivity. Qed.

Lemma example_ready_task :
  get32 example_ready 0xC8000000 = Some 0xC800005c ∧ get32 example_ready 0xC800005c = Some 0xC8001000 ∧
  get32 example_ready 0xC8000060 = Some 0xC8001000 ∧ get32 example_ready 0xC8000058 = Some 0xC8002000 ∧
  get32 example_ready 0xC8000040 = Some 0 ∧ get32 example_ready 0xC8000048 = Some 0.
Proof. split_and!; vm_compute; reflexivity. Qed.

Lemma example_ready_image : bytes_at example_ready 0xC1000000 example_program_image.
Proof. apply bytes_atb_at. vm_compute. reflexivity. Qed.

Lemma example_ready_strings :
  cstr example_ready 0xC8000024 [97] ∧ cstr example_ready 0xC0004000 [114] ∧ cstr example_ready 0xC0004010 [114].
Proof. split_and!; apply cstrb_cstr; vm_compute; reflexivity. Qed.

Lemma example_ready_mapped a n : 0 ≤ a → a + n ≤ 0xD0000000 → mapped example_ready a n.
Proof. intros. apply arena_mapped; [done|]. by rewrite (proj1 (proj2 example_ready_arena)). Qed.

Lemma example_ready_owned a n : a + n ≤ 0xC8003000 → owned example_ready a n.
Proof. intros ? b Hb. change (¬ ar_next example_ready ≤ b). rewrite (proj2 (proj2 example_ready_arena)). lia. Qed.

Lemma example_program_image_length : Z.of_nat (length example_program_image) = 4096.
Proof. vm_compute. reflexivity. Qed.

Lemma example_ready_mounted :
  ramdisk_mounted 0xC0002000 0xC0004200 0xC0004010 0xC0004100 6 7 8 example_ready 0xC0002100 0xC0001000 0xC1000000
    example_program_files example_program_image.
Proof.
  destruct example_ready_disk as (G1 & G2 & G3 & G4 & G5 & G6 & G7 & G8).
  split; rewrite ?example_program_image_length; unfold scratch, mode_scratch, open_kept.
  - split; cbv beta; [exact (conj G1 (example_ready_owned 0xC0002000 4 ltac:(lia)))
      |split_and!; [lia|lia|apply example_ready_owned; lia]|exact (conj G3 G4)|exact (conj G2 G7)
      |split_and!; [lia|lia|apply example_ready_owned; lia]
      |split_and!; [lia|lia|apply example_ready_mapped; lia|apply example_ready_owned; lia]|unfold apart; lia|unfold apart; lia].
  - exact (conj G6 G8).
  - split_and!; [vm_compute; reflexivity|exact example_ready_image|exact G5].
  - lia.
  - apply example_ready_owned. lia.
  - repeat constructor; discriminate.
  - lia.
  - lia.
Qed.

Lemma example_ready_mode : read_mode 20 0xC0004010 0xC0004100 example_ready 0xC8000024 0xC0004000.
Proof.
  destruct example_ready_strings as (_ & HB & _ & _ & L0 & _ & L1). split.
  - split; unfold apart; change (mode_buf_size [114]) with 3; change (length [114]) with 1%nat.
    + discriminate.
    + split_and!; [exact HB|lia|unfold INT_MAX; lia].
    + lia.
    + split; [apply example_ready_mapped; lia|apply example_ready_owned; lia].
    + lia.
  - split; [|unfold apart; lia]. split; [lia|by repeat constructor| |].
    + intros [|[|k]] x Hk; [..|lia]; intros [= <-]; [exact L0|exact L1].
    + split; [apply (example_ready_mapped 0xC0004010 3); lia|apply (example_ready_owned 0xC0004010 3); lia].
Qed.

Lemma example_object size a n : 0xC0004300 ≤ a → a + n ≤ 0xC1000000 ∨ 0xC1000000 + size ≤ a → a + n ≤ 0xC8003000 →
  kernel_object 0xC0004200 0xC0004010 0xC0004100 example_ready 0xC0002100 0xC0001000 0xC1000000 size a n.
Proof.
  intros. split_and!; [unfold KERNEL_VIRTUAL_OFFSET; lia|lia|apply example_ready_mapped; lia|apply example_ready_owned; lia|].
  unfold scratch, mode_scratch, open_kept. lia.
Qed.

Lemma example_program_setting extra : 0 ≤ extra ≤ 5 →
  program_setting 20 1 0xC0002000 0xC0004200 0xC0004010 0xC0004100 6 7 8 0xC0004000 0xC0005000 0xC0005100 example_ready
    0xC0002100 0xC0001000 0xC1000000 example_program_files example_program_image 0xC8000000 0xC8000024 [97] example_data extra.
Proof.
  intros He. destruct example_ready_strings as (HN & _).
  destruct example_ready_arena as (_ & Hsz & Hnx). assert (phnum_of example_data = 1) as Hn by (vm_compute; reflexivity).
  split; rewrite ?Hn, ?example_program_image_length; unfold apart, KERNEL_VIRTUAL_OFFSET, ELF_HEADER_SIZE.
  - exact example_ready_mounted.
  - split; [split_and!; [lia| |exact HN]|].
    + right. split; [|reflexivity]. exists 97. split; [exact (cstr_first _ _ _ HN)|discriminate].
    + unfold path_bytes, scratch, mode_scratch, open_kept. change (length [97]) with 1%nat. intros b Hb.
      split; [apply (example_ready_owned b 1); lia|lia].
  - exact example_ready_mode.
  - lia.
  - split; [|intros p s1; by eexists]. apply arena_memory_for; [|by repeat constructor|by rewrite Hnx|rewrite Hnx, Hsz; discriminate|by rewrite Hsz].
    intros t. change (um_room t) with (2 ^ 20). assert (pages_of (segments_of example_data) = 1) as -> by (vm_compute; reflexivity). lia.
  - exists 0%nat. split; [reflexivity|lia].
  - split_and!; [lia|lia|]. intros b Hb. split; [apply (example_ready_owned b 1); lia|unfold scratch, mode_scratch, open_kept; lia].
  - apply example_object; lia.
  - apply example_object; lia.
  - apply example_object; lia.
  - lia.
Qed.

Lemma example_fits : Forall (segment_fits (Z.of_nat (length example_data))) (segments_of example_data).
Proof.
  assert (segments_of example_data = [Phdr PT_LOAD 84 0x1000 3 8 PF_RX]) as -> by (vm_compute; reflexivity).
  repeat constructor; done.
Qed.

Lemma example_ready_begins : task_begins 0xC8000000 example_ready 0 0.
Proof. destruct example_ready_task as (_ & _ & _ & _ & G5 & G6). exact (conj G5 G6). Qed.

Abbreviation example_run_elf := (@load_elf arena _ _ (initrd_ops 20 6 7 8) _ 20 [0xC0004010] 0xC0004100
  (@vfs_open arena _ _ (initrd_ops 20 6 7 8) 0xC0002000 true 20 1 0xC0004200) 0xC0004000 0xC0005000 0xC0005100).


