(* ===== verification/Keyboard.v ===== *)
(** * Keyboard and system calls: [kernel/drivers/keyboard/keyboard_driver.c],
    [kernel/syscall.c]

    Both print on the screen and use the interrupt table, so their state is
    the two together.  The keyboard controller is hardware: it has a queue of
    scan codes; its status register tells whether the queue is empty, its
    data register takes the first code off. *)

From Stdlib Require Import String.
From S2P Require Import Prelude Memory CString CPtr Bitmap Phys Paging Kheap Kmalloc Irq Vga Stdio Logger PortIO.

Record system (T : Type) := System {
  sys_screen : vga_state T;
  sys_irq : irq_state;
  sys_keys : list Z
}.
Arguments System {T} _ _ _.
Arguments sys_screen {T} _.
Arguments sys_irq {T} _.
Arguments sys_keys {T} _.

Definition on_screen {T A} : M (vga_state T) A → M (system T) A :=
  zoom sys_screen (λ v s, System v (sys_irq s) (sys_keys s)).
Definition on_irq {T A} : M irq_state A → M (system T) A :=
  zoom sys_irq (λ i s, System (sys_screen s) i (sys_keys s)).

(** The ports: the keyboard's are read, what is written goes to the log. *)
#[export] Instance system_ports {T} : PortIO (system T) := {|
  read_port port s :=
    if port =? 0x64 then Ret (match sys_keys s with [] => 0 | _ => 1 end) s
    else if port =? 0x60 then Ret (u8 (hd 0 (sys_keys s))) (System (sys_screen s) (sys_irq s) (tl (sys_keys s)))
    else Ret 0 s;
  write_port port v := on_irq (Irq.write_port port v);
  read_word_port _ s := Ret 0 s;
  write_word_port _ _ s := Ret tt s
|}.

(** 0 where no character belongs to the key. *)
Definition keyboard_map : list Z :=
  [0; 27; 49; 50; 51; 52; 53; 54; 55; 56;
   57; 48; 45; 61; 8;
   9;
   113; 119; 101; 114;
   116; 121; 117; 105; 111; 112; 91; 93; 10;
   0;
   97; 115; 100; 102; 103; 104; 106; 107; 108; 59;
   39; 96; 0;
   92; 122; 120; 99; 118; 98; 110;
   109; 44; 46; 47; 0;
   42;
   0;
   32;
   0;
   0;
   0; 0; 0; 0; 0; 0; 0; 0;
   0;
   0;
   0;
   0;
   0;
   0;
   45;
   0;
   0;
   0;
   43;
   0;
   0;
   0;
   0;
   0;
   0; 0; 0;
   0;
   0;
   0] ++ replicate 38 0.

Definition loaded_message : list Z := chars "Keyboard driver loaded successfuly!"%string.
Definition handler_message : list Z := chars "lalallalalalalalalal"%string ++ [10].
Definition syscalls_message : list Z := chars "Initialized system calls successfuly"%string.

Section keyboard_c.
Context {T : Type} `{ByteStore T}.
Variable null_string : Z.
Variable print_buf : list Z.
Variable fuel : nat.

(** The addresses of [keyboard_irq] and [interrupt_80]. *)
Variables keyboard_irq_address interrupt_80 : Z.

Definition keyboard_init : M (system T) unit :=
  on_irq (register_irq keyboard_irq_address 1) ;;
  write_port 0x21 0xFD ;;
  on_screen (log_print null_string print_buf fuel LOG_DEBUG
    (literal loaded_message) []).

(** [keyboard_map[keycode]] *)
Definition read_keyboard_map (keycode : Z) : M (system T) Z := λ s,
  match keyboard_map !! Z.to_nat keycode with Some c => Ret c s | None => Fault end.

Definition keyboard_irq : M (system T) unit :=
  status ← read_port 0x64;
  if negb (Z.land status 0x01 =? 0) then
    r ← read_port 0x60;
    let keycode := i8 r in
    if keycode >=? 0 then
      c ← read_keyboard_map keycode;
      if negb (c =? 0) then
        _ ← on_screen (printf null_string print_buf fuel (literal [37; 99]) [c]);
        mret tt
      else mret tt
    else mret tt
  else mret tt.

(** [kernel/syscall.c] *)
Definition SYSCALL_IDT_ENTRY : Z := 0x80.
Definition IDT__RING3 : Z := Z.shiftl 3 5.

Definition system_calls_init : M (system T) unit :=
  on_irq (load_idt_entry SYSCALL_IDT_ENTRY (u32 interrupt_80) KERNEL_CODE_SEGMENT
    (Z.lor (Z.lor IDT__PRESENT IDT__RING3) IDT__INTERRUPT_GATE)) ;;
  on_screen (log_print null_string print_buf fuel LOG_DEBUG
    (literal syscalls_message) []).

(** [while(1);] *)
Fixpoint spin (n : nat) : M (system T) unit :=
  match n with O => mtimeout | Datatypes.S n' => spin n' end.

Definition default_system_call_handler (n : nat) : M (system T) unit :=
  _ ← on_screen (printf null_string print_buf fuel
    (literal handler_message) []);
  spin n.

(** [kernel/entry.c]: [kmain] from the interrupt table to the keyboard. *)
Variables (idt_table_address : Z) (irq_stub : Z → Z).

Definition log_info (message : list Z) : M (system T) unit :=
  on_screen (log_print null_string print_buf fuel LOG_INFO (literal message) []).

Definition kmain_interrupts : M (system T) unit :=
  log_info (chars "Initializing IDT"%string) ;;
  on_irq (idt_init idt_table_address) ;;
  log_info (chars "Initializing IRQ Handlers"%string) ;;
  on_irq (irq_init irq_stub) ;;
  log_info (chars "Initializing keyboard driver"%string) ;;
  keyboard_init.

(** The keyboard's interrupt: line 1 at [default_irq_handler]; of the
    handlers, the driver's is the one known here. *)
Definition key_interrupt : M (system T) unit :=
  default_irq_handler sys_irq (λ i s, System (sys_screen s) i (sys_keys s))
    (λ h, if h =? keyboard_irq_address then keyboard_irq else mfault) 1.
End keyboard_c.

(** ** One key *)

Definition key_char (k : Z) : Z := if k <? 128 then default 0 (keyboard_map !! Z.to_nat k) else 0.

Lemma keyboard_map_chars k c : keyboard_map !! k = Some c → c = 0 ∨ k = 14%nat ∧ c = 8 ∨ (0 < c < 128 ∧ c ≠ 8 ∧ c ≠ 13).
Proof.
  intros Hk. assert (forallb (λ k, match keyboard_map !! k with
    | Some c => (c =? 0) || ((k =? 14)%nat && (c =? 8)) || ((0 <? c) && (c <? 128) && negb (c =? 8) && negb (c =? 13))
    | None => false end) (seq 0 128) = true) as Hall by (vm_compute; reflexivity).
  rewrite forallb_forall in Hall. specialize (Hall k). rewrite in_seq, Hk in Hall.
  pose proof (lookup_lt_Some _ _ _ Hk) as Hl. change (List.length keyboard_map) with 128%nat in Hl.
  specialize (Hall ltac:(lia)).
  rewrite !orb_true_iff, !andb_true_iff, !negb_true_iff, Nat.eqb_eq, !Z.eqb_eq, !Z.eqb_neq, !Z.ltb_lt in Hall. lia.
Qed.

Section keys.
Context {T : Type} `{ByteStoreLaws T}.
Implicit Types scr : vga_state T.
Variable null_string : Z.
Variable print_buf : list Z.
Variable fuel : nat.
Hypothesis Hbuf : List.length print_buf = PRINT_BUF_LEN.
Hypothesis Hfuel : (12 < fuel)%nat.
Abbreviation irq := (keyboard_irq null_string print_buf fuel).

Lemma printf_char_ok scr c : screen_ok scr → 0 < c < 256 → c ≠ 8 → c ≠ 13 →
  ∃ scr', printf null_string print_buf fuel (literal [37; 99]) [c] scr = Ret 1 scr' ∧ shown [c] scr scr'.
Proof.
  intros Hok Hc H8 H13. unfold printf, print.
  destruct (print_loop_ok null_string print_buf Hbuf fuel Hfuel fuel scr (literal [37; 99]) [Conv false 0 [] Chr] [c] [c] [] 0)
    as (scr' & E & S').
  - done.
  - apply text_literal. repeat constructor; lia.
  - repeat constructor; vm_compute; congruence.
  - pose proof (text_chr null_string fuel scr false 0 [] c []) as Ht. rewrite u8_small in Ht by lia.
    rewrite (proj2 (Z.eqb_neq c 0)) in Ht by lia. change (padded false (negb (0 =? 0)%nat) (width_value []) [c]) with [c] in Ht.
    apply (items_cons _ _ _ _ _ [c] [c] [] [] [] Ht). constructor.
  - constructor; [|constructor]. simpl. lia.
  - done.
  - done.
  - simpl. lia.
  - simpl. lia.
  - run E. by exists scr'.
Qed.

(** Key [k], the first in the queue. *)
Lemma keyboard_irq_ok scr i k ks : screen_ok scr → 0 ≤ k < 256 → k ≠ 14 →
  ∃ scr', irq (System scr i (k :: ks)) = Ret tt (System scr' i ks) ∧
    shown (if key_char k =? 0 then [] else [key_char k]) scr scr'.
Proof.
  intros Hok Hk H14. unfold keyboard_irq.
  assert (read_port 0x64 (System scr i (k :: ks)) = Ret 1 (System scr i (k :: ks))) as E1 by done. run E1.
  change (negb (Z.land 1 0x01 =? 0)) with true. cbv iota.
  assert (read_port 0x60 (System scr i (k :: ks)) = Ret k (System scr i ks)) as E2 by (unfold read_port; simpl; by rewrite u8_small).
  run E2. cbv zeta. unfold key_char. destruct (Z.ltb_spec k 128) as [Hlt|Hge].
  - assert (i8 k = k) as -> by (unfold i8; change (2 ^ 7) with 128; change (2 ^ 8) with 256; dlia).
    rewrite Z.geb_leb, (proj2 (Z.leb_le 0 k)) by lia. unfold read_keyboard_map.
    destruct (lookup_lt_is_Some_2 keyboard_map (Z.to_nat k)) as [c Hc].
    { change (List.length keyboard_map) with 128%nat. lia. }
    assert (read_keyboard_map k (System scr i ks) = Ret c (System scr i ks)) as E3 by (unfold read_keyboard_map; by rewrite Hc).
    unfold read_keyboard_map in E3. run E3. rewrite Hc. simpl default.
    destruct (keyboard_map_chars _ _ Hc) as [-> | [[Hx _] | (Hcr & H8 & H13)]]; [| lia |].
    + exists scr. split; [done|by apply shown_nil].
    + rewrite (proj2 (Z.eqb_neq c 0)) by lia. cbn [negb].
      destruct (printf_char_ok scr c Hok ltac:(lia) H8 H13) as (scr' & E4 & S4).
      unfold on_screen. run (zoom_Ret sys_screen (λ v s, System v (sys_irq s) (sys_keys s)) _ (System scr i ks) _ _ E4).
      by exists scr'.
  - assert (i8 k = k - 256) as -> by (unfold i8; change (2 ^ 7) with 128; change (2 ^ 8) with 256; dlia).
    rewrite Z.geb_leb, (proj2 (Z.leb_gt 0 (k - 256))) by lia. exists scr. split; [done|by apply shown_nil].
Qed.
End keys.

(** ** Properties *)

(** [n] times. *)
Fixpoint repeated {S} (n : nat) (m : M S unit) : M S unit :=
  match n with O => mret tt | Datatypes.S n' => m ;; repeated n' m end.

(** What a sequence of scan codes types. *)
Definition typed (ks : list Z) : list Z := filter (λ c, c ≠ 0) (key_char <$> ks).

(** The privilege level a gate asks of a software interrupt. *)
Definition gate_ring (g : option idt_entry) : option Z := (λ g, Z.land (Z.shiftr (flags g) 5) 3) <$> g.

Section properties.
Context {T : Type} `{ByteStoreLaws T}.
Implicit Types scr : vga_state T.

(** Enabling: after [keyboard_init] line 1 has the driver's handler and the
    first controller, when it is not being initialised, lets this line through
    alone; the other lines keep their handlers and the table its gates. *)
Lemma keyboard_init_ok null_string print_buf fuel address scr i ks p :
  List.length print_buf = PRINT_BUF_LEN → (50 < fuel)%nat → screen_ok scr → address ≠ NULL →
  phase (pic_after PIC_1_CTRL p (ports i)) = Ready →
  ∃ scr' i', keyboard_init null_string print_buf fuel address (System scr i ks) =
      Ret tt (System (with_color VGA_DEFAULT_COLOR scr') i' ks) ∧
    shown (LOG_PREFIXS LOG_DEBUG ++ loaded_message ++ [10]) (with_color (colors LOG_DEBUG) scr) scr' ∧
    irq_handlers i' = <[1 := address]> (irq_handlers i) ∧ idt_table i' = idt_table i ∧
    let m := pic_after PIC_1_CTRL p (ports i') in
    mask m = 0xFD ∧ vector_base m = vector_base (pic_after PIC_1_CTRL p (ports i)).
Proof.
  intros Hbuf Hf Hok Ha Hph.
  destruct (log_print_literal null_string print_buf fuel scr LOG_DEBUG loaded_message) as (scr' & E & Sh);
    [done|done|by repeat constructor|done|change (List.length loaded_message) with 35%nat; lia|lia|].
  set (hs := <[1 := address]> (irq_handlers i)).
  assert (register_irq address 1 i = Ret SUCCESS (IrqState (idt_table i) (idt_limit i) (idt_base i) hs (ports i))) as E1.
  { unfold register_irq. by rewrite (proj2 (Z.eqb_neq address NULL)) by done. }
  exists scr', (IrqState (idt_table i) (idt_limit i) (idt_base i) hs (ports i ++ [(0x21, 0xFD)])).
  cbn [irq_handlers idt_table ports]. split; [|split_and!; [done|done|done|..]].
  - unfold keyboard_init, on_irq, on_screen.
    run (zoom_Ret sys_irq (λ j s, System (sys_screen s) j (sys_keys s)) _ (System scr i ks) _ _ E1).
    erewrite bind_Ret by reflexivity.
    apply (zoom_Ret sys_screen (λ v s, System v (sys_irq s) (sys_keys s)) _ (System scr _ ks) _ _ E).
  - unfold pic_after in *. rewrite foldl_app. cbn [foldl]. set (m := foldl _ p _) in *.
    unfold pic_write. cbn [fst snd]. change (0x21 =? PIC_1_CTRL) with false.
    change (0x21 =? PIC_1_CTRL + 1) with true. cbv iota. unfold pic_data. by rewrite Hph.
  - unfold pic_after in *. rewrite foldl_app. cbn [foldl]. set (m := foldl _ p _) in *.
    unfold pic_write. cbn [fst snd]. change (0x21 =? PIC_1_CTRL) with false.
    change (0x21 =? PIC_1_CTRL + 1) with true. cbv iota. unfold pic_data. by rewrite Hph.
Qed.

(** The gate of the system calls. *)
Lemma system_calls_init_ok null_string print_buf fuel stub scr i ks :
  List.length print_buf = PRINT_BUF_LEN → (50 < fuel)%nat → screen_ok scr → 0 ≤ stub < 2 ^ 32 →
  ∃ scr' g, system_calls_init null_string print_buf fuel stub (System scr i ks) =
      Ret tt (System (with_color VGA_DEFAULT_COLOR scr')
        (IrqState (<[0x80 := g]> (idt_table i)) (idt_limit i) (idt_base i) (irq_handlers i) (ports i)) ks) ∧
    printed scr (with_color VGA_DEFAULT_COLOR scr') ∧ routes_to (Some g) stub ∧ gate_ring (Some g) = Some 3.
Proof.
  intros Hbuf Hf Hok Ha.
  destruct (log_print_literal null_string print_buf fuel scr LOG_DEBUG syscalls_message) as (scr' & E & Sh);
    [done|done|by repeat constructor|done|change (List.length syscalls_message) with 36%nat; lia|lia|].
  set (g := make_idt_entry (u32 stub) KERNEL_CODE_SEGMENT (Z.lor (Z.lor IDT__PRESENT IDT__RING3) IDT__INTERRUPT_GATE)).
  exists scr', g. split_and!; [|eapply printed_color; [by vm_compute|exact (shown_printed _ _ _ Sh)]| |done].
  - unfold system_calls_init, on_irq, on_screen. erewrite bind_Ret by reflexivity.
    exact (zoom_Ret sys_screen (λ v s, System v (sys_irq s) (sys_keys s)) _ (System scr _ ks) _ _ E).
  - exists g. split; [done|]. split_and!; [|done..].
    unfold g. rewrite make_idt_entry_offset; by rewrite u32_small.
Qed.

Lemma log_info_ok null_string print_buf fuel scr i ks (message : list Z) :
  List.length print_buf = PRINT_BUF_LEN → screen_ok scr →
  Forall (λ x, 0 < x < 256 ∧ x ≠ 37 ∧ x ≠ 8 ∧ x ≠ 13) message → Z.of_nat (List.length message) ≤ INT_MAX →
  (List.length message < fuel)%nat → (12 < fuel)%nat →
  ∃ scr', log_info null_string print_buf fuel message (System scr i ks) = Ret tt (System scr' i ks) ∧ printed scr scr'.
Proof.
  intros Hbuf Hok Hm Hl Hf1 Hf2.
  destruct (log_print_literal null_string print_buf fuel scr LOG_INFO message) as (scr' & E & Sh); [done..|].
  exists (with_color VGA_DEFAULT_COLOR scr'). split.
  - exact (zoom_Ret sys_screen (λ v s, System v (sys_irq s) (sys_keys s)) _ (System scr i ks) _ _ E).
  - eapply printed_color; [by vm_compute|exact (shown_printed _ _ _ Sh)].
Qed.

(** One interrupt: the key is handled, and acknowledged at the first controller. *)
Lemma key_interrupt_ok null_string print_buf fuel address scr i k ks :
  List.length print_buf = PRINT_BUF_LEN → (12 < fuel)%nat → screen_ok scr → 0 ≤ k < 256 → k ≠ 14 →
  irq_handlers i !! 1 = Some address → address ≠ NULL →
  ∃ scr', key_interrupt null_string print_buf fuel address (System scr i (k :: ks)) = Ret tt (System scr'
      (IrqState (idt_table i) (idt_limit i) (idt_base i) (irq_handlers i) (ports i ++ [(MASTER_PIC_CMD, PIC_ACK)])) ks) ∧
    shown (if key_char k =? 0 then [] else [key_char k]) scr scr'.
Proof.
  intros Hbuf Hf Hok Hk H14 Ha Hn.
  destruct (keyboard_irq_ok null_string print_buf fuel Hbuf Hf scr i k ks Hok Hk H14) as (scr' & E & Sh).
  exists scr'. split; [|done]. unfold key_interrupt, default_irq_handler.
  assert (zoom sys_irq (λ i s, System (sys_screen s) i (sys_keys s)) (read_irq_handler 1) (System scr i (k :: ks))
    = Ret address (System scr i (k :: ks))) as ER.
  { unfold zoom. cbn [sys_irq]. rewrite read_irq_handler_Ret by lia. by rewrite Ha. }
  run ER. rewrite (proj2 (Z.eqb_neq address NULL)) by done. cbn [negb]. rewrite bind_assoc. run ER.
  rewrite Z.eqb_refl. by run E.
Qed.

(** Any number of them. *)
Lemma key_interrupts_ok null_string print_buf fuel address scr i ks :
  List.length print_buf = PRINT_BUF_LEN → (12 < fuel)%nat → screen_ok scr → Forall (λ k, 0 ≤ k < 256 ∧ k ≠ 14) ks →
  irq_handlers i !! 1 = Some address → address ≠ NULL →
  ∃ scr' i', repeated (List.length ks) (key_interrupt null_string print_buf fuel address) (System scr i ks)
      = Ret tt (System scr' i' []) ∧ shown (typed ks) scr scr' ∧
    idt_table i' = idt_table i ∧ irq_handlers i' = irq_handlers i ∧
    ports i' = ports i ++ replicate (List.length ks) (MASTER_PIC_CMD, PIC_ACK).
Proof.
  intros Hbuf Hf Hok Hks. revert scr i Hok. induction Hks as [|k ks [Hk H14] Hks IH]; intros scr i Hok Ha Hn;
    cbn [List.length repeated replicate].
  - exists scr, i. rewrite app_nil_r. split_and!; [done|by apply shown_nil|done..].
  - destruct (key_interrupt_ok null_string print_buf fuel address scr i k ks Hbuf Hf Hok Hk H14 Ha Hn) as (s1 & E1 & S1).
    run E1. match type of E1 with _ = Ret _ (System _ ?i1 _) =>
      destruct (IH s1 i1 (shown_ready _ _ _ S1) Ha Hn) as (s2 & i2 & E2 & S2 & H1 & H2 & H3) end.
    cbn [idt_table irq_handlers ports] in *. rewrite <-app_assoc in H3.
    exists s2, i2. split_and!; [exact E2| |exact H1|exact H2|exact H3].
    pose proof (shown_app _ _ _ _ _ S1 S2) as S12.
    unfold typed in *. cbn [fmap list_fmap]. rewrite filter_cons. destruct (Z.eqb_spec (key_char k) 0) as [E0|E0].
    + by rewrite decide_False by naive_solver.
    + by rewrite decide_True by done.
Qed.

(** The interrupts' part of the boot. *)
Lemma kmain_interrupts_ok null_string print_buf fuel address table irq_stub scr i ks p :
  List.length print_buf = PRINT_BUF_LEN → (50 < fuel)%nat → screen_ok scr → address ≠ NULL → ports i = [] →
  ∃ scr' i', kmain_interrupts null_string print_buf fuel address table irq_stub (System scr i ks) = Ret tt (System scr' i' ks) ∧
    printed scr scr' ∧ irq_handlers i' !! 1 = Some address ∧
    (∀ n, 0 ≤ n < 16 → idt_table i' !! irq_vector n = Some (irq_gate irq_stub n)) ∧
    (∀ v, (∀ n, 0 ≤ n < 16 → v ≠ irq_vector n) → idt_table i' !! v = idt_table i !! v) ∧
    let m := pic_after PIC_1_CTRL p (ports i') in vector_base m = 0x20 ∧ mask m = 0xFD.
Proof.
  intros Hbuf Hf Hok Ha Hp. destruct i as [t lim base hs ps]. simpl in Hp. subst ps. unfold kmain_interrupts.
  destruct (log_info_ok null_string print_buf fuel scr (IrqState t lim base hs []) ks (chars "Initializing IDT"%string))
    as (scr1 & E1 & P1); [done|done|by repeat constructor|done|simpl; lia|lia|]. run E1. pose proof (proj1 P1) as Hok1.
  set (i1 := IrqState t (u16 (8 * IDT_SIZE - 1)) (u32 table) hs
    [(0x20, 0x11); (0xA0, 0x11); (0x21, 0x20); (0xA1, 0x28); (0x21, 4); (0xA1, 2);
     (0x21, 0); (0xA1, 0); (0x21, 1); (0xA1, 1); (0x21, 0xff); (0xA1, 0xff)]).
  assert (on_irq (idt_init table) (System scr1 (IrqState t lim base hs []) ks) = Ret tt (System scr1 i1 ks)) as E2 by reflexivity.
  run E2.
  destruct (log_info_ok null_string print_buf fuel scr1 i1 ks (chars "Initializing IRQ Handlers"%string))
    as (scr2 & E3 & P2); [done|done|by repeat constructor|done|simpl; lia|lia|]. run E3. pose proof (proj1 P2) as Hok2.
  destruct (irq_init_ok irq_stub i1) as (i2 & E4 & Hp2 & Hh2 & Hg2 & Ho2).
  run (zoom_Ret sys_irq (λ j s, System (sys_screen s) j (sys_keys s)) _ (System scr2 i1 ks) _ _ E4 :
    on_irq (irq_init irq_stub) (System scr2 i1 ks) = Ret tt (System scr2 i2 ks)).
  destruct (log_info_ok null_string print_buf fuel scr2 i2 ks (chars "Initializing keyboard driver"%string))
    as (scr3 & E5 & P3); [done|done|by repeat constructor|done|simpl; lia|lia|]. run E5. pose proof (proj1 P3) as Hok3.
  destruct (keyboard_init_ok null_string print_buf fuel address scr3 i2 ks p) as (scr4 & i4 & E6 & Sh & Hh & Ht & Hm & Hv);
    [done|done|done|done|by rewrite Hp2|].
  exists (with_color VGA_DEFAULT_COLOR scr4), i4. split_and!; [exact E6| | | | | |].
  - do 3 (eapply printed_trans; [eassumption|]). eapply printed_color; [by vm_compute|exact (shown_printed _ _ _ Sh)].
  - rewrite Hh. by rewrite lookup_insert_eq.
  - intros n Hn. rewrite Ht. by apply Hg2.
  - intros v Hv'. rewrite Ht. by rewrite Ho2.
  - cbv zeta. rewrite Hv, Hp2. reflexivity.
  - exact Hm.
Qed.

(** Typing on the booted system.  After [kmain]'s steps from the interrupt
    table to the keyboard, the first controller lets the keyboard's line
    through alone and the gate of its vector leads to the line's stub; then,
    with one interrupt per scan code in the keyboard's queue, the screen shows
    the characters of the keys that were pressed, in order - keys without a
    character and the codes of released keys (128 and up) show nothing - the
    queue is empty, and the controller has had its acknowledgements. *)
Theorem typing_after_boot null_string print_buf fuel address table irq_stub scr i ks p :
  List.length print_buf = PRINT_BUF_LEN → (50 < fuel)%nat → screen_ok scr → address ≠ NULL → ports i = [] →
  (∀ n, 0 ≤ irq_stub n < 2 ^ 32) → Forall (λ k, 0 ≤ k < 256 ∧ k ≠ 14) ks →
  ∃ scr' i', kmain_interrupts null_string print_buf fuel address table irq_stub (System scr i ks) = Ret tt (System scr' i' ks) ∧
    (let m := pic_after PIC_1_CTRL p (ports i') in
     mask m = 0xFD ∧ routes_to (idt_table i' !! (vector_base m + 1)) (irq_stub 1)) ∧
    ∃ scr'' i'', repeated (List.length ks) (key_interrupt null_string print_buf fuel address) (System scr' i' ks)
        = Ret tt (System scr'' i'' []) ∧ shown (typed ks) scr' scr'' ∧
      ports i'' = ports i' ++ replicate (List.length ks) (MASTER_PIC_CMD, PIC_ACK) ∧
      idt_table i'' = idt_table i' ∧ irq_handlers i'' = irq_handlers i'.
Proof.
  intros Hbuf Hf Hok Ha Hp Hstub Hks.
  destruct (kmain_interrupts_ok null_string print_buf fuel address table irq_stub scr i ks p)
    as (scr' & i' & E & [Hok' _] & Hh & Hg & _ & Hb & Hm); [done..|].
  exists scr', i'. split; [done|]. split.
  - cbv zeta. split; [done|]. rewrite Hb. change (0x20 + 1) with (irq_vector 1). rewrite Hg by lia.
    by apply irq_gate_routes.
  - destruct (key_interrupts_ok null_string print_buf fuel address scr' i' ks) as (scr'' & i'' & E2 & Sh & H1 & H2 & H3);
      [done|lia|done..|]. by exists scr'', i''.
Qed.

(** The backspace key leaves the program: its character is the one the
    screen has no handler for. *)
Theorem keyboard_backspace null_string print_buf fuel scr i ks :
  (2 < fuel)%nat → keyboard_irq null_string print_buf fuel (System scr i (14 :: ks)) = Fault.
Proof. intros Hf. destruct fuel as [|[|[|fuel]]]; [lia..|]. reflexivity. Qed.

(** After [system_calls_init] the vector 0x80 has a present interrupt gate
    to the assembly stub that ring 3 may use, the other gates and the handlers
    are as before; but a system call shows the handler's line and never
    returns, however long it runs. *)
Theorem system_calls_spec null_string print_buf fuel stub scr i ks n :
  List.length print_buf = PRINT_BUF_LEN → (50 < fuel)%nat → screen_ok scr → 0 ≤ stub < 2 ^ 32 →
  (∃ scr' i', system_calls_init null_string print_buf fuel stub (System scr i ks) =
      Ret tt (System (with_color VGA_DEFAULT_COLOR scr') i' ks) ∧
    routes_to (idt_table i' !! 0x80) stub ∧ gate_ring (idt_table i' !! 0x80) = Some 3 ∧
    (∀ v, v ≠ 0x80 → idt_table i' !! v = idt_table i !! v) ∧ irq_handlers i' = irq_handlers i) ∧
  default_system_call_handler null_string print_buf fuel n (System scr i ks) = Timeout.
Proof.
  intros Hbuf Hf Hok Ha. split.
  - destruct (system_calls_init_ok null_string print_buf fuel stub scr i ks Hbuf Hf Hok Ha) as (scr' & g & E & _ & Hg & Hr).
    eexists scr', _. split; [exact E|]. cbn [idt_table irq_handlers]. rewrite lookup_insert_eq. split_and!; try done.
    intros v Hv. by apply lookup_insert_ne.
  - destruct (printf_literal null_string print_buf fuel scr handler_message) as (scr' & E & _);
      [done|lia|change (List.length handler_message) with 21%nat; lia|done|by repeat constructor|done|].
    unfold default_system_call_handler, on_screen.
    run (zoom_Ret sys_screen (λ v s, System v (sys_irq s) (sys_keys s)) _ (System scr i ks) _ _ E).
    generalize (System scr' i ks). by induction n.
Qed.
End properties.

(** ** Witnesses *)

Lemma typing_after_boot_witness :
  ∃ scr' i' scr'' i'',
    kmain_interrupts 0 example_print_buf 51 0xC0101000 0xC0105000 example_stub
      (System (example_screen 0 0) example_irq_state [35; 163; 18; 146; 29]) = Ret tt (System scr' i' [35; 163; 18; 146; 29]) ∧
    repeated 5 (key_interrupt 0 example_print_buf 51 0xC0101000) (System scr' i' [35; 163; 18; 146; 29])
      = Ret tt (System scr'' i'' []) ∧ shown [104; 101] scr' scr''.
Proof.
  destruct (typing_after_boot 0 example_print_buf 51 0xC0101000 0xC0105000 example_stub (example_screen 0 0)
    example_irq_state [35; 163; 18; 146; 29] example_pic) as (scr' & i' & E & _ & scr'' & i'' & E2 & Sh & _).
  - reflexivity.
  - lia.
  - apply example_screen_ok; lia.
  - discriminate.
  - reflexivity.
  - apply example_stub_range.
  - repeat constructor; lia.
  - exists scr', i', scr'', i''. split; [exact E|]. split; [exact E2|exact Sh].
Defined.

Lemma keyboard_backspace_witness :
  keyboard_irq 0 example_print_buf 20 (System (example_screen 0 0) example_irq_state [14; 35]) = Fault.
Proof. apply keyboard_backspace. lia. Defined.

Lemma system_calls_spec_witness :
  default_system_call_handler 0 example_print_buf 51 7 (System (example_screen 0 0) example_irq_state []) = Timeout.
Proof.
  destruct (system_calls_spec 0 example_print_buf 51 0xC0101000 (example_screen 0 0) example_irq_state [] 7) as [_ E].
  - reflexivity.
  - lia.
  - apply example_screen_ok; lia.
  - lia.
  - exact E.
Defined.
