(* ===== verification/Boot.v ===== *)
(** * The boot sequence: [kmain] of [kernel/entry.c]

    The whole of [kmain] over the state of all its parts: the kernel's memory
    with the kernel heap and the physical memory manager, the screen, the
    interrupt controllers and tables, the segment descriptors, the disk
    driver's tables and whatever hardware is behind the disks' ports.  The loop
    [HLT()] at its end is where the model ends. *)

From Stdlib Require Import String.
From S2P Require Import Prelude Memory Chain CString CPtr Bitmap Phys Paging Kheap Kmalloc KList Initrd Vfs Entry.
From S2P Require Import Gdt Irq Exceptions Vga Stdio Logger PortIO Ata Keyboard.

(** ** Memory at boot

    The boot code leaves the first 8 MB mapped to themselves beside the
    kernel's own mapping of them.  [kmain] uses the former for the boot
    loader's information and, until [vga_init], for the screen; the
    rest of the kernel uses the latter and the kernel heap.  The two views
    are kept apart: the boot information is not part of the kernel, and the
    screen is never read. *)

Record bootspace := BootSpace { bs_low : vmem; bs_high : kspace }.

Definition bootspace_get8 (s : bootspace) (a : Z) : option Z :=
  if a <? KERNEL_VIRTUAL_OFFSET then get8 (bs_low s) a else get8 (bs_high s) a.

Definition bootspace_set8 (s : bootspace) (a v : Z) : option bootspace :=
  if a <? KERNEL_VIRTUAL_OFFSET
  then l ← set8 (bs_low s) a v; Some (BootSpace l (bs_high s))
  else h ← set8 (bs_high s) a v; Some (BootSpace (bs_low s) h).

#[export] Instance bootspace_store : ByteStore bootspace := {
  get8 := bootspace_get8;
  set8 := bootspace_set8
}.

#[export] Instance bootspace_laws : ByteStoreLaws bootspace.
Proof.
  split; change (@get8 bootspace _) with bootspace_get8; change (@set8 bootspace _) with bootspace_set8;
    unfold bootspace_get8, bootspace_set8.
  - intros s a v. destruct (a <? _); apply get8_range.
  - intros s a v Hm. destruct (a <? _).
    + destruct (set8_total (bs_low s) a v Hm) as [l ->]. cbn. eauto.
    + destruct (set8_total (bs_high s) a v Hm) as [h ->]. cbn. eauto.
  - intros s a v s'. destruct (a <? _).
    + destruct (set8 (bs_low s) a v) eqn:E; cbn -[get8]; [|done]. intros _. by eapply set8_mapped.
    + destruct (set8 (bs_high s) a v) eqn:E; cbn -[get8]; [|done]. intros _. by eapply set8_mapped.
  - intros s a v s' b. destruct (Z.ltb_spec a KERNEL_VIRTUAL_OFFSET).
    + destruct (set8 (bs_low s) a v) as [l|] eqn:E; cbn -[get8]; [|done]. intros [= <-]. cbn -[get8].
      destruct (Z.ltb_spec b KERNEL_VIRTUAL_OFFSET); [by apply get8_set8|by rewrite decide_False by lia].
    + destruct (set8 (bs_high s) a v) as [h|] eqn:E; cbn -[get8]; [|done]. intros [= <-]. cbn -[get8].
      destruct (Z.ltb_spec b KERNEL_VIRTUAL_OFFSET); [by rewrite decide_False by lia|by apply get8_set8].
Qed.

Definition on_high {A} : M kspace A → M bootspace A :=
  zoom bs_high (λ h s, BootSpace (bs_low s) h).
Definition on_heap {A} (m : M kheap A) : M bootspace A := on_high (on_ks_heap m).

(** ** The machine *)

Record hardware (D : Type) := Hardware {
  hw_system : system bootspace;
  hw_gdt : gdt_state;
  hw_disks : D
}.
Arguments Hardware {D} _ _ _.
Arguments hw_system {D} _.
Arguments hw_gdt {D} _.
Arguments hw_disks {D} _.

Definition on_hw_system {D A} : M (system bootspace) A → M (hardware D) A :=
  zoom hw_system (λ v h, Hardware v (hw_gdt h) (hw_disks h)).
Definition on_hw_disks {D A} : M D A → M (hardware D) A :=
  zoom hw_disks (λ d h, Hardware (hw_system h) (hw_gdt h) d).

(** The ports of the two cables belong to the disks. *)
Definition disk_port (p : Z) : bool := (0x170 <=? p) && (p <=? 0x3F6).

#[export] Instance hardware_ports {D} `{PortIO D} : PortIO (hardware D) := {|
  read_port p := if disk_port p then on_hw_disks (read_port p) else on_hw_system (read_port p);
  write_port p v := if disk_port p then on_hw_disks (write_port p v) else on_hw_system (write_port p v);
  read_word_port p := if disk_port p then on_hw_disks (read_word_port p) else on_hw_system (read_word_port p);
  write_word_port p v := if disk_port p then on_hw_disks (write_word_port p v) else on_hw_system (write_word_port p v)
|}.

(** What the linker and the compiler decide: the addresses of the kernel's
    image, of static variables, literals, functions and assembly stubs, and of
    [kmain]'s local [fs]; the characters that are left in [print_buf]; and
    what callers see of functions that end without a return statement. *)
Record kernel_image := KernelImage {
  kernel_start : Z;
  kernel_end : Z;
  kheap_page_tables : Z;
  free_blocks : Z;
  mount_points : Z;
  root_mount_point : Z;
  slash : Z;
  initrd_literal : Z;
  fs : Z;
  initrd_functions : Z * Z * Z;
  idt_table_address : Z;
  irq_stub : Z → Z;
  keyboard_irq_address : Z;
  interrupt_80 : Z;
  task_state_address : Z;
  null_string : Z;
  print_buf : list Z;
  no_return_index : list Z → Z → Z;
  no_return_list : bool
}.

Section kmain.
Context {D : Type} `{PortIO D}.
Variable k : kernel_image.
Variable register_ramdisk : Z → Z → M bootspace error_code.

(** Fuel: for printing, for the entries of the memory map, for the path and
    the free list. *)
Variables pfuel mfuel sfuel kfuel : nat.

Abbreviation kernel := (ata_state (hardware D)).

Definition on_system {A} (m : M (system bootspace) A) : M kernel A := lift (on_hw_system m).
Definition on_memory {A} (m : M bootspace A) : M kernel A := on_system (on_screen (zoom vga_mem set_vga_mem m)).
Definition on_gdt {A} (m : M gdt_state A) : M kernel A :=
  lift (zoom hw_gdt (λ g h, Hardware (hw_system h) g (hw_disks h)) m).

Definition log (message : string) : M kernel unit :=
  on_system (log_info (null_string k) (print_buf k) pfuel (chars message)).

(** The allocator and the mapping of physical memory, on the kernel heap. *)
#[export] Instance boot_allocator : Allocator bootspace := {|
  al_malloc n := on_high (kernel_kmalloc (no_return_index k) (kernel_end k) (free_blocks k) kfuel kfuel n);
  al_free p := on_high (kfree (free_blocks k) kfuel p)
|}.

Definition boot_map (physical_address num_pages : Z) : M bootspace Z :=
  on_heap (map_physical_address_to_kheap (no_return_index k) physical_address num_pages).

(** [phy_memory_manager_init((multiboot_memory_map_t* )info->mmap_addr, info->mmap_length)] *)
Definition mmap_length (info : Z) : Z := u32 (info + 44).
Definition mmap_addr (info : Z) : Z := u32 (info + 48).

Definition init_physical_memory (info : Z) : M bootspace unit :=
  map_addr ← rd32 (mmap_addr info);
  map_length ← rd32 (mmap_length info);
  mb ← mgets bs_low;
  on_heap (on_phys (phy_memory_manager_init (kernel_start k) (kernel_end k) mfuel mb map_addr map_length)).

Definition kmain (info : Z) : M kernel unit :=
  on_system (on_screen vga_flush) ;;
  log "Entered High half kernel" ;;
  log "Initializing physical memory manager" ;;
  on_memory (init_physical_memory info) ;;
  log "Remaping the GDT, after virtual memory init" ;;
  on_gdt remap_gdt ;;
  log "Initializing kernel heap" ;;
  on_memory (on_heap (kheap_init (kheap_page_tables k))) ;;
  log "Initializing VGA to its virtual memory form" ;;
  on_system (on_screen (vga_init boot_map)) ;;
  on_system (kmain_interrupts (null_string k) (print_buf k) pfuel (keyboard_irq_address k) (idt_table_address k) (irq_stub k)) ;;
  log "Initializing ATA driver" ;;
  ata_init ;;
  log "Initializing Virtual file system" ;;
  on_memory (vfs_init (mount_points k) (root_mount_point k) (slash k) (no_return_list k)) ;;
  on_memory (memset 0 (fs k) sizeof_fs) ;;
  on_memory (make_initrd_fs register_ramdisk boot_map (initrd_literal k) (initrd_functions k).1.1 (initrd_functions k).1.2
    (initrd_functions k).2 info (fs k)) ;;
  log "Mounting initrd at /" ;;
  r ← on_memory (vfs_mount (root_mount_point k) (slash k) sfuel (slash k) (fs k));
  (if negb (bool_decide (r = Some SUCCESS)) then mpanic else mret tt) ;;
  log "Initializing system-calls" ;;
  on_system (system_calls_init (null_string k) (print_buf k) pfuel (interrupt_80 k)) ;;
  log "Initializing userspace" ;;
  on_gdt (userspace_init (task_state_address k)).
End kmain.


(** ** The contents of memory *)

Section memory.
Implicit Types s : bootspace.

(** The heap's management is not affected by stores. *)
Lemma kspace_stores_heap (s s' : kspace) : stores s s' → ks_heap s' = ks_heap s.
Proof.
  induction 1 as [|s1 s2 s3 (a & v & E) _ IH]; [done|]. rewrite IH. unfold set8 in E. simpl in E.
  destruct (ks_mapped s1 a); [|done]. by injection E as <-.
Qed.

Lemma boot_stores_heap s s' : stores s s' → ks_heap (bs_high s') = ks_heap (bs_high s).
Proof.
  induction 1 as [|s1 s2 s3 (a & v & E) _ IH]; [done|]. rewrite IH. change (bootspace_set8 s1 a v = Some s2) in E.
  unfold bootspace_set8 in E. destruct (a <? _).
  - destruct (set8 (bs_low s1) a v); [|done]. cbn in E. by injection E as <-.
  - destruct (set8 (bs_high s1) a v) as [h|] eqn:Eh; [|done]. cbn in E. injection E as <-.
    apply (kspace_stores_heap (bs_high s1) h), rtc_once. eauto.
Qed.

(** The kernel's own view of memory, and the boot loader's. *)
Lemma get8_low s a : a < KERNEL_VIRTUAL_OFFSET → get8 s a = get8 (bs_low s) a.
Proof. intros Ha. unfold get8 at 1. simpl. unfold bootspace_get8. by rewrite (proj2 (Z.ltb_lt _ _)). Qed.

Lemma get8_high s a : KERNEL_VIRTUAL_OFFSET ≤ a → get8 s a = get8 (bs_high s) a.
Proof. intros Ha. unfold get8 at 1. simpl. unfold bootspace_get8. by rewrite (proj2 (Z.ltb_ge _ _)). Qed.

Lemma get32_high s a : KERNEL_VIRTUAL_OFFSET ≤ a → get32 s a = get32 (bs_high s) a.
Proof. intros Ha. unfold get32. by rewrite !get8_high by lia. Qed.

Lemma kspace_mapped_high (h : kspace) a : is_Some (get8 h a) → KERNEL_VIRTUAL_OFFSET ≤ a.
Proof.
  unfold get8. simpl. unfold ks_mapped. assert (KERNEL_VIRTUAL_OFFSET ≤ KHEAP_BEGIN_ADDRESS) by (vm_compute; discriminate).
  destruct (Z.leb_spec KERNEL_VIRTUAL_OFFSET a); [done|]. destruct (Z.leb_spec KHEAP_BEGIN_ADDRESS a); [lia|]. by intros [].
Qed.

Lemma keeps_high P low (h h' : kspace) : keeps P h h' → keeps P (BootSpace low h) (BootSpace low h').
Proof.
  intros K a v Ha. destruct (Z.lt_ge_cases a KERNEL_VIRTUAL_OFFSET); [by rewrite !get8_low|].
  rewrite !get8_high by done. by apply K.
Qed.

Lemma mapped_high low (h : kspace) a n : mapped h a n → mapped (BootSpace low h) a n.
Proof. intros Hm b Hb. rewrite get8_high; [by apply Hm|]. eapply kspace_mapped_high. by apply Hm. Qed.

Lemma high_stores_mapped low (h h' : kspace) x : stores h h' →
  is_Some (get8 (BootSpace low h) x) → is_Some (get8 (BootSpace low h') x).
Proof.
  intros Hs. destruct (Z.lt_ge_cases x KERNEL_VIRTUAL_OFFSET); [by rewrite !get8_low|].
  rewrite !get8_high by done. by apply stores_mapped.
Qed.

(** The kernel's static data is mapped whatever the heap is. *)
Lemma static_mapped s a n : KERNEL_VIRTUAL_OFFSET ≤ a → a + n ≤ KHEAP_BEGIN_ADDRESS → mapped s a n.
Proof.
  intros H1 H2 b Hb. rewrite get8_high by lia. rewrite ks_get8; [eauto|]. unfold ks_mapped.
  by rewrite (proj2 (Z.leb_le _ b)), (proj2 (Z.ltb_lt b _)) by lia.
Qed.

(** Pages that are present stay present. *)
Definition heap_grows (h h' : kheap) : Prop := ∀ i, Z.testbit (table_entry (kheap_page_table h) i) 0 = true →
  Z.testbit (table_entry (kheap_page_table h') i) 0 = true.

Lemma keeps_heap low h h' bytes : heap_grows h h' →
  keeps (λ _, True) (BootSpace low (KSpace h bytes)) (BootSpace low (KSpace h' bytes)).
Proof.
  intros Hg. apply keeps_high. intros a v _. unfold get8. simpl.
  destruct (ks_mapped (KSpace h bytes) a) eqn:E; [|done].
  assert (ks_mapped (KSpace h' bytes) a = true) as ->; [|done].
  unfold ks_mapped in *. cbn [ks_heap] in *. apply orb_true_iff in E as [->|E]; [done|].
  apply andb_true_iff in E as [-> E]. rewrite (Hg _ E). by rewrite orb_true_r.
Qed.

Lemma heap_grows_entries (Q : Z → Prop) `{!∀ i, Decision (Q i)} (g : Z → Z) h h' :
  (∀ i, table_entry (kheap_page_table h') i = if decide (Q i) then entry_rw (g i) else table_entry (kheap_page_table h) i) →
  heap_grows h h'.
Proof. intros He i. rewrite He. case_decide; [intros _; apply entry_rw_present|done]. Qed.

Lemma on_heap_Ret {A} (m : M kheap A) s a h' : m (ks_heap (bs_high s)) = Ret a h' →
  on_heap m s = Ret a (BootSpace (bs_low s) (KSpace h' (ks_bytes (bs_high s)))).
Proof. intros E. unfold on_heap, on_high, on_ks_heap, zoom. by rewrite E. Qed.

Lemma on_heap_keeps {A} (m : M kheap A) s a h' : m (ks_heap (bs_high s)) = Ret a h' → heap_grows (ks_heap (bs_high s)) h' →
  ∃ s', on_heap m s = Ret a s' ∧ ks_heap (bs_high s') = h' ∧ keeps (λ _, True) s s'.
Proof.
  intros E Hg. eexists. split; [by apply on_heap_Ret|]. split; [done|]. destruct s as [low [h bytes]]. by apply keeps_heap.
Qed.
End memory.

(** ** The heap's pages at boot *)

(** The pages below [p] are used, the others of the 32768 free. *)
Record heap_next (h : kheap) (p : Z) : Prop := {
  hn_wf : kheap_wf h;
  hn_used : all_clear (kheap_st h) 0 0 p;
  hn_free : ∀ j, p ≤ j < 32768 → bit_at (kheap_st h) 0 j = Some true
}.

Lemma bits_written_wf h h' b lo hi : kheap_wf h → 0 ≤ lo → hi ≤ 32768 → bits_written b 0 lo hi (kheap_st h) (kheap_st h') → kheap_wf h'.
Proof.
  unfold kheap_wf, KHEAP_BITMAP_SIZE. intros Hwf Hlo Hhi Hb.
  assert (∀ j, 0 ≤ j → is_Some (bit_at (kheap_st h') 0 (j * 8)) ↔ j < asize (kheap_st h')) as Hm'.
  { intros j Hj. rewrite bit_at_mapped, Z.div_mul by lia. unfold get8. simpl. case_decide; [split; [lia|eauto]|].
    split; [by intros []|lia]. }
  assert (∀ j, 0 ≤ j → is_Some (bit_at (kheap_st h') 0 (j * 8)) ↔ j < 32768 * 4) as Hm.
  { intros j Hj. rewrite <-Hwf, Hb. case_decide; [split; [lia|eauto]|].
    rewrite bit_at_mapped, Z.div_mul by lia. unfold get8. simpl. case_decide; [split; [lia|eauto]|].
    split; [by intros []|lia]. }
  pose proof (Hm (32768 * 4 - 1)) as M1. pose proof (Hm' (32768 * 4 - 1)) as M1'.
  pose proof (Hm (32768 * 4)) as M2. pose proof (Hm' (32768 * 4)) as M2'.
  assert (32768 * 4 - 1 < asize (kheap_st h')) by (apply M1', M1; lia).
  assert (¬ 32768 * 4 < asize (kheap_st h')); [|lia]. intros Hx. apply M2', M2 in Hx; lia.
Qed.

Lemma heap_next_used h h' p n : heap_next h p → 0 ≤ p → 0 < n → p + n ≤ 32768 →
  bits_written false 0 p (p + n) (kheap_st h) (kheap_st h') → heap_next h' (p + n).
Proof.
  intros [Hwf Hu Hfr] Hp Hn Hpn Hb. split; [by eapply bits_written_wf| |].
  - intros j Hj. rewrite Hb. case_decide; [done|]. apply Hu. lia.
  - intros j Hj. rewrite Hb, decide_False by lia. apply Hfr. lia.
Qed.

Lemma heap_next_first h p : heap_next h p → 0 ≤ p < 32768 → first_set (kheap_st h) 0 0 p.
Proof. intros [_ Hu Hfr] Hp. split_and!; [lia|apply Hfr; lia|done]. Qed.

Lemma heap_next_run h p n : heap_next h p → 0 ≤ p → 0 < n → p + n ≤ 1024 → p mod 8 + n < num_bytes_for n * 8 →
  free_run (kheap_st h) p n.
Proof.
  intros Hh Hp Hn Hpn Hs. split; [apply heap_next_first; [done|lia]|done| |done|].
  - intros j Hj. apply Hh. lia.
  - unfold num_bytes_for in *. unfold KHEAP_BITMAP_SIZE. repeat case_match; dlia.
Qed.

(** Where the kernel starts: no page of the heap is known to be free, none is mapped. *)
Definition boot_heap (pgd : table) : kheap := Kheap (CArray KHEAP_BITMAP_SIZE ∅) ∅ pgd physical_memory.

Lemma kheap_init_ok kheap_page_tables h : kheap_wf h → all_clear (kheap_st h) 0 0 (KHEAP_BITMAP_SIZE * 8) →
  ∃ h', kheap_init kheap_page_tables h = Ret tt h' ∧ heap_next h' 0 ∧ phys h' = phys h ∧
    kheap_page_table h' = kheap_page_table h ∧
    table_entry (page_directory h') 0x302 = Z.lor (u32 kheap_page_tables) (Z.lor READ_WRITE PRESENT) ∧
    ∀ i, i ≠ 0x302 → table_entry (page_directory h') i = table_entry (page_directory h) i.
Proof.
  intros Hwf Hc.
  destruct (memset_ok (kheap_st h) 0xFF 0 4096) as (b & E & Hf); [unfold INT_MAX; lia| |].
  { intros j Hj. unfold get8. simpl. rewrite Hwf. unfold KHEAP_BITMAP_SIZE. rewrite decide_True by lia. eauto. }
  eexists. split; [|split_and!].
  - unfold kheap_init. erewrite bind_Ret by reflexivity. apply (zoom_Ret kheap_st). exact E.
  - assert (∀ j, 0 ≤ j < 32768 → bit_at b 0 j = Some true) as Hb.
    { intros j Hj. unfold bit_at. rewrite Hf, decide_True by dlia. change (u8 (i8 0xFF)) with (Z.ones 8). cbn [fmap option_fmap option_map].
      rewrite Z.ones_spec_low; [done|]. dlia. }
    split; [| |intros j Hj; apply Hb; lia].
    + unfold kheap_wf in *. cbn [kheap_st].
      assert (bits_written true 0 0 32768 (kheap_st h) b) as Hw.
      { intros j. case_decide; [by apply Hb|]. unfold bit_at. by rewrite Hf, decide_False by dlia. }
      by apply (bits_written_wf h (Kheap b ∅ ∅ (phys h)) true 0 32768).
    + intros j Hj. lia.
  - done.
  - done.
  - cbn [page_directory map_kheap_to_pgd default snd]. change (ADDRESS_TO_DIRECTORY_ENTRY KHEAP_BEGIN_ADDRESS) with 0x302.
    unfold table_entry, id. by rewrite !lookup_insert_eq.
  - intros i Hi. cbn [page_directory map_kheap_to_pgd default snd]. change (ADDRESS_TO_DIRECTORY_ENTRY KHEAP_BEGIN_ADDRESS) with 0x302.
    unfold table_entry, id. by rewrite !lookup_insert_ne.
Qed.

(** ** The memory map *)

Lemma memory_map_keeps (mb mb' : vmem) map_end es : ∀ it,
  keeps (λ a, a < map_end + 24) mb mb' → memory_map mb it map_end es → memory_map mb' it map_end es.
Proof.
  induction es as [|e es IH]; intros it Hx; cbn [memory_map]; [done|]. intros (Hlt & Hr & Hm).
  split_and!; [done| |by apply IH].
  assert (∀ j w, 0 ≤ j ≤ 20 → get32 mb (it + j) = Some w → get32 mb' (it + j) = Some w) as Hg.
  { intros j w Hj. apply (keeps_get32 _ _ _ _ _ Hx). intros a Ha. lia. }
  unfold read_multiboot_memory_map in *. rewrite <-(Z.add_0_r it) in Hr at 1. rewrite <-(Z.add_0_r it) at 1.
  repeat (apply bind_Some in Hr as (? & G & Hr); apply Hg in G; [rewrite G; cbn [mbind option_bind]; clear G|lia]).
  done.
Qed.

(** A page that is available can be taken. *)
Lemma allocate_available kernel_end s q : phys_wf s → 0 ≤ kernel_end < 2 ^ 32 → no_page_available s = false →
  first_searched_page kernel_end ≤ q < NUM_PAGES → avail s q = Some true →
  ∃ p s', allocate_physical_page kernel_end s = Ret (p * 4096) s' ∧ 0 ≤ p < 2 ^ 20 ∧ avail s p = Some true ∧ pages_set false p (p + 1) s s'.
Proof.
  intros Hwf Hk Hn Hq Ha. destruct (allocate_physical_page_ok kernel_end s Hwf Hk Hn) as [(p & s' & E & (H1 & H2 & _) & Hp & Hs)|[_ Hc]].
  - exists p, s'. split_and!; [done| |rewrite NUM_PAGES_eq in Hp; lia|done|done].
    assert (0 ≤ first_searched_page kernel_end); [|lia].
    unfold first_searched_page, first_searched_byte, PAGE_SIZE. dlia.
  - specialize (Hc q Hq). unfold avail in Ha. congruence.
Qed.

(** ** Screen and memory together *)

(** The parts of the machine beside the screen and memory. *)
Record rest (D : Type) := Rest {
  r_irq : irq_state;
  r_keys : list Z;
  r_gdt : gdt_state;
  r_disks : D;
  r_devices : list ata_device;
  r_blocks : list block_device;
  r_root : option nat
}.
Arguments Rest {D} _ _ _ _ _ _ _.
Arguments r_irq {D} _.
Arguments r_keys {D} _.
Arguments r_gdt {D} _.
Arguments r_disks {D} _.
Arguments r_devices {D} _.
Arguments r_blocks {D} _.
Arguments r_root {D} _.

Definition at_screen {D} (r : rest D) (scr : vga_state bootspace) : ata_state (hardware D) :=
  AtaState (Hardware (System scr (r_irq r) (r_keys r)) (r_gdt r) (r_disks r)) (r_devices r) (r_blocks r) (r_root r).

Definition with_irq {D} (i : irq_state) (r : rest D) : rest D :=
  Rest i (r_keys r) (r_gdt r) (r_disks r) (r_devices r) (r_blocks r) (r_root r).
Definition with_keys {D} (ks : list Z) (r : rest D) : rest D :=
  Rest (r_irq r) ks (r_gdt r) (r_disks r) (r_devices r) (r_blocks r) (r_root r).
Definition with_gdt {D} (g : gdt_state) (r : rest D) : rest D :=
  Rest (r_irq r) (r_keys r) g (r_disks r) (r_devices r) (r_blocks r) (r_root r).

(** Memory outside of the two places of the screen. *)
Definition off_screens (x : Z) : Prop :=
  ¬ VGA_PHYSICAL_ADDRESS ≤ x < VGA_PHYSICAL_ADDRESS + WRITTEN_BYTES ∧
  ¬ KHEAP_BEGIN_ADDRESS ≤ x < KHEAP_BEGIN_ADDRESS + WRITTEN_BYTES.

(** The screen can be written to at [buf], the heap is [h], and the rest of memory has kept what was in [m0]. *)
Record screen_ready (m0 : bootspace) (h : kheap) (buf : Z) (scr : vga_state bootspace) : Prop := {
  sr_ok : screen_ok scr;
  sr_buffer : vga_buffer scr = buf;
  sr_place : buf = VGA_PHYSICAL_ADDRESS ∨ buf = KHEAP_BEGIN_ADDRESS;
  sr_heap : ks_heap (bs_high (vga_mem scr)) = h;
  sr_keeps : keeps off_screens m0 (vga_mem scr)
}.

Lemma printed_ready m0 h buf scr scr' : screen_ready m0 h buf scr → printed scr scr' → screen_ready m0 h buf scr'.
Proof.
  intros [Hok Hb Hp Hh Hk] (Hok' & Hb' & Hs & Hg). split; [done|congruence|done|by rewrite (boot_stores_heap _ _ Hs)|].
  eapply keeps_trans; [done|]. intros x v [Hx1 Hx2]. specialize (Hg x). unfold get8, vga_store in Hg. rewrite <-Hg; [done|].
  rewrite Hb. by destruct Hp as [->| ->].
Qed.

(** Memory is exchanged for one in which the same addresses, and maybe more, are mapped. *)
Lemma screen_ready_memory m0 m1 h h' buf scr s' : screen_ready m0 h buf scr →
  (∀ x, is_Some (get8 (vga_mem scr) x) → is_Some (get8 s' x)) → ks_heap (bs_high s') = h' → keeps off_screens m1 s' →
  screen_ready m1 h' buf (set_vga_mem s' scr).
Proof.
  intros [[H1 H2 H3 H4 H5] Hb Hp _ _] Hm Hh Hk. split; [|done..]. split; [done..|]. intros x Hx. apply Hm. by apply H5.
Qed.

Lemma keeps_is_Some {S} `{ByteStore S} (s s' : S) x : keeps (λ _, True) s s' → is_Some (get8 s x) → is_Some (get8 s' x).
Proof. intros K [v Hv]. exists v. by apply K. Qed.

Lemma flush_printed {T} `{ByteStoreLaws T} (scr : vga_state T) : screen_ok scr → ∃ scr', vga_flush scr = Ret tt scr' ∧ printed scr scr'.
Proof.
  intros Hok. destruct (vga_flush_ok scr Hok) as (scr' & E & Hc & Hcur). exists scr'. split; [done|]. split_and!.
  - eapply screen_ok_next; [done|done|lia|lia|]. intros b Hb. rewrite Hc. case_decide; [eauto|done].
  - apply Hcur.
  - eapply (vga_flush_kept (stores (vga_mem scr))); [|by apply rtc_refl|exact E]. intros a v m m' Hm Em.
    eapply rtc_r; [done|by exists a, v].
  - intros b Hb. rewrite Hc, decide_False; [done|]. unfold SCREEN_BYTES, WRITTEN_BYTES in *. lia.
Qed.

Section steps.
Context {D : Type} `{PortIO D}.
Variable k : kernel_image.
Implicit Types (r : rest D) (scr : vga_state bootspace).

Lemma on_system_Ret {A} (m : M (system bootspace) A) r scr a scr' i :
  m (System scr (r_irq r) (r_keys r)) = Ret a (System scr' i (r_keys r)) →
  on_system m (at_screen r scr) = Ret a (at_screen (with_irq i r) scr').
Proof. intros E. unfold on_system, lift, on_hw_system, zoom. simpl. by rewrite E. Qed.

Lemma on_screen_Ret {A} (m : M (vga_state bootspace) A) r scr a scr' : m scr = Ret a scr' →
  on_system (on_screen m) (at_screen r scr) = Ret a (at_screen r scr').
Proof. intros E. destruct r. apply on_system_Ret. unfold on_screen, zoom. simpl. by rewrite E. Qed.

Lemma on_memory_Ret {A} (m : M bootspace A) r scr a s' : m (vga_mem scr) = Ret a s' →
  on_memory m (at_screen r scr) = Ret a (at_screen r (set_vga_mem s' scr)).
Proof. intros E. apply on_screen_Ret. unfold zoom. by rewrite E. Qed.

Lemma on_gdt_Ret {A} (m : M gdt_state A) r scr a g : m (r_gdt r) = Ret a g →
  on_gdt m (at_screen r scr) = Ret a (at_screen (with_gdt g r) scr).
Proof. intros E. unfold on_gdt, lift, zoom. simpl. by rewrite E. Qed.

Lemma on_system_repeated (m : M (system bootspace) unit) n r scr scr' i ks :
  repeated n m (System scr (r_irq r) (r_keys r)) = Ret tt (System scr' i ks) →
  repeated n (on_system m) (at_screen r scr) = Ret tt (at_screen (with_keys ks (with_irq i r)) scr').
Proof.
  revert r scr. induction n as [|n IH]; intros r scr; cbn [repeated].
  - intros [= <- <- <-]. by destruct r.
  - intros ([] & [scr1 i1 ks1] & E1 & E2)%bind_Ret_inv.
    assert (on_system m (at_screen r scr) = Ret tt (at_screen (with_keys ks1 (with_irq i1 r)) scr1)) as E.
    { unfold on_system, lift, on_hw_system, zoom. simpl. by rewrite E1. }
    run E. by apply (IH (with_keys ks1 (with_irq i1 r)) scr1).
Qed.

(** The messages are plain text. *)
Definition plain (message : string) : bool :=
  forallb (λ x, (0 <? x) && (x <? 256) && negb (x =? 37) && negb (x =? 8) && negb (x =? 13)) (chars message)
  && (List.length (chars message) <=? 50)%nat.

Lemma log_ok message m0 h buf r scr pfuel :
  List.length (print_buf k) = PRINT_BUF_LEN → (50 < pfuel)%nat → plain message = true → screen_ready m0 h buf scr →
  ∃ scr', log k pfuel message (at_screen r scr) = Ret tt (at_screen r scr') ∧ screen_ready m0 h buf scr'.
Proof.
  intros Hbuf Hf [Hc Hl]%andb_true_iff Hs. apply Nat.leb_le in Hl. rewrite forallb_forall in Hc.
  destruct (log_info_ok (null_string k) (print_buf k) pfuel scr (r_irq r) (r_keys r) (chars message)) as (scr' & E & P);
    [done|apply Hs| |unfold INT_MAX; lia|lia|lia|].
  - apply List.Forall_forall. intros x Hx%Hc. rewrite !andb_true_iff, !negb_true_iff, !Z.eqb_neq, !Z.ltb_lt in Hx. lia.
  - exists scr'. split; [|by eapply printed_ready]. destruct r. by apply on_system_Ret.
Qed.
End steps.

(** ** What the kernel finds *)

Fixpoint separate (l : list (Z * Z)) : Prop :=
  match l with [] => True | x :: l' => Forall (λ y, apart x.1 x.2 y.1 y.2) l' ∧ separate l' end.

(** The variables, [fs] and the literals, with their sizes. *)
Definition statics (k : kernel_image) : list (Z * Z) :=
  [(free_blocks k, 4); (mount_points k, 4); (root_mount_point k, 4); (fs k, 56); (slash k, 2); (initrd_literal k, 8)].

(** The kernel's image: whole pages; its data in the kernel's part of memory;
    the list of free blocks is empty.  The result that [initialize_list] does
    not return reads as true ([Vfs.vfs_init_ok]: else the kernel panics). *)
Record image_ok (k : kernel_image) : Prop := {
  io_bounds : 0 ≤ kernel_start k ≤ kernel_end k ∧ kernel_end k < 2 ^ 32 ∧ kernel_start k mod 4096 = 0 ∧ kernel_end k mod 4096 = 0;
  io_statics : Forall (λ v, KERNEL_VIRTUAL_OFFSET ≤ v.1 ∧ v.1 + v.2 ≤ KHEAP_BEGIN_ADDRESS) (statics k) ∧ separate (statics k);
  io_functions : 0 < (initrd_functions k).1.1 < 2 ^ 32 ∧ 0 < (initrd_functions k).1.2 < 2 ^ 32 ∧ 0 < (initrd_functions k).2 < 2 ^ 32;
  io_interrupts : keyboard_irq_address k ≠ NULL ∧ 0 ≤ interrupt_80 k < 2 ^ 32;
  io_print : List.length (print_buf k) = PRINT_BUF_LEN;
  io_no_return : no_return_list k = true
}.

Definition image_contents (k : kernel_image) (s : bootspace) : Prop :=
  get32 s (free_blocks k) = Some NULL ∧ cstr s (slash k) [47].

(** Two of them do not overlap; none is in the heap. *)
Lemma image_statics k : image_ok k →
  let inside a n := KERNEL_VIRTUAL_OFFSET ≤ a ∧ a + n ≤ KHEAP_BEGIN_ADDRESS in
  (inside (free_blocks k) 4 ∧ inside (mount_points k) 4 ∧ inside (root_mount_point k) 4 ∧ inside (fs k) 56 ∧
   inside (slash k) 2 ∧ inside (initrd_literal k) 8) ∧
  (apart (free_blocks k) 4 (slash k) 2 ∧ apart (free_blocks k) 4 (initrd_literal k) 8 ∧
   apart (mount_points k) 4 (root_mount_point k) 4 ∧ apart (mount_points k) 4 (slash k) 2 ∧
   apart (root_mount_point k) 4 (fs k) 56 ∧ apart (root_mount_point k) 4 (slash k) 2 ∧
   apart (fs k) 56 (slash k) 2 ∧ apart (fs k) 56 (initrd_literal k) 8).
Proof.
  intros [_ [B A] _ _ _ _]. unfold statics in B, A. cbn [separate] in A. repeat rewrite Forall_cons in B. repeat rewrite Forall_cons in A.
  cbn [fst snd] in B, A. cbv beta zeta. tauto.
Qed.

(** The boot loader's information, in low memory below the screen: one
    module at [m], from [b] to [e], and the memory map [es]. *)
Record loader_ok (info m b e : Z) (es : list multiboot_memory_map) (s : bootspace) : Prop := {
  lo_info : 0 < info ∧ info + 52 ≤ VGA_PHYSICAL_ADDRESS ∧ get32 s (info + 20) = Some 1 ∧ get32 s (info + 24) = Some m;
  lo_map : ∃ L A, get32 s (info + 44) = Some L ∧ get32 s (info + 48) = Some A ∧
    memory_map (bs_low s) A (u32 (A + 24 * L)) es ∧ Forall region_ok es ∧ u32 (A + 24 * L) + 24 ≤ VGA_PHYSICAL_ADDRESS;
  lo_module : 0 < m ∧ m + 8 ≤ VGA_PHYSICAL_ADDRESS ∧ get32 s m = Some b ∧ get32 s (m + 4) = Some e
}.

(** The pages that the manager holds to be available after its start. *)
Definition memory_known (k : kernel_image) (es : list multiboot_memory_map) (ph : physical_mem) : Prop :=
  phys_wf ph ∧ no_page_available ph = false ∧
  ∀ p, 0 ≤ p < NUM_PAGES → avail ph p = Some true ↔ Exists (region_has p) es ∧ ¬ boot_reserved (kernel_start k) (kernel_end k) p.

(** What they say of memory does not depend on what is on the screen. *)
Lemma off_screens_static x : KERNEL_VIRTUAL_OFFSET ≤ x < KHEAP_BEGIN_ADDRESS → off_screens x.
Proof. unfold off_screens, VGA_PHYSICAL_ADDRESS, WRITTEN_BYTES, KERNEL_VIRTUAL_OFFSET. lia. Qed.

Lemma off_screens_low x : x < VGA_PHYSICAL_ADDRESS → off_screens x.
Proof. unfold off_screens. assert (VGA_PHYSICAL_ADDRESS ≤ KHEAP_BEGIN_ADDRESS) by (vm_compute; discriminate). lia. Qed.

Lemma cstr_slash_keeps P s s' p : cstr s p [47] → keeps P s s' → (∀ x, p ≤ x < p + 2 → P x) → cstr s' p [47].
Proof.
  cbn [cstr]. intros (C1 & C2 & C3 & C4 & C5) K HP. split_and!; first [lia|done|apply K; [apply HP; lia|done]].
Qed.

Lemma image_contents_keeps k s s' : image_ok k → image_contents k s → keeps off_screens s s' → image_contents k s'.
Proof.
  intros Himg [H1 H2] K. destruct (image_statics k Himg) as [(F1 & _ & _ & _ & F5 & _) _]. split.
  - apply (keeps_get32 _ _ _ _ _ K); [|done]. intros x Hx. apply off_screens_static. lia.
  - apply (cstr_slash_keeps _ _ _ _ H2 K). intros x Hx. apply off_screens_static. lia.
Qed.

Lemma loader_ok_keeps P info m b e es s s' : loader_ok info m b e es s → keeps P s s' →
  (∀ x, x < VGA_PHYSICAL_ADDRESS → P x) → loader_ok info m b e es s'.
Proof.
  intros [(I1 & I2 & I3 & I4) (L & A & GL & GA & Hm & Hr & Hend) (M1 & M2 & M3 & M4)] K Ho.
  assert (∀ a v, a + 4 ≤ VGA_PHYSICAL_ADDRESS → get32 s a = Some v → get32 s' a = Some v) as Hw.
  { intros a v Ha. apply (keeps_get32 _ _ _ _ _ K). intros x Hx. apply Ho. lia. }
  split; [split_and!; first [done|apply Hw; [lia|done]]| |split_and!; first [done|apply Hw; [lia|done]]].
  exists L, A. split_and!; [by apply Hw; [lia|]..| |done|done].
  eapply memory_map_keeps; [|done]. intros x v Hx. rewrite <-!get8_low by (unfold VGA_PHYSICAL_ADDRESS, KERNEL_VIRTUAL_OFFSET in *; lia).
  apply K, Ho. lia.
Qed.

(** The disks' ports of the machine are those of the disks. *)
#[export] Instance hardware_ports_total {D} `{PortIO D} (J : D → Prop) `{!AtaPortsTotal J} sys g :
  AtaPortsTotal (λ h : hardware D, hw_system h = sys ∧ hw_gdt h = g ∧ J (hw_disks h)).
Proof.
  assert (∀ {A} (m : M D A), total J m → total (λ h : hardware D, hw_system h = sys ∧ hw_gdt h = g ∧ J (hw_disks h)) (on_hw_disks m)) as Ht.
  { intros A m Hm [s0 g0 d] (H1 & H2 & H3). destruct (Hm d H3) as (a & d' & E & HJ).
    exists a, (Hardware s0 g0 d'). split; [|done]. unfold on_hw_disks, zoom. simpl. by rewrite E. }
  assert (∀ p, is_ata_port p → disk_port p = true) as Hd.
  { intros p [H1 H2]. unfold disk_port. by rewrite (proj2 (Z.leb_le _ _)), (proj2 (Z.leb_le _ _)). }
  split; intros; cbn [read_port write_port read_word_port hardware_ports]; rewrite (Hd _ ltac:(eassumption)); apply Ht;
    [by apply read_port_total|by apply write_port_total|by apply read_word_port_total].
Qed.

(** The interrupts as the keyboard needs them; [p] is the first controller at power-on. *)
Definition interrupts_ready (k : kernel_image) (p : pic) (i : irq_state) : Prop :=
  irq_handlers i !! 1 = Some (keyboard_irq_address k) ∧
  (∀ n, 0 ≤ n < 16 → idt_table i !! irq_vector n = Some (irq_gate (irq_stub k) n)) ∧
  let m := pic_after PIC_1_CTRL p (Irq.ports i) in vector_base m = 0x20 ∧ mask m = 0xFD.

(** The gates of the processor's exceptions. *)
Definition exceptions_kept (i i' : irq_state) : Prop :=
  ∀ v, 0 ≤ v < 32 → idt_table i' !! v = idt_table i !! v.

(** The four disks after [ata_init]. *)
Definition disks_known {D} (r : rest D) : Prop :=
  base <$> r_devices r = [0x1F0; 0x1F0; 0x170; 0x170] ∧
  (∀ j d, r_devices r !! j = Some d → is_slave d = Nat.odd j) ∧ ∀ n, r_root r = Some n → (n < 4)%nat.

(** ** The steps of [kmain] *)

Section stages.
Context {D : Type} `{PortIO D}.
Variable k : kernel_image.
Variables pfuel mfuel sfuel kfuel : nat.
Hypothesis pfuel_enough : (50 < pfuel)%nat.
Hypothesis print_buf_length : List.length (print_buf k) = PRINT_BUF_LEN.
Implicit Types (r : rest D) (scr : vga_state bootspace) (K : M (ata_state (hardware D)) unit).

(** Memory. *)
Lemma init_physical_memory_ok info m b e es s h : image_ok k → loader_ok info m b e es s → (length es < mfuel)%nat →
  ks_heap (bs_high s) = h → phys h = physical_memory →
  ∃ s' ph, init_physical_memory k mfuel info s = Ret tt s' ∧ ks_heap (bs_high s') = with_phys ph h ∧
    keeps (λ _, True) s s' ∧ memory_known k es ph.
Proof.
  intros [(B1 & B2 & B3 & B4) _ _ _ _ _] [(I1 & I2 & _) (L & A & GL & GA & Hm & Hr & Hend) _] Hf <- Hph.
  destruct (phy_memory_manager_init_booted (kernel_start k) (kernel_end k) mfuel (bs_low s) A L es) as (ph & E & Hk); [done..|].
  destruct (on_heap_keeps (on_phys (phy_memory_manager_init (kernel_start k) (kernel_end k) mfuel (bs_low s) A L)) s tt
    (with_phys ph (ks_heap (bs_high s)))) as (s' & E' & H' & K').
  { apply on_phys_Ret. by rewrite Hph. }
  { by intros i. }
  exists s', ph. split_and!; [|done|done|done].
  unfold init_physical_memory, mmap_addr, mmap_length. assert (VGA_PHYSICAL_ADDRESS = 0xb8000) by reflexivity. rewrite !u32_small by lia.
  run (rd32_Ret _ _ _ GA). run (rd32_Ret _ _ _ GL). exact E'.
Qed.

(** From the beginning to the kernel heap. *)
Lemma kmain_memory info m b e es r scr h : 
  let s := vga_mem scr in
  screen_ready s h VGA_PHYSICAL_ADDRESS scr → image_ok k → loader_ok info m b e es s → (length es < mfuel)%nat → phys h = physical_memory →
  ∃ scr' ph, screen_ready s (with_phys ph h) VGA_PHYSICAL_ADDRESS scr' ∧ memory_known k es ph ∧ ∀ K,
    (on_system (on_screen vga_flush) ;; log k pfuel "Entered High half kernel" ;;
     log k pfuel "Initializing physical memory manager" ;; on_memory (init_physical_memory k mfuel info) ;; K) (at_screen r scr)
    = K (at_screen r scr').
Proof.
  intros s R0 Himg Hload Hf Hph.
  destruct (flush_printed scr (sr_ok _ _ _ _ R0)) as (scr1 & E1 & P1). pose proof (printed_ready _ _ _ _ _ R0 P1) as R1.
  destruct (log_ok k "Entered High half kernel" s h VGA_PHYSICAL_ADDRESS r scr1 pfuel) as (scr2 & E2 & R2); [done..|].
  destruct (log_ok k "Initializing physical memory manager" s h VGA_PHYSICAL_ADDRESS r scr2 pfuel) as (scr3 & E3 & R3); [done..|].
  pose proof (sr_keeps _ _ _ _ R3) as K3.
  destruct (init_physical_memory_ok info m b e es (vga_mem scr3) h) as (s4 & ph & E4 & H4 & K4 & Hk);
    [done|by eapply loader_ok_keeps; [| |apply off_screens_low]|done|apply R3|done|].
  exists (set_vga_mem s4 scr3), ph. split_and!; [|done|].
  - eapply screen_ready_memory; [done|by intros x; apply keeps_is_Some|done|].
    eapply keeps_trans; [done|]. by eapply keeps_weaken.
  - intros K. run (on_screen_Ret _ r _ _ _ E1). run E2. run E3. by run (on_memory_Ret _ r _ _ _ E4).
Qed.

(** The screen's two pages, in the heap. *)
Lemma vga_init_ok m0 h scr : screen_ready m0 h VGA_PHYSICAL_ADDRESS scr → heap_next h 0 →
  ∃ scr' h', vga_init (boot_map k) scr = Ret tt scr' ∧ screen_ready m0 h' KHEAP_BEGIN_ADDRESS scr' ∧ heap_next h' 2 ∧
    phys h' = phys h ∧ page_directory h' = page_directory h ∧
    ∀ i, table_entry (kheap_page_table h') i = if decide (0 ≤ i < 2) then entry_rw (0xb8 + i) else table_entry (kheap_page_table h) i.
Proof.
  intros R Hn. pose proof R as [[O1 O2 O3 O4 O5] Hb Hp Hh Hk].
  destruct (map_physical_ok (no_return_index k) h 0 2 0xb8) as (h' & E & Hph & Hpd & Hbits & He);
    [apply Hn|apply heap_next_run; [done|lia|lia|lia|reflexivity]|lia|lia|lia|by left|].
  assert (∀ i, table_entry (kheap_page_table h') i
    = if decide (0 ≤ i < 2) then entry_rw (0xb8 + i) else table_entry (kheap_page_table h) i) as He'.
  { intros i. rewrite He. rewrite Z.add_0_l. case_decide; [|done]. by rewrite Z.sub_0_r. }
  destruct (on_heap_keeps (map_physical_address_to_kheap (no_return_index k) (0xb8 * 4096) 2) (vga_mem scr)
    (KHEAP_BEGIN_ADDRESS + 0 * 4096) h') as (s' & E' & Hh' & K'); [by rewrite Hh| |].
  { rewrite Hh. by apply (heap_grows_entries (λ i, 0 ≤ i < 2) (λ i, 0xb8 + i)). }
  exists (VgaState s' KHEAP_BEGIN_ADDRESS (vga_color scr) (vga_x scr) (vga_y scr)), h'. split_and!.
  - assert (zoom vga_mem set_vga_mem (boot_map k VGA_PHYSICAL_ADDRESS 2) scr = Ret KHEAP_BEGIN_ADDRESS (set_vga_mem s' scr)) as Ez.
    { apply (zoom_Ret vga_mem set_vga_mem). exact E'. }
    unfold vga_init. by run Ez.
  - split; [|done|by right|done|].
    + split; [done..| |]; cbn [vga_buffer]; [vm_compute; split; discriminate|].
      intros x Hx. unfold get8, vga_store. cbn [vga_mem]. destruct s' as [low [h2 bytes]]. cbn in Hh'. subst h2.
      apply (mapped_high low (KSpace h' bytes) KHEAP_BEGIN_ADDRESS WRITTEN_BYTES); [|done]. intros y Hy.
      assert (y < KHEAP_BEGIN_ADDRESS + 4096 ∨ KHEAP_BEGIN_ADDRESS + 4096 ≤ y) as [Hy'|Hy'] by lia.
      * apply (ks_heap_page h' bytes 0 0xb8); [lia|by rewrite He'|lia].
      * apply (ks_heap_page h' bytes 1 0xb9); [lia|by rewrite He'|]. unfold WRITTEN_BYTES in Hy. lia.
    + cbn [vga_mem]. eapply keeps_trans; [done|]. by eapply keeps_weaken.
  - by apply (heap_next_used h h' 0 2).
  - done.
  - done.
  - done.
Qed.

(** The segment descriptors, the heap and the screen's new place. *)
Lemma kmain_heap m0 h r scr :
  screen_ready m0 h VGA_PHYSICAL_ADDRESS scr → kheap_wf h → all_clear (kheap_st h) 0 0 (KHEAP_BITMAP_SIZE * 8) →
  ∃ scr' h' g', screen_ready m0 h' KHEAP_BEGIN_ADDRESS scr' ∧ heap_next h' 2 ∧ phys h' = phys h ∧
    (∀ i, table_entry (kheap_page_table h') i = if decide (0 ≤ i < 2) then entry_rw (0xb8 + i) else table_entry (kheap_page_table h) i) ∧
    table_entry (page_directory h') 0x302 = Z.lor (u32 (kheap_page_tables k)) (Z.lor READ_WRITE PRESENT) ∧
    remap_gdt (r_gdt r) = Ret tt g' ∧ ∀ K,
    (log k pfuel "Remaping the GDT, after virtual memory init" ;; on_gdt remap_gdt ;;
     log k pfuel "Initializing kernel heap" ;; on_memory (on_heap (kheap_init (kheap_page_tables k))) ;;
     log k pfuel "Initializing VGA to its virtual memory form" ;; on_system (on_screen (vga_init (boot_map k))) ;; K) (at_screen r scr)
    = K (at_screen (with_gdt g' r) scr').
Proof.
  intros R0 Hwf Hc.
  destruct (log_ok k "Remaping the GDT, after virtual memory init" m0 h VGA_PHYSICAL_ADDRESS r scr pfuel) as (scr1 & E1 & R1); [done..|].
  eassert (remap_gdt (r_gdt r) = Ret tt _) as Eg by reflexivity.
  match type of Eg with _ = Ret tt ?g => set (g' := g) in * end.
  destruct (log_ok k "Initializing kernel heap" m0 h VGA_PHYSICAL_ADDRESS (with_gdt g' r) scr1 pfuel) as (scr2 & E2 & R2); [done..|].
  destruct (kheap_init_ok (kheap_page_tables k) h Hwf Hc) as (h1 & Eh & Hn & Hph & Hpt & Hpd & _).
  destruct (on_heap_keeps (kheap_init (kheap_page_tables k)) (vga_mem scr2) tt h1) as (s3 & E3 & H3 & K3).
  { by rewrite (sr_heap _ _ _ _ R2). }
  { intros i. by rewrite (sr_heap _ _ _ _ R2), Hpt. }
  assert (screen_ready m0 h1 VGA_PHYSICAL_ADDRESS (set_vga_mem s3 scr2)) as R3.
  { eapply screen_ready_memory; [done|by intros x; apply keeps_is_Some|done|].
    eapply keeps_trans; [apply R2|]. by eapply keeps_weaken. }
  destruct (log_ok k "Initializing VGA to its virtual memory form" m0 h1 VGA_PHYSICAL_ADDRESS (with_gdt g' r) _ pfuel
    print_buf_length pfuel_enough eq_refl R3) as (scr4 & E4 & R4).
  destruct (vga_init_ok m0 h1 scr4 R4 Hn) as (scr5 & h2 & E5 & R5 & Hn2 & Hph2 & Hpd2 & He2).
  exists scr5, h2, g'. split_and!; [done|done|congruence|by rewrite <-Hpt|by rewrite Hpd2|done|].
  intros K. run E1. run (on_gdt_Ret _ r scr1 _ _ Eg). run E2. run (on_memory_Ret _ (with_gdt g' r) _ _ _ E3). run E4.
  by run (on_screen_Ret _ (with_gdt g' r) _ _ _ E5).
Qed.

(** Interrupts and disks. *)
Lemma kmain_devices (J : D → Prop) `{!AtaPortsTotal J} p m0 h r scr :
  screen_ready m0 h KHEAP_BEGIN_ADDRESS scr → keyboard_irq_address k ≠ NULL → Irq.ports (r_irq r) = [] → J (r_disks r) →
  r_devices r = replicate 4 zero_ata_device → r_blocks r = replicate 4 zero_block_device → r_root r = None →
  ∃ scr' r', screen_ready m0 h KHEAP_BEGIN_ADDRESS scr' ∧ r_gdt r' = r_gdt r ∧ r_keys r' = r_keys r ∧
    interrupts_ready k p (r_irq r') ∧ J (r_disks r') ∧ disks_known r' ∧ exceptions_kept (r_irq r) (r_irq r') ∧ ∀ K,
    (on_system (kmain_interrupts (null_string k) (print_buf k) pfuel (keyboard_irq_address k) (idt_table_address k) (irq_stub k)) ;;
     log k pfuel "Initializing ATA driver" ;; ata_init ;; K) (at_screen r scr)
    = K (at_screen r' scr').
Proof.
  intros R0 Hka Hp HJ Hd Hb Hr.
  destruct (kmain_interrupts_ok (null_string k) (print_buf k) pfuel (keyboard_irq_address k) (idt_table_address k) (irq_stub k)
    scr (r_irq r) (r_keys r) p) as (scr1 & i1 & E1 & P1 & Hi1 & Hi2 & Ho1 & Hi3); [done|done|apply R0|done|done|].
  pose proof (printed_ready _ _ _ _ _ R0 P1) as R1.
  destruct (log_ok k "Initializing ATA driver" m0 h KHEAP_BEGIN_ADDRESS (with_irq i1 r) scr1 pfuel) as (scr2 & E2 & R2); [done..|].
  set (sys := System scr2 i1 (r_keys r)).
  destruct (ata_init_total (λ h : hardware D, hw_system h = sys ∧ hw_gdt h = r_gdt r ∧ J (hw_disks h)) (at_screen (with_irq i1 r) scr2))
    as ([[sys' g' d'] dev blk root] & E3 & [(M1 & M2 & M3) M4 M5 M6 M7]); [done|by simpl; rewrite Hd|by simpl; rewrite Hb|done|].
  simpl in *. subst sys' g'.
  exists scr2, (Rest i1 (r_keys r) (r_gdt r) d' dev blk root).
  do 5 (split; [done|]). split; [split_and!; [done| |done]|split].
  - intros j d Hj. apply (M5 j d); [|done]. pose proof (f_equal List.length M4) as Hl. rewrite length_fmap in Hl.
    apply lookup_lt_Some in Hj. cbn in Hj, Hl. lia.
  - intros v Hv. apply Ho1. intros n Hn. by apply irq_vector_not_exception.
  - intros K. run (on_system_Ret _ r scr _ _ i1 E1). run E2. by run E3.
Qed.

(** *** The root of the file system *)

(** The mount point: the end of the heap's third page. *)
Definition boot_root : Z := KHEAP_BEGIN_ADDRESS + 2 * 4096 + 8 * (511 - 39).

(** What is not written to by [vfs_init]. *)
Definition vfs_kept (x : Z) : Prop :=
  ¬ free_blocks k ≤ x < free_blocks k + 4 ∧ ¬ mount_points k ≤ x < mount_points k + 4 ∧
  ¬ root_mount_point k ≤ x < root_mount_point k + 4 ∧ ¬ KHEAP_BEGIN_ADDRESS + 2 * 4096 ≤ x < KHEAP_BEGIN_ADDRESS + 3 * 4096.

(** The third page of the heap is taken for [kmalloc]. *)
Lemma boot_malloc s h es q : image_ok k → image_contents k s → ks_heap (bs_high s) = h → heap_next h 2 → memory_known k es (phys h) →
  first_searched_page (kernel_end k) ≤ q < NUM_PAGES → avail (phys h) q = Some true → (0 < kfuel)%nat →
  ∃ s' h' f, al_malloc (Allocator := boot_allocator k kfuel) sizeof_mount_point s = Ret boot_root s' ∧
    ks_heap (bs_high s') = h' ∧ heap_next h' 3 ∧ 0 ≤ f < 2 ^ 20 ∧ avail (phys h) f = Some true ∧
    pages_set false f (f + 1) (phys h) (phys h') ∧
    (∀ i, table_entry (kheap_page_table h') i = if decide (i = 2) then entry_rw f else table_entry (kheap_page_table h) i) ∧
    mapped s' (KHEAP_BEGIN_ADDRESS + 2 * 4096) 4096 ∧ (∀ x, is_Some (get8 s x) → is_Some (get8 s' x)) ∧ keeps vfs_kept s s'.
Proof.
  intros Himg [Hnull _] Hh Hn (Hwf & Hna & _) Hq Hqa Hkf. destruct s as [low [h0 bytes]]. simpl in Hh. subst h0.
  destruct (image_statics k Himg) as [((Hb1 & Hb2) & _) _]. pose proof Himg as [(B1 & B2 & _) _ _ _ _ _].
  destruct (allocate_available (kernel_end k) (phys h) q) as (f & ph & Ep & Hfr & Hfa & Hset); [done|lia|done..|].
  destruct (alloc_kheap_page_ok (no_return_index k) (kernel_end k) h 2 f ph) as (h' & Eh & Hph & _ & Hbits & He & _);
    [apply Hn|by apply heap_next_first|lia|done|done|done|].
  destruct (kernel_kmalloc_first_ok (no_return_index k) (kernel_end k) (free_blocks k) kfuel kfuel (KSpace h bytes) 2 f ph
    sizeof_mount_point) as (h1 & s1 & E1 & _ & Hm1 & Eh1 & St1 & K1); try done.
  { apply Hn. }
  { by apply heap_next_first. }
  { by rewrite get32_high in Hnull. }
  cbn [ks_heap ks_bytes] in *. rewrite Eh in Eh1. injection Eh1 as <-.
  assert (heap_grows h h') as Hg by by apply (heap_grows_entries (λ i, i = 2) (λ _, f)).
  exists (BootSpace low s1), h', f. split_and!.
  - simpl. unfold on_high, zoom. simpl. by rewrite E1.
  - simpl. by rewrite (kspace_stores_heap _ _ St1).
  - by apply (heap_next_used h h' 2 1).
  - apply Hfr.
  - apply Hfr.
  - done.
  - by rewrite Hph.
  - done.
  - by apply mapped_high.
  - intros x Hx. apply (high_stores_mapped low _ _ _ St1). by eapply keeps_is_Some; [apply (keeps_heap low h h' bytes)|].
  - eapply keeps_trans; [eapply keeps_weaken; [by apply (keeps_heap low h h' bytes)|done]|].
    eapply keeps_weaken; [by apply keeps_high, K1|]. unfold vfs_kept. intros x (X1 & _ & _ & X2). split; [done|]. lia.
Qed.

(** The new page in the page table, and its frame. *)
Definition page_taken (f : Z) (h h' : kheap) : Prop :=
  0 ≤ f < 2 ^ 20 ∧ avail (phys h) f = Some true ∧ pages_set false f (f + 1) (phys h) (phys h') ∧
  ∀ i, table_entry (kheap_page_table h') i = if decide (i = 2) then entry_rw f else table_entry (kheap_page_table h) i.

Lemma vfs_init_boot s h es q : image_ok k → image_contents k s → ks_heap (bs_high s) = h → heap_next h 2 → memory_known k es (phys h) →
  first_searched_page (kernel_end k) ≤ q < NUM_PAGES → avail (phys h) q = Some true → (0 < kfuel)%nat →
  ∃ s' h' f, vfs_init (mount_points k) (root_mount_point k) (slash k) (no_return_list k) (H0 := boot_allocator k kfuel) s = Ret tt s' ∧
    ks_heap (bs_high s') = h' ∧ heap_next h' 3 ∧ page_taken f h h' ∧
    fresh_root s' boot_root ∧ get32 s' (root_mount_point k) = Some boot_root ∧
    (∀ x, is_Some (get8 s x) → is_Some (get8 s' x)) ∧ keeps vfs_kept s s'.
Proof.
  intros Himg Hc Hh Hn Hk Hq Hqa Hkf.
  destruct (image_statics k Himg) as [(F1 & F2 & F3 & _ & F5 & _) (A1 & _ & A3 & A4 & _ & A6 & _)].
  pose proof (io_no_return _ Himg) as Hnr. pose proof Hc as [_ Hsl].
  assert (KHEAP_BEGIN_ADDRESS = 0xC0800000) as HB by reflexivity. assert (boot_root = 0xC0802EC0) as HR by reflexivity.
  destruct (boot_malloc s h es q Himg Hc Hh Hn Hk Hq Hqa Hkf) as (s0 & h' & f & E0 & Hh0 & Hn0 & Hf1 & Hf2 & Hf3 & He & Hm & Hs & K0).
  assert (init_setting (mount_points k) (root_mount_point k) (slash k) boot_root s0) as Hset.
  { split; [split_and!; [lia|lia|]| | |unfold apart in *; lia].
    - apply (mapped_sub _ (KHEAP_BEGIN_ADDRESS + 2 * 4096) 4096); [done|lia..].
    - split_and!; [apply static_mapped; lia|apply static_mapped; lia|done].
    - apply (cstr_slash_keeps _ _ _ _ Hsl K0). unfold apart, vfs_kept in *. intros x Hx. split_and!; lia. }
  pose proof (@vfs_init_ok bootspace _ _ (boot_allocator k kfuel) _ _ _ (no_return_list k) s boot_root s0 E0 Hset) as Hv.
  rewrite Hnr in Hv |- *. destruct Hv as (s1 & E1 & Fr & _ & Hroot & St1 & K1).
  exists s1, h', f. split_and!; try done.
  - by rewrite (boot_stores_heap _ _ St1).
  - intros x Hx. by apply (stores_mapped s0), Hs.
  - eapply keeps_trans; [done|]. intros x v (_ & X1 & X2 & X3) Hx. rewrite K1; [done|lia|done|done].
Qed.

(** *** The ramdisk *)

Section ramdisk.
Variable register_ramdisk : Z → Z → M bootspace error_code.
Variables info m b e : Z.

(** The module begins at a page; the number of its pages is one that the
    heap's search can serve behind the first three pages. *)
Definition pages : Z := (e - b) / 4096.
Hypothesis module_ok : 0 < b ∧ b mod 4096 = 0 ∧ b ≤ e < 2 ^ 32 ∧ 1 ≤ pages mod 8 ≤ 4 ∧ 3 + pages ≤ 1024.

(** [register_ramdisk] succeeds, changes no more than what the physical memory
    manager knows, and makes no frame available. *)
Definition registers (register_ramdisk : Z → Z → M bootspace error_code) : Prop := ∀ s, ∃ s' ph,
  register_ramdisk b e s = Ret SUCCESS s' ∧ keeps (λ _, True) s s' ∧ ks_heap (bs_high s') = with_phys ph (ks_heap (bs_high s)) ∧
  ∀ p, avail (phys (ks_heap (bs_high s))) p = Some false → avail ph p = Some false.
Hypothesis register_ok : registers register_ramdisk.

(** The module behind the first three pages of the heap. *)
Definition module_address : Z := KHEAP_BEGIN_ADDRESS + 3 * 4096.
Definition module_mapped (h h' : kheap) : Prop :=
  heap_next h' (3 + pages) ∧ (∀ p, avail (phys h) p = Some false → avail (phys h') p = Some false) ∧
  ∀ i, table_entry (kheap_page_table h') i =
    if decide (3 ≤ i < 3 + pages) then entry_rw (b / 4096 + (i - 3)) else table_entry (kheap_page_table h) i.

Lemma ramdisk_calls h t : heap_next h 3 → ks_heap (bs_high t) = h →
  ∃ s1 s2 h', register_ramdisk b e t = Ret SUCCESS s1 ∧ boot_map k b pages s1 = Ret module_address s2 ∧
    keeps (λ _, True) t s1 ∧ keeps (λ _, True) s1 s2 ∧ ks_heap (bs_high s2) = h' ∧ module_mapped h h'.
Proof.
  intros Hn Ht. destruct module_ok as (Hb & Hal & He & Hp1 & Hp2). unfold pages in *.
  destruct (register_ok t) as (s1 & ph & E1 & K1 & H1 & Hph). rewrite Ht in H1, Hph.
  assert (heap_next (with_phys ph h) 3) as Hn1 by (destruct Hn; by split).
  assert (0 < (e - b) / 4096) by dlia.
  destruct (map_physical_ok (no_return_index k) (with_phys ph h) 3 ((e - b) / 4096) (b / 4096)) as (h' & E & Hph' & _ & Hbits & Hent);
    [apply Hn1|apply heap_next_run; try done; try lia|lia|dlia|dlia|left; dlia|].
  { unfold num_bytes_for. destruct (Z.eqb_spec ((e - b) / 4096 mod 8) 0); dlia. }
  destruct (on_heap_keeps (map_physical_address_to_kheap (no_return_index k) (b / 4096 * 4096) ((e - b) / 4096)) s1
    module_address h') as (s2 & E2 & H2 & K2); [by rewrite H1| |].
  { rewrite H1. by apply (heap_grows_entries (λ i, 3 ≤ i < 3 + (e - b) / 4096) (λ i, b / 4096 + (i - 3))). }
  replace (b / 4096 * 4096) with b in E2 by dlia.
  exists s1, s2, h'. split_and!; try done. split_and!; [|by rewrite Hph'|done]. unfold pages.
  by apply (heap_next_used (with_phys ph h)); [|lia..|].
Qed.

Abbreviation read_address := (initrd_functions k).1.1.
Abbreviation open_address := (initrd_functions k).1.2.
Abbreviation close_address := (initrd_functions k).2.

Lemma ramdisk_setting es s : image_ok k → loader_ok info m b e es s → cstr s (slash k) [47] →
  get32 s (root_mount_point k) = Some boot_root → mapped s (boot_root + 300) 4 →
  boot_setting (initrd_literal k) (slash k) read_address open_address close_address (root_mount_point k)
    info (fs k) m b e boot_root s.
Proof.
  intros Himg Hload Hsl Hroot Hrm. destruct module_ok as (Hb & Hal & He & Hp1 & Hp2).
  destruct (image_statics k Himg) as [(F1 & F2 & F3 & F4 & F5 & F6) (_ & _ & _ & _ & A5 & A6 & A7 & A8)].
  pose proof (io_functions _ Himg) as (Hr & Ho & Hc). pose proof Hload as [(I1 & I2 & I3 & I4) _ (M1 & M2 & M3 & M4)].
  assert (KHEAP_BEGIN_ADDRESS = 0xC0800000) as HB by reflexivity. assert (boot_root = 0xC0802EC0) as HR by reflexivity.
  assert (KERNEL_VIRTUAL_OFFSET = 0xC0000000) as HK by reflexivity. assert (VGA_PHYSICAL_ADDRESS = 0xb8000) as HV by reflexivity.
  split; [split_and!; (done || lia)|split_and!; (done || lia)|split_and!; [lia|lia|apply static_mapped; lia]|
    split_and!; [apply static_mapped; lia|lia|done]|split_and!; (done || lia)|done|].
  unfold apart in *. repeat first [apply Forall_nil_2 | apply Forall_cons_2; [cbn [fst snd]; lia|]].
Qed.

Lemma made_calls_heap h s s' : heap_next h 3 → ks_heap (bs_high s) = h →
  made_calls register_ramdisk (boot_map k) b e module_address s s' →
  module_mapped h (ks_heap (bs_high s')) ∧ ∀ x, is_Some (get8 s x) → is_Some (get8 s' x).
Proof.
  intros Hn Hh (t1 & t2 & t3 & St1 & E1 & E2 & St3).
  destruct (ramdisk_calls h t1 Hn) as (u1 & u2 & h' & R1 & R2 & K1 & K2 & Hu & Hm); [by rewrite (boot_stores_heap _ _ St1)|].
  rewrite R1 in E1. injection E1 as <-. unfold pages in R2. rewrite R2 in E2. injection E2 as <-.
  split; [by rewrite (boot_stores_heap _ _ St3), Hu|]. intros x Hx.
  apply (stores_mapped u2); [done|]. eapply keeps_is_Some; [done|]. eapply keeps_is_Some; [done|]. by apply (stores_mapped s).
Qed.

(** The file system's structure, and the mapping. *)
Lemma make_initrd_boot es s h : image_ok k → loader_ok info m b e es s → cstr s (slash k) [47] → ks_heap (bs_high s) = h → heap_next h 3 →
  get32 s (root_mount_point k) = Some boot_root → mapped s (boot_root + 300) 4 →
  ∃ s1 s' h' g, memset 0 (fs k) sizeof_fs s = Ret tt s1 ∧
    make_initrd_fs register_ramdisk (boot_map k) (initrd_literal k) read_address open_address close_address info (fs k) s1 = Ret tt s' ∧
    ks_heap (bs_high s') = h' ∧ module_mapped h h' ∧ fields s' (fs k) g ∧
    mounted_fields read_address open_address close_address b e module_address g ∧
    (∀ x, is_Some (get8 s x) → is_Some (get8 s' x)) ∧ keeps (λ x, ¬ fs k ≤ x < fs k + 56) s s'.
Proof.
  intros Himg Hload Hsl Hh Hn Hroot Hrm. pose proof (ramdisk_setting es s Himg Hload Hsl Hroot Hrm) as Hset.
  destruct module_ok as (Hb & Hal & He & Hp1 & Hp2).
  destruct (image_statics k Himg) as [(_ & _ & _ & F4 & _ & F6) (_ & _ & _ & _ & _ & _ & _ & A8)].
  pose proof Hset as [(_ & _ & I3 & I4) (_ & _ & M3 & M4 & _) (Hf1 & Hf2 & Hf3) _ _ _ Ha]. rewrite !Forall_cons in Ha.
  unfold apart in A8, Ha. cbn [fst snd] in Ha.
  assert (module_address = 0xC0803000) as HM by reflexivity. 
  destruct (memset_ok s 0 (fs k) 56) as (s1 & E1 & G1); [unfold INT_MAX; lia|done|].
  assert (same_but (fs k) 56 s s1) as S1 by (intros x Hx; rewrite G1, decide_False by lia; done).
  destruct (make_initrd_fs_ok (initrd_literal k) (slash k) read_address open_address close_address (root_mount_point k)
    register_ramdisk (boot_map k) info (fs k) m b e boot_root module_address s)
    with (s0 := s) (s := s1) as (s' & g & E2 & (B2 & _ & B3) & Hg & Hmade); [| |done| | | | |].
  - intros t Ht. destruct (ramdisk_calls h t Hn) as (t1 & t2 & h' & R1 & R2 & R3 & R4 & _).
    { by rewrite (boot_stores_heap _ _ Ht). }
    by exists t1, t2.
  - unfold pages in Hp2. dlia.
  - split_and!; [by apply (fields_cleared s)|by eapply boot_words_same; [done|split_and!|]|by apply (keeps_same_but _ (fs k) 56); [|done]].
  - by eapply memset_stores.
  - intros x Hx. rewrite S1 by lia. apply (static_mapped s (initrd_literal k) 8); lia.
  - rewrite <-I3. apply get32_ext. intros x Hx. apply S1. lia.
  - destruct (made_calls_heap h s s' Hn Hh Hmade) as [Hm Hs]. exists s1, s', (ks_heap (bs_high s')), g. by split_and!.
Qed.

(** The ramdisk is mounted at the root. *)
Record root_mounted (s : bootspace) : Prop := {
  rm_root : get32 s (root_mount_point k) = Some boot_root ∧ cstr s boot_root [47];
  rm_fs : get32 s (boot_root + 300) = Some (fs k);
  rm_size : get32 s (fs k + 24) = Some (e - b);
  rm_part : get32 s (fs k + 28) = Some module_address ∧ get32 s (fs k + 32) = Some (module_address + pages * 4096);
  rm_functions : get32 s (fs k + 36) = Some read_address ∧ get32 s (fs k + 44) = Some open_address ∧
    get32 s (fs k + 48) = Some close_address
}.

Lemma boot_root_off_screens x : boot_root ≤ x < boot_root + 312 → off_screens x.
Proof.
  clear pfuel_enough print_buf_length.
  assert (boot_root = KHEAP_BEGIN_ADDRESS + 11968) as -> by reflexivity. unfold off_screens, WRITTEN_BYTES.
  assert (VGA_PHYSICAL_ADDRESS + 4162 ≤ KHEAP_BEGIN_ADDRESS) by (vm_compute; discriminate). lia.
Qed.

Lemma root_mounted_keeps s s' : image_ok k → root_mounted s → keeps off_screens s s' → root_mounted s'.
Proof.
  clear pfuel_enough print_buf_length.
  intros Himg [[H1 H2] H3 H4 [H5 H6] (H7 & H8 & H9)] K. destruct (image_statics k Himg) as [(_ & _ & F3 & F4 & _) _].
  assert (∀ a v, KERNEL_VIRTUAL_OFFSET ≤ a → a + 4 ≤ KHEAP_BEGIN_ADDRESS → get32 s a = Some v → get32 s' a = Some v) as Hw.
  { intros a v Ha Ha'. apply (keeps_get32 _ _ _ _ _ K). intros x Hx. apply off_screens_static. lia. }
  split; [split| | |split|split_and!]; try (by apply Hw; [lia|lia|]).
  - apply (cstr_slash_keeps _ _ _ _ H2 K). intros x Hx. apply boot_root_off_screens. lia.
  - apply (keeps_get32 _ _ _ _ _ K); [|done]. intros x Hx. apply boot_root_off_screens. lia.
Qed.

(** [vfs_mount] at the root. *)
Lemma vfs_mount_boot s g old : image_ok k → (1 < sfuel)%nat → cstr s (slash k) [47] →
  get32 s (root_mount_point k) = Some boot_root → cstr s boot_root [47] → get32 s (boot_root + 300) = Some old →
  fields s (fs k) g → mounted_fields read_address open_address close_address b e module_address g →
  ∃ s', vfs_mount (root_mount_point k) (slash k) sfuel (slash k) (fs k) s = Ret (Some SUCCESS) s' ∧ root_mounted s' ∧
    stores s s'.
Proof.
  intros Himg Hf Hsl Hr1 Hr2 Hr3 (G1 & G2 & _ & G) (G6 & G7 & G8 & G9 & G11 & G12).
  destruct (image_statics k Himg) as [(_ & _ & F3 & F4 & F5 & _) _]. pose proof (io_functions _ Himg) as (Hr & Ho & Hc).
  assert (KHEAP_BEGIN_ADDRESS = 0xC0800000) as HB by reflexivity. assert (boot_root = 0xC0802EC0) as HR by reflexivity.
  assert (KERNEL_VIRTUAL_OFFSET = 0xC0000000) as HK by reflexivity.
  pose proof (vfs_mount_spec (root_mount_point k) (slash k) sfuel s (slash k) [47] (fs k) boot_root old G1 G2 ltac:(lia)
    ltac:(lia) ltac:(lia) Hsl Hsl ltac:(simpl; lia) Hr1 Hr3 (g 9) (g 11) (g 12) (G 9 ltac:(lia)) (G 11 ltac:(lia))
    (G 12 ltac:(lia))) as HM.
  rewrite decide_True in HM by done. rewrite decide_True in HM by (unfold NULL; lia). destruct HM as (s' & E & R & S & St).
  exists s'. split_and!; [done| |done].
  assert (∀ a v, a + 4 ≤ KHEAP_BEGIN_ADDRESS → get32 s a = Some v → get32 s' a = Some v) as Hw.
  { intros a v Ha <-. apply get32_ext. intros x Hx. apply S. lia. }
  split; [split| | |split|split_and!]; [apply Hw; [lia|done]| |done|..].
  - apply (cstr_ext s); [done|]. intros x Hx. simpl in Hx. apply S. lia.
  - rewrite <-G6. apply Hw; [lia|]. by apply (G 6).
  - rewrite <-G7. apply Hw; [lia|]. by apply (G 7).
  - unfold pages. rewrite <-G8. apply Hw; [lia|]. by apply (G 8).
  - rewrite <-G9. apply Hw; [lia|]. by apply (G 9).
  - rewrite <-G11. apply Hw; [lia|]. by apply (G 11).
  - rewrite <-G12. apply Hw; [lia|]. by apply (G 12).
Qed.

(** Before the mount. *)
Definition to_mount (g : Z → Z) (s : bootspace) : Prop :=
  cstr s (slash k) [47] ∧ get32 s (root_mount_point k) = Some boot_root ∧ cstr s boot_root [47] ∧
  get32 s (boot_root + 300) = Some NULL ∧ fields s (fs k) g ∧
  mounted_fields read_address open_address close_address b e module_address g.

Lemma to_mount_keeps g s s' : image_ok k → to_mount g s → keeps off_screens s s' → to_mount g s'.
Proof.
  clear pfuel_enough print_buf_length.
  intros Himg (H1 & H2 & H3 & H4 & (G1 & G2 & G3 & G4) & H6) K.
  destruct (image_statics k Himg) as [(_ & _ & F3 & F4 & F5 & _) _].
  unfold to_mount, fields. split_and!; try done.
  - apply (cstr_slash_keeps _ _ _ _ H1 K). intros x Hx. apply off_screens_static. lia.
  - apply (keeps_get32 _ _ _ _ _ K); [|done]. intros x Hx. apply off_screens_static. lia.
  - apply (cstr_slash_keeps _ _ _ _ H3 K). intros x Hx. apply boot_root_off_screens. lia.
  - apply (keeps_get32 _ _ _ _ _ K); [|done]. intros x Hx. apply boot_root_off_screens. lia.
  - apply (keeps_mapped _ _ _ _ _ K); [|done]. intros x Hx. apply off_screens_static. lia.
  - intros j Hj. apply (keeps_get32 _ _ _ _ _ K); [|by apply G4]. intros x Hx. apply off_screens_static. lia.
Qed.

(** The root of the file system, and the file system. *)
Lemma kmain_ramdisk es q m0 h r scr : image_ok k → (0 < kfuel)%nat →
  screen_ready m0 h KHEAP_BEGIN_ADDRESS scr → image_contents k m0 → loader_ok info m b e es m0 → heap_next h 2 →
  memory_known k es (phys h) → first_searched_page (kernel_end k) ≤ q < NUM_PAGES → avail (phys h) q = Some true →
  ∃ scr' m1 h1 h2 f g, screen_ready m1 h2 KHEAP_BEGIN_ADDRESS scr' ∧ to_mount g m1 ∧ page_taken f h h1 ∧ module_mapped h1 h2 ∧ ∀ K,
    (log k pfuel "Initializing Virtual file system" ;;
     on_memory (vfs_init (mount_points k) (root_mount_point k) (slash k) (no_return_list k) (H0 := boot_allocator k kfuel)) ;;
     on_memory (memset 0 (fs k) sizeof_fs) ;;
     on_memory (make_initrd_fs register_ramdisk (boot_map k) (initrd_literal k) read_address open_address close_address info (fs k)) ;;
     K) (at_screen r scr)
    = K (at_screen r scr').
Proof.
  intros Himg Hkf R0 Hcon Hload Hn Hk Hq Hqa.
  destruct (image_statics k Himg) as [(F1 & F2 & F3 & F4 & F5 & F6) (A1 & _ & _ & A4 & A5 & A6 & A7 & _)].
  destruct (log_ok k "Initializing Virtual file system" m0 h KHEAP_BEGIN_ADDRESS r scr pfuel) as (scr1 & E1 & R1); [done..|].
  pose proof (sr_keeps _ _ _ _ R1) as K1. pose proof (image_contents_keeps _ _ _ Himg Hcon K1) as Hcon1.
  destruct (vfs_init_boot (vga_mem scr1) h es q Himg Hcon1 (sr_heap _ _ _ _ R1) Hn Hk Hq Hqa Hkf)
    as (s2 & h1 & f & E2 & H2 & Hn2 & Ht & (Fr1 & Fr2 & _) & Hroot & M2 & K2).
  assert (KHEAP_BEGIN_ADDRESS = 0xC0800000) as HB by reflexivity. assert (boot_root = 0xC0802EC0) as HR by reflexivity.
  assert (KERNEL_VIRTUAL_OFFSET = 0xC0000000) as HK by reflexivity. assert (VGA_PHYSICAL_ADDRESS = 0xb8000) as HV by reflexivity.
  assert (cstr s2 (slash k) [47]) as Hsl2.
  { apply (cstr_slash_keeps _ _ _ _ (proj2 Hcon1) K2). unfold apart, vfs_kept in *. intros x Hx. split_and!; lia. }
  assert (loader_ok info m b e es s2) as Hload2.
  { eapply loader_ok_keeps; [by eapply loader_ok_keeps; [| |apply off_screens_low]|done|].
    unfold vfs_kept. intros x Hx. split_and!; lia. }
  destruct (make_initrd_boot es s2 h1 Himg Hload2 Hsl2 H2 Hn2 Hroot (get32_mapped _ _ _ Fr2))
    as (s3 & s4 & h2 & g & E3 & E4 & H4 & Hmod & G & Hg & M4 & K4).
  exists (set_vga_mem s4 scr1), s4, h1, h2, f, g. unfold to_mount. split_and!; try done.
  - eapply screen_ready_memory; [exact R1|by intros x Hx; apply M4, M2|done|apply keeps_refl].
  - apply (cstr_slash_keeps _ _ _ _ Hsl2 K4). unfold apart in *. intros x Hx. lia.
  - apply (keeps_get32 _ _ _ _ _ K4); [|done]. unfold apart in *. intros x Hx. lia.
  - apply (cstr_slash_keeps _ _ _ _ Fr1 K4). intros x Hx. lia.
  - apply (keeps_get32 _ _ _ _ _ K4); [|done]. intros x Hx. lia.
  - intros K. run E1. run (on_memory_Ret _ r scr1 _ _ E2).
    run (on_memory_Ret _ r (set_vga_mem s2 scr1) _ _ E3). by run (on_memory_Ret _ r (set_vga_mem s3 scr1) _ _ E4).
Qed.

(** The mount. *)
Lemma kmain_mounts g m0 h r scr : image_ok k → (1 < sfuel)%nat → screen_ready m0 h KHEAP_BEGIN_ADDRESS scr → to_mount g m0 →
  ∃ scr' m1, screen_ready m1 h KHEAP_BEGIN_ADDRESS scr' ∧ root_mounted m1 ∧ ∀ K,
    (log k pfuel "Mounting initrd at /" ;;
     r ← on_memory (vfs_mount (root_mount_point k) (slash k) sfuel (slash k) (fs k));
     (if negb (bool_decide (r = Some SUCCESS)) then mpanic else mret tt) ;; K) (at_screen r scr)
    = K (at_screen r scr').
Proof.
  intros Himg Hsf R0 Hto.
  destruct (log_ok k "Mounting initrd at /" m0 h KHEAP_BEGIN_ADDRESS r scr pfuel) as (scr1 & E1 & R1); [done..|].
  destruct (to_mount_keeps _ _ _ Himg Hto (sr_keeps _ _ _ _ R1)) as (T1 & T2 & T3 & T4 & T5 & T6).
  destruct (vfs_mount_boot (vga_mem scr1) g NULL) as (s2 & E2 & Hm & St); [done..|].
  exists (set_vga_mem s2 scr1), s2. split_and!; [|done|].
  - eapply screen_ready_memory; [exact R1|by intros x Hx; apply (stores_mapped (vga_mem scr1))| |apply keeps_refl].
    rewrite (boot_stores_heap _ _ St). apply R1.
  - intros K. run E1. run (on_memory_Ret _ r scr1 _ _ E2). by rewrite bool_decide_eq_true_2.
Qed.
End ramdisk.

(** The system calls and user mode. *)
Lemma kmain_user m0 h r scr : image_ok k → screen_ready m0 h KHEAP_BEGIN_ADDRESS scr → List.length (gdt (r_gdt r)) = 6%nat →
  ∃ scr' g g', screen_ready m0 h KHEAP_BEGIN_ADDRESS scr' ∧
    routes_to (Some g) (interrupt_80 k) ∧ gate_ring (Some g) = Some 3 ∧ userspace_init (task_state_address k) (r_gdt r) = Ret tt g' ∧
    (log k pfuel "Initializing system-calls" ;;
     on_system (system_calls_init (null_string k) (print_buf k) pfuel (interrupt_80 k)) ;;
     log k pfuel "Initializing userspace" ;; on_gdt (userspace_init (task_state_address k))) (at_screen r scr)
    = Ret tt (at_screen (with_gdt g' (with_irq (IrqState (<[0x80 := g]> (idt_table (r_irq r))) (idt_limit (r_irq r))
        (idt_base (r_irq r)) (irq_handlers (r_irq r)) (Irq.ports (r_irq r))) r)) scr').
Proof.
  intros Himg R0 Hgdt.
  destruct (log_ok k "Initializing system-calls" m0 h KHEAP_BEGIN_ADDRESS r scr pfuel) as (scr1 & E1 & R1); [done..|].
  destruct (system_calls_init_ok (null_string k) (print_buf k) pfuel (interrupt_80 k) scr1 (r_irq r) (r_keys r))
    as (scr2 & g & E2 & P2 & Hg & Hr); [done|done|apply R1|apply Himg|].
  pose proof (printed_ready _ _ _ _ _ R1 P2) as R2.
  match type of E2 with _ = Ret tt (System _ ?i _) => set (i2 := i) in * end.
  destruct (log_ok k "Initializing userspace" m0 h KHEAP_BEGIN_ADDRESS (with_irq i2 r) _ pfuel print_buf_length pfuel_enough eq_refl R2)
    as (scr3 & E3 & R3).
  assert (∃ g', userspace_init (task_state_address k) (r_gdt r) = Ret tt g') as [g' E4].
  { destruct (r_gdt r) as [es ptr tss]. cbn [gdt] in Hgdt. do 7 (destruct es as [|? es]; try done). by eexists. }
  exists scr3, g, g'. split_and!; [done..|]. run E1. run (on_system_Ret _ r scr1 _ _ i2 E2). run E3.
  by rewrite (on_gdt_Ret _ (with_irq i2 r) scr3 tt g').
Qed.
End stages.

(** ** The whole boot *)

Section boot.
Context {D : Type} `{PortIO D} (J : D → Prop) `{!AtaPortsTotal J}.
Variable k : kernel_image.
Variable register_ramdisk : Z → Z → M bootspace error_code.
Variables pfuel mfuel sfuel kfuel : nat.
Variables info m b e : Z.
Variable es : list multiboot_memory_map.
Implicit Types (r : rest D) (scr : vga_state bootspace).

(** A frame of memory that the memory map has and the boot does not keep back. *)
Definition usable (p : Z) : Prop := Exists (region_has p) es ∧ ¬ boot_reserved (kernel_start k) (kernel_end k) p.

(** The machine as the boot code leaves it. *)
Record boot_ready r scr : Prop := {
  br_image : image_ok k ∧ image_contents k (vga_mem scr);
  br_loader : loader_ok info m b e es (vga_mem scr);
  br_memory : ∃ q, first_searched_page (kernel_end k) ≤ q < NUM_PAGES ∧ usable q;
  br_module : 0 < b ∧ b mod 4096 = 0 ∧ b ≤ e < 2 ^ 32 ∧ 1 ≤ pages b e mod 8 ≤ 4 ∧ 3 + pages b e ≤ 1024;
  br_register : registers b e register_ramdisk;
  br_screen : screen_ok scr ∧ vga_buffer scr = VGA_PHYSICAL_ADDRESS;
  br_heap : ∃ pgd, ks_heap (bs_high (vga_mem scr)) = boot_heap pgd;
  br_devices : Irq.ports (r_irq r) = [] ∧ List.length (gdt (r_gdt r)) = 6%nat ∧
    r_devices r = replicate 4 zero_ata_device ∧ r_blocks r = replicate 4 zero_block_device ∧ r_root r = None ∧ J (r_disks r);
  br_fuel : (50 < pfuel)%nat ∧ (List.length es < mfuel)%nat ∧ (1 < sfuel)%nat ∧ (0 < kfuel)%nat
}.

(** The pages of the heap: the screen, a usable frame [f] for [kmalloc], the module. *)
Definition heap_booted (f : Z) (h : kheap) : Prop :=
  heap_next h (3 + pages b e) ∧ usable f ∧ avail (phys h) f = Some false ∧
  ∀ i, table_entry (kheap_page_table h) i =
    if decide (0 ≤ i < 2) then entry_rw (0xb8 + i) else if decide (i = 2) then entry_rw f
    else if decide (3 ≤ i < 3 + pages b e) then entry_rw (b / 4096 + (i - 3)) else 0.

(** The machine when [kmain] halts; [p] is the first interrupt controller at power-on. *)
Record booted (p : pic) r r' scr' : Prop := {
  bd_screen : screen_ok scr' ∧ vga_buffer scr' = KHEAP_BEGIN_ADDRESS;
  bd_heap : ∃ f, heap_booted f (ks_heap (bs_high (vga_mem scr')));
  bd_root : root_mounted k b e (vga_mem scr');
  bd_interrupts : interrupts_ready k p (r_irq r') ∧ r_keys r' = r_keys r;
  bd_exceptions : exceptions_kept (r_irq r) (r_irq r');
  bd_system_calls : routes_to (idt_table (r_irq r') !! 0x80) (interrupt_80 k) ∧ gate_ring (idt_table (r_irq r') !! 0x80) = Some 3;
  bd_segments : ∃ g, remap_gdt (r_gdt r) = Ret tt g ∧ userspace_init (task_state_address k) g = Ret tt (r_gdt r');
  bd_disks : disks_known r' ∧ J (r_disks r')
}.

Lemma heap_booted_ok f h0 h1 h2 h3 : memory_known k es (phys h0) →
  (∀ i, table_entry (kheap_page_table h0) i = 0) → phys h1 = phys h0 →
  (∀ i, table_entry (kheap_page_table h1) i = if decide (0 ≤ i < 2) then entry_rw (0xb8 + i) else table_entry (kheap_page_table h0) i) →
  page_taken f h1 h2 → module_mapped b e h2 h3 → heap_booted f h3.
Proof.
  intros (_ & _ & Hk) He0 Hp1 He1 (Hf & Hfa & (_ & Hs) & He2) (Hn & Ha & He3). rewrite Hp1 in Hfa. split_and!.
  - done.
  - apply Hk; [rewrite NUM_PAGES_eq; lia|done].
  - apply Ha. by rewrite Hs, decide_True by lia.
  - intros i. rewrite He3, He2, He1, He0. repeat case_decide; done || lia.
Qed.

Lemma kmain_ok p r scr : boot_ready r scr →
  ∃ scr' r', kmain k register_ramdisk pfuel mfuel sfuel kfuel info (at_screen r scr) = Ret tt (at_screen r' scr') ∧ booted p r r' scr'.
Proof.
  intros [(Himg & Hcon) Hload (q & Hq & Hqu) Hmod Hreg (Hok & Hb) (pgd & Hh) (Hp & Hg & Hd & Hbl & Hroot & HJ) (Hf1 & Hf2 & Hf3 & Hf4)].
  pose proof (io_print _ Himg) as Hbuf.
  set (m0 := vga_mem scr) in *.
  assert (screen_ready m0 (boot_heap pgd) VGA_PHYSICAL_ADDRESS scr) as R0 by (split; [done|done|by left|done|apply keeps_refl]).
  destruct (kmain_memory k pfuel mfuel Hf1 Hbuf info m b e es r scr (boot_heap pgd) R0 Himg Hload Hf2 eq_refl)
    as (scr1 & ph & R1 & Hk & E1).
  destruct (kmain_heap k pfuel Hf1 Hbuf m0 _ r scr1 R1) as (scr2 & h2 & g2 & R2 & Hn2 & Hph2 & He2 & _ & Hg2 & E2); [done| |].
  { apply (empty_carray_clear KHEAP_BITMAP_SIZE KHEAP_BITMAP_SIZE). lia. }
  destruct (kmain_devices k pfuel Hf1 Hbuf J p m0 h2 (with_gdt g2 r) scr2 R2)
    as (scr3 & r3 & R3 & Hr3g & Hr3k & Hi3 & HJ3 & Hd3 & Hx3 & E3); [apply Himg|done..|].
  destruct (proj2 (proj2 Hk) q) as [_ Hqa]; [rewrite NUM_PAGES_eq in *; unfold first_searched_page, first_searched_byte, PAGE_SIZE in *;
    pose proof (io_bounds _ Himg); dlia|]. specialize (Hqa Hqu).
  assert (memory_known k es (phys h2)) as Hk2 by by rewrite Hph2.
  destruct (kmain_ramdisk k pfuel kfuel Hf1 Hbuf register_ramdisk info m b e Hmod Hreg es q m0 h2 r3 scr3)
    as (scr4 & m4 & h4 & h5 & f & g & R4 & Hto & Ht & Hm & E4); [done..|by rewrite Hph2|].
  destruct (kmain_mounts k pfuel sfuel Hf1 Hbuf b e g m4 h5 r3 scr4 Himg Hf3 R4 Hto) as (scr5 & m5 & R5 & Hmt & E5).
  destruct (kmain_user k pfuel Hf1 Hbuf m5 h5 r3 scr5 Himg R5) as (scr6 & g6 & g' & R6 & Hrt & Hring & Hus & E6).
  { rewrite Hr3g. unfold remap_gdt, mmodify in Hg2. by injection Hg2 as <-. }
  eexists scr6, _. split.
  - unfold kmain. rewrite E1, E2, E3, E4, E5. exact E6.
  - destruct Hi3 as (I1 & I2 & I3). split.
    + split; apply R6.
    + exists f. rewrite (sr_heap _ _ _ _ R6). by apply (heap_booted_ok f (with_phys ph (boot_heap pgd)) h2 h4 h5).
    + eapply root_mounted_keeps; [done|done|apply R6].
    + split; [|done]. split; [done|]. split; [|done]. intros n Hn. cbn [r_irq with_gdt with_irq idt_table].
      rewrite lookup_insert_ne by (unfold irq_vector; case_match; lia). by apply I2.
    + intros v Hv. cbn [r_irq with_gdt with_irq idt_table]. rewrite lookup_insert_ne by lia. by apply Hx3.
    + cbn [r_irq with_gdt with_irq idt_table]. by rewrite lookup_insert_eq.
    + exists g2. by rewrite Hr3g in Hus.
    + done.
Qed.


(** C9. Every key typed is shown in the end.  On a machine that is ready to
    boot, whatever scan codes are in the keyboard's queue - but for the
    backspace key's - the boot comes to its end, and with one interrupt for
    each code after it the queue is empty, the screen shows the characters of
    the pressed keys in their order and the interrupt controller has had its
    acknowledgements; what was mounted stays mounted. *)
Theorem boot_and_type r scr : boot_ready r scr → Forall (λ c, 0 ≤ c < 256 ∧ c ≠ 14) (r_keys r) →
  ∃ scr' r' scr'' r'', kmain k register_ramdisk pfuel mfuel sfuel kfuel info (at_screen r scr) = Ret tt (at_screen r' scr') ∧
    repeated (List.length (r_keys r)) (on_system (key_interrupt (null_string k) (print_buf k) pfuel (keyboard_irq_address k)))
      (at_screen r' scr') = Ret tt (at_screen r'' scr'') ∧
    r_keys r'' = [] ∧ shown (typed (r_keys r)) scr' scr'' ∧
    Irq.ports (r_irq r'') = Irq.ports (r_irq r') ++ replicate (List.length (r_keys r)) (MASTER_PIC_CMD, PIC_ACK) ∧
    root_mounted k b e (vga_mem scr'').
Proof.
  intros Hr Hks. destruct (kmain_ok example_pic r scr Hr) as (scr' & r' & E & [(Hok & Hbuf) _ Hroot ((Hh & _) & Hkeys) _ _ _ _]).
  pose proof Hr as [(Himg & _) _ _ _ _ _ _ _ (Hf & _)]. rewrite <-Hkeys in Hks |- *.
  destruct (key_interrupts_ok (null_string k) (print_buf k) pfuel (keyboard_irq_address k) scr' (r_irq r') (r_keys r'))
    as (scr'' & i'' & E2 & Sh & _ & _ & Hack); [apply Himg|lia|done|done|done|apply Himg|].
  exists scr', r', scr'', (with_keys [] (with_irq i'' r')). split_and!; [done|by apply on_system_repeated|done|done|done|].
  assert (screen_ready (vga_mem scr') (ks_heap (bs_high (vga_mem scr'))) KHEAP_BEGIN_ADDRESS scr') as R'
    by (split; [done|done|by right|done|apply keeps_refl]).
  eapply root_mounted_keeps; [done|done|]. apply (sr_keeps _ _ _ _ (printed_ready _ _ _ _ _ R' (shown_printed _ _ _ Sh))).
Qed.

(** C40. No exception is handled.  The descriptor table being empty at the start,
    on the booted machine - even if [exceptions_init] were called at the end -
    whatever exception the processor raises, its delivery ends after three
    attempts at most, enters no handler and comes to the processor's shutdown. *)
Theorem exceptions_unhandled r scr : boot_ready r scr → no_handlers (r_irq r) →
  ∃ scr' r', (kmain k register_ramdisk pfuel mfuel sfuel kfuel info ;; exceptions_init) (at_screen r scr) = Ret tt (at_screen r' scr') ∧
    ∀ v n d, 0 ≤ v < 32 → nsteps (deliver (r_irq r')) n (Raised v) d →
      (n ≤ 3)%nat ∧ (∀ g, d ≠ Entered g) ∧ rtc (deliver (r_irq r')) d Shutdown.
Proof.
  intros Hr Hn. destruct (kmain_ok example_pic r scr Hr) as (scr' & r' & E & [_ _ _ _ Hx _ _ _]).
  exists scr', r'. split; [by run E|]. intros v n d. apply no_handlers_delivery.
  intros w Hw. rewrite Hx by done. by apply Hn.
Qed.
End boot.

(** ** Witnesses *)

(** The boot loader's information at 0x1000: one module of one page, from
    0x120000 to 0x121000, described at 0x1034; a memory map at 0x103C with one
    region of 4 MB from 0x100000 on, followed by what reads as empty regions. *)
Definition example_loader : list Z :=
  replicate 20 0 ++ [1; 0; 0; 0; 0x34; 0x10; 0; 0] ++ replicate 16 0 ++ [24; 0; 0; 0; 0x3C; 0x10; 0; 0] ++
  [0; 0; 0x12; 0; 0; 0x10; 0x12; 0] ++ [20; 0; 0; 0; 0; 0; 0x10; 0; 0; 0; 0; 0; 0; 0; 0x40; 0; 0; 0; 0; 0; 1; 0; 0; 0] ++
  concat (replicate 23 ([20; 0; 0; 0] ++ replicate 20 0)).

Definition example_regions : list multiboot_memory_map :=
  MultibootMemoryMap 20 0x100000 0x400000 1 :: replicate 23 (MultibootMemoryMap 20 0 0 0).

Definition example_low : vmem :=
  VMem (put_bytes 0x1000 example_loader (map_seqZ VGA_PHYSICAL_ADDRESS (replicate 4162 0))).

Definition example_image : kernel_image := {|
  kernel_start := 0x100000; kernel_end := 0x110000; kheap_page_tables := 0x10A000;
  free_blocks := 0xC0108000; mount_points := 0xC0108010; root_mount_point := 0xC0108020;
  slash := 0xC0107000; initrd_literal := 0xC0107010; fs := 0xC0109000;
  initrd_functions := (0xC0101000, 0xC0102000, 0xC0103000);
  idt_table_address := 0xC010B000; irq_stub := λ n, 0xC0104000 + 16 * n; keyboard_irq_address := 0xC0105000;
  interrupt_80 := 0xC0106000; task_state_address := 0xC010C000; null_string := 0;
  print_buf := example_print_buf; no_return_index := example_no_return; no_return_list := true
|}.

Definition example_memory : bootspace :=
  BootSpace example_low (KSpace (boot_heap ∅) {[0xC0107000 := 47]}).

Definition example_boot_screen : vga_state bootspace := VgaState example_memory VGA_PHYSICAL_ADDRESS VGA_DEFAULT_COLOR 0 0.

(** The keys h and i, pressed and released, are in the keyboard's queue. *)
Definition example_rest : rest unit :=
  Rest (IrqState ∅ 0 0 ∅ []) [35; 163; 23; 151] (GdtState (replicate 6 zero_gdt_entry) (GdtPtr 47 0x109000) (TssStruct 0 0)) tt
    (replicate 4 zero_ata_device) (replicate 4 zero_block_device) None.

Definition example_register_ramdisk (b e : Z) : M bootspace error_code := mret SUCCESS.

#[local] Instance quiet_bus_total : AtaPortsTotal (Hports := bus 0 0) (λ _ : unit, True).
Proof. split; intros; intros s _; by do 2 eexists. Qed.

Lemma example_text_buffer_mapped a : VGA_PHYSICAL_ADDRESS ≤ a < VGA_PHYSICAL_ADDRESS + WRITTEN_BYTES → is_Some (get8 example_memory a).
Proof.
  intros Ha. assert (forallb (λ a, bool_decide (is_Some (get8 example_memory a))) (seqZ VGA_PHYSICAL_ADDRESS WRITTEN_BYTES) = true) as Hall
    by (vm_compute; reflexivity).
  rewrite forallb_forall in Hall. apply (bool_decide_eq_true_1 _), Hall. apply list_elem_of_In, elem_of_seqZ. lia.
Qed.

Lemma example_loader_ok : loader_ok 0x1000 0x1034 0x120000 0x121000 example_regions example_memory.
Proof.
  split.
  - split_and!; [lia|vm_compute; discriminate|vm_compute; reflexivity|vm_compute; reflexivity].
  - exists 24, 0x103C. split_and!; [vm_compute; reflexivity|vm_compute; reflexivity| | |vm_compute; discriminate].
    + unfold example_regions. cbn [replicate memory_map]. repeat (split; [vm_compute; reflexivity|]). vm_compute. discriminate.
    + apply Forall_cons_2; [right; simpl; lia|]. apply Forall_replicate. left. discriminate.
  - split_and!; [lia|vm_compute; discriminate|vm_compute; reflexivity|vm_compute; reflexivity].
Qed.

Lemma example_boot_ready :
  boot_ready (λ _ : unit, True) example_image example_register_ramdisk 51 25 2 1 0x1000 0x1034 0x120000 0x121000 example_regions
    example_rest example_boot_screen.
Proof.
  split.
  - split.
    + split; [vm_compute; repeat split; discriminate| | | |reflexivity|reflexivity].
      * split; [repeat (apply Forall_cons_2; [vm_compute; split; discriminate|]); apply Forall_nil_2|].
        unfold statics. cbn [separate]. unfold apart. repeat split; repeat (apply Forall_cons_2; [cbn; lia|]); apply Forall_nil_2.
      * cbn. lia.
      * cbn. unfold NULL. lia.
    + split; [vm_compute; reflexivity|]. cbn [cstr]. repeat split; vm_compute; (reflexivity || discriminate).
  - exact example_loader_ok.
  - exists 0x110. split; [vm_compute; split; [discriminate|reflexivity]|]. split.
    + left. split; [reflexivity|]. unfold page_inside. simpl. lia.
    + unfold boot_reserved. simpl. change (0x100000 / 4096) with 0x100. change (0x110000 / 4096) with 0x110. lia.
  - split_and!; vm_compute; (reflexivity || discriminate).
  - intros s. exists s, (phys (ks_heap (bs_high s))). split_and!; [reflexivity|apply keeps_refl| |done].
    by destruct (ks_heap (bs_high s)).
  - split; [|reflexivity]. split; cbn; [lia|lia|unfold VGA_DEFAULT_COLOR, COLOR_LIGHT_GREY; lia|vm_compute; split; discriminate|].
    intros a Ha. by apply example_text_buffer_mapped.
  - exists ∅. reflexivity.
  - by split_and!.
  - simpl. lia.
Qed.


Lemma boot_and_type_witness :
  ∃ scr' r' scr'' r'', kmain (H := bus 0 0) example_image example_register_ramdisk 51 25 2 1 0x1000 (at_screen example_rest example_boot_screen)
      = Ret tt (at_screen r' scr') ∧
    repeated 4 (on_system (key_interrupt 0 example_print_buf 51 0xC0105000)) (at_screen r' scr') = Ret tt (at_screen r'' scr'') ∧
    shown [104; 105] scr' scr''.
Proof.
  destruct (boot_and_type (H := bus 0 0) (λ _ : unit, True) example_image example_register_ramdisk 51 25 2 1 0x1000 0x1034 0x120000 0x121000
    example_regions example_rest example_boot_screen) as (scr' & r' & scr'' & r'' & E1 & E2 & _ & Sh & _).
  - exact example_boot_ready.
  - repeat constructor; lia.
  - exists scr', r', scr'', r''. split; [exact E1|]. split; [exact E2|exact Sh].
Defined.

Lemma exceptions_unhandled_witness :
  ∃ scr' r', (kmain (H := bus 0 0) example_image example_register_ramdisk 51 25 2 1 0x1000 ;; exceptions_init)
      (at_screen example_rest example_boot_screen) = Ret tt (at_screen r' scr') ∧
    rtc (deliver (r_irq r')) (Raised PAGE_FAULT) Shutdown.
Proof.
  destruct (exceptions_unhandled (H := bus 0 0) (λ _ : unit, True) example_image example_register_ramdisk 51 25 2 1 0x1000 0x1034 0x120000 0x121000
    example_regions example_rest example_boot_screen) as (scr' & r' & E & Hx).
  - exact example_boot_ready.
  - intros v _. reflexivity.
  - exists scr', r'. split; [exact E|].
    exact (proj2 (proj2 (Hx PAGE_FAULT 0%nat _ ltac:(unfold PAGE_FAULT; lia) (nsteps_O _ _)))).
Defined.
